(* ===== verification/_CoqProject ===== *)
-Q . S2P
Prelude.v
Errors.v
Untrusted.v
Der.v
Samples.v
Time.v
GeneralName.v
X509.v
SignedData.v
RingAlgs.v
Cert.v
Crl.v
TrustAnchor.v
DnsName.v
IpAddress.v
SubjectName.v
VerifyName.v
VerifyCert.v
SignatureLimit.v
Path.v
EndEntity.v
Revocation.v
Formatting.v
Testing.v
DerTests.v
NameTests.v
Recorded.v
TestData.v
CertTests.v
CrlTests.v
VerifyCertTests.v
SignedTestData.v
RingAlgsTests.v
IntegrationData.v
ClientAuthTests.v
TlsServerCertsTests.v
ClientAuthRevocationTests.v
ApiTests.v
IntegrationTests.v
