(* ===== verification/Prelude.v ===== *)
(** * A verification development for rustls-webpki (X.509 path validation)

    The crate decides whether an end-entity certificate, given trust anchors,
    intermediate certificates, a time, a key usage and optional revocation
    lists, has a valid certification path, and whether the certificate is valid
    for a DNS name or an IP address.  Everything it reads is DER from the
    network.  The development is a shallow embedding of all of its code: a
    definition per function, with the guards, the order and the errors of the
    source, executable on concrete inputs, and theorems that say what the
    functions compute in terms of declarative definitions: encodings, syntax
    stated on labels, bits of addresses, certification paths.

    ** The program and the files

    The parts are listed from the bottom up; a file requires the ones above it.

    - [Prelude]: outcomes, bytes, UTF-8, machine arithmetic, list lemmas.
    - [Errors] (src/error.rs): the error type and its ranking.
    - [Untrusted]: the untrusted crate as a parameter, the state monad of the
      parsers, their denotation on bytes and its laws.
    - [Der] (src/der.rs): tags, tag-length-value, nesting, bit strings, integers,
      booleans, the iterator over a sequence of values.
    - [Samples]: small DER messages at which the theorems are instantiated.
    - [Time] (src/time.rs): UTCTime and GeneralizedTime, the calendar.
    - [GeneralName] (part of src/subject_name/verify.rs): the names in extensions.
    - [X509] (src/x509.rs): extensions, distribution point names.
    - [SignedData], [RingAlgs] (src/signed_data.rs, src/ring_algs.rs): signed data,
      the choice of an algorithm, the algorithm identifiers.
    - [Cert] (src/cert.rs): certificates.  A certificate refers to the one it
      was considered as the issuer of ([EndEntityOrCa::Ca]), down to the end
      entity: the type is a mutual inductive type, and a chain is a value of it.
    - [Crl] (src/crl.rs): revocation lists behind the trait [CertRevocationList],
      which is a type class; the borrowed list, parsed on each lookup, and the
      owned one, a map; issuing distribution points.
    - [TrustAnchor] (src/trust_anchor.rs): trust anchors from certificates.
    - [DnsName], [IpAddress], [SubjectName], [VerifyName] (src/subject_name/):
      names, their syntax and matching, the iterator over the names of a
      certificate, name constraints.
    - [VerifyCert] (src/verify_cert.rs): the checks on one certificate, revocation,
      the signatures down a chain, the search for a path.
    - [SignatureLimit]: which computations report the limit on signature checks.
    - [Path]: certification paths as a relation, and the search as its decision.
    - [EndEntity] (src/end_entity.rs): the public operations, and the theorems
      about path validation as a whole.
    - [Revocation]: path validation against the interfaces of signature
      algorithms and revocation lists: owned lists in place of borrowed ones.
    - [Formatting]: the texts of errors and of references to names.
    - [Testing], [TestData], [SignedTestData] and [DerTests], [NameTests],
      [CertTests], [CrlTests], [VerifyCertTests], [RingAlgsTests]: the unit tests
      of the crate ([mod tests] of its files), on the files they include.
    - [Recorded]: the answers of the ring crate on given signatures, and path
      validation with a ring that looks them up.
    - [IntegrationData] and [ClientAuthTests], [TlsServerCertsTests],
      [ClientAuthRevocationTests], [ApiTests], [IntegrationTests]: the tests of
      the public interface (src/tests/).

    ** Conventions

    A [Result<A, E>] is an [outcome E A], with [Panic] for an unwinding panic: a
    failed [assert!], [unwrap], [expect] or [unreachable!], an index out of
    range, and an overflow of integer arithmetic, which is checked.  A
    [&mut Reader] is threaded by a state monad; other mutable state (the counter
    of signature checks, the certificate being filled by its extensions, an
    iterator shared by several loops) is passed explicitly.  An
    [untrusted::Input] and a [&[u8]] are lists of bytes, a [&str] the list of the
    bytes of its UTF-8 text, integers are [Z] with their range where it matters.

    Code outside of src/ is a parameter: the [untrusted] crate is the class
    [Untrusted] with its documented laws [UntrustedLaws] (an instance, the reader
    of a list, shows them satisfiable), a signature algorithm is a record of
    its identifiers and its verdict, the ring crate is the class [Ring], and a
    revocation list implemented outside of the crate satisfies the contract
    [CrlLaws]: [find_serial] returns, and its errors and those of
    [verify_signature] are not the limit of the search.  Both lists of the crate
    are proved to satisfy it.

    ** Loops and recursion

    A loop over a reader or an iterator is bounded by the number of bytes left
    ([loop_fuel]): each turn reads at least one byte.  [OutOfFuel] marks the
    end of the fuel and the theorems prove that it is not reached.  The
    recursion of [build_chain_inner] is bounded by [MAX_PATH], eight calls: the
    end entity, and CA certificates with 0 to 6 below them, of which the last
    is refused by the code.  The search through a list of candidates, the loops
    down a chain and over the supported algorithms are structural.

    ** What the theorems show

    - Path validation (C1 to C8, C19; [EndEntity], [Path], [Revocation],
      [VerifyCert]): it accepts only end entities with a certification path,
      finds a path when there is one within the budget of 100 signature checks,
      and returns.  Chains are linked, free of repetitions and of bounded
      length.  The revocation check is characterised, a revoked certificate is
      rejected, and owned lists can be passed in place of the borrowed ones they were
      made from.  The loop over candidates returns the first success or fatal
      result, else the most specific error.
    - Names (C9, C10, C12 to C14, C21 to C25, C35): the syntax of DNS names and
      the matching of labels, the texts of addresses and the matching of their
      bits, verification for a subject name, and name constraints.
    - The checks on one certificate (C11, C28, C29).
    - Revocation lists (C16 to C18, C20, C34, C39): parsing, lookup, the owned list as
      a refinement of the borrowed one, authority for a certificate.
    - Parsing (C15, C26, C30 to C33, C36 to C38): each parser accepts exactly the
      encodings of its values, always returns, and does not overflow.
    - Signatures (C27, C40): which algorithm decides, and which algorithm of ring
      the crate's own algorithms ask, for which keys and signature schemes.

    A witness [X_witness] applies the theorem [X] to concrete inputs.

    ** Conformance with the tests

    The unit tests of the crate are translated as terms: a test is a computation
    that panics when an assertion fails, over the reader of a list, and
    [X_passes] says that the model passes the test [X].  They are the authors'
    own account of what the functions return, on tables of names and addresses
    and on the certificates and lists of src/tests/.  Most are evaluated; that
    of the size limits follows from the lemmas on reading a value, with the
    tests' encoder of lengths proved equal to the reference encoder.  A test of
    ring_algs.rs passes for every instance of [Ring], or exactly when ring's
    verdict on its signature is the expected one, which says what the test
    relies on.

    The tests of the public interface verify chains of real signatures.  Each
    passes for every instance of [Ring] that gives the answers named in its
    lemma: which signature verifies, or not, under the key of which certificate.
    Such a ring is exchanged, by the lemma [build_chain_same] of [Revocation], for
    one that looks the answers up, and the test is evaluated.  The
    answers are hypotheses about ring, and can hold ([recorded_agrees]).

    ** What the modelling showed

    A flag string without octets makes [bit_string_flags] panic (C30): the key
    usage of an issuer (C28), the reasons of a distribution point of a
    certificate, or those of a revocation list (C16).  No other panic can be
    reached from the bytes of certificates and lists: path validation panics only
    with such flags (C3, C6).  The size limits are exclusive (C26).  The limit
    on signature checks is not fatal when the loop over the anchors reports it
    ([exhausted_budget_replaced] in [EndEntity]).  URI names are ignored by name
    constraints, although other unsupported forms are rejected (C9).  A
    wildcard name conforms to a constraint that is an instance of it (C13).  Only
    the first distribution point of a certificate and the first URI of a list are
    compared (C20).  A serial number listed twice is found first in a borrowed
    list and last in an owned one (C17).  Two comments are stale: on wildcard
    labels (dns_name.rs, C14) and on version 1 certificates (trust_anchor.rs, C33).

    ** What is not modelled

    Derived [Debug] implementations other than those of the errors, the module
    roots and re-exports (src/lib.rs, src/subject_name/mod.rs), and the lifetimes
    of borrowed data.  The unit test [test_too_many_signatures] generates its
    certificates with the rcgen crate: [too_many_signatures] is its scenario with
    the certificates of [Samples].  Of src/tests/: the BetterTLS suite, which is
    read with third-party crates; the tests of signatures.rs that only ask ring
    for a verdict; the test [wpt], whose chain of long certificates takes minutes
    to evaluate; [time_constructor], which reads the clock.  The benchmarks.
    Memory limits: an allocation never fails. *)
From Stdlib Require Export ZArith Lia.
From Stdlib Require Export Strings.Byte.
From stdpp Require Export base decidable countable list.

#[export] Set Warnings "-clear-no-such-hyp".
#[global] Open Scope Z_scope.
#[global] Generalizable All Variables.

(** ** Outcomes

    A Rust function that returns [Result<A, E>] is a term of type
    [outcome E A].  [Panic] is an unwinding panic (a failed [assert!], an
    out-of-range index, an arithmetic overflow under overflow checks);
    [OutOfFuel] is the artefact of bounding a loop and is proved unreachable
    for every loop of the development. *)
Inductive outcome (E A : Type) : Type :=
  | Ok (a : A)
  | Err (e : E)
  | Panic
  | OutOfFuel.
Arguments Ok {E A} a.
Arguments Err {E A} e.
Arguments Panic {E A}.
Arguments OutOfFuel {E A}.

Definition obind {E A B} (m : outcome E A) (f : A -> outcome E B) : outcome E B :=
  match m with
  | Ok a => f a
  | Err e => Err e
  | Panic => Panic
  | OutOfFuel => OutOfFuel
  end.

Definition map_err {E E' A} (f : E -> E') (m : outcome E A) : outcome E' A :=
  match m with
  | Ok a => Ok a
  | Err e => Err (f e)
  | Panic => Panic
  | OutOfFuel => OutOfFuel
  end.

Declare Scope webpki_scope.
Delimit Scope webpki_scope with webpki.
#[global] Open Scope webpki_scope.

(** The [?] operator on outcomes. *)
Notation "'let?' x ':=' m 'in' k" := (obind m (fun x => k))
  (at level 10, x pattern, m at level 100, k at level 200) : webpki_scope.

(** How a computation may end: with a value or an error, with a panic under the
    condition [panics], and never by exhausting its fuel. *)
Definition ends {E A} (panics : Prop) (m : outcome E A) : Prop :=
  match m with
  | Ok _ | Err _ => True
  | Panic => panics
  | OutOfFuel => False
  end.
(** The outcome is a value or an error. *)
Abbreviation returns := (ends False).
(** The outcome is not an artefact of bounding a loop. *)
Abbreviation fuelled := (ends True).

Definition is_ok {E A} (m : outcome E A) : bool :=
  match m with Ok _ => true | _ => false end.

Lemma obind_ok {E A B} (m : outcome E A) (f : A -> outcome E B) b :
  obind m f = Ok b <-> exists a, m = Ok a /\ f a = Ok b.
Proof.
  destruct m; simpl; split;
    [by exists a | by intros (? & [= ->] & ?) | done
    | by intros (? & ? & ?) | done | by intros (? & ? & ?) | done | by intros (? & ? & ?)].
Qed.

Lemma ends_obind {E A B} panics (m : outcome E A) (f : A -> outcome E B) :
  ends panics m -> (forall a, m = Ok a -> ends panics (f a)) -> ends panics (obind m f).
Proof. destruct m; simpl; naive_solver. Qed.

Lemma ends_mono {E A} panics (m : outcome E A) : returns m -> ends panics m.
Proof. by destruct m. Qed.

Lemma ends_weaken {E A} (P Q : Prop) (m : outcome E A) : (P -> Q) -> ends P m -> ends Q m.
Proof. intros H. destruct m; simpl; auto. Qed.

Lemma ends_map_err {E E' A} panics (f : E -> E') (m : outcome E A) :
  ends panics (map_err f m) <-> ends panics m.
Proof. by destruct m. Qed.

(** ** Bytes

    [u8] is the type of bytes; arithmetic and bit operations go through [Z]. *)
Abbreviation u8 := Byte.byte.

Definition u8_to_Z (b : u8) : Z := Z.of_N (Byte.to_N b).
Definition u8_of_Z (z : Z) : u8 :=
  match Byte.of_N (Z.to_N (z mod 256)) with Some b => b | None => x00 end.

#[global] Instance u8_eq_dec : EqDecision u8 := Byte.byte_eq_dec.
#[global] Instance u8_inhabited : Inhabited u8 := populate x00.
#[global] Instance u8_countable : Countable u8 :=
  inj_countable Byte.to_N Byte.of_N Byte.of_to_N.

Definition u8_eqb (a b : u8) : bool := Byte.eqb a b.
Definition u8_and (a b : u8) : u8 := u8_of_Z (Z.land (u8_to_Z a) (u8_to_Z b)).
Definition u8_or (a b : u8) : u8 := u8_of_Z (Z.lor (u8_to_Z a) (u8_to_Z b)).
Definition u8_xor (a b : u8) : u8 := u8_of_Z (Z.lxor (u8_to_Z a) (u8_to_Z b)).
Definition u8_not (a : u8) : u8 := u8_of_Z (Z.lxor (u8_to_Z a) 255).

(** [lo..=hi] as a pattern on bytes. *)
Definition u8_in (lo hi b : u8) : bool :=
  (u8_to_Z lo <=? u8_to_Z b) && (u8_to_Z b <=? u8_to_Z hi).

(** Slice equality, the [PartialEq] of [&[u8]] and of [untrusted::Input]. *)
Definition bytes_eqb (a b : list u8) : bool := bool_decide (a = b).

Lemma u8_to_Z_range b : 0 <= u8_to_Z b < 256.
Proof. destruct b; vm_compute; split; congruence. Qed.

Lemma u8_of_to_Z b : u8_of_Z (u8_to_Z b) = b.
Proof. by destruct b. Qed.

Lemma u8_to_of_Z z : 0 <= z < 256 -> u8_to_Z (u8_of_Z z) = z.
Proof.
  intros Hz. unfold u8_of_Z, u8_to_Z. rewrite Z.mod_small by done.
  destruct (Byte.of_N (Z.to_N z)) as [b|] eqn:E.
  - apply Byte.to_of_N in E. lia.
  - apply Byte.of_N_None_iff in E. lia.
Qed.

Lemma u8_to_Z_inj a b : u8_to_Z a = u8_to_Z b -> a = b.
Proof. intros H. by rewrite <- (u8_of_to_Z a), H, u8_of_to_Z. Qed.

Lemma u8_eqb_eq a b : u8_eqb a b = true <-> a = b.
Proof.
  unfold u8_eqb. split.
  - destruct (Byte.eqb a b) eqn:E; [|done]. intros _. by apply Byte.byte_dec_bl.
  - intros ->. by apply Byte.byte_dec_lb.
Qed.

Lemma u8_eqb_refl a : u8_eqb a a = true.
Proof. by apply u8_eqb_eq. Qed.

Lemma u8_eqb_neq a b : u8_eqb a b = false <-> a <> b.
Proof. rewrite <- u8_eqb_eq. by destruct (u8_eqb a b). Qed.

Lemma u8_eqb_Z a b : u8_eqb a b = (u8_to_Z a =? u8_to_Z b).
Proof.
  apply eq_bool_prop_intro. rewrite !Is_true_true, u8_eqb_eq, Z.eqb_eq.
  split; [by intros -> | apply u8_to_Z_inj].
Qed.

Lemma bytes_eqb_eq a b : bytes_eqb a b = true <-> a = b.
Proof. apply bool_decide_eq_true. Qed.

Lemma bytes_eqb_refl a : bytes_eqb a a = true.
Proof. by apply bytes_eqb_eq. Qed.

Lemma bytes_eqb_neq a b : bytes_eqb a b = false <-> a <> b.
Proof. apply bool_decide_eq_false. Qed.

Lemma lor_shiftl a b k : 0 <= k -> 0 <= b < 2 ^ k ->
  Z.lor (Z.shiftl a k) b = a * 2 ^ k + b.
Proof.
  intros Hk Hb. rewrite <- (Z.shiftl_mul_pow2 a k) by done.
  symmetry. apply Z.add_nocarry_lor, Z.bits_inj'. intros n Hn.
  rewrite Z.land_spec, Z.bits_0, Z.shiftl_spec by done.
  destruct (Z.lt_ge_cases n k).
  - by rewrite (Z.testbit_neg_r a) by lia.
  - rewrite <- (Z.mod_small b (2 ^ k)) by done.
    rewrite Z.mod_pow2_bits_high by lia. by rewrite andb_false_r.
Qed.

Lemma u8_of_Z_eq x b : x = u8_to_Z b -> u8_of_Z x = b.
Proof. intros ->. apply u8_of_to_Z. Qed.

(** Big-endian combination of octets, as the bit operations of the source. *)
Lemma combine2 a b :
  Z.lor (Z.shiftl (u8_to_Z a) 8) (u8_to_Z b) = u8_to_Z a * 256 + u8_to_Z b.
Proof. apply (lor_shiftl _ _ 8); [done|apply u8_to_Z_range]. Qed.

Lemma combine3 a b c :
  Z.lor (Z.lor (Z.shiftl (u8_to_Z a) 16) (Z.shiftl (u8_to_Z b) 8)) (u8_to_Z c)
  = u8_to_Z a * 65536 + u8_to_Z b * 256 + u8_to_Z c.
Proof.
  rewrite <- Z.lor_assoc, combine2, (lor_shiftl _ _ 16) by
    (pose proof (u8_to_Z_range b); pose proof (u8_to_Z_range c); lia). lia.
Qed.

Lemma combine4 a b c d :
  Z.lor (Z.lor (Z.lor (Z.shiftl (u8_to_Z a) 24) (Z.shiftl (u8_to_Z b) 16))
               (Z.shiftl (u8_to_Z c) 8)) (u8_to_Z d)
  = u8_to_Z a * 16777216 + u8_to_Z b * 65536 + u8_to_Z c * 256 + u8_to_Z d.
Proof.
  rewrite <- !Z.lor_assoc, combine2, (lor_shiftl _ _ 16), (lor_shiftl _ _ 24) by
    (pose proof (u8_to_Z_range b); pose proof (u8_to_Z_range c);
     pose proof (u8_to_Z_range d); lia). lia.
Qed.

(** [sub] is a part of [l]. *)
Definition occurs_in {A} (sub l : list A) : Prop := exists before after, l = before ++ sub ++ after.

Lemma occurs_in_refl {A} (l : list A) : occurs_in l l.
Proof. exists [], []. by rewrite app_nil_r. Qed.

Lemma occurs_in_app_l {A} (sub l l' : list A) : occurs_in sub l -> occurs_in sub (l ++ l').
Proof. intros (b & a & ->). exists b, (a ++ l'). by rewrite !app_assoc. Qed.

Lemma occurs_in_app_r {A} (sub l l' : list A) : occurs_in sub l' -> occurs_in sub (l ++ l').
Proof. intros (b & a & ->). exists (l ++ b), a. by rewrite !app_assoc. Qed.

(** ** Strings

    A [str] is represented by its bytes, which are valid UTF-8: the validity
    test of [core::str::from_utf8]. *)
Definition continuation (b : u8) : bool := u8_in x80 xbf b.

Fixpoint utf8_valid (l : list u8) : bool :=
  match l with
  | [] => true
  | a :: l =>
    if u8_in x00 x7f a then utf8_valid l
    else
      match l with
      | [] => false
      | b :: l =>
        if u8_in xc2 xdf a then continuation b && utf8_valid l
        else
          match l with
          | [] => false
          | c :: l =>
            if u8_in xe0 xef a then
              (if u8_eqb a xe0 then u8_in xa0 xbf b
               else if u8_eqb a xed then u8_in x80 x9f b else continuation b)
              && continuation c && utf8_valid l
            else
              match l with
              | [] => false
              | d :: l =>
                u8_in xf0 xf4 a
                && (if u8_eqb a xf0 then u8_in x90 xbf b
                    else if u8_eqb a xf4 then u8_in x80 x8f b else continuation b)
                && continuation c && continuation d && utf8_valid l
              end
          end
      end
  end.

Definition from_utf8 (l : list u8) : option (list u8) := if utf8_valid l then Some l else None.

(** ASCII is UTF-8. *)
Lemma utf8_valid_ascii l : Forall (fun b => u8_in x00 x7f b = true) l -> utf8_valid l = true.
Proof. induction 1 as [|b l Hb _ IH]; simpl; [done|]. by rewrite Hb. Qed.

(** ** Machine arithmetic

    [u64] arithmetic as the source writes it, an overflow being a panic (the
    debug profile).  Where a computation is proved not to panic, wrapping
    arithmetic (the release profile) computes the same value. *)
Definition u64_add {E} (a b : Z) : outcome E Z :=
  if a + b <? 2 ^ 64 then Ok (a + b) else Panic.
Definition u64_sub {E} (a b : Z) : outcome E Z :=
  if b <=? a then Ok (a - b) else Panic.
Definition u64_mul {E} (a b : Z) : outcome E Z :=
  if a * b <? 2 ^ 64 then Ok (a * b) else Panic.

Lemma u64_add_ok {E} a b : a + b < 2 ^ 64 -> u64_add (E := E) a b = Ok (a + b).
Proof. intros. unfold u64_add. by rewrite (proj2 (Z.ltb_lt _ _)). Qed.
Lemma u64_sub_ok {E} a b : b <= a -> u64_sub (E := E) a b = Ok (a - b).
Proof. intros. unfold u64_sub. by rewrite (proj2 (Z.leb_le _ _)). Qed.
Lemma u64_mul_ok {E} a b : a * b < 2 ^ 64 -> u64_mul (E := E) a b = Ok (a * b).
Proof. intros. unfold u64_mul. by rewrite (proj2 (Z.ltb_lt _ _)). Qed.

Definition u32_add {E} (a b : Z) : outcome E Z :=
  if a + b <? 2 ^ 32 then Ok (a + b) else Panic.
Definition u32_mul {E} (a b : Z) : outcome E Z :=
  if a * b <? 2 ^ 32 then Ok (a * b) else Panic.

Lemma u32_add_ok {E} a b : a + b < 2 ^ 32 -> u32_add (E := E) a b = Ok (a + b).
Proof. intros. unfold u32_add. by rewrite (proj2 (Z.ltb_lt _ _)). Qed.
Lemma u32_mul_ok {E} a b : a * b < 2 ^ 32 -> u32_mul (E := E) a b = Ok (a * b).
Proof. intros. unfold u32_mul. by rewrite (proj2 (Z.ltb_lt _ _)). Qed.

(** [TryInto::<u8>::try_into(v).expect(..)]. *)
Definition u8_try_into {E} (v : Z) : outcome E u8 :=
  if (0 <=? v) && (v <=? 255) then Ok (u8_of_Z v) else Panic.

(** [array[index] = v], an index out of range being a panic. *)
Definition array_set {E A} (array : list A) (index : nat) (v : A) : outcome E (list A) :=
  if (index <? length array)%nat then Ok (<[index := v]> array) else Panic.

(** [.unwrap()] and [.expect(..)] of an option or a result. *)
Definition unwrap {E A} (o : option A) : outcome E A :=
  match o with Some a => Ok a | None => Panic end.

(** The ranges of the bytes of the goal and of the hypotheses. *)
Ltac u8_range b :=
  is_var b;
  lazymatch goal with
  | H : 0 <= u8_to_Z b < 256 |- _ => fail
  | _ => pose proof (u8_to_Z_range b)
  end.
Ltac u8_ranges :=
  repeat match goal with
  | |- context [u8_to_Z ?b] => u8_range b
  | H : context [u8_to_Z ?b] |- _ => u8_range b
  end.

(** [lia] with division and modulus. *)
Ltac lia_div := Z.div_mod_to_equations; lia.

(** Decide the condition of an [if] of the goal. *)
Ltac split_if :=
  match goal with
  | |- context [if ?c then _ else _] => let E := fresh "E" in destruct c eqn:E
  end.

#[global] Arguments u8_to_Z : simpl never.
#[global] Arguments u8_of_Z : simpl never.
#[global] Arguments u8_eqb : simpl never.
#[global] Arguments bytes_eqb : simpl never.
