(* ===== verification/Errors.v ===== *)
(** * [src/error.rs]: the error type and its ranking *)
From S2P Require Import Prelude.

(** [DerTypeId], the names of the DER types an error can mention. *)
Inductive DerTypeId : Type :=
  | BitStringId
  | BoolId
  | CertificateId
  | CertificateExtensionsId
  | CertificateTbsCertificateId
  | CertRevocationListId
  | CertRevocationListExtensionId
  | CrlDistributionPointId
  | CommonNameInnerId
  | CommonNameOuterId
  | DistributionPointNameId
  | ExtensionId
  | GeneralNameId
  | RevocationReasonId
  | SignatureId
  | SignatureAlgorithmId
  | SignedDataId
  | SubjectPublicKeyInfoId
  | TimeId
  | TrustAnchorV1Id
  | TrustAnchorV1TbsCertificateId
  | U8Id
  | RevokedCertificateId
  | RevokedCertificateExtensionId
  | RevokedCertEntryId
  | IssuingDistributionPointId.

#[global] Instance DerTypeId_eq_dec : EqDecision DerTypeId.
Proof. solve_decision. Defined.

(** [enum Error]. *)
Inductive Error : Type :=
  | BadDer
  | BadDerTime
  | CaUsedAsEndEntity
  | CertExpired
  | CertNotValidForName
  | CertNotValidYet
  | CertRevoked
  | EndEntityUsedAsCa
  | ExtensionValueInvalid
  | InvalidCertValidity
  | InvalidCrlNumber
  | InvalidNetworkMaskConstraint
  | InvalidSerialNumber
  | InvalidCrlSignatureForPublicKey
  | InvalidSignatureForPublicKey
  | IssuerNotCrlSigner
  | MalformedDnsIdentifier
  | MalformedExtensions
  | MalformedNameConstraint
  | MaximumSignatureChecksExceeded
  | NameConstraintViolation
  | PathLenConstraintViolated
  | RequiredEkuNotFound
  | SignatureAlgorithmMismatch
  | TrailingData (t : DerTypeId)
  | UnknownIssuer
  | UnknownRevocationStatus
  | UnsupportedCertVersion
  | UnsupportedCriticalExtension
  | UnsupportedCrlIssuingDistributionPoint
  | UnsupportedCrlVersion
  | UnsupportedDeltaCrl
  | UnsupportedIndirectCrl
  | UnsupportedRevocationReason
  | UnsupportedRevocationReasonsPartitioning
  | UnsupportedCrlSignatureAlgorithm
  | UnsupportedSignatureAlgorithm
  | UnsupportedCrlSignatureAlgorithmForPublicKey
  | UnsupportedSignatureAlgorithmForPublicKey.

#[global] Instance Error_eq_dec : EqDecision Error.
Proof. solve_decision. Defined.

(** [Error::rank]: how specific an error is. *)
Definition rank (e : Error) : Z :=
  match e with
  | CertNotValidYet | CertExpired => 29
  | CertNotValidForName => 28
  | CertRevoked | UnknownRevocationStatus => 27
  | InvalidCrlSignatureForPublicKey | InvalidSignatureForPublicKey => 26
  | SignatureAlgorithmMismatch => 25
  | RequiredEkuNotFound => 24
  | NameConstraintViolation => 23
  | PathLenConstraintViolated => 22
  | CaUsedAsEndEntity | EndEntityUsedAsCa => 21
  | IssuerNotCrlSigner => 20
  | InvalidCertValidity => 19
  | InvalidNetworkMaskConstraint => 18
  | InvalidSerialNumber => 17
  | InvalidCrlNumber => 16
  | UnsupportedCrlSignatureAlgorithmForPublicKey
  | UnsupportedSignatureAlgorithmForPublicKey => 15
  | UnsupportedCrlSignatureAlgorithm | UnsupportedSignatureAlgorithm => 14
  | UnsupportedCriticalExtension => 13
  | UnsupportedCertVersion => 13
  | UnsupportedCrlVersion => 12
  | UnsupportedDeltaCrl => 11
  | UnsupportedIndirectCrl => 10
  | UnsupportedRevocationReason => 9
  | UnsupportedRevocationReasonsPartitioning => 8
  | UnsupportedCrlIssuingDistributionPoint => 7
  | MalformedDnsIdentifier => 6
  | MalformedNameConstraint => 5
  | MalformedExtensions | TrailingData _ => 4
  | ExtensionValueInvalid => 3
  | BadDerTime => 2
  | BadDer => 1
  | MaximumSignatureChecksExceeded => 0
  | UnknownIssuer => 0
  end.

(** [Error::most_specific]. *)
Definition most_specific (self new : Error) : Error :=
  if rank new <=? rank self then self else new.

(** [impl From<untrusted::EndOfInput> for Error]. *)
Definition from_end_of_input : Error := BadDer.

(** ** Lemmas *)
Lemma rank_nonneg e : 0 <= rank e.
Proof. by destruct e. Qed.

Lemma rank_most_specific e e' :
  rank (most_specific e e') = Z.max (rank e) (rank e').
Proof. unfold most_specific. destruct (Z.leb_spec (rank e') (rank e)); cbv iota; lia. Qed.

Lemma most_specific_choice e e' :
  most_specific e e' = e \/ most_specific e e' = e'.
Proof. unfold most_specific. case_match; auto. Qed.

Lemma most_specific_assoc e1 e2 e3 :
  most_specific (most_specific e1 e2) e3 = most_specific e1 (most_specific e2 e3).
Proof.
  unfold most_specific.
  repeat match goal with
         | |- context [rank ?a <=? rank ?b] =>
             is_var a; is_var b; destruct (Z.leb_spec (rank a) (rank b)); cbv iota
         end; done || lia.
Qed.
