(* ===== verification/Untrusted.v ===== *)
(** * The [untrusted] crate as a parameter, and parsers over it

    [untrusted] is a third-party dependency: its [Reader] is not defined here.
    The class [Untrusted] lists the operations the sources of webpki call, the
    class [UntrustedLaws] what the crate documents about them, in terms of the
    bytes that are left to read.  An [untrusted::Input] wraps a [&[u8]] and is
    represented by those bytes.

    The second half is the state monad in which the parsers of the other files
    are written, and the denotation [den] of a parser on bytes: a parser built
    from the operations of the class is [Lawful], that is, its result depends
    on nothing but the bytes left, which makes reasoning equational. *)
From S2P Require Import Prelude Errors.

Abbreviation Input := (list u8).

(** ** The interface *)
Class Untrusted := {
  Reader : Type;
  reader_new : Input -> Reader;
  at_end : Reader -> bool;
  peek : Reader -> u8 -> bool;
  (* [None] is [Err(EndOfInput)] *)
  read_byte : Reader -> option u8 * Reader;
  read_bytes : Reader -> N -> option Input * Reader;
  read_bytes_to_end : Reader -> Input * Reader;
  skip : Reader -> N -> option unit * Reader;
  skip_to_end : Reader -> Reader;
  read_partial : forall {E A : Type},
    (Reader -> outcome E A * Reader) -> Reader -> outcome E (Input * A) * Reader;
  read_all : forall {E A : Type},
    Input -> E -> (Reader -> outcome E A * Reader) -> outcome E A;
  read_all_optional : forall {E A : Type},
    option Input -> E -> (option Reader -> outcome E A * option Reader) -> outcome E A;
}.

(** The bytes that are left to read. *)
Definition remaining {U : Untrusted} (r : Reader) : Input := fst (read_bytes_to_end r).

(** [read_all] returns the closure's value only if the closure consumed the input. *)
Definition complete {U : Untrusted} {E A} (incomplete_read : E)
    (result : outcome E A * Reader) : outcome E A :=
  match fst result with
  | Ok a => if at_end (snd result) then Ok a else Err incomplete_read
  | other => other
  end.

Class UntrustedLaws (U : Untrusted) : Prop := {
  remaining_new i : remaining (reader_new i) = i;
  at_end_spec r : at_end r = match remaining r with [] => true | _ => false end;
  peek_spec r b :
    peek r b = match remaining r with [] => false | c :: _ => u8_eqb c b end;
  read_byte_spec r :
    fst (read_byte r) = head (remaining r) /\
    remaining (snd (read_byte r)) = tail (remaining r);
  read_bytes_spec r n :
    if (n <=? N.of_nat (length (remaining r)))%N
    then fst (read_bytes r n) = Some (take (N.to_nat n) (remaining r)) /\
         remaining (snd (read_bytes r n)) = drop (N.to_nat n) (remaining r)
    else fst (read_bytes r n) = None /\
         remaining (snd (read_bytes r n)) = remaining r;
  read_bytes_to_end_spec r : remaining (snd (read_bytes_to_end r)) = [];
  skip_spec r n :
    fst (skip r n) = (fun _ => tt) <$> fst (read_bytes r n) /\
    remaining (snd (skip r n)) = remaining (snd (read_bytes r n));
  skip_to_end_spec r : remaining (skip_to_end r) = [];
  read_partial_spec {E A} (f : Reader -> outcome E A * Reader) r consumed :
    remaining r = consumed ++ remaining (snd (f r)) ->
    read_partial f r = (let? a := fst (f r) in Ok (consumed, a), snd (f r));
  read_all_spec {E A} i (e : E) (f : Reader -> outcome E A * Reader) :
    read_all i e f = complete e (f (reader_new i));
  read_all_optional_none {E A} (e : E) (f : option Reader -> outcome E A * option Reader) :
    read_all_optional None e f = fst (f None);
  read_all_optional_some {E A} i (e : E) (f : option Reader -> outcome E A * option Reader) o r' :
    f (Some (reader_new i)) = (o, Some r') ->
    read_all_optional (Some i) e f = complete e (o, r');
}.

(** ** A concrete reader

    A reader over the slice of the bytes left; it satisfies the laws, so the
    hypotheses of the theorems can hold. *)
Definition slice_reader : Untrusted := {|
  Reader := list u8;
  reader_new i := i;
  at_end l := match l with [] => true | _ => false end;
  peek l b := match l with [] => false | c :: _ => u8_eqb c b end;
  read_byte l := (head l, tail l);
  read_bytes l n :=
    if (n <=? N.of_nat (length l))%N
    then (Some (take (N.to_nat n) l), drop (N.to_nat n) l) else (None, l);
  read_bytes_to_end l := (l, []);
  skip l n :=
    if (n <=? N.of_nat (length l))%N then (Some tt, drop (N.to_nat n) l) else (None, l);
  skip_to_end _ := [];
  read_partial _ _ f l :=
    let '(o, l') := f l in
    (let? a := o in Ok (take (length l - length l') l, a), l');
  read_all _ _ i e f :=
    let '(o, l') := f i in
    match o with Ok a => match l' with [] => Ok a | _ => Err e end | other => other end;
  read_all_optional _ _ i e f :=
    match i with
    | None => fst (f None)
    | Some i =>
      let '(o, l') := f (Some i) in
      match o, l' with Ok a, Some (_ :: _) => Err e | other, _ => other end
    end;
|}.

#[export] Instance slice_reader_laws : UntrustedLaws slice_reader.
Proof.
  split; unfold remaining; simpl; try done.
  - intros r n. by case_match.
  - intros r n. by case_match.
  - intros E A f r c Hc. destruct (f r) as [o l']; simpl in *. subst r.
    rewrite length_app, Nat.add_sub, take_app_length. done.
  - intros E A i e f. unfold complete. by destruct (f i) as [[a|e'| |] [|b l']].
  - intros E A i e f o r' ->. unfold complete; simpl. by destruct o, r'.
Qed.

(** ** Parsers *)
Section Parser.
Context {U : Untrusted}.

(** A function of the source that takes a [&mut Reader] and returns a [Result]. *)
Definition parser (E A : Type) : Type := Reader -> outcome E A * Reader.

Definition pret {E A} (a : A) : parser E A := fun r => (Ok a, r).
Definition plift {E A} (o : outcome E A) : parser E A := fun r => (o, r).
Definition pfail {E A} (e : E) : parser E A := plift (Err e).
Definition pbind {E A B} (p : parser E A) (f : A -> parser E B) : parser E B :=
  fun r => match p r with
           | (Ok a, r') => f a r'
           | (Err e, r') => (Err e, r')
           | (Panic, r') => (Panic, r')
           | (OutOfFuel, r') => (OutOfFuel, r')
           end.
(** [.map_err(f)] on the result of a parser. *)
Definition pmap_err {E E' A} (f : E -> E') (p : parser E A) : parser E' A :=
  fun r => let '(o, r') := p r in (map_err f o, r').

(** The result of a parser as a value: a call that is not followed by [?]. *)
Definition p_result {E A} (p : parser E A) : parser E (outcome E A) :=
  fun r => match p r with
           | (Panic, r') => (Panic, r')
           | (OutOfFuel, r') => (OutOfFuel, r')
           | (o, r') => (Ok o, r')
           end.

Definition opt_outcome {E A} (e : E) (o : option A) : outcome E A :=
  match o with Some a => Ok a | None => Err e end.

(** The reader's operations as parsers; the error is the caller's
    conversion of [EndOfInput]. *)
Definition p_read_byte_or {E} (e : E) : parser E u8 :=
  fun r => let '(o, r') := read_byte r in (opt_outcome e o, r').
Definition p_read_byte : parser Error u8 := p_read_byte_or from_end_of_input.
Definition p_read_bytes (n : Z) : parser Error Input :=
  fun r => let '(o, r') := read_bytes r (Z.to_N n) in (opt_outcome from_end_of_input o, r').
Definition p_read_bytes_to_end {E} : parser E Input :=
  fun r => let '(i, r') := read_bytes_to_end r in (Ok i, r').
Definition p_skip_to_end {E} : parser E unit := fun r => (Ok tt, skip_to_end r).
Definition p_at_end {E} : parser E bool := fun r => (Ok (at_end r), r).
Definition p_peek {E} (b : u8) : parser E bool := fun r => (Ok (peek r b), r).

(** A bound on the iterations of a loop that consumes the reader: one more
    than the bytes left. *)
Definition loop_fuel {E} : parser E nat :=
  fun r => (Ok (S (length (remaining r))), r).
Definition out_of_fuel {E A} : parser E A := plift OutOfFuel.

(** The parser run on bytes: the outcome and the bytes left. *)
Definition den {E A} (p : parser E A) (l : Input) : outcome E A * Input :=
  (fst (p (reader_new l)), remaining (snd (p (reader_new l)))).

(** A parser whose result depends on the bytes left only, and that only
    moves forward. *)
Class Lawful {E A} (p : parser E A) : Prop := {
  lawful_den r : (fst (p r), remaining (snd (p r))) = den p (remaining r);
  lawful_forward r : exists consumed, remaining r = consumed ++ remaining (snd (p r));
}.

(** How a parser may end, on any bytes. *)
Definition Ends {E A} (panics : Prop) (p : parser E A) : Prop :=
  forall l, ends panics (fst (den p l)).
End Parser.

Notation "'let!' x ':=' p 'in' k" := (pbind p (fun x => k))
  (at level 10, x pattern, p at level 100, k at level 200) : webpki_scope.

#[global] Arguments parser {U} E A : simpl never.
#[global] Arguments den : simpl never.
#[global] Arguments pbind : simpl never.
#[global] Arguments pret : simpl never.
#[global] Arguments pfail : simpl never.
#[global] Arguments plift : simpl never.

(** ** The denotation of the combinators *)
Section Denotation.
Context {U : Untrusted} {L : UntrustedLaws U}.

Lemma to_N_leb_length n (l : Input) :
  (Z.to_N n <=? N.of_nat (length l))%N = (n <=? Z.of_nat (length l)).
Proof. apply eq_bool_prop_intro. rewrite !Is_true_true, N.leb_le, Z.leb_le. lia. Qed.

Lemma den_run {E A} (p : parser E A) `{!Lawful p} r o r' :
  p r = (o, r') -> den p (remaining r) = (o, remaining r').
Proof. intros H. by rewrite <- lawful_den, H. Qed.

Lemma run_den {E A} (p : parser E A) `{!Lawful p} r o l' :
  den p (remaining r) = (o, l') -> exists r', p r = (o, r') /\ remaining r' = l'.
Proof.
  rewrite <- lawful_den. destruct (p r) as [o' r'] eqn:Ep. simpl.
  intros [= -> <-]. eauto.
Qed.

Lemma den_forward {E A} (p : parser E A) `{!Lawful p} l o l' :
  den p l = (o, l') -> exists consumed, l = consumed ++ l'.
Proof.
  intros H. destruct (lawful_forward (p := p) (reader_new l)) as [c Hc].
  exists c. unfold den in H. rewrite remaining_new in Hc. congruence.
Qed.

Lemma den_ret {E A} (a : A) l : den (E := E) (pret a) l = (Ok a, l).
Proof. unfold den, pret. simpl. by rewrite remaining_new. Qed.

Lemma den_lift {E A} (o : outcome E A) l : den (plift o) l = (o, l).
Proof. unfold den, plift. simpl. by rewrite remaining_new. Qed.

Lemma den_fail {E A} (e : E) l : den (A := A) (pfail e) l = (Err e, l).
Proof. apply den_lift. Qed.

Lemma den_out_of_fuel {E A} l : den (E := E) (A := A) out_of_fuel l = (OutOfFuel, l).
Proof. apply den_lift. Qed.

Lemma den_bind {E A B} (p : parser E A) (f : A -> parser E B) l :
  (forall a, Lawful (f a)) ->
  den (pbind p f) l =
    match den p l with
    | (Ok a, l') => den (f a) l'
    | (Err e, l') => (Err e, l')
    | (Panic, l') => (Panic, l')
    | (OutOfFuel, l') => (OutOfFuel, l')
    end.
Proof.
  intros Hf. unfold den at 1 2, pbind.
  destruct (p (reader_new l)) as [[a|e| |] r'] eqn:Ep; simpl; try done.
  by rewrite lawful_den.
Qed.

Lemma den_map_err {E E' A} (f : E -> E') (p : parser E A) l :
  den (pmap_err f p) l = (map_err f (fst (den p l)), snd (den p l)).
Proof. unfold den, pmap_err. by destruct (p (reader_new l)). Qed.

Lemma den_result {E A} (p : parser E A) l :
  den (p_result p) l =
    (match fst (den p l) with Panic => Panic | OutOfFuel => OutOfFuel | o => Ok o end,
     snd (den p l)).
Proof. unfold den, p_result. by destruct (p (reader_new l)) as [[]]. Qed.

Lemma den_read_byte_or {E} (e : E) l :
  den (p_read_byte_or e) l = (opt_outcome e (head l), tail l).
Proof.
  unfold den, p_read_byte_or. destruct (read_byte_spec (reader_new l)) as [H1 H2].
  rewrite remaining_new in H1, H2.
  destruct (read_byte (reader_new l)); simpl in *. congruence.
Qed.

Lemma den_read_byte l :
  den p_read_byte l = (opt_outcome BadDer (head l), tail l).
Proof. apply den_read_byte_or. Qed.

Lemma den_read_bytes n l :
  den (p_read_bytes n) l =
    if n <=? Z.of_nat (length l)
    then (Ok (take (Z.to_nat n) l), drop (Z.to_nat n) l) else (Err BadDer, l).
Proof.
  unfold den, p_read_bytes.
  pose proof (read_bytes_spec (reader_new l) (Z.to_N n)) as H.
  rewrite remaining_new in H. rewrite to_N_leb_length, Z_N_nat in H.
  destruct (read_bytes (reader_new l) (Z.to_N n)); simpl in *.
  by destruct (n <=? Z.of_nat (length l)); destruct H as [-> ->].
Qed.

Lemma den_read_bytes_to_end {E} l : den (E := E) p_read_bytes_to_end l = (Ok l, []).
Proof.
  unfold den, p_read_bytes_to_end.
  pose proof (read_bytes_to_end_spec (reader_new l)) as H.
  pose proof (remaining_new l) as H'. unfold remaining at 1 in H'.
  destruct (read_bytes_to_end (reader_new l)); simpl in *. by rewrite H', H.
Qed.

Lemma den_skip_to_end {E} l : den (E := E) p_skip_to_end l = (Ok tt, []).
Proof. unfold den, p_skip_to_end. simpl. by rewrite skip_to_end_spec. Qed.

Lemma den_at_end {E} l :
  den (E := E) p_at_end l = (Ok (match l with [] => true | _ => false end), l).
Proof. unfold den, p_at_end. simpl. by rewrite at_end_spec, remaining_new. Qed.

Lemma den_peek {E} b l :
  den (E := E) (p_peek b) l =
    (Ok (match l with [] => false | c :: _ => u8_eqb c b end), l).
Proof. unfold den, p_peek. simpl. by rewrite peek_spec, remaining_new. Qed.

Lemma den_loop_fuel {E} l : den (E := E) loop_fuel l = (Ok (S (length l)), l).
Proof. unfold den, loop_fuel. simpl. by rewrite remaining_new. Qed.

Lemma den_read_partial {E A} (p : parser E A) `{!Lawful p} l consumed l' o :
  den p l = (o, l') -> l = consumed ++ l' ->
  den (read_partial p : parser E (Input * A)) l = (let? a := o in Ok (consumed, a), l').
Proof.
  intros H Hl. unfold den in *. rewrite (read_partial_spec p _ consumed).
  - simpl. congruence.
  - rewrite remaining_new. congruence.
Qed.

(** A parser run on a fresh reader. *)
Lemma run_new {E A} (p : parser E A) l : fst (p (reader_new l)) = fst (den p l).
Proof. done. Qed.

(** [read_all] runs the parser on the whole input. *)
Lemma read_all_den {E A} i (e : E) (p : parser E A) :
  read_all i e p =
    match den p i with
    | (Ok a, []) => Ok a
    | (Ok a, _ :: _) => Err e
    | (o, _) => o
    end.
Proof.
  rewrite read_all_spec. unfold complete, den.
  destruct (p (reader_new i)) as [[a|e'| |] r']; simpl; try done.
  rewrite at_end_spec. by destruct (remaining r').
Qed.

Lemma read_all_ok {E A} i (e : E) (p : parser E A) a :
  read_all i e p = Ok a <-> den p i = (Ok a, []).
Proof.
  rewrite read_all_den. destruct (den p i) as [[a'|e'| |] [|b l]];
    split; intros H; simplify_eq; done.
Qed.

(** [read_all_optional] with a closure that runs a parser on an input that is
    present. *)
Lemma read_all_optional_eq {E A} i (e : E) (p : parser E A)
    (f : option Reader -> outcome E A * option Reader) :
  (forall r, f (Some r) = (fst (p r), Some (snd (p r)))) ->
  read_all_optional i e f = match i with None => fst (f None) | Some i => read_all i e p end.
Proof.
  intros Hf. destruct i as [i|]; [|apply read_all_optional_none].
  rewrite (read_all_optional_some i e f _ _ (Hf _)), read_all_spec. by destruct (p (reader_new i)).
Qed.

(** *** Lawfulness of the combinators *)
#[export] Instance lawful_lift {E A} (o : outcome E A) : Lawful (plift o).
Proof. split; intros r; [by rewrite den_lift | by exists []]. Qed.

#[export] Instance lawful_ret {E A} (a : A) : Lawful (E := E) (pret a).
Proof. apply (lawful_lift (Ok a)). Qed.

#[export] Instance lawful_fail {E A} (e : E) : Lawful (A := A) (pfail e).
Proof. apply lawful_lift. Qed.

#[export] Instance lawful_out_of_fuel {E A} : Lawful (E := E) (A := A) out_of_fuel.
Proof. apply lawful_lift. Qed.

#[export] Instance lawful_bind {E A B} (p : parser E A) (f : A -> parser E B) :
  Lawful p -> (forall a, Lawful (f a)) -> Lawful (pbind p f).
Proof.
  intros Hp Hf. split; intros r.
  - rewrite den_bind by done. unfold pbind.
    destruct (p r) as [[a|e| |] r'] eqn:Ep; rewrite (den_run p r _ _ Ep); try done.
    apply lawful_den.
  - unfold pbind. destruct (lawful_forward (p := p) r) as [c Hc].
    destruct (p r) as [[a|e| |] r'] eqn:Ep; simpl in *; eauto.
    destruct (lawful_forward (p := f a) r') as [c' Hc'].
    exists (c ++ c'). by rewrite Hc, Hc', app_assoc.
Qed.

#[export] Instance lawful_map_err {E E' A} (f : E -> E') (p : parser E A) :
  Lawful p -> Lawful (pmap_err f p).
Proof.
  intros Hp. split; intros r.
  - rewrite den_map_err. unfold pmap_err.
    destruct (p r) as [o r'] eqn:Ep. by rewrite (den_run p r _ _ Ep).
  - unfold pmap_err. destruct (lawful_forward (p := p) r) as [c Hc].
    destruct (p r); simpl in *; eauto.
Qed.

#[export] Instance lawful_result {E A} (p : parser E A) : Lawful p -> Lawful (p_result p).
Proof.
  intros Hp. split; intros r.
  - rewrite den_result. unfold p_result.
    destruct (p r) as [o r'] eqn:Ep. rewrite (den_run p r _ _ Ep). by destruct o.
  - unfold p_result. destruct (lawful_forward (p := p) r) as [c Hc].
    destruct (p r) as [[]]; simpl in *; eauto.
Qed.

#[export] Instance lawful_read_byte_or {E} (e : E) : Lawful (p_read_byte_or e).
Proof.
  split; intros r; rewrite ?den_read_byte_or; unfold p_read_byte_or;
    destruct (read_byte_spec r) as [H1 H2]; destruct (read_byte r) as [o r'];
    simpl in *; subst o.
  - by rewrite H2.
  - rewrite H2. destruct (remaining r) as [|b l]; [by exists [] | by exists [b]].
Qed.

#[export] Instance lawful_read_byte : Lawful p_read_byte.
Proof. apply lawful_read_byte_or. Qed.

#[export] Instance lawful_read_bytes n : Lawful (p_read_bytes n).
Proof.
  split; intros r; rewrite ?den_read_bytes; unfold p_read_bytes;
    pose proof (read_bytes_spec r (Z.to_N n)) as H;
    rewrite to_N_leb_length, Z_N_nat in H;
    destruct (read_bytes r (Z.to_N n)) as [o r']; simpl in *.
  - by destruct (n <=? Z.of_nat (length (remaining r))); destruct H as [-> ->].
  - destruct (n <=? Z.of_nat (length (remaining r))); destruct H as [_ ->].
    + exists (take (Z.to_nat n) (remaining r)). by rewrite take_drop.
    + by exists [].
Qed.

#[export] Instance lawful_read_bytes_to_end {E} : Lawful (E := E) p_read_bytes_to_end.
Proof.
  split; intros r; rewrite ?den_read_bytes_to_end; unfold p_read_bytes_to_end;
    pose proof (read_bytes_to_end_spec r) as H.
  - unfold remaining at 2.
    destruct (read_bytes_to_end r) as [i r']; simpl in *. by rewrite H.
  - destruct (read_bytes_to_end r) as [i r']; simpl in *. rewrite H.
    exists (remaining r). by rewrite app_nil_r.
Qed.

#[export] Instance lawful_skip_to_end {E} : Lawful (E := E) p_skip_to_end.
Proof.
  split; intros r; rewrite ?den_skip_to_end; unfold p_skip_to_end; simpl;
    rewrite skip_to_end_spec.
  - done.
  - exists (remaining r). by rewrite app_nil_r.
Qed.

#[export] Instance lawful_at_end {E} : Lawful (E := E) p_at_end.
Proof.
  split; intros r; [|by exists []].
  rewrite den_at_end. unfold p_at_end. simpl. by rewrite at_end_spec.
Qed.

#[export] Instance lawful_peek {E} b : Lawful (E := E) (p_peek b).
Proof.
  split; intros r; [|by exists []].
  rewrite den_peek. unfold p_peek. simpl. by rewrite peek_spec.
Qed.

#[export] Instance lawful_loop_fuel {E} : Lawful (E := E) loop_fuel.
Proof. split; intros r; [by rewrite den_loop_fuel | by exists []]. Qed.

Lemma lawful_read_partial {E A} (p : parser E A) :
  Lawful p -> Lawful (read_partial p : parser E (Input * A)).
Proof.
  intros Hp. split; intros r; destruct (lawful_forward (p := p) r) as [c Hc];
    destruct (p r) as [o r'] eqn:Ep; simpl in *;
    rewrite (read_partial_spec p r c) by (by rewrite Ep).
  - pose proof (den_run p r _ _ Ep) as Hd. rewrite Ep. simpl.
    by rewrite (den_read_partial p _ c _ _ Hd Hc).
  - rewrite Ep. simpl. eauto.
Qed.

(** *** How the combinators end *)
Lemma ends_bind {E A B} panics (p : parser E A) (f : A -> parser E B) :
  (forall a, Lawful (f a)) ->
  Ends panics p -> (forall a, Ends panics (f a)) -> Ends panics (pbind p f).
Proof.
  intros HL Hp Hf l. rewrite den_bind by done.
  specialize (Hp l). destruct (den p l) as [[a|e| |] l']; simpl in *; try done.
  apply Hf.
Qed.

Lemma ends_lift {E A} panics (o : outcome E A) : ends panics o -> Ends panics (plift o).
Proof. intros H l. by rewrite den_lift. Qed.

Lemma ends_ret {E A} panics (a : A) : Ends (E := E) panics (pret a).
Proof. by apply ends_lift. Qed.

Lemma ends_fail {E A} panics (e : E) : Ends (A := A) panics (pfail e).
Proof. by apply ends_lift. Qed.

Lemma ends_pmap_err {E E' A} panics (f : E -> E') (p : parser E A) :
  Ends panics p -> Ends panics (pmap_err f p).
Proof. intros H l. rewrite den_map_err. simpl. apply ends_map_err, H. Qed.

Lemma ends_bind_result {E A B} panics (p : parser E A) (f : outcome E A -> parser E B) :
  (forall o, Lawful (f o)) -> Ends panics p ->
  (forall o, ends False o -> Ends panics (f o)) -> Ends panics (pbind (p_result p) f).
Proof.
  intros HL Hp Hf l. rewrite den_bind, den_result by done. specialize (Hp l).
  destruct (den p l) as [[a|e| |] l']; simpl in *; try done; by apply Hf.
Qed.

Lemma ends_read_byte_or {E} panics (e : E) : Ends panics (p_read_byte_or e).
Proof. intros l. rewrite den_read_byte_or. by destruct l. Qed.

Lemma ends_read_byte panics : Ends panics p_read_byte.
Proof. apply ends_read_byte_or. Qed.

Lemma ends_read_bytes panics n : Ends panics (p_read_bytes n).
Proof. intros l. rewrite den_read_bytes. by case_match. Qed.

Lemma ends_read_bytes_to_end {E} panics : Ends (E := E) panics p_read_bytes_to_end.
Proof. intros l. by rewrite den_read_bytes_to_end. Qed.

Lemma ends_skip_to_end {E} panics : Ends (E := E) panics p_skip_to_end.
Proof. intros l. by rewrite den_skip_to_end. Qed.

Lemma ends_at_end {E} panics : Ends (E := E) panics p_at_end.
Proof. intros l. by rewrite den_at_end. Qed.

Lemma ends_peek {E} panics b : Ends (E := E) panics (p_peek b).
Proof. intros l. by rewrite den_peek. Qed.

Lemma ends_loop_fuel {E} panics : Ends (E := E) panics loop_fuel.
Proof. intros l. by rewrite den_loop_fuel. Qed.

Lemma ends_read_partial {E A} panics (p : parser E A) : Lawful p ->
  Ends panics p -> Ends panics (read_partial p : parser E (Input * A)).
Proof.
  intros HL H l. specialize (H l). destruct (den p l) as [o l'] eqn:E0.
  destruct (den_forward p l _ _ E0) as [c Hc].
  rewrite (den_read_partial p _ _ _ _ E0 Hc). by destruct o.
Qed.

Lemma ends_read_all {E A} panics i (e : E) (p : parser E A) :
  ends panics (fst (den p i)) -> ends panics (read_all i e p).
Proof. rewrite read_all_den. by destruct (den p i) as [[a|e'| |] [|b l]]. Qed.
End Denotation.

(** Readers that are used directly: what each operation returns, by the bytes
    that are left. *)
Section Readers.
Context {U : Untrusted} {L : UntrustedLaws U}.

Lemma read_byte_nil r : remaining r = [] ->
  exists r', read_byte r = (None, r') /\ remaining r' = [].
Proof.
  intros Hr. destruct (read_byte_spec r) as [H1 H2]. rewrite Hr in H1, H2.
  destruct (read_byte r) as [o r']; simpl in *; subst. eauto.
Qed.

Lemma read_byte_cons r b l : remaining r = b :: l ->
  exists r', read_byte r = (Some b, r') /\ remaining r' = l.
Proof.
  intros Hr. destruct (read_byte_spec r) as [H1 H2]. rewrite Hr in H1, H2.
  destruct (read_byte r) as [o r']; simpl in *; subst. eauto.
Qed.

Lemma skip_ok r n : (n <= N.of_nat (length (remaining r)))%N ->
  exists r', skip r n = (Some tt, r') /\ remaining r' = drop (N.to_nat n) (remaining r).
Proof.
  intros Hn. destruct (skip_spec r n) as [H1 H2].
  pose proof (read_bytes_spec r n) as H. rewrite (proj2 (N.leb_le _ _) Hn) in H.
  destruct H as [H3 H4]. rewrite H3 in H1. rewrite H4 in H2.
  destruct (skip r n) as [o r']; simpl in *; subst. eauto.
Qed.
End Readers.

Create HintDb lawful.
#[export] Hint Resolve lawful_read_partial : lawful.

(** Lawfulness by the structure of the parser. *)
Ltac lawful_step :=
  first
    [ progress intros
    | progress cbv zeta
    | typeclasses eauto
    | solve [auto with lawful]
    | match goal with
      | |- Lawful (pbind _ _) => apply lawful_bind
      | |- Lawful (pmap_err _ _) => apply lawful_map_err
      | |- Lawful (match ?x with _ => _ end) => destruct x
      | |- Lawful (let '(_, _) := ?x in _) => destruct x
      end ].
Ltac lawful := repeat lawful_step.

#[global] Opaque den.

(** How a parser ends, by its structure. *)
Create HintDb ends.
#[export] Hint Resolve ends_ret ends_fail ends_read_byte_or ends_read_byte
  ends_read_bytes ends_read_bytes_to_end ends_skip_to_end ends_at_end ends_peek
  ends_loop_fuel : ends.

Ltac ends_step :=
  first
    [ progress intros
    | progress cbv zeta
    | done
    | solve [auto with ends]
    | match goal with
      | |- Ends _ (pbind _ _) => apply ends_bind; [lawful|..]
      | |- Ends _ (pmap_err _ _) => apply ends_pmap_err
      | |- Ends _ (read_partial _) => apply ends_read_partial; [lawful|]
      | |- Ends _ (plift _) => apply ends_lift
      | |- ends _ (read_all _ _ _) => apply ends_read_all
      | |- ends ?b (fst (den ?p ?l)) => is_var l; revert l; change (Ends b p)
      | |- Ends _ (match ?x with _ => _ end) => destruct x
      | |- Ends _ (let '(_, _) := ?x in _) => destruct x
      end ].
Ltac ends := repeat ends_step.

(** Compute the denotation of a parser. *)
Ltac den_step :=
  first
    [ rewrite den_bind by lawful
    | rewrite den_ret | rewrite den_fail | rewrite den_lift
    | rewrite den_read_byte | rewrite den_read_byte_or
    | rewrite den_read_bytes_to_end | rewrite den_skip_to_end
    | rewrite den_at_end | rewrite den_peek | rewrite den_loop_fuel | rewrite den_read_bytes
    | rewrite den_map_err | rewrite den_out_of_fuel ].
Ltac den :=
  cbn [opt_outcome head tail fst snd negb andb orb];
  repeat (den_step; cbn [opt_outcome head tail fst snd negb andb orb]).

Ltac den_step_in H :=
  first
    [ rewrite den_bind in H by lawful
    | rewrite den_ret in H | rewrite den_fail in H | rewrite den_lift in H
    | rewrite den_read_byte in H | rewrite den_read_byte_or in H
    | rewrite den_read_bytes_to_end in H | rewrite den_skip_to_end in H
    | rewrite den_at_end in H | rewrite den_peek in H | rewrite den_loop_fuel in H
    | rewrite den_map_err in H | rewrite den_out_of_fuel in H
    | rewrite den_read_bytes in H ].
Ltac den_in H :=
  cbn [opt_outcome head tail fst snd negb andb orb] in H;
  repeat (den_step_in H; cbn [opt_outcome head tail fst snd negb andb orb] in H).

(** One more byte of input, or a failing read. *)
Ltac next_byte H l :=
  let b := fresh "b" in
  destruct l as [|b l]; cbn [opt_outcome head tail] in H; [discriminate H|]; den_in H.
