(* ===== verification/Der.v ===== *)
(** * [src/der.rs]: the DER primitives

    Tags, the tag-length-value reader and its size limits, nesting, bit
    strings, integers, booleans and the iterator over a sequence of values. *)
From S2P Require Import Prelude Errors Untrusted.

(** ** Tags *)
Definition CONSTRUCTED : u8 := x20.
Definition CONTEXT_SPECIFIC : u8 := x80.

Inductive Tag : Type :=
  | Boolean
  | Integer
  | BitString
  | OctetString
  | OID
  | Enum
  | UTF8String
  | Sequence
  | Set'
  | UTCTime
  | GeneralizedTime
  | ContextSpecificConstructed0
  | ContextSpecificConstructed1
  | ContextSpecificConstructed3.

(** [From<Tag> for u8] (and, through it, for [usize]). *)
Definition tag_u8 (tag : Tag) : u8 :=
  match tag with
  | Boolean => x01
  | Integer => x02
  | BitString => x03
  | OctetString => x04
  | OID => x06
  | Enum => x0a
  | UTF8String => x0c
  | Sequence => u8_or CONSTRUCTED x10
  | Set' => u8_or CONSTRUCTED x11
  | UTCTime => x17
  | GeneralizedTime => x18
  | ContextSpecificConstructed0 => u8_or (u8_or CONTEXT_SPECIFIC CONSTRUCTED) x00
  | ContextSpecificConstructed1 => u8_or (u8_or CONTEXT_SPECIFIC CONSTRUCTED) x01
  | ContextSpecificConstructed3 => u8_or (u8_or CONTEXT_SPECIFIC CONSTRUCTED) x03
  end.

(** ** Limits *)
Definition HIGH_TAG_RANGE_START : u8 := x1f.
Definition SHORT_FORM_LEN_MAX : u8 := x80.
Definition LONG_FORM_LEN_ONE_BYTE : u8 := x81.
Definition LONG_FORM_LEN_ONE_BYTE_MAX : Z := 0xff.
Definition LONG_FORM_LEN_TWO_BYTES : u8 := x82.
Definition LONG_FORM_LEN_TWO_BYTES_MAX : Z := 0xffff.
Definition LONG_FORM_LEN_THREE_BYTES : u8 := x83.
Definition LONG_FORM_LEN_THREE_BYTES_MAX : Z := 0xffffff.
Definition LONG_FORM_LEN_FOUR_BYTES : u8 := x84.
Definition LONG_FORM_LEN_FOUR_BYTES_MAX : Z := 0xffffffff.
Definition TWO_BYTE_DER_SIZE : Z := LONG_FORM_LEN_TWO_BYTES_MAX.
Definition MAX_DER_SIZE : Z := LONG_FORM_LEN_FOUR_BYTES_MAX.

Section Der.
Context {U : Untrusted}.

(** *** Tag-length-value *)

(** The [match input.read_byte()?] that decodes the length octets. *)
Definition read_length : parser Error Z :=
  let! n := p_read_byte in
  if u8_eqb (u8_and n SHORT_FORM_LEN_MAX) x00 then pret (u8_to_Z n)
  else if u8_eqb n LONG_FORM_LEN_ONE_BYTE then
    let! length_byte := p_read_byte in
    if u8_to_Z length_byte <? u8_to_Z SHORT_FORM_LEN_MAX then pfail BadDer
    else pret (u8_to_Z length_byte)
  else if u8_eqb n LONG_FORM_LEN_TWO_BYTES then
    let! length_byte_one := p_read_byte in
    let! length_byte_two := p_read_byte in
    let combined :=
      Z.lor (Z.shiftl (u8_to_Z length_byte_one) 8) (u8_to_Z length_byte_two) in
    if combined <=? LONG_FORM_LEN_ONE_BYTE_MAX then pfail BadDer
    else pret combined
  else if u8_eqb n LONG_FORM_LEN_THREE_BYTES then
    let! length_byte_one := p_read_byte in
    let! length_byte_two := p_read_byte in
    let! length_byte_three := p_read_byte in
    let combined :=
      Z.lor (Z.lor (Z.shiftl (u8_to_Z length_byte_one) 16)
                   (Z.shiftl (u8_to_Z length_byte_two) 8))
            (u8_to_Z length_byte_three) in
    if combined <=? LONG_FORM_LEN_TWO_BYTES_MAX then pfail BadDer
    else pret combined
  else if u8_eqb n LONG_FORM_LEN_FOUR_BYTES then
    let! length_byte_one := p_read_byte in
    let! length_byte_two := p_read_byte in
    let! length_byte_three := p_read_byte in
    let! length_byte_four := p_read_byte in
    let combined :=
      Z.lor (Z.lor (Z.lor (Z.shiftl (u8_to_Z length_byte_one) 24)
                          (Z.shiftl (u8_to_Z length_byte_two) 16))
                   (Z.shiftl (u8_to_Z length_byte_three) 8))
            (u8_to_Z length_byte_four) in
    if combined <=? LONG_FORM_LEN_THREE_BYTES_MAX then pfail BadDer
    else pret combined
  else pfail BadDer.

Definition read_tag_and_get_value_limited (size_limit : Z) : parser Error (u8 * Input) :=
  let! tag := p_read_byte in
  if u8_eqb (u8_and tag HIGH_TAG_RANGE_START) HIGH_TAG_RANGE_START then pfail BadDer
  else
    let! length := read_length in
    if size_limit <=? length then pfail BadDer
    else
      let! inner := p_read_bytes length in
      pret (tag, inner).

Definition read_tag_and_get_value : parser Error (u8 * Input) :=
  read_tag_and_get_value_limited TWO_BYTE_DER_SIZE.

Definition expect_tag_and_get_value_limited (tag : Tag) (size_limit : Z)
    : parser Error Input :=
  let! (actual_tag, inner) := read_tag_and_get_value_limited size_limit in
  if negb (u8_to_Z (tag_u8 tag) =? u8_to_Z actual_tag) then pfail BadDer
  else pret inner.

Definition expect_tag (tag : Tag) : parser Error Input :=
  let! (actual_tag, value) := read_tag_and_get_value_limited TWO_BYTE_DER_SIZE in
  if negb (u8_to_Z (tag_u8 tag) =? u8_to_Z actual_tag) then pfail BadDer
  else pret value.

(** *** Nesting *)
Definition nested_limited {R} (tag : Tag) (error : Error) (decoder : parser Error R)
    (size_limit : Z) : parser Error R :=
  let! value :=
    pmap_err (fun _ => error) (expect_tag_and_get_value_limited tag size_limit) in
  plift (read_all value error decoder).

Definition nested {R} (tag : Tag) (error : Error) (decoder : parser Error R)
    : parser Error R :=
  nested_limited tag error decoder TWO_BYTE_DER_SIZE.

(** The [loop] of [nested_of_mut].  The [FnMut] decoder threads the state
    [S] it captures; after an error that state is not observed. *)
Fixpoint nested_of_mut_loop {S} (fuel : nat) (inner_tag : Tag) (error : Error)
    (decoder : S -> parser Error S) (s : S) : parser Error S :=
  match fuel with
  | O => out_of_fuel
  | Datatypes.S fuel =>
    let! s := nested inner_tag error (decoder s) in
    let! at_end := p_at_end in
    if at_end then pret s
    else nested_of_mut_loop fuel inner_tag error decoder s
  end.

Definition nested_of_mut {S} (outer_tag inner_tag : Tag) (error : Error)
    (decoder : S -> parser Error S) (s : S) : parser Error S :=
  nested outer_tag error
    (let! fuel := loop_fuel in nested_of_mut_loop fuel inner_tag error decoder s).

(** *** Bit strings *)
Definition bit_string_with_no_unused_bits : parser Error Input :=
  nested BitString (TrailingData BitStringId)
    (let! unused_bits_at_end := p_read_byte_or BadDer in
     if negb (u8_eqb unused_bits_at_end x00) then pfail BadDer
     else p_read_bytes_to_end).

Record BitStringFlags : Type := { raw_bits : list u8 }.

(** [raw_bits[byte_index]] is in range once the length test has passed. *)
Definition bit_set (flags : BitStringFlags) (bit : Z) : bool :=
  let byte_index := bit / 8 in
  let bit_shift := 7 - bit mod 8 in
  if Z.of_nat (length (raw_bits flags)) <? byte_index + 1 then false
  else
    negb (Z.land (Z.shiftr (u8_to_Z (nth (Z.to_nat byte_index) (raw_bits flags) x00))
                           bit_shift) 1 =? 0).

(** [raw_bits[raw_bits.len() - 1]] panics when [raw_bits] is empty: the
    subtraction underflows, and the wrapped index is out of range. *)
Definition bit_string_flags (input : Input) : outcome Error BitStringFlags :=
  read_all input BadDer
    (let! padding_bits := p_read_byte_or BadDer in
     let! raw_bits := p_read_bytes_to_end in
     if (7 <? u8_to_Z padding_bits)
        || (bool_decide (raw_bits = []) && negb (u8_eqb padding_bits x00))
     then pfail BadDer
     else
       match last raw_bits with
       | None => plift Panic
       | Some last_byte =>
         let padding_mask := Z.shiftl 1 (u8_to_Z padding_bits) - 1 in
         if (0 <? u8_to_Z padding_bits)
            && negb (Z.land (u8_to_Z last_byte) padding_mask =? 0)
         then pfail BadDer
         else pret {| raw_bits := raw_bits |}
       end).

(** *** The [FromDer] trait *)
Class FromDer (T : Type) := {
  from_der : parser Error T;
  TYPE_ID : DerTypeId;
}.

Definition der_read_all {T} `{!FromDer T} (input : Input) : outcome Error T :=
  read_all input (TrailingData TYPE_ID) from_der.

(** [DerIterator<'a, T>]: the state is the reader. *)
Record DerIterator (T : Type) : Type := { reader : Reader }.
#[global] Arguments reader {T}.
#[global] Arguments Build_DerIterator {T}.

Definition der_iterator_new {T} (input : Input) : DerIterator T :=
  {| reader := reader_new input |}.

Definition der_iterator_next {T} `{!FromDer T} (it : DerIterator T)
    : option (outcome Error T) * DerIterator T :=
  if at_end (reader it) then (None, it)
  else
    let '(item, r) := from_der (reader it) in
    (Some item, {| reader := r |}).

(** [for item in iterator { body }]: the body goes on with a new state
    ([inl]) or leaves the loop with a value ([inr]); a panic of the
    iterator's [next] or of the body ends the loop. *)
Fixpoint der_for_loop {T E S R} `{!FromDer T} (fuel : nat) (it : DerIterator T)
    (body : outcome Error T -> S -> outcome E (S + R)) (s : S)
    : outcome E (S + R) * DerIterator T :=
  match fuel with
  | O => (OutOfFuel, it)
  | Datatypes.S fuel =>
    match der_iterator_next it with
    | (None, it) => (Ok (inl s), it)
    | (Some Panic, it) => (Panic, it)
    | (Some OutOfFuel, it) => (OutOfFuel, it)
    | (Some item, it) =>
      match body item s with
      | Ok (inl s) => der_for_loop fuel it body s
      | other => (other, it)
      end
    end
  end.

Definition der_for {T E S R} `{!FromDer T} (it : DerIterator T)
    (body : outcome Error T -> S -> outcome E (S + R)) (s : S)
    : outcome E (S + R) * DerIterator T :=
  der_for_loop (Datatypes.S (length (remaining (reader it)))) it body s.

(** *** Integers and booleans *)
Definition nonnegative_integer : parser Error Input :=
  let! value := expect_tag Integer in
  match value with
  | [] => pfail BadDer
  | first :: rest =>
    if u8_eqb first x00 then
      match rest with
      | [] => pret value
      | second :: _ =>
        if u8_eqb (u8_and second x80) x80 then pret rest else pfail BadDer
      end
    else if u8_eqb (u8_and first x80) x00 then pret value
    else pfail BadDer
  end.

#[export] Instance u8_from_der : FromDer u8 := {|
  from_der :=
    let! value := nonnegative_integer in
    match value with
    | [b] => pret b
    | _ => pfail BadDer
    end;
  TYPE_ID := U8Id;
|}.

#[export] Instance bool_from_der : FromDer bool := {|
  from_der :=
    let! present := p_peek (tag_u8 Boolean) in
    if negb present then pret false
    else
      nested Boolean (TrailingData BoolId)
        (let! b := p_read_byte_or BadDer in
         if u8_eqb b xff then pret true
         else if u8_eqb b x00 then pret false
         else pfail BadDer);
  TYPE_ID := BoolId;
|}.
End Der.

(** The [oid!] macro: the first two arcs share an octet. *)
Definition oid (first second : Z) (tail : list Z) : list u8 :=
  map u8_of_Z (40 * first + second :: tail).

(** ** Reference definitions *)

(** The canonical (shortest) DER encoding of a length below [2 ^ 32]. *)
Definition encode_length (n : Z) : list u8 :=
  if n <? 128 then [u8_of_Z n]
  else if n <=? 0xff then [x81; u8_of_Z n]
  else if n <=? 0xffff then [x82; u8_of_Z (n / 256); u8_of_Z (n mod 256)]
  else if n <=? 0xffffff then
    [x83; u8_of_Z (n / 65536); u8_of_Z (n / 256 mod 256); u8_of_Z (n mod 256)]
  else
    [x84; u8_of_Z (n / 16777216); u8_of_Z (n / 65536 mod 256);
     u8_of_Z (n / 256 mod 256); u8_of_Z (n mod 256)].

(** A DER value: tag, canonical length, contents. *)
Definition tlv (tag : u8) (value : list u8) : list u8 :=
  tag :: encode_length (Z.of_nat (length value)) ++ value.

(** Low tag number form. *)
Definition low_tag (tag : u8) : bool := u8_to_Z tag mod 32 <? 31.

(** The value of a big-endian octet string. *)
Definition be_value (bytes : list u8) : Z :=
  fold_left (fun acc b => acc * 256 + u8_to_Z b) bytes 0.

(** The contents of a non-negative INTEGER of magnitude [v]: an octet of zeros
    in front when the leading bit of [v] is set. *)
Definition encode_nonneg (v : list u8) : list u8 :=
  match v with
  | b :: _ => if 128 <=? u8_to_Z b then x00 :: v else v
  | [] => []
  end.

(** A magnitude without superfluous leading zeros. *)
Definition canonical_magnitude (v : list u8) : bool :=
  match v with
  | [] => false
  | b :: rest => negb (u8_eqb b x00) || bool_decide (rest = [])
  end.

Section Reference.
Context {U : Untrusted}.

(** What the loop of [nested_of_mut] computes, on the list of the contents. *)
Fixpoint decode_all {S} (error : Error) (decoder : S -> parser Error S) (s : S)
    (contents : list Input) : outcome Error S :=
  match contents with
  | [] => Ok s
  | v :: contents =>
    let? s := read_all v error (decoder s) in decode_all error decoder s contents
  end.

(** The items a [DerIterator] yields on given bytes, each with the bytes
    that are left after it. *)
Fixpoint der_items {T} `{!FromDer T} (fuel : nat) (l : Input)
    : list (outcome Error T * Input) :=
  match fuel, l with
  | Datatypes.S fuel, _ :: _ =>
    let '(item, l') := den from_der l in (item, l') :: der_items fuel l'
  | _, _ => []
  end.

(** The loop over a list of items. *)
Fixpoint items_for {T E S R} (items : list (outcome Error T * Input)) (l : Input)
    (body : outcome Error T -> S -> outcome E (S + R)) (s : S)
    : outcome E (S + R) * Input :=
  match items with
  | [] => (Ok (inl s), l)
  | (Panic, l') :: _ => (Panic, l')
  | (OutOfFuel, l') :: _ => (OutOfFuel, l')
  | (item, l') :: items =>
    match body item s with
    | Ok (inl s) => items_for items l' body s
    | other => (other, l')
    end
  end.

(** A value parser that consumes part of any non-empty input. *)
Class Progress (T : Type) `{!FromDer T} : Prop := {
  progress_lawful :: Lawful (from_der (T := T));
  progress_shorter l : l <> [] ->
    (length (snd (den (from_der (T := T)) l)) < length l)%nat;
}.
End Reference.

(** The bits of a BIT STRING, the most significant bit of each octet first. *)
Definition bits_of_byte (b : u8) : list bool :=
  map (fun i => Z.testbit (u8_to_Z b) i) [7; 6; 5; 4; 3; 2; 1; 0].
Definition bits_of (flags : BitStringFlags) : list bool :=
  concat (map bits_of_byte (raw_bits flags)).

(** ** Lemmas: lengths and values *)
Lemma short_form_small n :
  u8_eqb (u8_and n SHORT_FORM_LEN_MAX) x00 = (u8_to_Z n <? 128).
Proof. by destruct n. Qed.

Lemma high_tag_low_tag t :
  u8_eqb (u8_and t HIGH_TAG_RANGE_START) HIGH_TAG_RANGE_START = negb (low_tag t).
Proof. by destruct t. Qed.

Lemma tag_u8_low tag : low_tag (tag_u8 tag) = true.
Proof. by destruct tag. Qed.

Lemma tag_u8_inj tag tag' : tag_u8 tag = tag_u8 tag' -> tag = tag'.
Proof. by destruct tag, tag'. Qed.

(** Case analysis on the reads and tests of [read_length]. *)
Ltac read_length_in H l :=
  first
    [ progress den_in H
    | progress rewrite ?combine2, ?combine3, ?combine4 in H
    | match type of H with
      | den (if ?c then _ else _) _ = _ => let E := fresh "E" in destruct c eqn:E
      | match opt_outcome _ (head ?l) with _ => _ end = _ => next_byte H l
      end ].
Ltac read_length_limits :=
  unfold LONG_FORM_LEN_ONE_BYTE_MAX, LONG_FORM_LEN_TWO_BYTES_MAX,
    LONG_FORM_LEN_THREE_BYTES_MAX, LONG_FORM_LEN_FOUR_BYTES_MAX,
    SHORT_FORM_LEN_MAX in *;
  change (u8_to_Z x80) with 128 in *.

(** [ends], through the nesting combinators. *)
Ltac ends_nesting := fail.
Ltac der_ends := repeat first [ends_step | ends_nesting].

Section DerLemmas.
Context {U : Untrusted} {L : UntrustedLaws U}.

#[export] Instance lawful_read_length : Lawful read_length.
Proof. unfold read_length. lawful. Qed.

Lemma read_length_sound l n l' :
  den read_length l = (Ok n, l') ->
  0 <= n <= LONG_FORM_LEN_FOUR_BYTES_MAX /\ l = encode_length n ++ l'.
Proof.
  intros H. unfold read_length in H. den_in H. next_byte H l.
  rewrite short_form_small in H.
  repeat read_length_in H l; simplify_eq; read_length_limits.
  all: repeat match goal with
              | E : u8_eqb _ _ = true |- _ => apply u8_eqb_eq in E as ->
              end.
  all: u8_ranges; (split; [lia|]); unfold encode_length.
  all: repeat (split_if; [first [lia|idtac]..]).
  all: simpl app; repeat (f_equal; try (symmetry; apply u8_of_Z_eq; lia_div)).
Qed.

Lemma read_length_complete n l :
  0 <= n <= LONG_FORM_LEN_FOUR_BYTES_MAX ->
  den read_length (encode_length n ++ l) = (Ok n, l).
Proof.
  unfold encode_length. intros Hn.
  repeat case_match; unfold read_length; simpl app; den; rewrite short_form_small.
  all: read_length_limits.
  all: repeat (first
    [ progress rewrite ?combine2, ?combine3, ?combine4
    | rewrite u8_to_of_Z by lia_div
    | progress den
    | match goal with
      | |- den (if ?c then _ else _) _ = _ =>
        lazymatch c with
        | u8_eqb ?b _ => is_constructor b
        | u8_to_Z ?b <? _ => is_constructor b
        end;
        let v := eval vm_compute in c in
        lazymatch v with true => change c with true | false => change c with false end
      | |- den (if ?c then _ else _) _ = _ =>
        let E := fresh "E" in destruct c eqn:E; [first [done|exfalso; lia_div|idtac]..]
      end ]; cbn [opt_outcome head tail]).
  all: f_equal; f_equal; lia_div.
Qed.

(** A length that cannot be read is [BadDer]. *)
Lemma read_length_outcome l :
  (exists n l', den read_length l = (Ok n, l')) \/
  (exists l', den read_length l = (Err BadDer, l')).
Proof.
  unfold read_length. den.
  repeat (first
    [ progress den
    | match goal with
      | |- context [opt_outcome _ (head ?l)] =>
        is_var l; destruct l; cbn [opt_outcome head tail]
      | |- context [den (if ?c then _ else _)] => destruct c
      end ]); eauto.
Qed.

#[export] Instance lawful_read_tlv lim : Lawful (read_tag_and_get_value_limited lim).
Proof. unfold read_tag_and_get_value_limited. lawful. Qed.

Lemma read_tlv_sound lim l t v l' :
  den (read_tag_and_get_value_limited lim) l = (Ok (t, v), l') ->
  l = tlv t v ++ l' /\ low_tag t = true /\
  Z.of_nat (length v) < lim /\ Z.of_nat (length v) <= LONG_FORM_LEN_FOUR_BYTES_MAX.
Proof.
  unfold read_tag_and_get_value_limited. intros H. den_in H. next_byte H l.
  rewrite high_tag_low_tag in H. destruct (low_tag b) eqn:Hlow; cbn [negb] in H; den_in H; [|done].
  destruct (den read_length l) as [[n| | |] l1] eqn:Hlen; try done.
  apply read_length_sound in Hlen as [Hn ->].
  destruct (lim <=? n) eqn:Hlim; den_in H; [done|].
  destruct (n <=? Z.of_nat (length l1)) eqn:Hle; den_in H; [|done].
  simplify_eq. unfold tlv.
  rewrite length_take, Nat.min_l, Z2Nat.id by lia.
  split_and!; [|done|lia|lia].
  by rewrite <- app_comm_cons, <- app_assoc, take_drop.
Qed.

Lemma read_tlv_complete lim t v l :
  low_tag t = true ->
  Z.of_nat (length v) < lim -> Z.of_nat (length v) <= LONG_FORM_LEN_FOUR_BYTES_MAX ->
  den (read_tag_and_get_value_limited lim) (tlv t v ++ l) = (Ok (t, v), l).
Proof.
  intros Ht Hlim Hmax. unfold read_tag_and_get_value_limited, tlv. simpl app. den.
  rewrite high_tag_low_tag, Ht. cbn [negb]. den.
  rewrite <- app_assoc, read_length_complete by lia.
  destruct (Z.leb_spec lim (Z.of_nat (length v))); [lia|]. den.
  rewrite Nat2Z.id, length_app.
  destruct (Z.leb_spec (Z.of_nat (length v)) (Z.of_nat (length v + length l))); [|lia].
  den. by rewrite take_app_length, drop_app_length.
Qed.

(** A value whose length reaches the limit is rejected. *)
Lemma read_tlv_limit lim t v l :
  lim <= Z.of_nat (length v) <= LONG_FORM_LEN_FOUR_BYTES_MAX ->
  exists l', den (read_tag_and_get_value_limited lim) (tlv t v ++ l) = (Err BadDer, l').
Proof.
  intros Hlim. unfold read_tag_and_get_value_limited, tlv. simpl app. den.
  rewrite high_tag_low_tag. destruct (low_tag t); cbn [negb]; den; [|eauto].
  rewrite <- app_assoc, read_length_complete by lia.
  destruct (Z.leb_spec lim (Z.of_nat (length v))); [|lia]. den. eauto.
Qed.

Lemma read_tlv_outcome lim l :
  (exists t v l', den (read_tag_and_get_value_limited lim) l = (Ok (t, v), l')) \/
  (exists l', den (read_tag_and_get_value_limited lim) l = (Err BadDer, l')).
Proof.
  unfold read_tag_and_get_value_limited. den.
  destruct l as [|t l]; cbn [opt_outcome head tail]; [eauto|]. den.
  destruct (u8_eqb _ _); den; [eauto|].
  destruct (read_length_outcome l) as [(n & l' & ->)|(l' & ->)]; [|eauto].
  destruct (lim <=? n); den; [eauto|].
  destruct (n <=? _); den; eauto.
Qed.

#[export] Instance lawful_expect_limited tag lim :
  Lawful (expect_tag_and_get_value_limited tag lim).
Proof. unfold expect_tag_and_get_value_limited. lawful. Qed.

#[export] Instance lawful_expect_tag tag : Lawful (expect_tag tag).
Proof. unfold expect_tag. lawful. Qed.

Lemma expect_tag_limited tag :
  expect_tag tag = expect_tag_and_get_value_limited tag TWO_BYTE_DER_SIZE.
Proof. done. Qed.

Lemma expect_sound tag lim l v l' :
  den (expect_tag_and_get_value_limited tag lim) l = (Ok v, l') ->
  l = tlv (tag_u8 tag) v ++ l' /\
  Z.of_nat (length v) < lim /\ Z.of_nat (length v) <= LONG_FORM_LEN_FOUR_BYTES_MAX.
Proof.
  unfold expect_tag_and_get_value_limited. intros H. den_in H.
  destruct (den (read_tag_and_get_value_limited lim) l) as [[[t w]| | |] l1] eqn:E; try done.
  apply read_tlv_sound in E as (-> & _ & ? & ?).
  destruct (u8_to_Z (tag_u8 tag) =? u8_to_Z t) eqn:Et; cbn [negb] in H; den_in H; [|done].
  apply Z.eqb_eq, u8_to_Z_inj in Et. by simplify_eq.
Qed.

Lemma expect_complete tag lim v l :
  Z.of_nat (length v) < lim -> Z.of_nat (length v) <= LONG_FORM_LEN_FOUR_BYTES_MAX ->
  den (expect_tag_and_get_value_limited tag lim) (tlv (tag_u8 tag) v ++ l) = (Ok v, l).
Proof.
  intros. unfold expect_tag_and_get_value_limited. den.
  rewrite read_tlv_complete by (done || apply tag_u8_low).
  rewrite Z.eqb_refl. cbn [negb]. by den.
Qed.

Lemma expect_outcome tag lim l :
  (exists v l', den (expect_tag_and_get_value_limited tag lim) l = (Ok v, l')) \/
  (exists l', den (expect_tag_and_get_value_limited tag lim) l = (Err BadDer, l')).
Proof.
  unfold expect_tag_and_get_value_limited. den.
  destruct (read_tlv_outcome lim l) as [(t & v & l' & ->)|(l' & ->)]; [|eauto].
  destruct (negb _); den; eauto.
Qed.

#[export] Instance lawful_nested_limited {R} tag error (decoder : parser Error R) lim :
  Lawful (nested_limited tag error decoder lim).
Proof. unfold nested_limited. lawful. Qed.

#[export] Instance lawful_nested {R} tag error (decoder : parser Error R) :
  Lawful (nested tag error decoder).
Proof. unfold nested. lawful. Qed.

Lemma nested_limited_sound {R} tag error (decoder : parser Error R) lim l a l' :
  den (nested_limited tag error decoder lim) l = (Ok a, l') ->
  exists v, l = tlv (tag_u8 tag) v ++ l' /\
    Z.of_nat (length v) < lim /\ Z.of_nat (length v) <= LONG_FORM_LEN_FOUR_BYTES_MAX /\
    den decoder v = (Ok a, []).
Proof.
  unfold nested_limited. intros H. den_in H.
  destruct (den (expect_tag_and_get_value_limited tag lim) l) as [[v| | |] l1] eqn:E;
    cbn [fst snd map_err] in H; den_in H; try done.
  apply expect_sound in E as (-> & ? & ?). injection H as H ->.
  apply read_all_ok in H. eauto 6.
Qed.

Lemma nested_limited_complete {R} tag error (decoder : parser Error R) lim v a l :
  Z.of_nat (length v) < lim -> Z.of_nat (length v) <= LONG_FORM_LEN_FOUR_BYTES_MAX ->
  den decoder v = (Ok a, []) ->
  den (nested_limited tag error decoder lim) (tlv (tag_u8 tag) v ++ l) = (Ok a, l).
Proof.
  intros ? ? Hd. unfold nested_limited. den. rewrite expect_complete by done.
  cbn [fst snd map_err]. den. rewrite read_all_den, Hd. done.
Qed.

(** What [nested] returns is the decoder's outcome on the contents, or [error]. *)
Lemma nested_limited_outcome {R} tag error (decoder : parser Error R) lim l :
  (exists v l', den (nested_limited tag error decoder lim) l
                = (read_all v error decoder, l')) \/
  (exists l', den (nested_limited tag error decoder lim) l = (Err error, l')).
Proof.
  unfold nested_limited. den.
  destruct (expect_outcome tag lim l) as [(v & l' & ->)|(l' & ->)];
    cbn [fst snd map_err]; den; eauto.
Qed.

Lemma nested_sound {R} tag error (decoder : parser Error R) l a l' :
  den (nested tag error decoder) l = (Ok a, l') ->
  exists v, l = tlv (tag_u8 tag) v ++ l' /\
    Z.of_nat (length v) < TWO_BYTE_DER_SIZE /\ den decoder v = (Ok a, []).
Proof. intros H. apply nested_limited_sound in H as (v & ? & ? & _ & ?). eauto. Qed.

Lemma nested_complete {R} tag error (decoder : parser Error R) v a l :
  Z.of_nat (length v) < TWO_BYTE_DER_SIZE -> den decoder v = (Ok a, []) ->
  den (nested tag error decoder) (tlv (tag_u8 tag) v ++ l) = (Ok a, l).
Proof.
  intros H. apply nested_limited_complete; [done|].
  unfold TWO_BYTE_DER_SIZE, LONG_FORM_LEN_TWO_BYTES_MAX in H.
  unfold LONG_FORM_LEN_FOUR_BYTES_MAX. lia.
Qed.

(** *** How the primitives end *)
Lemma ends_read_length panics : Ends panics read_length.
Proof. unfold read_length. ends. Qed.
#[local] Hint Resolve ends_read_length : ends.

Lemma ends_read_tlv panics lim : Ends panics (read_tag_and_get_value_limited lim).
Proof. unfold read_tag_and_get_value_limited. ends. Qed.
#[local] Hint Resolve ends_read_tlv : ends.

Lemma ends_expect_limited panics tag lim :
  Ends panics (expect_tag_and_get_value_limited tag lim).
Proof. unfold expect_tag_and_get_value_limited. ends. Qed.
#[local] Hint Resolve ends_expect_limited : ends.

Lemma ends_expect_tag panics tag : Ends panics (expect_tag tag).
Proof. apply ends_expect_limited. Qed.

Lemma ends_nested_limited {R} panics tag error (decoder : parser Error R) lim :
  Ends panics decoder -> Ends panics (nested_limited tag error decoder lim).
Proof. intros H. unfold nested_limited. ends. Qed.

(** The condition for a panic may depend on the bytes. *)
Lemma ends_nested_at {R} panics tag error (decoder : parser Error R) l :
  (forall v l', l = tlv (tag_u8 tag) v ++ l' -> ends panics (fst (den decoder v))) ->
  ends panics (fst (den (nested tag error decoder) l)).
Proof.
  intros H. unfold nested, nested_limited. den.
  destruct (den (expect_tag_and_get_value_limited tag TWO_BYTE_DER_SIZE) l) as [o l'] eqn:E.
  pose proof (ends_expect_limited panics tag TWO_BYTE_DER_SIZE l) as He. rewrite E in He.
  destruct o as [v|e| |]; cbn [fst snd map_err]; den; try done.
  apply expect_sound in E as (-> & _). specialize (H v l' eq_refl). rewrite read_all_den.
  by destruct (den decoder v) as [[] []].
Qed.

Lemma ends_nested {R} panics tag error (decoder : parser Error R) :
  Ends panics decoder -> Ends panics (nested tag error decoder).
Proof. apply ends_nested_limited. Qed.
#[local] Hint Resolve ends_expect_tag ends_nested : ends.

Ltac ends_nesting ::=
  match goal with
  | |- Ends _ (nested_limited _ _ _ _) => apply ends_nested_limited
  | |- Ends _ (nested _ _ _) => apply ends_nested
  end.

(** *** [nested_of_mut] *)
#[export] Instance lawful_nested_of_mut_loop {S} fuel tag error
    (decoder : S -> parser Error S) s :
  Lawful (nested_of_mut_loop fuel tag error decoder s).
Proof. revert s. induction fuel; intros s; simpl; lawful. Qed.

#[export] Instance lawful_nested_of_mut {S} outer inner error
    (decoder : S -> parser Error S) s :
  Lawful (nested_of_mut outer inner error decoder s).
Proof. unfold nested_of_mut. lawful. Qed.

Lemma occurs_in_tlv sub tag v : occurs_in sub v -> occurs_in sub (tlv tag v).
Proof. apply (occurs_in_app_r sub (tag :: encode_length _)). Qed.

Lemma length_tlv tag v : (length v + 2 <= length (tlv tag v))%nat.
Proof.
  unfold tlv. simpl. rewrite length_app.
  unfold encode_length. repeat case_match; simpl; lia.
Qed.

Lemma head_tlv tag v : head (tlv tag v) = Some tag.
Proof. done. Qed.

Lemma head_app_tlv tag v l : head (tlv tag v ++ l) = Some tag.
Proof.
  pose proof (head_tlv tag v) as H. by destruct (tlv tag v).
Qed.

Lemma peek_tlv tag v l b :
  match tlv tag v ++ l with [] => false | c :: _ => u8_eqb c b end = u8_eqb tag b.
Proof. done. Qed.

#[local] Opaque tlv.

Lemma nested_consumes {R} tag error (decoder : parser Error R) l a l' :
  den (nested tag error decoder) l = (Ok a, l') -> (length l' < length l)%nat.
Proof.
  intros (v & -> & _)%nested_sound. rewrite length_app.
  pose proof (length_tlv (tag_u8 tag) v). lia.
Qed.

Lemma ends_nested_of_mut_loop {S} panics tag error (decoder : S -> parser Error S) :
  (forall s, Ends panics (decoder s)) ->
  forall fuel s l, (length l < fuel)%nat ->
  ends panics (fst (den (nested_of_mut_loop fuel tag error decoder s) l)).
Proof.
  intros Hd. induction fuel as [|fuel IH]; intros s l Hl; [lia|]. simpl. den.
  pose proof (ends_nested panics tag error _ (Hd s) l) as Hn.
  destruct (den (nested tag error (decoder s)) l) as [[s'| | |] l'] eqn:E; try done.
  apply nested_consumes in E. den. destruct l' as [|b l']; den; [done|].
  apply IH. simpl in *. lia.
Qed.

Lemma ends_nested_of_mut {S} panics outer inner error (decoder : S -> parser Error S) s :
  (forall s, Ends panics (decoder s)) ->
  Ends panics (nested_of_mut outer inner error decoder s).
Proof.
  intros Hd. apply ends_nested. intros l. den. apply ends_nested_of_mut_loop; [done|lia].
Qed.

Lemma nested_of_mut_loop_sound {S} tag error (decoder : S -> parser Error S) :
  forall fuel s l s' l',
  den (nested_of_mut_loop fuel tag error decoder s) l = (Ok s', l') ->
  l' = [] /\ exists vs, vs <> [] /\ l = concat (map (tlv (tag_u8 tag)) vs) /\
    Forall (fun v => Z.of_nat (length v) < TWO_BYTE_DER_SIZE) vs /\
    decode_all error decoder s vs = Ok s'.
Proof.
  induction fuel as [|fuel IH]; intros s l s' l' H; simpl in H; den_in H; [done|].
  destruct (den (nested tag error (decoder s)) l) as [[s1| | |] l1] eqn:E; try done.
  apply nested_sound in E as (v & -> & Hv & Hs1). den_in H.
  destruct l1 as [|b l1]; den_in H.
  - simplify_eq. split; [done|]. exists [v]. simpl.
    rewrite (proj2 (read_all_ok v error (decoder s) s') Hs1). by repeat constructor.
  - destruct (IH _ _ _ _ H) as (-> & vs & Hne & Hl & Hvs & Hdec).
    split; [done|]. exists (v :: vs). simpl. rewrite Hl.
    rewrite (proj2 (read_all_ok v error (decoder s) s1) Hs1). simpl.
    split_and!; [done|done| |done]. by constructor.
Qed.

Lemma nested_of_mut_loop_complete {S} tag error (decoder : S -> parser Error S) :
  forall vs fuel s s', vs <> [] ->
  Forall (fun v => Z.of_nat (length v) < TWO_BYTE_DER_SIZE) vs ->
  decode_all error decoder s vs = Ok s' ->
  (length (concat (map (tlv (tag_u8 tag)) vs)) < fuel)%nat ->
  den (nested_of_mut_loop fuel tag error decoder s)
    (concat (map (tlv (tag_u8 tag)) vs)) = (Ok s', []).
Proof.
  induction vs as [|v vs IH]; intros fuel s s' Hne Hvs Hdec Hfuel; [done|].
  apply Forall_cons in Hvs as [Hv Hvs]. simpl in Hdec, Hfuel |- *.
  apply obind_ok in Hdec as (s1 & Hs1%read_all_ok & Hdec).
  rewrite length_app in Hfuel. pose proof (length_tlv (tag_u8 tag) v).
  destruct fuel as [|fuel]; [lia|]. simpl. den.
  rewrite (nested_complete tag error (decoder s) v s1) by done. den.
  destruct vs as [|w vs]; simpl; [den; simpl in Hdec; by simplify_eq|].
  den. apply (IH fuel s1 s'); try done. lia.
Qed.

Lemma nested_of_mut_iff {S} outer inner error (decoder : S -> parser Error S) s l s' l' :
  den (nested_of_mut outer inner error decoder s) l = (Ok s', l') <->
  exists vs, vs <> [] /\
    l = tlv (tag_u8 outer) (concat (map (tlv (tag_u8 inner)) vs)) ++ l' /\
    Z.of_nat (length (concat (map (tlv (tag_u8 inner)) vs))) < TWO_BYTE_DER_SIZE /\
    Forall (fun v => Z.of_nat (length v) < TWO_BYTE_DER_SIZE) vs /\
    decode_all error decoder s vs = Ok s'.
Proof.
  unfold nested_of_mut. split.
  - intros (v & -> & Hv & Hd)%nested_sound. den_in Hd.
    apply nested_of_mut_loop_sound in Hd as (_ & vs & ? & -> & ? & ?). eauto 10.
  - intros (vs & Hne & -> & Hlen & Hvs & Hdec). apply nested_complete; [done|]. den.
    apply nested_of_mut_loop_complete; try done. lia.
Qed.

(** *** Integers *)
#[export] Instance lawful_nonnegative_integer : Lawful nonnegative_integer.
Proof. unfold nonnegative_integer. lawful. Qed.

Lemma ends_nonnegative_integer panics : Ends panics nonnegative_integer.
Proof. unfold nonnegative_integer. ends. Qed.
#[local] Hint Resolve ends_nonnegative_integer : ends.

Lemma top_bit_set b : u8_eqb (u8_and b x80) x80 = (128 <=? u8_to_Z b).
Proof. by destruct b. Qed.

Lemma top_bit_clear b : u8_eqb (u8_and b x80) x00 = (u8_to_Z b <? 128).
Proof. by destruct b. Qed.

(** A decoded integer is the magnitude of the canonical encoding read. *)
Lemma nonnegative_integer_sound l v l' :
  den nonnegative_integer l = (Ok v, l') ->
  l = tlv (tag_u8 Integer) (encode_nonneg v) ++ l' /\ canonical_magnitude v = true /\
  Z.of_nat (length (encode_nonneg v)) < TWO_BYTE_DER_SIZE.
Proof.
  unfold nonnegative_integer. rewrite expect_tag_limited. intros H. den_in H.
  destruct (den (expect_tag_and_get_value_limited Integer TWO_BYTE_DER_SIZE) l)
    as [[w| | |] l1] eqn:E; try done.
  apply expect_sound in E as (-> & Hlen & _).
  destruct w as [|first rest]; den_in H; [done|].
  destruct (u8_eqb first x00) eqn:Ef.
  - apply u8_eqb_eq in Ef as ->. destruct rest as [|second rest]; den_in H.
    + simplify_eq. done.
    + rewrite top_bit_set in H.
      destruct (128 <=? u8_to_Z second) eqn:Es; den_in H; [|done].
      simplify_eq. simpl. rewrite Es. split_and!; [done| |done].
      rewrite orb_true_iff, negb_true_iff. left. apply u8_eqb_neq. by intros ->.
  - rewrite top_bit_clear in H.
    destruct (u8_to_Z first <? 128) eqn:E1; den_in H; [|done].
    simplify_eq. simpl. rewrite Ef.
    destruct (Z.leb_spec 128 (u8_to_Z first)); [lia|]. done.
Qed.

Lemma nonnegative_integer_complete v l :
  canonical_magnitude v = true ->
  Z.of_nat (length (encode_nonneg v)) < TWO_BYTE_DER_SIZE ->
  den nonnegative_integer (tlv (tag_u8 Integer) (encode_nonneg v) ++ l) = (Ok v, l).
Proof.
  intros Hv Hlen. unfold nonnegative_integer. rewrite expect_tag_limited. den.
  rewrite expect_complete; [|done|].
  2: { unfold TWO_BYTE_DER_SIZE, LONG_FORM_LEN_TWO_BYTES_MAX in Hlen.
       unfold LONG_FORM_LEN_FOUR_BYTES_MAX. lia. }
  destruct v as [|b rest]; [done|]. simpl in *.
  destruct (128 <=? u8_to_Z b) eqn:Eb.
  - rewrite u8_eqb_refl, top_bit_set, Eb. by den.
  - destruct (u8_eqb b x00) eqn:E0.
    + simpl in Hv. apply bool_decide_eq_true in Hv as ->. by den.
    + rewrite top_bit_clear.
      destruct (Z.ltb_spec (u8_to_Z b) 128); [by den|].
      destruct (Z.leb_spec 128 (u8_to_Z b)); [done|lia].
Qed.

#[export] Instance lawful_u8_from_der : Lawful (from_der (T := u8)).
Proof. cbn [from_der u8_from_der bool_from_der]. lawful. Qed.

Lemma ends_u8_from_der panics : Ends panics (from_der (T := u8)).
Proof. cbn [from_der u8_from_der bool_from_der]. der_ends. Qed.

(** A [u8] is read exactly from the canonical INTEGER of its value. *)
Lemma u8_from_der_iff l b l' :
  den (from_der (T := u8)) l = (Ok b, l') <->
  l = tlv (tag_u8 Integer) (encode_nonneg [b]) ++ l'.
Proof.
  cbn [from_der u8_from_der]. split.
  - intros H. den_in H.
    destruct (den nonnegative_integer l) as [[v| | |] l1] eqn:E; try done.
    apply nonnegative_integer_sound in E as (-> & _ & _).
    destruct v as [|c [|d v]]; den_in H; try done. by simplify_eq.
  - intros ->. den. rewrite nonnegative_integer_complete.
    + by den.
    + simpl. by rewrite orb_true_r.
    + unfold TWO_BYTE_DER_SIZE, LONG_FORM_LEN_TWO_BYTES_MAX. simpl.
      case_match; simpl; lia.
Qed.

(** Reading any value consumes it. *)
Lemma read_tlv_shorter lim l : l <> [] ->
  (length (snd (den (read_tag_and_get_value_limited lim) l)) < length l)%nat.
Proof.
  intros Hl. destruct l as [|t l]; [done|].
  unfold read_tag_and_get_value_limited. den.
  destruct (u8_eqb _ _); den; [simpl; lia|].
  destruct (den read_length l) as [o l'] eqn:E.
  destruct (den_forward _ _ _ _ E) as [c ->].
  destruct o as [n| | |]; simpl; rewrite ?length_app; try lia.
  destruct (lim <=? n); den; simpl; rewrite ?length_app; try lia.
  destruct (n <=? Z.of_nat (length l')); den; simpl;
    rewrite ?length_app, ?length_drop; lia.
Qed.

#[export] Instance progress_u8 : Progress u8.
Proof.
  split; [apply _|]. intros l Hl. cbn [from_der u8_from_der].
  pose proof (read_tlv_shorter TWO_BYTE_DER_SIZE l Hl) as H.
  unfold nonnegative_integer, expect_tag. den.
  destruct (den (read_tag_and_get_value_limited TWO_BYTE_DER_SIZE) l) as [[[t v]| | |] l'];
    cbn [snd] in *; den; try done.
  destruct (negb _); den; [done|].
  repeat first [ done | progress den | progress cbn [snd]
               | match goal with
                 | |- context [if ?b then _ else _] => destruct b
                 | |- context [den match ?v with _ => _ end _] => is_var v; destruct v
                 | |- context [match ?v with _ => _ end] => is_var v; destruct v
                 end ].
Qed.

#[export] Instance lawful_bool_from_der : Lawful (from_der (T := bool)).
Proof. cbn [from_der u8_from_der bool_from_der]. lawful. Qed.

Lemma ends_bool_from_der panics : Ends panics (from_der (T := bool)).
Proof. cbn [from_der u8_from_der bool_from_der]. der_ends. Qed.

(** An optional BOOLEAN: absent is false, and false may be explicit. *)
Lemma bool_from_der_iff l b l' :
  den (from_der (T := bool)) l = (Ok b, l') <->
  (b = false /\ l = l' /\ head l <> Some (tag_u8 Boolean)) \/
  l = tlv (tag_u8 Boolean) [if b then xff else x00] ++ l'.
Proof.
  cbn [from_der bool_from_der]. den. split.
  - destruct (match l with [] => false | c :: _ => u8_eqb c (tag_u8 Boolean) end) eqn:Ep;
      intros H; den_in H.
    + right. apply nested_sound in H as (v & -> & _ & Hd). den_in Hd.
      destruct v as [|c v]; den_in Hd; [done|].
      destruct (u8_eqb c xff) eqn:E1; den_in Hd;
        [apply u8_eqb_eq in E1 as ->; by simplify_eq|].
      destruct (u8_eqb c x00) eqn:E0; den_in Hd; [|done].
      apply u8_eqb_eq in E0 as ->. by simplify_eq.
    + left. simplify_eq. split_and!; [done|done|].
      destruct l' as [|c l']; [done|]. simpl. intros [= ->].
      by rewrite u8_eqb_refl in Ep.
  - intros [(-> & -> & Hh)| ->].
    + replace (match l' with [] => false | c :: _ => u8_eqb c (tag_u8 Boolean) end)
        with false; [by den|].
      destruct l' as [|c l']; [done|]. symmetry. apply u8_eqb_neq. by intros ->.
    + rewrite peek_tlv, u8_eqb_refl. den.
      apply nested_complete; [done|]. destruct b; den; rewrite u8_eqb_refl; [by den|].
      change (u8_eqb x00 xff) with false. by den.
Qed.

(** *** Bit strings *)
#[export] Instance lawful_bit_string_no_unused : Lawful bit_string_with_no_unused_bits.
Proof. unfold bit_string_with_no_unused_bits. lawful. Qed.

Lemma ends_bit_string_no_unused panics : Ends panics bit_string_with_no_unused_bits.
Proof. unfold bit_string_with_no_unused_bits. der_ends. Qed.

Lemma bit_string_no_unused_iff l v l' :
  den bit_string_with_no_unused_bits l = (Ok v, l') <->
  l = tlv (tag_u8 BitString) (x00 :: v) ++ l' /\
  Z.of_nat (length (x00 :: v)) < TWO_BYTE_DER_SIZE.
Proof.
  unfold bit_string_with_no_unused_bits. split.
  - intros (w & -> & Hw & Hd)%nested_sound. den_in Hd.
    destruct w as [|c w]; den_in Hd; [done|].
    destruct (u8_eqb c x00) eqn:E; den_in Hd; [|done].
    apply u8_eqb_eq in E as ->. by simplify_eq.
  - intros [-> Hlen]. apply nested_complete; [done|]. den.
    rewrite u8_eqb_refl. by den.
Qed.

(** [bit_string_flags] on every input; the one-octet input [00] panics. *)
Lemma bit_string_flags_eq input :
  bit_string_flags input =
    match input with
    | [] => Err BadDer
    | padding :: bits =>
      match last bits with
      | None => if u8_eqb padding x00 then Panic else Err BadDer
      | Some last_byte =>
        if (u8_to_Z padding <=? 7) && (u8_to_Z last_byte mod 2 ^ u8_to_Z padding =? 0)
        then Ok {| raw_bits := bits |} else Err BadDer
      end
    end.
Proof.
  unfold bit_string_flags. rewrite read_all_den. den.
  destruct input as [|padding bits]; den; [done|].
  pose proof (u8_to_Z_range padding) as Hr.
  rewrite Z.shiftl_1_l.
  destruct (last bits) as [last_byte|] eqn:El.
  - assert (bits <> []) as Hne by (by intros ->).
    rewrite (bool_decide_eq_false_2 _ Hne). cbn [andb].
    rewrite orb_false_r.
    destruct (Z.ltb_spec 7 (u8_to_Z padding)); den.
    { by destruct (Z.leb_spec (u8_to_Z padding) 7); [lia|]. }
    destruct (Z.leb_spec (u8_to_Z padding) 7); [|lia]. cbn [andb].
    rewrite <- Z.land_ones, Z.ones_equiv, <- Z.sub_1_r by lia.
    destruct (Z.ltb_spec 0 (u8_to_Z padding)); cbn [andb].
    + destruct (Z.land _ _ =? 0); by den.
    + assert (u8_to_Z padding = 0) as -> by lia. den. by rewrite Z.land_0_r.
  - apply last_None in El as ->. rewrite bool_decide_eq_true_2 by done. cbn [andb].
    rewrite u8_eqb_Z. change (u8_to_Z x00) with 0.
    destruct (Z.eqb_spec (u8_to_Z padding) 0) as [->|]; cbn [negb]; [by den|].
    rewrite orb_true_r. by den.
Qed.

(** A string without octets and without padding panics. *)
Lemma ends_bit_string_flags input : ends (input = [x00]) (bit_string_flags input).
Proof.
  rewrite bit_string_flags_eq. destruct input as [|padding bits]; [done|].
  destruct (last bits) as [last_byte|] eqn:El; [by case_match|]. apply last_None in El as ->.
  destruct (u8_eqb padding x00) eqn:E; [|done]. by apply u8_eqb_eq in E as ->.
Qed.

(** *** Flags *)
Lemma bit_of_byte b k : 0 <= k < 8 ->
  negb (Z.land (Z.shiftr (u8_to_Z b) (7 - k)) 1 =? 0)
  = default false (bits_of_byte b !! Z.to_nat k).
Proof.
  intros Hk.
  assert (k = 0 \/ k = 1 \/ k = 2 \/ k = 3 \/ k = 4 \/ k = 5 \/ k = 6 \/ k = 7)
    as Hc by lia.
  repeat (destruct Hc as [->|Hc]; [by destruct b|]). subst k. by destruct b.
Qed.

Lemma bit_set_eq flags k : 0 <= k ->
  bit_set flags k = default false (bits_of flags !! Z.to_nat k).
Proof.
  unfold bit_set, bits_of. destruct flags as [bytes]; simpl. revert k.
  induction bytes as [|b bytes IH]; intros k Hk.
  - cbn [map concat length]. rewrite lookup_nil.
    destruct (Z.ltb_spec (Z.of_nat 0) (k / 8 + 1)); [done|lia_div].
  - cbn [map concat length]. destruct (Z.lt_ge_cases k 8) as [Hlt|Hge].
    + rewrite (Z.div_small k 8), (Z.mod_small k 8) by lia.
      destruct (Z.ltb_spec (Z.of_nat (S (length bytes))) (0 + 1)); [lia|].
      rewrite lookup_app_l by (simpl; lia). by apply bit_of_byte.
    + rewrite lookup_app_r by (simpl; lia).
      replace (Z.to_nat k - length (bits_of_byte b))%nat with (Z.to_nat (k - 8))
        by (simpl; lia).
      rewrite <- IH by lia.
      replace (k / 8) with ((k - 8) / 8 + 1) by lia_div.
      replace (k mod 8) with ((k - 8) mod 8) by lia_div.
      replace (Z.to_nat ((k - 8) / 8 + 1)) with (S (Z.to_nat ((k - 8) / 8))) by lia_div.
      cbn [nth].
      destruct (Z.ltb_spec (Z.of_nat (S (length bytes))) ((k - 8) / 8 + 1 + 1));
        destruct (Z.ltb_spec (Z.of_nat (length bytes)) ((k - 8) / 8 + 1)); done || lia.
Qed.

(** *** Iteration *)
Lemma der_for_loop_items {T E S R} `{!FromDer T, !Progress T}
    (body : outcome Error T -> S -> outcome E (S + R)) :
  forall fuel it s, (length (remaining (reader it)) < fuel)%nat ->
  let res := der_for_loop fuel it body s in
  (fst res, remaining (reader (snd res)))
  = items_for (der_items fuel (remaining (reader it))) (remaining (reader it)) body s.
Proof.
  induction fuel as [|fuel IH]; intros [r] s Hfuel; simpl in *; [lia|].
  unfold der_iterator_next. simpl. rewrite at_end_spec.
  destruct (remaining r) as [|b l] eqn:Hr; [simpl; by rewrite Hr|].
  pose proof (lawful_den (p := from_der (T := T)) r) as Hden.
  pose proof (progress_shorter (T := T) (remaining r)) as Hsh.
  rewrite <- Hden, Hr in Hsh. rewrite Hr in Hden. simpl in Hsh.
  destruct (from_der r) as [item r'] eqn:Ef. simpl in Hden, Hsh.
  rewrite <- Hden.
  assert (length (remaining r') < fuel)%nat as Hl.
  { assert (length (remaining r') < Datatypes.S (length l))%nat by by apply Hsh. simpl in *. lia. }
  destruct item as [a|e| |]; [| |done..]; simpl;
    (destruct (body _ s) as [[s'|v]|e'| |]; [by apply IH|done..]).
Qed.

Lemma der_for_items {T E S R} `{!FromDer T, !Progress T}
    (body : outcome Error T -> S -> outcome E (S + R)) input s :
  fst (der_for (der_iterator_new input) body s)
  = fst (items_for (der_items (Datatypes.S (length input)) input) input body s).
Proof.
  unfold der_for. simpl reader. unfold der_iterator_new.
  pose proof (der_for_loop_items body (Datatypes.S (length input))
    {| reader := reader_new input |} s) as H.
  simpl reader in *. rewrite remaining_new in *. rewrite <- H by lia. done.
Qed.

Lemma der_items_ends_at {T} `{!FromDer T, !Lawful (from_der (T := T))} panics k l :
  (forall consumed l', l = consumed ++ l' -> ends panics (fst (den (from_der (T := T)) l'))) ->
  Forall (ends panics) (map fst (der_items (T := T) k l)).
Proof.
  revert l. induction k as [|k IH]; intros l He; [constructor|].
  destruct l as [|b l]; [constructor|]. cbn [der_items].
  pose proof (He [] (b :: l) eq_refl) as H0. destruct (den from_der (b :: l)) as [item l'] eqn:E.
  simpl. constructor; [done|]. apply den_forward in E as [c Hc]; [|done].
  apply IH. intros c' l'' ->. apply (He (c ++ c')). by rewrite Hc, app_assoc.
Qed.

Lemma der_items_ends {T} `{!FromDer T, !Lawful (from_der (T := T))} panics k l :
  Ends panics (from_der (T := T)) -> Forall (ends panics) (map fst (der_items (T := T) k l)).
Proof. intros He. apply der_items_ends_at. intros _ l' _. apply He. Qed.

(** An exhausted iterator yields nothing, and a loop that runs to its end
    exhausts its iterator. *)
Lemma der_for_exhausted {T E S R} `{!FromDer T}
    (body : outcome Error T -> S -> outcome E (S + R)) it s :
  remaining (reader it) = [] -> der_for it body s = (Ok (inl s), it).
Proof.
  intros H. unfold der_for. rewrite H. simpl. unfold der_iterator_next.
  by rewrite at_end_spec, H.
Qed.

Lemma der_for_exhausts {T E S R} `{!FromDer T}
    (body : outcome Error T -> S -> outcome E (S + R)) it s s' it' :
  der_for it body s = (Ok (inl s'), it') -> remaining (reader it') = [].
Proof.
  unfold der_for. generalize (Datatypes.S (length (remaining (reader it)))) as fuel.
  intros fuel. revert it s. induction fuel as [|fuel IH]; intros it s; simpl; [done|].
  unfold der_iterator_next. rewrite at_end_spec.
  destruct (remaining (reader it)) as [|b l] eqn:Hr; [by intros [= _ <-]|].
  destruct (from_der (reader it)) as [item r].
  destruct item as [a|e| |]; try done;
    (destruct (body _ s) as [[s1|v]|e'| |]; try done; apply IH).
Qed.

(** *** Values of a known tag *)
Lemma two_byte_max {A} (v : list A) : Z.of_nat (length v) < TWO_BYTE_DER_SIZE ->
  Z.of_nat (length v) <= LONG_FORM_LEN_FOUR_BYTES_MAX.
Proof.
  unfold TWO_BYTE_DER_SIZE, LONG_FORM_LEN_TWO_BYTES_MAX, LONG_FORM_LEN_FOUR_BYTES_MAX. lia.
Qed.

Lemma expect_tag_iff tag l v l' :
  den (expect_tag tag) l = (Ok v, l') <->
  l = tlv (tag_u8 tag) v ++ l' /\ Z.of_nat (length v) < TWO_BYTE_DER_SIZE.
Proof.
  rewrite expect_tag_limited. split.
  - intros (-> & ? & _)%expect_sound. done.
  - intros [-> H]. apply expect_complete; [done|]. by apply two_byte_max.
Qed.

Lemma nested_iff {R} tag error (decoder : parser Error R) l a l' :
  den (nested tag error decoder) l = (Ok a, l') <->
  exists v, l = tlv (tag_u8 tag) v ++ l' /\
    Z.of_nat (length v) < TWO_BYTE_DER_SIZE /\ den decoder v = (Ok a, []).
Proof.
  split; [apply nested_sound|]. intros (v & -> & ? & ?). by apply nested_complete.
Qed.

End DerLemmas.

(** A value of a known tag is read from [H], and given to the goal. *)
Ltac read_value H v :=
  match type of H with
  | context [den (expect_tag ?tag) ?l] =>
    let E := fresh "E" in
    destruct (den (expect_tag tag) l) as [[v| | |] ?l1] eqn:E; [|done..];
    apply expect_tag_iff in E as [-> ?]; cbn [fst snd map_err] in H; den_in H
  end.
Ltac give_value tag v := rewrite (proj2 (expect_tag_iff tag _ v _)) by done; den.

Ltac ends_nesting ::=
  match goal with
  | |- Ends _ (nested_limited _ _ _ _) => apply ends_nested_limited
  | |- Ends _ (nested _ _ _) => apply ends_nested
  | |- Ends _ (nested_of_mut _ _ _ _ _) => apply ends_nested_of_mut
  end.

#[global] Opaque tlv.

#[export] Hint Resolve ends_read_length ends_read_tlv ends_expect_limited
  ends_expect_tag ends_nested_limited ends_nested ends_nested_of_mut
  ends_nonnegative_integer ends_u8_from_der ends_bool_from_der
  ends_bit_string_no_unused ends_bit_string_flags : ends.

#[global] Opaque u8_from_der bool_from_der.
#[global] Arguments tag_u8 : simpl never.

(** ** Properties *)
Section DerProperties.
Context {U : Untrusted} {L : UntrustedLaws U}.

(** C26: Reading a value always returns, and reads exactly the values in low
    tag number form with the shortest encoding of their length, below the size
    limit; every other input is [BadDer]. *)
Theorem tlv_canonical lim l :
  let fits t v := low_tag t = true /\ Z.of_nat (length v) < lim /\
                  Z.of_nat (length v) <= LONG_FORM_LEN_FOUR_BYTES_MAX in
  match den (read_tag_and_get_value_limited lim) l with
  | (Ok (t, v), l') => l = tlv t v ++ l' /\ fits t v
  | (Err e, _) => e = BadDer /\ forall t v l', fits t v -> l <> tlv t v ++ l'
  | _ => False
  end.
Proof.
  intros fits. destruct (read_tlv_outcome lim l) as [(t & v & l' & E)|(l' & E)]; rewrite E.
  - by apply read_tlv_sound in E as (-> & ? & ? & ?).
  - split; [done|]. intros t v l1 (? & ? & ?) ->. by rewrite read_tlv_complete in E.
Qed.

(** C37: [nested_of_mut] reads exactly a non-empty sequence of values with the
    inner tag inside one with the outer tag, and runs the decoder on each of
    them in order, with its state threaded through. *)
Theorem nested_of_mut_reads {S} outer inner error (decoder : S -> parser Error S)
    `{!forall s, Lawful (decoder s)} s l s' l' :
  den (nested_of_mut outer inner error decoder s) l = (Ok s', l') <->
  exists vs, vs <> [] /\
    l = tlv (tag_u8 outer) (concat (map (tlv (tag_u8 inner)) vs)) ++ l' /\
    Z.of_nat (length (concat (map (tlv (tag_u8 inner)) vs))) < TWO_BYTE_DER_SIZE /\
    Forall (fun v => Z.of_nat (length v) < TWO_BYTE_DER_SIZE) vs /\
    decode_all error decoder s vs = Ok s'.
Proof. apply nested_of_mut_iff. Qed.

(** C38: A non-negative INTEGER is read exactly from the canonical encoding of
    its magnitude: no negative values, no superfluous leading zeros. *)
Theorem nonnegative_integer_canonical l v l' :
  den nonnegative_integer l = (Ok v, l') <->
  l = tlv (tag_u8 Integer) (encode_nonneg v) ++ l' /\ canonical_magnitude v = true /\
  Z.of_nat (length (encode_nonneg v)) < TWO_BYTE_DER_SIZE.
Proof.
  split; [apply nonnegative_integer_sound|]. intros (-> & ? & ?). by apply nonnegative_integer_complete.
Qed.

(** C30: The flags of a BIT STRING are its bits, the most significant bit of
    each octet first; the string is accepted when the number of padding bits
    is at most 7 and they are zeros, and a string without octets and without
    padding panics. *)
Theorem bit_string_flags_bits input :
  match bit_string_flags input with
  | Ok flags => (exists padding last_byte, input = padding :: raw_bits flags /\
      last (raw_bits flags) = Some last_byte /\
      u8_to_Z padding <= 7 /\ u8_to_Z last_byte mod 2 ^ u8_to_Z padding = 0) /\
      forall bit, 0 <= bit ->
      bit_set flags bit = default false (bits_of flags !! Z.to_nat bit)
  | Err e => e = BadDer /\ forall padding octets last_byte, input = padding :: octets ->
      last octets = Some last_byte ->
      ~ (u8_to_Z padding <= 7 /\ u8_to_Z last_byte mod 2 ^ u8_to_Z padding = 0)
  | Panic => input = [x00]
  | OutOfFuel => False
  end.
Proof.
  rewrite bit_string_flags_eq. destruct input as [|padding bits]; [done|].
  destruct (last bits) as [b|] eqn:El.
  - destruct (Z.leb_spec (u8_to_Z padding) 7) as [Hp|Hp]; cbn [andb];
      [|split; [done|]; intros ? ? ? [= <- <-] _; lia].
    destruct (Z.eqb_spec (u8_to_Z b mod 2 ^ u8_to_Z padding) 0) as [Hz|Hz].
    + split; [eauto 6|]. intros bit. apply bit_set_eq.
    + split; [done|]. intros ? ? ? [= <- <-] Hb. rewrite El in Hb. injection Hb as <-. tauto.
  - apply last_None in El as ->. destruct (u8_eqb padding x00) eqn:E.
    + by apply u8_eqb_eq in E as ->.
    + split; [done|]. by intros ? ? ? [= <- <-].
Qed.
End DerProperties.

Lemma tlv_canonical_witness :
  match den (U := slice_reader) (read_tag_and_get_value_limited TWO_BYTE_DER_SIZE) [x04; x01; xff; x05] with
  | (Ok (t, v), l') => t = x04 /\ v = [xff] /\ l' = [x05]
  | _ => False
  end.
Proof.
  pose proof (tlv_canonical (U := slice_reader) TWO_BYTE_DER_SIZE [x04; x01; xff; x05]) as H.
  vm_compute in H |- *. tauto.
Defined.

Lemma nested_of_mut_reads_witness :
  den (U := slice_reader) (nested_of_mut Sequence Integer BadDer
        (fun s => let! b := p_read_byte in pret (s ++ [b])) [])
      [x30; x06; x02; x01; x07; x02; x01; x09] = (Ok [x07; x09], []).
Proof.
  apply (nested_of_mut_reads (U := slice_reader)); [intros s; lawful|].
  exists [[x07]; [x09]]. split_and!; try done. by repeat constructor.
Defined.

Lemma nonnegative_integer_canonical_witness :
  den (U := slice_reader) nonnegative_integer [x02; x02; x00; x80; x05] = (Ok [x80], [x05]).
Proof. apply (nonnegative_integer_canonical (U := slice_reader)). by vm_compute. Defined.

Lemma bit_string_flags_bits_witness :
  match bit_string_flags (U := slice_reader) [x01; x06] with
  | Ok flags => bit_set flags 6 = true /\ bit_set flags 5 = true /\ bit_set flags 0 = false
  | _ => False
  end.
Proof.
  pose proof (bit_string_flags_bits (U := slice_reader) [x01; x06]) as H.
  assert (exists flags, bit_string_flags (U := slice_reader) [x01; x06] = Ok flags /\
    raw_bits flags = [x06]) as (flags & E & Hb) by (eexists; split; [vm_compute; reflexivity|vm_compute; reflexivity]).
  rewrite E in H |- *. destruct H as [_ H]. destruct flags as [bits]. simpl in Hb. subst bits.
  rewrite !H by lia. by vm_compute.
Defined.
