(* ===== verification/Samples.v ===== *)
(** * Concrete inputs

    Small DER messages, written with the reference encoder of [Der.v], at which
    the theorems are instantiated: a certification path of three certificates,
    a revocation list and a toy signature scheme. *)
From Stdlib Require Import Strings.String.
From S2P Require Import Prelude Errors Untrusted Der.

Definition ascii_bytes (s : string) : Input := String.list_byte_of_string s.

Definition der_sequence (v : Input) : Input := tlv (tag_u8 Sequence) v.
Definition der_octets (v : Input) : Input := tlv (tag_u8 OctetString) v.
Definition der_utc_time (s : string) : Input := tlv (tag_u8 UTCTime) (ascii_bytes s).

(** The contents of a name with a common name. *)
Definition sample_name (cn : string) : Input :=
  tlv (tag_u8 Set')
    (der_sequence (tlv (tag_u8 OID) ["U"%byte; x04; x03] ++ tlv (tag_u8 UTF8String) (ascii_bytes cn))).

Definition example_com : Input := ascii_bytes "example.com".
Definition www_example_com : Input := ascii_bytes "www.example.com".
Definition upper_case_example_com : Input := ascii_bytes "WWW.Example.COM".
Definition wildcard_example_com : Input := ascii_bytes "*.example.com".
Definition loopback : Input := ascii_bytes "127.0.0.1".
Definition root_name : Input := sample_name "root".
Definition sample_name_ca : Input := sample_name "ca".
Definition sample_date : Input := der_utc_time "230201000000Z".

(** The algorithm identifiers of signatures and keys. *)
Definition sample_sig_alg : Input := tlv (tag_u8 OID) [x2a; x01].
Definition sample_key_alg : Input := tlv (tag_u8 OID) [x2a; x02].

(** A subject public key info, without its SEQUENCE, as certificates hold it. *)
Definition sample_spki (key : Input) : Input :=
  der_sequence sample_key_alg ++ tlv (tag_u8 BitString) (x00 :: key).

Definition sample_validity : Input :=
  der_utc_time "230101000000Z" ++ der_utc_time "330101000000Z".

(** An extension with the OID 2.5.29.[id]. *)
Definition sample_extension (id : u8) (critical : bool) (value : Input) : Input :=
  der_sequence
    (tlv (tag_u8 OID) [x55; x1d; id]
     ++ (if critical then tlv (tag_u8 Boolean) [xff] else [])
     ++ der_octets value).

(** A signed message: the toy signature of a message is the key. *)
Definition sample_signed (tbs signing_key : Input) : Input :=
  der_sequence (der_sequence tbs ++ der_sequence sample_sig_alg
                ++ tlv (tag_u8 BitString) (x00 :: signing_key)).

Definition sample_cert (serial : u8) (issuer subject : string) (key signing_key : Input)
    (extensions : list Input) : Input :=
  sample_signed
    (tlv (tag_u8 ContextSpecificConstructed0) (tlv (tag_u8 Integer) [x02])
     ++ tlv (tag_u8 Integer) [serial]
     ++ der_sequence sample_sig_alg
     ++ der_sequence (sample_name issuer)
     ++ der_sequence sample_validity
     ++ der_sequence (sample_name subject)
     ++ der_sequence (sample_spki key)
     ++ tlv (tag_u8 ContextSpecificConstructed3) (der_sequence (concat extensions)))
    signing_key.

(** The extensions of the certificates. *)
Definition dns_name_der (name : string) : Input :=
  tlv x82 (ascii_bytes name).
Definition sample_san : Input :=
  sample_extension x11 false (der_sequence (dns_name_der "www.example.com")).
Definition sample_ca_constraints : Input :=
  sample_extension x13 true
    (der_sequence (tlv (tag_u8 Boolean) [xff] ++ tlv (tag_u8 Integer) [x00])).
Definition sample_bases : Input := der_sequence (dns_name_der "example.com").
Definition sample_subtrees : Input := tlv (tag_u8 ContextSpecificConstructed0) sample_bases.
Definition sample_name_constraints : Input := der_sequence sample_subtrees.
Definition sample_key_usage : Input :=
  sample_extension x0f true (tlv (tag_u8 BitString) [x01; x06]).

(** An end entity issued by an intermediate issued by a root, each with the
    key named after it. *)
Definition ee_key : Input := [x30].
Definition ca_key : Input := [x20].
Definition root_key : Input := [x10].

Definition ee_der : Input := sample_cert x05 "ca" "www.example.com" ee_key ca_key [sample_san].
Definition ca_der : Input :=
  sample_cert x04 "root" "ca" ca_key root_key
    [sample_ca_constraints; sample_key_usage; sample_extension x1e true sample_name_constraints].

Definition revoked_ee_der : Input :=
  sample_cert x07 "ca" "www.example.com" ee_key ca_key [sample_san].

(** A revocation list of the intermediate that lists the serial number 7. *)
Definition sample_revoked : Input :=
  der_sequence (tlv (tag_u8 Integer) [x07] ++ sample_date
    ++ der_sequence (sample_extension x15 false (tlv (tag_u8 Enum) [x01]))).
Definition sample_crl_with (extensions entries : Input) : Input :=
  sample_signed
    (tlv (tag_u8 Integer) [x01]
     ++ der_sequence sample_sig_alg
     ++ der_sequence (sample_name "ca")
     ++ der_utc_time "230101000000Z" ++ der_utc_time "330101000000Z"
     ++ der_sequence entries
     ++ tlv (tag_u8 ContextSpecificConstructed0)
          (der_sequence
             (sample_extension x14 false (tlv (tag_u8 Integer) [x03]) ++ extensions)))
    ca_key.
Definition sample_crl : Input -> Input := sample_crl_with [].
Definition crl_der : Input := sample_crl sample_revoked.
