(* ===== verification/Time.v ===== *)
(** * [src/time.rs]: DER times and the calendar

    [Time] is a [u64] number of seconds since the Unix epoch.  The arithmetic
    is the checked one of the prelude, so that the theorems include the
    absence of overflow. *)
From S2P Require Import Prelude Errors Untrusted Der Samples.

(** [Time(u64)]; the derived [PartialOrd] is the order of the number. *)
Record Time : Type := { seconds_since_unix_epoch : Z }.

Definition from_seconds_since_unix_epoch (secs : Z) : Time :=
  {| seconds_since_unix_epoch := secs |}.

(** [TryFrom<std::time::SystemTime>]: the standard library's time is its
    nanoseconds since the Unix epoch, negative before it. *)
Inductive SystemTimeError : Type := mkSystemTimeError.

Definition Time_try_from_system_time (value : Z) : outcome SystemTimeError Time :=
  if value <? 0 then Err mkSystemTimeError
  else Ok (from_seconds_since_unix_epoch (value / 10 ^ 9)).

Definition time_ltb (a b : Time) : bool :=
  seconds_since_unix_epoch a <? seconds_since_unix_epoch b.

(** ** The calendar *)
Definition UNIX_EPOCH_YEAR : Z := 1970.
Definition DAYS_BEFORE_UNIX_EPOCH_AD : Z := 1969 * 365 + 477.

Definition days_in_feb (year : Z) : Z :=
  if (year mod 4 =? 0) && (negb (year mod 100 =? 0) || (year mod 400 =? 0))
  then 29 else 28.

(** [unreachable!()] for a month outside [1..=12]. *)
Definition days_in_month (year month : Z) : outcome Error Z :=
  match month with
  | 1 | 3 | 5 | 7 | 8 | 10 | 12 => Ok 31
  | 4 | 6 | 9 | 11 => Ok 30
  | 2 => Ok (days_in_feb year)
  | _ => Panic
  end.

Definition days_before_year_ad (year : Z) : outcome Error Z :=
  let? y := u64_sub year 1 in
  let? days := u64_mul y 365 in
  let? days := u64_add days (y / 4) in
  let? days := u64_sub days (y / 100) in
  u64_add days (y / 400).

Definition days_before_year_since_unix_epoch (year : Z) : outcome Error Z :=
  if year <? UNIX_EPOCH_YEAR then Err BadDerTime
  else
    let? days_before_year_ad := days_before_year_ad year in
    (* debug_assert!(days_before_year_ad >= DAYS_BEFORE_UNIX_EPOCH_AD) *)
    if days_before_year_ad <? DAYS_BEFORE_UNIX_EPOCH_AD then Panic
    else u64_sub days_before_year_ad DAYS_BEFORE_UNIX_EPOCH_AD.

(** [a + b + ...] on [u64], from left to right. *)
Fixpoint u64_sum_from (acc : Z) (l : list Z) : outcome Error Z :=
  match l with
  | [] => Ok acc
  | x :: l => let? acc := u64_add acc x in u64_sum_from acc l
  end.

(** The [match month] of [time_from_ymdhms_utc]. *)
Definition days_before_month_in_year (feb month : Z) : outcome Error Z :=
  let JAN := 31 in let MAR := 31 in let APR := 30 in let MAY := 31 in
  let JUN := 30 in let JUL := 31 in let AUG := 31 in let SEP := 30 in
  let OCT := 31 in let NOV := 30 in
  match month with
  | 1 => Ok 0
  | 2 => Ok JAN
  | 3 => u64_sum_from JAN [feb]
  | 4 => u64_sum_from JAN [feb; MAR]
  | 5 => u64_sum_from JAN [feb; MAR; APR]
  | 6 => u64_sum_from JAN [feb; MAR; APR; MAY]
  | 7 => u64_sum_from JAN [feb; MAR; APR; MAY; JUN]
  | 8 => u64_sum_from JAN [feb; MAR; APR; MAY; JUN; JUL]
  | 9 => u64_sum_from JAN [feb; MAR; APR; MAY; JUN; JUL; AUG]
  | 10 => u64_sum_from JAN [feb; MAR; APR; MAY; JUN; JUL; AUG; SEP]
  | 11 => u64_sum_from JAN [feb; MAR; APR; MAY; JUN; JUL; AUG; SEP; OCT]
  | 12 => u64_sum_from JAN [feb; MAR; APR; MAY; JUN; JUL; AUG; SEP; OCT; NOV]
  | _ => Panic
  end.

Definition time_from_ymdhms_utc
    (year month day_of_month hours minutes seconds : Z) : outcome Error Time :=
  let? days_before_year := days_before_year_since_unix_epoch year in
  let feb := days_in_feb year in
  let? days_before_month := days_before_month_in_year feb month in
  let? days_before := u64_sum_from days_before_year [days_before_month; day_of_month] in
  let? days_before := u64_sub days_before 1 in
  let? t := u64_mul days_before 24 in
  let? t := u64_mul t 60 in
  let? t := u64_mul t 60 in
  let? h := u64_mul hours 60 in
  let? h := u64_mul h 60 in
  let? m := u64_mul minutes 60 in
  let? secs := u64_sum_from t [h; m; seconds] in
  Ok (from_seconds_since_unix_epoch secs).

(** ** Parsing *)
Section TimeFromDer.
Context {U : Untrusted}.

Definition read_digit : parser Error Z :=
  let! b := p_read_byte_or BadDerTime in
  if u8_in x30 x39 b then pret (u8_to_Z b - u8_to_Z x30) else pfail BadDerTime.

Definition read_two_digits (min max : Z) : parser Error Z :=
  let! hi := read_digit in
  let! lo := read_digit in
  let! tens := plift (u64_mul hi 10) in
  let! value := plift (u64_add tens lo) in
  if (value <? min) || (max <? value) then pfail BadDerTime else pret value.

(** The closure [from_der] passes to [der::nested]. *)
Definition read_time (is_utc_time : bool) : parser Error Time :=
  let! (year_hi, year_lo) :=
    (if is_utc_time then
       let! lo := read_two_digits 0 99 in
       pret (if 50 <=? lo then 19 else 20, lo)
     else
       let! hi := read_two_digits 0 99 in
       let! lo := read_two_digits 0 99 in
       pret (hi, lo)) in
  let! century := plift (u64_mul year_hi 100) in
  let! year := plift (u64_add century year_lo) in
  let! month := read_two_digits 1 12 in
  let! days_in_month := plift (days_in_month year month) in
  let! day_of_month := read_two_digits 1 days_in_month in
  let! hours := read_two_digits 0 23 in
  let! minutes := read_two_digits 0 59 in
  let! seconds := read_two_digits 0 59 in
  let! time_zone := p_read_byte_or BadDerTime in
  if negb (u8_eqb time_zone x5a) then pfail BadDerTime
  else plift (time_from_ymdhms_utc year month day_of_month hours minutes seconds).

#[export] Instance time_from_der : FromDer Time := {|
  from_der :=
    let! is_utc_time := p_peek (tag_u8 UTCTime) in
    let expected_tag := if is_utc_time then UTCTime else GeneralizedTime in
    nested expected_tag (TrailingData TimeId) (read_time is_utc_time);
  TYPE_ID := TimeId;
|}.
End TimeFromDer.

(** ** Reference definitions *)

(** A calendar date and time of day, in UTC. *)
Record civil : Type := {
  c_year : Z; c_month : Z; c_day : Z; c_hour : Z; c_min : Z; c_sec : Z
}.

(** The leap years and the lengths of the months of the Gregorian calendar. *)
Definition leap_year (year : Z) : bool :=
  (year mod 400 =? 0) || (year mod 4 =? 0) && negb (year mod 100 =? 0).

Definition month_length (year month : Z) : Z :=
  if (month =? 2) && leap_year year then 29
  else nth (Z.to_nat (month - 1)) [31; 28; 31; 30; 31; 30; 31; 31; 30; 31; 30; 31] 0.

Definition year_length (year : Z) : Z := if leap_year year then 366 else 365.

(** Dates the parser can express: a real day of a year of at most four digits. *)
Definition valid_civil (c : civil) : Prop :=
  1970 <= c_year c <= 9999 /\ 1 <= c_month c <= 12 /\
  1 <= c_day c <= month_length (c_year c) (c_month c) /\
  0 <= c_hour c <= 23 /\ 0 <= c_min c <= 59 /\ 0 <= c_sec c <= 59.

(** The days of the years [1970 .. year - 1], one year at a time. *)
Definition days_of_years (year : Z) : Z :=
  fold_right Z.add 0
    (map (fun n => year_length (1970 + Z.of_nat n)) (seq 0 (Z.to_nat (year - 1970)))).

(** The days of the months [1 .. month - 1] of a year, one month at a time. *)
Definition days_of_months (year month : Z) : Z :=
  fold_right Z.add 0
    (map (fun n => month_length year (1 + Z.of_nat n)) (seq 0 (Z.to_nat (month - 1)))).

(** The seconds since the epoch, by counting the days. *)
Definition civil_seconds (c : civil) : Z :=
  let days := days_of_years (c_year c) + days_of_months (c_year c) (c_month c)
              + (c_day c - 1) in
  ((days * 24 + c_hour c) * 60 + c_min c) * 60 + c_sec c.

(** Two decimal digits. *)
Definition two_digits (n : Z) : list u8 := [u8_of_Z (48 + n / 10); u8_of_Z (48 + n mod 10)].

(** The text after the year, [MMDDHHMMSSZ]. *)
Definition civil_text (c : civil) : list u8 :=
  two_digits (c_month c) ++ two_digits (c_day c) ++ two_digits (c_hour c) ++
  two_digits (c_min c) ++ two_digits (c_sec c) ++ [x5a].

Definition utc_time_text (c : civil) : list u8 :=
  two_digits (c_year c mod 100) ++ civil_text c.
Definition generalized_time_text (c : civil) : list u8 :=
  two_digits (c_year c / 100) ++ two_digits (c_year c mod 100) ++ civil_text c.

(** The DER encodings of a time. *)
Definition encodes_time (t : Time) (v : Input) : Prop :=
  exists c, valid_civil c /\ t = from_seconds_since_unix_epoch (civil_seconds c) /\
    (v = tlv (tag_u8 UTCTime) (utc_time_text c) /\ c_year c <= 2049 \/
     v = tlv (tag_u8 GeneralizedTime) (generalized_time_text c)).

(** Lexicographic order. *)
Definition civil_lt (a b : civil) : Prop :=
  c_year a < c_year b \/ c_year a = c_year b /\
  (c_month a < c_month b \/ c_month a = c_month b /\
  (c_day a < c_day b \/ c_day a = c_day b /\
  (c_hour a < c_hour b \/ c_hour a = c_hour b /\
  (c_min a < c_min b \/ c_min a = c_min b /\ c_sec a < c_sec b)))).

(** ** Lemmas: the calendar *)
Lemma days_in_feb_cases year :
  leap_year year = false /\ days_in_feb year = 28 \/ leap_year year = true /\ days_in_feb year = 29.
Proof.
  unfold leap_year, days_in_feb.
  destruct (Z.eqb_spec (year mod 4) 0), (Z.eqb_spec (year mod 100) 0), (Z.eqb_spec (year mod 400) 0);
    cbn [negb andb orb]; auto; exfalso; lia_div.
Qed.

Lemma fold_right_add_app l a : fold_right Z.add a l = fold_right Z.add 0 l + a.
Proof. induction l as [|x l IH]; simpl; lia. Qed.

Lemma days_of_years_succ year : 1970 <= year ->
  days_of_years (year + 1) = days_of_years year + year_length year.
Proof.
  intros H. unfold days_of_years.
  replace (Z.to_nat (year + 1 - 1970)) with (Z.to_nat (year - 1970) + 1)%nat by lia.
  rewrite seq_app, map_app, fold_right_app, fold_right_add_app. simpl.
  replace (1970 + Z.of_nat (Z.to_nat (year - 1970))) with year by lia. lia.
Qed.

Lemma days_of_months_succ year month : 1 <= month ->
  days_of_months year (month + 1) = days_of_months year month + month_length year month.
Proof.
  intros H. unfold days_of_months.
  replace (Z.to_nat (month + 1 - 1)) with (Z.to_nat (month - 1) + 1)%nat by lia.
  rewrite seq_app, map_app, fold_right_app, fold_right_add_app. simpl.
  replace (1 + Z.of_nat (Z.to_nat (month - 1))) with month by lia. lia.
Qed.

(** The closed form counts the leap years. *)
Lemma days_of_years_closed year : 1970 <= year ->
  days_of_years year =
    (year - 1) * 365 + (year - 1) / 4 - (year - 1) / 100 + (year - 1) / 400
    - DAYS_BEFORE_UNIX_EPOCH_AD.
Proof.
  intros H. replace year with (1970 + Z.of_nat (Z.to_nat (year - 1970))) by lia.
  generalize (Z.to_nat (year - 1970)) as n. clear. induction n as [|n IH]; [done|].
  rewrite Nat2Z.inj_succ, <- Z.add_1_l, Z.add_assoc, (Z.add_comm 1970 1), <- Z.add_assoc,
    Z.add_comm.
  rewrite days_of_years_succ, IH by lia. generalize (1970 + Z.of_nat n) as y. intros y.
  unfold year_length, leap_year.
  destruct (Z.eqb_spec (y mod 4) 0), (Z.eqb_spec (y mod 100) 0), (Z.eqb_spec (y mod 400) 0);
    cbn [negb andb orb]; simpl Z.eqb; cbv iota; lia_div.
Qed.

Lemma days_of_years_bound year : 1970 <= year <= 9999 -> 0 <= days_of_years year < 3000000.
Proof. intros H. rewrite days_of_years_closed by lia. unfold DAYS_BEFORE_UNIX_EPOCH_AD. lia_div. Qed.

Lemma days_before_year_since_unix_epoch_eq year : 1970 <= year <= 9999 ->
  days_before_year_since_unix_epoch year = Ok (days_of_years year).
Proof.
  intros H. pose proof (days_of_years_bound year H) as Hb.
  rewrite days_of_years_closed in * by lia.
  unfold days_before_year_since_unix_epoch, days_before_year_ad, UNIX_EPOCH_YEAR.
  destruct (Z.ltb_spec year 1970); [lia|].
  rewrite u64_sub_ok by lia. simpl. rewrite u64_mul_ok by lia. simpl.
  rewrite u64_add_ok by lia_div. simpl. rewrite u64_sub_ok by lia_div. simpl.
  rewrite u64_add_ok by lia_div. simpl.
  destruct (Z.ltb_spec ((year - 1) * 365 + (year - 1) / 4 - (year - 1) / 100
                        + (year - 1) / 400) DAYS_BEFORE_UNIX_EPOCH_AD); [lia|].
  by rewrite u64_sub_ok by lia.
Qed.

(** A month number as one of twelve. *)
Ltac month_cases m :=
  let H := fresh in
  assert (m = 1 \/ m = 2 \/ m = 3 \/ m = 4 \/ m = 5 \/ m = 6 \/ m = 7 \/ m = 8 \/
          m = 9 \/ m = 10 \/ m = 11 \/ m = 12) as H by lia;
  repeat (destruct H as [->|H]); [..|subst m].

Lemma days_in_month_ok year month : 1 <= month <= 12 ->
  days_in_month year month = Ok (month_length year month) /\
  28 <= month_length year month <= 31.
Proof.
  intros H. destruct (days_in_feb_cases year) as [[Hl Hf]|[Hl Hf]];
    month_cases month; cbv [month_length days_in_month]; simpl; rewrite ?Hl, ?Hf;
    (split; [done|lia]).
Qed.

Lemma days_before_month_in_year_eq year month : 1 <= month <= 12 ->
  days_before_month_in_year (days_in_feb year) month = Ok (days_of_months year month) /\
  0 <= days_of_months year month <= 335.
Proof.
  intros H. destruct (days_in_feb_cases year) as [[Hl Hf]|[Hl Hf]];
    month_cases month; cbv [days_of_months month_length days_in_month]; simpl;
    rewrite ?Hl, ?Hf; simpl; (split; [done|lia]).
Qed.

Lemma civil_seconds_bound c : valid_civil c -> 0 <= civil_seconds c < 2 ^ 48.
Proof.
  intros (Hy & Hm & Hd & Hh & Hmi & Hs). unfold civil_seconds.
  pose proof (days_of_years_bound _ Hy).
  destruct (days_before_month_in_year_eq (c_year c) _ Hm) as [_ ?].
  destruct (days_in_month_ok (c_year c) _ Hm) as [_ ?]. lia.
Qed.

Lemma time_from_ymdhms_utc_eq c : valid_civil c ->
  time_from_ymdhms_utc (c_year c) (c_month c) (c_day c) (c_hour c) (c_min c) (c_sec c)
  = Ok (from_seconds_since_unix_epoch (civil_seconds c)).
Proof.
  intros (Hy & Hm & Hd & Hh & Hmi & Hs). unfold time_from_ymdhms_utc, civil_seconds.
  pose proof (days_of_years_bound _ Hy).
  rewrite days_before_year_since_unix_epoch_eq by done.
  destruct (days_before_month_in_year_eq (c_year c) _ Hm) as [-> ?].
  destruct (days_in_month_ok (c_year c) _ Hm) as [_ ?].
  generalize dependent (days_of_years (c_year c)). intros dy ?.
  generalize dependent (days_of_months (c_year c) (c_month c)). intros dm ?.
  cbn [obind u64_sum_from].
  repeat (first [rewrite u64_add_ok by lia | rewrite u64_sub_ok by lia
                | rewrite u64_mul_ok by lia]; cbn [obind u64_sum_from]).
  do 2 f_equal. lia.
Qed.

Lemma time_from_ymdhms_utc_early year month day hour min sec : year < 1970 ->
  time_from_ymdhms_utc year month day hour min sec = Err BadDerTime.
Proof.
  intros. unfold time_from_ymdhms_utc, days_before_year_since_unix_epoch, UNIX_EPOCH_YEAR.
  by destruct (Z.ltb_spec year 1970); [|lia].
Qed.

(** *** The order of times is the order of dates *)
Lemma days_of_years_mono y y' : 1970 <= y -> y < y' ->
  days_of_years y + year_length y <= days_of_years y'.
Proof.
  intros Hy Hlt. replace y' with (y + 1 + Z.of_nat (Z.to_nat (y' - y - 1))) by lia.
  generalize (Z.to_nat (y' - y - 1)) as n. intros n. clear Hlt. induction n as [|n IH].
  - rewrite <- days_of_years_succ by lia. rewrite Z.add_0_r. lia.
  - replace (y + 1 + Z.of_nat (S n)) with ((y + 1 + Z.of_nat n) + 1) by lia.
    rewrite days_of_years_succ by lia.
    unfold year_length at 2. case_match; lia.
Qed.

Lemma days_of_months_mono y m m' : 1 <= m -> m < m' <= 12 ->
  days_of_months y m + month_length y m <= days_of_months y m'.
Proof.
  intros Hm Hlt. destruct (days_in_feb_cases y) as [[Hl Hf]|[Hl Hf]];
    month_cases m'; month_cases m; try lia;
    cbv [days_of_months month_length days_in_month]; simpl; rewrite ?Hl, ?Hf; lia.
Qed.

Lemma days_of_months_in_year y m : 1 <= m <= 12 ->
  days_of_months y m + month_length y m <= year_length y.
Proof.
  intros Hm. unfold year_length. destruct (days_in_feb_cases y) as [[Hl Hf]|[Hl Hf]];
    month_cases m;
    cbv [days_of_months month_length days_in_month]; simpl; rewrite ?Hl, ?Hf; simpl; lia.
Qed.

Lemma civil_seconds_mono a b : valid_civil a -> valid_civil b -> civil_lt a b ->
  civil_seconds a < civil_seconds b.
Proof.
  intros (Hya & Hma & Hda & Hha & Hmia & Hsa) (Hyb & Hmb & Hdb & Hhb & Hmib & Hsb) Hlt.
  destruct (days_before_month_in_year_eq (c_year b) _ Hmb) as [_ ?].
  pose proof (days_of_months_in_year (c_year a) _ Hma).
  unfold civil_seconds.
  destruct Hlt as [Hlt|[Ey [Hlt|[Em Hlt]]]]; [|rewrite Ey in *|rewrite Ey, Em in *].
  - pose proof (days_of_years_mono (c_year a) (c_year b)). lia.
  - pose proof (days_of_months_mono (c_year b) (c_month a) (c_month b)). lia.
  - destruct Hlt as [?|[? [?|[? [?|[? ?]]]]]]; lia.
Qed.

(** ** Lemmas: parsing *)
Section TimeLemmas.
Context {U : Untrusted} {L : UntrustedLaws U}.

#[export] Instance lawful_read_digit : Lawful read_digit.
Proof. unfold read_digit. lawful. Qed.
#[export] Instance lawful_read_two_digits min max : Lawful (read_two_digits min max).
Proof. unfold read_two_digits. lawful. Qed.
#[export] Instance lawful_read_time is_utc : Lawful (read_time is_utc).
Proof. unfold read_time. lawful. Qed.
#[export] Instance lawful_time_from_der : Lawful (from_der (T := Time)).
Proof. cbn [from_der time_from_der]. lawful. Qed.

Lemma read_digit_sound l d l' :
  den read_digit l = (Ok d, l') -> l = u8_of_Z (48 + d) :: l' /\ 0 <= d <= 9.
Proof.
  unfold read_digit. intros H. den_in H. next_byte H l.
  destruct (u8_in x30 x39 b) eqn:E; den_in H; [|done]. simplify_eq.
  apply andb_true_iff in E as [E1%Z.leb_le E2%Z.leb_le].
  change (u8_to_Z x30) with 48 in *. change (u8_to_Z x39) with 57 in *.
  split; [|lia]. f_equal. symmetry. apply u8_of_Z_eq. lia.
Qed.

Lemma read_digit_complete d l : 0 <= d <= 9 ->
  den read_digit (u8_of_Z (48 + d) :: l) = (Ok d, l).
Proof.
  intros H. unfold read_digit. den. unfold u8_in.
  rewrite u8_to_of_Z by lia. change (u8_to_Z x30) with 48. change (u8_to_Z x39) with 57.
  destruct (Z.leb_spec 48 (48 + d)), (Z.leb_spec (48 + d) 57); try lia. den.
  f_equal. f_equal. lia.
Qed.

Lemma read_two_digits_iff min max l v l' : 0 <= min -> max <= 99 ->
  den (read_two_digits min max) l = (Ok v, l') <->
  l = two_digits v ++ l' /\ min <= v <= max.
Proof.
  intros Hmin Hmax. unfold read_two_digits, two_digits. split.
  - intros H. den_in H.
    destruct (den read_digit l) as [[hi| | |] l1] eqn:E1; try done.
    apply read_digit_sound in E1 as [-> Hhi]. den_in H.
    destruct (den read_digit l1) as [[lo| | |] l2] eqn:E2; try done.
    apply read_digit_sound in E2 as [-> Hlo]. den_in H.
    rewrite u64_mul_ok in H by lia. den_in H. rewrite u64_add_ok in H by lia. den_in H.
    destruct ((hi * 10 + lo <? min) || (max <? hi * 10 + lo)) eqn:E; den_in H; [done|].
    apply orb_false_iff in E as [?%Z.ltb_ge ?%Z.ltb_ge]. simplify_eq.
    split; [|lia]. simpl. repeat f_equal; lia_div.
  - intros [-> Hv]. simpl. den. rewrite read_digit_complete by lia_div. den.
    rewrite read_digit_complete by lia_div. den.
    rewrite u64_mul_ok by lia_div. den. rewrite u64_add_ok by lia_div. den.
    replace (v / 10 * 10 + v mod 10) with v by lia_div.
    destruct (Z.ltb_spec v min), (Z.ltb_spec max v); try lia. by den.
Qed.

#[local] Opaque two_digits.

(** The year fields of the two forms. *)
Definition year_text (is_utc : bool) (year : Z) : list u8 :=
  (if is_utc then [] else two_digits (year / 100)) ++ two_digits (year mod 100).

Definition read_year (is_utc : bool) : parser Error Z :=
  let! (year_hi, year_lo) :=
    (if is_utc then
       let! lo := read_two_digits 0 99 in pret (if 50 <=? lo then 19 else 20, lo)
     else
       let! hi := read_two_digits 0 99 in
       let! lo := read_two_digits 0 99 in pret (hi, lo)) in
  let! century := plift (u64_mul year_hi 100) in
  plift (u64_add (E := Error) century year_lo).

Definition read_after_year (year : Z) : parser Error Time :=
  let! month := read_two_digits 1 12 in
  let! days_in_month := plift (days_in_month year month) in
  let! day_of_month := read_two_digits 1 days_in_month in
  let! hours := read_two_digits 0 23 in
  let! minutes := read_two_digits 0 59 in
  let! seconds := read_two_digits 0 59 in
  let! time_zone := p_read_byte_or BadDerTime in
  if negb (u8_eqb time_zone x5a) then pfail BadDerTime
  else plift (time_from_ymdhms_utc year month day_of_month hours minutes seconds).

#[export] Instance lawful_read_year is_utc : Lawful (read_year is_utc).
Proof. unfold read_year. lawful. Qed.
#[export] Instance lawful_read_after_year year : Lawful (read_after_year year).
Proof. unfold read_after_year. lawful. Qed.

Lemma read_time_split is_utc l :
  den (read_time is_utc) l = den (let! year := read_year is_utc in read_after_year year) l.
Proof.
  unfold read_time, read_year. den.
  match goal with |- match den ?p l with _ => _ end = _ =>
    destruct (den p l) as [[[hi lo]| | |] l1] end; try done.
  den. by destruct (u64_mul hi 100); den.
Qed.

Lemma read_year_iff (is_utc : bool) l y l' :
  den (read_year is_utc) l = (Ok y, l') <->
  l = year_text is_utc y ++ l' /\
  (if is_utc then 1950 <= y <= 2049 else 0 <= y <= 9999).
Proof.
  unfold year_text, read_year. destruct is_utc; simpl app; split.
  - intros H. den_in H.
    destruct (den (read_two_digits 0 99) l) as [[lo| | |] l1] eqn:E; try done.
    apply read_two_digits_iff in E as [-> Hlo]; [|lia..]. den_in H.
    destruct (Z.leb_spec 50 lo); rewrite u64_mul_ok in H by lia; den_in H;
      rewrite u64_add_ok in H by lia; simplify_eq; split; try lia; do 2 f_equal; lia_div.
  - intros [-> Hy]. den.
    assert (den (read_two_digits 0 99) (two_digits (y mod 100) ++ l')
            = (Ok (y mod 100), l')) as ->
      by (apply read_two_digits_iff; [lia..|split; [done|lia_div]]).
    den. destruct (Z.leb_spec 50 (y mod 100)); rewrite u64_mul_ok by lia; den;
      rewrite u64_add_ok by lia_div; do 2 f_equal; lia_div.
  - intros H. den_in H.
    destruct (den (read_two_digits 0 99) l) as [[hi| | |] l1] eqn:E; try done.
    apply read_two_digits_iff in E as [-> Hhi]; [|lia..]. den_in H.
    destruct (den (read_two_digits 0 99) l1) as [[lo| | |] l2] eqn:E; try done.
    apply read_two_digits_iff in E as [-> Hlo]; [|lia..]. den_in H.
    rewrite u64_mul_ok in H by lia; den_in H; rewrite u64_add_ok in H by lia.
    simplify_eq. rewrite <- app_assoc. split; [|lia]. f_equal; [|f_equal]; f_equal; lia_div.
  - intros [-> Hy]. rewrite <- app_assoc. den.
    assert (den (read_two_digits 0 99)
              (two_digits (y / 100) ++ two_digits (y mod 100) ++ l')
            = (Ok (y / 100), two_digits (y mod 100) ++ l')) as ->
      by (apply read_two_digits_iff; [lia..|split; [done|lia_div]]).
    den.
    assert (den (read_two_digits 0 99) (two_digits (y mod 100) ++ l')
            = (Ok (y mod 100), l')) as ->
      by (apply read_two_digits_iff; [lia..|split; [done|lia_div]]).
    den. rewrite u64_mul_ok by lia_div; den; rewrite u64_add_ok by lia_div.
    do 2 f_equal; lia_div.
Qed.

Ltac two_digits_in H :=
  match type of H with
  | match den (read_two_digits ?a ?b) ?l with _ => _ end = _ =>
    let E := fresh "E" in let v := fresh "v" in let l1 := fresh "l" in
    destruct (den (read_two_digits a b) l) as [[v| | |] l1] eqn:E; try done;
    apply read_two_digits_iff in E as [-> ?]; [|lia..]; den_in H
  end.

Lemma read_after_year_sound year l t l' : year <= 9999 ->
  den (read_after_year year) l = (Ok t, l') ->
  exists c, valid_civil c /\ c_year c = year /\ l = civil_text c ++ l' /\
    t = from_seconds_since_unix_epoch (civil_seconds c).
Proof.
  intros Hyear. unfold read_after_year. intros H. den_in H. two_digits_in H.
  destruct (days_in_month_ok year v) as [Hdim Hd]; [lia|]. rewrite Hdim in H. den_in H.
  do 4 two_digits_in H.
  match type of H with context [head ?l] => next_byte H l end.
  destruct (u8_eqb b x5a) eqn:Ez; den_in H; [|done].
  apply u8_eqb_eq in Ez as ->. injection H as H ->.
  destruct (Z.lt_ge_cases year 1970);
    [by rewrite time_from_ymdhms_utc_early in H|].
  exists (Build_civil year v v0 v1 v2 v3).
  assert (valid_civil (Build_civil year v v0 v1 v2 v3)) as Hv
    by (unfold valid_civil; simpl; lia).
  pose proof (time_from_ymdhms_utc_eq _ Hv) as Heq. simpl in Heq. rewrite Heq in H.
  split_and!; [done|done| |by simplify_eq].
  unfold civil_text. simpl. by rewrite <- !app_assoc.
Qed.

Ltac two_digits_goal :=
  match goal with
  | |- context [den (read_two_digits ?a ?b) (two_digits ?v ++ ?l)] =>
    rewrite (proj2 (read_two_digits_iff a b (two_digits v ++ l) v l ltac:(lia) ltac:(lia)))
      by (split; [done|lia]); den
  end.

Lemma read_after_year_complete c l : valid_civil c ->
  den (read_after_year (c_year c)) (civil_text c ++ l)
  = (Ok (from_seconds_since_unix_epoch (civil_seconds c)), l).
Proof.
  intros Hv. pose proof Hv as (Hy & Hm & Hd & Hh & Hmi & Hs).
  destruct (days_in_month_ok (c_year c) _ Hm) as [Hdim ?].
  unfold read_after_year, civil_text. rewrite <- !app_assoc. den.
  two_digits_goal. rewrite Hdim. den. do 4 two_digits_goal. simpl. den.
  rewrite ?u8_eqb_refl. den. by rewrite time_from_ymdhms_utc_eq.
Qed.

(** A time is read exactly from the text of a valid date, and is the number
    of seconds counted for that date. *)
Lemma time_from_der_iff l t l' :
  den (from_der (T := Time)) l = (Ok t, l') <->
  exists c, valid_civil c /\ t = from_seconds_since_unix_epoch (civil_seconds c) /\
    (l = tlv (tag_u8 UTCTime) (utc_time_text c) ++ l' /\ c_year c <= 2049 \/
     l = tlv (tag_u8 GeneralizedTime) (generalized_time_text c) ++ l').
Proof.
  cbn [from_der time_from_der]. den. split.
  - generalize (match l with [] => false | c :: _ => u8_eqb c (tag_u8 UTCTime) end).
    intros is_utc (v & -> & Hlen & H)%nested_sound.
    rewrite read_time_split in H. den_in H.
    destruct (den (read_year is_utc) v) as [[y| | |] v1] eqn:E; try done.
    destruct is_utc.
    + apply read_year_iff in E as [-> Hy].
      apply read_after_year_sound in H as (c & Hc & Hcy & -> & ->); [|lia].
      exists c. split_and!; [done|done|]. left. split; [|lia].
      unfold utc_time_text, year_text. by rewrite app_nil_r, Hcy.
    + apply read_year_iff in E as [-> Hy].
      apply read_after_year_sound in H as (c & Hc & Hcy & -> & ->); [|lia].
      exists c. split_and!; [done|done|]. right.
      unfold generalized_time_text, year_text. by rewrite app_nil_r, Hcy, <- app_assoc.
  - intros (c & Hc & -> & [[-> Hy]| ->]); rewrite peek_tlv.
    + rewrite u8_eqb_refl. pose proof Hc as (Hcy & _). apply nested_complete; [done|].
      rewrite read_time_split. den. unfold utc_time_text.
      rewrite (proj2 (read_year_iff true _ (c_year c) (civil_text c))).
      * etransitivity; [|by apply read_after_year_complete]. by rewrite app_nil_r.
      * split; [done|lia].
    + change (u8_eqb (tag_u8 GeneralizedTime) (tag_u8 UTCTime)) with false.
      pose proof Hc as (Hcy & _). apply nested_complete; [done|].
      rewrite read_time_split. den. unfold generalized_time_text.
      rewrite (proj2 (read_year_iff false _ (c_year c) (civil_text c))).
      * etransitivity; [|by apply read_after_year_complete]. by rewrite app_nil_r.
      * split; [unfold year_text; by rewrite <- app_assoc|lia].
Qed.

(** *** No panic: no overflow, no [unreachable!()] *)
Lemma time_from_der_encodes l t l' :
  den (from_der (T := Time)) l = (Ok t, l') <-> exists v, encodes_time t v /\ l = v ++ l'.
Proof.
  rewrite time_from_der_iff. unfold encodes_time. split.
  - intros (c & Hc & -> & [[-> Hy]| ->]); eauto 10.
  - intros (v & (c & Hc & -> & [[-> Hy]| ->]) & ->); eauto 10.
Qed.

Lemma ends_read_digit panics : Ends panics read_digit.
Proof. unfold read_digit. ends. Qed.

Lemma ends_read_two_digits panics min max : Ends panics (read_two_digits min max).
Proof.
  intros l. unfold read_two_digits. den.
  pose proof (ends_read_digit panics l) as H1.
  destruct (den read_digit l) as [[hi| | |] l1] eqn:E1; try done.
  apply read_digit_sound in E1 as [_ ?]. den.
  pose proof (ends_read_digit panics l1) as H2.
  destruct (den read_digit l1) as [[lo| | |] l2] eqn:E2; try done.
  apply read_digit_sound in E2 as [_ ?]. den.
  rewrite u64_mul_ok by lia. den. rewrite u64_add_ok by lia. den.
  destruct (_ || _); by den.
Qed.

Lemma ends_read_year panics is_utc : Ends panics (read_year is_utc).
Proof.
  intros l. unfold read_year. destruct is_utc; den.
  - pose proof (ends_read_two_digits panics 0 99 l) as H1.
    destruct (den (read_two_digits 0 99) l) as [[lo| | |] l1] eqn:E1; try done.
    apply read_two_digits_iff in E1 as [_ ?]; [|lia..]. den.
    destruct (50 <=? lo); rewrite u64_mul_ok by lia; den; by rewrite u64_add_ok by lia.
  - pose proof (ends_read_two_digits panics 0 99 l) as H1.
    destruct (den (read_two_digits 0 99) l) as [[hi| | |] l1] eqn:E1; try done.
    apply read_two_digits_iff in E1 as [_ ?]; [|lia..]. den.
    pose proof (ends_read_two_digits panics 0 99 l1) as H2.
    destruct (den (read_two_digits 0 99) l1) as [[lo| | |] l2] eqn:E2; try done.
    apply read_two_digits_iff in E2 as [_ ?]; [|lia..]. den.
    rewrite u64_mul_ok by lia; den; by rewrite u64_add_ok by lia.
Qed.

Ltac two_digits_ends panics :=
  match goal with
  | |- context [den (read_two_digits ?a ?b) ?l] =>
    let E := fresh "E" in
    pose proof (ends_read_two_digits panics a b l);
    destruct (den (read_two_digits a b) l) as [[?v| | |] ?l1] eqn:E; try done;
    apply read_two_digits_iff in E as [_ ?]; [|lia..]; den
  end.

Lemma ends_read_after_year panics year : year <= 9999 ->
  Ends panics (read_after_year year).
Proof.
  intros Hy l. unfold read_after_year. den. two_digits_ends panics.
  destruct (days_in_month_ok year v) as [Hdim Hd]; [lia|]. rewrite Hdim. den.
  do 4 two_digits_ends panics.
  match goal with |- context [head ?l] => destruct l as [|z ?] end; den; [done|].
  destruct (u8_eqb z x5a); den; [|done].
  destruct (Z.lt_ge_cases year 1970); [by rewrite time_from_ymdhms_utc_early|].
  pose proof (time_from_ymdhms_utc_eq (Build_civil year v v0 v1 v2 v3)) as Heq.
  simpl in Heq. rewrite Heq; [done|]. unfold valid_civil; simpl; lia.
Qed.

Lemma ends_read_time panics is_utc : Ends panics (read_time is_utc).
Proof.
  intros l. rewrite read_time_split. den.
  pose proof (ends_read_year panics is_utc l) as H.
  destruct (den (read_year is_utc) l) as [[y| | |] l1] eqn:E; try done.
  apply read_year_iff in E as [_ Hy]. apply ends_read_after_year.
  destruct is_utc; lia.
Qed.

Lemma ends_time_from_der panics : Ends panics (from_der (T := Time)).
Proof.
  cbn [from_der time_from_der]. apply ends_bind; [lawful|ends|].
  intros a. apply ends_nested, ends_read_time.
Qed.
End TimeLemmas.

#[export] Hint Resolve ends_time_from_der : ends.
#[global] Opaque two_digits.

#[global] Opaque time_from_der.

(** ** Properties *)
Section TimeProperties.
Context {U : Untrusted} {L : UntrustedLaws U}.

(** C32: A DER time is read exactly from the UTCTime or GeneralizedTime text of
    a real date from 1970 on, and its value is the number of seconds since the
    epoch counted day by day. *)
Theorem time_parse l t l' :
  den (from_der (T := Time)) l = (Ok t, l') <-> exists v, encodes_time t v /\ l = v ++ l'.
Proof. apply time_from_der_encodes. Qed.
End TimeProperties.

(** C31: The calendar arithmetic: it does not overflow the 64-bit integer for a
    date the parser can express, counts every day of the years and months
    before it, and a later date gets a later time. *)
Theorem calendar_order a b : valid_civil a -> valid_civil b -> civil_lt a b ->
  exists ta tb,
    time_from_ymdhms_utc (c_year a) (c_month a) (c_day a) (c_hour a) (c_min a) (c_sec a) = Ok ta /\
    time_from_ymdhms_utc (c_year b) (c_month b) (c_day b) (c_hour b) (c_min b) (c_sec b) = Ok tb /\
    seconds_since_unix_epoch ta = civil_seconds a /\ time_ltb ta tb = true.
Proof.
  intros Ha Hb Hlt. rewrite !time_from_ymdhms_utc_eq by done. do 2 eexists. split_and!; [done|done|done|].
  apply Z.ltb_lt. by apply civil_seconds_mono.
Qed.

Lemma time_parse_witness :
  den (U := slice_reader) (from_der (T := Time)) (sample_date)
  = (Ok (from_seconds_since_unix_epoch 1675209600), []).
Proof.
  apply (time_parse (U := slice_reader)). exists (sample_date).
  split; [|by rewrite app_nil_r].
  exists {| c_year := 2023; c_month := 2; c_day := 1; c_hour := 0; c_min := 0; c_sec := 0 |}.
  split; [unfold valid_civil; split_and!; by vm_compute|]. split; [by vm_compute|]. left. by vm_compute.
Defined.

Lemma calendar_order_witness :
  exists ta tb, time_from_ymdhms_utc 2024 2 29 23 59 59 = Ok ta /\
    time_from_ymdhms_utc 2024 3 1 0 0 0 = Ok tb /\
    seconds_since_unix_epoch ta = 1709251199 /\ time_ltb ta tb = true.
Proof.
  apply (calendar_order
    {| c_year := 2024; c_month := 2; c_day := 29; c_hour := 23; c_min := 59; c_sec := 59 |}
    {| c_year := 2024; c_month := 3; c_day := 1; c_hour := 0; c_min := 0; c_sec := 0 |}).
  - unfold valid_civil. split_and!; by vm_compute.
  - unfold valid_civil. split_and!; by vm_compute.
  - unfold civil_lt. simpl. lia.
Defined.
