(* ===== verification/GeneralName.v ===== *)
(** * [GeneralName] of [src/subject_name/verify.rs]

    The names found in subjectAltName extensions, name constraints and CRL
    distribution points, and their DER reader. *)
From S2P Require Import Prelude Errors Untrusted Der.

Inductive GeneralName : Type :=
  | DnsName (name : Input)
  | DirectoryName (name : Input)
  | IpAddress (name : Input)
  | UniformResourceIdentifier (name : Input)
  (* [tag & !(CONTEXT_SPECIFIC | CONSTRUCTED)] *)
  | Unsupported (tag : u8).

Definition OTHER_NAME_TAG : u8 := u8_or (u8_or CONTEXT_SPECIFIC CONSTRUCTED) x00.
Definition RFC822_NAME_TAG : u8 := u8_or CONTEXT_SPECIFIC x01.
Definition DNS_NAME_TAG : u8 := u8_or CONTEXT_SPECIFIC x02.
Definition X400_ADDRESS_TAG : u8 := u8_or (u8_or CONTEXT_SPECIFIC CONSTRUCTED) x03.
Definition DIRECTORY_NAME_TAG : u8 := u8_or (u8_or CONTEXT_SPECIFIC CONSTRUCTED) x04.
Definition EDI_PARTY_NAME_TAG : u8 := u8_or (u8_or CONTEXT_SPECIFIC CONSTRUCTED) x05.
Definition UNIFORM_RESOURCE_IDENTIFIER_TAG : u8 := u8_or CONTEXT_SPECIFIC x06.
Definition IP_ADDRESS_TAG : u8 := u8_or CONTEXT_SPECIFIC x07.
Definition REGISTERED_ID_TAG : u8 := u8_or CONTEXT_SPECIFIC x08.

(** The [match tag] of [GeneralName::from_der]. *)
Definition general_name_of (tag : u8) (value : Input) : outcome Error GeneralName :=
  if u8_eqb tag DNS_NAME_TAG then Ok (DnsName value)
  else if u8_eqb tag DIRECTORY_NAME_TAG then Ok (DirectoryName value)
  else if u8_eqb tag IP_ADDRESS_TAG then Ok (IpAddress value)
  else if u8_eqb tag UNIFORM_RESOURCE_IDENTIFIER_TAG then Ok (UniformResourceIdentifier value)
  else if u8_eqb tag OTHER_NAME_TAG || u8_eqb tag RFC822_NAME_TAG
          || u8_eqb tag X400_ADDRESS_TAG || u8_eqb tag EDI_PARTY_NAME_TAG
          || u8_eqb tag REGISTERED_ID_TAG
  then Ok (Unsupported (u8_and tag (u8_not (u8_or CONTEXT_SPECIFIC CONSTRUCTED))))
  else Err BadDer.

#[export] Instance general_name_from_der {U : Untrusted} : FromDer GeneralName := {|
  from_der :=
    let! (tag, value) := read_tag_and_get_value in
    plift (general_name_of tag value);
  TYPE_ID := GeneralNameId;
|}.

(** ** Lemmas *)
Section GeneralNameLemmas.
Context {U : Untrusted} {L : UntrustedLaws U}.

Lemma general_name_of_ends panics tag value : ends panics (general_name_of tag value).
Proof. unfold general_name_of. by repeat case_match. Qed.

#[export] Instance lawful_general_name : Lawful (from_der (T := GeneralName)).
Proof. cbn [from_der general_name_from_der]. unfold read_tag_and_get_value. lawful. Qed.

Lemma ends_general_name panics : Ends panics (from_der (T := GeneralName)).
Proof.
  cbn [from_der general_name_from_der]. unfold read_tag_and_get_value. ends.
  apply general_name_of_ends.
Qed.

#[export] Instance progress_general_name : Progress GeneralName.
Proof.
  split; [apply _|]. intros l Hl. cbn [from_der general_name_from_der].
  pose proof (read_tlv_shorter TWO_BYTE_DER_SIZE l Hl) as H.
  unfold read_tag_and_get_value. den.
  destruct (den (read_tag_and_get_value_limited TWO_BYTE_DER_SIZE) l)
    as [[[t v]| | |] l']; simpl in *; by den.
Qed.
End GeneralNameLemmas.

#[export] Hint Resolve ends_general_name : ends.

#[global] Opaque general_name_from_der.
