(* ===== verification/X509.v ===== *)
(** * [src/x509.rs]: extensions and distribution point names *)
From S2P Require Import Prelude Errors Untrusted Der GeneralName.

Record Extension : Type := {
  critical : bool;
  ext_id : Input;
  ext_value : Input;
}.

(** [Extension::unsupported]: the caller's state is unchanged. *)
Definition unsupported {S} (extension : Extension) (s : S) : outcome Error S :=
  match critical extension with
  | true => Err UnsupportedCriticalExtension
  | false => Ok s
  end.

#[export] Instance extension_from_der {U : Untrusted} : FromDer Extension := {|
  from_der :=
    let! id := expect_tag OID in
    let! critical := from_der (T := bool) in
    let! value := expect_tag OctetString in
    pret {| ext_id := id; critical := critical; ext_value := value |};
  TYPE_ID := ExtensionId;
|}.

(** [set_extension_once]: the destination is the option in the caller's
    state; the parser runs only when it is empty. *)
Definition set_extension_once {T} (destination : option T) (parser : outcome Error T)
    : outcome Error (option T) :=
  match destination with
  | Some _ => Err ExtensionValueInvalid
  | None => let? v := parser in Ok (Some v)
  end.

Definition ID_CE : list u8 := oid 2 5 [29].

(** [remember_extension]: [handler] gets the last octet of an id-ce OID and
    the state it captures. *)
Definition remember_extension {S} (extension : Extension)
    (handler : u8 -> S -> outcome Error S) (s : S) : outcome Error S :=
  if negb (length (ext_id extension) =? length ID_CE + 1)%nat
     || negb (bool_decide (take (length ID_CE) (ext_id extension) = ID_CE))
  then unsupported extension s
  else
    match last (ext_id extension) with
    | None => Panic
    | Some last_octet => handler last_octet s
    end.

Section DistributionPointName.
Context {U : Untrusted}.

Inductive DistributionPointName : Type :=
  | NameRelativeToCrlIssuer (name : Input)
  | FullName (names : DerIterator GeneralName).

Definition FULL_NAME_TAG : u8 := u8_or CONTEXT_SPECIFIC CONSTRUCTED.
Definition NAME_RELATIVE_TO_CRL_ISSUER_TAG : u8 :=
  u8_or (u8_or CONTEXT_SPECIFIC CONSTRUCTED) x01.

#[export] Instance distribution_point_name_from_der : FromDer DistributionPointName := {|
  from_der :=
    let! (tag, value) := read_tag_and_get_value in
    if u8_eqb tag FULL_NAME_TAG then pret (FullName (der_iterator_new value))
    else if u8_eqb tag NAME_RELATIVE_TO_CRL_ISSUER_TAG
    then pret (NameRelativeToCrlIssuer value)
    else pfail BadDer;
  TYPE_ID := DistributionPointNameId;
|}.
End DistributionPointName.

(** ** Lemmas *)

(** An id-ce extension: the OID 2.5.29.[n]. *)
Definition id_ce (n : u8) : Input := ID_CE ++ [n].

Lemma remember_extension_id_ce {S} ext handler (s : S) n :
  ext_id ext = id_ce n -> remember_extension ext handler s = handler n s.
Proof.
  intros H. unfold remember_extension. rewrite H. unfold id_ce.
  rewrite take_app_length, bool_decide_eq_true_2, length_app, Nat.eqb_refl, last_snoc; done.
Qed.

Lemma remember_extension_other {S} ext handler (s : S) :
  (forall n, ext_id ext <> id_ce n) -> remember_extension ext handler s = unsupported ext s.
Proof.
  intros H. unfold remember_extension.
  destruct (Nat.eqb_spec (length (ext_id ext)) (length ID_CE + 1)) as [Hlen|]; [|done].
  destruct (bool_decide _) eqn:E; [|done]. apply bool_decide_eq_true in E.
  exfalso. destruct (drop (length ID_CE) (ext_id ext)) as [|n rest] eqn:Ed.
  - apply (f_equal length) in Ed. rewrite length_drop in Ed. simpl in *. lia.
  - apply (H n). unfold id_ce. rewrite <- (take_drop (length ID_CE) (ext_id ext)), E, Ed.
    apply (f_equal length) in Ed. rewrite length_drop in Ed. simpl in *.
    destruct rest; [done|simpl in *; lia].
Qed.

(** Every OID is an id-ce OID or is not. *)
Lemma id_ce_dec i : {n | i = id_ce n} + {forall n, i <> id_ce n}.
Proof.
  destruct (decide (length i = length ID_CE + 1)%nat) as [Hl|Hl].
  - destruct (decide (take (length ID_CE) i = ID_CE)) as [Ht|Ht].
    + left. destruct (drop (length ID_CE) i) as [|n rest] eqn:Ed.
      * exfalso. apply (f_equal length) in Ed. rewrite length_drop in Ed. simpl in *. lia.
      * exists n. unfold id_ce. rewrite <- (take_drop (length ID_CE) i), Ht, Ed.
        apply (f_equal length) in Ed. rewrite length_drop in Ed. simpl in *.
        destruct rest; [done|simpl in *; lia].
    + right. intros n ->. apply Ht. unfold id_ce. by rewrite take_app_length.
  - right. intros n ->. apply Hl. unfold id_ce. by rewrite length_app.
Qed.

Lemma remember_extension_cases {S} ext handler (s : S) :
  (exists n, ext_id ext = id_ce n /\ remember_extension ext handler s = handler n s) \/
  ((forall n, ext_id ext <> id_ce n) /\
   remember_extension ext handler s = unsupported ext s).
Proof.
  destruct (id_ce_dec (ext_id ext)) as [[n H]|H].
  - left. exists n. split; [done|]. by apply remember_extension_id_ce.
  - right. split; [done|]. by apply remember_extension_other.
Qed.

Lemma ends_unsupported {S} panics ext (s : S) : ends panics (unsupported ext s).
Proof. unfold unsupported. by case_match. Qed.

Lemma ends_set_extension_once {T} panics (d : option T) p :
  ends panics p -> ends panics (set_extension_once d p).
Proof. intros H. destruct d; [done|]. by apply ends_obind. Qed.

Lemma ends_remember_extension {S} panics ext handler (s : S) :
  (forall n s, ends panics (handler n s)) ->
  ends panics (remember_extension ext handler s).
Proof.
  intros H. destruct (remember_extension_cases ext handler s) as [(n & _ & ->)|[_ ->]];
    [done|apply ends_unsupported].
Qed.

Section X509Lemmas.
Context {U : Untrusted} {L : UntrustedLaws U}.

#[export] Instance lawful_extension : Lawful (from_der (T := Extension)).
Proof. cbn [from_der extension_from_der]. lawful. Qed.

Lemma ends_extension panics : Ends panics (from_der (T := Extension)).
Proof. cbn [from_der extension_from_der]. ends; apply ends_bool_from_der. Qed.

#[export] Instance lawful_dp_name : Lawful (from_der (T := DistributionPointName)).
Proof.
  cbn [from_der distribution_point_name_from_der]. unfold read_tag_and_get_value. lawful.
Qed.

(** The full names of a distribution point. *)
Lemma dp_full_name_iff l names l' :
  den (from_der (T := DistributionPointName)) l = (Ok (FullName names), l') <->
  exists v, l = tlv FULL_NAME_TAG v ++ l' /\ Z.of_nat (length v) < TWO_BYTE_DER_SIZE /\
    names = der_iterator_new v.
Proof.
  cbn [from_der distribution_point_name_from_der]. unfold read_tag_and_get_value. split.
  - intros H. den_in H.
    destruct (den (read_tag_and_get_value_limited TWO_BYTE_DER_SIZE) l) as [[[tag v]| | |] l1] eqn:E;
      try done.
    apply read_tlv_sound in E as (-> & _ & ? & _). den_in H.
    destruct (u8_eqb tag FULL_NAME_TAG) eqn:Et; den_in H;
      [apply u8_eqb_eq in Et as ->; simplify_eq; eauto|].
    by destruct (u8_eqb tag NAME_RELATIVE_TO_CRL_ISSUER_TAG); den_in H.
  - intros (v & -> & Hv & ->). den.
    rewrite read_tlv_complete; [|done|done|unfold TWO_BYTE_DER_SIZE, LONG_FORM_LEN_TWO_BYTES_MAX,
      LONG_FORM_LEN_FOUR_BYTES_MAX in *; lia]. den. rewrite u8_eqb_refl. by den.
Qed.

Lemma ends_dp_name panics : Ends panics (from_der (T := DistributionPointName)).
Proof.
  cbn [from_der distribution_point_name_from_der]. unfold read_tag_and_get_value. ends.
Qed.
End X509Lemmas.

#[export] Hint Resolve ends_extension ends_dp_name : ends.

#[global] Opaque distribution_point_name_from_der.
