(* ===== verification/SignedData.v ===== *)
(** * [src/signed_data.rs]: signed data and signature verification

    [SignatureVerificationAlgorithm] is a trait whose implementations are
    third-party code (or [ring_algs.rs] over the ring crate): here it is a
    record of operations, and the theorems hold for all of its values. *)
From S2P Require Import Prelude Errors Untrusted Der Samples.

Record OwnedSignedData : Type := {
  owned_data : list u8;
  owned_algorithm : list u8;
  owned_signature : list u8;
}.

Record SignedData : Type := {
  data : Input;
  algorithm : Input;
  signature : Input;
}.

Definition OwnedSignedData_borrow (self : OwnedSignedData) : SignedData :=
  {| data := owned_data self; algorithm := owned_algorithm self;
     signature := owned_signature self |}.

Definition SignedData_to_owned (self : SignedData) : OwnedSignedData :=
  {| owned_data := data self; owned_algorithm := algorithm self;
     owned_signature := signature self |}.

Record AlgorithmIdentifier : Type := { asn1_id_value : Input }.

Definition matches_algorithm_id_value (self : AlgorithmIdentifier) (encoded : Input) : bool :=
  bytes_eqb encoded (asn1_id_value self).

(** The trait; [verify] is [true] for [Ok(())], [false] for
    [Err(InvalidSignature)]. *)
Record SignatureVerificationAlgorithm : Type := {
  public_key_alg_id : AlgorithmIdentifier;
  signature_alg_id : AlgorithmIdentifier;
  alg_verify_signature : forall public_key message signature : list u8, bool;
}.

Record SubjectPublicKeyInfo : Type := {
  algorithm_id_value : Input;
  key_value : Input;
}.

Section SignedData.
Context {U : Untrusted}.

Definition SignedData_from_der (size_limit : Z) : parser Error (Input * SignedData) :=
  let! (data, tbs) :=
    read_partial (expect_tag_and_get_value_limited Sequence size_limit)
      : parser Error (Input * Input) in
  let! algorithm := expect_tag Sequence in
  let! signature := bit_string_with_no_unused_bits in
  pret (tbs, {| data := data; algorithm := algorithm; signature := signature |}).

#[export] Instance spki_from_der : FromDer SubjectPublicKeyInfo := {|
  from_der :=
    let! algorithm_id_value := expect_tag Sequence in
    let! key_value := bit_string_with_no_unused_bits in
    pret {| algorithm_id_value := algorithm_id_value; key_value := key_value |};
  TYPE_ID := SubjectPublicKeyInfoId;
|}.

Definition verify_signature (signature_alg : SignatureVerificationAlgorithm)
    (spki_value msg signature : Input) : outcome Error unit :=
  let? spki := der_read_all (T := SubjectPublicKeyInfo) spki_value in
  if negb (matches_algorithm_id_value (public_key_alg_id signature_alg)
             (algorithm_id_value spki))
  then Err UnsupportedSignatureAlgorithmForPublicKey
  else if alg_verify_signature signature_alg (key_value spki) msg signature
  then Ok tt
  else Err InvalidSignatureForPublicKey.

(** The [for] loop of [verify_signed_data]. *)
Fixpoint verify_signed_data_loop
    (supported_algorithms : list SignatureVerificationAlgorithm)
    (found_signature_alg_match : bool) (spki_value : Input) (signed_data : SignedData)
    : outcome Error unit :=
  match supported_algorithms with
  | [] =>
    if found_signature_alg_match then Err UnsupportedSignatureAlgorithmForPublicKey
    else Err UnsupportedSignatureAlgorithm
  | supported_alg :: rest =>
    if negb (matches_algorithm_id_value (signature_alg_id supported_alg)
               (algorithm signed_data))
    then verify_signed_data_loop rest found_signature_alg_match spki_value signed_data
    else
      match verify_signature supported_alg spki_value (data signed_data)
              (signature signed_data) with
      | Err UnsupportedSignatureAlgorithmForPublicKey =>
        verify_signed_data_loop rest true spki_value signed_data
      | result => result
      end
  end.

Definition verify_signed_data
    (supported_algorithms : list SignatureVerificationAlgorithm)
    (spki_value : Input) (signed_data : SignedData) : outcome Error unit :=
  verify_signed_data_loop supported_algorithms false spki_value signed_data.
End SignedData.

(** ** Reference definitions *)

(** An algorithm is tried for a signature of this algorithm, and for a key of
    this algorithm. *)
Definition signature_alg_matches (sd : SignedData) (alg : SignatureVerificationAlgorithm) : bool :=
  bytes_eqb (algorithm sd) (asn1_id_value (signature_alg_id alg)).
Definition key_alg_matches (spki : SubjectPublicKeyInfo) (alg : SignatureVerificationAlgorithm)
    : bool :=
  bytes_eqb (algorithm_id_value spki) (asn1_id_value (public_key_alg_id alg)).

(** The algorithms that fit both the signature and the key, in order: the
    first one decides. *)
Definition candidates (algs : list SignatureVerificationAlgorithm)
    (spki : SubjectPublicKeyInfo) (sd : SignedData) : list SignatureVerificationAlgorithm :=
  List.filter (fun alg => signature_alg_matches sd alg && key_alg_matches spki alg) algs.

(** Two algorithms with the same identifiers and the same verdicts. *)
Record same_algorithm (a b : SignatureVerificationAlgorithm) : Prop := {
  same_key_id : public_key_alg_id a = public_key_alg_id b;
  same_signature_id : signature_alg_id a = signature_alg_id b;
  same_verdict key message signature :
    alg_verify_signature a key message signature = alg_verify_signature b key message signature;
}.

#[export] Instance same_algorithm_equivalence : Equivalence same_algorithm.
Proof.
  split.
  - by intros a.
  - by intros a b [Hk Hs Hv]; split.
  - intros a b c [Hk Hs Hv] [Hk' Hs' Hv']. split; [by rewrite Hk|by rewrite Hs|].
    intros. by rewrite Hv.
Qed.

(** Verification sees an algorithm through its identifiers and verdicts. *)
#[export] Instance verify_signature_proper {U : Untrusted} :
  Proper (same_algorithm ==> eq ==> eq ==> eq ==> eq) verify_signature.
Proof.
  intros a b [Hk Hs Hv] spki_value ? <- msg ? <- sig ? <-. unfold verify_signature.
  rewrite Hk. destruct (der_read_all _); simpl; [by rewrite Hv|done..].
Qed.

#[export] Instance verify_signed_data_proper {U : Untrusted} :
  Proper (Forall2 same_algorithm ==> eq ==> eq ==> eq) verify_signed_data.
Proof.
  intros algs algs' H spki_value ? <- sd ? <-. unfold verify_signed_data. generalize false.
  induction H as [|a b algs algs' Hab _ IH]; intros found; simpl; [done|].
  rewrite (verify_signature_proper a b Hab spki_value _ eq_refl (data sd) _ eq_refl
    (signature sd) _ eq_refl).
  destruct Hab as [Hk Hs Hv]. rewrite Hs. destruct (negb _); [apply IH|].
  destruct (verify_signature _ _ _ _) as [|[]| |]; done || apply IH.
Qed.

(** ** Lemmas *)
Section SignedDataLemmas.
Context {U : Untrusted} {L : UntrustedLaws U}.

Definition read_tbs (size_limit : Z) : parser Error (Input * Input) :=
  read_partial (expect_tag_and_get_value_limited Sequence size_limit).

#[export] Instance lawful_read_tbs lim : Lawful (read_tbs lim).
Proof. apply lawful_read_partial. apply _. Qed.

Lemma SignedData_from_der_unfold lim :
  SignedData_from_der lim =
    (let! (data, tbs) := read_tbs lim in
     let! algorithm := expect_tag Sequence in
     let! signature := bit_string_with_no_unused_bits in
     pret (tbs, {| data := data; algorithm := algorithm; signature := signature |})).
Proof. done. Qed.

#[export] Instance lawful_SignedData lim : Lawful (SignedData_from_der lim).
Proof. rewrite SignedData_from_der_unfold. lawful. Qed.

Lemma ends_read_tbs panics lim : Ends panics (read_tbs lim).
Proof. apply ends_read_partial; [apply _|ends]. Qed.
#[local] Hint Resolve ends_read_tbs : ends.

Lemma ends_SignedData panics lim : Ends panics (SignedData_from_der lim).
Proof. rewrite SignedData_from_der_unfold. ends. Qed.

Lemma read_tbs_iff lim l data tbs l' :
  lim <= LONG_FORM_LEN_FOUR_BYTES_MAX ->
  den (read_tbs lim) l = (Ok (data, tbs), l') <->
  data = tlv (tag_u8 Sequence) tbs /\ l = data ++ l' /\ Z.of_nat (length tbs) < lim.
Proof.
  intros Hlim. unfold read_tbs. split.
  - destruct (den (expect_tag_and_get_value_limited Sequence lim) l) as [o l1] eqn:E.
    destruct (den_forward _ _ _ _ E) as [c Hc].
    rewrite (den_read_partial _ _ _ _ _ E Hc). destruct o as [v| | |]; simpl; try done.
    intros [= -> -> ->]. apply expect_sound in E as (E & Hlen & _).
    subst l. by apply app_inv_tail in E.
  - intros (-> & -> & Hlen).
    erewrite (den_read_partial _ _ (tlv (tag_u8 Sequence) tbs)); [|by apply expect_complete; lia|done].
    done.
Qed.

(** The parse keeps as signed bytes the whole encoding of the contents. *)
Lemma SignedData_from_der_iff lim l tbs sd l' :
  lim <= LONG_FORM_LEN_FOUR_BYTES_MAX ->
  den (SignedData_from_der lim) l = (Ok (tbs, sd), l') <->
  data sd = tlv (tag_u8 Sequence) tbs /\
  l = data sd ++ tlv (tag_u8 Sequence) (algorithm sd)
        ++ tlv (tag_u8 BitString) (x00 :: signature sd) ++ l' /\
  Z.of_nat (length tbs) < lim /\
  Z.of_nat (length (algorithm sd)) < TWO_BYTE_DER_SIZE /\
  Z.of_nat (length (x00 :: signature sd)) < TWO_BYTE_DER_SIZE.
Proof.
  intros Hlim. rewrite SignedData_from_der_unfold. split.
  - intros H. den_in H.
    destruct (den (read_tbs lim) l) as [[[d t]| | |] l1] eqn:E; try done.
    apply read_tbs_iff in E as (-> & -> & ?); [|done]. den_in H.
    destruct (den (expect_tag Sequence) l1) as [[alg| | |] l2] eqn:E; try done.
    apply expect_sound in E as (-> & ? & _). den_in H.
    destruct (den bit_string_with_no_unused_bits l2) as [[sig| | |] l3] eqn:E; try done.
    apply bit_string_no_unused_iff in E as [-> ?]. den_in H. simplify_eq. done.
  - intros (Hd & -> & ? & Halg & ?). den.
    rewrite (proj2 (read_tbs_iff lim _ (data sd) tbs _ Hlim)) by done. den.
    rewrite expect_tag_limited, expect_complete; [|done|].
    2: { unfold TWO_BYTE_DER_SIZE, LONG_FORM_LEN_TWO_BYTES_MAX in Halg.
         unfold LONG_FORM_LEN_FOUR_BYTES_MAX. lia. }
    den. rewrite (proj2 (bit_string_no_unused_iff _ (signature sd) l')) by done. den.
    by destruct sd.
Qed.

#[export] Instance lawful_spki : Lawful (from_der (T := SubjectPublicKeyInfo)).
Proof. cbn [from_der spki_from_der]. lawful. Qed.

Lemma ends_spki panics : Ends panics (from_der (T := SubjectPublicKeyInfo)).
Proof. cbn [from_der spki_from_der]. ends. Qed.

(** A public key is read from exactly the encoding of its algorithm and bits. *)
Lemma spki_read_all_iff spki_value spki :
  der_read_all (T := SubjectPublicKeyInfo) spki_value = Ok spki <->
  spki_value = tlv (tag_u8 Sequence) (algorithm_id_value spki)
                 ++ tlv (tag_u8 BitString) (x00 :: key_value spki) /\
  Z.of_nat (length (algorithm_id_value spki)) < TWO_BYTE_DER_SIZE /\
  Z.of_nat (length (x00 :: key_value spki)) < TWO_BYTE_DER_SIZE.
Proof.
  unfold der_read_all. rewrite read_all_ok. cbn [from_der spki_from_der]. split.
  - intros H. den_in H.
    destruct (den (expect_tag Sequence) spki_value) as [[alg| | |] l2] eqn:E; try done.
    apply expect_sound in E as (-> & ? & _). den_in H.
    destruct (den bit_string_with_no_unused_bits l2) as [[key| | |] l3] eqn:E; try done.
    apply bit_string_no_unused_iff in E as [-> ?]. den_in H. simplify_eq. by rewrite app_nil_r.
  - intros (-> & Halg & ?). den.
    rewrite expect_tag_limited, expect_complete; [|done|].
    2: { unfold TWO_BYTE_DER_SIZE, LONG_FORM_LEN_TWO_BYTES_MAX in Halg.
         unfold LONG_FORM_LEN_FOUR_BYTES_MAX. lia. }
    den. rewrite <- (app_nil_r (tlv (tag_u8 BitString) _)).
    rewrite (proj2 (bit_string_no_unused_iff _ (key_value spki) [])) by done. den. by destruct spki.
Qed.

Lemma ends_der_read_all {T} `{!FromDer T} panics input :
  Ends panics (from_der (T := T)) -> ends panics (der_read_all (T := T) input).
Proof. intros H. apply ends_read_all, H. Qed.

Lemma ends_verify_signature panics alg spki msg sig :
  ends panics (verify_signature alg spki msg sig).
Proof.
  unfold verify_signature. apply ends_obind; [apply ends_der_read_all, ends_spki|].
  intros a _. by repeat case_match.
Qed.

Lemma ends_verify_signed_data panics algs spki sd :
  ends panics (verify_signed_data algs spki sd).
Proof.
  unfold verify_signed_data. generalize false as found.
  induction algs as [|alg algs IH]; intros found; simpl; [by case_match|].
  case_match; [done|].
  pose proof (ends_verify_signature panics alg spki (data sd) (signature sd)).
  destruct (verify_signature _ _ _ _) as [|e| |]; try done. by destruct e.
Qed.

(** The outcome of [verify_signed_data] for a well-formed key. *)
Lemma verify_signed_data_eq algs spki_value spki sd :
  der_read_all (T := SubjectPublicKeyInfo) spki_value = Ok spki ->
  verify_signed_data algs spki_value sd =
    match candidates algs spki sd with
    | alg :: _ =>
      if alg_verify_signature alg (key_value spki) (data sd) (signature sd)
      then Ok tt else Err InvalidSignatureForPublicKey
    | [] =>
      if existsb (signature_alg_matches sd) algs
      then Err UnsupportedSignatureAlgorithmForPublicKey
      else Err UnsupportedSignatureAlgorithm
    end.
Proof.
  intros Hspki. unfold verify_signed_data.
  assert (forall found, verify_signed_data_loop algs found spki_value sd =
    match candidates algs spki sd with
    | alg :: _ =>
      if alg_verify_signature alg (key_value spki) (data sd) (signature sd)
      then Ok tt else Err InvalidSignatureForPublicKey
    | [] =>
      if found || existsb (signature_alg_matches sd) algs
      then Err UnsupportedSignatureAlgorithmForPublicKey
      else Err UnsupportedSignatureAlgorithm
    end) as H; [|by apply H].
  induction algs as [|alg algs IH]; intros found; simpl; [by rewrite orb_false_r|].
  unfold matches_algorithm_id_value.
  change (bytes_eqb (algorithm sd) _) with (signature_alg_matches sd alg).
  destruct (signature_alg_matches sd alg); simpl; [|apply IH].
  unfold verify_signature. rewrite Hspki. simpl. unfold matches_algorithm_id_value.
  change (bytes_eqb (algorithm_id_value spki) _) with (key_alg_matches spki alg).
  destruct (key_alg_matches spki alg); simpl.
  - by destruct (alg_verify_signature _ _ _ _).
  - rewrite IH. by rewrite orb_true_r.
Qed.
End SignedDataLemmas.

#[export] Hint Resolve ends_SignedData ends_spki ends_verify_signed_data
  ends_verify_signature : ends.

#[global] Opaque spki_from_der.

(** A signature scheme for examples: the signature of a message is the key. *)
Definition toy_algorithm : SignatureVerificationAlgorithm := {|
  public_key_alg_id := {| asn1_id_value := sample_key_alg |};
  signature_alg_id := {| asn1_id_value := sample_sig_alg |};
  alg_verify_signature public_key _ signature := bytes_eqb public_key signature;
|}.

(** ** Properties *)
Section SignedDataProperties.
Context {U : Untrusted} {L : UntrustedLaws U}.

(** C36: Signed data is parsed exactly from the encoding of its parts; the
    bytes the signature covers are the whole encoding of the contents. *)
Theorem signed_data_parse lim l tbs sd l' : lim <= MAX_DER_SIZE ->
  den (SignedData_from_der lim) l = (Ok (tbs, sd), l') <->
  data sd = tlv (tag_u8 Sequence) tbs /\
  l = data sd ++ tlv (tag_u8 Sequence) (algorithm sd)
        ++ tlv (tag_u8 BitString) (x00 :: signature sd) ++ l' /\
  Z.of_nat (length tbs) < lim /\
  Z.of_nat (length (algorithm sd)) < TWO_BYTE_DER_SIZE /\
  Z.of_nat (length (x00 :: signature sd)) < TWO_BYTE_DER_SIZE.
Proof. apply SignedData_from_der_iff. Qed.

(** C27: The verification of signed data with a well-formed key: the first
    supported algorithm that fits both the signature and the key decides; with
    none, the error tells whether one fits the signature alone. *)
Theorem verify_signed_data_first_candidate algs spki_value spki sd :
  der_read_all (T := SubjectPublicKeyInfo) spki_value = Ok spki ->
  verify_signed_data algs spki_value sd =
    match candidates algs spki sd with
    | alg :: _ =>
      if alg_verify_signature alg (key_value spki) (data sd) (signature sd)
      then Ok tt else Err InvalidSignatureForPublicKey
    | [] =>
      if existsb (signature_alg_matches sd) algs
      then Err UnsupportedSignatureAlgorithmForPublicKey
      else Err UnsupportedSignatureAlgorithm
    end.
Proof. apply verify_signed_data_eq. Qed.
End SignedDataProperties.

Lemma signed_data_parse_witness :
  den (U := slice_reader) (SignedData_from_der TWO_BYTE_DER_SIZE)
    (der_sequence [x05] ++ der_sequence sample_sig_alg ++ tlv (tag_u8 BitString) (x00 :: [x09]))
  = (Ok ([x05], {| data := der_sequence [x05]; algorithm := sample_sig_alg; signature := [x09] |}), []).
Proof. apply (signed_data_parse (U := slice_reader)); by vm_compute. Defined.

Lemma verify_signed_data_first_candidate_witness :
  verify_signed_data (U := slice_reader) [toy_algorithm] (sample_spki ca_key)
    {| data := [x01]; algorithm := sample_sig_alg; signature := root_key |}
  = Err InvalidSignatureForPublicKey.
Proof.
  rewrite (verify_signed_data_first_candidate (U := slice_reader) _ _
    {| algorithm_id_value := sample_key_alg; key_value := ca_key |}); by vm_compute.
Defined.
