(* ===== verification/RingAlgs.v ===== *)
(** * [alg_id] of [src/signed_data.rs] and [src/ring_algs.rs]

    The algorithm identifiers (the files of [src/data/]) and the algorithms
    built on the ring crate, which is a parameter: a type of verification
    algorithms, its named values and the verification of a signature. *)
From S2P Require Import Prelude Errors Untrusted Der Samples SignedData.

(** [AlgorithmIdentifier::new]. *)
Definition alg_id_new (bytes : list u8) : AlgorithmIdentifier := {| asn1_id_value := bytes |}.

(** ** The identifiers, [include_bytes!] of [src/data/*.der] *)
(** id-ecPublicKey with named curve secp256r1. *)
Definition ECDSA_P256 : AlgorithmIdentifier := alg_id_new
  [x06; x07; x2a; x86; x48; xce; x3d; x02; x01; x06; x08; x2a; x86; x48; xce; x3d; x03;
   x01; x07].
(** id-ecPublicKey with named curve secp384r1. *)
Definition ECDSA_P384 : AlgorithmIdentifier := alg_id_new
  [x06; x07; x2a; x86; x48; xce; x3d; x02; x01; x06; x05; x2b; x81; x04; x00; x22].
(** ecdsa-with-SHA256. *)
Definition ECDSA_SHA256 : AlgorithmIdentifier := alg_id_new
  [x06; x08; x2a; x86; x48; xce; x3d; x04; x03; x02].
(** ecdsa-with-SHA384. *)
Definition ECDSA_SHA384 : AlgorithmIdentifier := alg_id_new
  [x06; x08; x2a; x86; x48; xce; x3d; x04; x03; x03].
(** rsaEncryption. *)
Definition RSA_ENCRYPTION : AlgorithmIdentifier := alg_id_new
  [x06; x09; x2a; x86; x48; x86; xf7; x0d; x01; x01; x01; x05; x00].
(** sha256WithRSAEncryption. *)
Definition RSA_PKCS1_SHA256 : AlgorithmIdentifier := alg_id_new
  [x06; x09; x2a; x86; x48; x86; xf7; x0d; x01; x01; x0b; x05; x00].
(** sha384WithRSAEncryption. *)
Definition RSA_PKCS1_SHA384 : AlgorithmIdentifier := alg_id_new
  [x06; x09; x2a; x86; x48; x86; xf7; x0d; x01; x01; x0c; x05; x00].
(** sha512WithRSAEncryption. *)
Definition RSA_PKCS1_SHA512 : AlgorithmIdentifier := alg_id_new
  [x06; x09; x2a; x86; x48; x86; xf7; x0d; x01; x01; x0d; x05; x00].
(** rsassaPss, sha256. *)
Definition RSA_PSS_SHA256 : AlgorithmIdentifier := alg_id_new
  [x06; x09; x2a; x86; x48; x86; xf7; x0d; x01; x01; x0a; x30; x34; xa0; x0f; x30; x0d;
   x06; x09; x60; x86; x48; x01; x65; x03; x04; x02; x01; x05; x00; xa1; x1c; x30; x1a;
   x06; x09; x2a; x86; x48; x86; xf7; x0d; x01; x01; x08; x30; x0d; x06; x09; x60; x86;
   x48; x01; x65; x03; x04; x02; x01; x05; x00; xa2; x03; x02; x01; x20].
(** rsassaPss, sha384. *)
Definition RSA_PSS_SHA384 : AlgorithmIdentifier := alg_id_new
  [x06; x09; x2a; x86; x48; x86; xf7; x0d; x01; x01; x0a; x30; x34; xa0; x0f; x30; x0d;
   x06; x09; x60; x86; x48; x01; x65; x03; x04; x02; x02; x05; x00; xa1; x1c; x30; x1a;
   x06; x09; x2a; x86; x48; x86; xf7; x0d; x01; x01; x08; x30; x0d; x06; x09; x60; x86;
   x48; x01; x65; x03; x04; x02; x02; x05; x00; xa2; x03; x02; x01; x30].
(** rsassaPss, sha512. *)
Definition RSA_PSS_SHA512 : AlgorithmIdentifier := alg_id_new
  [x06; x09; x2a; x86; x48; x86; xf7; x0d; x01; x01; x0a; x30; x34; xa0; x0f; x30; x0d;
   x06; x09; x60; x86; x48; x01; x65; x03; x04; x02; x03; x05; x00; xa1; x1c; x30; x1a;
   x06; x09; x2a; x86; x48; x86; xf7; x0d; x01; x01; x08; x30; x0d; x06; x09; x60; x86;
   x48; x01; x65; x03; x04; x02; x03; x05; x00; xa2; x03; x02; x01; x40].
(** Ed25519. *)
Definition ALG_ED25519 : AlgorithmIdentifier := alg_id_new
  [x06; x03; x2b; x65; x70].

(** ** The ring crate *)
Class Ring := {
  VerificationAlgorithm : Type;
  (* [UnparsedPublicKey::new(alg, key).verify(message, signature).is_ok()] *)
  ring_verify : VerificationAlgorithm -> list u8 -> list u8 -> list u8 -> bool;
  ring_ECDSA_P256_SHA256_ASN1 : VerificationAlgorithm;
  ring_ECDSA_P256_SHA384_ASN1 : VerificationAlgorithm;
  ring_ECDSA_P384_SHA256_ASN1 : VerificationAlgorithm;
  ring_ECDSA_P384_SHA384_ASN1 : VerificationAlgorithm;
  ring_RSA_PKCS1_2048_8192_SHA256 : VerificationAlgorithm;
  ring_RSA_PKCS1_2048_8192_SHA384 : VerificationAlgorithm;
  ring_RSA_PKCS1_2048_8192_SHA512 : VerificationAlgorithm;
  ring_RSA_PKCS1_3072_8192_SHA384 : VerificationAlgorithm;
  ring_RSA_PSS_2048_8192_SHA256 : VerificationAlgorithm;
  ring_RSA_PSS_2048_8192_SHA384 : VerificationAlgorithm;
  ring_RSA_PSS_2048_8192_SHA512 : VerificationAlgorithm;
  ring_ED25519 : VerificationAlgorithm;
}.

Record RingAlgorithm {R : Ring} : Type := {
  ring_public_key_alg_id : AlgorithmIdentifier;
  ring_signature_alg_id : AlgorithmIdentifier;
  verification_alg : VerificationAlgorithm;
}.

Section RingAlgs.
Context {R : Ring}.

(** [impl SignatureVerificationAlgorithm for RingAlgorithm]. *)
Definition ring_algorithm (self : RingAlgorithm) : SignatureVerificationAlgorithm := {|
  public_key_alg_id := ring_public_key_alg_id self;
  signature_alg_id := ring_signature_alg_id self;
  alg_verify_signature public_key message signature :=
    ring_verify (verification_alg self) public_key message signature;
|}.

Definition ECDSA_P256_SHA256 : SignatureVerificationAlgorithm := ring_algorithm {|
  ring_public_key_alg_id := ECDSA_P256;
  ring_signature_alg_id := ECDSA_SHA256;
  verification_alg := ring_ECDSA_P256_SHA256_ASN1;
|}.
Definition ECDSA_P256_SHA384 : SignatureVerificationAlgorithm := ring_algorithm {|
  ring_public_key_alg_id := ECDSA_P256;
  ring_signature_alg_id := ECDSA_SHA384;
  verification_alg := ring_ECDSA_P256_SHA384_ASN1;
|}.
Definition ECDSA_P384_SHA256 : SignatureVerificationAlgorithm := ring_algorithm {|
  ring_public_key_alg_id := ECDSA_P384;
  ring_signature_alg_id := ECDSA_SHA256;
  verification_alg := ring_ECDSA_P384_SHA256_ASN1;
|}.
Definition ECDSA_P384_SHA384 : SignatureVerificationAlgorithm := ring_algorithm {|
  ring_public_key_alg_id := ECDSA_P384;
  ring_signature_alg_id := ECDSA_SHA384;
  verification_alg := ring_ECDSA_P384_SHA384_ASN1;
|}.
Definition RSA_PKCS1_2048_8192_SHA256 : SignatureVerificationAlgorithm := ring_algorithm {|
  ring_public_key_alg_id := RSA_ENCRYPTION;
  ring_signature_alg_id := RSA_PKCS1_SHA256;
  verification_alg := ring_RSA_PKCS1_2048_8192_SHA256;
|}.
Definition RSA_PKCS1_2048_8192_SHA384 : SignatureVerificationAlgorithm := ring_algorithm {|
  ring_public_key_alg_id := RSA_ENCRYPTION;
  ring_signature_alg_id := RSA_PKCS1_SHA384;
  verification_alg := ring_RSA_PKCS1_2048_8192_SHA384;
|}.
Definition RSA_PKCS1_2048_8192_SHA512 : SignatureVerificationAlgorithm := ring_algorithm {|
  ring_public_key_alg_id := RSA_ENCRYPTION;
  ring_signature_alg_id := RSA_PKCS1_SHA512;
  verification_alg := ring_RSA_PKCS1_2048_8192_SHA512;
|}.
Definition RSA_PKCS1_3072_8192_SHA384 : SignatureVerificationAlgorithm := ring_algorithm {|
  ring_public_key_alg_id := RSA_ENCRYPTION;
  ring_signature_alg_id := RSA_PKCS1_SHA384;
  verification_alg := ring_RSA_PKCS1_3072_8192_SHA384;
|}.
Definition RSA_PSS_2048_8192_SHA256_LEGACY_KEY : SignatureVerificationAlgorithm := ring_algorithm {|
  ring_public_key_alg_id := RSA_ENCRYPTION;
  ring_signature_alg_id := RSA_PSS_SHA256;
  verification_alg := ring_RSA_PSS_2048_8192_SHA256;
|}.
Definition RSA_PSS_2048_8192_SHA384_LEGACY_KEY : SignatureVerificationAlgorithm := ring_algorithm {|
  ring_public_key_alg_id := RSA_ENCRYPTION;
  ring_signature_alg_id := RSA_PSS_SHA384;
  verification_alg := ring_RSA_PSS_2048_8192_SHA384;
|}.
Definition RSA_PSS_2048_8192_SHA512_LEGACY_KEY : SignatureVerificationAlgorithm := ring_algorithm {|
  ring_public_key_alg_id := RSA_ENCRYPTION;
  ring_signature_alg_id := RSA_PSS_SHA512;
  verification_alg := ring_RSA_PSS_2048_8192_SHA512;
|}.
Definition ED25519 : SignatureVerificationAlgorithm := ring_algorithm {|
  ring_public_key_alg_id := ALG_ED25519;
  ring_signature_alg_id := ALG_ED25519;
  verification_alg := ring_ED25519;
|}.
End RingAlgs.

(** ** Reference definitions *)

(** The base-128 octets of an arc of an object identifier below [2 ^ 28]. *)
Definition encode_arc (n : Z) : list u8 :=
  map u8_of_Z
    (if n <? 128 then [n]
     else if n <? 16384 then [128 + n / 128; n mod 128]
     else if n <? 2097152 then [128 + n / 16384; 128 + n / 128 mod 128; n mod 128]
     else [128 + n / 2097152; 128 + n / 16384 mod 128; 128 + n / 128 mod 128; n mod 128]).

(** The DER encoding of the object identifier [first.second.tail]. *)
Definition encode_oid (first second : Z) (tail : list Z) : Input :=
  tlv (tag_u8 OID) (concat (map encode_arc (40 * first + second :: tail))).

Definition der_null : Input := tlv x05 [].

(** The parameters of RSASSA-PSS: the hash, MGF1 with the hash, the length of
    the salt. *)
Definition pss_parameters (hash_arc salt_length : Z) : Input :=
  let hash := tlv (tag_u8 Sequence)
                (encode_oid 2 16 [840; 1; 101; 3; 4; 2; hash_arc] ++ der_null) in
  tlv (tag_u8 Sequence)
    (tlv (tag_u8 ContextSpecificConstructed0) hash
     ++ tlv (tag_u8 ContextSpecificConstructed1)
          (tlv (tag_u8 Sequence) (encode_oid 1 2 [840; 113549; 1; 1; 8] ++ hash))
     ++ tlv xa2 (tlv (tag_u8 Integer) [u8_of_Z salt_length])).

(** The signature schemes of the algorithms, and their identifiers after RFC 5480,
    RFC 5758, RFC 8017 and RFC 8410: of a public key, and of a signature. *)
Inductive curve : Type := Secp256r1 | Secp384r1.
Inductive digest : Type := SHA_256 | SHA_384 | SHA_512.
Inductive scheme : Type :=
  | Ecdsa (c : curve) (d : digest)
  | RsaPkcs1 (d : digest)
  | RsaPss (d : digest)
  | EdDsa25519.

Definition curve_oid (c : curve) : Input :=
  match c with
  | Secp256r1 => encode_oid 1 2 [840; 10045; 3; 1; 7]
  | Secp384r1 => encode_oid 1 3 [132; 0; 34]
  end.

Definition key_identifier (s : scheme) : Input :=
  match s with
  | Ecdsa c _ => encode_oid 1 2 [840; 10045; 2; 1] ++ curve_oid c
  | RsaPkcs1 _ | RsaPss _ => encode_oid 1 2 [840; 113549; 1; 1; 1] ++ der_null
  | EdDsa25519 => encode_oid 1 3 [101; 112]
  end.

Definition signature_identifier (s : scheme) : Input :=
  match s with
  | Ecdsa _ d =>
    let arc := match d with SHA_256 => 2 | SHA_384 => 3 | SHA_512 => 4 end in
    encode_oid 1 2 [840; 10045; 4; 3; arc]
  | RsaPkcs1 d =>
    let arc := match d with SHA_256 => 11 | SHA_384 => 12 | SHA_512 => 13 end in
    encode_oid 1 2 [840; 113549; 1; 1; arc] ++ der_null
  | RsaPss d =>
    encode_oid 1 2 [840; 113549; 1; 1; 10] ++
    match d with
    | SHA_256 => pss_parameters 1 32
    | SHA_384 => pss_parameters 2 48
    | SHA_512 => pss_parameters 3 64
    end
  | EdDsa25519 => encode_oid 1 3 [101; 112]
  end.

(** The twelve algorithms by name, each with the algorithm of the ring crate of
    that name. *)
Inductive ring_name : Type :=
  | RN_ECDSA_P256_SHA256
  | RN_ECDSA_P256_SHA384
  | RN_ECDSA_P384_SHA256
  | RN_ECDSA_P384_SHA384
  | RN_RSA_PKCS1_2048_8192_SHA256
  | RN_RSA_PKCS1_2048_8192_SHA384
  | RN_RSA_PKCS1_2048_8192_SHA512
  | RN_RSA_PKCS1_3072_8192_SHA384
  | RN_RSA_PSS_2048_8192_SHA256
  | RN_RSA_PSS_2048_8192_SHA384
  | RN_RSA_PSS_2048_8192_SHA512
  | RN_ED25519.

#[export] Instance ring_name_eq_dec : EqDecision ring_name.
Proof. solve_decision. Defined.

Definition named `{R : Ring} (name : ring_name) : VerificationAlgorithm :=
  match name with
  | RN_ECDSA_P256_SHA256 => ring_ECDSA_P256_SHA256_ASN1
  | RN_ECDSA_P256_SHA384 => ring_ECDSA_P256_SHA384_ASN1
  | RN_ECDSA_P384_SHA256 => ring_ECDSA_P384_SHA256_ASN1
  | RN_ECDSA_P384_SHA384 => ring_ECDSA_P384_SHA384_ASN1
  | RN_RSA_PKCS1_2048_8192_SHA256 => ring_RSA_PKCS1_2048_8192_SHA256
  | RN_RSA_PKCS1_2048_8192_SHA384 => ring_RSA_PKCS1_2048_8192_SHA384
  | RN_RSA_PKCS1_2048_8192_SHA512 => ring_RSA_PKCS1_2048_8192_SHA512
  | RN_RSA_PKCS1_3072_8192_SHA384 => ring_RSA_PKCS1_3072_8192_SHA384
  | RN_RSA_PSS_2048_8192_SHA256 => ring_RSA_PSS_2048_8192_SHA256
  | RN_RSA_PSS_2048_8192_SHA384 => ring_RSA_PSS_2048_8192_SHA384
  | RN_RSA_PSS_2048_8192_SHA512 => ring_RSA_PSS_2048_8192_SHA512
  | RN_ED25519 => ring_ED25519
  end.

Definition crate_algorithm `{R : Ring} (name : ring_name) : SignatureVerificationAlgorithm :=
  match name with
  | RN_ECDSA_P256_SHA256 => ECDSA_P256_SHA256
  | RN_ECDSA_P256_SHA384 => ECDSA_P256_SHA384
  | RN_ECDSA_P384_SHA256 => ECDSA_P384_SHA256
  | RN_ECDSA_P384_SHA384 => ECDSA_P384_SHA384
  | RN_RSA_PKCS1_2048_8192_SHA256 => RSA_PKCS1_2048_8192_SHA256
  | RN_RSA_PKCS1_2048_8192_SHA384 => RSA_PKCS1_2048_8192_SHA384
  | RN_RSA_PKCS1_2048_8192_SHA512 => RSA_PKCS1_2048_8192_SHA512
  | RN_RSA_PKCS1_3072_8192_SHA384 => RSA_PKCS1_3072_8192_SHA384
  | RN_RSA_PSS_2048_8192_SHA256 => RSA_PSS_2048_8192_SHA256_LEGACY_KEY
  | RN_RSA_PSS_2048_8192_SHA384 => RSA_PSS_2048_8192_SHA384_LEGACY_KEY
  | RN_RSA_PSS_2048_8192_SHA512 => RSA_PSS_2048_8192_SHA512_LEGACY_KEY
  | RN_ED25519 => ED25519
  end.

Definition scheme_of (name : ring_name) : scheme :=
  match name with
  | RN_ECDSA_P256_SHA256 => Ecdsa Secp256r1 SHA_256
  | RN_ECDSA_P256_SHA384 => Ecdsa Secp256r1 SHA_384
  | RN_ECDSA_P384_SHA256 => Ecdsa Secp384r1 SHA_256
  | RN_ECDSA_P384_SHA384 => Ecdsa Secp384r1 SHA_384
  | RN_RSA_PKCS1_2048_8192_SHA256 => RsaPkcs1 SHA_256
  | RN_RSA_PKCS1_2048_8192_SHA384 | RN_RSA_PKCS1_3072_8192_SHA384 => RsaPkcs1 SHA_384
  | RN_RSA_PKCS1_2048_8192_SHA512 => RsaPkcs1 SHA_512
  | RN_RSA_PSS_2048_8192_SHA256 => RsaPss SHA_256
  | RN_RSA_PSS_2048_8192_SHA384 => RsaPss SHA_384
  | RN_RSA_PSS_2048_8192_SHA512 => RsaPss SHA_512
  | RN_ED25519 => EdDsa25519
  end.

(** The signature is of the scheme, and the key for it. *)
Definition of_scheme (sig_alg : Input) (name : ring_name) : bool :=
  bytes_eqb sig_alg (signature_identifier (scheme_of name)).
Definition serves (sig_alg key_alg : Input) (name : ring_name) : bool :=
  of_scheme sig_alg name && bytes_eqb key_alg (key_identifier (scheme_of name)).

(** ** Lemmas *)
Section RingAlgsLemmas.
Context `{R : Ring}.

Lemma crate_key_id name :
  asn1_id_value (public_key_alg_id (crate_algorithm name)) = key_identifier (scheme_of name).
Proof. by destruct name; vm_compute. Qed.

Lemma crate_signature_id name :
  asn1_id_value (signature_alg_id (crate_algorithm name)) = signature_identifier (scheme_of name).
Proof. by destruct name; vm_compute. Qed.

Lemma crate_verify name key message signature :
  alg_verify_signature (crate_algorithm name) key message signature
  = ring_verify (named name) key message signature.
Proof. by destruct name. Qed.

Lemma crate_signature_matches names sd :
  existsb (signature_alg_matches sd) (map crate_algorithm names)
  = existsb (of_scheme (algorithm sd)) names.
Proof.
  induction names as [|name names IH]; [done|]. simpl. rewrite IH.
  unfold signature_alg_matches, of_scheme. by rewrite crate_signature_id.
Qed.

(** The first algorithm of the crate that fits. *)
Lemma crate_candidates names spki sd :
  head (candidates (map crate_algorithm names) spki sd)
  = crate_algorithm <$> List.find (serves (algorithm sd) (algorithm_id_value spki)) names.
Proof.
  induction names as [|name names IH]; [done|]. simpl.
  unfold signature_alg_matches, key_alg_matches. rewrite crate_signature_id, crate_key_id.
  change (bytes_eqb (algorithm sd) _ && _) with (serves (algorithm sd) (algorithm_id_value spki) name).
  by destruct (serves _ _ name).
Qed.
End RingAlgsLemmas.

(** ** Properties *)

(** C40: The verification of signed data with algorithms of the crate, in any
    selection and order, under the encoding of a public key: the first whose
    scheme is the one of the signature and for the key, by the DER encodings of
    their object identifiers and parameters, asks the algorithm of the ring
    crate it is named after about the key, the message and the signature; with
    none, the error tells whether one has the scheme of the signature. *)
Theorem crate_algorithms_verify {U : Untrusted} {L : UntrustedLaws U} `{R : Ring}
    names key_alg key sd :
  Z.of_nat (length key_alg) < TWO_BYTE_DER_SIZE ->
  Z.of_nat (length (x00 :: key)) < TWO_BYTE_DER_SIZE ->
  verify_signed_data (map crate_algorithm names)
    (tlv (tag_u8 Sequence) key_alg ++ tlv (tag_u8 BitString) (x00 :: key)) sd =
    match List.find (serves (algorithm sd) key_alg) names with
    | Some name =>
      if ring_verify (named name) key (data sd) (signature sd)
      then Ok tt else Err InvalidSignatureForPublicKey
    | None =>
      if existsb (of_scheme (algorithm sd)) names
      then Err UnsupportedSignatureAlgorithmForPublicKey
      else Err UnsupportedSignatureAlgorithm
    end.
Proof.
  intros Halg Hkey.
  rewrite (verify_signed_data_eq _ _ {| algorithm_id_value := key_alg; key_value := key |})
    by (by apply spki_read_all_iff).
  pose proof (crate_candidates names {| algorithm_id_value := key_alg; key_value := key |} sd) as Hc.
  cbn [algorithm_id_value] in Hc. rewrite crate_signature_matches.
  destruct (candidates _ _ _) as [|alg algs], (List.find _ names) as [name|]; try done.
  injection Hc as ->. cbn [key_value]. by rewrite crate_verify.
Qed.

(** A ring for examples: an algorithm is its name and accepts the signatures
    that spell its index before the key. *)
Definition toy_ring : Ring := {|
  VerificationAlgorithm := nat;
  ring_verify index key _ signature := bytes_eqb (u8_of_Z (Z.of_nat index) :: key) signature;
  ring_ECDSA_P256_SHA256_ASN1 := 0%nat; ring_ECDSA_P256_SHA384_ASN1 := 1%nat;
  ring_ECDSA_P384_SHA256_ASN1 := 2%nat; ring_ECDSA_P384_SHA384_ASN1 := 3%nat;
  ring_RSA_PKCS1_2048_8192_SHA256 := 4%nat; ring_RSA_PKCS1_2048_8192_SHA384 := 5%nat;
  ring_RSA_PKCS1_2048_8192_SHA512 := 6%nat; ring_RSA_PKCS1_3072_8192_SHA384 := 7%nat;
  ring_RSA_PSS_2048_8192_SHA256 := 8%nat; ring_RSA_PSS_2048_8192_SHA384 := 9%nat;
  ring_RSA_PSS_2048_8192_SHA512 := 10%nat; ring_ED25519 := 11%nat;
|}.

(** An ECDSA signature with SHA-384 under a key on the curve secp256r1: of the two
    algorithms for that curve, the second one is asked. *)
Lemma crate_algorithms_verify_witness :
  verify_signed_data (U := slice_reader)
    (map (crate_algorithm (R := toy_ring)) [RN_ECDSA_P256_SHA256; RN_ECDSA_P256_SHA384])
    (tlv (tag_u8 Sequence) (key_identifier (Ecdsa Secp256r1 SHA_256))
     ++ tlv (tag_u8 BitString) [x00; x42])
    {| data := []; algorithm := signature_identifier (Ecdsa Secp256r1 SHA_384);
       signature := [x01; x42] |} = Ok tt.
Proof.
  rewrite (crate_algorithms_verify (U := slice_reader) (R := toy_ring)
    [RN_ECDSA_P256_SHA256; RN_ECDSA_P256_SHA384] (key_identifier (Ecdsa Secp256r1 SHA_256)) [x42])
    by by vm_compute.
  by vm_compute.
Defined.
