(* ===== verification/Cert.v ===== *)
(** * [src/cert.rs]: certificates and CRL distribution points *)
From S2P Require Import Prelude Errors Untrusted Der GeneralName X509 SignedData Samples.

(** ** Data *)

(** [EndEntityOrCa] and [Cert]: a CA certificate points to the child it issued,
    so a certificate carries the chain down to the end entity. *)
Inductive EndEntityOrCa : Type :=
  | EndEntity
  | Ca (child : Cert)
with Cert : Type :=
  | mkCert
      (ee_or_ca : EndEntityOrCa)
      (serial : Input)
      (signed_data : SignedData)
      (issuer validity subject spki : Input)
      (basic_constraints key_usage eku name_constraints subject_alt_name
       crl_distribution_points_field : option Input).

Definition ee_or_ca (c : Cert) : EndEntityOrCa :=
  match c with mkCert e _ _ _ _ _ _ _ _ _ _ _ _ => e end.
Definition serial (c : Cert) : Input :=
  match c with mkCert _ s _ _ _ _ _ _ _ _ _ _ _ => s end.
Definition signed_data (c : Cert) : SignedData :=
  match c with mkCert _ _ sd _ _ _ _ _ _ _ _ _ _ => sd end.
Definition issuer (c : Cert) : Input :=
  match c with mkCert _ _ _ i _ _ _ _ _ _ _ _ _ => i end.
Definition validity (c : Cert) : Input :=
  match c with mkCert _ _ _ _ v _ _ _ _ _ _ _ _ => v end.
Definition subject (c : Cert) : Input :=
  match c with mkCert _ _ _ _ _ s _ _ _ _ _ _ _ => s end.
Definition spki (c : Cert) : Input :=
  match c with mkCert _ _ _ _ _ _ k _ _ _ _ _ _ => k end.
Definition basic_constraints (c : Cert) : option Input :=
  match c with mkCert _ _ _ _ _ _ _ bc _ _ _ _ _ => bc end.
Definition key_usage (c : Cert) : option Input :=
  match c with mkCert _ _ _ _ _ _ _ _ ku _ _ _ _ => ku end.
Definition eku (c : Cert) : option Input :=
  match c with mkCert _ _ _ _ _ _ _ _ _ e _ _ _ => e end.
Definition name_constraints (c : Cert) : option Input :=
  match c with mkCert _ _ _ _ _ _ _ _ _ _ nc _ _ => nc end.
Definition subject_alt_name (c : Cert) : option Input :=
  match c with mkCert _ _ _ _ _ _ _ _ _ _ _ san _ => san end.
Definition crl_distribution_points_field (c : Cert) : option Input :=
  match c with mkCert _ _ _ _ _ _ _ _ _ _ _ _ dp => dp end.

(** The extension fields, replaced together. *)
Definition with_extensions (c : Cert) (bc ku e nc san dp : option Input) : Cert :=
  mkCert (ee_or_ca c) (serial c) (signed_data c) (issuer c) (validity c) (subject c)
    (spki c) bc ku e nc san dp.

(** A [&mut cert.field] of [remember_cert_extension]. *)
Record slot : Type := {
  slot_get : Cert -> option Input;
  slot_set : Cert -> option Input -> Cert;
}.

(** The [match id] that selects the field to remember, with its OID 2.5.29.id. *)
Definition extension_slot (id : u8) : option slot :=
  match id with
  | x0f => Some {| slot_get := key_usage; slot_set c v :=
      with_extensions c (basic_constraints c) v (eku c) (name_constraints c)
        (subject_alt_name c) (crl_distribution_points_field c) |}
  | x11 => Some {| slot_get := subject_alt_name; slot_set c v :=
      with_extensions c (basic_constraints c) (key_usage c) (eku c) (name_constraints c)
        v (crl_distribution_points_field c) |}
  | x13 => Some {| slot_get := basic_constraints; slot_set c v :=
      with_extensions c v (key_usage c) (eku c) (name_constraints c)
        (subject_alt_name c) (crl_distribution_points_field c) |}
  | x1e => Some {| slot_get := name_constraints; slot_set c v :=
      with_extensions c (basic_constraints c) (key_usage c) (eku c) v
        (subject_alt_name c) (crl_distribution_points_field c) |}
  | x1f => Some {| slot_get := crl_distribution_points_field; slot_set c v :=
      with_extensions c (basic_constraints c) (key_usage c) (eku c) (name_constraints c)
        (subject_alt_name c) v |}
  | x25 => Some {| slot_get := eku; slot_set c v :=
      with_extensions c (basic_constraints c) (key_usage c) v (name_constraints c)
        (subject_alt_name c) (crl_distribution_points_field c) |}
  | _ => None
  end.

Record CrlDistributionPoint : Type := {
  distribution_point : option Input;
  reasons : option BitStringFlags;
  crl_issuer : option Input;
}.

Section CertOps.
Context {U : Untrusted}.

(** ** Parsing *)
Definition version3 : parser Error unit :=
  nested ContextSpecificConstructed0 UnsupportedCertVersion
    (let! version := from_der (T := u8) in
     if negb (u8_eqb version x02) then pfail UnsupportedCertVersion else pret tt).

Definition lenient_certificate_serial_number : parser Error Input := expect_tag Integer.

Definition remember_cert_extension (extension : Extension) (cert : Cert)
    : outcome Error Cert :=
  remember_extension extension
    (fun id cert =>
       match extension_slot id with
       | None => unsupported extension cert
       | Some out =>
         let? v :=
           set_extension_once (slot_get out cert)
             (read_all (ext_value extension) BadDer
                (if u8_eqb id x0f then p_read_bytes_to_end else expect_tag Sequence)) in
         Ok (slot_set out cert v)
       end)
    cert.

(** The decoder of one extension, and the optional extensions at the end. *)
Definition extension_decoder (cert : Cert) : parser Error Cert :=
  let! extension := from_der (T := Extension) in
  plift (remember_cert_extension extension cert).

Definition read_extensions (cert : Cert) : parser Error Cert :=
  let! at_end := p_at_end in
  if negb at_end then
    nested ContextSpecificConstructed3 (TrailingData CertificateExtensionsId)
      (nested_of_mut Sequence Sequence (TrailingData ExtensionId) extension_decoder cert)
  else pret cert.

(** The closure that reads the fields of the TBSCertificate. *)
Definition read_tbs_certificate (ee_or_ca : EndEntityOrCa) (sd : SignedData)
    : parser Error Cert :=
  let! _ := version3 in
  let! serial := lenient_certificate_serial_number in
  let! signature := expect_tag Sequence in
  if negb (bytes_eqb signature (algorithm sd)) then pfail SignatureAlgorithmMismatch
  else
    let! issuer := expect_tag Sequence in
    let! validity := expect_tag Sequence in
    let! subject := expect_tag Sequence in
    let! spki := expect_tag Sequence in
    let cert := mkCert ee_or_ca serial sd issuer validity subject spki
                  None None None None None None in
    read_extensions cert.

Definition Cert_from_der (cert_der : Input) (ee_or_ca : EndEntityOrCa)
    : outcome Error Cert :=
  let? (tbs, sd) :=
    read_all cert_der (TrailingData CertificateId)
      (nested Sequence (TrailingData SignedDataId)
         (SignedData_from_der TWO_BYTE_DER_SIZE)) in
  read_all tbs (TrailingData CertificateTbsCertificateId)
    (read_tbs_certificate ee_or_ca sd).

(** ** CRL distribution points *)
Definition DISTRIBUTION_POINT_TAG : u8 := u8_or CONTEXT_SPECIFIC CONSTRUCTED.
Definition REASONS_TAG : u8 := u8_or CONTEXT_SPECIFIC x01.
Definition CRL_ISSUER_TAG : u8 := u8_or (u8_or CONTEXT_SPECIFIC CONSTRUCTED) x02.

(** One [match tag] of the loop of [CrlDistributionPoint::from_der]. *)
Definition crl_dp_field (tag : u8) (value : Input) (result : CrlDistributionPoint)
    : outcome Error CrlDistributionPoint :=
  if u8_eqb tag DISTRIBUTION_POINT_TAG then
    let? v := set_extension_once (distribution_point result) (Ok value) in
    Ok {| distribution_point := v; reasons := reasons result;
          crl_issuer := crl_issuer result |}
  else if u8_eqb tag REASONS_TAG then
    let? v := set_extension_once (reasons result) (bit_string_flags value) in
    Ok {| distribution_point := distribution_point result; reasons := v;
          crl_issuer := crl_issuer result |}
  else if u8_eqb tag CRL_ISSUER_TAG then
    let? v := set_extension_once (crl_issuer result) (Ok value) in
    Ok {| distribution_point := distribution_point result; reasons := reasons result;
          crl_issuer := v |}
  else Err BadDer.

(** [while !der.at_end() { let (tag, value) = ...; field(tag, value) }]. *)
Fixpoint tagged_fields {S} (fuel : nat) (field : u8 -> Input -> S -> outcome Error S)
    (result : S) : parser Error S :=
  match fuel with
  | O => out_of_fuel
  | Datatypes.S fuel =>
    let! at_end := p_at_end in
    if at_end then pret result
    else
      let! (tag, value) := read_tag_and_get_value in
      let! result := plift (field tag value result) in
      tagged_fields fuel field result
  end.

#[export] Instance crl_distribution_point_from_der : FromDer CrlDistributionPoint := {|
  from_der :=
    nested Sequence (TrailingData CrlDistributionPointId)
      (let! fuel := loop_fuel in
       let! result := tagged_fields fuel crl_dp_field
         {| distribution_point := None; reasons := None; crl_issuer := None |} in
       match distribution_point result, crl_issuer result with
       | None, None => pfail MalformedExtensions
       | _, _ => pret result
       end);
  TYPE_ID := CrlDistributionPointId;
|}.

(** [CrlDistributionPoint::names] (and [IssuingDistributionPoint::names]). *)
Definition dp_names (distribution_point : option Input)
    : outcome Error (option DistributionPointName) :=
  match distribution_point with
  | None => Ok None
  | Some input =>
    let? name := fst (from_der (T := DistributionPointName) (reader_new input)) in
    Ok (Some name)
  end.

Definition CrlDistributionPoint_names (self : CrlDistributionPoint)
    : outcome Error (option DistributionPointName) :=
  dp_names (distribution_point self).

Definition crl_distribution_points (self : Cert)
    : option (DerIterator CrlDistributionPoint) :=
  der_iterator_new <$> crl_distribution_points_field self.
End CertOps.

(** ** The chain a certificate carries *)

(** Induction down the chain. *)
Fixpoint chain_ind (P : Cert -> Prop)
    (H : forall c, match ee_or_ca c with EndEntity => True | Ca child => P child end -> P c)
    (c : Cert) : P c :=
  H c (match c as c return
         match ee_or_ca c with EndEntity => True | Ca child => P child end with
       | mkCert EndEntity _ _ _ _ _ _ _ _ _ _ _ _ => I
       | mkCert (Ca child) _ _ _ _ _ _ _ _ _ _ _ _ => chain_ind P H child
       end).

(** The certificates from [c] down to the end entity. *)
Fixpoint chain_down (c : Cert) : list Cert :=
  c :: match ee_or_ca c with EndEntity => [] | Ca child => chain_down child end.

(** ** Reference definitions: the extensions of a certificate *)

(** The contents of the value of a remembered extension: the raw bytes of a
    key usage, the contents of a SEQUENCE for the others. *)
Definition extension_contents (id : u8) (value v : Input) : Prop :=
  if u8_eqb id x0f then v = value
  else value = tlv (tag_u8 Sequence) v /\ Z.of_nat (length v) < TWO_BYTE_DER_SIZE.

(** The extensions of a list with the OID 2.5.29.[id]. *)
Definition with_id (id : u8) (exts : list Extension) : list Extension :=
  List.filter (fun ext => bytes_eqb (ext_id ext) (id_ce id)) exts.

(** The extensions a certificate remembers, and the field of each: key usage,
    subject alternative name, basic constraints, name constraints, CRL
    distribution points and extended key usage (RFC 5280, 4.2.1). *)
Definition known_extensions : list u8 := [x0f; x11; x13; x1e; x1f; x25].
Definition remembered (c : Cert) (id : u8) : option Input :=
  match id with
  | x0f => key_usage c
  | x11 => subject_alt_name c
  | x13 => basic_constraints c
  | x1e => name_constraints c
  | x1f => crl_distribution_points_field c
  | x25 => eku c
  | _ => None
  end.

(** What a list of extensions means for a certificate: a critical extension is
    known, a known one occurs at most once, and its field holds its contents. *)
Record extensions_remembered (exts : list Extension) (c : Cert) : Prop := {
  critical_known ext : ext ∈ exts -> critical ext = true ->
    exists id, id ∈ known_extensions /\ ext_id ext = id_ce id;
  field_absent id : id ∈ known_extensions ->
    remembered c id = None <-> with_id id exts = [];
  field_present id v : id ∈ known_extensions ->
    remembered c id = Some v <->
    exists ext, with_id id exts = [ext] /\ extension_contents id (ext_value ext) v;
}.

(** The same in terms of the slots of the code. *)
Definition slot_value (c : Cert) (id : u8) : option Input :=
  match extension_slot id with Some s => slot_get s c | None => None end.

Record slots_remembered (exts : list Extension) (c : Cert) : Prop := {
  slot_critical : forall ext, ext ∈ exts -> critical ext = true ->
    exists id s, extension_slot id = Some s /\ ext_id ext = id_ce id;
  slot_absent : forall id s, extension_slot id = Some s ->
    slot_value c id = None <-> with_id id exts = [];
  slot_present : forall id s v, extension_slot id = Some s ->
    slot_value c id = Some v <->
    exists ext, with_id id exts = [ext] /\ extension_contents id (ext_value ext) v;
}.

Section ReferenceOps.
Context {U : Untrusted}.

(** The extensions remembered in order. *)
Fixpoint remember_all (exts : list Extension) (cert : Cert) : outcome Error Cert :=
  match exts with
  | [] => Ok cert
  | ext :: exts =>
    let? cert := remember_cert_extension ext cert in remember_all exts cert
  end.
End ReferenceOps.

(** The encodings of an extension; FALSE may be absent or explicit. *)
Definition encodes_extension (ext : Extension) (v : Input) : Prop :=
  exists critical_bytes,
    (critical_bytes = tlv (tag_u8 Boolean) [if critical ext then xff else x00] \/
     critical ext = false /\ critical_bytes = []) /\
    v = tlv (tag_u8 OID) (ext_id ext) ++ critical_bytes
          ++ tlv (tag_u8 OctetString) (ext_value ext) /\
    Z.of_nat (length (ext_id ext)) < TWO_BYTE_DER_SIZE /\
    Z.of_nat (length (ext_value ext)) < TWO_BYTE_DER_SIZE.

(** The encodings of the extensions of a TBSCertificate. *)
Definition encodes_extensions (exts : list Extension) (l : Input) : Prop :=
  exts = [] /\ l = [] \/
  exists raw, Forall2 encodes_extension exts raw /\ raw <> [] /\
    let contents := concat (map (tlv (tag_u8 Sequence)) raw) in
    l = tlv (tag_u8 ContextSpecificConstructed3) (tlv (tag_u8 Sequence) contents) /\
    Forall (fun v => Z.of_nat (length v) < TWO_BYTE_DER_SIZE) raw /\
    Z.of_nat (length contents) < TWO_BYTE_DER_SIZE /\
    Z.of_nat (length (tlv (tag_u8 Sequence) contents)) < TWO_BYTE_DER_SIZE.

(** ** Lemmas: extension fields *)
Lemma slot_known id :
  id ∈ known_extensions <-> exists s, extension_slot id = Some s.
Proof.
  split.
  - intros H. unfold known_extensions in H. rewrite !elem_of_cons, elem_of_nil in H.
    destruct H as [->|[->|[->|[->|[->|[->|[]]]]]]]; by eexists.
  - intros [s H]. apply (bool_decide_unpack _). by destruct id.
Qed.

Lemma slot_value_remembered c id : slot_value c id = remembered c id.
Proof. by destruct id. Qed.

Lemma slots_remembered_iff exts c : slots_remembered exts c <-> extensions_remembered exts c.
Proof.
  split; intros [Hc Ha Hp]; split.
  - intros ext Hin (id & s & Hs & Hid)%Hc; [|done]. exists id. split; [|done].
    apply slot_known. by exists s.
  - intros id [s Hs]%slot_known. rewrite <- slot_value_remembered. by apply (Ha id s).
  - intros id v [s Hs]%slot_known. rewrite <- slot_value_remembered. by apply (Hp id s).
  - intros ext Hin (id & [s Hs]%slot_known & Hid)%Hc; [|done]. by exists id, s.
  - intros id s Hs. rewrite slot_value_remembered. apply Ha, slot_known. by exists s.
  - intros id s v Hs. rewrite slot_value_remembered. apply Hp, slot_known. by exists s.
Qed.

Lemma slot_get_set id s c v : extension_slot id = Some s -> slot_get s (slot_set s c v) = v.
Proof. destruct id; intros [= <-]; done. Qed.

Lemma slot_get_set_ne id id' s s' c v :
  extension_slot id = Some s -> extension_slot id' = Some s' -> id <> id' ->
  slot_get s' (slot_set s c v) = slot_get s' c.
Proof.
  intros Hs Hs' Hne. destruct id; try discriminate Hs; injection Hs as <-;
    destruct id'; try discriminate Hs'; injection Hs' as <-; done.
Qed.

Lemma with_extensions_fields id s c v : extension_slot id = Some s ->
  let c' := slot_set s c v in
  ee_or_ca c' = ee_or_ca c /\ serial c' = serial c /\ signed_data c' = signed_data c /\
  issuer c' = issuer c /\ validity c' = validity c /\ subject c' = subject c /\
  spki c' = spki c.
Proof. destruct id; intros [= <-]; done. Qed.

(** The same certificate, the remembered extensions apart. *)
Definition same_fields (c c' : Cert) : Prop :=
  ee_or_ca c' = ee_or_ca c /\ serial c' = serial c /\ signed_data c' = signed_data c /\
  issuer c' = issuer c /\ validity c' = validity c /\ subject c' = subject c /\
  spki c' = spki c.

#[export] Instance same_fields_preorder : PreOrder same_fields.
Proof.
  split; [done|]. unfold same_fields. intros a b c (?&?&?&?&?&?&?) (?&?&?&?&?&?&?).
  repeat split; congruence.
Qed.

Section CertLemmas.
Context {U : Untrusted} {L : UntrustedLaws U}.

Lemma read_extension_contents ext_value id v :
  read_all ext_value BadDer
    (if u8_eqb id x0f then p_read_bytes_to_end else expect_tag Sequence) = Ok v <->
  extension_contents id ext_value v.
Proof.
  rewrite read_all_ok. unfold extension_contents. destruct (u8_eqb id x0f).
  - rewrite den_read_bytes_to_end. split; [by intros [= ->]|by intros ->].
  - rewrite expect_tag_iff. by rewrite app_nil_r.
Qed.

Lemma remember_cert_extension_ok ext c c' :
  remember_cert_extension ext c = Ok c' <->
  (exists id s v, ext_id ext = id_ce id /\ extension_slot id = Some s /\
     slot_get s c = None /\ extension_contents id (ext_value ext) v /\
     c' = slot_set s c (Some v)) \/
  ((forall id s, extension_slot id = Some s -> ext_id ext <> id_ce id) /\
   critical ext = false /\ c' = c).
Proof.
  unfold remember_cert_extension.
  assert (forall o : outcome Error Cert, unsupported ext c = o -> o = Ok c' <->
            critical ext = false /\ c' = c) as Hu.
  { intros o <-. unfold unsupported.
    destruct (critical ext); split; [done|by intros [? _]|by intros [= ->]|by intros [_ ->]]. }
  destruct (remember_extension_cases ext
    (fun id cert =>
       match extension_slot id with
       | None => unsupported ext cert
       | Some out =>
         let? v := set_extension_once (slot_get out cert)
             (read_all (ext_value ext) BadDer
                (if u8_eqb id x0f then p_read_bytes_to_end else expect_tag Sequence)) in
         Ok (slot_set out cert v)
       end) c) as [(n & Hn & ->)|[Hn ->]].
  - destruct (extension_slot n) as [s|] eqn:Hs.
    + rewrite obind_ok. split.
      * intros (v & Hv & [= <-]). left. unfold set_extension_once in Hv.
        destruct (slot_get s c) eqn:Hg; [done|].
        apply obind_ok in Hv as (w & Hw%read_extension_contents & [= <-]).
        by exists n, s, w.
      * intros [(id & s' & v & Hid & Hs' & Hg & Hv & ->)|(Hno & _)].
        -- rewrite Hn in Hid. apply app_inj_2 in Hid as [_ [= <-]]; [|done].
           rewrite Hs in Hs'. injection Hs' as <-. exists (Some v). split; [|done].
           unfold set_extension_once. rewrite Hg.
           by rewrite (proj2 (read_extension_contents _ _ _) Hv).
        -- by destruct (Hno n s Hs).
    + rewrite (Hu _ eq_refl). split.
      * intros Hc. right. split; [|done]. intros id s Hs' Heq. rewrite Hn in Heq.
        apply app_inj_2 in Heq as [_ [= <-]]; [|done]. congruence.
      * intros [(id & s & v & Hid & Hs' & _)|(_ & Hc)]; [|done].
        rewrite Hn in Hid. apply app_inj_2 in Hid as [_ [= <-]]; [|done]. congruence.
  - rewrite (Hu _ eq_refl). split.
    + intros Hc. right. split; [|done]. intros id s _. apply Hn.
    + intros [(id & s & v & Hid & _)|(_ & Hc)]; [|done]. by destruct (Hn id).
Qed.

Lemma remember_all_snoc exts ext c :
  remember_all (exts ++ [ext]) c =
    let? c := remember_all exts c in remember_cert_extension ext c.
Proof.
  revert c. induction exts as [|e exts IH]; intros c; simpl.
  - by destruct (remember_cert_extension ext c).
  - destruct (remember_cert_extension e c); simpl; [apply IH|done..].
Qed.

Lemma extension_contents_inj id value v v' :
  extension_contents id value v -> extension_contents id value v' -> v = v'.
Proof. rewrite <- !read_extension_contents. congruence. Qed.

Lemma with_id_snoc id exts ext :
  with_id id (exts ++ [ext]) =
    with_id id exts ++ if bytes_eqb (ext_id ext) (id_ce id) then [ext] else [].
Proof. unfold with_id. rewrite List.filter_app. simpl. by case_match. Qed.

Lemma id_ce_inj n n' : id_ce n = id_ce n' -> n = n'.
Proof. intros H. by apply app_inj_2 in H as [_ [= ->]]. Qed.

Lemma remember_same_fields ext c c' :
  remember_cert_extension ext c = Ok c' -> same_fields c c'.
Proof.
  intros [(id & s & v & _ & Hs & _ & _ & ->)|(_ & _ & ->)]%remember_cert_extension_ok;
    [by apply (with_extensions_fields id)|done].
Qed.

(** No extension: nothing is remembered. *)
Definition no_extensions (c : Cert) : Prop :=
  forall id s, extension_slot id = Some s -> slot_get s c = None.

Lemma with_id_snoc_other exts ext id : ext_id ext <> id_ce id ->
  with_id id (exts ++ [ext]) = with_id id exts.
Proof. intros H. by rewrite with_id_snoc, (proj2 (bytes_eqb_neq _ _) H), app_nil_r. Qed.

Lemma remembered_slot_set id s c v id' s' :
  extension_slot id = Some s -> extension_slot id' = Some s' ->
  slot_value (slot_set s c v) id' = if decide (id = id') then v else slot_value c id'.
Proof.
  intros Hs Hs'. unfold slot_value. rewrite Hs'. case_decide as Hd.
  - subst id'. rewrite Hs in Hs'. injection Hs' as <-. by apply (slot_get_set id).
  - by apply (slot_get_set_ne id id').
Qed.

Lemma remember_all_remembered exts c c' : no_extensions c ->
  remember_all exts c = Ok c' -> same_fields c c' /\ slots_remembered exts c'.
Proof.
  intros Hc. revert c'. induction exts as [|ext exts IH] using rev_ind; intros c'.
  - intros [= <-]. split; [done|]. split.
    + intros ext H. by apply elem_of_nil in H.
    + intros id s Hs. unfold slot_value. rewrite Hs. split; [done|]. intros _. by apply (Hc id).
    + intros id s v Hs. unfold slot_value. rewrite Hs, (Hc id s Hs).
      split; [done|]. by intros (? & ? & _).
  - rewrite remember_all_snoc. intros (c1 & Hc1 & Hext)%obind_ok.
    destruct (IH c1 Hc1) as [Hsame [Hcrit Habs Hpres]].
    split; [etransitivity; [done|by apply (remember_same_fields ext)]|].
    apply remember_cert_extension_ok in Hext
      as [(id & s & v & Hid & Hs & Hnone & Hv & ->)|(Hno & Hncrit & ->)].
    + assert (with_id id exts = []) as Hempty.
      { apply (Habs id s Hs). unfold slot_value. by rewrite Hs. }
      assert (forall id', id <> id' -> with_id id' (exts ++ [ext]) = with_id id' exts) as Hother.
      { intros id' Hne. apply with_id_snoc_other. rewrite Hid. by intros ?%id_ce_inj. }
      assert (with_id id (exts ++ [ext]) = [ext]) as Hsame'.
      { by rewrite with_id_snoc, Hid, bytes_eqb_refl, Hempty. }
      split.
      * intros e [He|He%list_elem_of_singleton]%elem_of_app Hcr; [by apply Hcrit|].
        subst e. eauto.
      * intros id' s' Hs'. rewrite (remembered_slot_set id s c1 _ id' s' Hs Hs'). case_decide as Hd.
        -- subst id'. by rewrite Hsame'.
        -- rewrite (Hother id' Hd). by apply (Habs id' s').
      * intros id' s' v' Hs'. rewrite (remembered_slot_set id s c1 _ id' s' Hs Hs').
        case_decide as Hd; [subst id'; rewrite Hsame'|rewrite (Hother id' Hd); by apply (Hpres id' s')].
        split; [intros [= <-]; by exists ext|].
        intros (e & [= <-] & Hv'). f_equal. by apply (extension_contents_inj id (ext_value ext)).
    + assert (forall id s, extension_slot id = Some s ->
                with_id id (exts ++ [ext]) = with_id id exts) as Hw.
      { intros id s Hs. by apply with_id_snoc_other, (Hno id s). }
      split.
      * intros e [He|He%list_elem_of_singleton]%elem_of_app Hcr; [by apply Hcrit|].
        subst e. congruence.
      * intros id s Hs. rewrite (Hw id s Hs). by apply (Habs id s).
      * intros id s v Hs. rewrite (Hw id s Hs). by apply (Hpres id s).
Qed.

(** *** The fields of a certificate *)
Lemma extension_from_der_iff v ext error :
  read_all v error (from_der (T := Extension)) = Ok ext <-> encodes_extension ext v.
Proof.
  rewrite read_all_ok. cbn [from_der extension_from_der]. unfold encodes_extension. split.
  - intros H. den_in H.
    read_value H i.
    destruct (den from_der l1) as [[c| | |] l2] eqn:E; try done. den_in H.
    destruct (den (expect_tag OctetString) l2) as [[w| | |] l3] eqn:E'; try done.
    apply expect_tag_iff in E' as [-> ?]. den_in H. simplify_eq. simpl.
    apply bool_from_der_iff in E as [(-> & -> & _)| ->].
    + exists []. rewrite app_nil_r. auto.
    + exists (tlv (tag_u8 Boolean) [if c then xff else x00]). rewrite app_nil_r. auto.
  - destruct ext as [c i w]; cbn [critical ext_id ext_value]. intros (cb & Hcb & -> & Hi & Hw). den.
    give_value OID i.
    assert (den (from_der (T := bool)) (cb ++ tlv (tag_u8 OctetString) w)
            = (Ok c, tlv (tag_u8 OctetString) w)) as Hb.
    { apply bool_from_der_iff. destruct Hcb as [->|[-> ->]]; [by right|left].
      split_and!; [done|done|]. rewrite app_nil_l, head_tlv. by intros [= ?%tag_u8_inj]. }
    rewrite Hb. den.
    rewrite (proj2 (expect_tag_iff OctetString (tlv (tag_u8 OctetString) w) w [])) by
      (by rewrite app_nil_r). by den.
Qed.

#[export] Instance lawful_extension_decoder c : Lawful (extension_decoder c).
Proof. unfold extension_decoder. lawful. Qed.

Lemma decode_extensions_iff error raw c c' :
  decode_all error extension_decoder c raw = Ok c' <->
  exists exts, Forall2 encodes_extension exts raw /\ remember_all exts c = Ok c'.
Proof.
  revert c. induction raw as [|v raw IH]; intros c; simpl.
  - split; [by exists []|]. by intros (exts & ->%Forall2_nil_inv_r & H).
  - rewrite obind_ok. split.
    + intros (c1 & H%read_all_ok & (exts & Hexts & Hall)%IH).
      unfold extension_decoder in H. den_in H.
      destruct (den from_der v) as [[ext| | |] l] eqn:E; try done. den_in H.
      injection H as H ->. exists (ext :: exts). split.
      * constructor; [|done]. by apply (extension_from_der_iff v ext error), read_all_ok.
      * simpl. by rewrite H.
    + intros (exts & Hexts & Hall).
      apply Forall2_cons_inv_r in Hexts as (ext & exts' & Hv & Hexts & ->).
      simpl in Hall. apply obind_ok in Hall as (c1 & H1 & Hall). exists c1. split.
      * apply (extension_from_der_iff v ext error), read_all_ok in Hv.
        apply read_all_ok. unfold extension_decoder. den. rewrite Hv. den. by rewrite H1.
      * apply IH. eauto.
Qed.

Lemma version3_iff l l' :
  den version3 l = (Ok tt, l') <->
  l = tlv (tag_u8 ContextSpecificConstructed0) (tlv (tag_u8 Integer) [x02]) ++ l'.
Proof.
  unfold version3. rewrite nested_iff. split.
  - intros (v & -> & _ & H). den_in H.
    destruct (den from_der v) as [[b| | |] l1] eqn:E; try done.
    apply u8_from_der_iff in E as ->. den_in H.
    destruct (u8_eqb b x02) eqn:Eb; den_in H; [|done].
    apply u8_eqb_eq in Eb as ->. simplify_eq. by rewrite app_nil_r.
  - intros ->. eexists. split; [done|]. split; [vm_compute; done|]. den.
    rewrite (proj2 (u8_from_der_iff (tlv (tag_u8 Integer) [x02]) x02 [])) by
      (by rewrite app_nil_r). den. rewrite u8_eqb_refl. by den.
Qed.

#[export] Instance lawful_version3 : Lawful version3.
Proof. unfold version3. lawful. Qed.

#[export] Instance lawful_serial : Lawful lenient_certificate_serial_number.
Proof. unfold lenient_certificate_serial_number. lawful. Qed.

#[export] Instance lawful_read_extensions c : Lawful (read_extensions c).
Proof. unfold read_extensions. lawful. Qed.

#[export] Instance lawful_read_tbs_certificate e sd : Lawful (read_tbs_certificate e sd).
Proof. unfold read_tbs_certificate. lawful. Qed.

(** The certificate before its extensions. *)
Definition bare (c : Cert) : Cert :=
  with_extensions c None None None None None None.

Lemma bare_no_extensions c : no_extensions (bare c).
Proof. intros id s Hs. destruct id; try discriminate Hs; injection Hs as <-; done. Qed.

(** The encodings of the TBSCertificate of a certificate. *)
Definition encodes_tbs_certificate (c : Cert) (exts : list Extension) (tbs : Input) : Prop :=
  exists ext_bytes, encodes_extensions exts ext_bytes /\
  tbs = tlv (tag_u8 ContextSpecificConstructed0) (tlv (tag_u8 Integer) [x02])
    ++ tlv (tag_u8 Integer) (serial c) ++ tlv (tag_u8 Sequence) (algorithm (signed_data c))
    ++ tlv (tag_u8 Sequence) (issuer c) ++ tlv (tag_u8 Sequence) (validity c)
    ++ tlv (tag_u8 Sequence) (subject c) ++ tlv (tag_u8 Sequence) (spki c) ++ ext_bytes /\
  Forall (fun v => Z.of_nat (length v) < TWO_BYTE_DER_SIZE)
    [serial c; algorithm (signed_data c); issuer c; validity c; subject c; spki c].

Lemma bare_set id s c v : extension_slot id = Some s -> bare (slot_set s c v) = bare c.
Proof. destruct id; intros [= <-]; done. Qed.

Lemma same_fields_bare c c' : same_fields c c' <-> bare c' = bare c.
Proof.
  unfold same_fields. destruct c, c'; cbn. split.
  - intros (-> & -> & -> & -> & -> & -> & ->). done.
  - by intros [= -> -> -> -> -> -> ->].
Qed.

Lemma bare_remembered_eq c c' : bare c = bare c' ->
  (forall id s, extension_slot id = Some s -> slot_value c id = slot_value c' id) -> c = c'.
Proof.
  intros Hb Hr.
  pose proof (Hr x0f _ eq_refl) as H1. pose proof (Hr x11 _ eq_refl) as H2.
  pose proof (Hr x13 _ eq_refl) as H3. pose proof (Hr x1e _ eq_refl) as H4.
  pose proof (Hr x1f _ eq_refl) as H5. pose proof (Hr x25 _ eq_refl) as H6.
  destruct c, c'. cbn in *. by simplify_eq.
Qed.

Lemma slots_remembered_unique exts c c' : bare c = bare c' ->
  slots_remembered exts c -> slots_remembered exts c' -> c = c'.
Proof.
  intros Hb [_ Ha Hp] [_ Ha' Hp']. apply bare_remembered_eq; [done|].
  intros id s Hs. destruct (slot_value c id) as [v|] eqn:Hv.
  - symmetry. by apply (Hp' id s v Hs), (Hp id s v Hs).
  - symmetry. by apply (Ha' id s Hs), (Ha id s Hs).
Qed.

Lemma with_id_elem id ext exts : ext ∈ with_id id exts -> ext_id ext = id_ce id.
Proof.
  unfold with_id. rewrite list_elem_of_In, List.filter_In. by intros [_ ?%bytes_eqb_eq].
Qed.

Lemma known_extension_dec ext :
  (exists id s, extension_slot id = Some s /\ ext_id ext = id_ce id) \/
  ~ (exists id s, extension_slot id = Some s /\ ext_id ext = id_ce id).
Proof.
  destruct (id_ce_dec (ext_id ext)) as [[n Hn]|Hn].
  - destruct (extension_slot n) as [s|] eqn:Hs; [left; eauto|].
    right. intros (id & s & Hs' & Hid). rewrite Hn in Hid.
    apply id_ce_inj in Hid as ->. congruence.
  - right. intros (id & s & _ & Hid). by apply (Hn id).
Qed.

(** A list of extensions is remembered when it can be. *)
Lemma remember_all_ok exts c c0 : slots_remembered exts c -> no_extensions c0 ->
  exists c', remember_all exts c0 = Ok c'.
Proof.
  intros [Hcrit Habs Hpres] Hc0. revert Hcrit Habs Hpres.
  enough (forall p q, exts = p ++ q ->
    (forall ext, ext ∈ exts -> critical ext = true ->
       exists id s, extension_slot id = Some s /\ ext_id ext = id_ce id) ->
    (forall ext id s, ext ∈ exts -> extension_slot id = Some s -> ext_id ext = id_ce id ->
       with_id id exts = [ext] /\ exists v, extension_contents id (ext_value ext) v) ->
    exists c', remember_all p c0 = Ok c') as Hall.
  { intros Hcrit Habs Hpres. apply (Hall exts []); [by rewrite app_nil_r|done|].
    intros ext id s Hin Hs Hid.
    assert (ext ∈ with_id id exts) as Hw.
    { unfold with_id. apply list_elem_of_In, List.filter_In.
      split; [by apply list_elem_of_In|]. by apply bytes_eqb_eq. }
    destruct (slot_value c id) as [v|] eqn:Hv.
    - apply (Hpres id s v Hs) in Hv as (e & He & Hcont). rewrite He in Hw |- *.
      apply list_elem_of_singleton in Hw as ->. eauto.
    - apply (Habs id s Hs) in Hv. rewrite Hv in Hw. by apply elem_of_nil in Hw. }
  clear -Hc0 L. intros p. induction p as [|ext p IH] using rev_ind.
  - intros q _ _ _. by exists c0.
  - intros q Hq Hcrit Hone. rewrite <- app_assoc in Hq. simpl in Hq.
    destruct (IH (ext :: q) Hq Hcrit Hone) as [c1 H1].
    destruct (remember_all_remembered p c0 c1 Hc0 H1) as [_ [_ Habs1 _]].
    assert (ext ∈ exts) as Hin.
    { rewrite Hq. apply elem_of_app. right. by apply elem_of_cons; left. }
    setoid_rewrite remember_all_snoc. rewrite H1. simpl.
    destruct (known_extension_dec ext) as [(id & s & Hs & Hid)|Hno].
    + destruct (Hone ext id s Hin Hs Hid) as [Hw [v Hv]].
      exists (slot_set s c1 (Some v)). apply remember_cert_extension_ok. left.
      exists id, s, v. split_and!; try done.
      enough (slot_value c1 id = None) as Hr by (unfold slot_value in Hr; by rewrite Hs in Hr).
      apply (Habs1 id s Hs). rewrite Hq in Hw. unfold with_id in Hw.
      rewrite List.filter_app in Hw. simpl in Hw. rewrite Hid, bytes_eqb_refl in Hw.
      apply (f_equal length) in Hw. rewrite length_app in Hw. simpl in Hw.
      apply length_zero_iff_nil. unfold with_id. lia.
    + exists c1. apply remember_cert_extension_ok. right. split_and!; try done.
      * intros id s Hs Hid. apply Hno. eauto.
      * apply not_true_is_false. intros Hc. by apply Hno, Hcrit.
Qed.

Lemma read_extensions_iff c0 l c :
  den (read_extensions c0) l = (Ok c, []) <->
  exists exts, encodes_extensions exts l /\ remember_all exts c0 = Ok c.
Proof.
  unfold read_extensions. den. destruct l as [|b l]; den.
  - split.
    + intros [= ->]. exists []. split; [by left|done].
    + intros (exts & [[-> _]|(raw & _ & _ & Hl & _)] & Hc); [by simplify_eq/=|].
      apply (f_equal head) in Hl. by rewrite head_tlv in Hl.
  - assert (b :: l <> []) as Hbytes by done. revert Hbytes.
    generalize (b :: l) as bytes. intros bytes Hbytes. rewrite nested_iff. split.
    + intros (v & -> & Hv & (raw & Hne & -> & ? & ? & Hdec)%nested_of_mut_iff).
      apply decode_extensions_iff in Hdec as (exts & Hexts & Hall).
      exists exts. split; [|done]. right. exists raw. rewrite !app_nil_r in *. done.
    + intros (exts & [[-> Hnil]|(raw & Hraw & Hne & Hl & Hr & Hc & Hs)] & Hall); [done|].
      eexists. split; [by rewrite app_nil_r|]. split; [done|]. apply nested_of_mut_iff.
      exists raw. rewrite app_nil_r. split_and!; try done.
      apply decode_extensions_iff. eauto.
Qed.

(** What the closure reads from a TBSCertificate. *)
Lemma read_tbs_certificate_iff e sd tbs c :
  den (read_tbs_certificate e sd) tbs = (Ok c, []) <->
  ee_or_ca c = e /\ signed_data c = sd /\
  exists exts, encodes_tbs_certificate c exts tbs /\ slots_remembered exts c.
Proof.
  unfold read_tbs_certificate, encodes_tbs_certificate, lenient_certificate_serial_number.
  split.
  - intros H. den_in H.
    destruct (den version3 tbs) as [[[]| | |] l1] eqn:E; try done.
    apply version3_iff in E as ->. den_in H.
    read_value H se. read_value H al.
    destruct (bytes_eqb al (algorithm sd)) eqn:Eal; den_in H; [|done].
    apply bytes_eqb_eq in Eal as ->.
    read_value H iss. read_value H va. read_value H su. read_value H sp.
    apply read_extensions_iff in H as (exts & Hexts & Hall).
    apply remember_all_remembered in Hall as [(He & Hse & Hsd & Hi & Hv & Hsu & Hsp) Hrem];
      [|intros id s Hs; destruct id; try discriminate Hs; by injection Hs as <-].
    cbn in He, Hse, Hsd, Hi, Hv, Hsu, Hsp. split_and!; [done..|].
    exists exts. split; [|done]. eexists. rewrite Hse, Hsd, Hi, Hv, Hsu, Hsp.
    split_and!; [done|done|]. by repeat constructor.
  - intros (<- & <- & exts & (l & Hexts & -> & Hlen) & Hrem).
    repeat (apply Forall_cons in Hlen as [? Hlen]). den.
    rewrite (proj2 (version3_iff _ _)) by done. den.
    give_value Integer (serial c). give_value Sequence (algorithm (signed_data c)).
    rewrite bytes_eqb_refl. den.
    give_value Sequence (issuer c). give_value Sequence (validity c).
    give_value Sequence (subject c). give_value Sequence (spki c).
    apply read_extensions_iff. exists exts. split; [done|].
    change (mkCert _ _ _ _ _ _ _ _ _ _ _ _ _) with (bare c).
    destruct (remember_all_ok exts c (bare c) Hrem (bare_no_extensions c)) as [c' Hc'].
    rewrite Hc'. f_equal.
    apply remember_all_remembered in Hc' as [Hsame Hrem']; [|apply bare_no_extensions].
    apply (slots_remembered_unique exts); [|done|done].
    by apply same_fields_bare in Hsame.
Qed.

(** The encodings of a certificate. *)
Definition encodes_certificate (c : Cert) (exts : list Extension) (cert_der : Input) : Prop :=
  exists tbs, encodes_tbs_certificate c exts tbs /\
  data (signed_data c) = tlv (tag_u8 Sequence) tbs /\
  let contents := data (signed_data c) ++ tlv (tag_u8 Sequence) (algorithm (signed_data c))
                    ++ tlv (tag_u8 BitString) (x00 :: signature (signed_data c)) in
  cert_der = tlv (tag_u8 Sequence) contents /\
  Z.of_nat (length contents) < TWO_BYTE_DER_SIZE /\
  Z.of_nat (length tbs) < TWO_BYTE_DER_SIZE /\
  Z.of_nat (length (algorithm (signed_data c))) < TWO_BYTE_DER_SIZE /\
  Z.of_nat (length (x00 :: signature (signed_data c))) < TWO_BYTE_DER_SIZE.

Lemma Cert_from_der_encodes cert_der e c :
  Cert_from_der cert_der e = Ok c <->
  ee_or_ca c = e /\
  exists exts, encodes_certificate c exts cert_der /\ slots_remembered exts c.
Proof.
  unfold Cert_from_der, encodes_certificate. rewrite obind_ok. split.
  - intros ([tbs sd] & Hsd%read_all_ok & Htbs%read_all_ok).
    apply nested_iff in Hsd as (v & -> & Hv & Hsd).
    apply SignedData_from_der_iff in Hsd as (Hd & -> & ? & ? & ?); [|vm_compute; done].
    apply read_tbs_certificate_iff in Htbs as (He & <- & exts & Htbs & Hrem).
    rewrite !app_nil_r in *. split; [done|]. exists exts. split; [|done].
    exists tbs. done.
  - intros (<- & exts & (tbs & Htbs & Hd & -> & ? & ? & ? & ?) & Hrem).
    exists (tbs, signed_data c). rewrite !read_all_ok. split.
    + apply nested_iff. eexists. split; [by rewrite app_nil_r|]. split; [done|].
      apply SignedData_from_der_iff; [vm_compute; done|]. by rewrite app_nil_r.
    + apply read_tbs_certificate_iff. eauto 6.
Qed.

(** *** Totality *)
Lemma ends_remember_cert_extension panics ext c :
  ends panics (remember_cert_extension ext c).
Proof.
  unfold remember_cert_extension.
  apply ends_remember_extension. intros id c'. destruct (extension_slot id) as [s|];
    [|apply ends_unsupported].
  apply ends_obind; [|done]. apply ends_set_extension_once, ends_read_all.
  destruct (u8_eqb id x0f); [apply ends_read_bytes_to_end|apply ends_expect_tag].
Qed.

Lemma ends_version3 panics : Ends panics version3.
Proof. unfold version3. der_ends. Qed.

Lemma ends_read_extensions panics c : Ends panics (read_extensions c).
Proof.
  unfold read_extensions, extension_decoder.
  der_ends; apply ends_remember_cert_extension.
Qed.

Lemma ends_Cert_from_der panics cert_der e : ends panics (Cert_from_der cert_der e).
Proof.
  unfold Cert_from_der. apply ends_obind.
  - apply ends_read_all. revert cert_der.
    apply (ends_nested panics), ends_SignedData.
  - intros [tbs sd] _. apply ends_read_all. revert tbs.
    change (Ends panics (read_tbs_certificate e sd)).
    unfold read_tbs_certificate, lenient_certificate_serial_number.
    pose proof (ends_version3 panics). pose proof (ends_read_extensions panics).
    der_ends.
Qed.

(** *** CRL distribution points *)
#[export] Instance lawful_tagged_fields {S} fuel field (s : S) :
  Lawful (tagged_fields fuel field s).
Proof.
  revert s. induction fuel as [|fuel IH]; intros s; simpl; [apply _|].
  unfold read_tag_and_get_value. lawful.
Qed.

Lemma ends_tagged_fields {S} panics field :
  (forall tag v (s : S), ends (panics (tlv tag v)) (field tag v s)) ->
  forall fuel s l, (length l < fuel)%nat ->
  ends (exists item, panics item /\ occurs_in item l) (fst (den (tagged_fields fuel field s) l)).
Proof.
  intros Hf. induction fuel as [|fuel IH]; intros s l Hl; [lia|]. simpl. den.
  destruct l as [|b l]; den; [done|].
  pose proof (ends_read_tlv False TWO_BYTE_DER_SIZE (b :: l)) as He.
  unfold read_tag_and_get_value.
  destruct (den (read_tag_and_get_value_limited TWO_BYTE_DER_SIZE) (b :: l))
    as [[[tag v]|e| |] l'] eqn:E; try done.
  apply read_tlv_sound in E as (Hl' & _). rewrite Hl' in *.
  den. specialize (Hf tag v s). destruct (field tag v s) as [s'|e| |]; simpl; try done.
  - eapply ends_weaken; [|apply IH].
    + intros (item & Hp & Ho). exists item. by split; [|apply occurs_in_app_r].
    + rewrite length_app in Hl. pose proof (length_tlv tag v). lia.
  - exists (tlv tag v). split; [done|]. apply occurs_in_app_l, occurs_in_refl.
Qed.

(** A value that starts with a nested tag consumes part of the input. *)
Lemma nested_shorter {R} tag error (decoder : parser Error R) l : l <> [] ->
  (length (snd (den (nested tag error decoder) l)) < length l)%nat.
Proof.
  intros Hl. unfold nested, nested_limited, expect_tag_and_get_value_limited. den.
  pose proof (read_tlv_shorter TWO_BYTE_DER_SIZE l Hl) as H.
  destruct (den (read_tag_and_get_value_limited TWO_BYTE_DER_SIZE) l)
    as [[[t v]| | |] l']; simpl in *; den; try done.
  destruct (negb _); den; simpl; by den.
Qed.

#[export] Instance lawful_crl_dp : Lawful (from_der (T := CrlDistributionPoint)).
Proof. cbn [from_der crl_distribution_point_from_der]. lawful. Qed.

#[export] Instance progress_crl_dp : Progress CrlDistributionPoint.
Proof.
  split; [apply _|]. intros l Hl. cbn [from_der crl_distribution_point_from_der].
  by apply nested_shorter.
Qed.

Lemma ends_crl_dp_field tag v r :
  ends (tlv tag v = tlv REASONS_TAG [x00]) (crl_dp_field tag v r).
Proof.
  unfold crl_dp_field. destruct (u8_eqb tag DISTRIBUTION_POINT_TAG);
    [by apply ends_obind; [apply ends_set_extension_once|]|].
  destruct (u8_eqb tag REASONS_TAG) eqn:E;
    [|by case_match; [apply ends_obind; [apply ends_set_extension_once|]|]].
  apply u8_eqb_eq in E as ->. apply ends_obind; [|done]. apply ends_set_extension_once.
  eapply ends_weaken; [|apply ends_bit_string_flags]. by intros ->.
Qed.

(** The loop always has fuel; [bit_string_flags] panics on empty reasons. *)
Lemma ends_crl_dp l :
  ends (occurs_in (tlv REASONS_TAG [x00]) l) (fst (den (from_der (T := CrlDistributionPoint)) l)).
Proof.
  cbn [from_der crl_distribution_point_from_der]. apply ends_nested_at. intros v l' ->. den.
  pose proof (ends_tagged_fields (fun item => item = tlv REASONS_TAG [x00]) crl_dp_field
    ends_crl_dp_field (S (length v))
    {| distribution_point := None; reasons := None; crl_issuer := None |} v ltac:(lia)) as H.
  destruct (den (tagged_fields _ _ _) v) as [[r| | |] l'']; simpl in *; try done.
  - destruct (distribution_point r), (crl_issuer r); by den.
  - destruct H as (item & -> & Ho). apply occurs_in_app_l. by apply occurs_in_tlv.
Qed.

Lemma ends_dp_names panics dp : ends panics (dp_names dp).
Proof.
  unfold dp_names. destruct dp as [input|]; [|done]. apply ends_obind; [|done].
  pose proof (lawful_den (p := from_der (T := DistributionPointName)) (reader_new input)) as H.
  apply (f_equal fst) in H. simpl in H. rewrite H. apply ends_dp_name.
Qed.
End CertLemmas.

#[export] Hint Resolve ends_dp_names ends_Cert_from_der : ends.
#[global] Opaque extension_from_der crl_distribution_point_from_der.

(** ** Properties *)
Section CertProperties.
Context {U : Untrusted} {L : UntrustedLaws U}.

(** C15: A certificate is parsed exactly from its encoding: every field is where
    the encoding has it, a critical extension is one of the six that are
    known, each of those occurs at most once and is the one remembered under
    its name.  The parser always returns, with an error on everything else. *)
Theorem certificate_parse cert_der e :
  match Cert_from_der cert_der e with
  | Ok c => ee_or_ca c = e /\
      exists exts, encodes_certificate c exts cert_der /\ extensions_remembered exts c
  | Err _ => forall c exts, ee_or_ca c = e -> encodes_certificate c exts cert_der ->
      ~ extensions_remembered exts c
  | Panic | OutOfFuel => False
  end.
Proof.
  pose proof (ends_Cert_from_der False cert_der e) as He.
  destruct (Cert_from_der cert_der e) as [c|err| |] eqn:E; try done.
  - setoid_rewrite <- slots_remembered_iff. by apply Cert_from_der_encodes.
  - intros c exts Hc Henc Hrem%slots_remembered_iff.
    enough (Cert_from_der cert_der e = Ok c) by congruence.
    apply Cert_from_der_encodes. eauto.
Qed.
End CertProperties.

Lemma certificate_parse_witness :
  exists c exts, Cert_from_der (U := slice_reader) ee_der EndEntity = Ok c /\
    encodes_certificate c exts ee_der /\ extensions_remembered exts c /\ serial c = [x05].
Proof.
  pose proof (certificate_parse (U := slice_reader) ee_der EndEntity) as H.
  assert (exists c, Cert_from_der (U := slice_reader) ee_der EndEntity = Ok c /\ serial c = [x05])
    as (c & E & Hs) by (eexists; split; [vm_compute; reflexivity|vm_compute; reflexivity]).
  rewrite E in H. destruct H as (_ & exts & Henc & Hrem).
  exists c, exts. exact (conj E (conj Henc (conj Hrem Hs))).
Defined.
