(* ===== verification/Crl.v ===== *)
(** * [src/crl.rs]: certificate revocation lists

    The trait [CertRevocationList] is a class of operations with its two
    implementations, the borrowed list (parsed on each lookup) and the owned
    one (a map built once); [IssuingDistributionPoint] decides which
    certificates a list is authoritative for. *)
From stdpp Require Import gmap.
From S2P Require Import Prelude Errors Untrusted Der Time GeneralName X509 SignedData Cert Samples.

(** ** Revocation reasons *)
Inductive RevocationReason : Type :=
  | Unspecified
  | KeyCompromise
  | CaCompromise
  | AffiliationChanged
  | Superseded
  | CessationOfOperation
  | CertificateHold
  | RemoveFromCrl
  | PrivilegeWithdrawn
  | AaCompromise.

#[export] Instance RevocationReason_eq_dec : EqDecision RevocationReason.
Proof. solve_decision. Defined.

(** The discriminants. *)
Definition reason_u8 (reason : RevocationReason) : u8 :=
  match reason with
  | Unspecified => x00
  | KeyCompromise => x01
  | CaCompromise => x02
  | AffiliationChanged => x03
  | Superseded => x04
  | CessationOfOperation => x05
  | CertificateHold => x06
  | RemoveFromCrl => x08
  | PrivilegeWithdrawn => x09
  | AaCompromise => x0a
  end.

(** [RevocationReason::iter]. *)
Definition reason_iter : list RevocationReason :=
  [Unspecified; KeyCompromise; CaCompromise; AffiliationChanged; Superseded;
   CessationOfOperation; CertificateHold; RemoveFromCrl; PrivilegeWithdrawn;
   AaCompromise].

(** [TryFrom<u8>]. *)
Definition reason_try_from (value : u8) : outcome Error RevocationReason :=
  match value with
  | x00 => Ok Unspecified
  | x01 => Ok KeyCompromise
  | x02 => Ok CaCompromise
  | x03 => Ok AffiliationChanged
  | x04 => Ok Superseded
  | x05 => Ok CessationOfOperation
  | x06 => Ok CertificateHold
  | x08 => Ok RemoveFromCrl
  | x09 => Ok PrivilegeWithdrawn
  | x0a => Ok AaCompromise
  | _ => Err UnsupportedRevocationReason
  end.

#[export] Instance reason_from_der {U : Untrusted} : FromDer RevocationReason := {|
  from_der :=
    let! input := expect_tag Enum in
    plift
      (let? value := read_all input BadDer (p_read_byte_or BadDer) in
       reason_try_from value);
  TYPE_ID := RevocationReasonId;
|}.

(** ** Entries *)
Record OwnedRevokedCert : Type := {
  owned_serial_number : list u8;
  owned_revocation_date : Time;
  owned_reason_code : option RevocationReason;
  owned_invalidity_date : option Time;
}.

Record BorrowedRevokedCert : Type := {
  serial_number : Input;
  revocation_date : Time;
  reason_code : option RevocationReason;
  invalidity_date : option Time;
}.

Definition OwnedRevokedCert_borrow (self : OwnedRevokedCert) : BorrowedRevokedCert := {|
  serial_number := owned_serial_number self;
  revocation_date := owned_revocation_date self;
  reason_code := owned_reason_code self;
  invalidity_date := owned_invalidity_date self;
|}.

Definition BorrowedRevokedCert_to_owned (self : BorrowedRevokedCert) : OwnedRevokedCert := {|
  owned_serial_number := serial_number self;
  owned_revocation_date := revocation_date self;
  owned_reason_code := reason_code self;
  owned_invalidity_date := invalidity_date self;
|}.

Section RevokedCert.
Context {U : Untrusted}.

(** [BorrowedRevokedCert::remember_extension]. *)
Definition remember_entry_extension (extension : Extension) (cert : BorrowedRevokedCert)
    : outcome Error BorrowedRevokedCert :=
  remember_extension extension
    (fun id self =>
       match id with
       | x15 =>
         let? v := set_extension_once (reason_code self)
                     (der_read_all (T := RevocationReason) (ext_value extension)) in
         Ok {| serial_number := serial_number self;
               revocation_date := revocation_date self;
               reason_code := v; invalidity_date := invalidity_date self |}
       | x18 =>
         let? v := set_extension_once (invalidity_date self)
                     (read_all (ext_value extension) BadDer (from_der (T := Time))) in
         Ok {| serial_number := serial_number self;
               revocation_date := revocation_date self;
               reason_code := reason_code self; invalidity_date := v |}
       | x1d => Err UnsupportedIndirectCrl
       | _ => unsupported extension self
       end)
    cert.

Definition entry_extension_decoder (cert : BorrowedRevokedCert)
    : parser Error BorrowedRevokedCert :=
  let! extension := from_der (T := Extension) in
  plift (remember_entry_extension extension cert).

(** The [loop] over the extensions of an entry, on a reader of its own; it
    has the shape of the loop of [nested_of_mut]. *)
Definition entry_extensions (ext_seq : Input) (cert : BorrowedRevokedCert)
    : outcome Error BorrowedRevokedCert :=
  fst ((let! fuel := loop_fuel in
        nested_of_mut_loop fuel Sequence (TrailingData RevokedCertificateExtensionId)
          entry_extension_decoder cert)
       (reader_new ext_seq)).

(** The closure of [BorrowedRevokedCert::from_der]. *)
Definition read_entry : parser Error BorrowedRevokedCert :=
  let! serial_number :=
    pmap_err (fun _ => InvalidSerialNumber) lenient_certificate_serial_number in
  let! revocation_date := from_der (T := Time) in
  let revoked_cert :=
    {| serial_number := serial_number; revocation_date := revocation_date;
       reason_code := None; invalidity_date := None |} in
  let! at_end := p_at_end in
  if at_end then pret revoked_cert
  else
    let! ext_seq := expect_tag Sequence in
    match ext_seq with
    | [] => pret revoked_cert
    | _ => plift (entry_extensions ext_seq revoked_cert)
    end.

#[export] Instance revoked_cert_from_der : FromDer BorrowedRevokedCert := {|
  from_der := nested Sequence (TrailingData RevokedCertEntryId) read_entry;
  TYPE_ID := RevokedCertificateId;
|}.
End RevokedCert.

(** ** Issuing distribution points *)
Record IssuingDistributionPoint : Type := {
  idp_distribution_point : option Input;
  only_contains_user_certs : bool;
  only_contains_ca_certs : bool;
  only_some_reasons : option BitStringFlags;
  indirect_crl : bool;
  only_contains_attribute_certs : bool;
}.

(** The initial value of [result] in [IssuingDistributionPoint::from_der]. *)
Definition empty_idp : IssuingDistributionPoint := {|
  idp_distribution_point := None;
  only_contains_user_certs := false;
  only_contains_ca_certs := false;
  only_some_reasons := None;
  indirect_crl := false;
  only_contains_attribute_certs := false;
|}.

Section IssuingDistributionPoint.
Context {U : Untrusted}.

Definition IDP_DISTRIBUTION_POINT_TAG : u8 := u8_or CONTEXT_SPECIFIC CONSTRUCTED.
Definition ONLY_CONTAINS_USER_CERTS_TAG : u8 := u8_or CONTEXT_SPECIFIC x01.
Definition ONLY_CONTAINS_CA_CERTS_TAG : u8 := u8_or CONTEXT_SPECIFIC x02.
Definition ONLY_CONTAINS_SOME_REASONS_TAG : u8 := u8_or CONTEXT_SPECIFIC x03.
Definition INDIRECT_CRL_TAG : u8 := u8_or CONTEXT_SPECIFIC x04.
Definition ONLY_CONTAINS_ATTRIBUTE_CERTS_TAG : u8 := u8_or CONTEXT_SPECIFIC x05.

Definition decode_bool (value : Input) : outcome Error bool :=
  let '(b, reader) := read_byte (reader_new value) in
  let? value := opt_outcome from_end_of_input b in
  if negb (at_end reader) then Err BadDer
  else if u8_eqb value xff then Ok true
  else if u8_eqb value x00 then Ok false
  else Err BadDer.

(** One [match tag] of the loop of [IssuingDistributionPoint::from_der]. *)
Definition idp_field (tag : u8) (value : Input) (r : IssuingDistributionPoint)
    : outcome Error IssuingDistributionPoint :=
  if u8_eqb tag IDP_DISTRIBUTION_POINT_TAG then
    let? v := set_extension_once (idp_distribution_point r) (Ok value) in
    Ok (Build_IssuingDistributionPoint v (only_contains_user_certs r)
          (only_contains_ca_certs r) (only_some_reasons r) (indirect_crl r)
          (only_contains_attribute_certs r))
  else if u8_eqb tag ONLY_CONTAINS_USER_CERTS_TAG then
    let? v := decode_bool value in
    Ok (Build_IssuingDistributionPoint (idp_distribution_point r) v
          (only_contains_ca_certs r) (only_some_reasons r) (indirect_crl r)
          (only_contains_attribute_certs r))
  else if u8_eqb tag ONLY_CONTAINS_CA_CERTS_TAG then
    let? v := decode_bool value in
    Ok (Build_IssuingDistributionPoint (idp_distribution_point r)
          (only_contains_user_certs r) v (only_some_reasons r) (indirect_crl r)
          (only_contains_attribute_certs r))
  else if u8_eqb tag ONLY_CONTAINS_SOME_REASONS_TAG then
    let? v := set_extension_once (only_some_reasons r) (bit_string_flags value) in
    Ok (Build_IssuingDistributionPoint (idp_distribution_point r)
          (only_contains_user_certs r) (only_contains_ca_certs r) v (indirect_crl r)
          (only_contains_attribute_certs r))
  else if u8_eqb tag INDIRECT_CRL_TAG then
    let? v := decode_bool value in
    Ok (Build_IssuingDistributionPoint (idp_distribution_point r)
          (only_contains_user_certs r) (only_contains_ca_certs r) (only_some_reasons r)
          v (only_contains_attribute_certs r))
  else if u8_eqb tag ONLY_CONTAINS_ATTRIBUTE_CERTS_TAG then
    let? v := decode_bool value in
    Ok (Build_IssuingDistributionPoint (idp_distribution_point r)
          (only_contains_user_certs r) (only_contains_ca_certs r) (only_some_reasons r)
          (indirect_crl r) v)
  else Err BadDer.

Definition idp_names (self : IssuingDistributionPoint)
    : outcome Error (option DistributionPointName) :=
  dp_names (idp_distribution_point self).

(** The checks after the fields are read. *)
Definition idp_supported (result : IssuingDistributionPoint)
    : outcome Error IssuingDistributionPoint :=
  if only_contains_attribute_certs result then Err MalformedExtensions
  else if indirect_crl result then Err UnsupportedIndirectCrl
  else if bool_decide (is_Some (only_some_reasons result))
  then Err UnsupportedRevocationReasonsPartitioning
  else
    match idp_names result with
    | Ok (Some (FullName _)) => Ok result
    | Ok (Some (NameRelativeToCrlIssuer _)) | Ok None =>
      Err UnsupportedCrlIssuingDistributionPoint
    | Err _ => Err MalformedExtensions
    | Panic => Panic
    | OutOfFuel => OutOfFuel
    end.

(** [IssuingDistributionPoint::from_der]; nothing looks at what follows the
    SEQUENCE in [der]. *)
Definition idp_from_der (der : Input) : outcome Error IssuingDistributionPoint :=
  let? result :=
    fst (nested Sequence (TrailingData IssuingDistributionPointId)
           (let! fuel := loop_fuel in tagged_fields fuel idp_field empty_idp)
           (reader_new der)) in
  idp_supported result.

(** [uri_name_in_common], with the iterators it is handed by reference:
    [flatten] skips the names that do not parse. *)
Definition other_uri_body (uri : Input) (other_name : outcome Error GeneralName) (_ : unit)
    : outcome Error (unit + unit) :=
  match other_name with
  | Ok (UniformResourceIdentifier other_uri) =>
    if bytes_eqb uri other_uri then Ok (inr tt) else Ok (inl tt)
  | _ => Ok (inl tt)
  end.

Definition uri_body (name : outcome Error GeneralName)
    (dp_general_names : DerIterator GeneralName)
    : outcome Error (DerIterator GeneralName + unit) :=
  match name with
  | Ok (UniformResourceIdentifier uri) =>
    let '(res, dp_general_names) := der_for dp_general_names (other_uri_body uri) tt in
    let? found := res in
    match found with
    | inr _ => Ok (inr tt)
    | inl _ => Ok (inl dp_general_names)
    end
  | _ => Ok (inl dp_general_names)
  end.

Definition uri_name_in_common (idp_general_names dp_general_names : DerIterator GeneralName)
    : outcome Error bool * DerIterator GeneralName :=
  let '(res, idp_general_names) := der_for idp_general_names uri_body dp_general_names in
  (let? found := res in Ok (match found with inr _ => true | inl _ => false end),
   idp_general_names).

(** The body of the loop over the certificate's distribution points. *)
Definition cert_dp_body (cert_dp : outcome Error CrlDistributionPoint)
    (idp_general_names : DerIterator GeneralName)
    : outcome Error (DerIterator GeneralName + bool) :=
  match cert_dp with
  | Ok cert_dp =>
    if bool_decide (is_Some (crl_issuer cert_dp)) || bool_decide (is_Some (reasons cert_dp))
    then Ok (inr false)
    else
      match CrlDistributionPoint_names cert_dp with
      | Ok (Some (FullName dp_general_names)) =>
        let '(res, idp_general_names) :=
          uri_name_in_common idp_general_names dp_general_names in
        let? found := res in
        if found : bool then Ok (inr true) else Ok (inl idp_general_names)
      | Panic => Panic
      | OutOfFuel => OutOfFuel
      | _ => Ok (inr false)
      end
  | _ => Ok (inr false)
  end.

Definition idp_out_of_scope (self : IssuingDistributionPoint) (cert : Cert) : bool :=
  let is_ee := match ee_or_ca cert with EndEntity => true | Ca _ => false end in
  (only_contains_ca_certs self && is_ee) || (only_contains_user_certs self && negb is_ee).

Definition authoritative_for (self : IssuingDistributionPoint) (cert : Cert)
    : outcome Error bool :=
  (* assert! *)
  if only_contains_attribute_certs self then Panic
  else if idp_out_of_scope self cert then Ok false
  else
    match crl_distribution_points cert with
    | None => Ok true
    | Some cert_dps =>
      match idp_names self with
      | Ok (Some (FullName idp_general_names)) =>
        let? res := fst (der_for cert_dps cert_dp_body idp_general_names) in
        Ok (match res with inr found => found | inl _ => false end)
      | Panic => Panic
      | OutOfFuel => OutOfFuel
      | _ => Ok false
      end
    end.
End IssuingDistributionPoint.

(** ** The trait and its implementations *)
Class CertRevocationList (C : Type) := {
  crl_issuer_name : C -> Input;
  issuing_distribution_point : C -> option Input;
  find_serial : C -> Input -> outcome Error (option BorrowedRevokedCert);
  crl_verify_signature :
    C -> list SignatureVerificationAlgorithm -> Input -> outcome Error unit;
}.

(** A [&dyn CertRevocationList]. *)
Record dyn_crl : Type := {
  dyn_type : Type;
  dyn_ops :: CertRevocationList dyn_type;
  dyn_value : dyn_type;
}.

(** The [BTreeMap] of the source is a finite map by serial number. *)
Record OwnedCertRevocationList : Type := {
  owned_revoked_certs : gmap Input OwnedRevokedCert;
  owned_issuer : list u8;
  owned_issuing_distribution_point : option (list u8);
  owned_signed_data : OwnedSignedData;
}.

Record BorrowedCertRevocationList : Type := {
  crl_signed_data : SignedData;
  crl_issuer_field : Input;
  crl_idp_field : option Input;
  crl_revoked_certs : Input;
}.

Section Lists.
Context {U : Untrusted}.

#[export] Instance owned_crl : CertRevocationList OwnedCertRevocationList := {|
  crl_issuer_name := owned_issuer;
  issuing_distribution_point := owned_issuing_distribution_point;
  find_serial self serial := Ok (OwnedRevokedCert_borrow <$> owned_revoked_certs self !! serial);
  crl_verify_signature self supported_sig_algs issuer_spki :=
    verify_signed_data supported_sig_algs issuer_spki
      (OwnedSignedData_borrow (owned_signed_data self));
|}.

(** [into_iter]. *)
Definition crl_into_iter (self : BorrowedCertRevocationList)
    : DerIterator BorrowedRevokedCert :=
  der_iterator_new (crl_revoked_certs self).

Definition find_serial_body (serial : Input)
    (revoked_cert_result : outcome Error BorrowedRevokedCert) (_ : unit)
    : outcome Error (unit + BorrowedRevokedCert) :=
  match revoked_cert_result with
  | Ok revoked_cert =>
    if bytes_eqb (serial_number revoked_cert) serial
    then Ok (inr revoked_cert) else Ok (inl tt)
  | Err e => Err e
  | Panic => Panic
  | OutOfFuel => OutOfFuel
  end.

Definition borrowed_find_serial (self : BorrowedCertRevocationList) (serial : Input)
    : outcome Error (option BorrowedRevokedCert) :=
  let? found := fst (der_for (crl_into_iter self) (find_serial_body serial) tt) in
  Ok (match found with inr revoked_cert => Some revoked_cert | inl _ => None end).

#[export] Instance borrowed_crl : CertRevocationList BorrowedCertRevocationList := {|
  crl_issuer_name := crl_issuer_field;
  issuing_distribution_point := crl_idp_field;
  find_serial := borrowed_find_serial;
  crl_verify_signature self supported_sig_algs issuer_spki :=
    verify_signed_data supported_sig_algs issuer_spki (crl_signed_data self);
|}.

(** [collect::<Result<Vec<_>, _>>()]: the first error ends it. *)
Definition collect_body (item : outcome Error BorrowedRevokedCert)
    (acc : list BorrowedRevokedCert)
    : outcome Error (list BorrowedRevokedCert + Empty_set) :=
  let? revoked_cert := item in Ok (inl (acc ++ [revoked_cert])).

Definition collect_revoked_certs (self : BorrowedCertRevocationList)
    : outcome Error (list BorrowedRevokedCert) :=
  let? res := fst (der_for (crl_into_iter self) collect_body []) in
  match res with inl revoked_certs => Ok revoked_certs | inr e => match e with end end.

(** [collect::<BTreeMap<_, _>>()]: a later pair replaces an earlier one of
    the same key. *)
Definition collect_map (revoked_certs : list BorrowedRevokedCert)
    : gmap Input OwnedRevokedCert :=
  fold_left (fun m revoked_cert =>
               <[serial_number revoked_cert := BorrowedRevokedCert_to_owned revoked_cert]> m)
    revoked_certs ∅.

Definition BorrowedCertRevocationList_to_owned (self : BorrowedCertRevocationList)
    : outcome Error OwnedCertRevocationList :=
  let? revoked_certs := collect_revoked_certs self in
  Ok {| owned_signed_data := SignedData_to_owned (crl_signed_data self);
        owned_issuer := crl_issuer_field self;
        owned_issuing_distribution_point := crl_idp_field self;
        owned_revoked_certs := collect_map revoked_certs |}.

(** [BorrowedCertRevocationList::remember_extension]. *)
Definition remember_crl_extension (extension : Extension) (crl : BorrowedCertRevocationList)
    : outcome Error BorrowedCertRevocationList :=
  remember_extension extension
    (fun id self =>
       match id with
       | x14 =>
         let? _ :=
           read_all (ext_value extension) InvalidCrlNumber
             (let! crl_number := pmap_err (fun _ => InvalidCrlNumber) nonnegative_integer in
              if (length crl_number <=? 20)%nat then pret crl_number
              else pfail InvalidCrlNumber) in
         Ok self
       | x1b => Err UnsupportedDeltaCrl
       | x1c =>
         let? v := set_extension_once (crl_idp_field self) (Ok (ext_value extension)) in
         Ok {| crl_signed_data := crl_signed_data self;
               crl_issuer_field := crl_issuer_field self;
               crl_idp_field := v; crl_revoked_certs := crl_revoked_certs self |}
       | x23 => Ok self
       | _ => unsupported extension self
       end)
    crl.

Definition crl_extension_decoder (crl : BorrowedCertRevocationList)
    : parser Error BorrowedCertRevocationList :=
  let! extension := from_der (T := Extension) in
  plift (remember_crl_extension extension crl).

(** The optional SEQUENCE of revoked certificates. *)
Definition read_revoked_certs : parser Error Input :=
  let! present := p_peek (tag_u8 Sequence) in
  if present then expect_tag_and_get_value_limited Sequence MAX_DER_SIZE else pret [].

(** The extensions of a list: at least one. *)
Definition read_crl_extensions (crl : BorrowedCertRevocationList)
    : parser Error BorrowedCertRevocationList :=
  nested ContextSpecificConstructed0 MalformedExtensions
    (nested_of_mut Sequence Sequence (TrailingData CertRevocationListExtensionId)
       crl_extension_decoder crl).

(** The closure that reads the TBSCertList. *)
Definition read_tbs_cert_list (sd : SignedData) : parser Error BorrowedCertRevocationList :=
  let! version := from_der (T := u8) in
  if negb (u8_eqb version x01) then pfail UnsupportedCrlVersion
  else
    let! signature := expect_tag Sequence in
    if negb (bytes_eqb signature (algorithm sd)) then pfail SignatureAlgorithmMismatch
    else
      let! issuer := expect_tag Sequence in
      let! _ := from_der (T := Time) in
      let! _ := from_der (T := Time) in
      let! revoked_certs := read_revoked_certs in
      let crl := {| crl_signed_data := sd; crl_issuer_field := issuer;
                    crl_idp_field := None; crl_revoked_certs := revoked_certs |} in
      read_crl_extensions crl.

#[export] Instance crl_from_der : FromDer BorrowedCertRevocationList := {|
  from_der :=
    let! (tbs_cert_list, sd) :=
      nested_limited Sequence (TrailingData CertRevocationListId)
        (SignedData_from_der MAX_DER_SIZE) MAX_DER_SIZE in
    plift
      (let? crl := read_all tbs_cert_list BadDer (read_tbs_cert_list sd) in
       match crl_idp_field crl with
       | Some der => let? _ := idp_from_der der in Ok crl
       | None => Ok crl
       end);
  TYPE_ID := CertRevocationListId;
|}.

(** [BorrowedCertRevocationList::from_der]. *)
Definition BorrowedCertRevocationList_from_der (crl_der : Input)
    : outcome Error BorrowedCertRevocationList :=
  der_read_all (T := BorrowedCertRevocationList) crl_der.
End Lists.

(** ** Reference definitions: what the bytes of a list mean *)

(** The fields of an entry set by an extension. *)
Definition with_reason (rc : BorrowedRevokedCert) (r : RevocationReason) : BorrowedRevokedCert :=
  {| serial_number := serial_number rc; revocation_date := revocation_date rc;
     reason_code := Some r; invalidity_date := invalidity_date rc |}.
Definition with_invalidity_date (rc : BorrowedRevokedCert) (t : Time) : BorrowedRevokedCert :=
  {| serial_number := serial_number rc; revocation_date := revocation_date rc;
     reason_code := reason_code rc; invalidity_date := Some t |}.

(** The effect of one extension on an entry: a reason and an invalidity date
    are read once each, an entry of an indirect CRL is refused, any other
    extension must not be critical. *)
Inductive entry_remembers (ext : Extension) : BorrowedRevokedCert -> BorrowedRevokedCert -> Prop :=
  | remembers_reason rc r :
      ext_id ext = id_ce x15 -> reason_code rc = None ->
      ext_value ext = tlv (tag_u8 Enum) [reason_u8 r] ->
      entry_remembers ext rc (with_reason rc r)
  | remembers_invalidity_date rc t :
      ext_id ext = id_ce x18 -> invalidity_date rc = None ->
      encodes_time t (ext_value ext) ->
      entry_remembers ext rc (with_invalidity_date rc t)
  | ignores_extension rc :
      ~ (ext_id ext ∈ [id_ce x15; id_ce x18; id_ce x1d]) -> critical ext = false ->
      entry_remembers ext rc rc.

(** The effect of one extension on a list. *)
Inductive crl_remembers (ext : Extension)
    : BorrowedCertRevocationList -> BorrowedCertRevocationList -> Prop :=
  | remembers_crl_number crl v :
      ext_id ext = id_ce x14 -> ext_value ext = tlv (tag_u8 Integer) (encode_nonneg v) ->
      canonical_magnitude v = true -> (length v <= 20)%nat ->
      crl_remembers ext crl crl
  | remembers_idp crl :
      ext_id ext = id_ce x1c -> crl_idp_field crl = None ->
      crl_remembers ext crl
        {| crl_signed_data := crl_signed_data crl; crl_issuer_field := crl_issuer_field crl;
           crl_idp_field := Some (ext_value ext); crl_revoked_certs := crl_revoked_certs crl |}
  | ignores_authority_key crl :
      ext_id ext = id_ce x23 -> crl_remembers ext crl crl
  | ignores_crl_extension crl :
      ~ (ext_id ext ∈ [id_ce x14; id_ce x1b; id_ce x1c; id_ce x23]) -> critical ext = false ->
      crl_remembers ext crl crl.

(** One step per extension. *)
Inductive steps {A S} (step : A -> S -> S -> Prop) : list A -> S -> S -> Prop :=
  | steps_nil s : steps step [] s s
  | steps_cons a l s s' s'' :
      step a s s' -> steps step l s' s'' -> steps step (a :: l) s s''.

Lemma steps_nil_inv {A S} (step : A -> S -> S -> Prop) s s' : steps step [] s s' -> s' = s.
Proof. intros H. by inversion H. Qed.

(** The encodings of a list of extensions, without the enclosing SEQUENCE. *)
Definition encodes_extension_list (exts : list Extension) (l : Input) : Prop :=
  exists raw, Forall2 encodes_extension exts raw /\
    l = concat (map (tlv (tag_u8 Sequence)) raw) /\
    Forall (fun v => Z.of_nat (length v) < TWO_BYTE_DER_SIZE) raw.

(** The encodings of an entry: the extensions may be absent, and an empty
    SEQUENCE of extensions is tolerated. *)
Definition encodes_entry (rc : BorrowedRevokedCert) (v : Input) : Prop :=
  exists time exts ext_list ext_bytes,
    encodes_time (revocation_date rc) time /\
    encodes_extension_list exts ext_list /\
    (ext_bytes = [] /\ exts = [] \/
     ext_bytes = tlv (tag_u8 Sequence) ext_list /\
     Z.of_nat (length ext_list) < TWO_BYTE_DER_SIZE) /\
    v = tlv (tag_u8 Integer) (serial_number rc) ++ time ++ ext_bytes /\
    Z.of_nat (length (serial_number rc)) < TWO_BYTE_DER_SIZE /\
    steps entry_remembers exts
      {| serial_number := serial_number rc; revocation_date := revocation_date rc;
         reason_code := None; invalidity_date := None |} rc.

(** The encodings of the contents of a list, up to the extensions. *)
Definition encodes_tbs_cert_list (crl : BorrowedCertRevocationList) (tbs : Input) : Prop :=
  let sd := crl_signed_data crl in
  exists this_update next_update t1 t2 revoked_bytes exts ext_list,
    encodes_time t1 this_update /\ encodes_time t2 next_update /\
    (revoked_bytes = [] /\ crl_revoked_certs crl = [] \/
     revoked_bytes = tlv (tag_u8 Sequence) (crl_revoked_certs crl) /\
     Z.of_nat (length (crl_revoked_certs crl)) < MAX_DER_SIZE) /\
    encodes_extension_list exts ext_list /\ exts <> [] /\
    Z.of_nat (length ext_list) < TWO_BYTE_DER_SIZE /\
    Z.of_nat (length (tlv (tag_u8 Sequence) ext_list)) < TWO_BYTE_DER_SIZE /\
    tbs = tlv (tag_u8 Integer) [x01] ++ tlv (tag_u8 Sequence) (algorithm sd)
      ++ tlv (tag_u8 Sequence) (crl_issuer_field crl) ++ this_update ++ next_update
      ++ revoked_bytes
      ++ tlv (tag_u8 ContextSpecificConstructed0) (tlv (tag_u8 Sequence) ext_list) /\
    Z.of_nat (length (algorithm sd)) < TWO_BYTE_DER_SIZE /\
    Z.of_nat (length (crl_issuer_field crl)) < TWO_BYTE_DER_SIZE /\
    steps crl_remembers exts
      {| crl_signed_data := sd; crl_issuer_field := crl_issuer_field crl;
         crl_idp_field := None; crl_revoked_certs := crl_revoked_certs crl |} crl.

(** The encodings of a list. *)
Definition encodes_crl (crl : BorrowedCertRevocationList) (crl_der : Input) : Prop :=
  let sd := crl_signed_data crl in
  let contents := data sd ++ tlv (tag_u8 Sequence) (algorithm sd)
                    ++ tlv (tag_u8 BitString) (x00 :: signature sd) in
  exists tbs, encodes_tbs_cert_list crl tbs /\
    data sd = tlv (tag_u8 Sequence) tbs /\
    crl_der = tlv (tag_u8 Sequence) contents /\
    Z.of_nat (length contents) < MAX_DER_SIZE /\
    Z.of_nat (length (x00 :: signature sd)) < TWO_BYTE_DER_SIZE.

(** The items of an iterator over the entries, and the lookups as functions of
    the list of items. *)
Section Lookup.
Context {U : Untrusted}.

Definition entry_items (revoked_certs : Input) : list (outcome Error BorrowedRevokedCert) :=
  map fst (der_items (T := BorrowedRevokedCert) (S (length revoked_certs)) revoked_certs).
End Lookup.

(** The first entry with the serial number, an error before it being returned. *)
Fixpoint first_decisive (serial : Input) (items : list (outcome Error BorrowedRevokedCert))
    : outcome Error (option BorrowedRevokedCert) :=
  match items with
  | [] => Ok None
  | item :: items =>
    let? rc := item in
    if bytes_eqb (serial_number rc) serial then Ok (Some rc) else first_decisive serial items
  end.

(** The last entry with the serial number. *)
Definition last_entry (serial : Input) (entries : list BorrowedRevokedCert)
    : option BorrowedRevokedCert :=
  last (List.filter (fun rc => bytes_eqb (serial_number rc) serial) entries).

(** The URIs among names, the first of them, and the URIs left in an iterator. *)
Definition uris (names : list (outcome Error GeneralName)) : list Input :=
  flat_map (fun name => match name with Ok (UniformResourceIdentifier uri) => [uri] | _ => [] end)
    names.

Section Uris.
Context {U : Untrusted}.

Definition uris_at (it : DerIterator GeneralName) : list Input :=
  uris (map fst (der_items (T := GeneralName) (S (length (remaining (reader it))))
                   (remaining (reader it)))).
End Uris.

(** ** Lemmas: entries *)
Lemma reason_try_from_iff v r : reason_try_from v = Ok r <-> v = reason_u8 r.
Proof.
  split; [|intros ->; by destruct r].
  intros H. destruct v; try discriminate H; by injection H as <-.
Qed.

Lemma not_in_cons {A} (x y : A) l : x ∉ y :: l <-> x <> y /\ x ∉ l.
Proof. rewrite elem_of_cons. tauto. Qed.

Section EntryLemmas.
Context {U : Untrusted} {L : UntrustedLaws U}.

#[export] Instance lawful_reason : Lawful (from_der (T := RevocationReason)).
Proof. cbn [from_der reason_from_der]. lawful. Qed.

Lemma reason_from_der_iff l r l' :
  den (from_der (T := RevocationReason)) l = (Ok r, l') <->
  l = tlv (tag_u8 Enum) [reason_u8 r] ++ l'.
Proof.
  cbn [from_der reason_from_der]. split.
  - intros H. den_in H. read_value H i. injection H as H ->.
    apply obind_ok in H as (b & Hb%read_all_ok & ->%reason_try_from_iff).
    den_in Hb. destruct i as [|c i]; by simplify_eq/=.
  - intros ->. den. give_value Enum [reason_u8 r].
    rewrite (proj2 (read_all_ok [reason_u8 r] BadDer (p_read_byte_or BadDer) (reason_u8 r)))
      by by den.
    simpl. by rewrite (proj2 (reason_try_from_iff _ r)).
Qed.

Lemma ends_reason panics : Ends panics (from_der (T := RevocationReason)).
Proof.
  cbn [from_der reason_from_der]. ends. apply ends_obind; [apply ends_read_all; ends|].
  intros v _. by destruct v.
Qed.

(** The unsupported case of the handlers. *)
Lemma unsupported_ok {S} ext (s s' : S) :
  unsupported ext s = Ok s' <-> critical ext = false /\ s' = s.
Proof. unfold unsupported. destruct (critical ext); naive_solver. Qed.

Lemma set_extension_once_ok {T} (d : option T) p v :
  set_extension_once d p = Ok v <-> d = None /\ exists t, p = Ok t /\ v = Some t.
Proof.
  unfold set_extension_once. destruct d; [naive_solver|]. rewrite obind_ok. naive_solver.
Qed.

Lemma remember_entry_extension_ok ext rc rc' :
  remember_entry_extension ext rc = Ok rc' <-> entry_remembers ext rc rc'.
Proof.
  unfold remember_entry_extension.
  set (h := fun id self => match id with x15 => _ | x18 => _ | x1d => _ | _ => _ end).
  destruct (remember_extension_cases ext h rc) as [(n & Hn & ->)|[Hn ->]].
  - destruct (decide (n = x15)) as [->|]; [|destruct (decide (n = x18)) as [->|];
      [|destruct (decide (n = x1d)) as [->|]]].
    + unfold h. rewrite obind_ok. setoid_rewrite set_extension_once_ok.
      unfold der_read_all. setoid_rewrite read_all_ok. setoid_rewrite reason_from_der_iff.
      setoid_rewrite app_nil_r. split.
      * intros (v & (Hr & r & Hv & ->) & [= <-]). by apply remembers_reason.
      * intros H. inversion H as [? r ? Hr Hv|? t Hi|? Hi]; subst; clear H.
        -- eexists. split; [split; [done|]; eauto|done].
        -- rewrite Hn in Hi. by apply id_ce_inj in Hi.
        -- rewrite Hn in Hi. set_solver.
    + unfold h. rewrite obind_ok. setoid_rewrite set_extension_once_ok.
      setoid_rewrite read_all_ok. setoid_rewrite time_from_der_encodes. split.
      * intros (v & (Hr & t & (w & Ht & Hv) & ->) & [= <-]). rewrite app_nil_r in Hv. subst w.
        by apply remembers_invalidity_date.
      * intros H. inversion H as [? r Hi|? t ? Hr Hv|? Hi]; subst; clear H.
        -- rewrite Hn in Hi. by apply id_ce_inj in Hi.
        -- eexists. split; [split; [done|]; exists t; split; [|done]|done].
           eexists. by rewrite app_nil_r.
        -- rewrite Hn in Hi. set_solver.
    + unfold h. split; [done|]. intros H.
      inversion H as [? ? Hi|? ? Hi|? Hi]; subst; rewrite Hn in Hi;
        [by apply id_ce_inj in Hi..|set_solver].
    + assert (h n rc = unsupported ext rc) as ->.
      { unfold h. destruct n; done. }
      rewrite unsupported_ok. split.
      * intros [Hc ->]. apply ignores_extension; [|done]. rewrite Hn.
        rewrite !not_in_cons. repeat split; [..|by apply not_elem_of_nil];
          intros ?%id_ce_inj; done.
      * intros H. inversion H as [? ? Hi|? ? Hi|? Hi]; subst; [..|done];
          rewrite Hn in Hi; by apply id_ce_inj in Hi.
  - rewrite unsupported_ok. split.
    + intros [Hc ->]. apply ignores_extension; [|done]. rewrite !not_in_cons.
      repeat split; [apply Hn..|by apply not_elem_of_nil].
    + intros H. inversion H as [? ? Hi|? ? Hi|? Hi]; subst; [..|done]; by apply Hn in Hi.
Qed.
End EntryLemmas.

Section ParseLemmas.
Context {U : Untrusted} {L : UntrustedLaws U}.

Lemma decode_steps {S} (f : Extension -> S -> outcome Error S)
    (step : Extension -> S -> S -> Prop) error :
  (forall ext s s', f ext s = Ok s' <-> step ext s s') ->
  forall raw s s',
  decode_all error (fun s => let! ext := from_der (T := Extension) in plift (f ext s)) s raw
    = Ok s' <->
  exists exts, Forall2 encodes_extension exts raw /\ steps step exts s s'.
Proof.
  intros Hf. induction raw as [|v raw IH]; intros s s'; simpl.
  - split; [intros [= <-]; exists []; split; constructor|].
    intros (exts & ->%Forall2_nil_inv_r & H). by inversion H.
  - rewrite obind_ok. setoid_rewrite IH. split.
    + intros (s1 & H%read_all_ok & exts & Hexts & Hall). den_in H.
      destruct (den from_der v) as [[ext| | |] l] eqn:E; try done. den_in H.
      injection H as H ->. exists (ext :: exts). split.
      * constructor; [|done]. by apply (extension_from_der_iff v ext error), read_all_ok.
      * apply steps_cons with s1; [by apply Hf|done].
    + intros (exts & Hexts & Hall).
      apply Forall2_cons_inv_r in Hexts as (ext & exts' & Hv & Hexts & ->).
      inversion Hall as [|? ? ? s1 ? H1 H2]; subst. exists s1. split; [|by exists exts'].
      apply (extension_from_der_iff v ext error), read_all_ok in Hv.
      apply read_all_ok. den. rewrite Hv. den. by rewrite (proj2 (Hf ext s s1) H1).
Qed.

#[export] Instance lawful_entry_extension_decoder rc : Lawful (entry_extension_decoder rc).
Proof. unfold entry_extension_decoder. lawful. Qed.

#[export] Instance lawful_crl_extension_decoder crl : Lawful (crl_extension_decoder crl).
Proof. unfold crl_extension_decoder. lawful. Qed.

Lemma encodes_extension_list_nil exts : encodes_extension_list exts [] <-> exts = [].
Proof.
  split; [|intros ->; exists []; by repeat constructor].
  intros (raw & Hraw & H & _). destruct raw as [|v raw]; [by apply Forall2_nil_inv_r in Hraw|].
  apply (f_equal length) in H. simpl in H. rewrite length_app in H.
  pose proof (length_tlv (tag_u8 Sequence) v). lia.
Qed.

Lemma entry_extensions_ok ext_seq rc rc' : ext_seq <> [] ->
  entry_extensions ext_seq rc = Ok rc' <->
  exists exts, encodes_extension_list exts ext_seq /\ steps entry_remembers exts rc rc'.
Proof.
  intros Hne. unfold entry_extensions. rewrite run_new. den.
  assert (forall raw s s', decode_all (TrailingData RevokedCertificateExtensionId)
            entry_extension_decoder s raw = Ok s' <->
          exists exts, Forall2 encodes_extension exts raw /\ steps entry_remembers exts s s')
    as Hdec by apply (decode_steps remember_entry_extension), remember_entry_extension_ok.
  split.
  - destruct (den _ ext_seq) as [o l'] eqn:E. simpl. intros ->.
    apply nested_of_mut_loop_sound in E as (_ & raw & _ & -> & Hl & Hd).
    apply Hdec in Hd as (exts & Hexts & Hs). exists exts. split; [|done]. by exists raw.
  - intros (exts & (raw & Hexts & -> & Hl) & Hs).
    rewrite (nested_of_mut_loop_complete Sequence (TrailingData RevokedCertificateExtensionId)
      entry_extension_decoder raw _ rc rc'); [done| |done| |lia].
    + by intros ->.
    + apply Hdec. eauto.
Qed.

#[export] Instance lawful_read_entry : Lawful read_entry.
Proof. unfold read_entry. lawful. Qed.

Lemma read_entry_iff v rc : den read_entry v = (Ok rc, []) <-> encodes_entry rc v.
Proof.
  unfold read_entry, lenient_certificate_serial_number, encodes_entry. split.
  - intros H. den_in H. destruct (den (expect_tag Integer) v) as [[s| | |] l1] eqn:E; try done.
    apply expect_tag_iff in E as [-> Hs]. cbn [fst snd map_err] in H. den_in H.
    destruct (den from_der l1) as [[t| | |] l2] eqn:E; try done.
    apply time_from_der_encodes in E as (tb & Ht & ->). den_in H.
    destruct l2 as [|b l2]; den_in H.
    + injection H as <-. exists tb, [], [], []. simpl. rewrite app_nil_r.
      split_and!; try done; [by apply encodes_extension_list_nil|by left|by constructor].
    + destruct (den (expect_tag Sequence) (b :: l2)) as [[e| | |] l3] eqn:E; try done.
      apply expect_tag_iff in E as [-> He]. den_in H. destruct e as [|c e]; den_in H.
      * injection H as <- ->. exists tb, [], [], (tlv (tag_u8 Sequence) []). simpl.
        rewrite app_nil_r.
        split_and!; try done; [by apply encodes_extension_list_nil|by right|by constructor].
      * injection H as H ->. apply entry_extensions_ok in H as (exts & Hexts & Hst); [|done].
        exists tb, exts, (c :: e), (tlv (tag_u8 Sequence) (c :: e)).
        assert (serial_number rc = s /\ revocation_date rc = t) as [<- <-].
        { clear -Hst. remember (Build_BorrowedRevokedCert s t None None) as rc0 eqn:Hrc0.
          assert (serial_number rc0 = s /\ revocation_date rc0 = t) as Hinit by by subst.
          clear Hrc0. induction Hst as [|ext exts r1 r2 r3 Hstep _ IH]; [done|].
          apply IH. by inversion Hstep; subst. }
        rewrite app_nil_r. split_and!; try done. by right.
  - intros (tb & exts & el & eb & Ht & Hel & Heb & -> & Hs & Hst). den.
    rewrite (proj2 (expect_tag_iff Integer _ (serial_number rc) _)) by done.
    cbn [fst snd map_err]. den.
    rewrite (proj2 (time_from_der_encodes (tb ++ eb) (revocation_date rc) eb)) by eauto. den.
    destruct Heb as [[-> ->]|[-> He]].
    + den. apply steps_nil_inv in Hst. by rewrite <- Hst.
    + destruct (tlv (tag_u8 Sequence) el) as [|b l] eqn:Et.
      { pose proof (head_tlv (tag_u8 Sequence) el) as Hh. by rewrite Et in Hh. }
      rewrite <- Et. den.
      rewrite (proj2 (expect_tag_iff Sequence (tlv (tag_u8 Sequence) el) el [])) by
        (by rewrite app_nil_r). den.
      destruct el as [|c el].
      * den. apply encodes_extension_list_nil in Hel as ->.
        apply steps_nil_inv in Hst. by rewrite <- Hst.
      * den. f_equal. apply entry_extensions_ok; eauto.
Qed.

#[export] Instance lawful_revoked_cert : Lawful (from_der (T := BorrowedRevokedCert)).
Proof. cbn [from_der revoked_cert_from_der]. lawful. Qed.

Lemma revoked_cert_iff l rc l' :
  den (from_der (T := BorrowedRevokedCert)) l = (Ok rc, l') <->
  exists v, l = tlv (tag_u8 Sequence) v ++ l' /\ Z.of_nat (length v) < TWO_BYTE_DER_SIZE /\
    encodes_entry rc v.
Proof.
  cbn [from_der revoked_cert_from_der]. rewrite nested_iff.
  by setoid_rewrite read_entry_iff.
Qed.
End ParseLemmas.

Section CrlLemmas.
Context {U : Untrusted} {L : UntrustedLaws U}.

Definition read_crl_number : parser Error Input :=
  let! crl_number := pmap_err (fun _ => InvalidCrlNumber) nonnegative_integer in
  if (length crl_number <=? 20)%nat then pret crl_number else pfail InvalidCrlNumber.

Lemma read_crl_number_ok value v :
  read_all value InvalidCrlNumber read_crl_number = Ok v <->
  value = tlv (tag_u8 Integer) (encode_nonneg v) /\ canonical_magnitude v = true /\
  (length v <= 20)%nat.
Proof.
  rewrite read_all_ok. unfold read_crl_number. split.
  - intros H. den_in H. destruct (den nonnegative_integer value) as [[w| | |] l] eqn:E; try done.
    apply nonnegative_integer_sound in E as (-> & Hc & _). cbn [fst snd map_err] in H.
    destruct (Nat.leb_spec (length w) 20); den_in H; [|done]. simplify_eq.
    by rewrite app_nil_r.
  - intros (-> & Hc & Hl). den.
    pose proof (nonnegative_integer_complete v [] Hc) as Hv. rewrite app_nil_r in Hv.
    rewrite Hv; cbn [fst snd map_err].
    + destruct (Nat.leb_spec (length v) 20); [by den|lia].
    + assert (length (encode_nonneg v) <= 21)%nat as Hn.
      { destruct v as [|b v]; [simpl; lia|]. unfold encode_nonneg.
        destruct (128 <=? u8_to_Z b); simpl in *; lia. }
      unfold TWO_BYTE_DER_SIZE, LONG_FORM_LEN_TWO_BYTES_MAX. lia.
Qed.

(** The case analysis on the effect of an extension with a known OID. *)
Ltac crl_effect H Hn :=
  inversion H as [? w Hi|? Hi|? Hi|? Hi]; subst; clear H;
  rewrite Hn in Hi; try (by apply id_ce_inj in Hi); try set_solver.

Lemma remember_crl_extension_ok ext crl crl' :
  remember_crl_extension ext crl = Ok crl' <-> crl_remembers ext crl crl'.
Proof.
  unfold remember_crl_extension. fold read_crl_number.
  set (h := fun id self => match id with x14 => _ | x1b => _ | x1c => _ | _ => _ end).
  destruct (remember_extension_cases ext h crl) as [(n & Hn & ->)|[Hn ->]].
  - destruct (decide (n = x14)) as [->|]; [|destruct (decide (n = x1b)) as [->|];
      [|destruct (decide (n = x1c)) as [->|]; [|destruct (decide (n = x23)) as [->|]]]].
    + unfold h. rewrite obind_ok. setoid_rewrite read_crl_number_ok. split.
      * intros (v & (Hv & Hc & Hl) & [= <-]). by apply remembers_crl_number with v.
      * intros H. crl_effect H Hn.
    + unfold h. split; [done|]. intros H. crl_effect H Hn.
    + unfold h. rewrite obind_ok. setoid_rewrite set_extension_once_ok. split.
      * intros (v & (Hr & w & [= <-] & ->) & [= <-]). by apply remembers_idp.
      * intros H. crl_effect H Hn.
    + unfold h. split; [intros [= <-]; by apply ignores_authority_key|].
      intros H. by crl_effect H Hn.
    + assert (h n crl = unsupported ext crl) as -> by (unfold h; by destruct n).
      rewrite unsupported_ok. split.
      * intros [Hc ->]. apply ignores_crl_extension; [|done]. rewrite Hn, !not_in_cons.
        repeat split; [..|by apply not_elem_of_nil]; intros ?%id_ce_inj; done.
      * intros H. by crl_effect H Hn.
  - rewrite unsupported_ok. split.
    + intros [Hc ->]. apply ignores_crl_extension; [|done]. rewrite !not_in_cons.
      repeat split; [apply Hn..|by apply not_elem_of_nil].
    + intros H. inversion H as [? ? Hi|? Hi|? Hi|? Hi]; subst; [..|done]; by apply Hn in Hi.
Qed.

Lemma crl_remembers_fields exts crl crl' : steps crl_remembers exts crl crl' ->
  crl_signed_data crl' = crl_signed_data crl /\
  crl_issuer_field crl' = crl_issuer_field crl /\
  crl_revoked_certs crl' = crl_revoked_certs crl.
Proof.
  induction 1 as [|ext exts c1 c2 c3 Hstep _ IH]; [done|].
  destruct IH as (-> & -> & ->). by inversion Hstep; subst.
Qed.

#[export] Instance lawful_read_revoked_certs : Lawful read_revoked_certs.
Proof. unfold read_revoked_certs. lawful. Qed.

#[export] Instance lawful_read_crl_extensions crl : Lawful (read_crl_extensions crl).
Proof. unfold read_crl_extensions. lawful. Qed.

#[export] Instance lawful_read_tbs_cert_list sd : Lawful (read_tbs_cert_list sd).
Proof. unfold read_tbs_cert_list. lawful. Qed.

Lemma read_revoked_certs_iff l v l' : head l' <> Some (tag_u8 Sequence) ->
  den read_revoked_certs l = (Ok v, l') <->
  (l = l' /\ v = [] \/
   l = tlv (tag_u8 Sequence) v ++ l' /\ Z.of_nat (length v) < MAX_DER_SIZE).
Proof.
  intros Hl. unfold read_revoked_certs. den. split.
  - destruct (match l with [] => false | c :: _ => u8_eqb c (tag_u8 Sequence) end);
      intros H; den_in H; [|naive_solver].
    apply expect_sound in H as (-> & ? & _). by right.
  - intros [[-> ->]|[-> Hv]].
    + replace (match l' with [] => false | c :: _ => u8_eqb c (tag_u8 Sequence) end)
        with false; [by den|].
      destruct l' as [|c l']; [done|]. symmetry. apply u8_eqb_neq. by intros ->.
    + rewrite peek_tlv, u8_eqb_refl. apply expect_complete; [done|].
      unfold MAX_DER_SIZE in Hv. lia.
Qed.

Lemma read_crl_extensions_iff crl l crl' :
  den (read_crl_extensions crl) l = (Ok crl', []) <->
  exists exts ext_list, encodes_extension_list exts ext_list /\ exts <> [] /\
    l = tlv (tag_u8 ContextSpecificConstructed0) (tlv (tag_u8 Sequence) ext_list) /\
    Z.of_nat (length ext_list) < TWO_BYTE_DER_SIZE /\
    Z.of_nat (length (tlv (tag_u8 Sequence) ext_list)) < TWO_BYTE_DER_SIZE /\
    steps crl_remembers exts crl crl'.
Proof.
  assert (forall raw s s', decode_all (TrailingData CertRevocationListExtensionId)
            crl_extension_decoder s raw = Ok s' <->
          exists exts, Forall2 encodes_extension exts raw /\ steps crl_remembers exts s s')
    as Hdec by apply (decode_steps remember_crl_extension), remember_crl_extension_ok.
  unfold read_crl_extensions. rewrite nested_iff. setoid_rewrite nested_of_mut_iff. split.
  - intros (v & -> & Hv & raw & Hne & -> & Hl & Hraw & (exts & Hexts & Hst)%Hdec).
    rewrite !app_nil_r in *. exists exts, (concat (map (tlv (tag_u8 Sequence)) raw)).
    split_and!; try done; [by exists raw|].
    intros ->. by apply Forall2_nil_inv_l in Hexts.
  - intros (exts & el & (raw & Hexts & -> & Hraw) & Hne & -> & Hl & Hl' & Hst).
    eexists. split; [by rewrite app_nil_r|]. split; [done|]. exists raw.
    rewrite app_nil_r. split_and!; try done; [|apply Hdec; eauto].
    intros ->. by apply Forall2_nil_inv_r in Hexts.
Qed.

Lemma max_der_eq {A} (v : list A) : Z.of_nat (length v) < MAX_DER_SIZE ->
  Z.of_nat (length v) <= LONG_FORM_LEN_FOUR_BYTES_MAX.
Proof. unfold MAX_DER_SIZE. lia. Qed.

Lemma read_tbs_cert_list_iff sd tbs crl :
  den (read_tbs_cert_list sd) tbs = (Ok crl, []) <->
  crl_signed_data crl = sd /\ encodes_tbs_cert_list crl tbs.
Proof.
  unfold read_tbs_cert_list, encodes_tbs_cert_list.
  split.
  - intros H. den_in H.
    destruct (den from_der tbs) as [[ver| | |] l1] eqn:E; try done.
    apply u8_from_der_iff in E as ->. den_in H.
    destruct (u8_eqb ver x01) eqn:Ever; cbn [negb] in H; den_in H; [|done].
    apply u8_eqb_eq in Ever as ->.
    read_value H al.
    destruct (bytes_eqb al (algorithm sd)) eqn:Eal; cbn [negb] in H; den_in H; [|done].
    apply bytes_eqb_eq in Eal as ->.
    read_value H iss.
    destruct (den from_der _) as [[t1| | |] l4] eqn:E; try done.
    apply time_from_der_encodes in E as (b1 & ? & ->). den_in H.
    destruct (den from_der l4) as [[t2| | |] l5] eqn:E; try done.
    apply time_from_der_encodes in E as (b2 & ? & ->). den_in H.
    destruct (den read_revoked_certs l5) as [[rc| | |] l6] eqn:E; try done.
    apply read_crl_extensions_iff in H as (exts & el & ? & ? & -> & ? & ? & Hst).
    apply read_revoked_certs_iff in E; [|by rewrite head_tlv; intros [= ?%tag_u8_inj]].
    pose proof (crl_remembers_fields _ _ _ Hst) as (Hsd & Hiss & Hrc).
    cbn [crl_signed_data crl_issuer_field crl_revoked_certs] in Hsd, Hiss, Hrc.
    rewrite Hsd, Hiss, Hrc. split; [done|].
    destruct E as [[-> ->]|[-> ?]].
    + exists b1, b2, t1, t2, [], exts, el. split_and!; try done. by left.
    + exists b1, b2, t1, t2, (tlv (tag_u8 Sequence) rc), exts, el.
      split_and!; try done. by right.
  - intros (<- & b1 & b2 & t1 & t2 & rb & exts & el & Ht1 & Ht2 & Hrb & Hel & Hne & Hl & Hl' &
            -> & Hal & Hiss & Hst). den.
    rewrite (proj2 (u8_from_der_iff _ x01 _)) by done. den. rewrite u8_eqb_refl. cbn [negb]. den.
    give_value Sequence (algorithm (crl_signed_data crl)).
    rewrite bytes_eqb_refl. cbn [negb]. den.
    give_value Sequence (crl_issuer_field crl).
    rewrite (proj2 (time_from_der_encodes _ t1 _)) by (eexists; split; [exact Ht1|done]). den.
    rewrite (proj2 (time_from_der_encodes _ t2 _)) by (eexists; split; [exact Ht2|done]). den.
    set (rest := tlv (tag_u8 ContextSpecificConstructed0) (tlv (tag_u8 Sequence) el)).
    assert (head rest <> Some (tag_u8 Sequence)) as Hrest
      by (unfold rest; rewrite head_tlv; intros [= ?%tag_u8_inj]; done).
    rewrite (proj2 (read_revoked_certs_iff (rb ++ rest) (crl_revoked_certs crl) rest Hrest)) by
      (destruct Hrb as [[-> ->]|[-> ?]]; [by left|by right]).
    apply read_crl_extensions_iff. eauto 10.
Qed.

(** A parsed list is one of the encodings, with an issuing distribution point
    that is supported if it is present. *)
Lemma signed_tbs_encodes l tbs sd l' crl :
  den (nested_limited Sequence (TrailingData CertRevocationListId)
         (SignedData_from_der MAX_DER_SIZE) MAX_DER_SIZE) l = (Ok (tbs, sd), l') ->
  crl_signed_data crl = sd -> encodes_tbs_cert_list crl tbs ->
  exists crl_der, l = crl_der ++ l' /\ encodes_crl crl crl_der.
Proof.
  intros (v & -> & Hv & _ & Hd)%nested_limited_sound <- Htbs.
  apply SignedData_from_der_iff in Hd as (Hd & -> & ? & ? & ?); [|by vm_compute].
  rewrite !app_nil_r in *. unfold encodes_crl. eauto 10.
Qed.

Lemma crl_from_der_encodes crl_der crl :
  BorrowedCertRevocationList_from_der crl_der = Ok crl <->
  encodes_crl crl crl_der /\
  (forall der, crl_idp_field crl = Some der -> exists idp, idp_from_der der = Ok idp).
Proof.
  unfold BorrowedCertRevocationList_from_der, der_read_all, encodes_crl. rewrite read_all_ok.
  cbn [from_der crl_from_der].
  assert (forall tbs sd, den (plift (let? crl := read_all tbs BadDer (read_tbs_cert_list sd) in
            match crl_idp_field crl with
            | Some der => let? _ := idp_from_der der in Ok crl
            | None => Ok crl
            end)) [] = (Ok crl, []) <->
          (crl_signed_data crl = sd /\ encodes_tbs_cert_list crl tbs) /\
          forall der, crl_idp_field crl = Some der -> exists idp, idp_from_der der = Ok idp) as Hcrl.
  { intros tbs sd. rewrite den_lift, <- read_tbs_cert_list_iff, <- (read_all_ok _ BadDer). split.
    - intros [= (crl' & Hc & Hidp)%obind_ok]. destruct (crl_idp_field crl') as [der|] eqn:Ed.
      + apply obind_ok in Hidp as (idp & Hidp & [= ->]). split; [done|].
        intros der'. rewrite Ed. intros [= <-]. eauto.
      + injection Hidp as ->. split; [done|]. by rewrite Ed.
    - intros [-> Hidp]. simpl. destruct (crl_idp_field crl) as [der|]; [|done].
      by destruct (Hidp der eq_refl) as [idp ->]. }
  split.
  - intros H. den_in H. destruct (den (nested_limited _ _ _ _) crl_der) as [[[tbs sd]| | |] l] eqn:E;
      try done.
    assert (l = []) as -> by (den_in H; by injection H).
    apply Hcrl in H as [[Hsd Htbs] Hidp]. split; [|done].
    destruct (signed_tbs_encodes _ _ _ _ _ E Hsd Htbs) as (prefix & -> & Henc).
    by rewrite app_nil_r.
  - intros [(tbs & Htbs & Hd & -> & Hl & Hs) Hidp]. den.
    rewrite <- (app_nil_r (tlv (tag_u8 Sequence) _)).
    rewrite (nested_limited_complete _ _ _ _ _ (tbs, crl_signed_data crl) []);
      [by apply Hcrl|done|by apply max_der_eq|].
    apply SignedData_from_der_iff; [by vm_compute|]. rewrite app_nil_r.
    split_and!; [done|done| | |done].
    + rewrite !length_app, Hd in Hl. pose proof (length_tlv (tag_u8 Sequence) tbs).
      lia.
    + by destruct Htbs as (? & ? & ? & ? & ? & ? & ? & _ & _ & _ & _ & _ & _ & _ & _ & ? & _).
Qed.

(** *** Totality *)
Lemma ends_remember_entry_extension panics ext rc :
  ends panics (remember_entry_extension ext rc).
Proof.
  apply ends_remember_extension. intros n rc'.
  destruct (decide (n = x15)) as [->|]; [|destruct (decide (n = x18)) as [->|]].
  - apply ends_obind; [|done]. apply ends_set_extension_once, ends_der_read_all, ends_reason.
  - apply ends_obind; [|done]. apply ends_set_extension_once, ends_read_all, ends_time_from_der.
  - destruct n; try done; apply ends_unsupported.
Qed.

Lemma ends_entry_extensions panics ext_seq rc : ends panics (entry_extensions ext_seq rc).
Proof.
  unfold entry_extensions. rewrite run_new. den.
  apply ends_nested_of_mut_loop; [|lia].
  intros s. unfold entry_extension_decoder. ends. apply ends_remember_entry_extension.
Qed.

Lemma ends_revoked_cert panics : Ends panics (from_der (T := BorrowedRevokedCert)).
Proof.
  cbn [from_der revoked_cert_from_der]. unfold read_entry, lenient_certificate_serial_number.
  apply ends_nested. ends. apply ends_entry_extensions.
Qed.

#[export] Instance progress_revoked_cert : Progress BorrowedRevokedCert.
Proof.
  split; [apply _|]. intros l Hl. cbn [from_der revoked_cert_from_der]. by apply nested_shorter.
Qed.

Lemma ends_decode_bool panics value : ends panics (decode_bool value).
Proof.
  unfold decode_bool. destruct (read_byte (reader_new value)) as [[b|] r]; simpl; [|done].
  by repeat case_match.
Qed.

Lemma ends_idp_field tag v r :
  ends (tlv tag v = tlv ONLY_CONTAINS_SOME_REASONS_TAG [x00]) (idp_field tag v r).
Proof.
  unfold idp_field. destruct (u8_eqb tag ONLY_CONTAINS_SOME_REASONS_TAG) eqn:E.
  - apply u8_eqb_eq in E as ->. cbn. apply ends_obind; [|done]. apply ends_set_extension_once.
    eapply ends_weaken; [|apply ends_bit_string_flags]. by intros ->.
  - repeat case_match; try done; (apply ends_obind; [|done]);
      by first [apply ends_decode_bool|apply ends_set_extension_once].
Qed.

Lemma ends_idp_from_der der :
  ends (occurs_in (tlv ONLY_CONTAINS_SOME_REASONS_TAG [x00]) der) (idp_from_der der).
Proof.
  unfold idp_from_der. rewrite run_new. apply ends_obind.
  - apply ends_nested_at. intros v l' ->. den. eapply ends_weaken;
      [|apply (ends_tagged_fields (fun item => item = tlv ONLY_CONTAINS_SOME_REASONS_TAG [x00]));
        [apply ends_idp_field|lia]].
    intros (item & -> & Ho). by apply occurs_in_app_l, occurs_in_tlv.
  - intros r _. unfold idp_supported.
    pose proof (ends_dp_names False (idp_distribution_point r)) as H.
    unfold idp_names. repeat case_match; done.
Qed.

(** The assertion of [authoritative_for] holds of what the parser accepts. *)
Lemma idp_from_der_supported der idp :
  idp_from_der der = Ok idp -> only_contains_attribute_certs idp = false.
Proof.
  intros (r & _ & H)%obind_ok. unfold idp_supported in H. by repeat case_match; simplify_eq.
Qed.

(** *** Supported issuing distribution points *)
(** Fields with their tags, in the order of the encoding. *)
Definition fields_encoding (fields : list (u8 * Input)) : Input :=
  concat (map (fun f => tlv f.1 f.2) fields).

Definition values_of (tag : u8) (fields : list (u8 * Input)) : list Input :=
  map snd (List.filter (fun f => u8_eqb f.1 tag) fields).

Definition flag_octets (b : bool) : Input := [if b then xff else x00].

Lemma values_of_elem tag v fields : v ∈ values_of tag fields -> (tag, v) ∈ fields.
Proof.
  unfold values_of. rewrite !list_elem_of_In, in_map_iff.
  intros ([tag' w] & <- & [Hf Ht%u8_eqb_eq]%filter_In). simpl in *. by subst.
Qed.

(** The values of the tag are BOOLEANs; the last of them is the flag. *)
Definition flag_read (tag : u8) (fields : list (u8 * Input)) (init b : bool) : Prop :=
  exists flags, values_of tag fields = map flag_octets flags /\ b = default init (last flags).

Definition idp_tags : list u8 := [xa0; x81; x82; x83; x84; x85].

Definition maybe_value {A} (o : option A) : list A :=
  match o with Some a => [a] | None => [] end.

(** [r] is [s] with the fields read into it, none of them reasons. *)
Definition fields_read (fields : list (u8 * Input)) (s r : IssuingDistributionPoint) : Prop :=
  Forall (fun f => f.1 ∈ idp_tags) fields /\
  maybe_value (idp_distribution_point r) =
    maybe_value (idp_distribution_point s) ++ values_of xa0 fields /\
  flag_read x81 fields (only_contains_user_certs s) (only_contains_user_certs r) /\
  flag_read x82 fields (only_contains_ca_certs s) (only_contains_ca_certs r) /\
  values_of x83 fields = [] /\
  flag_read x84 fields (indirect_crl s) (indirect_crl r) /\
  flag_read x85 fields (only_contains_attribute_certs s) (only_contains_attribute_certs r).

Fixpoint run_fields {S} (field : u8 -> Input -> S -> outcome Error S)
    (fields : list (u8 * Input)) (s : S) : outcome Error S :=
  match fields with
  | [] => Ok s
  | (tag, v) :: fields => let? s := field tag v s in run_fields field fields s
  end.

Lemma decode_bool_iff v b : decode_bool v = Ok b <-> v = flag_octets b.
Proof.
  unfold decode_bool. pose proof (remaining_new v) as Hv. destruct v as [|c v].
  - destruct (read_byte_nil _ Hv) as (r & -> & _). by destruct b.
  - destruct (read_byte_cons _ _ _ Hv) as (r & -> & Hr). cbn [opt_outcome obind].
    rewrite at_end_spec, Hr. destruct v; [|by destruct b]. cbn [negb].
    destruct (u8_eqb c xff) eqn:E1; [apply u8_eqb_eq in E1 as ->; by destruct b|].
    destruct (u8_eqb c x00) eqn:E0; [apply u8_eqb_eq in E0 as ->; by destruct b|].
    split; [done|]. destruct b; intros [= ->]; done.
Qed.

Lemma flag_read_nil tag init b : flag_read tag [] init b <-> b = init.
Proof.
  split; [|intros ->; by exists []]. intros ([|? ?] & Hf & ->); done.
Qed.

Lemma flag_read_same tag v fields init b :
  flag_read tag ((tag, v) :: fields) init b <->
  exists b', v = flag_octets b' /\ flag_read tag fields b' b.
Proof.
  unfold flag_read, values_of. simpl. rewrite u8_eqb_refl. simpl. split.
  - intros ([|b' flags] & Hf & ->); [done|]. injection Hf as -> Hf. exists b'. split; [done|].
    exists flags. split; [done|]. rewrite last_cons. by destruct (last flags).
  - intros (b' & -> & flags & Hf & ->). exists (b' :: flags). rewrite Hf, last_cons.
    split; [done|]. by destruct (last flags).
Qed.

Lemma flag_read_other tag tag' v fields init b : u8_eqb tag' tag = false ->
  flag_read tag ((tag', v) :: fields) init b <-> flag_read tag fields init b.
Proof. intros H. unfold flag_read, values_of. simpl. by rewrite H. Qed.

Lemma maybe_value_inj {A} (o o' : option A) : maybe_value o = maybe_value o' -> o = o'.
Proof. destruct o, o'; simpl; congruence. Qed.

(** Reasons that have been read stay. *)
Lemma run_fields_reasons fields s r : run_fields idp_field fields s = Ok r ->
  is_Some (only_some_reasons s) -> is_Some (only_some_reasons r).
Proof.
  revert s. induction fields as [|[tag v] fields IH]; intros s; simpl; [by intros [= ->]|].
  intros (s' & Hs & Hr)%obind_ok Hsome. apply (IH _ Hr). unfold idp_field in Hs.
  repeat (case_match; [apply obind_ok in Hs as (? & Hv & [= <-]);
    first [done|by destruct Hsome as [? Hsome]; rewrite Hsome in Hv]|]). done.
Qed.

Lemma idp_field_ok tag v s s' : idp_field tag v s = Ok s' -> tag ∈ idp_tags.
Proof.
  unfold idp_field. intros H.
  repeat (case_match; [match goal with E : u8_eqb tag _ = true |- _ =>
    apply u8_eqb_eq in E as -> end; by apply (bool_decide_unpack _); vm_compute|]). done.
Qed.

Lemma values_of_cons tag tag' v fields :
  values_of tag ((tag', v) :: fields) =
    if u8_eqb tag' tag then v :: values_of tag fields else values_of tag fields.
Proof. unfold values_of. simpl. by case_match. Qed.

Lemma flag_decoded {A} v (f : bool -> A) (Q : A -> Prop) :
  (exists a, (let? b := decode_bool v in Ok (f b)) = Ok a /\ Q a) <->
  (exists b, v = flag_octets b /\ Q (f b)).
Proof.
  split.
  - intros (a & (b & Hb%decode_bool_iff & [= <-])%obind_ok & Ha). eauto.
  - intros (b & Hb%decode_bool_iff & Ha). rewrite Hb. eauto.
Qed.

#[local] Ltac field_cases :=
  repeat match goal with
  | |- context [flag_read ?t ((?t', ?v) :: ?fields) _ _] =>
    first [rewrite (flag_read_other t t' v fields) by reflexivity | rewrite flag_read_same]
  end;
  rewrite !values_of_cons; unfold idp_field;
  repeat match goal with
  | |- context [u8_eqb ?a ?b] =>
    first [change (u8_eqb a b) with true | change (u8_eqb a b) with false]
  end; cbv iota.

Lemma fields_read_cons tag v fields s r :
  fields_read ((tag, v) :: fields) s r <->
  exists s', idp_field tag v s = Ok s' /\ only_some_reasons s' = only_some_reasons s /\
    fields_read fields s' r.
Proof.
  unfold fields_read. rewrite Forall_cons. cbn [fst].
  destruct (decide (tag ∈ idp_tags)) as [Ht|Ht];
    [|split; [tauto|intros (s' & Hs%idp_field_ok & _); done]].
  pose proof Ht as Htag.
  unfold idp_tags in Ht.
  repeat (apply elem_of_cons in Ht as [->|Ht]); [..|by apply elem_of_nil in Ht].
  all: field_cases.
  - destruct (idp_distribution_point s) as [i|]; simpl.
    + split; [|by intros (? & ? & _)].
      intros (_ & Hd & _). by destruct (idp_distribution_point r).
    + split.
      * intros (? & ? & ?). eexists. split_and!; [done|done|tauto..].
      * intros (s' & [= <-] & _ & ?). tauto.
  - rewrite flag_decoded. naive_solver.
  - rewrite flag_decoded. naive_solver.
  - split; [naive_solver|]. intros (s' & (? & H & [= <-])%obind_ok & Hr & _). simpl in Hr.
    destruct (only_some_reasons s); [done|]. by apply obind_ok in H as (? & _ & [= <-]).
  - rewrite flag_decoded. naive_solver.
  - rewrite flag_decoded. naive_solver.
Qed.

Lemma run_fields_iff fields s r : only_some_reasons s = None -> only_some_reasons r = None ->
  run_fields idp_field fields s = Ok r <-> fields_read fields s r.
Proof.
  intros Hs Hr. revert s Hs. induction fields as [|[tag v] fields IH]; intros s Hs.
  - unfold fields_read. rewrite !flag_read_nil. simpl. rewrite app_nil_r. split.
    + intros [= ->]. split_and!; done.
    + intros (_ & Hd%maybe_value_inj & ? & ? & _ & ? & ?). destruct s, r; simpl in *. congruence.
  - rewrite fields_read_cons. simpl. split.
    + intros (s' & Hf & Hrun)%obind_ok. exists s'. assert (only_some_reasons s' = None) as Hs'.
      { apply eq_None_not_Some. intros H. pose proof (run_fields_reasons _ _ _ Hrun H) as [? ?].
        congruence. }
      split_and!; [done|congruence|by apply IH].
    + intros (s' & -> & Hs' & Hread). simpl. apply IH; [congruence|done].
Qed.

Lemma tagged_fields_sound {S} field : forall fuel (s : S) l s' l',
  den (tagged_fields fuel field s) l = (Ok s', l') ->
  l' = [] /\ exists fields, l = fields_encoding fields /\
    Forall (fun f => low_tag f.1 = true /\ Z.of_nat (length f.2) < TWO_BYTE_DER_SIZE) fields /\
    run_fields field fields s = Ok s'.
Proof.
  induction fuel as [|fuel IH]; intros s l s' l' H; [done|]. simpl in H. den_in H.
  destruct l as [|b l]; den_in H; [simplify_eq; split; [done|by exists []]|].
  unfold read_tag_and_get_value in H.
  destruct (den (read_tag_and_get_value_limited TWO_BYTE_DER_SIZE) (b :: l))
    as [[[tag v]| | |] l1] eqn:E; try done.
  apply read_tlv_sound in E as (-> & Ht & Hv & _). den_in H.
  destruct (field tag v s) as [s1| | |] eqn:Ef; try done. den_in H.
  apply IH in H as (-> & fields & -> & Hall & Hrun). split; [done|].
  exists ((tag, v) :: fields). split; [done|]. split; [by constructor|].
  simpl. by rewrite Ef.
Qed.

Lemma tagged_fields_complete {S} field fields : forall fuel (s s' : S),
  (length (fields_encoding fields) < fuel)%nat ->
  Forall (fun f => low_tag f.1 = true /\ Z.of_nat (length f.2) < TWO_BYTE_DER_SIZE) fields ->
  run_fields field fields s = Ok s' ->
  den (tagged_fields fuel field s) (fields_encoding fields) = (Ok s', []).
Proof.
  induction fields as [|[tag v] fields IH]; intros [|fuel] s s' Hfuel Hall Hrun;
    try (simpl in *; lia).
  - injection Hrun as ->. change (fields_encoding []) with ([] : Input). simpl. by den.
  - apply Forall_cons in Hall as [[Ht Hv] Hall]. cbn [fst snd] in Ht, Hv.
    change (fields_encoding ((tag, v) :: fields)) with (tlv tag v ++ fields_encoding fields) in *.
    simpl in Hrun. apply obind_ok in Hrun as (s1 & Hf & Hrun).
    pose proof (length_tlv tag v) as Hl. rewrite length_app in Hfuel.
    simpl tagged_fields. den.
    destruct (tlv tag v ++ fields_encoding fields) as [|b l] eqn:El;
      [apply (f_equal length) in El; rewrite length_app in El; simpl in El; lia|].
    den. rewrite <- El. unfold read_tag_and_get_value.
    rewrite read_tlv_complete by (done || by apply two_byte_max).
    den. rewrite Hf. den. apply IH; [lia|done|done].
Qed.

(** The contents that the crate supports: the distribution point, [[0]], once,
    and a full name; the flags that restrict the list to the certificates of
    end entities, [[1]], or authorities, [[2]]; no reasons, [[3]]; and the
    flags of indirect lists, [[4]], and attribute certificates, [[5]], not set.
    A flag that is repeated counts as its last value. *)
Definition supported_fields (idp : IssuingDistributionPoint) (fields : list (u8 * Input)) : Prop :=
  Forall (fun f => f.1 ∈ idp_tags) fields /\
  (exists uris after, values_of xa0 fields = [tlv FULL_NAME_TAG uris ++ after] /\
    idp_distribution_point idp = Some (tlv FULL_NAME_TAG uris ++ after)) /\
  flag_read x81 fields false (only_contains_user_certs idp) /\
  flag_read x82 fields false (only_contains_ca_certs idp) /\
  values_of x83 fields = [] /\ only_some_reasons idp = None /\
  flag_read x84 fields false false /\ indirect_crl idp = false /\
  flag_read x85 fields false false /\ only_contains_attribute_certs idp = false.

Definition supported_idp (idp : IssuingDistributionPoint) (der : Input) : Prop :=
  exists fields rest, der = tlv (tag_u8 Sequence) (fields_encoding fields) ++ rest /\
    Z.of_nat (length (fields_encoding fields)) < TWO_BYTE_DER_SIZE /\ supported_fields idp fields.

Lemma fields_bounded fields n :
  (length (fields_encoding fields) < n)%nat ->
  Forall (fun f => (length f.2 < n)%nat) fields.
Proof.
  induction fields as [|[tag v] fields IH]; [by constructor|].
  change (fields_encoding ((tag, v) :: fields)) with (tlv tag v ++ fields_encoding fields).
  rewrite length_app. pose proof (length_tlv tag v). intros H1.
  constructor; [simpl; lia|apply IH; lia].
Qed.

Lemma dp_names_full input :
  (exists names, dp_names (Some input) = Ok (Some (FullName names))) <->
  exists v after, input = tlv FULL_NAME_TAG v ++ after /\
    Z.of_nat (length v) < TWO_BYTE_DER_SIZE.
Proof.
  unfold dp_names. rewrite run_new.
  pose proof (fun names l' => dp_full_name_iff input names l') as Hiff.
  destruct (den from_der input) as [[name|e| |] l'] eqn:E; simpl.
  { split.
    - intros (names & [= ->]). destruct (proj1 (Hiff names l') eq_refl) as (v & ? & ? & _). eauto.
    - intros (v & after & -> & Hv). eexists.
      assert ((Ok name, l') = (Ok (FullName (der_iterator_new v)), after)) as [= -> _]
        by (apply Hiff; eauto). done. }
  all: split; [by intros (? & ?)|]; intros (v & after & Hi & Hv);
    by pose proof (proj2 (Hiff _ after) (ex_intro _ v (conj Hi (conj Hv eq_refl)))).
Qed.

Lemma idp_supported_ok r idp : idp_supported r = Ok idp <->
  r = idp /\ only_contains_attribute_certs idp = false /\ indirect_crl idp = false /\
  only_some_reasons idp = None /\
  exists input, idp_distribution_point idp = Some input /\
    exists names, dp_names (Some input) = Ok (Some (FullName names)).
Proof.
  unfold idp_supported, idp_names. split.
  - destruct (only_contains_attribute_certs r) eqn:?, (indirect_crl r) eqn:?; try done.
    destruct (only_some_reasons r) eqn:?, (idp_distribution_point r) as [input|] eqn:?; try done.
    destruct (dp_names (Some input)) as [[[]|]|e| |] eqn:?; try done. intros [= <-]. eauto 10.
  - intros (-> & -> & -> & -> & input & -> & names & ->). done.
Qed.

Lemma idp_from_der_iff der idp : idp_from_der der = Ok idp <-> supported_idp idp der.
Proof.
  unfold idp_from_der. rewrite run_new. split.
  - intros (r & Hr & Hsup)%obind_ok.
    apply idp_supported_ok in Hsup as (-> & Ha & Hi & Hs & input & Hd & Hfull).
    apply dp_names_full in Hfull as (v & after & -> & _).
    destruct (den (nested _ _ _) der) as [o rest] eqn:E. cbn [fst] in Hr. subst o.
    apply nested_iff in E as (w & -> & Hw & E). den_in E.
    apply tagged_fields_sound in E as (_ & fields & -> & _ & Hrun).
    apply run_fields_iff in Hrun as (? & Hv & ? & ? & ? & ? & ?); [|done..].
    rewrite Hd in Hv. rewrite Hi, Ha in *. exists fields, rest.
    split_and!; [done|done|]. split_and!; try done. eauto.
  - intros (fields & rest & -> & Hw & Htags & (v & after & Hv & Hd) & ? & ? & ? & Hs & ? & Hi
      & ? & Ha).
    pose proof (fields_bounded fields (Z.to_nat TWO_BYTE_DER_SIZE) ltac:(lia)) as Hb.
    assert (Forall (fun f => low_tag f.1 = true /\ Z.of_nat (length f.2) < TWO_BYTE_DER_SIZE) fields)
      as Hlow.
    { rewrite Forall_forall in *. intros [tag w] Hin. specialize (Htags _ Hin). specialize (Hb _ Hin).
      simpl in *. split; [|lia]. unfold idp_tags in Htags.
      repeat (apply elem_of_cons in Htags as [->|Htags]; [done|]). by apply elem_of_nil in Htags. }
    assert (den (nested Sequence (TrailingData IssuingDistributionPointId)
       (let! fuel := loop_fuel in tagged_fields fuel idp_field empty_idp))
       (tlv (tag_u8 Sequence) (fields_encoding fields) ++ rest) = (Ok idp, rest)) as ->.
    { apply nested_complete; [done|]. den. apply tagged_fields_complete; [lia|done|].
      apply run_fields_iff; [done|done|]. unfold fields_read.
      by rewrite Hd, Hv, Hi, Ha. }
    cbn [fst obind]. apply idp_supported_ok. split_and!; [done..|].
    eexists. split; [done|]. apply dp_names_full. exists v, after. split; [done|].
    assert ((xa0, tlv FULL_NAME_TAG v ++ after) ∈ fields) as Hin
      by (apply values_of_elem; rewrite Hv; by left).
    rewrite Forall_forall in Hlow. destruct (Hlow _ Hin) as [_ Hl]. simpl in Hl.
    pose proof (length_tlv FULL_NAME_TAG v). rewrite length_app in Hl. lia.
Qed.

Lemma ends_read_crl_number panics : Ends panics read_crl_number.
Proof. unfold read_crl_number. ends. Qed.

Lemma ends_remember_crl_extension panics ext crl : ends panics (remember_crl_extension ext crl).
Proof.
  apply ends_remember_extension. intros n crl'.
  destruct (decide (n = x14)) as [->|].
  - apply ends_obind; [|done]. fold read_crl_number. apply ends_read_all, ends_read_crl_number.
  - destruct n; try done; apply ends_unsupported || (apply ends_obind; [|done]);
      by apply ends_set_extension_once.
Qed.

Lemma ends_read_tbs_cert_list panics sd : Ends panics (read_tbs_cert_list sd).
Proof.
  unfold read_tbs_cert_list, read_revoked_certs, read_crl_extensions, crl_extension_decoder.
  der_ends; apply ends_remember_crl_extension || apply ends_u8_from_der.
Qed.

Lemma ends_crl_from_der crl_der : fuelled (BorrowedCertRevocationList_from_der crl_der).
Proof.
  apply ends_der_read_all. cbn [from_der crl_from_der].
  apply ends_bind; [intros [tbs sd]; lawful| |].
  - apply ends_nested_limited, ends_SignedData.
  - intros [tbs sd]. apply ends_lift, ends_obind.
    + apply ends_read_all, ends_read_tbs_cert_list.
    + intros crl _. destruct (crl_idp_field crl) as [der|]; [|done].
      apply ends_obind; [|done]. eapply ends_weaken; [|apply ends_idp_from_der]. done.
Qed.

Lemma crl_from_der_panic crl_der : BorrowedCertRevocationList_from_der crl_der = Panic ->
  exists crl prefix rest der, crl_der = prefix ++ rest /\ encodes_crl crl prefix /\
    crl_idp_field crl = Some der /\ occurs_in (tlv ONLY_CONTAINS_SOME_REASONS_TAG [x00]) der.
Proof.
  unfold BorrowedCertRevocationList_from_der, der_read_all. rewrite read_all_den.
  cbn [from_der crl_from_der]. den.
  pose proof (ends_nested_limited False Sequence (TrailingData CertRevocationListId)
    (SignedData_from_der MAX_DER_SIZE) MAX_DER_SIZE (ends_SignedData _ _) crl_der) as He.
  destruct (den (nested_limited _ _ _ _) crl_der) as [[[tbs sd]| | |] l] eqn:E; try done.
  rewrite den_lift. pose proof (ends_read_all False tbs BadDer _ (ends_read_tbs_cert_list False sd tbs)) as He2.
  destruct (read_all tbs BadDer (read_tbs_cert_list sd)) as [crl| | |] eqn:Er; try done.
  cbn [obind]. destruct (crl_idp_field crl) as [der|] eqn:Ei; [|by destruct l].
  intros H. apply read_all_ok, read_tbs_cert_list_iff in Er as [Hsd Htbs].
  destruct (signed_tbs_encodes _ _ _ _ _ E Hsd Htbs) as (prefix & -> & Henc).
  exists crl, prefix, l, der. split_and!; try done.
  pose proof (ends_idp_from_der der). destruct (idp_from_der der); [by destruct l|done..].
Qed.

(** *** Lookups *)
Lemma entry_items_ends revoked_certs : Forall (ends False) (entry_items revoked_certs).
Proof. apply der_items_ends, ends_revoked_cert. Qed.

Lemma borrowed_find_serial_eq crl serial :
  borrowed_find_serial crl serial = first_decisive serial (entry_items (crl_revoked_certs crl)).
Proof.
  unfold borrowed_find_serial, crl_into_iter, entry_items. rewrite der_for_items.
  generalize (crl_revoked_certs crl) at 3 as l.
  pose proof (entry_items_ends (crl_revoked_certs crl)) as He. unfold entry_items in He. revert He.
  generalize (der_items (T := BorrowedRevokedCert) (S (length (crl_revoked_certs crl)))
    (crl_revoked_certs crl)) as items.
  induction items as [|[[rc|e| |] l'] items IH]; intros He l; try done; simpl in *;
    apply Forall_cons in He as [? He]; try done.
  destruct (bytes_eqb (serial_number rc) serial); [done|]. by apply IH.
Qed.

(** All entries, or the first error. *)
Fixpoint all_entries (items : list (outcome Error BorrowedRevokedCert))
    : outcome Error (list BorrowedRevokedCert) :=
  match items with
  | [] => Ok []
  | item :: items => let? rc := item in let? rcs := all_entries items in Ok (rc :: rcs)
  end.

Lemma collect_revoked_certs_eq crl :
  collect_revoked_certs crl = all_entries (entry_items (crl_revoked_certs crl)).
Proof.
  unfold collect_revoked_certs, crl_into_iter, entry_items. rewrite der_for_items.
  generalize (crl_revoked_certs crl) at 3 as l.
  generalize (der_items (T := BorrowedRevokedCert) (S (length (crl_revoked_certs crl)))
    (crl_revoked_certs crl)) as items.
  assert (forall items l acc,
    (let? res := fst (items_for items l collect_body acc) in
     match res with inl revoked_certs => Ok revoked_certs | inr e => match e with end end)
    = let? rcs := all_entries (map fst items) in Ok (acc ++ rcs)) as H.
  { induction items as [|[[rc|e| |] l'] items IH]; intros l acc; simpl;
      rewrite ?app_nil_r; try done.
    rewrite IH. destruct (all_entries _); simpl; by rewrite <- ?app_assoc. }
  intros items l. rewrite H. by destruct (all_entries _).
Qed.

Lemma all_entries_ok items entries : all_entries items = Ok entries <-> items = map Ok entries.
Proof.
  revert entries. induction items as [|item items IH]; intros entries; simpl.
  - destruct entries; simpl; split; congruence.
  - rewrite obind_ok. setoid_rewrite obind_ok. setoid_rewrite IH. split.
    + by intros (rc & -> & rcs & -> & [= <-]).
    + destruct entries as [|rc rcs]; [done|]. intros [= -> ->]. eauto.
Qed.

Lemma collect_map_lookup entries serial :
  OwnedRevokedCert_borrow <$> collect_map entries !! serial = last_entry serial entries.
Proof.
  unfold collect_map, last_entry.
  induction entries as [|rc entries IH] using rev_ind; [done|].
  rewrite fold_left_app, List.filter_app. simpl.
  destruct (bytes_eqb (serial_number rc) serial) eqn:E.
  - apply bytes_eqb_eq in E as <-. rewrite lookup_insert_eq, last_snoc. by destruct rc.
  - apply bytes_eqb_neq in E. rewrite lookup_insert_ne by done. by rewrite app_nil_r.
Qed.

Lemma first_decisive_ok serial entries :
  first_decisive serial (map Ok entries)
  = Ok (head (List.filter (fun rc => bytes_eqb (serial_number rc) serial) entries)).
Proof.
  induction entries as [|rc entries IH]; simpl; [done|].
  by destruct (bytes_eqb (serial_number rc) serial).
Qed.
End CrlLemmas.

(** ** Lemmas: authority *)
Section Authority.
Context {U : Untrusted} {L : UntrustedLaws U}.

Lemma der_for_fst {T E S R} `{!FromDer T, !Progress T}
    (body : outcome Error T -> S -> outcome E (S + R)) it s :
  fst (der_for it body s)
  = fst (items_for (der_items (Datatypes.S (length (remaining (reader it)))) (remaining (reader it)))
           (remaining (reader it)) body s).
Proof. unfold der_for. rewrite <- der_for_loop_items by lia. done. Qed.

Lemma name_items_ends l k : Forall (ends False) (map fst (der_items (T := GeneralName) k l)).
Proof. apply der_items_ends, ends_general_name. Qed.

Lemma other_uri_eq uri it :
  fst (der_for it (other_uri_body uri) tt)
  = Ok (if bool_decide (uri ∈ uris_at it) then inr tt else inl tt).
Proof.
  rewrite der_for_fst. unfold uris_at.
  generalize (remaining (reader it)) at 3 as l'.
  pose proof (name_items_ends (remaining (reader it)) (S (length (remaining (reader it))))) as He.
  revert He. generalize (der_items (T := GeneralName) (S (length (remaining (reader it))))
    (remaining (reader it))) as items.
  induction items as [|[[n|e| |] l] items IH]; intros He l'; try done; simpl in *;
    apply Forall_cons in He as [? He]; try done; [|by apply IH].
  destruct n; try (by apply IH). simpl. destruct (bytes_eqb uri name) eqn:E.
  - apply bytes_eqb_eq in E as ->. rewrite bool_decide_eq_true_2; [done|]. set_solver.
  - apply bytes_eqb_neq in E. rewrite IH by done. do 2 f_equal.
    erewrite bool_decide_ext; [done|]. rewrite elem_of_cons. tauto.
Qed.

Lemma uris_at_exhausted it : remaining (reader it) = [] -> uris_at it = [].
Proof. intros H. unfold uris_at. by rewrite H. Qed.

(** The outer loop: the first URI is looked for among all the names of the
    distribution point, and this exhausts them. *)
Lemma uri_body_loop items l dp : Forall (ends False) (map fst items) ->
  exists s, fst (items_for items l uri_body dp)
    = Ok (match uris (map fst items) with
          | uri :: _ => if bool_decide (uri ∈ uris_at dp) then inr tt else inl s
          | [] => inl s
          end).
Proof.
  revert l dp. induction items as [|[[n|e| |] l'] items IH]; intros l dp He; [by exists dp|..];
    simpl in *; apply Forall_cons in He as [? He]; try done; [|by apply IH].
  destruct n as [n|n|n|uri|tag]; try (by apply IH). simpl.
  pose proof (other_uri_eq uri dp) as Hu.
  pose proof (der_for_exhausts (other_uri_body uri) dp tt) as Hex.
  destruct (der_for dp (other_uri_body uri) tt) as [res dp']. simpl in Hu. subst res.
  case_bool_decide as Hin; simpl; [by exists dp|].
  specialize (Hex tt dp' eq_refl). destruct (IH l' dp' He) as [s Hs]. exists s. rewrite Hs.
  rewrite (uris_at_exhausted dp' Hex). f_equal. destruct (uris (map fst items)); [done|].
  rewrite bool_decide_eq_false_2; [done|apply not_elem_of_nil].
Qed.

Lemma uri_name_in_common_eq idp dp :
  fst (uri_name_in_common idp dp)
  = Ok (match uris_at idp with uri :: _ => bool_decide (uri ∈ uris_at dp) | [] => false end) /\
  (fst (uri_name_in_common idp dp) = Ok false ->
   remaining (reader (snd (uri_name_in_common idp dp))) = []).
Proof.
  unfold uri_name_in_common.
  pose proof (der_for_fst uri_body idp dp) as Hf.
  pose proof (der_for_exhausts uri_body idp dp) as Hex.
  destruct (uri_body_loop (der_items (T := GeneralName) (S (length (remaining (reader idp))))
    (remaining (reader idp))) (remaining (reader idp)) dp (name_items_ends _ _)) as [s Hs].
  rewrite Hs in Hf. fold (uris_at idp) in Hf.
  destruct (der_for idp uri_body dp) as [res idp']. simpl in Hf |- *. subst res. simpl.
  split.
  - destruct (uris_at idp); [done|]. by case_bool_decide.
  - destruct (uris_at idp); [|case_bool_decide]; try done; intros _; by apply (Hex s).
Qed.

(** A distribution point of a certificate that can match: not for an indirect
    list, not sharded by reason, and with full names. *)
Definition matchable (dp : CrlDistributionPoint) (names : DerIterator GeneralName) : Prop :=
  crl_issuer dp = None /\ reasons dp = None /\
  CrlDistributionPoint_names dp = Ok (Some (FullName names)).

Lemma cert_dp_loop_false items l idp : uris_at idp = [] ->
  fst (items_for items l cert_dp_body idp) <> Ok (inr true).
Proof.
  revert l idp. induction items as [|[[dp|e| |] l'] items IH]; intros l idp Hidp; try done.
  simpl. destruct (_ || _); [done|].
  destruct (CrlDistributionPoint_names dp) as [[[n|names]|]|e| |]; try done.
  pose proof (uri_name_in_common_eq idp names) as [Hf Hex]. rewrite Hidp in Hf.
  destruct (uri_name_in_common idp names) as [res idp']. simpl in *. subst res. simpl.
  apply IH, uris_at_exhausted, Hex. done.
Qed.

Lemma cert_dp_loop_iff items l idp :
  fst (items_for items l cert_dp_body idp) = Ok (inr true) <->
  exists dp l' rest names uri us, items = (Ok dp, l') :: rest /\ matchable dp names /\
    uris_at idp = uri :: us /\ uri ∈ uris_at names.
Proof.
  destruct items as [|[[dp|e| |] l'] items]; simpl; try naive_solver.
  assert (forall P : Prop, ~ P -> (forall names, ~ matchable dp names) ->
    P <-> exists dp' l'' rest names uri us, (Ok dp, l') :: items = (Ok dp', l'') :: rest /\
      matchable dp' names /\ uris_at idp = uri :: us /\ uri ∈ uris_at names) as Hno.
  { intros P HP Hm. split; [done|].
    intros (dp' & l'' & rest & names & uri & us & He & Hd & _). injection He as <- <- <-.
    by destruct (Hm names). }
  unfold matchable in Hno |- *. destruct (crl_issuer dp) eqn:E1, (reasons dp) eqn:E2; simpl;
    try (apply Hno; [done|naive_solver]).
  destruct (CrlDistributionPoint_names dp) as [[[n|names]|]|e| |] eqn:En;
    try (apply Hno; [done|naive_solver]).
  clear Hno.
  pose proof (uri_name_in_common_eq idp names) as [Hf Hex].
  destruct (uri_name_in_common idp names) as [res idp']. simpl in *. subst res. simpl.
  assert (uris_at idp' = [] -> fst (items_for items l' cert_dp_body idp') <> Ok (inr true)) as Hno
    by apply cert_dp_loop_false.
  destruct (uris_at idp) as [|uri us] eqn:Eu.
  - specialize (Hno (uris_at_exhausted _ (Hex eq_refl))). naive_solver.
  - case_bool_decide as Hin.
    + split; [|done]. intros _. exists dp, l', items, names, uri, us. naive_solver.
    + specialize (Hno (uris_at_exhausted _ (Hex eq_refl))). split; [done|].
      intros (dp' & l2 & rest & nm & u & us' & He & (_ & _ & Hn) & Hu & Hin').
      injection He as <- <- <-. rewrite En in Hn. injection Hn as <-. by injection Hu as <- <-.
Qed.

(** The first item of the distribution points of a certificate. *)
Definition first_dp (cert_dps : Input) : option (outcome Error CrlDistributionPoint) :=
  match cert_dps with [] => None | _ => Some (fst (den from_der cert_dps)) end.

(** The kinds of certificates a list is about. *)
Definition in_scope (idp : IssuingDistributionPoint) (cert : Cert) : Prop :=
  match ee_or_ca cert with
  | EndEntity => only_contains_ca_certs idp = false
  | Ca _ => only_contains_user_certs idp = false
  end.

Lemma in_scope_iff idp cert : in_scope idp cert <-> idp_out_of_scope idp cert = false.
Proof.
  unfold in_scope, idp_out_of_scope. destruct (ee_or_ca cert); simpl;
    by destruct (only_contains_ca_certs idp), (only_contains_user_certs idp).
Qed.

(** A list with this distribution point covers the certificate. *)
Definition idp_covers (idp : IssuingDistributionPoint) (cert : Cert) : Prop :=
  only_contains_attribute_certs idp = false /\ in_scope idp cert /\
  (crl_distribution_points_field cert = None \/
   exists cert_dps dp names idp_uris uri us,
     crl_distribution_points_field cert = Some cert_dps /\ first_dp cert_dps = Some (Ok dp) /\
     matchable dp names /\ idp_names idp = Ok (Some (FullName idp_uris)) /\
     uris_at idp_uris = uri :: us /\ uri ∈ uris_at names).

Lemma authoritative_for_iff idp cert :
  authoritative_for idp cert = Ok true <-> idp_covers idp cert.
Proof.
  unfold authoritative_for, crl_distribution_points, idp_covers. rewrite in_scope_iff.
  destruct (only_contains_attribute_certs idp); [naive_solver|].
  destruct (idp_out_of_scope idp cert); [naive_solver|].
  destruct (crl_distribution_points_field cert) as [cert_dps|] eqn:Edp; simpl; [|naive_solver].
  destruct (idp_names idp) as [[[n|idp_uris]|]|e| |] eqn:En; try naive_solver.
  rewrite der_for_items.
  pose proof (cert_dp_loop_iff (der_items (T := CrlDistributionPoint) (S (length cert_dps)) cert_dps)
    cert_dps idp_uris) as Hiff.
  assert ((let? res := fst (items_for (der_items (T := CrlDistributionPoint) (S (length cert_dps))
              cert_dps) cert_dps cert_dp_body idp_uris) in
           Ok (match res with inr found => found | inl _ => false end)) = Ok true <->
          fst (items_for (der_items (T := CrlDistributionPoint) (S (length cert_dps)) cert_dps)
            cert_dps cert_dp_body idp_uris) = Ok (inr true)) as ->.
  { destruct (fst _) as [[s|[]]|e| |]; naive_solver. }
  rewrite Hiff. clear Hiff. unfold first_dp. destruct cert_dps as [|b l]; simpl; [naive_solver|].
  destruct (den from_der (b :: l)) as [item l'] eqn:Ed; simpl. split.
  - intros (dp & l2 & rest & names & uri & us & [= -> -> <-] & Hm & Hu & Hin).
    split_and!; [done|done|]. right. exists (b :: l), dp, names, idp_uris, uri, us.
    split_and!; try done. by rewrite Ed.
  - intros (_ & _ & [|(dps & dp & names & iu & uri & us & Hdps & Hdp & Hm & Hiu & Hu & Hin)]);
      [done|]. injection Hdps as <-. rewrite Ed in Hdp. injection Hdp as ->. injection Hiu as <-.
    by exists dp, l', (der_items (length (b :: l)) l'), names, uri, us.
Qed.

(** *** Totality *)
(** A distribution point of the certificate has reasons without any octet. *)
Definition empty_reasons (cert : Cert) : Prop :=
  exists dps, crl_distribution_points_field cert = Some dps /\
    occurs_in (tlv REASONS_TAG [x00]) dps.

Lemma ends_items_for {T E S R} panics (items : list (outcome Error T * Input)) l
    (body : outcome Error T -> S -> outcome E (S + R)) s :
  Forall (ends panics) (map fst items) ->
  (forall item s, ends panics item -> ends panics (body item s)) ->
  ends panics (fst (items_for items l body s)).
Proof.
  intros Hi Hb. revert l s. induction items as [|[item l'] items IH]; intros l s; [done|].
  simpl in *. apply Forall_cons in Hi as [Hitem Hi]. pose proof (Hb item s Hitem) as H.
  destruct item; try done; (destruct (body _ s) as [[s'|r]|e'| |]; try done; by apply IH).
Qed.

Lemma ends_authoritative_for idp cert : only_contains_attribute_certs idp = false ->
  ends (empty_reasons cert) (authoritative_for idp cert).
Proof.
  intros Ha. unfold authoritative_for, idp_names. rewrite Ha. case_match; [done|].
  destruct (crl_distribution_points cert) as [it|] eqn:Ei; [|done].
  unfold crl_distribution_points in Ei.
  destruct (crl_distribution_points_field cert) as [dps|] eqn:Ef; [|done].
  injection Ei as <-. pose proof (ends_dp_names False (idp_distribution_point idp)).
  destruct (dp_names (idp_distribution_point idp)) as [[[n|names]|]|e| |]; try done.
  apply ends_obind; [|done]. rewrite der_for_items. apply ends_items_for.
  - apply der_items_ends_at. intros consumed l' ->.
    eapply ends_weaken; [|apply ends_crl_dp]. intros Ho. eexists. split; [done|].
    by apply occurs_in_app_r.
  - intros [dp|e| |] s _; try done. unfold cert_dp_body. case_match; [done|].
    unfold CrlDistributionPoint_names. pose proof (ends_dp_names False (distribution_point dp)).
    destruct (dp_names (distribution_point dp)) as [[[n|ns]|]|e| |]; try done.
    pose proof (proj1 (uri_name_in_common_eq s ns)) as Hu.
    destruct (uri_name_in_common s ns) as [res s']. simpl in Hu. subst res. simpl. by case_match.
Qed.
End Authority.

(** ** Properties *)
Section CrlProperties.
Context {U : Untrusted} {L : UntrustedLaws U}.

(** C39: A reason code is read exactly from the ENUMERATED encoding of its
    number, and the iterator lists every reason once. *)
Theorem reason_round_trip l r l' :
  (den (from_der (T := RevocationReason)) l = (Ok r, l') <->
   l = tlv (tag_u8 Enum) [reason_u8 r] ++ l') /\
  reason_try_from (reason_u8 r) = Ok r /\ r ∈ reason_iter /\ NoDup reason_iter.
Proof.
  split_and!; [apply reason_from_der_iff|by apply reason_try_from_iff|..].
  - by destruct r; apply (bool_decide_unpack _); vm_compute.
  - by apply (bool_decide_unpack _); vm_compute.
Qed.

(** C34: An entry of a list is read exactly from its encoding: the reason and
    the invalidity date come from its extensions, at most one of each, no other
    extension is critical, and there is no certificate issuer. *)
Theorem revoked_cert_parse l rc l' :
  den (from_der (T := BorrowedRevokedCert)) l = (Ok rc, l') <->
  exists v, l = tlv (tag_u8 Sequence) v ++ l' /\ Z.of_nat (length v) < TWO_BYTE_DER_SIZE /\
    encodes_entry rc v.
Proof. apply revoked_cert_iff. Qed.

(** C16: A list is parsed exactly from its encoding, with an issuing
    distribution point that is supported, if there is one; the parser always
    returns, but for a panic when that distribution point has a list of reasons
    without any octet. *)
Theorem crl_parse crl_der :
  match BorrowedCertRevocationList_from_der crl_der with
  | Ok crl => encodes_crl crl crl_der /\
      forall der, crl_idp_field crl = Some der -> exists idp, supported_idp idp der
  | Err _ => forall crl, encodes_crl crl crl_der ->
      exists der, crl_idp_field crl = Some der /\ forall idp, ~ supported_idp idp der
  | Panic => exists crl prefix rest der, crl_der = prefix ++ rest /\ encodes_crl crl prefix /\
      crl_idp_field crl = Some der /\ occurs_in (tlv ONLY_CONTAINS_SOME_REASONS_TAG [x00]) der
  | OutOfFuel => False
  end.
Proof.
  pose proof (ends_crl_from_der crl_der) as He.
  destruct (BorrowedCertRevocationList_from_der crl_der) as [crl|e| |] eqn:E; try done;
    try setoid_rewrite <- idp_from_der_iff.
  - by apply crl_from_der_encodes.
  - intros crl Henc. destruct (crl_idp_field crl) as [der|] eqn:Ei.
    + exists der. split; [done|]. intros idp Hidp.
      enough (BorrowedCertRevocationList_from_der crl_der = Ok crl) by congruence.
      apply crl_from_der_encodes. split; [done|]. rewrite Ei. intros ? [= <-]. eauto.
    + enough (BorrowedCertRevocationList_from_der crl_der = Ok crl) by congruence.
      apply crl_from_der_encodes. split; [done|]. by rewrite Ei.
  - by apply crl_from_der_panic.
Qed.

(** C18: The lookup in a borrowed list returns, and is decided by the first
    entry that has the serial number or does not parse. *)
Theorem borrowed_find_serial_first crl serial :
  find_serial crl serial = first_decisive serial (entry_items (crl_revoked_certs crl)) /\
  ends False (find_serial crl serial).
Proof.
  change (find_serial crl serial) with (borrowed_find_serial crl serial).
  rewrite borrowed_find_serial_eq. split; [done|].
  induction (entry_items_ends (crl_revoked_certs crl)) as [|item items Hi _ IH]; [done|].
  simpl. apply ends_obind; [done|]. intros rc _. by case_match.
Qed.

(** C17: The owned list refines the borrowed one it was made from: it exists
    when all of its entries parse, has the same issuer, distribution point and
    signature, finds the same serial numbers, and the same entries when no
    serial number is listed twice. *)
Theorem owned_refines_borrowed crl owned : BorrowedCertRevocationList_to_owned crl = Ok owned ->
  crl_issuer_name owned = crl_issuer_name crl /\
  issuing_distribution_point owned = issuing_distribution_point crl /\
  (forall algs spki, crl_verify_signature owned algs spki = crl_verify_signature crl algs spki) /\
  exists entries, entry_items (crl_revoked_certs crl) = map Ok entries /\
    forall serial,
    let listed := List.filter (fun rc => bytes_eqb (serial_number rc) serial) entries in
    find_serial crl serial = Ok (head listed) /\ find_serial owned serial = Ok (last listed) /\
    ((length listed <= 1)%nat -> find_serial owned serial = find_serial crl serial).
Proof.
  unfold BorrowedCertRevocationList_to_owned. rewrite collect_revoked_certs_eq.
  intros (entries & He%all_entries_ok & [= <-])%obind_ok.
  split_and!; [done|done|by intros; destruct crl as [[] ? ? ?]|]. exists entries.
  split; [done|]. intros serial. set (listed := List.filter _ entries).
  assert (find_serial crl serial = Ok (head listed)) as Hb.
  { change (find_serial crl serial) with (borrowed_find_serial crl serial).
    by rewrite borrowed_find_serial_eq, He, first_decisive_ok. }
  rewrite Hb. cbn [find_serial owned_crl]. cbn [owned_revoked_certs]. rewrite collect_map_lookup.
  split_and!; [done|done|]. unfold last_entry. fold listed. clearbody listed.
  destruct listed as [|rc [|rc' listed]]; simpl; [done|done|lia].
Qed.

(** C20: Which certificates a list is authoritative for: the kind of
    certificate is in scope, and either the certificate has no distribution
    points, or the first of them, without an issuer or reasons of its own, has
    among its URIs the first URI of the list's distribution point. *)
Theorem authoritative_for_spec idp cert :
  authoritative_for idp cert = Ok true <-> idp_covers idp cert.
Proof. apply authoritative_for_iff. Qed.
End CrlProperties.

(** *** Witnesses *)
Definition sample_entry : BorrowedRevokedCert := {|
  serial_number := [x07];
  revocation_date := from_seconds_since_unix_epoch 1675209600;
  reason_code := Some KeyCompromise;
  invalidity_date := None;
|}.

Definition sample_list (revoked_certs : Input) : BorrowedCertRevocationList := {|
  crl_signed_data := {| data := []; algorithm := []; signature := [] |};
  crl_issuer_field := [];
  crl_idp_field := None;
  crl_revoked_certs := revoked_certs;
|}.

Lemma reason_round_trip_witness :
  den (U := slice_reader) (from_der (T := RevocationReason)) [x0a; x01; x05; x00]
  = (Ok CessationOfOperation, [x00]).
Proof.
  apply (reason_round_trip (U := slice_reader) [x0a; x01; x05; x00]). by vm_compute.
Defined.

Lemma revoked_cert_parse_witness :
  exists v, sample_revoked = tlv (tag_u8 Sequence) v ++ [] /\ encodes_entry sample_entry v.
Proof.
  destruct (proj1 (revoked_cert_parse (U := slice_reader) sample_revoked sample_entry [])
    ltac:(by vm_compute)) as (v & Hv & _ & He). by exists v.
Defined.

Definition uri_der (uri : list u8) : Input := tlv UNIFORM_RESOURCE_IDENTIFIER_TAG uri.

(** A list with a distribution point of two URIs, for end entities. *)
Definition linked_idp_der : Input :=
  der_sequence (tlv xa0 (tlv xa0 (uri_der [x61] ++ uri_der [x62])) ++ tlv x81 [xff]).
Definition linked_crl_der : Input :=
  sample_crl_with (sample_extension x1c true linked_idp_der) sample_revoked.

Lemma crl_parse_witness :
  exists crl idp, encodes_crl crl linked_crl_der /\ crl_issuer_field crl = sample_name_ca /\
    crl_idp_field crl = Some linked_idp_der /\ supported_idp idp linked_idp_der.
Proof.
  pose proof (crl_parse (U := slice_reader) linked_crl_der) as H.
  assert (exists crl,
    BorrowedCertRevocationList_from_der (U := slice_reader) linked_crl_der = Ok crl /\
    crl_issuer_field crl = sample_name_ca /\ crl_idp_field crl = Some linked_idp_der)
    as (crl & E & Hn & Hi) by (eexists; split_and!; vm_compute; reflexivity).
  rewrite E in H. destruct H as [H Hidp]. destruct (Hidp _ Hi) as [idp Hs].
  exists crl, idp. exact (conj H (conj Hn (conj Hi Hs))).
Defined.

Lemma borrowed_find_serial_first_witness :
  find_serial (CertRevocationList := borrowed_crl (U := slice_reader)) (sample_list sample_revoked) [x07]
  = Ok (Some sample_entry).
Proof.
  rewrite (proj1 (borrowed_find_serial_first (U := slice_reader) _ _)). by vm_compute.
Defined.

Lemma owned_refines_borrowed_witness :
  exists owned,
    find_serial (CertRevocationList := owned_crl (U := slice_reader)) owned [x07]
    = find_serial (CertRevocationList := borrowed_crl (U := slice_reader)) (sample_list sample_revoked) [x07].
Proof.
  assert (exists owned,
    BorrowedCertRevocationList_to_owned (U := slice_reader) (sample_list sample_revoked) = Ok owned)
    as (owned & Howned) by (eexists; vm_compute; reflexivity).
  exists owned. destruct (owned_refines_borrowed (U := slice_reader) (sample_list sample_revoked) _ Howned)
    as (_ & _ & _ & entries & He & H).
  apply H. apply (f_equal length) in He. rewrite length_map in He.
  etransitivity; [apply List.filter_length_le|]. rewrite <- He. vm_compute. reflexivity.
Defined.

(** A list for end entities with two URIs, and an end entity with a distribution
    point among whose URIs is the first of them. *)
Definition linked_idp : IssuingDistributionPoint := {|
  idp_distribution_point := Some (tlv xa0 (uri_der [x61] ++ uri_der [x62]));
  only_contains_user_certs := true;
  only_contains_ca_certs := false;
  only_some_reasons := None;
  indirect_crl := false;
  only_contains_attribute_certs := false;
|}.
Definition linked_cert : Cert :=
  mkCert EndEntity [] (crl_signed_data (sample_list [])) [] [] [] [] None None None None None
    (Some (der_sequence (tlv xa0 (tlv xa0 (uri_der [x63] ++ uri_der [x61]))))).

Lemma authoritative_for_spec_witness :
  idp_covers (U := slice_reader) linked_idp linked_cert /\
  authoritative_for (U := slice_reader) linked_idp linked_cert = Ok true.
Proof.
  assert (authoritative_for (U := slice_reader) linked_idp linked_cert = Ok true) as H
    by (vm_compute; reflexivity).
  split; [|exact H]. by apply (authoritative_for_spec (U := slice_reader)).
Defined.
