(* ===== verification/TrustAnchor.v ===== *)
(** * [src/trust_anchor.rs]: trust anchors from certificates

    [CertificateDer] and [TrustAnchor] are types of the pki-types crate: the
    bytes of a certificate, and a record with the three fields the source
    reads and writes. *)
From S2P Require Import Prelude Errors Untrusted Der GeneralName X509 SignedData Cert Samples.

Abbreviation CertificateDer := (list u8).

Record TrustAnchor : Type := {
  ta_subject : Input;
  ta_subject_public_key_info : Input;
  ta_name_constraints : option Input;
}.

(** [From<Cert>]. *)
Definition TrustAnchor_from (cert : Cert) : TrustAnchor := {|
  ta_subject := subject cert;
  ta_subject_public_key_info := spki cert;
  ta_name_constraints := name_constraints cert;
|}.

Section TrustAnchor.
Context {U : Untrusted}.

Definition skip_value (tag : Tag) : parser Error unit :=
  let! _ := expect_tag tag in pret tt.

(** The closure that reads the TBSCertificate of a v1 certificate. *)
Definition read_v1_tbs : parser Error TrustAnchor :=
  let! _ := lenient_certificate_serial_number in
  let! _ := skip_value Sequence in
  let! _ := skip_value Sequence in
  let! _ := skip_value Sequence in
  let! subject := expect_tag Sequence in
  let! spki := expect_tag Sequence in
  pret {| ta_subject := subject; ta_subject_public_key_info := spki;
          ta_name_constraints := None |}.

(** The result for the TBSCertificate is kept while the signature is skipped. *)
Definition read_v1_certificate : parser Error TrustAnchor :=
  let! anchor :=
    p_result (nested Sequence (TrailingData TrustAnchorV1TbsCertificateId) read_v1_tbs) in
  let! _ := skip_value Sequence in
  let! _ := skip_value BitString in
  plift anchor.

Definition extract_trust_anchor_from_v1_cert_der (cert_der : Input) : outcome Error TrustAnchor :=
  read_all cert_der BadDer
    (nested Sequence (TrailingData TrustAnchorV1Id) read_v1_certificate).

Definition extract_trust_anchor (cert : CertificateDer) : outcome Error TrustAnchor :=
  match Cert_from_der cert EndEntity with
  | Ok cert => Ok (TrustAnchor_from cert)
  | Err UnsupportedCertVersion =>
    (* [.or(Err(Error::BadDer))] *)
    map_err (fun _ => BadDer) (extract_trust_anchor_from_v1_cert_der cert)
  | Err err => Err err
  | Panic => Panic
  | OutOfFuel => OutOfFuel
  end.
End TrustAnchor.

(** ** Reference definitions *)

(** The encodings of a v1 certificate with the subject and key of an anchor. *)
Definition encodes_v1_certificate (anchor : TrustAnchor) (cert_der : Input) : Prop :=
  ta_name_constraints anchor = None /\
  exists serial alg issuer validity signature_alg signature,
    let tbs := tlv (tag_u8 Integer) serial ++ tlv (tag_u8 Sequence) alg
      ++ tlv (tag_u8 Sequence) issuer ++ tlv (tag_u8 Sequence) validity
      ++ tlv (tag_u8 Sequence) (ta_subject anchor)
      ++ tlv (tag_u8 Sequence) (ta_subject_public_key_info anchor) in
    let contents := tlv (tag_u8 Sequence) tbs ++ tlv (tag_u8 Sequence) signature_alg
                      ++ tlv (tag_u8 BitString) signature in
    cert_der = tlv (tag_u8 Sequence) contents /\
    Forall (fun v => Z.of_nat (length v) < TWO_BYTE_DER_SIZE)
      [serial; alg; issuer; validity; ta_subject anchor; ta_subject_public_key_info anchor;
       tbs; signature_alg; signature; contents].

(** ** Lemmas *)
Section TrustAnchorLemmas.
Context {U : Untrusted} {L : UntrustedLaws U}.

#[export] Instance lawful_skip_value tag : Lawful (skip_value tag).
Proof. unfold skip_value. lawful. Qed.

Lemma skip_value_iff tag l l' :
  den (skip_value tag) l = (Ok tt, l') <->
  exists v, l = tlv (tag_u8 tag) v ++ l' /\ Z.of_nat (length v) < TWO_BYTE_DER_SIZE.
Proof.
  unfold skip_value. setoid_rewrite <- expect_tag_iff. split.
  - intros H. den_in H. destruct (den (expect_tag tag) l) as [[v| | |] l1]; try done.
    den_in H. simplify_eq. eauto.
  - intros [v H]. den. rewrite H. by den.
Qed.

#[export] Instance lawful_read_v1_tbs : Lawful read_v1_tbs.
Proof. unfold read_v1_tbs. lawful. Qed.

#[export] Instance lawful_read_v1_certificate : Lawful read_v1_certificate.
Proof. unfold read_v1_certificate. lawful. Qed.

(** One more value of a known tag is read, or skipped. *)
Ltac read_or_skip H :=
  match type of H with
  | context [den (expect_tag ?tag) ?l] => let v := fresh "v" in read_value H v
  | context [den (skip_value ?tag) ?l] =>
    let E := fresh "E" in
    destruct (den (skip_value tag) l) as [[[]| | |] ?l1] eqn:E; [|done..];
    apply skip_value_iff in E as (?v & -> & ?); den_in H
  end.

Lemma v1_cert_iff cert_der anchor :
  extract_trust_anchor_from_v1_cert_der cert_der = Ok anchor <->
  encodes_v1_certificate anchor cert_der.
Proof.
  unfold extract_trust_anchor_from_v1_cert_der, read_v1_certificate.
  rewrite read_all_ok, nested_iff. unfold encodes_v1_certificate. split.
  - intros (c & -> & Hc & H). den_in H. rewrite den_result in H.
    destruct (den (nested _ _ read_v1_tbs) c) as [o l1] eqn:E. cbn [fst snd] in H.
    destruct o as [a|e| |]; den_in H; [|by do 2 read_or_skip H|done..].
    apply nested_iff in E as (tbs & -> & Htbs & Ht).
    do 2 read_or_skip H. injection H as -> ->.
    unfold read_v1_tbs, lenient_certificate_serial_number in Ht. den_in Ht.
    do 6 read_or_skip Ht. injection Ht as <- ->. split; [done|].
    rewrite !app_nil_r in *. repeat eexists. repeat (constructor; [done|]). constructor.
  - intros (Hn & serial & alg & issuer & validity & sa & sig & -> & Hall).
    repeat (apply Forall_cons in Hall as [? Hall]).
    eexists. split; [by rewrite app_nil_r|]. split; [done|]. den. rewrite den_result.
    match goal with |- context [tlv (tag_u8 Sequence) ?t ++ ?rest] =>
      assert (den (nested Sequence (TrailingData TrustAnchorV1TbsCertificateId) read_v1_tbs)
                (tlv (tag_u8 Sequence) t ++ rest) = (Ok anchor, rest)) as -> end.
    { apply nested_iff. eexists. split; [done|]. split; [done|].
      unfold read_v1_tbs, lenient_certificate_serial_number. den.
      rewrite (proj2 (expect_tag_iff Integer _ _ _)) by done. den.
      do 3 (rewrite (proj2 (skip_value_iff Sequence _ _)) by eauto; den).
      rewrite (proj2 (expect_tag_iff Sequence _ (ta_subject anchor) _)) by done. den.
      rewrite (proj2 (expect_tag_iff Sequence _ (ta_subject_public_key_info anchor) [])) by
        (by rewrite app_nil_r). den.
      by destruct anchor; simpl in *; subst. }
    cbn [fst snd]. den.
    rewrite (proj2 (skip_value_iff Sequence _ _)) by eauto. den.
    rewrite (proj2 (skip_value_iff BitString (tlv (tag_u8 BitString) sig) [])) by
      (exists sig; by rewrite app_nil_r). by den.
Qed.

Lemma ends_v1_cert panics cert_der :
  ends panics (extract_trust_anchor_from_v1_cert_der cert_der).
Proof.
  unfold extract_trust_anchor_from_v1_cert_der. apply ends_read_all. generalize cert_der.
  apply ends_nested. unfold read_v1_certificate.
  assert (forall tag, Ends panics (skip_value tag)) by (intros; unfold skip_value; ends).
  apply ends_bind_result; [intros; lawful| |].
  - apply ends_nested. unfold read_v1_tbs, lenient_certificate_serial_number. ends.
  - intros o Ho. ends. by apply ends_mono.
Qed.

Lemma extract_trust_anchor_spec cert_der :
  match extract_trust_anchor cert_der with
  | Ok anchor =>
    (exists cert, Cert_from_der cert_der EndEntity = Ok cert /\
       anchor = {| ta_subject := subject cert; ta_subject_public_key_info := spki cert;
                   ta_name_constraints := name_constraints cert |}) \/
    (Cert_from_der cert_der EndEntity = Err UnsupportedCertVersion /\
     encodes_v1_certificate anchor cert_der)
  | Err e =>
    (Cert_from_der cert_der EndEntity = Err UnsupportedCertVersion /\ e = BadDer /\
     forall anchor, ~ encodes_v1_certificate anchor cert_der) \/
    (e <> UnsupportedCertVersion /\ Cert_from_der cert_der EndEntity = Err e)
  | Panic | OutOfFuel => False
  end.
Proof.
  unfold extract_trust_anchor. pose proof (ends_Cert_from_der False cert_der EndEntity).
  destruct (Cert_from_der cert_der EndEntity) as [cert|e| |]; [eauto| |done..].
  destruct (decide (e = UnsupportedCertVersion)) as [->|Hne].
  - pose proof (ends_v1_cert false cert_der).
    destruct (extract_trust_anchor_from_v1_cert_der cert_der) as [a|e| |] eqn:E; simpl; try done.
    + right. split; [done|]. by apply v1_cert_iff.
    + left. split_and!; [done|done|]. intros a Ha%v1_cert_iff. congruence.
  - destruct e; try done; by right.
Qed.
End TrustAnchorLemmas.

(** ** Properties *)
Section TrustAnchorProperties.
Context {U : Untrusted} {L : UntrustedLaws U}.

(** C33: A trust anchor is made from a certificate, with its subject, key and
    name constraints, or, when only the version is not supported, from exactly
    the encodings of a v1 certificate; the errors are the ones of the
    certificate, or [BadDer] when it is not a v1 certificate either. *)
Theorem trust_anchor_parse cert_der :
  match extract_trust_anchor cert_der with
  | Ok anchor =>
    (exists cert, Cert_from_der cert_der EndEntity = Ok cert /\
       anchor = {| ta_subject := subject cert; ta_subject_public_key_info := spki cert;
                   ta_name_constraints := name_constraints cert |}) \/
    (Cert_from_der cert_der EndEntity = Err UnsupportedCertVersion /\
     encodes_v1_certificate anchor cert_der)
  | Err e =>
    (Cert_from_der cert_der EndEntity = Err UnsupportedCertVersion /\ e = BadDer /\
     forall anchor, ~ encodes_v1_certificate anchor cert_der) \/
    (e <> UnsupportedCertVersion /\ Cert_from_der cert_der EndEntity = Err e)
  | Panic | OutOfFuel => False
  end.
Proof. apply extract_trust_anchor_spec. Qed.
End TrustAnchorProperties.

(** A v1 certificate: the same fields without version and extensions. *)
Definition sample_v1_cert : Input :=
  sample_signed
    (tlv (tag_u8 Integer) [x01] ++ der_sequence sample_sig_alg ++ der_sequence root_name
     ++ der_sequence sample_validity ++ der_sequence root_name
     ++ der_sequence (sample_spki root_key))
    root_key.

Lemma trust_anchor_parse_witness :
  exists anchor, encodes_v1_certificate anchor sample_v1_cert /\ ta_subject anchor = root_name.
Proof.
  pose proof (trust_anchor_parse (U := slice_reader) sample_v1_cert) as H.
  assert (exists anchor, extract_trust_anchor (U := slice_reader) sample_v1_cert = Ok anchor /\
    ta_subject anchor = root_name) as (anchor & E & Hs) by (eexists; split; [vm_compute; reflexivity|vm_compute; reflexivity]).
  rewrite E in H. exists anchor. split; [|done]. destruct H as [(cert & H & _)|[_ H]]; [|done].
  enough (Cert_from_der (U := slice_reader) sample_v1_cert EndEntity = Err UnsupportedCertVersion)
    by congruence.
  by vm_compute.
Defined.
