(* ===== verification/DnsName.v ===== *)
(** * [src/subject_name/dns_name.rs]: DNS names

    Syntactic validity of DNS identifiers and the comparison of a presented
    identifier with a reference identifier or a name constraint. *)
From S2P Require Import Prelude Errors Untrusted Samples.

(** ** Data *)
Inductive IdRole : Type := Reference | Presented | NameConstraint.
Inductive AllowWildcards : Type := No | Yes.

#[export] Instance id_role_eq_dec : EqDecision IdRole.
Proof. solve_decision. Defined.
#[export] Instance allow_wildcards_eq_dec : EqDecision AllowWildcards.
Proof. solve_decision. Defined.

Inductive InvalidDnsNameError : Type := InvalidDnsName.

(** The references wrap the bytes of the name; an owned [DnsName] wraps a
    [String], here its bytes. *)
Record DnsNameRef : Type := { dns_name_bytes : list u8 }.
Record WildcardDnsNameRef : Type := { wildcard_bytes : list u8 }.
Record DnsName : Type := { dns_name_string : list u8 }.
Inductive GeneralDnsNameRef : Type :=
  | GeneralDnsName (name : DnsNameRef)
  | GeneralWildcard (name : WildcardDnsNameRef).

(** [b + b'a' - b'A'] stays below 256 for [b] in the range. *)
Definition ascii_lower (b : u8) : u8 :=
  if u8_in "A" "Z" b then u8_of_Z (u8_to_Z b + u8_to_Z "a" - u8_to_Z "A") else b.

Definition MAX_LABEL_LENGTH : Z := 63.

(** The local variables of [is_valid_dns_id]. *)
Record label_state : Type := {
  dot_count : Z;
  label_length : Z;
  label_is_all_numeric : bool;
  label_ends_with_hyphen : bool;
  is_first_byte : bool;
}.

(** The [match input.read_byte()] of the loop; [None] is [return false]. *)
Definition dns_byte (id_role : IdRole) (b : option u8) (s : label_state)
    : option label_state :=
  match b with
  | None => None
  | Some b =>
    let label_length' := label_length s + 1 in
    if u8_eqb b "-" then
      if label_length s =? 0 then None
      else if MAX_LABEL_LENGTH <? label_length' then None
      else Some {| dot_count := dot_count s; label_length := label_length';
                   label_is_all_numeric := false; label_ends_with_hyphen := true;
                   is_first_byte := false |}
    else if u8_in "0" "9" b then
      if MAX_LABEL_LENGTH <? label_length' then None
      else Some {| dot_count := dot_count s; label_length := label_length';
                   label_is_all_numeric :=
                     if label_length s =? 0 then true else label_is_all_numeric s;
                   label_ends_with_hyphen := false;
                   is_first_byte := false |}
    else if u8_in "a" "z" b || u8_in "A" "Z" b || u8_eqb b "_" then
      if MAX_LABEL_LENGTH <? label_length' then None
      else Some {| dot_count := dot_count s; label_length := label_length';
                   label_is_all_numeric := false; label_ends_with_hyphen := false;
                   is_first_byte := false |}
    else if u8_eqb b "." then
      if (label_length s =? 0)
         && (negb (bool_decide (id_role = NameConstraint)) || negb (is_first_byte s))
      then None
      else if label_ends_with_hyphen s then None
      else Some {| dot_count := dot_count s + 1; label_length := 0;
                   label_is_all_numeric := label_is_all_numeric s;
                   label_ends_with_hyphen := label_ends_with_hyphen s;
                   is_first_byte := false |}
    else None
  end.

Section DnsName.
Context {U : Untrusted}.

Fixpoint dns_loop (fuel : nat) (id_role : IdRole) (input : Reader) (s : label_state)
    : outcome Error (option label_state) :=
  match fuel with
  | O => OutOfFuel
  | S fuel =>
    let '(b, input) := read_byte input in
    match dns_byte id_role b s with
    | None => Ok None
    | Some s => if at_end input then Ok (Some s) else dns_loop fuel id_role input s
    end
  end.

(** The tests after the loop. *)
Definition dns_final (id_role : IdRole) (is_wildcard : bool) (s : label_state) : bool :=
  if (label_length s =? 0) && negb (bool_decide (id_role = Reference)) then false
  else if label_ends_with_hyphen s then false
  else if label_is_all_numeric s then false
  else if is_wildcard then
    let label_count := if label_length s =? 0 then dot_count s else dot_count s + 1 in
    negb (label_count <? 3)
  else true.

Definition is_valid_dns_id (hostname : Input) (id_role : IdRole)
    (allow_wildcards : AllowWildcards) : outcome Error bool :=
  if 253 <? Z.of_nat (length hostname) then Ok false
  else
    let input := reader_new hostname in
    if bool_decide (id_role = NameConstraint) && at_end input then Ok true
    else
      let is_wildcard := bool_decide (allow_wildcards = Yes) && peek input "*" in
      let start := {| dot_count := 0; label_length := 0; label_is_all_numeric := false;
                      label_ends_with_hyphen := false;
                      is_first_byte := negb is_wildcard |} in
      let run (input : Reader) (s : label_state) :=
        let? s := dns_loop (S (length hostname)) id_role input s in
        match s with
        | None => Ok false
        | Some s => Ok (dns_final id_role is_wildcard s)
        end in
      if is_wildcard then
        let '(star, input) := read_byte input in
        if negb (bool_decide (star = Some "*"%byte)) then Ok false
        else
          let '(dot, input) := read_byte input in
          if negb (bool_decide (dot = Some "."%byte)) then Ok false
          else run input {| dot_count := 1; label_length := 0; label_is_all_numeric := false;
                            label_ends_with_hyphen := false; is_first_byte := false |}
      else run input start.

(** *** Matching *)

(** The loop over the label that a wildcard stands for; [None] is
    [return Ok(false)]. *)
Fixpoint skip_label (fuel : nat) (reference : Reader) : outcome Error (option Reader) :=
  match fuel with
  | O => OutOfFuel
  | S fuel =>
    let '(b, reference) := read_byte reference in
    match b with
    | None => Ok None
    | Some _ => if peek reference "." then Ok (Some reference) else skip_label fuel reference
    end
  end.

(** The loop that compares the bytes; [None] is [return Ok(false)]. *)
Fixpoint compare_loop (fuel : nat) (presented reference : Reader)
    : outcome Error (option (Reader * Reader)) :=
  match fuel with
  | O => OutOfFuel
  | S fuel =>
    let '(p, presented) := read_byte presented in
    let '(r, reference) := read_byte reference in
    match p, r with
    | Some p, Some r =>
      if u8_eqb (ascii_lower p) (ascii_lower r) then
        if at_end presented then
          if u8_eqb p "." then Err MalformedDnsIdentifier
          else Ok (Some (presented, reference))
        else compare_loop fuel presented reference
      else Ok None
    | _, _ => Ok None
    end
  end.

(** The first [match] on the role: [inl] is an early return. *)
Definition skip_prefix (presented_dns_id reference_dns_id : Input) (role : IdRole)
    (presented reference : Reader) : outcome Error (bool + Reader) :=
  match role with
  | Reference => Ok (inr presented)
  | Presented => Panic
  | NameConstraint =>
    let plen := Z.of_nat (length presented_dns_id) in
    let rlen := Z.of_nat (length reference_dns_id) in
    if rlen <? plen then
      if bool_decide (reference_dns_id = []) then Ok (inl true)
      else if peek reference "." then
        match skip presented (Z.to_N (plen - rlen)) with
        | (None, _) => Panic
        | (Some _, presented) => Ok (inr presented)
        end
      else
        match skip presented (Z.to_N (plen - rlen - 1)) with
        | (None, _) => Panic
        | (Some _, presented) =>
          let '(b, presented) := read_byte presented in
          if negb (bool_decide (b = Some "."%byte)) then Ok (inl false)
          else Ok (inr presented)
        end
    else Ok (inr presented)
  end.

(** The wildcard label: [None] is [return Ok(false)]. *)
Definition skip_wildcard (fuel : nat) (presented reference : Reader)
    : outcome Error (option (Reader * Reader)) :=
  if peek presented "*" then
    match skip presented 1 with
    | (None, _) => Panic
    | (Some _, presented) =>
      let? reference := skip_label fuel reference in
      Ok ((fun reference => (presented, reference)) <$> reference)
    end
  else Ok (Some (presented, reference)).

(** The end of the comparison: a relative presented identifier matches an
    absolute reference identifier; then the assertions. *)
Definition compare_end (role : IdRole) (presented reference : Reader) : outcome Error bool :=
  let rest :=
    if negb (at_end reference) then
      let after_dot :=
        if negb (bool_decide (role = NameConstraint)) then
          let '(b, reference) := read_byte reference in
          if bool_decide (b = Some "."%byte) then Some reference else None
        else Some reference in
      match after_dot with
      | None => None
      | Some reference => if negb (at_end reference) then None else Some reference
      end
    else Some reference in
  match rest with
  | None => Ok false
  | Some reference =>
    if negb (at_end presented) || negb (at_end reference) then Panic else Ok true
  end.

Definition presented_id_matches_reference_id_internal (presented_dns_id : Input)
    (reference_dns_id_role : IdRole) (reference_dns_id : Input) : outcome Error bool :=
  let? presented_valid := is_valid_dns_id presented_dns_id Presented Yes in
  if negb presented_valid then Err MalformedDnsIdentifier
  else
    let? reference_valid := is_valid_dns_id reference_dns_id reference_dns_id_role No in
    if negb reference_valid then
      Err (match reference_dns_id_role with
           | NameConstraint => MalformedNameConstraint
           | _ => MalformedDnsIdentifier
           end)
    else
      let reference := reader_new reference_dns_id in
      let? skipped :=
        skip_prefix presented_dns_id reference_dns_id reference_dns_id_role
          (reader_new presented_dns_id) reference in
      match skipped with
      | inl result => Ok result
      | inr presented =>
        let? skipped := skip_wildcard (S (length reference_dns_id)) presented reference in
        match skipped with
        | None => Ok false
        | Some (presented, reference) =>
          let? compared := compare_loop (S (length presented_dns_id)) presented reference in
          match compared with
          | None => Ok false
          | Some (presented, reference) =>
            compare_end reference_dns_id_role presented reference
          end
        end
      end.

Definition presented_id_matches_reference_id (presented_dns_id reference_dns_id : Input)
    : outcome Error bool :=
  presented_id_matches_reference_id_internal presented_dns_id Reference reference_dns_id.

Definition presented_id_matches_constraint (presented_dns_id reference_dns_id : Input)
    : outcome Error bool :=
  presented_id_matches_reference_id_internal presented_dns_id NameConstraint reference_dns_id.

(** *** Constructors *)
Definition DnsNameRef_try_from_ascii (dns_name : list u8)
    : outcome Error (DnsNameRef + InvalidDnsNameError) :=
  let? valid := is_valid_dns_id dns_name Reference No in
  if negb valid then Ok (inr InvalidDnsName) else Ok (inl {| dns_name_bytes := dns_name |}).

Definition WildcardDnsNameRef_try_from_ascii (dns_name : list u8)
    : outcome Error (WildcardDnsNameRef + InvalidDnsNameError) :=
  let? valid := is_valid_dns_id dns_name Reference Yes in
  if negb valid then Ok (inr InvalidDnsName) else Ok (inl {| wildcard_bytes := dns_name |}).

(** From a [&str], which is its bytes. *)
Definition DnsNameRef_try_from_ascii_str (dns_name : list u8)
    : outcome Error (DnsNameRef + InvalidDnsNameError) :=
  DnsNameRef_try_from_ascii dns_name.

Definition WildcardDnsNameRef_try_from_ascii_str (dns_name : list u8)
    : outcome Error (WildcardDnsNameRef + InvalidDnsNameError) :=
  WildcardDnsNameRef_try_from_ascii dns_name.
End DnsName.

(** [core::str::from_utf8(..).unwrap()] on the bytes of a reference. *)
Definition str_of_bytes {E} (bytes : list u8) : outcome E (list u8) :=
  match from_utf8 bytes with Some s => Ok s | None => Panic end.

Definition DnsNameRef_as_ref {E} (self : DnsNameRef) : outcome E (list u8) :=
  str_of_bytes (dns_name_bytes self).

(** [From<DnsNameRef> for &str]. *)
Definition DnsNameRef_str {E} (d : DnsNameRef) : outcome E (list u8) :=
  str_of_bytes (dns_name_bytes d).

Definition WildcardDnsNameRef_as_ref {E} (self : WildcardDnsNameRef) : outcome E (list u8) :=
  str_of_bytes (wildcard_bytes self).

(** [From<WildcardDnsNameRef> for &str]. *)
Definition WildcardDnsNameRef_str {E} (d : WildcardDnsNameRef) : outcome E (list u8) :=
  str_of_bytes (wildcard_bytes d).

Definition DnsNameRef_to_owned {E} (self : DnsNameRef) : outcome E DnsName :=
  let? s := DnsNameRef_as_ref self in
  Ok {| dns_name_string := map ascii_lower s |}.

Definition GeneralDnsNameRef_as_ref {E} (d : GeneralDnsNameRef) : outcome E (list u8) :=
  match d with
  | GeneralDnsName name => DnsNameRef_str name
  | GeneralWildcard name => WildcardDnsNameRef_str name
  end.

(** [AsRef<str> for DnsName]. *)
Definition DnsName_str (self : DnsName) : list u8 := dns_name_string self.

Definition DnsName_as_ref (self : DnsName) : DnsNameRef :=
  {| dns_name_bytes := dns_name_string self |}.

(** ** Reference definitions: names as lists of labels *)

(** The labels between the dots. *)
Fixpoint split_dots (l : list u8) : list (list u8) :=
  match l with
  | [] => [[]]
  | b :: l =>
    if u8_eqb b "." then [] :: split_dots l
    else
      match split_dots l with
      | [] => [[b]]
      | label :: labels => (b :: label) :: labels
      end
  end.

Definition label_char (b : u8) : bool :=
  u8_eqb b "-" || u8_in "0" "9" b || u8_in "a" "z" b || u8_in "A" "Z" b || u8_eqb b "_".

(** Letters, digits, hyphens and underscores, at most 63 of them, the first
    not a hyphen. *)
Definition label_prefix (label : list u8) : bool :=
  forallb label_char label && (length label <=? 63)%nat
  && negb (bool_decide (head label = Some "-"%byte)).

Definition ends_hyphen (label : list u8) : bool := bool_decide (last label = Some "-"%byte).

(** A label: not empty, and the last character not a hyphen either. *)
Definition valid_label (label : list u8) : bool :=
  label_prefix label && negb (bool_decide (label = [])) && negb (ends_hyphen label).

Definition all_digits (label : list u8) : bool := forallb (u8_in "0" "9") label.

(** The labels of a host name; the last one is not all numeric. *)
Definition host_labels (labels : list (list u8)) : Prop :=
  forallb valid_label labels = true /\
 exists label, last labels = Some label /\ all_digits label = false.

(** Reference identifiers may end in a dot. *)
Definition host_or_absolute (role : IdRole) (labels spelled : list (list u8)) : Prop :=
  spelled = labels \/ role = Reference /\ spelled = labels ++ [[]].

(** The syntax of an identifier in a role. *)
Definition dns_id_syntax (role : IdRole) (wildcards : AllowWildcards) (id : list u8) : Prop :=
  (length id <= 253)%nat /\
 (role = NameConstraint /\ id = [] \/
   exists labels, host_labels labels /\
    (host_or_absolute role labels (split_dots id) \/
      role = NameConstraint /\ split_dots id = [] :: labels \/
      wildcards = Yes /\ (2 <= length labels)%nat /\
     exists spelled, host_or_absolute role labels spelled /\
    split_dots id = ["*"%byte] :: spelled)).

(** Labels that are equal up to the case of ASCII letters. *)
Definition same_labels (a b : list (list u8)) : Prop :=
  map (map ascii_lower) a = map (map ascii_lower) b.

(** A presented name matches labels: equal to them, or [*] in place of the
    first one. *)
Definition presented_matches (presented labels : list (list u8)) : Prop :=
  same_labels presented labels \/
  exists rest label rest', presented = ["*"%byte] :: rest /\ labels = label :: rest' /\
   same_labels rest rest'.

(** What it means for a presented name to match a reference name. *)
Definition matches_reference (presented reference : list u8) : Prop :=
  exists labels, host_labels labels /\ host_or_absolute Reference labels (split_dots reference) /\
   presented_matches (split_dots presented) labels.

(** What it means to be in the subtree of a constraint: [labels] are those of
    the constraint without a leading dot, and a leading dot excludes the name
    itself. *)
Definition matches_constraint (presented constraint : list u8) : Prop :=
  constraint = [] \/
  exists labels, host_labels labels /\
   (split_dots constraint = labels \/ split_dots constraint = [] :: labels) /\
    ((exists more suffix, split_dots presented = more ++ suffix /\ same_labels suffix labels /\
    (more = [] -> split_dots constraint = labels)) \/
     (exists rest label rest', split_dots presented = ["*"%byte] :: rest /\
       labels = label :: rest' /\ same_labels rest rest')).

(** ** Lemmas: validity *)

(** The state of the loop inside the label [cur], after [d] dots. *)
Definition in_label (d : Z) (cur : list u8) (numeric first : bool) : label_state := {|
  dot_count := d;
  label_length := Z.of_nat (length cur);
  label_is_all_numeric := if bool_decide (cur = []) then numeric else all_digits cur;
  label_ends_with_hyphen := ends_hyphen cur;
  is_first_byte := first;
|}.

(** The loop on the list of the bytes. *)
Fixpoint dns_run (role : IdRole) (l : list u8) (s : label_state) : option label_state :=
  match l with
  | [] => Some s
  | b :: l =>
    match dns_byte role (Some b) s with None => None | Some s => dns_run role l s end
  end.

(** The loop on the list of the labels. *)
Fixpoint label_run (d : Z) (numeric : bool) (label : list u8) (labels : list (list u8))
    : option label_state :=
  match labels with
  | [] => if label_prefix label then Some (in_label d label numeric false) else None
  | next :: labels =>
    if valid_label label then label_run (d + 1) (all_digits label) next labels else None
  end.

Lemma length_zero_test (cur : list u8) :
  (Z.of_nat (length cur) =? 0) = bool_decide (cur = []).
Proof.
  by destruct cur.
Qed.

Lemma length_max_test (cur : list u8) b :
  (MAX_LABEL_LENGTH <? Z.of_nat (length cur) + 1) = negb (length (cur ++ [b]) <=? 63)%nat.
Proof.
  unfold MAX_LABEL_LENGTH. rewrite length_app. simpl.
  destruct (Nat.leb_spec (length cur + 1) 63), (Z.ltb_spec 63 (Z.of_nat (length cur) + 1));
    done || lia.
Qed.

Lemma label_prefix_snoc cur b : label_prefix cur = true ->
  label_prefix (cur ++ [b]) =
    label_char b && (length (cur ++ [b]) <=? 63)%nat
    && negb (bool_decide (cur = []) && u8_eqb b "-").
Proof.
  unfold label_prefix. rewrite !andb_true_iff. intros [[Hc Hl] Hh].
  rewrite forallb_app, Hc. simpl. rewrite andb_true_r. f_equal. destruct cur as [|c cur]; simpl.
  - f_equal. apply eq_bool_prop_intro. rewrite !Is_true_true, bool_decide_eq_true, u8_eqb_eq.
    split; [by intros [= ->]|by intros ->].
  - simpl in Hh. by rewrite Hh.
Qed.

Lemma all_digits_snoc cur b : all_digits (cur ++ [b]) = all_digits cur && u8_in "0" "9" b.
Proof. unfold all_digits. rewrite forallb_app. simpl. by rewrite andb_true_r. Qed.

Lemma ends_hyphen_snoc cur b : ends_hyphen (cur ++ [b]) = u8_eqb b "-".
Proof.
  unfold ends_hyphen. rewrite last_snoc. apply eq_bool_prop_intro.
  rewrite !Is_true_true, bool_decide_eq_true, u8_eqb_eq. split; [by intros [= ->]|by intros ->].
Qed.

Lemma in_label_snoc d cur b numeric :
  in_label d (cur ++ [b]) numeric false = {|
    dot_count := d; label_length := Z.of_nat (length cur) + 1;
    label_is_all_numeric := all_digits cur && u8_in "0" "9" b;
    label_ends_with_hyphen := u8_eqb b "-"; is_first_byte := false |}.
Proof.
  unfold in_label. rewrite length_app, bool_decide_eq_false_2 by (by destruct cur).
  rewrite all_digits_snoc, ends_hyphen_snoc. f_equal. simpl. lia.
Qed.

(** A character goes on with the label if that is a prefix of a label. *)
Lemma dns_byte_char role b d cur numeric first : b <> "."%byte -> label_prefix cur = true ->
  dns_byte role (Some b) (in_label d cur numeric first) =
    if label_prefix (cur ++ [b]) then Some (in_label d (cur ++ [b]) numeric false) else None.
Proof.
  intros Hb Hcur. rewrite label_prefix_snoc, in_label_snoc by done.
  unfold dns_byte, in_label. cbn [label_length dot_count label_is_all_numeric]. cbv zeta.
  rewrite length_zero_test, (length_max_test cur b). unfold label_char.
  apply u8_eqb_neq in Hb. rewrite Hb.
  destruct (u8_eqb b "-") eqn:E1.
  { apply u8_eqb_eq in E1 as ->. change (u8_in "0" "9" "-") with false.
    rewrite andb_false_r, andb_true_r. simpl.
    by destruct (bool_decide (cur = [])), (length (cur ++ ["-"%byte]) <=? 63)%nat. }
  rewrite andb_false_r, andb_true_r. destruct (u8_in "0" "9" b) eqn:E2.
  { simpl. rewrite andb_true_r.
    destruct (length (cur ++ [b]) <=? 63)%nat; simpl; [|done].
    unfold in_label. cbn [label_is_all_numeric]. by destruct cur. }
  rewrite andb_false_r. simpl.
  destruct (u8_in "a" "z" b || u8_in "A" "Z" b || u8_eqb b "_"); simpl; [|done].
  by destruct (length (cur ++ [b]) <=? 63)%nat.
Qed.

(** A dot ends a label. *)
Lemma dns_byte_dot role d cur numeric first : label_prefix cur = true ->
  dns_byte role (Some "."%byte) (in_label d cur numeric first) =
    if valid_label cur
       || bool_decide (cur = []) && bool_decide (role = NameConstraint) && first
    then Some (in_label (d + 1) []
                 (if bool_decide (cur = []) then numeric else all_digits cur) false)
    else None.
Proof.
  intros Hcur. unfold dns_byte, valid_label. rewrite Hcur.
  change (u8_eqb "." "-") with false. change (u8_in "0" "9" ".") with false.
  change (u8_in "a" "z" "." || u8_in "A" "Z" "." || u8_eqb "." "_") with false.
  rewrite u8_eqb_refl. unfold in_label.
  cbn [label_length label_ends_with_hyphen is_first_byte dot_count label_is_all_numeric].
  rewrite length_zero_test. destruct (bool_decide_reflect (cur = [])) as [->|Hne]; simpl.
  - by destruct (bool_decide (role = NameConstraint)), first.
  - destruct (ends_hyphen cur) eqn:E; simpl; done.
Qed.

Lemma split_dots_cons l : exists label labels, split_dots l = label :: labels.
Proof.
  induction l as [|b l (label & labels & IH)]; simpl; [eauto|].
  rewrite IH. case_match; eauto.
Qed.

Lemma label_prefix_app a b : label_prefix (a ++ b) = true -> label_prefix a = true.
Proof.
  unfold label_prefix. rewrite !andb_true_iff, forallb_app, length_app, !Nat.leb_le, andb_true_iff.
  intros [[[Ha _] Hl] Hh]. split_and!; [done|lia|]. by destruct a.
Qed.

Lemma valid_label_prefix label : valid_label label = true -> label_prefix label = true.
Proof. unfold valid_label. rewrite !andb_true_iff. tauto. Qed.

(** A run over labels whose first one is not the prefix of a label fails. *)
Lemma label_run_no_prefix d numeric label labels :
  label_prefix label = false -> label_run d numeric label labels = None.
Proof.
  intros H. destruct labels; simpl; [by rewrite H|]. case_match; [|done].
  apply valid_label_prefix in H0. congruence.
Qed.

Definition labels_run (d : Z) (numeric : bool) (cur : list u8) (labels : list (list u8))
    : option label_state :=
  match labels with [] => None | label :: labels => label_run d numeric (cur ++ label) labels end.

Lemma dns_run_labels role l : forall d cur numeric, label_prefix cur = true ->
  dns_run role l (in_label d cur numeric false) = labels_run d numeric cur (split_dots l).
Proof.
  induction l as [|b l IH]; intros d cur numeric Hcur.
  - simpl. by rewrite app_nil_r, Hcur.
  - cbn [dns_run split_dots]. destruct (u8_eqb b ".") eqn:Eb.
    + apply u8_eqb_eq in Eb as ->. rewrite dns_byte_dot by done.
      rewrite andb_false_r, orb_false_r. simpl. rewrite app_nil_r.
      destruct (split_dots_cons l) as (label & labels & Hl). rewrite Hl. simpl.
      destruct (valid_label cur) eqn:Hv; [|done]. rewrite IH, Hl by done. simpl.
      rewrite bool_decide_eq_false_2; [done|]. by intros ->.
    + apply u8_eqb_neq in Eb. rewrite dns_byte_char by done.
      destruct (split_dots_cons l) as (label & labels & Hl). rewrite Hl. simpl.
      rewrite (app_assoc cur [b] label : cur ++ b :: label = _).
      destruct (label_prefix (cur ++ [b])) eqn:Hp; [by rewrite IH, Hl|].
      rewrite label_run_no_prefix; [done|]. apply not_true_is_false.
      intros H%label_prefix_app. congruence.
Qed.

(** The first byte of a name: a name constraint may start with a dot. *)
Lemma dns_run_first role l numeric : l <> [] ->
  dns_run role l (in_label 0 [] numeric true) =
    match split_dots l with
    | [] :: labels =>
      if bool_decide (role = NameConstraint) then labels_run 1 numeric [] labels else None
    | labels => labels_run 0 numeric [] labels
    end.
Proof.
  intros Hl. destruct l as [|b l]; [done|]. cbn [dns_run split_dots].
  destruct (u8_eqb b ".") eqn:Eb.
  - apply u8_eqb_eq in Eb as ->. rewrite dns_byte_dot by done.
    change (valid_label []) with false. rewrite andb_true_r. simpl.
    destruct (bool_decide (role = NameConstraint)); [|done]. by apply dns_run_labels.
  - apply u8_eqb_neq in Eb. rewrite dns_byte_char by done. simpl.
    destruct (split_dots_cons l) as (label & labels & Hls). rewrite Hls. simpl.
    destruct (label_prefix [b]) eqn:Hp; [by rewrite dns_run_labels, Hls|].
    rewrite label_run_no_prefix; [done|]. apply not_true_is_false.
    intros H%(label_prefix_app [b]). congruence.
Qed.

(** *** The tests at the end *)
Definition last_numeric (numeric : bool) (labels : list (list u8)) : bool :=
  match last labels with None => numeric | Some label => all_digits label end.

Lemma last_numeric_cons numeric label labels :
  last_numeric numeric (label :: labels) = last_numeric (all_digits label) labels.
Proof. unfold last_numeric. rewrite last_cons. by destruct (last labels). Qed.

Definition final_run (role : IdRole) (wild : bool) (run : option label_state) : bool :=
  match run with None => false | Some s => dns_final role wild s end.

Lemma dns_final_iff role wild d label numeric :
  dns_final role wild (in_label d label numeric false) = true <->
  (label = [] -> role = Reference) /\ ends_hyphen label = false /\
  (if bool_decide (label = []) then numeric else all_digits label) = false /\
  (wild = true -> 3 <= if bool_decide (label = []) then d else d + 1).
Proof.
  unfold dns_final, in_label.
  cbn [label_length label_ends_with_hyphen dot_count label_is_all_numeric].
  rewrite length_zero_test. destruct (bool_decide_reflect (label = [])) as [Hl|Hl]; simpl;
    [destruct (bool_decide_reflect (role = Reference)) as [Hr|Hr]; simpl; [|naive_solver]|];
    (destruct (ends_hyphen label); [naive_solver|]);
    (case_match; [naive_solver|]); (destruct wild; [|naive_solver]);
    rewrite negb_true_iff, Z.ltb_ge; naive_solver.
Qed.

Lemma label_run_final role wild labels : forall d numeric label,
  final_run role wild (label_run d numeric label labels) = true <->
  exists names, host_or_absolute role names (label :: labels) /\
    forallb valid_label names = true /\ last_numeric numeric names = false /\
    (wild = true -> 3 <= d + Z.of_nat (length names)).
Proof.
  unfold host_or_absolute. induction labels as [|next labels IH]; intros d numeric label; simpl.
  - destruct (label_prefix label) eqn:Hp; simpl.
    + rewrite dns_final_iff. destruct (bool_decide_reflect (label = [])) as [->|Hne]; split.
      * intros (Hr & _ & Hn & Hw). exists []. simpl. rewrite Z.add_0_r. naive_solver.
      * intros (names & [<-|[-> Hnames]] & Hv & Hn & Hw); [done|].
        destruct names as [|n [|]]; simplify_eq/=. rewrite Z.add_0_r in Hw. done.
      * intros (_ & Hh & Hn & Hw). exists [label]. split; [by left|]. simpl.
        unfold valid_label. rewrite Hp, Hh, bool_decide_eq_false_2 by done. done.
      * intros (names & [<-|[-> Hnames]] & Hv & Hn & Hw).
        -- simpl in *. unfold valid_label in Hv. rewrite !andb_true_iff, !negb_true_iff in Hv.
           destruct Hv as [[[_ _] ?] _]. done.
        -- destruct names as [|n [|]]; simplify_eq/=.
    + split; [done|]. intros (names & [<-|[-> Hnames]] & Hv & _).
      * simpl in Hv. rewrite andb_true_r in Hv. apply valid_label_prefix in Hv. congruence.
      * destruct names as [|n [|]]; simplify_eq/=.
  - destruct (valid_label label) eqn:Hlab; [rewrite IH|]; split.
    + intros (names & Hn & Hv & Hl & Hw). exists (label :: names).
      rewrite last_numeric_cons. simpl. rewrite Hlab. split_and!; [|done|done|].
      * destruct Hn as [<-|[-> Hn]]; [by left|right]. split; [done|]. simpl. by rewrite Hn.
      * intros H. specialize (Hw H). lia.
    + intros (names & Hn & Hv & Hl & Hw).
      destruct names as [|n names]; [by destruct Hn as [?|[_ ?]]|].
      assert (n = label) as -> by (destruct Hn as [?|[_ ?]]; by simplify_eq/=).
      rewrite last_numeric_cons in Hl. simpl in Hv. rewrite Hlab in Hv.
      exists names. split_and!; [|done|done|].
      * destruct Hn as [?|[? ?]]; simplify_eq/=; naive_solver.
      * intros H. specialize (Hw H). simpl in Hw. lia.
    + done.
    + intros (names & Hn & Hv & _).
      destruct names as [|n names]; [by destruct Hn as [?|[_ ?]]|].
      assert (n = label) as -> by (destruct Hn as [?|[_ ?]]; by simplify_eq/=).
      simpl in Hv. by rewrite Hlab in Hv.
Qed.

(** *** Validity on bytes *)
Definition dns_valid (role : IdRole) (wildcards : AllowWildcards) (id : list u8) : bool :=
  if (253 <? length id)%nat then false
  else if bool_decide (role = NameConstraint) && bool_decide (id = []) then true
  else
    match id with
    | [] => false
    | b :: rest =>
      if bool_decide (wildcards = Yes) && u8_eqb b "*" then
        match rest with
        | c :: (_ :: _) as id =>
          u8_eqb c "." && final_run role true (dns_run role (tail rest) (in_label 1 [] false false))
        | _ => false
        end
      else final_run role false (dns_run role id (in_label 0 [] false true))
    end.

Section Validity.
Context {U : Untrusted} {L : UntrustedLaws U}.

Lemma dns_loop_eq role : forall fuel input l s,
  remaining input = l -> (length l < fuel)%nat ->
  dns_loop fuel role input s = Ok (match l with [] => None | _ => dns_run role l s end).
Proof.
  induction fuel as [|fuel IH]; intros input l s Hl Hf; [lia|]. simpl.
  destruct l as [|b l].
  - destruct (read_byte_nil _ Hl) as (r' & -> & _). done.
  - destruct (read_byte_cons _ _ _ Hl) as (r' & -> & Hr').
    cbn [dns_run]. destruct (dns_byte role (Some b) s) as [s'|]; [|done].
    rewrite at_end_spec, Hr'. destruct l as [|c l]; [done|].
    rewrite (IH r' (c :: l)) by (simpl in *; done || lia). done.
Qed.

Lemma bool_decide_Some_eqb (a b : u8) : bool_decide (Some a = Some b) = u8_eqb a b.
Proof.
  apply eq_bool_prop_intro. rewrite !Is_true_true, bool_decide_eq_true, u8_eqb_eq.
  split; [by intros [= ->]|by intros ->].
Qed.

Lemma is_valid_dns_id_eq id role wildcards :
  is_valid_dns_id id role wildcards = Ok (dns_valid role wildcards id).
Proof.
  unfold is_valid_dns_id, dns_valid.
  replace (253 <? Z.of_nat (length id)) with (253 <? length id)%nat.
  2: { destruct (Nat.ltb_spec 253 (length id)), (Z.ltb_spec 253 (Z.of_nat (length id)));
       done || lia. }
  destruct (253 <? length id)%nat; [done|].
  rewrite at_end_spec, remaining_new.
  replace (match id with [] => true | _ => false end) with (bool_decide (id = []))
    by (by destruct id).
  destruct (bool_decide (role = NameConstraint) && bool_decide (id = [])); [done|].
  rewrite peek_spec, remaining_new.
  change {| dot_count := 1; label_length := 0; label_is_all_numeric := false;
            label_ends_with_hyphen := false; is_first_byte := false |}
    with (in_label 1 [] false false).
  destruct id as [|b rest].
  { rewrite andb_false_r. rewrite (dns_loop_eq role _ _ []) by (rewrite ?remaining_new; simpl; done || lia).
    done. }
  destruct (bool_decide (wildcards = Yes) && u8_eqb b "*") eqn:Ew.
  - apply andb_true_iff in Ew as [_ ->%u8_eqb_eq].
    destruct (read_byte_cons (reader_new ("*"%byte :: rest)) _ _ (remaining_new _))
      as (r1 & -> & H1).
    rewrite bool_decide_eq_true_2 by done. cbn [negb].
    destruct rest as [|c rest].
    + destruct (read_byte_nil _ H1) as (r2 & -> & _). done.
    + destruct (read_byte_cons _ _ _ H1) as (r2 & -> & H2).
      rewrite bool_decide_Some_eqb.
      destruct (u8_eqb c ".") eqn:Ec; cbn [negb andb]; [|by destruct rest].
      rewrite (dns_loop_eq role _ _ rest) by (done || (simpl; lia)).
      destruct rest as [|c' rest]; [done|]. cbn [obind tail final_run].
      by destruct (dns_run role _ _).
  - change {| dot_count := 0; label_length := 0; label_is_all_numeric := false;
            label_ends_with_hyphen := false; is_first_byte := negb false |}
      with (in_label 0 [] false true).
    rewrite (dns_loop_eq role _ _ (b :: rest)) by (rewrite ?remaining_new; simpl; done || lia).
    cbn [obind]. by destruct (dns_run role _ _).
Qed.
End Validity.

(** The first test of the labels when there are names. *)
Lemma host_labels_iff names :
  host_labels names <-> names <> [] /\ forallb valid_label names = true /\
                        last_numeric false names = false.
Proof.
  unfold host_labels, last_numeric. destruct names as [|n names]; [simpl; naive_solver|].
  destruct (last_is_Some (n :: names)) as [_ H]. destruct (H ltac:(done)) as [l ->].
  naive_solver.
Qed.

Lemma split_dots_nonempty l : l <> [] -> split_dots l <> [[]].
Proof.
  destruct l as [|b l]; [done|]. intros _. simpl.
  destruct (split_dots_cons l) as (x & y & ->). by case_match.
Qed.

(** Names spelled by labels. *)
Lemma final_labels_run role wild d ls : ls <> [] -> (ls = [[]] -> role <> Reference) ->
  final_run role wild (labels_run d false [] ls) = true <->
  exists names, host_labels names /\ host_or_absolute role names ls /\
    (wild = true -> 3 <= d + Z.of_nat (length names)).
Proof.
  intros Hne Hr. destruct ls as [|label ls]; [done|]. cbn [labels_run app].
  rewrite label_run_final. split.
  - intros (names & Hn & Hv & Hl & Hw). exists names. rewrite host_labels_iff.
    split_and!; try done. intros ->. destruct Hn as [?|[? ?]]; [done|]. by apply Hr.
  - intros (names & (_ & Hv & Hl)%host_labels_iff & Hn & Hw). eauto.
Qed.

Lemma host_labels_head label names : host_labels (label :: names) -> valid_label label = true.
Proof. intros (_ & H & _)%host_labels_iff. simpl in H. by apply andb_true_iff in H as [? _]. Qed.

Lemma host_or_absolute_head role names label ls : host_labels names ->
  host_or_absolute role names (label :: ls) -> valid_label label = true.
Proof.
  intros Hn [Hs|[_ Hs]]; destruct names as [|n names]; simplify_eq/=;
    try (by apply host_labels_head in Hn); by apply host_labels_iff in Hn as [? _].
Qed.

Lemma star_not_label x : valid_label ("*"%byte :: x) = false.
Proof. done. Qed.

Lemma empty_not_label : valid_label [] = false.
Proof. done. Qed.

Lemma host_or_absolute_nonempty role names ls : host_labels names ->
  host_or_absolute role names ls -> ls <> [[]] /\ ls <> [].
Proof.
  intros Hn Hs. destruct ls as [|label ls].
  - apply host_labels_iff in Hn as (? & _). by destruct Hs as [<-|[_ ?%symmetry%app_nil]]; [|naive_solver].
  - split; [|done]. intros [= -> ->]. by apply host_or_absolute_head in Hs.
Qed.

Lemma dns_valid_plain role wildcards id : id <> [] ->
  bool_decide (wildcards = Yes) && bool_decide (head id = Some "*"%byte) = false ->
  final_run role false (dns_run role id (in_label 0 [] false true)) = true <->
  exists labels, host_labels labels /\
     (host_or_absolute role labels (split_dots id) \/
      role = NameConstraint /\ split_dots id = [] :: labels \/
      wildcards = Yes /\ (2 <= length labels)%nat /\
      exists spelled, host_or_absolute role labels spelled /\
                      split_dots id = ["*"%byte] :: spelled).
Proof.
  intros Hid Hstar. rewrite dns_run_first by done.
  pose proof (split_dots_nonempty id Hid) as Hne.
  destruct (split_dots_cons id) as (label & ls & Hs). rewrite Hs in Hne |- *.
  assert (wildcards = Yes -> ["*"%byte] <> label) as Hnostar.
  { intros Hw <-. rewrite bool_decide_eq_true_2 in Hstar by done. simpl in Hstar.
    apply bool_decide_eq_false in Hstar. apply Hstar. destruct id as [|b id]; [done|].
    simpl in Hs. destruct (u8_eqb b "."); [done|].
    destruct (split_dots_cons id) as (x & y & Hxy). rewrite Hxy in Hs. by simplify_eq. }
  destruct label as [|c label].
  - transitivity (role = NameConstraint /\ exists labels, host_labels labels /\ ls = labels).
    + destruct (bool_decide_reflect (role = NameConstraint)) as [->|Hr]; [|naive_solver].
      rewrite final_labels_run by (done || (by intros ->)). unfold host_or_absolute. naive_solver.
    + split; [naive_solver|]. intros (labels & Hl & [Hh|[[-> [= ->]]|(_ & _ & sp & _ & ?)]]);
        [|by eauto|done].
      by apply host_or_absolute_head in Hh.
  - rewrite final_labels_run by done. split; [naive_solver|].
    intros (labels & Hl & [Hh|[[_ ?]|(Hw & _ & sp & _ & [= -> -> ->])]]); [|done|].
    + exists labels. done.
    + by destruct (Hnostar Hw).
Qed.

Lemma dns_valid_wild role c rest :
  match c :: rest with
  | c :: (_ :: _) as id =>
    u8_eqb c "." && final_run role true (dns_run role rest (in_label 1 [] false false))
  | _ => false
  end = true <->
  exists labels, host_labels labels /\ (2 <= length labels)%nat /\
    exists spelled, host_or_absolute role labels spelled /\
                    split_dots ("*"%byte :: c :: rest) = ["*"%byte] :: spelled.
Proof.
  simpl. destruct (u8_eqb c ".") eqn:Ec; simpl.
  - destruct rest as [|c' rest].
    + split; [done|]. intros (labels & Hl & _ & sp & Hs & [= <-]).
      by apply host_or_absolute_head in Hs.
    + rewrite dns_run_labels, final_labels_run; [..|done].
      * split.
        -- intros (names & Hn & Hs & Hw). specialize (Hw eq_refl).
           exists names. split_and!; [done|lia|eauto].
        -- intros (names & Hn & Hw & sp & Hs & [= <-]). exists names.
           split_and!; [done|done|lia].
      * by destruct (split_dots_cons (c' :: rest)) as (? & ? & ->).
      * intros H. by apply split_dots_nonempty in H.
  - destruct (split_dots_cons rest) as (x & y & Hx). rewrite Hx. split.
    + by destruct rest.
    + by intros (labels & _ & _ & sp & _ & ?).
Qed.

(** The validity test decides the syntax of identifiers. *)
Lemma dns_valid_iff role wildcards id :
  dns_valid role wildcards id = true <-> dns_id_syntax role wildcards id.
Proof.
  unfold dns_valid, dns_id_syntax.
  destruct (Nat.ltb_spec 253 (length id)) as [Hlen|Hlen]; [split; [done|lia]|].
  destruct (bool_decide_reflect (role = NameConstraint /\ id = [])) as [[-> ->]|Hnc].
  { split; [by auto|done]. }
  replace (bool_decide (role = NameConstraint) && bool_decide (id = [])) with false.
  2: { symmetry. apply not_true_is_false. rewrite andb_true_iff, !bool_decide_eq_true. done. }
  assert (forall P Q : Prop, (P <-> Q) -> P <-> (length id <= 253)%nat /\
            (role = NameConstraint /\ id = [] \/ Q)) as Hskip by (intros; tauto).
  apply Hskip. clear Hskip. destruct id as [|b rest].
  { split; [done|]. intros (labels & Hl & [Hh|[[-> ?]|(_ & _ & sp & _ & ?)]]); [|naive_solver|done].
    by apply host_or_absolute_head in Hh. }
  destruct (bool_decide (wildcards = Yes) && u8_eqb b "*") eqn:Ew.
  - apply andb_true_iff in Ew as [->%bool_decide_eq_true ->%u8_eqb_eq].
    transitivity (exists labels, host_labels labels /\ (2 <= length labels)%nat /\
      exists spelled, host_or_absolute role labels spelled /\
                    split_dots ("*"%byte :: rest) = ["*"%byte] :: spelled).
    + destruct rest as [|c rest]; [|by apply dns_valid_wild].
      split; [done|]. intros (labels & Hl & _ & sp & Hs & [= <-]).
      by destruct (host_or_absolute_nonempty _ _ _ Hl Hs).
    + split; [naive_solver|]. intros (labels & Hl & [Hh|[[_ Hh]|Hh]]); [| |naive_solver];
        exfalso; simpl in Hh; destruct (split_dots_cons rest) as (x & y & Hx);
        rewrite Hx in Hh; [by apply host_or_absolute_head in Hh|done].
  - apply dns_valid_plain; [done|]. simpl. by rewrite bool_decide_Some_eqb.
Qed.

(** ** Lemmas: labels and bytes *)
Abbreviation lower := (map ascii_lower).

Fixpoint join_dots (labels : list (list u8)) : list u8 :=
  match labels with
  | [] => []
  | label :: labels =>
    match labels with [] => label | _ => label ++ "."%byte :: join_dots labels end
  end.

Lemma ascii_lower_dot b : u8_eqb (ascii_lower b) "." = u8_eqb b ".".
Proof. by destruct b. Qed.

Lemma join_cons label labels : labels <> [] ->
  join_dots (label :: labels) = label ++ "."%byte :: join_dots labels.
Proof. by destruct labels. Qed.

Lemma join_app a b : a <> [] -> b <> [] ->
  join_dots (a ++ b) = join_dots a ++ "."%byte :: join_dots b.
Proof.
  intros Ha Hb. induction a as [|x a IH]; [done|]. cbn [app].
  destruct a as [|y a]; [by apply join_cons|].
  rewrite !join_cons, IH by (by destruct b || done). by rewrite <- app_assoc.
Qed.

Lemma split_not_nil l : split_dots l <> [].
Proof. by destruct (split_dots_cons l) as (? & ? & ->). Qed.

Lemma join_split l : join_dots (split_dots l) = l.
Proof.
  induction l as [|b l IH]; [done|]. simpl. destruct (u8_eqb b ".") eqn:Eb.
  - apply u8_eqb_eq in Eb as ->. rewrite join_cons by apply split_not_nil. by rewrite IH.
  - destruct (split_dots_cons l) as (x & y & Hxy). rewrite Hxy in IH |- *.
    rewrite <- IH. by destruct y.
Qed.

Lemma split_dots_app a b : split_dots (a ++ "."%byte :: b) = split_dots a ++ split_dots b.
Proof.
  induction a as [|c a IH]; [done|]. simpl. rewrite IH.
  destruct (u8_eqb c "."); [done|].
  by destruct (split_dots_cons a) as (x & y & ->).
Qed.

Lemma lower_split l : split_dots (lower l) = map lower (split_dots l).
Proof.
  induction l as [|b l IH]; [done|]. simpl. rewrite ascii_lower_dot, IH.
  destruct (u8_eqb b "."); [done|].
  by destruct (split_dots_cons l) as (x & y & ->).
Qed.

Lemma lower_join ls : lower (join_dots ls) = join_dots (map lower ls).
Proof.
  induction ls as [|x ls IH]; [done|]. destruct ls as [|y ls]; [done|].
  rewrite join_cons, map_app by done. simpl. simpl in IH. rewrite IH. done.
Qed.

Lemma same_labels_split p r :
  same_labels (split_dots p) (split_dots r) <-> lower p = lower r.
Proof.
  unfold same_labels. rewrite <- !lower_split. split; [|by intros ->].
  intros H. by rewrite <- (join_split (lower p)), H, join_split.
Qed.

Lemma same_labels_length a b : same_labels a b -> length (join_dots a) = length (join_dots b).
Proof.
  intros H. rewrite <- (length_map ascii_lower (join_dots a)), lower_join, H, <- lower_join.
  apply length_map.
Qed.

Lemma same_labels_nil b : same_labels [] b <-> b = [].
Proof. unfold same_labels. split; [by destruct b|by intros ->]. Qed.

Lemma same_labels_cons x a y b :
  same_labels (x :: a) (y :: b) <-> lower x = lower y /\ same_labels a b.
Proof. unfold same_labels. simpl. split; [by intros [= ? ?]|]. by intros [-> ->]. Qed.

Lemma lower_nil x : lower x = [] <-> x = [].
Proof. split; [by destruct x|by intros ->]. Qed.

(** A label without dots. *)
Lemma split_no_dot x : Forall (fun c => u8_eqb c "." = false) x -> split_dots x = [x].
Proof. induction 1 as [|c x Hc _ IH]; [done|]. simpl. by rewrite Hc, IH. Qed.

(** The characters of valid labels are not stars. *)
Lemma valid_label_no_star label : valid_label label = true ->
  Forall (fun c => u8_eqb c "*" = false) label.
Proof.
  intros H%valid_label_prefix. unfold label_prefix in H.
  rewrite !andb_true_iff in H. destruct H as [[H _] _]. rewrite forallb_forall in H.
  apply Forall_forall. intros c Hc%list_elem_of_In. specialize (H c Hc). by destruct c.
Qed.

Lemma no_star ls : forallb valid_label ls = true ->
  Forall (fun c => u8_eqb c "*" = false) (join_dots ls).
Proof.
  induction ls as [|x ls IH]; intros H; [by constructor|].
  apply andb_true_iff in H as [Hx Hls]. apply valid_label_no_star in Hx.
  destruct ls as [|y ls]; [done|]. rewrite join_cons by done.
  apply Forall_app; split; [done|]. constructor; [done|]. by apply IH.
Qed.

(** The labels of a valid presented identifier. *)
Lemma presented_syntax wildcards p : dns_id_syntax Presented wildcards p ->
  p <> [] /\
  (host_labels (split_dots p) \/
   exists rest, p = "*"%byte :: "."%byte :: rest /\ host_labels (split_dots rest)).
Proof.
  intros [_ [[? _]|(names & Hn & [[<-|[? _]]|[[? _]|(_ & _ & sp & [->|[? _]] & Hsp)]])]]; try done.
  - split; [intros ->|by left]. by apply host_labels_head in Hn.
  - assert (names <> []) as Hne by (by apply host_labels_iff in Hn as [? _]).
    assert (p = "*"%byte :: "."%byte :: join_dots names) as ->.
    { rewrite <- (join_split p), Hsp. by apply (join_cons ["*"%byte]). }
    split; [done|]. right. exists (join_dots names). split; [done|].
    change (["*"%byte] :: split_dots (join_dots names) = ["*"%byte] :: names) in Hsp.
    injection Hsp as Hsp. by rewrite Hsp.
Qed.

(** A presented identifier ends in a character of a label. *)
Lemma host_labels_last_dot p : host_labels (split_dots p) -> last p <> Some "."%byte.
Proof.
  intros (_ & Hv & _)%host_labels_iff Hl.
  destruct (last_Some p "."%byte) as [H _]. destruct (H Hl) as [a ->].
  rewrite (split_dots_app a [] : split_dots (a ++ ["."%byte]) = _) in Hv.
  rewrite forallb_app in Hv. apply andb_true_iff in Hv as [_ Hv]. done.
Qed.

(** *** The comparison on bytes *)
Fixpoint skip_label_bytes (l : list u8) : option (list u8) :=
  match l with
  | [] => None
  | _ :: t =>
    if match t with [] => false | c :: _ => u8_eqb c "." end then Some t
    else skip_label_bytes t
  end.

Fixpoint compare_bytes (p r : list u8) : outcome Error (option (list u8)) :=
  match p, r with
  | a :: p, b :: r =>
    if u8_eqb (ascii_lower a) (ascii_lower b) then
      match p with
      | [] => if u8_eqb a "." then Err MalformedDnsIdentifier else Ok (Some r)
      | _ => compare_bytes p r
      end
    else Ok None
  | _, _ => Ok None
  end.

(** Equal up to case, or up to a trailing dot of a reference identifier. *)
Definition same_or_absolute (role : IdRole) (p r : list u8) : Prop :=
  lower p = lower r \/ role <> NameConstraint /\ lower (p ++ ["."%byte]) = lower r.

Section Comparison.
Context {U : Untrusted} {L : UntrustedLaws U}.

Lemma skip_label_eq : forall fuel reference l, remaining reference = l ->
  (length l < fuel)%nat ->
  match skip_label_bytes l with
  | None => skip_label fuel reference = Ok None
  | Some t => exists r', skip_label fuel reference = Ok (Some r') /\ remaining r' = t
  end.
Proof.
  induction fuel as [|fuel IH]; intros reference l Hl Hf; [lia|]. cbn [skip_label].
  destruct l as [|b t]; cbn [skip_label_bytes].
  - by destruct (read_byte_nil _ Hl) as (r' & -> & _).
  - destruct (read_byte_cons _ _ _ Hl) as (r' & -> & Hr'). rewrite peek_spec, Hr'.
    destruct (match t with [] => false | c :: _ => u8_eqb c "." end); [by eauto|].
    apply IH; [done|simpl in Hf; lia].
Qed.

Lemma compare_loop_eq : forall fuel presented reference p r,
  remaining presented = p -> remaining reference = r -> (length p < fuel)%nat ->
  match compare_bytes p r with
  | Ok (Some t) => exists p' r', compare_loop fuel presented reference = Ok (Some (p', r')) /\
                     remaining p' = [] /\ remaining r' = t
  | Ok None => compare_loop fuel presented reference = Ok None
  | Err e => compare_loop fuel presented reference = Err e
  | _ => False
  end.
Proof.
  induction fuel as [|fuel IH]; intros presented reference p r Hp Hr Hf; [lia|].
  cbn [compare_loop]. destruct p as [|a p]; cbn [compare_bytes].
  { destruct (read_byte_nil _ Hp) as (p' & -> & _). by destruct (read_byte reference). }
  destruct (read_byte_cons _ _ _ Hp) as (p' & -> & Hp'). destruct r as [|b r].
  { by destruct (read_byte_nil _ Hr) as (r' & -> & _). }
  destruct (read_byte_cons _ _ _ Hr) as (r' & -> & Hr').
  destruct (u8_eqb (ascii_lower a) (ascii_lower b)); [|done].
  rewrite at_end_spec, Hp'. destruct p as [|c p].
  - destruct (u8_eqb a "."); [done|]. eauto 6.
  - apply IH; [done|done|simpl in *; lia].
Qed.

Lemma compare_end_eq role presented reference r :
  remaining presented = [] -> remaining reference = r ->
  compare_end role presented reference =
    Ok (bool_decide (r = [] \/ role <> NameConstraint /\ r = ["."%byte])).
Proof.
  intros Hp Hr. unfold compare_end. rewrite !(at_end_spec reference), Hr.
  destruct r as [|b r].
  { cbn [negb]. rewrite !at_end_spec, Hp, Hr. cbn [negb orb].
    by rewrite bool_decide_eq_true_2 by (by left). }
  cbn [negb]. destruct (bool_decide_reflect (role = NameConstraint)) as [Hn|Hn]; cbn [negb].
  { rewrite at_end_spec, Hr. cbn [negb].
    rewrite bool_decide_eq_false_2; [done|]. naive_solver. }
  destruct (read_byte_cons _ _ _ Hr) as (r' & -> & Hr'). rewrite bool_decide_Some_eqb.
  destruct (u8_eqb b ".") eqn:Eb.
  - apply u8_eqb_eq in Eb as ->. rewrite at_end_spec, Hr'. destruct r as [|c r]; cbn [negb].
    + rewrite !at_end_spec, Hr', Hp. cbn [negb orb]. rewrite bool_decide_eq_true_2 by naive_solver. done.
    + rewrite bool_decide_eq_false_2; [done|]. naive_solver.
  - rewrite bool_decide_eq_false_2; [done|]. apply u8_eqb_neq in Eb. naive_solver.
Qed.
End Comparison.

(** The comparison of a name that does not end in a dot. *)
Lemma compare_bytes_eq : forall p r, p <> [] -> last p <> Some "."%byte ->
  compare_bytes p r =
    Ok (if bool_decide (lower p = take (length p) (lower r))
        then Some (drop (length p) r) else None).
Proof.
  induction p as [|a p IH]; intros r Hne Hlast; [done|].
  destruct r as [|b r]; [by rewrite bool_decide_eq_false_2|].
  cbn [compare_bytes length drop map take].
  destruct (u8_eqb (ascii_lower a) (ascii_lower b)) eqn:Eab.
  - apply u8_eqb_eq in Eab. rewrite Eab. destruct p as [|c p].
    + replace (u8_eqb a ".") with false; [by rewrite bool_decide_eq_true_2|].
      symmetry. apply u8_eqb_neq. by intros ->.
    + rewrite IH by done. f_equal.
      rewrite (bool_decide_ext (ascii_lower b :: _ = _) (lower (c :: p) = take (length (c :: p)) (lower r)));
        [done|]. split; [by intros [= ?]|by intros ->].
  - rewrite bool_decide_eq_false_2; [done|]. apply u8_eqb_neq in Eab. by intros [= ? _].
Qed.

(** The comparison and its end: the names are equal, or equal up to the dot. *)
Lemma take_drop_dot role (p r : list u8) :
  lower p = take (length p) (lower r) /\
  (drop (length p) r = [] \/ role <> NameConstraint /\ drop (length p) r = ["."%byte]) <->
  same_or_absolute role p r.
Proof.
  unfold same_or_absolute. split.
  - intros [Hp [Hd|[Hn Hd]]]; [left|right; split; [done|]].
    + rewrite Hp, firstn_map, take_ge; [done|].
      apply (f_equal length) in Hd. rewrite length_drop in Hd. simpl in Hd. lia.
    + transitivity (lower (take (length p) r ++ drop (length p) r)); [|by rewrite take_drop].
      by rewrite !map_app, Hp, firstn_map, Hd.
  - intros [H|[Hn H]].
    + assert (length p = length r) as Hl.
      { apply (f_equal length) in H. by rewrite !length_map in H. }
      rewrite Hl, H. rewrite take_ge by (by rewrite length_map). rewrite drop_ge by done. auto.
    + rewrite map_app in H.
      assert (length r = length p + 1)%nat as Hl.
      { apply (f_equal length) in H. rewrite length_app, !length_map in H. simpl in H. lia. }
      rewrite <- H, take_app_length' by (by rewrite length_map). split; [done|]. right.
      split; [done|]. apply (f_equal (drop (length p))) in H.
      rewrite drop_app_length', skipn_map in H by (by rewrite length_map).
      destruct (drop (length p) r) as [|c [|d t]]; simplify_eq/=.
      do 2 f_equal. apply u8_eqb_eq. rewrite <- ascii_lower_dot, <- H. done.
Qed.

#[export] Instance same_or_absolute_dec role p r : Decision (same_or_absolute role p r).
Proof. unfold same_or_absolute. apply _. Defined.

(** The comparison after the prefix was skipped, on bytes. *)
Definition matches_bytes (role : IdRole) (p r : list u8) : bool :=
  match p with
  | x2a :: p' =>
    match skip_label_bytes r with
    | None => false
    | Some t => bool_decide (same_or_absolute role p' t)
    end
  | _ => bool_decide (same_or_absolute role p r)
  end.

Lemma matches_bytes_no_star role p r : head p <> Some "*"%byte ->
  matches_bytes role p r = bool_decide (same_or_absolute role p r).
Proof. intros H. destruct p as [|b p]; [done|]. by destruct b. Qed.

Section Matching.
Context {U : Untrusted} {L : UntrustedLaws U}.

Definition compare_rest (role : IdRole) (fuel : nat) (presented reference : Reader)
    : outcome Error bool :=
  let? compared := compare_loop fuel presented reference in
  match compared with
  | None => Ok false
  | Some (presented, reference) => compare_end role presented reference
  end.

Lemma compare_rest_eq role fuel presented reference p r :
  remaining presented = p -> remaining reference = r -> (length p < fuel)%nat ->
  p <> [] -> last p <> Some "."%byte ->
  compare_rest role fuel presented reference = Ok (bool_decide (same_or_absolute role p r)).
Proof.
  intros Hp Hr Hf Hne Hlast. unfold compare_rest.
  pose proof (compare_loop_eq fuel presented reference p r Hp Hr Hf) as H.
  rewrite compare_bytes_eq in H by done.
  rewrite <- (bool_decide_ext _ _ (take_drop_dot role p r)).
  destruct (bool_decide_reflect (lower p = take (length p) (lower r))) as [Hlow|Hlow].
  - destruct H as (p' & r' & -> & Hp' & Hr'). simpl.
    rewrite (compare_end_eq _ _ _ _ Hp' Hr'). f_equal. apply bool_decide_ext. tauto.
  - rewrite H. simpl. rewrite bool_decide_eq_false_2; [done|]. tauto.
Qed.

Lemma matches_bytes_eq role fuel fuel' presented reference p r :
  remaining presented = p -> remaining reference = r ->
  (length p < fuel)%nat -> (length r < fuel')%nat ->
  p <> [] -> last p <> Some "."%byte -> p <> ["*"%byte] ->
  (let? skipped := skip_wildcard fuel' presented reference in
   match skipped with
   | None => Ok false
   | Some (presented, reference) => compare_rest role fuel presented reference
   end) = Ok (matches_bytes role p r).
Proof.
  intros Hp Hr Hf Hf' Hne Hlast Hstar. unfold skip_wildcard. rewrite peek_spec, Hp.
  destruct p as [|b p]; [done|]. destruct (u8_eqb b "*") eqn:Eb.
  - apply u8_eqb_eq in Eb as ->. cbn [matches_bytes].
    destruct (skip_ok presented 1) as (p' & -> & Hp'); [rewrite Hp; simpl; lia|].
    rewrite Hp in Hp'. change (drop _ _) with p in Hp'.
    pose proof (skip_label_eq fuel' reference r Hr Hf') as Hs.
    destruct (skip_label_bytes r) as [t|]; [|by rewrite Hs].
    destruct Hs as (r' & -> & Hr'). cbn [obind fmap option_fmap option_map].
    apply compare_rest_eq; [done|done|simpl in Hf; lia|by intros ->|].
    intros H. apply Hlast. rewrite last_cons. by rewrite H.
  - apply u8_eqb_neq in Eb. cbn [obind].
    rewrite matches_bytes_no_star by (by intros [= ->]). by apply compare_rest_eq.
Qed.
End Matching.

(** The presented name after the prefix of a name constraint: [inl] is the
    result of an early return. *)
Definition skip_prefix_bytes (role : IdRole) (p r : list u8) : bool + list u8 :=
  if bool_decide (role = NameConstraint) && (length r <? length p)%nat then
    if bool_decide (r = []) then inl true
    else if bool_decide (head r = Some "."%byte) then inr (drop (length p - length r) p)
    else
      let p := drop (length p - length r - 1) p in
      if bool_decide (head p = Some "."%byte) then inr (tail p) else inl false
  else inr p.

Definition matches_valid (role : IdRole) (p r : list u8) : bool :=
  match skip_prefix_bytes role p r with
  | inl result => result
  | inr p => matches_bytes role p r
  end.

Lemma last_drop {A} n (l : list A) : (n < length l)%nat -> last (drop n l) = last l.
Proof.
  revert l. induction n as [|n IH]; intros l Hn; [done|]. destruct l as [|x l]; [done|].
  simpl in Hn |- *. rewrite IH by lia. rewrite last_cons. destruct (last l) eqn:E; [done|].
  apply last_None in E as ->. simpl in Hn. lia.
Qed.

Section MatchingEq.
Context {U : Untrusted} {L : UntrustedLaws U}.

Lemma skip_prefix_eq role p r presented reference :
  role <> Presented -> remaining presented = p -> remaining reference = r ->
  match skip_prefix_bytes role p r with
  | inl b => skip_prefix p r role presented reference = Ok (inl b)
  | inr q => exists r', skip_prefix p r role presented reference = Ok (inr r') /\
               remaining r' = q
  end.
Proof.
  intros Hrole Hp Hr. unfold skip_prefix, skip_prefix_bytes.
  destruct role; [simpl; eauto|done|]. rewrite bool_decide_eq_true_2 by done. cbn [andb].
  destruct (Nat.ltb_spec (length r) (length p)) as [Hl|Hl],
    (Z.ltb_spec (Z.of_nat (length r)) (Z.of_nat (length p))); try lia; [|by eauto].
  destruct (bool_decide_reflect (r = [])) as [|Hne]; [done|].
  rewrite peek_spec, Hr.
  replace (match r with [] => false | c :: _ => u8_eqb c "." end)
    with (bool_decide (head r = Some "."%byte))
    by (destruct r; [done|]; apply bool_decide_Some_eqb).
  destruct (bool_decide (head r = Some "."%byte)).
  - destruct (skip_ok presented (Z.to_N (Z.of_nat (length p) - Z.of_nat (length r))))
      as (p' & -> & Hp'); [rewrite Hp; lia|]. exists p'. split; [done|].
    rewrite Hp', Hp. f_equal. lia.
  - destruct (skip_ok presented (Z.to_N (Z.of_nat (length p) - Z.of_nat (length r) - 1)))
      as (p' & -> & Hp'); [rewrite Hp; lia|].
    replace (N.to_nat _) with (length p - length r - 1)%nat in Hp' by lia.
    rewrite Hp in Hp'. destruct (drop (length p - length r - 1) p) as [|c q].
    + destruct (read_byte_nil _ Hp') as (p'' & -> & _). done.
    + destruct (read_byte_cons _ _ _ Hp') as (p'' & -> & Hp'').
      cbn [head tail]. destruct (bool_decide (Some c = Some "."%byte)); [by eauto|done].
Qed.
End MatchingEq.

(** Suffixes of a presented identifier. *)
Lemma presented_suffix p a q : dns_id_syntax Presented Yes p -> p = a ++ q -> q <> [] ->
  last q <> Some "."%byte /\ q <> ["*"%byte] /\ (a <> [] -> head q <> Some "*"%byte).
Proof.
  intros [Hne Hp]%presented_syntax Heq Hq.
  assert (forall l q a, host_labels (split_dots l) -> l = a ++ q -> head q <> Some "*"%byte) as Hns.
  { intros l q' a' (_ & Hv & _)%host_labels_iff ->. apply no_star in Hv.
    rewrite join_split in Hv. apply Forall_app in Hv as [_ Hv].
    intros Hh. destruct q'; simplify_eq/=. by apply Forall_cons in Hv as [Hv _]. }
  assert (last p <> Some "."%byte) as Hlast.
  { destruct Hp as [Hp|(rest & -> & Hp)]; [by apply host_labels_last_dot|].
    apply host_labels_last_dot in Hp as Hl. intros H. apply Hl.
    rewrite !last_cons in H. destruct (last rest) eqn:E; [done|].
    apply last_None in E as ->. by apply host_labels_head in Hp. }
  assert (a <> [] -> head q <> Some "*"%byte) as Hhead.
  { intros Ha. destruct Hp as [Hp|(rest & -> & Hp)]; [by apply (Hns p q a)|].
    destruct a as [|c a]; [done|]. injection Heq as _ Heq.
    destruct a as [|d a]; [simpl in Heq; by subst q|].
    injection Heq as _ Heq. by apply (Hns rest q a). }
  split_and!; [|intros ->|done].
  - intros H. apply Hlast. by rewrite Heq, last_app, H.
  - destruct a as [|c a]; [|by apply Hhead]. simpl in Heq. subst p.
    destruct Hp as [Hp|(rest & ? & Hp)]; [|done]. by apply host_labels_head in Hp.
Qed.

Lemma skip_prefix_suffix role p r q : p <> [] -> skip_prefix_bytes role p r = inr q ->
  exists a, p = a ++ q /\ q <> [].
Proof.
  intros Hp. unfold skip_prefix_bytes.
  destruct (bool_decide (role = NameConstraint)); cbn [andb]; [|intros [= ->]; by exists []].
  destruct (Nat.ltb_spec (length r) (length p)); [|intros [= ->]; by exists []].
  destruct (bool_decide_reflect (r = [])); [done|].
  assert (0 < length r)%nat by (destruct r; simpl; lia || done).
  assert (forall n, (n < length p)%nat -> drop n p <> []) as Hd.
  { intros k Hk ?%(f_equal length). rewrite length_drop in H1. simpl in H1. lia. }
  case_match.
  - intros [= <-]. exists (take (length p - length r) p). rewrite take_drop.
    split; [done|]. apply Hd. lia.
  - case_match eqn:Eh; [|done]. intros [= <-]. apply bool_decide_eq_true in Eh.
    set (k := (length p - length r - 1)%nat) in *.
    exists (take k p ++ ["."%byte]). pose proof (length_drop p k) as Hl.
    destruct (drop k p) as [|c t] eqn:Ed; simplify_eq/=. split.
    + rewrite <- app_assoc. simpl. by rewrite <- Ed, take_drop.
    + intros ->. simpl in Hl. lia.
Qed.

Section Internal.
Context {U : Untrusted} {L : UntrustedLaws U}.

(** The comparison of two identifiers of valid syntax. *)
Lemma internal_valid role p r : role <> Presented ->
  dns_id_syntax Presented Yes p -> dns_id_syntax role No r ->
  presented_id_matches_reference_id_internal p role r = Ok (matches_valid role p r).
Proof.
  intros Hrole Hp Hr. unfold presented_id_matches_reference_id_internal.
  rewrite !is_valid_dns_id_eq. cbn [obind].
  rewrite (proj2 (dns_valid_iff Presented Yes p) Hp), (proj2 (dns_valid_iff role No r) Hr).
  cbn [negb]. pose proof (skip_prefix_eq role p r (reader_new p) (reader_new r) Hrole
    (remaining_new p) (remaining_new r)) as Hs.
  unfold matches_valid. destruct (skip_prefix_bytes role p r) as [b|q] eqn:Eq; [by rewrite Hs|].
  destruct Hs as (r' & -> & Hr'). cbn [obind].
  destruct (skip_prefix_suffix role p r q) as (a & -> & Hq); [|done|].
  { by apply presented_syntax in Hp as [? _]. }
  destruct (presented_suffix _ a q Hp eq_refl Hq) as (Hlast & Hstar & _).
  apply matches_bytes_eq; try done; [by apply remaining_new| |lia].
  rewrite length_app. lia.
Qed.
End Internal.

(** *** The comparison on labels *)

(** Skipping the first label of a name, with its leading dot if it has one. *)
Lemma skip_label_bytes_iff l t : skip_label_bytes l = Some t <->
  exists b x t', l = b :: x ++ t /\ t = "."%byte :: t' /\
    Forall (fun c => u8_eqb c "." = false) x.
Proof.
  induction l as [|b l IH]; cbn [skip_label_bytes].
  - split; [done|]. by intros (? & ? & ? & ? & _).
  - destruct l as [|c l].
    { split; [done|]. intros (b' & x & t' & [= -> H] & -> & _). by destruct x. }
    destruct (u8_eqb c ".") eqn:Ec.
    + apply u8_eqb_eq in Ec as ->. split.
      * intros [= <-]. exists b, [], l. by repeat constructor.
      * intros (b' & x & t' & [= -> H] & -> & Hx). destruct x as [|d x]; simplify_eq/=; [done|].
        by apply Forall_cons in Hx as [? _].
    + rewrite IH. split.
      * intros (b' & x & t' & [= -> ->] & -> & Hx).
        exists b, (b' :: x), t'. split_and!; [done|done|]. by constructor.
      * intros (b' & x & t' & [= -> H] & -> & Hx). destruct x as [|d x]; simplify_eq/=.
        apply Forall_cons in Hx as [_ Hx]. eauto 6.
Qed.

Lemma skip_label_split b l : u8_eqb b "." = false ->
  match skip_label_bytes (b :: l) with
  | None => split_dots (b :: l) = [b :: l]
  | Some t => exists label t', t = "."%byte :: t' /\ split_dots (b :: l) = label :: split_dots t' /\
                label <> []
  end.
Proof.
  intros Hb. destruct (skip_label_bytes (b :: l)) as [t|] eqn:Et.
  - apply skip_label_bytes_iff in Et as (b' & x & t' & [= <- ->] & -> & Hx).
    exists (b :: x), t'. split_and!; [done| |done].
    change (b :: x ++ "."%byte :: t') with ((b :: x) ++ "."%byte :: t').
    rewrite split_dots_app, split_no_dot; [done|]. by constructor.
  - revert b Hb Et. induction l as [|c l IH]; intros b Hb Et; [by apply split_no_dot; repeat constructor|].
    cbn [skip_label_bytes] in Et. destruct (u8_eqb c ".") eqn:Ec; [done|].
    specialize (IH c Ec Et). cbn [split_dots] in IH |- *. rewrite Hb. by rewrite IH.
Qed.

(** Names are determined by their spelling. *)
Lemma labels_nonempty names label : forallb valid_label names = true -> label ∈ names -> label <> [].
Proof.
  intros Hv Hin ->. rewrite forallb_forall in Hv.
  by specialize (Hv [] (proj1 (list_elem_of_In _ _) Hin)).
Qed.

Lemma names_not_absolute names ls : forallb valid_label names = true ->
  same_labels names (ls ++ [[]]) -> False.
Proof.
  intros Hv H. unfold same_labels in H. rewrite map_app in H. simpl in H.
  destruct names as [|n names] using rev_ind; [by destruct ls|]. rewrite map_app in H.
  apply app_inj_tail in H as [_ H]. apply (labels_nonempty _ n Hv); [|by apply lower_nil].
  apply elem_of_app. right. by apply list_elem_of_singleton.
Qed.

Lemma same_labels_refl a : same_labels a a.
Proof. done. Qed.

Lemma same_labels_sym a b : same_labels a b -> same_labels b a.
Proof. by unfold same_labels. Qed.

Lemma same_or_absolute_names p names : forallb valid_label (split_dots p) = true ->
  forallb valid_label names = true -> forall r,
  host_or_absolute Reference names (split_dots r) ->
  same_or_absolute Reference p r <-> same_labels (split_dots p) names.
Proof.
  intros Hp Hn r Hr. unfold same_or_absolute. rewrite <- !same_labels_split.
  rewrite (split_dots_app p [] : split_dots (p ++ ["."%byte]) = _). change (split_dots []) with [@nil u8].
  destruct Hr as [->|[_ ->]]; split.
  - intros [?|[_ ?%same_labels_sym]]; [done|]. by destruct (names_not_absolute names (split_dots p)).
  - auto.
  - intros [?|[_ H]]; [by destruct (names_not_absolute (split_dots p) names)|].
    unfold same_labels in *. rewrite !map_app in H. by apply app_inj_tail in H as [? _].
  - intros H. right. split; [done|]. unfold same_labels in *. by rewrite !map_app, H.
Qed.

Lemma same_or_absolute_cons role b p r :
  same_or_absolute role (b :: p) (b :: r) <-> same_or_absolute role p r.
Proof. unfold same_or_absolute. simpl. split; intros [H|[? H]]; simplify_eq; rewrite ?H; auto. Qed.

Lemma host_or_absolute_unique role names names' ls : host_labels names -> host_labels names' ->
  host_or_absolute role names ls -> host_or_absolute role names' ls -> names = names'.
Proof.
  intros (_ & Hv & _)%host_labels_iff (_ & Hv' & _)%host_labels_iff [->|[_ ->]] [H|[_ H]]; try done.
  - subst. by destruct (names_not_absolute _ names' Hv).
  - subst. by destruct (names_not_absolute _ names Hv').
  - by apply app_inj_tail in H as [? _].
Qed.

(** A presented name and a reference name: the comparison is that of labels. *)
Lemma matches_reference_iff p r :
  dns_id_syntax Presented Yes p -> dns_id_syntax Reference No r ->
  matches_valid Reference p r = true <-> matches_reference p r.
Proof.
  intros [Hne Hp]%presented_syntax [_ [[? _]|(names & Hn & [Hr|[[? _]|[? _]]])]]; try done.
  transitivity (presented_matches (split_dots p) names).
  2: { unfold matches_reference. split; [eauto|]. intros (names' & Hn' & Hr' & Hm).
       by rewrite (host_or_absolute_unique Reference names names' (split_dots r)). }
  pose proof (host_labels_iff names) as [Hi _]. destruct (Hi Hn) as (Hnn & Hv & _). clear Hi.
  change (matches_bytes Reference p r = true <-> presented_matches (split_dots p) names).
  destruct Hp as [Hp|(rest & -> & Hp)].
  - pose proof (host_labels_iff (split_dots p)) as [Hi _]. destruct (Hi Hp) as (_ & Hvp & _).
    rewrite matches_bytes_no_star.
    2: { pose proof (no_star _ Hvp) as Hs. rewrite join_split in Hs.
         destruct p; [done|]. intros [= ->]. by apply Forall_cons in Hs as [? _]. }
    rewrite bool_decide_eq_true, (same_or_absolute_names p names) by done.
    unfold presented_matches. split; [auto|]. intros [?|(rest & label & rest' & Hs & _)]; [done|].
    rewrite Hs in Hp. by apply host_labels_head in Hp.
  - pose proof (host_labels_iff (split_dots rest)) as [Hi _]. destruct (Hi Hp) as (Hrn & Hvp & _).
    change (split_dots ("*"%byte :: "."%byte :: rest)) with (["*"%byte] :: split_dots rest).
    cbn [matches_bytes]. destruct r as [|b r].
    { destruct Hr as [<-|[_ Hr]]; [by apply host_labels_head in Hn|].
      destruct names as [|n [|]]; simplify_eq/=. }
    assert (u8_eqb b "." = false) as Hb.
    { destruct (u8_eqb b ".") eqn:Eb; [|done]. simpl in Hr. rewrite Eb in Hr.
      by apply host_or_absolute_head in Hr. }
    pose proof (skip_label_split b r Hb) as Hs.
    assert (forall rest' label, presented_matches (["*"%byte] :: split_dots rest) (label :: rest') ->
              valid_label label = true -> same_labels (split_dots rest) rest') as Hm.
    { intros rest' label [[Hst _]%same_labels_cons|(a & x & c & [= ->] & [= -> ->] & ?)] Hl; [|done].
      destruct label as [|y [|]]; simplify_eq/=. by destruct y. }
    destruct (skip_label_bytes (b :: r)) as [t|].
    + destruct Hs as (label & t' & -> & Hs & Hlab). rewrite Hs in Hr.
      destruct names as [|n names]; [done|].
      assert (n = label /\ host_or_absolute Reference names (split_dots t')) as [-> Hr'].
      { unfold host_or_absolute. destruct Hr as [[= -> ->]|[_ [= -> ->]]]; auto. }
      simpl in Hv. apply andb_true_iff in Hv as [Hvl Hv].
      rewrite bool_decide_eq_true, same_or_absolute_cons, (same_or_absolute_names rest names) by done.
      split; [|by intros H; apply (Hm _ label)].
      intros H. right. by exists (split_dots rest), label, names.
    + split; [done|]. intros H. rewrite Hs in Hr. destruct names as [|n names]; [done|].
      assert (names = []) as ->.
      { destruct Hr as [Hnil|[_ Hnil]]; injection Hnil as _ Hnil; [done|]. by destruct names. }
      simpl in Hv. rewrite andb_true_r in Hv. by apply (Hm _ n), same_labels_sym, same_labels_nil in H.
Qed.

(** *** Name constraints *)

(** [p] is below the name [r]: a prefix, a dot, and [r] up to case. *)
Definition below (p r : list u8) : Prop :=
  exists a q, p = a ++ "."%byte :: q /\ lower q = lower r.

Lemma below_length p r : below p r -> (length r + 1 <= length p)%nat.
Proof.
  intros (a & q & -> & H%(f_equal length)). rewrite !length_map in H.
  rewrite length_app. simpl. lia.
Qed.

Lemma below_drop p r k : k = (length p - length r - 1)%nat -> (length r < length p)%nat ->
  below p r <-> head (drop k p) = Some "."%byte /\ lower (tail (drop k p)) = lower r.
Proof.
  intros -> Hl. split.
  - intros (a & q & -> & H). apply (f_equal length) in H as Hlen. rewrite !length_map in Hlen.
    rewrite length_app in *. simpl in *. rewrite drop_app_length' by lia. done.
  - intros [Hh Ht]. exists (take (length p - length r - 1) p), (tail (drop (length p - length r - 1) p)).
    split; [|done]. destruct (drop _ p) as [|c q] eqn:Ed; simplify_eq/=.
    by rewrite <- Ed, take_drop.
Qed.

Lemma below_labels p r :
  below p r <-> exists more suffix, more <> [] /\ split_dots p = more ++ suffix /\
                  same_labels suffix (split_dots r).
Proof.
  split.
  - intros (a & q & -> & H). exists (split_dots a), (split_dots q).
    rewrite split_dots_app, same_labels_split. split_and!; [apply split_not_nil|done..].
  - intros (more & suffix & Hm & Hp & Hs).
    assert (suffix <> []) as Hsn.
    { intros ->. apply same_labels_nil in Hs. by apply split_not_nil in Hs. }
    exists (join_dots more), (join_dots suffix). rewrite <- join_app, <- Hp, join_split by done.
    split; [done|]. rewrite lower_join, Hs, <- lower_join. by rewrite join_split.
Qed.

(** The wildcard clause: the first label of [r] replaced. *)
Definition wild_below (p r : list u8) : Prop :=
  exists rest label t, p = "*"%byte :: "."%byte :: rest /\
    split_dots r = label :: split_dots t /\ lower rest = lower t.

Lemma split_join names : forallb valid_label names = true -> names <> [] ->
  split_dots (join_dots names) = names.
Proof.
  induction names as [|n names IH]; intros Hv Hne; [done|].
  apply andb_true_iff in Hv as [Hn Hv].
  assert (Forall (fun c => u8_eqb c "." = false) n) as Hdot.
  { apply valid_label_prefix in Hn. unfold label_prefix in Hn.
    rewrite !andb_true_iff in Hn. destruct Hn as [[Hn _] _]. rewrite forallb_forall in Hn.
    apply Forall_forall. intros c Hc%list_elem_of_In. specialize (Hn c Hc). by destruct c. }
  destruct names as [|m names]; [by apply split_no_dot|].
  rewrite join_cons, split_dots_app, IH, split_no_dot by done. done.
Qed.

(** A name constraint without its leading dot. *)
Definition undotted (r : list u8) : list u8 :=
  match r with x2e :: r => r | _ => r end.

Lemma constraint_syntax r : dns_id_syntax NameConstraint No r -> r <> [] ->
  host_labels (split_dots (undotted r)) /\
  (undotted r = r /\ head r <> Some "."%byte \/ r = "."%byte :: undotted r).
Proof.
  intros [_ [[_ ->]|(names & Hn & [[H|[? _]]|[[_ H]|[? _]]])]] Hne; try done.
  - assert (head r <> Some "."%byte) as Hh.
    { intros Hh. destruct r as [|b r]; simplify_eq/=. by apply host_labels_head in Hn. }
    assert (undotted r = r) as Hu by (destruct r as [|b r]; [done|]; by destruct b).
    rewrite Hu, H. auto.
  - destruct r as [|b r]; [done|]. simpl in H. destruct (u8_eqb b ".") eqn:Eb.
    + apply u8_eqb_eq in Eb as ->. injection H as H. cbn [undotted]. rewrite H. auto.
    + by destruct (split_dots_cons r) as (x & y & Hxy); rewrite Hxy in H.
Qed.

(** The labels of a constraint. *)
Lemma constraint_labels r labels : dns_id_syntax NameConstraint No r -> r <> [] ->
  host_labels labels ->
  (split_dots r = labels <-> labels = split_dots (undotted r) /\ undotted r = r) /\
  (split_dots r = [] :: labels <-> labels = split_dots (undotted r) /\ undotted r <> r).
Proof.
  intros Hr Hne Hl. apply constraint_syntax in Hr as [Hn [[Hu Hh]|Hd]]; [rewrite Hu in *| |done].
  - split; split; [by intros <-|by intros [-> _]| |by intros [_ ?]].
    intros H. rewrite H in Hn. by apply host_labels_head in Hn.
  - set (u := undotted r) in *. clearbody u. subst r.
    change (split_dots ("."%byte :: u)) with ([] :: split_dots u).
    assert (u <> "."%byte :: u) as Hneq by (intros H%(f_equal length); simpl in H; lia).
    split; split; [|by intros [_ ?]|by intros [= ->]|by intros [-> _]].
    intros <-. by apply host_labels_head in Hl.
Qed.

(** The subtree of a constraint, on bytes. *)
Lemma matches_constraint_bytes p r : dns_id_syntax Presented Yes p ->
  dns_id_syntax NameConstraint No r -> r <> [] ->
  matches_constraint p r <->
  below p (undotted r) \/ (lower p = lower r /\ undotted r = r) \/ wild_below p (undotted r).
Proof.
  intros Hp Hr Hne. pose proof (constraint_syntax r Hr Hne) as [Hn _].
  pose proof (fun labels => constraint_labels r labels Hr Hne) as Hlab.
  unfold matches_constraint, wild_below. rewrite below_labels. split.
  - intros [?|(labels & Hl & Hs & Hm)]; [done|].
    assert (labels = split_dots (undotted r)) as ->.
    { destruct (Hlab labels Hl) as [H1 H2]. destruct Hs as [Hs|Hs];
        [by apply H1 in Hs as [? _]|by apply H2 in Hs as [? _]]. }
    destruct Hm as [(more & suffix & Hps & Hsame & Hmore)|(rest & label & rest' & Hps & Hr' & Hsame)].
    + destruct (decide (more = [])) as [->|Hm]; [|by left; eauto 6].
      right. left. specialize (Hmore eq_refl). apply (Hlab _ Hl) in Hmore as [_ Hu].
      rewrite Hu in Hsame. simpl in Hps. subst suffix. by apply same_labels_split in Hsame.
    + right. right. apply presented_syntax in Hp as [_ [Hp|(q & -> & Hp)]].
      { rewrite Hps in Hp. by apply host_labels_head in Hp. }
      exists q, label, (join_dots rest'). injection Hps as <-. split; [done|].
      apply host_labels_iff in Hl as (_ & Hv & _). rewrite Hr' in Hv |- *.
      apply andb_true_iff in Hv as [_ Hv].
      assert (rest' <> []) as Hrn.
      { intros ->. apply same_labels_sym, same_labels_nil in Hsame. by apply split_not_nil in Hsame. }
      rewrite split_join by done. split; [done|].
      rewrite <- (join_split q), lower_join, Hsame, <- lower_join. done.
  - intros H. right. exists (split_dots (undotted r)).
    split; [done|]. destruct (Hlab _ Hn) as [H1 H2]. split.
    { destruct (decide (undotted r = r)); [left|right]; [by apply H1|by apply H2]. }
    destruct H as [(more & suffix & Hm & Hps & Hsame)|[[Hlow Hu]|(rest & label & t & -> & Ht & Hlow)]].
    + left. by exists more, suffix.
    + left. exists [], (split_dots p). rewrite Hu, same_labels_split. by split_and!.
    + right. exists (split_dots rest), label, (split_dots t).
      rewrite Ht, same_labels_split. done.
Qed.

Lemma wild_below_length p u : host_labels (split_dots u) -> wild_below p u ->
  (length p <= length u)%nat.
Proof.
  intros Hu (rest & label & t & -> & Ht & Hlow). apply (f_equal length) in Hlow.
  rewrite !length_map in Hlow. rewrite <- (join_split u), Ht, join_cons by apply split_not_nil.
  rewrite join_split, length_app. rewrite Ht in Hu. apply host_labels_head in Hu.
  destruct label; [done|]. simpl. lia.
Qed.

Lemma same_or_absolute_constraint p r : same_or_absolute NameConstraint p r <-> lower p = lower r.
Proof. unfold same_or_absolute. naive_solver. Qed.

Lemma presented_head_dot p : dns_id_syntax Presented Yes p -> head p <> Some "."%byte.
Proof.
  intros [_ [Hp|(rest & -> & _)]]%presented_syntax Hh; [|done].
  destruct p as [|b p]; simplify_eq/=. by apply host_labels_head in Hp.
Qed.

Lemma length_undotted r : (length (undotted r) <= length r)%nat.
Proof. destruct r as [|b r]; [done|]. destruct b; simpl; lia. Qed.

(** The presented name is longer than the constraint. *)
Lemma matches_longer p r : dns_id_syntax Presented Yes p -> dns_id_syntax NameConstraint No r ->
  r <> [] -> (length r < length p)%nat ->
  matches_valid NameConstraint p r = true <-> below p (undotted r).
Proof.
  intros Hp Hr Hne Hlen. destruct (constraint_syntax r Hr Hne) as [Hn Hdot].
  pose proof (length_undotted r).
  rewrite (below_drop p (undotted r) _ eq_refl) by lia.
  unfold matches_valid, skip_prefix_bytes. rewrite bool_decide_eq_true_2 by done.
  rewrite (proj2 (Nat.ltb_lt _ _) Hlen). cbn [andb]. rewrite bool_decide_eq_false_2 by done.
  remember (length p - length (undotted r) - 1)%nat as k eqn:Hkeq.
  pose proof (length_drop p k) as Hk. destruct Hdot as [[Hu Hh]|Hd].
  - rewrite bool_decide_eq_false_2 by done. rewrite Hu in Hkeq |- *. rewrite <- Hkeq.
    destruct (drop k p) as [|c q] eqn:Ed; [by split; [|intros [? _]]|]. cbn [head tail].
    destruct (bool_decide_reflect (Some c = Some "."%byte)) as [[= ->]|Hc]; [|naive_solver].
    assert (p = (take k p ++ ["."%byte]) ++ q) as Hpq.
    { by rewrite <- app_assoc; simpl; rewrite <- Ed, take_drop. }
    assert (q <> []) as Hq.
    { intros ->. simpl in Hk. destruct r; [done|]. simpl in *. lia. }
    rewrite matches_bytes_no_star.
    + rewrite bool_decide_eq_true, same_or_absolute_constraint. naive_solver.
    + destruct (presented_suffix p _ q Hp Hpq Hq) as (_ & _ & Hs). apply Hs. by destruct (take k p).
  - assert (length p - length r = k)%nat as ->.
    { apply (f_equal length) in Hd. simpl in Hd. lia. }
    rewrite bool_decide_eq_true_2 by (by rewrite Hd). rewrite matches_bytes_no_star.
    + rewrite bool_decide_eq_true, same_or_absolute_constraint.
      rewrite Hd at 1. destruct (drop k p) as [|c q] eqn:Ed; [by split; [|intros [? _]]|].
      simpl. split.
      * intros [= Hc Hl]. split; [|done]. f_equal. apply u8_eqb_eq. by rewrite <- ascii_lower_dot, Hc.
      * intros [[= ->] Hl]. by rewrite Hl.
    + assert (drop k p <> []) as Hq.
      { intros Hq. rewrite Hq in Hk. simpl in Hk. apply (f_equal length) in Hd. simpl in Hd.
        lia. }
      destruct (presented_suffix p (take k p) _ Hp (eq_sym (take_drop k p)) Hq) as (_ & _ & Hs).
      apply Hs. intros Ht%(f_equal length). rewrite length_take in Ht. simpl in Ht.
      apply (f_equal length) in Hd. simpl in Hd. lia.
Qed.

(** The presented name is not longer than the constraint. *)
Lemma matches_not_longer p r : dns_id_syntax Presented Yes p ->
  dns_id_syntax NameConstraint No r -> r <> [] -> (length p <= length r)%nat ->
  matches_bytes NameConstraint p r = true <->
  (lower p = lower r /\ undotted r = r) \/ wild_below p (undotted r).
Proof.
  intros Hp Hr Hne Hlen. destruct (constraint_syntax r Hr Hne) as [Hn Hdot].
  assert (lower p = lower r -> undotted r = r) as Hlow.
  { intros Hl. destruct Hdot as [[? _]|Hd]; [done|]. exfalso. apply (presented_head_dot p Hp).
    rewrite Hd in Hl. destruct p as [|c p]; simplify_eq/=. f_equal. apply u8_eqb_eq.
    rewrite <- ascii_lower_dot. by apply u8_eqb_eq. }
  apply presented_syntax in Hp as [_ [Hp|(rest & -> & Hp)]].
  - rewrite matches_bytes_no_star.
    + rewrite bool_decide_eq_true, same_or_absolute_constraint.
      split; [auto|]. intros [[? _]|(rest & label & t & -> & _)]; [done|].
      by apply host_labels_head in Hp.
    + intros Hh. destruct p as [|c p]; simplify_eq/=.
      destruct (split_dots_cons p) as (x & y & Hxy). rewrite Hxy in Hp.
      by apply host_labels_head in Hp.
  - assert (lower ("*"%byte :: "."%byte :: rest) <> lower r) as Hstar.
    { intros Hl. apply Hlow in Hl as Hu. rewrite Hu in Hn.
      apply host_labels_iff in Hn as (_ & Hv & _). apply no_star in Hv. rewrite join_split in Hv.
      destruct r as [|c r]; [done|]. apply Forall_cons in Hv as [Hc _].
      injection Hl as Hc' _. by destruct c. }
    cbn [matches_bytes].
    assert (exists b u, undotted r = b :: u /\ u8_eqb b "." = false) as (b & u & Hu & Hb).
    { destruct (undotted r) as [|b u] eqn:Hu; [by apply host_labels_head in Hn|].
      exists b, u. split; [done|]. destruct (u8_eqb b ".") eqn:Eb; [|done].
      simpl in Hn. rewrite Eb in Hn. by apply host_labels_head in Hn. }
    assert (skip_label_bytes r = skip_label_bytes (undotted r)) as ->.
    { destruct Hdot as [[-> _]|Hd]; [done|]. rewrite Hd at 1. cbn [skip_label_bytes].
      by rewrite Hu, Hb. }
    pose proof (skip_label_split b u Hb) as Hs. rewrite <- Hu in Hs. unfold wild_below.
    destruct (skip_label_bytes (undotted r)) as [t|].
    + destruct Hs as (label & t' & -> & Hs & _).
      rewrite bool_decide_eq_true, same_or_absolute_constraint. split.
      * intros [= Hl]. right. exists rest, label, t'. done.
      * intros [[? _]|(rest' & label' & t & [= <-] & Ht & Hl)]; [done|].
        rewrite Hs in Ht. injection Ht as _ Ht.
        rewrite <- (join_split t'), Ht, join_split. simpl. by rewrite Hl.
    + split; [done|]. intros [[? _]|(rest' & label' & t & _ & Ht & _)]; [done|].
      rewrite Hs in Ht. injection Ht as _ Ht. symmetry in Ht. by apply split_not_nil in Ht.
Qed.

(** A presented name and a name constraint: the comparison is that of labels. *)
Lemma matches_constraint_iff p r :
  dns_id_syntax Presented Yes p -> dns_id_syntax NameConstraint No r ->
  matches_valid NameConstraint p r = true <-> matches_constraint p r.
Proof.
  intros Hp Hr. destruct (decide (r = [])) as [->|Hne].
  { apply presented_syntax in Hp as [Hp _]. split; [by left|]. intros _. by destruct p. }
  rewrite (matches_constraint_bytes p r) by done.
  pose proof (constraint_syntax r Hr Hne) as [Hn Hdot].
  destruct (Nat.lt_ge_cases (length r) (length p)) as [Hl|Hl].
  - rewrite matches_longer by done. split; [auto|].
    pose proof (length_undotted r). intros [?|[[Hx%(f_equal length) _]|Hx]]; [done| |].
    + rewrite !length_map in Hx. lia.
    + apply wild_below_length in Hx; [lia|done].
  - transitivity (matches_bytes NameConstraint p r = true).
    { unfold matches_valid, skip_prefix_bytes.
      by rewrite (proj2 (Nat.ltb_ge _ _) Hl), andb_false_r. }
    rewrite matches_not_longer by done. split; [auto|]. intros [Hb|?]; [|done]. exfalso.
    pose proof (below_length _ _ Hb) as Hbl. destruct Hb as (a & q & -> & Hq).
    apply (f_equal length) in Hq. rewrite !length_map in Hq. rewrite length_app in *. simpl in *.
    destruct Hdot as [[Hu _]|Hd]; [rewrite Hu in *; lia|].
    apply (f_equal length) in Hd. simpl in Hd. destruct a as [|c a]; [|simpl in *; lia].
    by apply presented_head_dot in Hp.
Qed.

#[export] Instance dns_id_syntax_dec role wildcards id : Decision (dns_id_syntax role wildcards id).
Proof. refine (cast_if (decide (dns_valid role wildcards id = true))); by rewrite <- dns_valid_iff. Defined.

(** *** Names as strings *)
Lemma lower_same (P : u8 -> bool) l : (forall b, P (ascii_lower b) = P b) ->
  forallb P (lower l) = forallb P l.
Proof. intros H. induction l as [|b l IH]; simpl; [done|]. by rewrite H, IH. Qed.

Lemma last_lower l b : (forall c, ascii_lower c = b <-> c = b) ->
  last (lower l) = Some b <-> last l = Some b.
Proof.
  intros Hb. destruct l as [|x l] using rev_ind; [done|]. rewrite map_app. simpl.
  rewrite !last_snoc. split; intros [= H]; f_equal; [by apply Hb|]. subst. by apply Hb.
Qed.

Lemma ascii_lower_hyphen c : ascii_lower c = "-"%byte <-> c = "-"%byte.
Proof. by destruct c. Qed.

Lemma label_prefix_lower l : label_prefix (lower l) = label_prefix l.
Proof.
  unfold label_prefix. rewrite lower_same by (by intros []). rewrite length_map. f_equal. f_equal.
  apply bool_decide_ext. destruct l as [|c l]; [done|]. simpl.
  split; intros [= H]; f_equal; [by apply ascii_lower_hyphen|]. subst. by apply ascii_lower_hyphen.
Qed.

Lemma valid_label_lower l : valid_label (lower l) = valid_label l.
Proof.
  unfold valid_label, ends_hyphen. rewrite label_prefix_lower. f_equal; [f_equal|]; f_equal;
    apply bool_decide_ext; [apply lower_nil|apply last_lower, ascii_lower_hyphen].
Qed.

Lemma host_labels_lower names : host_labels names -> host_labels (map lower names).
Proof.
  intros (Hne & Hv & Hl)%host_labels_iff. apply host_labels_iff. split_and!.
  - by destruct names.
  - rewrite forallb_forall in Hv |- *. intros x (y & <- & Hy)%in_map_iff.
    rewrite valid_label_lower. by apply Hv.
  - unfold last_numeric in *. destruct names as [|n names] using rev_ind; [done|].
    rewrite map_app. simpl. rewrite last_snoc in *. unfold all_digits in *.
    by rewrite lower_same by (by intros []).
Qed.

Lemma reference_lower id : dns_id_syntax Reference No id -> dns_id_syntax Reference No (lower id).
Proof.
  intros [Hlen [[? _]|(names & Hn & [Hs|[[? _]|[? _]]])]]; try done.
  split; [by rewrite length_map|]. right. exists (map lower names).
  split; [by apply host_labels_lower|]. left. rewrite lower_split.
  destruct Hs as [->|[_ ->]]; [by left|]. right. by rewrite map_app.
Qed.

Lemma dns_id_ascii role wildcards id : dns_id_syntax role wildcards id ->
  Forall (fun b => u8_in x00 x7f b = true) id.
Proof.
  assert (forall names, forallb valid_label names = true ->
            Forall (Forall (fun b => u8_in x00 x7f b = true)) names) as Hnames.
  { intros names H. rewrite forallb_forall in H. apply Forall_forall.
    intros x Hx%list_elem_of_In. specialize (H x Hx).
    apply valid_label_prefix in H. unfold label_prefix in H. rewrite !andb_true_iff in H.
    destruct H as [[H _] _]. rewrite forallb_forall in H. apply Forall_forall.
    intros c Hc%list_elem_of_In. specialize (H c Hc). by destruct c. }
  assert (forall ls, Forall (Forall (fun b => u8_in x00 x7f b = true)) ls ->
            Forall (fun b => u8_in x00 x7f b = true) (join_dots ls)) as Hjoin.
  { induction 1 as [|x ls Hx Hls IH]; [by constructor|]. destruct ls as [|y ls]; [done|].
    rewrite join_cons by done. apply Forall_app. split; [done|]. by constructor. }
  assert (forall names ls, host_labels names -> host_or_absolute role names ls ->
            Forall (Forall (fun b => u8_in x00 x7f b = true)) ls) as Hs.
  { intros names ls (_ & Hv & _)%host_labels_iff [->|[_ ->]]; [by apply Hnames|].
    apply Forall_app. split; [by apply Hnames|]. by repeat constructor. }
  intros [_ [[_ ->]|(names & Hn & H)]]; [by constructor|].
  rewrite <- (join_split id). apply Hjoin.
  destruct H as [H|[[_ ->]|(_ & _ & sp & H & ->)]].
  - by apply (Hs names).
  - constructor; [by constructor|]. by apply (Hs names); [|left].
  - constructor; [by repeat constructor|]. by apply (Hs names).
Qed.

Lemma as_ref_ok {E} role wildcards id : dns_id_syntax role wildcards id ->
  str_of_bytes (E := E) id = Ok id.
Proof.
  intros H%dns_id_ascii. unfold str_of_bytes, from_utf8. by rewrite utf8_valid_ascii.
Qed.

Section DnsProperties.
Context {U : Untrusted} {L : UntrustedLaws U}.

Lemma internal_invalid_presented role p r : ~ dns_id_syntax Presented Yes p ->
  presented_id_matches_reference_id_internal p role r = Err MalformedDnsIdentifier.
Proof.
  intros Hp. unfold presented_id_matches_reference_id_internal.
  rewrite is_valid_dns_id_eq. rewrite <- dns_valid_iff in Hp.
  by destruct (dns_valid Presented Yes p).
Qed.

Lemma internal_invalid_reference role p r :
  dns_id_syntax Presented Yes p -> ~ dns_id_syntax role No r ->
  presented_id_matches_reference_id_internal p role r =
    Err (if decide (role = NameConstraint) then MalformedNameConstraint
         else MalformedDnsIdentifier).
Proof.
  intros Hp Hr. unfold presented_id_matches_reference_id_internal.
  rewrite !is_valid_dns_id_eq. rewrite <- dns_valid_iff in Hp, Hr. rewrite Hp.
  destruct (dns_valid role No r); [done|]. by destruct role.
Qed.

(** C14: [is_valid_dns_id] always returns, and accepts exactly the identifiers
    of the documented syntax: at most 253 bytes, labels of 1 to 63 letters,
    digits, hyphens and underscores that neither start nor end with a
    hyphen, a last label that is not all numeric; a trailing dot only for a
    reference identifier, an empty name or a leading dot only for a name
    constraint, and one wildcard label followed by two labels or more only
    where wildcards are allowed. *)
Theorem is_valid_dns_id_syntax id role wildcards :
  is_valid_dns_id id role wildcards = Ok (bool_decide (dns_id_syntax role wildcards id)).
Proof.
  rewrite is_valid_dns_id_eq. f_equal. apply eq_bool_prop_intro.
  by rewrite !Is_true_true, bool_decide_eq_true, dns_valid_iff.
Qed.

(** C12: Matching a presented identifier with a reference identifier: a
    malformed identifier is an error, and otherwise the answer is whether the
    labels are equal up to ASCII case, a wildcard standing for exactly one
    label and a trailing dot of the reference being ignored.  No assertion
    fails and no loop runs out of fuel. *)
Theorem reference_id_matching p r :
  match presented_id_matches_reference_id p r with
  | Ok b => dns_id_syntax Presented Yes p /\ dns_id_syntax Reference No r /\
            (b = true <-> matches_reference p r)
  | Err e => e = MalformedDnsIdentifier /\
             ~ (dns_id_syntax Presented Yes p /\ dns_id_syntax Reference No r)
  | Panic | OutOfFuel => False
  end.
Proof.
  unfold presented_id_matches_reference_id.
  destruct (decide (dns_id_syntax Presented Yes p)) as [Hp|Hp];
    [destruct (decide (dns_id_syntax Reference No r)) as [Hr|Hr]|].
  - rewrite internal_valid by done. split_and!; [done..|]. by apply matches_reference_iff.
  - rewrite internal_invalid_reference by done. naive_solver.
  - rewrite internal_invalid_presented by done. naive_solver.
Qed.

Lemma constraint_matching_spec p r :
  match presented_id_matches_constraint p r with
  | Ok b => dns_id_syntax Presented Yes p /\ dns_id_syntax NameConstraint No r /\
            (b = true <-> matches_constraint p r)
  | Err e => e = (if decide (dns_id_syntax Presented Yes p)
                  then MalformedNameConstraint else MalformedDnsIdentifier) /\
             ~ (dns_id_syntax Presented Yes p /\ dns_id_syntax NameConstraint No r)
  | Panic | OutOfFuel => False
  end.
Proof.
  unfold presented_id_matches_constraint.
  destruct (decide (dns_id_syntax Presented Yes p)) as [Hp|Hp];
    [destruct (decide (dns_id_syntax NameConstraint No r)) as [Hr|Hr]|].
  - rewrite internal_valid by done. split_and!; [done..|]. by apply matches_constraint_iff.
  - rewrite internal_invalid_reference by done. naive_solver.
  - rewrite internal_invalid_presented by done. naive_solver.
Qed.

(** C13: Matching a presented identifier with a name constraint: malformed
    identifiers and constraints are errors, and otherwise the answer is
    whether the name is in the subtree: the empty constraint covers every
    name, a constraint covers its name (unless it starts with a dot) and all
    names below it, and a wildcard name is covered as well by a constraint
    that is an instance of it. *)
Theorem constraint_matching p r :
  match presented_id_matches_constraint p r with
  | Ok b => dns_id_syntax Presented Yes p /\ dns_id_syntax NameConstraint No r /\
            (b = true <-> matches_constraint p r)
  | Err e => e = (if decide (dns_id_syntax Presented Yes p)
                  then MalformedNameConstraint else MalformedDnsIdentifier) /\
             ~ (dns_id_syntax Presented Yes p /\ dns_id_syntax NameConstraint No r)
  | Panic | OutOfFuel => False
  end.
Proof. apply constraint_matching_spec. Qed.

(** C25: A constructed DNS name reference is a string, its owned copy is the
    name in lower case, and the copy is again a valid name. *)
Theorem DnsNameRef_to_owned_valid bytes :
  match DnsNameRef_try_from_ascii bytes with
  | Ok (inl name) =>
    dns_id_syntax Reference No bytes /\ DnsNameRef_as_ref (E := Error) name = Ok bytes /\
    exists owned, DnsNameRef_to_owned (E := Error) name = Ok owned /\
      dns_name_string owned = lower bytes /\
      DnsNameRef_try_from_ascii (dns_name_string owned) = Ok (inl (DnsName_as_ref owned))
  | Ok (inr InvalidDnsName) => ~ dns_id_syntax Reference No bytes
  | Err _ | Panic | OutOfFuel => False
  end.
Proof.
  unfold DnsNameRef_try_from_ascii. rewrite is_valid_dns_id_eq. cbn [obind].
  destruct (dns_valid Reference No bytes) eqn:Hv; cbn [negb].
  - apply dns_valid_iff in Hv. split; [done|].
    unfold DnsNameRef_to_owned, DnsNameRef_as_ref. simpl.
    rewrite (as_ref_ok Reference No bytes Hv). split; [done|]. eexists. split; [done|].
    split; [done|]. simpl. rewrite is_valid_dns_id_eq. simpl.
    by rewrite (proj2 (dns_valid_iff Reference No _) (reference_lower _ Hv)).
  - intros H%dns_valid_iff. congruence.
Qed.
End DnsProperties.

(** *** Witnesses *)
Lemma is_valid_dns_id_syntax_witness : dns_id_syntax Presented Yes wildcard_example_com.
Proof.
  pose proof (is_valid_dns_id_syntax (U := slice_reader) wildcard_example_com Presented Yes) as H.
  eapply bool_decide_eq_true. apply (f_equal (fun o => match o with Ok b => b | _ => false end)) in H.
  symmetry. etransitivity; [|exact H]. by vm_compute.
Defined.

Lemma reference_id_matching_witness : matches_reference wildcard_example_com upper_case_example_com.
Proof.
  pose proof (reference_id_matching (U := slice_reader) wildcard_example_com upper_case_example_com) as H.
  assert (presented_id_matches_reference_id (U := slice_reader) wildcard_example_com
            upper_case_example_com = Ok true) as E by (by vm_compute).
  rewrite E in H. by apply H.
Defined.

Lemma constraint_matching_witness : matches_constraint www_example_com example_com.
Proof.
  pose proof (constraint_matching (U := slice_reader) www_example_com example_com) as H.
  assert (presented_id_matches_constraint (U := slice_reader) www_example_com example_com = Ok true)
    as E by (by vm_compute).
  rewrite E in H. by apply H.
Defined.

Lemma DnsNameRef_to_owned_valid_witness :
  exists owned, DnsNameRef_to_owned (E := Error)
      {| dns_name_bytes := upper_case_example_com |} = Ok owned /\
    dns_name_string owned = www_example_com.
Proof.
  pose proof (DnsNameRef_to_owned_valid (U := slice_reader) upper_case_example_com) as H.
  assert (DnsNameRef_try_from_ascii (U := slice_reader) upper_case_example_com
          = Ok (inl {| dns_name_bytes := upper_case_example_com |})) as E by (by vm_compute).
  rewrite E in H. destruct H as (_ & _ & owned & Ho & Hs & _). exists owned. by rewrite Hs.
Defined.
