(* ===== verification/IpAddress.v ===== *)
(** * [src/subject_name/ip_address.rs]: IP addresses

    The textual forms of IPv4 and (uncompressed) IPv6 addresses, and the
    comparison of a presented address with a reference address or with an
    address range of a name constraint. *)
From S2P Require Import Prelude Errors Untrusted Der Samples DnsName.

(** ** Data *)

(** An address with its text, owned ([String]) or borrowed ([&[u8]]). *)
Inductive IpAddr : Type :=
  | IpAddr_V4 (text : list u8) (octets : list u8)
  | IpAddr_V6 (text : list u8) (octets : list u8).

Inductive IpAddrRef : Type :=
  | V4 (text : list u8) (octets : list u8)
  | V6 (text : list u8) (octets : list u8).

Inductive AddrParseError : Type := AddrParse.

(** [std::net::IpAddr], by its octets. *)
Inductive StdIpAddr : Type :=
  | StdV4 (octets : list u8)
  | StdV6 (octets : list u8).

Definition IpAddr_as_ref (self : IpAddr) : list u8 :=
  match self with IpAddr_V4 ip_address _ | IpAddr_V6 ip_address _ => ip_address end.

(** [String::from_utf8(..).expect(..)]. *)
Definition IpAddrRef_to_owned {E} (self : IpAddrRef) : outcome E IpAddr :=
  match self with
  | V4 ip_address octets =>
    let? text := unwrap (from_utf8 ip_address) in Ok (IpAddr_V4 text octets)
  | V6 ip_address octets =>
    let? text := unwrap (from_utf8 ip_address) in Ok (IpAddr_V6 text octets)
  end.

(** [impl From<IpAddrRef> for IpAddr]. *)
Definition IpAddr_from_ref {E} (ip_address : IpAddrRef) : outcome E IpAddr :=
  match ip_address with
  | V4 ip_address octets =>
    let? text := unwrap (from_utf8 ip_address) in Ok (IpAddr_V4 text octets)
  | V6 ip_address octets =>
    let? text := unwrap (from_utf8 ip_address) in Ok (IpAddr_V6 text octets)
  end.

(** [impl From<&IpAddr> for IpAddrRef]. *)
Definition IpAddrRef_from (ip_address : IpAddr) : IpAddrRef :=
  match ip_address with
  | IpAddr_V4 ip_address octets => V4 ip_address octets
  | IpAddr_V6 ip_address octets => V6 ip_address octets
  end.

(** [impl From<IpAddrRef> for &str] and [for &[u8]]. *)
Definition IpAddrRef_str {E} (ip_address : IpAddrRef) : outcome E (list u8) :=
  match ip_address with V4 ip_address _ | V6 ip_address _ => unwrap (from_utf8 ip_address) end.

Definition IpAddrRef_bytes (ip_address : IpAddrRef) : list u8 :=
  match ip_address with V4 ip_address _ | V6 ip_address _ => ip_address end.

(** ** Printing *)

(** [{:02x?}] of an octet. *)
Definition hex_digit (d : Z) : u8 :=
  if d <? 10 then u8_of_Z (u8_to_Z "0" + d) else u8_of_Z (u8_to_Z "a" + (d - 10)).
Definition hex2 (b : u8) : list u8 := [hex_digit (u8_to_Z b / 16); hex_digit (u8_to_Z b mod 16)].

(** The loop of [ipv6_to_uncompressed_string] and the last group: the groups
    of two octets, separated by colons. *)
Fixpoint ipv6_to_uncompressed_string (octets : list u8) : list u8 :=
  match octets with
  | a :: b :: rest =>
    hex2 a ++ hex2 b ++
      match rest with [] => [] | _ => ":"%byte :: ipv6_to_uncompressed_string rest end
  | _ => []
  end.

(** [Display] of an octet and of [std::net::Ipv4Addr]. *)
Definition decimal_digit (d : Z) : u8 := u8_of_Z (u8_to_Z "0" + d).
Definition decimal (b : u8) : list u8 :=
  let v := u8_to_Z b in
  if v <? 10 then [decimal_digit v]
  else if v <? 100 then [decimal_digit (v / 10); decimal_digit (v mod 10)]
  else [decimal_digit (v / 100); decimal_digit (v / 10 mod 10); decimal_digit (v mod 10)].

Fixpoint ipv4_to_string (octets : list u8) : list u8 :=
  match octets with
  | [] => []
  | b :: rest =>
    decimal b ++ match rest with [] => [] | _ => "."%byte :: ipv4_to_string rest end
  end.

(** [impl From<std::net::IpAddr> for IpAddr]. *)
Definition IpAddr_from_std (ip_address : StdIpAddr) : IpAddr :=
  match ip_address with
  | StdV4 octets => IpAddr_V4 (ipv4_to_string octets) octets
  | StdV6 octets => IpAddr_V6 (ipv6_to_uncompressed_string octets) octets
  end.

(** ** Parsing *)

(** [radix10_to_octet]; the digits are numbers, not characters. *)
Fixpoint radix10_loop {E} (textual_octets : list u8) (result : Z) : outcome E Z :=
  match textual_octets with
  | [] => Ok result
  | digit :: rest =>
    let? result := u32_mul result 10 in
    let? result := u32_add result (u8_to_Z digit) in
    radix10_loop rest result
  end.
Definition radix10_to_octet {E} (textual_octets : list u8) : outcome E Z :=
  radix10_loop textual_octets 0.

(** The local variables of [parse_ipv4_address]. *)
Record ipv4_state : Type := {
  v4_is_first_byte : bool;
  current_octet : list u8;
  current_size : nat;
  dot_count4 : Z;
  octet4 : nat;
  octets4 : list u8;
}.

(** The local variables of [parse_ipv6_address]. *)
Record ipv6_state : Type := {
  v6_is_first_byte : bool;
  current_textual_block_size : Z;
  colon_count : Z;
  octet6 : nat;
  previous_character : option u8;
  octets6 : list u8;
}.

(** [char::to_digit(16)]. *)
Definition to_digit16 (c : u8) : option Z :=
  if u8_in "0" "9" c then Some (u8_to_Z c - u8_to_Z "0")
  else if u8_in "a" "f" c then Some (u8_to_Z c - u8_to_Z "a" + 10)
  else if u8_in "A" "F" c then Some (u8_to_Z c - u8_to_Z "A" + 10)
  else None.

Section IpAddress.
Context {U : Untrusted}.

(** The [match] of the loop of [parse_ipv4_address]; [ip_address] is the
    reader after the byte. *)
Definition ipv4_byte (b : option u8) (ip_address : Reader) (s : ipv4_state)
    : outcome AddrParseError ipv4_state :=
  match b with
  | None => Err AddrParse
  | Some number =>
    if u8_eqb number "." then
      if v4_is_first_byte s then Err AddrParse
      else if at_end ip_address then Err AddrParse
      else if dot_count4 s =? 3 then Err AddrParse
      else if (current_size s =? 0)%nat then Err AddrParse
      else
        let? current_raw_octet := radix10_to_octet (take (current_size s) (current_octet s)) in
        if 255 <? current_raw_octet then Err AddrParse
        else
          let? v := u8_try_into current_raw_octet in
          let? octets := array_set (octets4 s) (octet4 s) v in
          Ok {| v4_is_first_byte := false; current_octet := [x00; x00; x00];
                current_size := 0; dot_count4 := dot_count4 s + 1;
                octet4 := S (octet4 s); octets4 := octets |}
    else if u8_in "0" "9" number then
      if u8_eqb number "0" && (current_size s =? 0)%nat
         && negb (peek ip_address ".") && negb (at_end ip_address)
      then Err AddrParse
      else if (length (current_octet s) <=? current_size s)%nat then Err AddrParse
      else
        let? current_octet :=
          array_set (current_octet s) (current_size s)
            (u8_of_Z (u8_to_Z number - u8_to_Z "0")) in
        Ok {| v4_is_first_byte := false; current_octet := current_octet;
              current_size := S (current_size s); dot_count4 := dot_count4 s;
              octet4 := octet4 s; octets4 := octets4 s |}
    else Err AddrParse
  end.

Fixpoint ipv4_loop (fuel : nat) (ip_address : Reader) (s : ipv4_state)
    : outcome AddrParseError ipv4_state :=
  match fuel with
  | O => OutOfFuel
  | S fuel =>
    let '(b, ip_address) := read_byte ip_address in
    let? s := ipv4_byte b ip_address s in
    if at_end ip_address then
      let? last_octet := radix10_to_octet (take (current_size s) (current_octet s)) in
      if negb (current_size s =? 0)%nat && (255 <? last_octet) then Err AddrParse
      else
        let? v := u8_try_into last_octet in
        let? octets := array_set (octets4 s) (octet4 s) v in
        Ok {| v4_is_first_byte := v4_is_first_byte s; current_octet := current_octet s;
              current_size := current_size s; dot_count4 := dot_count4 s;
              octet4 := octet4 s; octets4 := octets |}
    else ipv4_loop fuel ip_address s
  end.

Definition parse_ipv4_address (ip_address_ : list u8) : outcome AddrParseError IpAddrRef :=
  let? s :=
    ipv4_loop (S (length ip_address_)) (reader_new ip_address_)
      {| v4_is_first_byte := true; current_octet := [x00; x00; x00]; current_size := 0;
         dot_count4 := 0; octet4 := 0; octets4 := [x00; x00; x00; x00] |} in
  if negb (dot_count4 s =? 3) then Err AddrParse else Ok (V4 ip_address_ (octets4 s)).

(** The [match] of the loop of [parse_ipv6_address]. *)
Definition ipv6_byte (b : option u8) (ip_address : Reader) (s : ipv6_state)
    : outcome AddrParseError ipv6_state :=
  match b with
  | None => Err AddrParse
  | Some character =>
    if u8_eqb character ":" then
      if v6_is_first_byte s then Err AddrParse
      else if at_end ip_address then Err AddrParse
      else if colon_count s =? 7 then Err AddrParse
      else if current_textual_block_size s =? 0 then Err AddrParse
      else if negb (current_textual_block_size s =? 4) then Err AddrParse
      else Ok {| v6_is_first_byte := false; current_textual_block_size := 0;
                 colon_count := colon_count s + 1; octet6 := octet6 s;
                 previous_character := None; octets6 := octets6 s |}
    else if u8_in "0" "9" character || u8_in "a" "f" character || u8_in "A" "F" character then
      if current_textual_block_size s =? 4 then Err AddrParse
      else
        match previous_character s with
        | Some previous_character_ =>
          let? high := unwrap (to_digit16 previous_character_) in
          let? high := u8_try_into high in
          let? low := unwrap (to_digit16 character) in
          let? low := u8_try_into low in
          let? octets :=
            array_set (octets6 s) (octet6 s)
              (u8_or (u8_of_Z (Z.shiftl (u8_to_Z high) 4)) low) in
          Ok {| v6_is_first_byte := false;
                current_textual_block_size := current_textual_block_size s + 1;
                colon_count := colon_count s; octet6 := S (octet6 s);
                previous_character := None; octets6 := octets |}
        | None =>
          Ok {| v6_is_first_byte := false;
                current_textual_block_size := current_textual_block_size s + 1;
                colon_count := colon_count s; octet6 := octet6 s;
                previous_character := Some character; octets6 := octets6 s |}
        end
    else Err AddrParse
  end.

Fixpoint ipv6_loop (fuel : nat) (ip_address : Reader) (s : ipv6_state)
    : outcome AddrParseError ipv6_state :=
  match fuel with
  | O => OutOfFuel
  | S fuel =>
    let '(b, ip_address) := read_byte ip_address in
    let? s := ipv6_byte b ip_address s in
    if at_end ip_address then Ok s else ipv6_loop fuel ip_address s
  end.

Definition parse_ipv6_address (ip_address_ : list u8) : outcome AddrParseError IpAddrRef :=
  if negb (length ip_address_ =? 39)%nat then Err AddrParse
  else
    let? s :=
      ipv6_loop (S (length ip_address_)) (reader_new ip_address_)
        {| v6_is_first_byte := true; current_textual_block_size := 0; colon_count := 0;
           octet6 := 0; previous_character := None; octets6 := repeat x00 16 |} in
    if negb (colon_count s =? 7) then Err AddrParse else Ok (V6 ip_address_ (octets6 s)).

Definition IpAddrRef_try_from_ascii (ip_address : list u8) : outcome AddrParseError IpAddrRef :=
  match parse_ipv4_address ip_address with
  | Err _ =>
    match parse_ipv6_address ip_address with
    | Err _ => Err AddrParse
    | other => other
    end
  | other => other
  end.

(** From a [&str], which is its bytes. *)
Definition IpAddrRef_try_from_ascii_str (ip_address : list u8)
    : outcome AddrParseError IpAddrRef :=
  IpAddrRef_try_from_ascii ip_address.

(** ** Matching *)
Fixpoint ip_equal_loop (fuel : nat) (presented_ip_address reference_ip_address : Reader)
    : outcome Error bool :=
  match fuel with
  | O => OutOfFuel
  | S fuel =>
    if at_end presented_ip_address then Ok true
    else
      let '(p, presented_ip_address) := read_byte presented_ip_address in
      let? presented_ip_address_byte := unwrap p in
      let '(r, reference_ip_address) := read_byte reference_ip_address in
      let? reference_ip_address_byte := unwrap r in
      if negb (u8_eqb presented_ip_address_byte reference_ip_address_byte) then Ok false
      else ip_equal_loop fuel presented_ip_address reference_ip_address
  end.

Definition ip_presented_id_matches_reference_id (presented_id reference_id : Input)
    : outcome Error bool :=
  match length presented_id, length reference_id with
  | 4%nat, 4%nat | 16%nat, 16%nat =>
    ip_equal_loop (S (length presented_id)) (reader_new presented_id) (reader_new reference_id)
  | _, _ => Ok false
  end.

Fixpoint count_leading (v : bool) (bits : list bool) : Z :=
  match bits with
  | [] => 0
  | b :: bits => if Bool.eqb b v then 1 + count_leading v bits else 0
  end.

(** [u8::leading_ones] and [u8::trailing_zeros]. *)
Definition leading_ones (b : u8) : Z := count_leading true (bits_of_byte b).
Definition trailing_zeros (b : u8) : Z := count_leading false (reverse (bits_of_byte b)).

Fixpoint ip_mask_loop (fuel : nat) (name constraint_address constraint_mask : Reader)
    (seen_zero_bit : bool) : outcome Error bool :=
  match fuel with
  | O => OutOfFuel
  | S fuel =>
    let '(n, name) := read_byte name in
    let? name_byte := unwrap n in
    let '(a, constraint_address) := read_byte constraint_address in
    let? constraint_address_byte := unwrap a in
    let '(m, constraint_mask) := read_byte constraint_mask in
    let? constraint_mask_byte := unwrap m in
    let leading := leading_ones constraint_mask_byte in
    let trailing := trailing_zeros constraint_mask_byte in
    if negb (leading + trailing =? 8) then Err InvalidNetworkMaskConstraint
    else if seen_zero_bit && negb (u8_eqb constraint_mask_byte x00)
    then Err InvalidNetworkMaskConstraint
    else
      let seen_zero_bit := if negb (u8_eqb constraint_mask_byte xff) then true else seen_zero_bit in
      if negb (u8_eqb (u8_and (u8_xor name_byte constraint_address_byte) constraint_mask_byte) x00)
      then Ok false
      else if at_end name then Ok true
      else ip_mask_loop fuel name constraint_address constraint_mask seen_zero_bit
  end.

Definition read_address_and_mask (constraint : Input) : parser Error (Input * Input) :=
  fun value =>
    let '(address, value) := read_bytes value (N.of_nat (length constraint / 2)) in
    let '(mask, value) := read_bytes value (N.of_nat (length constraint / 2)) in
    (let? address := unwrap address in let? mask := unwrap mask in Ok (address, mask), value).

Definition ip_presented_id_matches_constraint (name constraint : Input) : outcome Error bool :=
  match length name, length constraint with
  | 4%nat, 8%nat | 16%nat, 32%nat =>
    let? (constraint_address, constraint_mask) :=
      read_all constraint BadDer (read_address_and_mask constraint) in
    ip_mask_loop (S (length name)) (reader_new name) (reader_new constraint_address)
      (reader_new constraint_mask) false
  | 4%nat, 32%nat | 16%nat, 8%nat => Ok false
  | 4%nat, _ | 16%nat, _ => Err InvalidNetworkMaskConstraint
  | _, _ => Err BadDer
  end.
End IpAddress.

(** ** Lemmas: IPv4 text *)

(** The value of decimal digits, most significant first. *)
Definition dec_value (ds : list u8) : Z :=
  fold_left (fun acc d => acc * 10 + (u8_to_Z d - u8_to_Z "0")) ds 0.

Definition is_digit (b : u8) : bool := u8_in "0" "9" b.

(** A prefix of the decimal text of an octet. *)
Definition decimal_prefix (ds : list u8) : Prop :=
  forallb is_digit ds = true /\ (length ds <= 3)%nat /\
  (head ds = Some "0"%byte -> ds = ["0"%byte]).

Lemma is_digit_range b : is_digit b = true <-> 48 <= u8_to_Z b <= 57.
Proof.
  unfold is_digit, u8_in. rewrite andb_true_iff, !Z.leb_le.
  change (u8_to_Z "0") with 48. change (u8_to_Z "9") with 57. done.
Qed.

Lemma decimal_digit_of b v : is_digit b = true -> v = u8_to_Z b - 48 -> decimal_digit v = b.
Proof.
  intros Hb%is_digit_range ->. unfold decimal_digit. change (u8_to_Z "0") with 48.
  apply u8_of_Z_eq. lia.
Qed.

Lemma u8_eqb_zero b : u8_to_Z b = 48 -> b = "0"%byte.
Proof. by destruct b. Qed.

(** A prefix that is not empty and below 256 is the text of its value. *)
Lemma decimal_of_value ds : decimal_prefix ds -> ds <> [] -> dec_value ds <= 255 ->
  0 <= dec_value ds /\ decimal (u8_of_Z (dec_value ds)) = ds.
Proof.
  intros (Hd & Hl & Hz) Hne Hv. unfold dec_value in *. change (u8_to_Z "0") with 48 in *.
  destruct ds as [|a [|b [|c [|]]]]; simpl in *; try done; try lia;
    rewrite ?andb_true_r, ?andb_true_iff in Hd.
  - pose proof (proj1 (is_digit_range a) Hd). split; [lia|].
    unfold decimal. rewrite u8_to_of_Z by lia. rewrite (proj2 (Z.ltb_lt _ 10)) by lia.
    f_equal. apply decimal_digit_of; [done|lia].
  - destruct Hd as [Ha Hb]. pose proof (proj1 (is_digit_range a) Ha).
    pose proof (proj1 (is_digit_range b) Hb).
    assert (u8_to_Z a <> 48).
    { intros ->%u8_eqb_zero. by specialize (Hz eq_refl). }
    split; [lia|]. unfold decimal. rewrite u8_to_of_Z by lia.
    rewrite (proj2 (Z.ltb_ge _ 10)), (proj2 (Z.ltb_lt _ 100)) by lia.
    f_equal; [|f_equal]; (apply decimal_digit_of; [done|lia_div]).
  - destruct Hd as [Ha [Hb Hc]]. pose proof (proj1 (is_digit_range a) Ha).
    pose proof (proj1 (is_digit_range b) Hb). pose proof (proj1 (is_digit_range c) Hc).
    assert (u8_to_Z a <> 48).
    { intros ->%u8_eqb_zero. by specialize (Hz eq_refl). }
    split; [lia|]. unfold decimal. rewrite u8_to_of_Z by lia.
    rewrite (proj2 (Z.ltb_ge _ 10)), (proj2 (Z.ltb_ge _ 100)) by lia.
    f_equal; [|f_equal; [|f_equal]]; (apply decimal_digit_of; [done|lia_div]).
Qed.

(** The text of an octet. *)
Lemma decimal_text o : decimal_prefix (decimal o) /\ decimal o <> [] /\
  dec_value (decimal o) = u8_to_Z o.
Proof. destruct o; (split; [split; [done|split; [vm_compute; lia|done]]|done]). Qed.

Lemma decimal_digits o : forallb is_digit (decimal o) = true.
Proof. apply decimal_text. Qed.

Lemma ipv4_cons o rest : rest <> [] ->
  ipv4_to_string (o :: rest) = decimal o ++ "."%byte :: ipv4_to_string rest.
Proof. by destruct rest. Qed.

(** Two texts that start with digits agree on them. *)
Lemma digits_dot_inj a b l l' : forallb is_digit a = true -> forallb is_digit b = true ->
  a ++ "."%byte :: l = b ++ "."%byte :: l' -> a = b /\ l = l'.
Proof.
  revert b. induction a as [|x a IH]; intros [|y b] Ha Hb H; simplify_eq/=; try done.
  apply andb_true_iff in Ha as [_ Ha], Hb as [_ Hb].
  destruct (IH b Ha Hb) as [-> ->]; done.
Qed.

Lemma digits_dot_neq a b l : forallb is_digit b = true -> a ++ "."%byte :: l <> b.
Proof.
  revert b. induction a as [|x a IH]; intros [|y b] Hb; simplify_eq/=;
    [done|by intros [= <- <-]|done|].
  apply andb_true_iff in Hb as [_ Hb]. intros [= _ H]. by apply (IH b).
Qed.

Lemma split_print cur l rest : forallb is_digit cur = true ->
  rest <> [] /\ cur ++ "."%byte :: l = ipv4_to_string rest <->
  exists o rest', rest = o :: rest' /\ rest' <> [] /\ cur = decimal o /\
                  l = ipv4_to_string rest'.
Proof.
  intros Hcur. split.
  - intros [Hne H]. destruct rest as [|o rest]; [done|]. destruct rest as [|o' rest].
    + simpl in H. rewrite app_nil_r in H. by apply digits_dot_neq in H; [|apply decimal_digits].
    + rewrite ipv4_cons in H by done.
      apply digits_dot_inj in H as [-> ->]; [eauto 6|done|apply decimal_digits].
  - intros (o & rest' & -> & Hne & -> & ->). by rewrite ipv4_cons.
Qed.

Lemma end_print cur rest : forallb is_digit cur = true ->
  rest <> [] /\ cur = ipv4_to_string rest <-> exists o, rest = [o] /\ cur = decimal o.
Proof.
  intros Hcur. split.
  - intros [Hne H]. destruct rest as [|o [|o' rest]]; [done| |].
    + exists o. simpl in H. by rewrite app_nil_r in H.
    + rewrite ipv4_cons in H by done. symmetry in H. by apply digits_dot_neq in H.
  - intros (o & -> & ->). simpl. by rewrite app_nil_r.
Qed.

(** Digits at the start of a text are a prefix of the first octet. *)
Lemma prefix_print ds l rest : forallb is_digit ds = true -> rest <> [] ->
  ds ++ l = ipv4_to_string rest ->
  exists o ds', decimal o = ds ++ ds' /\ (ds' = [] -> l = [] \/ head l = Some "."%byte).
Proof.
  intros Hd Hne H. destruct rest as [|o rest]; [done|]. exists o.
  assert (exists tl, ipv4_to_string (o :: rest) = decimal o ++ tl /\
            (tl = [] \/ head tl = Some "."%byte)) as (tl & Htl & Hdot).
  { destruct rest; [exists []; simpl; auto|]. rewrite ipv4_cons by done. eauto. }
  rewrite Htl in H. clear Htl Hne. pose proof (decimal_digits o) as Ho. revert H Ho.
  generalize (decimal o) as d. revert Hd. induction ds as [|x ds IH]; intros Hd d H Ho.
  - simpl in H. subst l. exists d. split; [done|]. by intros ->.
  - destruct d as [|y d].
    + simpl in H. subst tl. destruct Hdot as [|[= ->]]; [done|]. done.
    + injection H as -> H. apply andb_true_iff in Hd as [_ Hd], Ho as [_ Ho].
      destruct (IH Hd d H Ho) as (ds' & -> & Hds). eauto.
Qed.

(** *** The loop on characters *)

(** The loop of [parse_ipv4_address] on the characters left, those of the
    current octet and the octets read. *)
Fixpoint ipv4_run (l cur octs : list u8) : option (list u8) :=
  match l with
  | [] => None
  | b :: l =>
    if u8_eqb b "." then
      if bool_decide (l = []) || bool_decide (length octs = 3%nat) || bool_decide (cur = [])
         || (255 <? dec_value cur)
      then None else ipv4_run l [] (octs ++ [u8_of_Z (dec_value cur)])
    else if is_digit b then
      if u8_eqb b "0" && bool_decide (cur = [])
         && negb (bool_decide (head l = Some "."%byte)) && negb (bool_decide (l = []))
      then None
      else if (3 <=? length cur)%nat then None
      else
        match l with
        | [] =>
          if 255 <? dec_value (cur ++ [b]) then None
          else Some (octs ++ [u8_of_Z (dec_value (cur ++ [b]))])
        | _ => ipv4_run l (cur ++ [b]) octs
        end
    else None
  end.

Lemma decimal_prefix_nil : decimal_prefix [].
Proof. split_and!; simpl; done || lia. Qed.

Lemma decimal_prefix_of ds o ds' : decimal o = ds ++ ds' ->
  decimal_prefix ds /\ (head ds = Some "0"%byte -> ds' = []).
Proof.
  intros H. destruct (decimal_text o) as ((Hd & Hl & Hz) & _ & _). rewrite H in *.
  rewrite forallb_app in Hd. apply andb_true_iff in Hd as [Hd _]. rewrite length_app in Hl.
  destruct ds as [|x ds]; simpl in *.
  - split; [split_and!; simpl; done || lia|done].
  - split; [split_and!; [done|simpl; lia|]|].
    + intros Hx. specialize (Hz Hx). injection Hz as -> Hz. by apply app_nil in Hz as [-> _].
    + intros Hx. specialize (Hz Hx). injection Hz as -> Hz. by apply app_nil in Hz as [_ ->].
Qed.

(** What may follow a lone zero. *)
Definition zero_ok (cur l : list u8) : Prop :=
  cur = ["0"%byte] -> l = [] \/ head l = Some "."%byte.

(** What the rest of the text has to be. *)
Definition ipv4_rest (l cur octs os : list u8) : Prop :=
  exists rest, os = octs ++ rest /\ (length octs + length rest <= 4)%nat /\
    rest <> [] /\ cur ++ l = ipv4_to_string rest.

Lemma ipv4_print_nonempty rest : rest <> [] -> ipv4_to_string rest <> [].
Proof.
  destruct rest as [|o rest]; [done|]. intros _ H. destruct (decimal_text o) as (_ & Hne & _).
  simpl in H. by apply app_nil in H as [? _].
Qed.

Lemma decimal_inj o o' : decimal o = decimal o' -> o = o'.
Proof.
  intros H. apply u8_to_Z_inj. destruct (decimal_text o) as (_ & _ & <-).
  destruct (decimal_text o') as (_ & _ & <-). by rewrite H.
Qed.

Lemma decimal_value_small o : dec_value (decimal o) <= 255.
Proof. destruct (decimal_text o) as (_ & _ & ->). pose proof (u8_to_Z_range o). lia. Qed.

Lemma ipv4_rest_dot l cur octs os : forallb is_digit cur = true ->
  ipv4_rest ("."%byte :: l) cur octs os <->
  exists o, cur = decimal o /\ l <> [] /\ (length octs <= 2)%nat /\
            ipv4_rest l [] (octs ++ [o]) os.
Proof.
  intros Hcur. unfold ipv4_rest. split.
  - intros (rest & -> & Hlen & Hne & Ht).
    destruct (proj1 (split_print cur l rest Hcur) (conj Hne Ht)) as (o & rest' & -> & Hne' & -> & ->).
    exists o. simpl in Hlen. assert (0 < length rest')%nat by (destruct rest'; simpl; lia || done).
    split_and!; [done|by apply ipv4_print_nonempty|lia|]. exists rest'.
    rewrite length_app, <- app_assoc. simpl. split_and!; [done|lia|done|done].
  - intros (o & -> & Hl & Ho & rest' & -> & Hlen & Hne & Ht). simpl in Ht. subst l.
    exists (o :: rest'). rewrite (ipv4_cons o rest'), <- app_assoc by done.
    rewrite length_app in Hlen. simpl in *. split_and!; [done|lia|done|done].
Qed.

Lemma ipv4_rest_end b cur octs os : forallb is_digit (cur ++ [b]) = true ->
  ipv4_rest [b] cur octs os <->
  exists o, cur ++ [b] = decimal o /\ os = octs ++ [o] /\ (length octs <= 3)%nat.
Proof.
  intros Hcur. unfold ipv4_rest. split.
  - intros (rest & -> & Hlen & Hne & Ht).
    destruct (proj1 (end_print _ rest Hcur) (conj Hne Ht)) as (o & -> & ->).
    exists o. simpl in Hlen. split_and!; [done|done|lia].
  - intros (o & Ho & -> & Hlen). exists [o]. simpl. rewrite app_nil_r. split_and!; [done|lia|done|done].
Qed.

Lemma ipv4_rest_digits b l cur octs os : forallb is_digit (cur ++ [b]) = true ->
  ipv4_rest (b :: l) cur octs os ->
  decimal_prefix (cur ++ [b]) /\ zero_ok (cur ++ [b]) l.
Proof.
  intros Hd (rest & _ & _ & Hne & Ht).
  replace (cur ++ b :: l) with ((cur ++ [b]) ++ l) in Ht by (by rewrite <- app_assoc).
  destruct (prefix_print _ l rest Hd Hne Ht) as (o & ds' & Ho & Hl).
  destruct (decimal_prefix_of _ _ _ Ho) as [Hp Hz]. split; [done|].
  intros Hc. rewrite Hc in Hz. by apply Hl, Hz.
Qed.

Lemma ipv4_rest_char b l cur octs os : u8_eqb b "." = false -> is_digit b = false ->
  ~ ipv4_rest (b :: l) cur octs os.
Proof.
  intros Hb Hd (rest & _ & _ & _ & Ht).
  assert (Forall (fun c => u8_eqb c "." || is_digit c = true) (ipv4_to_string rest)) as Hall.
  { clear Ht. induction rest as [|o rest IH]; [by constructor|].
    assert (Forall (fun c => u8_eqb c "." || is_digit c = true) (decimal o)) as Ho.
    { apply Forall_forall. intros c Hc%list_elem_of_In. pose proof (decimal_digits o) as Ho.
      rewrite forallb_forall in Ho. by rewrite (Ho c Hc), orb_true_r. }
    destruct rest as [|o' rest]; [simpl; by rewrite app_nil_r|].
    rewrite ipv4_cons by done. apply Forall_app. split; [done|]. by constructor. }
  rewrite <- Ht in Hall. apply Forall_app in Hall as [_ [H _]%Forall_cons]. by rewrite Hb, Hd in H.
Qed.

Lemma ipv4_run_iff l : l <> [] -> forall cur octs os, decimal_prefix cur -> zero_ok cur l ->
  (length octs <= 3)%nat ->
  ipv4_run l cur octs = Some os <-> ipv4_rest l cur octs os.
Proof.
  induction l as [|b l IH]; intros Hne cur octs os Hcur Hzero Hocts; [done|]. cbn [ipv4_run].
  destruct (u8_eqb b ".") eqn:Eb; [apply u8_eqb_eq in Eb as ->|destruct (is_digit b) eqn:Ed].
  - rewrite ipv4_rest_dot by apply Hcur.
    destruct (bool_decide_reflect (l = [])) as [->|Hl]; cbn [orb]; [naive_solver|].
    destruct (bool_decide_reflect (length octs = 3%nat)) as [Ho|Ho]; cbn [orb].
    { split; [done|]. intros (o & _ & _ & ? & _). lia. }
    destruct (bool_decide_reflect (cur = [])) as [->|Hc]; cbn [orb].
    { split; [done|]. intros (o & H & _). by destruct (decimal_text o) as (_ & [] & _). }
    destruct (Z.ltb_spec 255 (dec_value cur)) as [Hv|Hv].
    { split; [done|]. intros (o & -> & _). pose proof (decimal_value_small o). lia. }
    destruct (decimal_of_value cur Hcur Hc Hv) as [_ Hdec].
    rewrite IH by (done || apply decimal_prefix_nil || (rewrite length_app; simpl; lia)).
    split.
    + intros H. eexists. split; [by symmetry|]. split_and!; [done|lia|done].
    + intros (o & Ho' & _ & _ & H). rewrite Ho' in Hdec |- *. apply decimal_inj in Hdec.
      by rewrite Hdec.
  - assert (forallb is_digit (cur ++ [b]) = true) as Hdig.
    { rewrite forallb_app. destruct Hcur as [-> _]. simpl. by rewrite Ed. }
    destruct (u8_eqb b "0" && bool_decide (cur = [])
              && negb (bool_decide (head l = Some "."%byte)) && negb (bool_decide (l = []))) eqn:Ez.
    { split; [done|]. intros [_ H]%ipv4_rest_digits; [|done].
      rewrite !andb_true_iff, !negb_true_iff, !bool_decide_eq_false, bool_decide_eq_true, u8_eqb_eq in Ez.
      destruct Ez as [[[-> ->] Hh] Hl]. by destruct (H eq_refl). }
    destruct (Nat.leb_spec 3 (length cur)) as [Hl|Hl].
    { split; [done|]. intros [(_ & H & _) _]%ipv4_rest_digits; [|done].
      rewrite length_app in H. simpl in H. lia. }
    assert (cur <> ["0"%byte]) as Hc0.
    { intros Hc. destruct (Hzero Hc) as [|[= ->]]; [done|]. done. }
    assert (decimal_prefix (cur ++ [b])) as Hpre.
    { destruct Hcur as (_ & _ & Hz). split_and!; [done|rewrite length_app; simpl; lia|].
      destruct cur as [|x cur]; [by intros [= ->]|]. intros Hx. by destruct Hc0; apply Hz. }
    destruct l as [|c l].
    + rewrite ipv4_rest_end by done. destruct (Z.ltb_spec 255 (dec_value (cur ++ [b]))) as [Hv|Hv].
      * split; [done|]. intros (o & Ho & _). rewrite Ho in Hv. pose proof (decimal_value_small o). lia.
      * destruct (decimal_of_value (cur ++ [b]) Hpre ltac:(by destruct cur) Hv) as [_ Hdec]. split.
        -- intros [= <-]. eexists. split; [by symmetry|done].
        -- intros (o & Ho & -> & _). rewrite Ho in Hdec. apply decimal_inj in Hdec. by rewrite Ho, Hdec.
    + rewrite IH; [|done|done| |done].
      * unfold ipv4_rest. by rewrite <- app_assoc.
      * intros Hcb. destruct cur as [|x cur]; [|by destruct cur]. injection Hcb as ->.
        simpl in Ez. right. destruct (bool_decide_reflect (head (c :: l) = Some "."%byte)); [done|].
        by rewrite bool_decide_eq_false_2 in Ez.
  - split; [done|]. by intros ?%ipv4_rest_char.
Qed.

(** *** The loop on the reader *)
Definition digit_value (c : u8) : u8 := u8_of_Z (u8_to_Z c - u8_to_Z "0").

(** The state inside the octet [cur], after the octets [octs]. *)
Definition in_octet (first : bool) (cur octs : list u8) : ipv4_state := {|
  v4_is_first_byte := first;
  current_octet := map digit_value cur ++ repeat x00 (3 - length cur);
  current_size := length cur;
  dot_count4 := Z.of_nat (length octs);
  octet4 := length octs;
  octets4 := octs ++ repeat x00 (4 - length octs);
|}.

Lemma array_set_app {E A} (a : list A) x b v :
  array_set (E := E) (a ++ x :: b) (length a) v = Ok (a ++ v :: b).
Proof.
  unfold array_set. rewrite length_app. simpl.
  rewrite (proj2 (Nat.ltb_lt _ _)) by lia. f_equal. induction a as [|y a IH]; [done|].
  simpl. by rewrite IH.
Qed.

Lemma array_set_pad {E} (a : list u8) n v : (length a < n)%nat ->
  array_set (E := E) (a ++ repeat x00 (n - length a)) (length a) v
  = Ok ((a ++ [v]) ++ repeat x00 (n - length (a ++ [v]))).
Proof.
  intros Hl. replace (n - length a)%nat with (S (n - length (a ++ [v])))
    by (rewrite length_app; simpl; lia).
  simpl. rewrite array_set_app, <- app_assoc. done.
Qed.

Lemma radix10_eq {E} cur : forallb is_digit cur = true -> (length cur <= 3)%nat ->
  radix10_to_octet (E := E) (map digit_value cur) = Ok (dec_value cur).
Proof.
  intros Hd Hl. unfold radix10_to_octet, dec_value.
  assert (forall acc, 0 <= acc -> acc * 10 ^ Z.of_nat (length cur) + 10 ^ Z.of_nat (length cur) < 2 ^ 32 ->
    radix10_loop (E := E) (map digit_value cur) acc =
    Ok (fold_left (fun acc d => acc * 10 + (u8_to_Z d - u8_to_Z "0")) cur acc)) as H.
  { clear Hl. induction cur as [|c cur IH]; intros acc Ha Hb; [done|].
    simpl in Hd. apply andb_true_iff in Hd as [Hc Hd]. apply is_digit_range in Hc.
    cbn [map radix10_loop fold_left]. cbn [length] in Hb.
    rewrite Nat2Z.inj_succ, Z.pow_succ_r in Hb by lia.
    assert (1 <= 10 ^ Z.of_nat (length cur)) by (pose proof (Z.pow_pos_nonneg 10 (Z.of_nat (length cur))); lia).
    rewrite u32_mul_ok by nia. cbn [obind]. unfold digit_value.
    change (u8_to_Z "0") with 48. rewrite u8_to_of_Z by lia.
    rewrite u32_add_ok by nia. cbn [obind]. apply IH; [done|lia|nia]. }
  apply H; [lia|].
  assert (10 ^ Z.of_nat (length cur) <= 10 ^ 3) by (apply Z.pow_le_mono_r; lia). lia.
Qed.

Lemma u8_try_into_ok {E} v : 0 <= v <= 255 -> u8_try_into (E := E) v = Ok (u8_of_Z v).
Proof.
  intros Hv. unfold u8_try_into. by rewrite (proj2 (Z.leb_le 0 v)), (proj2 (Z.leb_le v 255)) by lia.
Qed.

Lemma take_pad (cur : list u8) n :
  take (length cur) (map digit_value cur ++ repeat x00 n) = map digit_value cur.
Proof. by rewrite take_app_length' by (by rewrite length_map). Qed.

Lemma dec_value_nonneg cur : forallb is_digit cur = true -> 0 <= dec_value cur.
Proof.
  intros Hd. unfold dec_value.
  assert (forall acc, 0 <= acc ->
    0 <= fold_left (fun acc d => acc * 10 + (u8_to_Z d - u8_to_Z "0")) cur acc) as H; [|by apply H].
  induction cur as [|c cur IH]; intros acc Ha; [done|]. simpl in *.
  apply andb_true_iff in Hd as [Hc%is_digit_range Hd]. apply IH; [done|].
  change (u8_to_Z "0") with 48. lia.
Qed.

Section Ipv4Loop.
Context {U : Untrusted} {L : UntrustedLaws U}.

(** One character of the address. *)
Lemma ipv4_byte_eq b l ip_address first cur octs :
  remaining ip_address = l -> forallb is_digit cur = true -> (length cur <= 3)%nat ->
  (length octs <= 3)%nat -> (first = true -> cur = []) ->
  ipv4_byte (Some b) ip_address (in_octet first cur octs) =
    if u8_eqb b "." then
      if bool_decide (l = []) || bool_decide (length octs = 3%nat) || bool_decide (cur = [])
         || (255 <? dec_value cur)
      then Err AddrParse
      else Ok (in_octet false [] (octs ++ [u8_of_Z (dec_value cur)]))
    else if is_digit b then
      if u8_eqb b "0" && bool_decide (cur = [])
         && negb (bool_decide (head l = Some "."%byte)) && negb (bool_decide (l = []))
      then Err AddrParse
      else if (3 <=? length cur)%nat then Err AddrParse
      else Ok (in_octet false (cur ++ [b]) octs)
    else Err AddrParse.
Proof.
  intros Hl Hd Hlen Ho Hf. unfold ipv4_byte. cbn [in_octet v4_is_first_byte current_octet
    current_size dot_count4 octet4 octets4].
  rewrite at_end_spec, peek_spec, Hl.
  replace (match l with [] => true | _ => false end) with (bool_decide (l = [])) by (by destruct l).
  replace (match l with [] => false | c :: _ => u8_eqb c "." end)
    with (bool_decide (head l = Some "."%byte)) by (destruct l; [done|]; apply bool_decide_Some_eqb).
  replace (length cur =? 0)%nat with (bool_decide (cur = [])) by (by destruct cur).
  destruct (u8_eqb b ".").
  - replace (Z.of_nat (length octs) =? 3) with (bool_decide (length octs = 3%nat)).
    2: { destruct (Z.eqb_spec (Z.of_nat (length octs)) 3); [apply bool_decide_eq_true_2; lia|].
         apply bool_decide_eq_false_2. lia. }
    destruct first; [rewrite (Hf eq_refl), (bool_decide_eq_true_2 (@nil u8 = [])) by done;
      by rewrite orb_true_r|].
    destruct (bool_decide (l = [])); [done|].
    destruct (bool_decide_reflect (length octs = 3%nat)) as [|Ho3]; [done|].
    destruct (bool_decide (cur = [])); [done|]. cbn [orb].
    rewrite take_pad, radix10_eq by done. cbn [obind].
    destruct (Z.ltb_spec 255 (dec_value cur)); [done|].
    pose proof (dec_value_nonneg cur Hd).
    rewrite u8_try_into_ok by lia. cbn [obind]. rewrite array_set_pad by lia. cbn [obind].
    f_equal. unfold in_octet. rewrite length_app. simpl. f_equal; lia.
  - destruct (is_digit b) eqn:Eb; unfold is_digit in Eb; rewrite Eb; [|done].
    destruct (u8_eqb b "0" && bool_decide (cur = [])
              && negb (bool_decide (head l = Some "."%byte)) && negb (bool_decide (l = []))); [done|].
    rewrite length_app, length_map, repeat_length.
    replace (length cur + (3 - length cur))%nat with 3%nat by lia.
    destruct (Nat.leb_spec 3 (length cur)); [done|].
    pose proof (array_set_pad (E := AddrParseError) (map digit_value cur) 3 (digit_value b)) as Ha.
    rewrite length_map in Ha. fold (digit_value b). rewrite Ha by lia. cbn [obind]. f_equal. unfold in_octet.
    rewrite map_app, !length_app, length_map. simpl. f_equal. lia.
Qed.

Lemma ipv4_loop_eq : forall l fuel ip_address first cur octs,
  remaining ip_address = l -> (length l < fuel)%nat -> forallb is_digit cur = true ->
  (length cur <= 3)%nat -> (length octs <= 3)%nat -> (first = true -> cur = []) ->
  match ipv4_run l cur octs with
  | None => ipv4_loop fuel ip_address (in_octet first cur octs) = Err AddrParse
  | Some os => exists s, ipv4_loop fuel ip_address (in_octet first cur octs) = Ok s /\
      octets4 s = os ++ repeat x00 (4 - length os) /\ dot_count4 s = Z.of_nat (length os) - 1
  end.
Proof.
  induction l as [|b l IH]; intros [|fuel] ip_address first cur octs Hl Hf Hd Hc Ho Hfirst;
    simpl in Hf; try lia; cbn [ipv4_loop ipv4_run].
  { by destruct (read_byte_nil _ Hl) as (r' & -> & _). }
  destruct (read_byte_cons _ _ _ Hl) as (r' & -> & Hr').
  rewrite (ipv4_byte_eq b l) by done. rewrite at_end_spec, Hr'.
  destruct (u8_eqb b "."); [|destruct (is_digit b) eqn:Eb; [|done]].
  - destruct (bool_decide_reflect (l = [])) as [|Hne]; [done|].
    destruct (bool_decide_reflect (length octs = 3%nat)) as [|Ho3]; [done|].
    destruct (_ || _); [done|]. cbn [obind]. destruct l as [|c l]; [done|].
    apply IH; [done|simpl in *; lia|done|simpl; lia| |done].
    rewrite length_app. simpl. lia.
  - destruct (u8_eqb b "0" && bool_decide (cur = [])
              && negb (bool_decide (head l = Some "."%byte)) && negb (bool_decide (l = []))) eqn:Ez;
      [done|].
    destruct (Nat.leb_spec 3 (length cur)) as [|Hl3]; [done|]. cbn [obind].
    assert (forallb is_digit (cur ++ [b]) = true) as Hd'.
    { rewrite forallb_app, Hd. simpl. by rewrite Eb. }
    assert (length (cur ++ [b]) <= 3)%nat as Hc' by (rewrite length_app; simpl; lia).
    destruct l as [|c l]; [|apply IH; try done; simpl in *; lia].
    cbn [in_octet current_size current_octet octet4 octets4 dot_count4].
    rewrite take_pad, radix10_eq by done. cbn [obind].
    replace (length (cur ++ [b]) =? 0)%nat with false by (by destruct cur). cbn [negb andb].
    destruct (Z.ltb_spec 255 (dec_value (cur ++ [b]))) as [|Hv]; [done|].
    pose proof (dec_value_nonneg _ Hd').
    rewrite u8_try_into_ok by lia. cbn [obind]. rewrite array_set_pad by lia. cbn [obind].
    eexists. split; [done|]. cbn [octets4 dot_count4]. split; [done|].
    rewrite length_app. simpl. lia.
Qed.

(** The parser of IPv4 addresses on every input. *)
Lemma parse_ipv4_address_eq s :
  match parse_ipv4_address s with
  | Ok (V4 text octets) => text = s /\ length octets = 4%nat /\ s = ipv4_to_string octets
  | Ok (V6 _ _) => False
  | Err _ => forall octets, length octets = 4%nat -> s <> ipv4_to_string octets
  | Panic | OutOfFuel => False
  end.
Proof.
  unfold parse_ipv4_address.
  change {| v4_is_first_byte := true; current_octet := [x00; x00; x00]; current_size := 0;
            dot_count4 := 0; octet4 := 0; octets4 := [x00; x00; x00; x00] |}
    with (in_octet true [] []).
  pose proof (ipv4_loop_eq s (S (length s)) (reader_new s) true [] []
    (remaining_new s) ltac:(lia) eq_refl ltac:(simpl; lia) ltac:(simpl; lia) ltac:(done)) as Hloop.
  assert (forall os, s <> [] -> ipv4_run s [] [] = Some os <->
            (length os <= 4)%nat /\ os <> [] /\ s = ipv4_to_string os) as Hrun.
  { intros os Hne. rewrite ipv4_run_iff by (done || apply decimal_prefix_nil || (simpl; lia)).
    unfold ipv4_rest. simpl. split; [intros (rest & -> & ? & ? & ?); done|].
    intros (? & ? & ?). by exists os. }
  destruct (ipv4_run s [] []) as [os|] eqn:Er.
  - destruct Hloop as (st & -> & Hocts & Hdots). cbn [obind]. rewrite Hdots, Hocts.
    assert (s <> []) as Hs by (by intros ->).
    destruct (proj1 (Hrun os Hs) eq_refl) as (Hl & Hne & Ht).
    destruct (Z.eqb_spec (Z.of_nat (length os) - 1) 3) as [H4|H4]; cbn [negb].
    + replace (4 - length os)%nat with 0%nat by lia. simpl. rewrite app_nil_r.
      split_and!; [done|lia|done].
    + intros octets Ho Hs'. assert (Some os = Some octets) as [= ->]; [|lia].
      apply Hrun; [done|]. split_and!; [lia|by destruct octets|done].
  - rewrite Hloop. cbn [obind]. intros octets Ho Hs.
    assert (octets <> []) as Hne by (by destruct octets).
    assert (s <> []) as Hs' by (rewrite Hs; by apply ipv4_print_nonempty).
    assert (None = Some octets) as H; [|done]. apply Hrun; [done|]. split_and!; [lia|done|done].
Qed.
End Ipv4Loop.

(** ** Lemmas: IPv6 text *)
Definition is_hex (b : u8) : bool := u8_in "0" "9" b || u8_in "a" "f" b || u8_in "A" "F" b.

(** The octet of two hexadecimal digits. *)
Definition octet_of (a b : u8) : u8 :=
  u8_of_Z (default 0 (to_digit16 a) * 16 + default 0 (to_digit16 b)).

Lemma to_digit16_hex b : is_hex b = true <-> exists d, to_digit16 b = Some d /\ 0 <= d < 16.
Proof.
  split.
  - intros H. destruct b; try discriminate H; (eexists; split; [reflexivity|vm_compute; split; congruence]).
  - intros (d & H & _). destruct b; done.
Qed.

Lemma to_digit16_lower b : to_digit16 (ascii_lower b) = to_digit16 b.
Proof. by destruct b. Qed.

Lemma hex_digit_to_digit16 d : 0 <= d < 16 -> to_digit16 (hex_digit d) = Some d.
Proof.
  intros Hd.
  assert (d = 0 \/ d = 1 \/ d = 2 \/ d = 3 \/ d = 4 \/ d = 5 \/ d = 6 \/ d = 7 \/ d = 8 \/ d = 9 \/
          d = 10 \/ d = 11 \/ d = 12 \/ d = 13 \/ d = 14 \/ d = 15) as H by lia.
  repeat (destruct H as [->|H]; [done|]). by subst d.
Qed.

Lemma hex_digit_lower b d : to_digit16 b = Some d -> hex_digit d = ascii_lower b.
Proof. destruct b; intros H; try discriminate H; injection H as <-; done. Qed.

Lemma hex2_lower o a b : [ascii_lower a; ascii_lower b] = hex2 o <->
  is_hex a = true /\ is_hex b = true /\ o = octet_of a b.
Proof.
  pose proof (u8_to_Z_range o). unfold hex2, octet_of. split.
  - intros [= Ha Hb]. apply (f_equal to_digit16) in Ha, Hb.
    rewrite to_digit16_lower, hex_digit_to_digit16 in Ha, Hb by lia_div.
    rewrite Ha, Hb. split_and!; [apply to_digit16_hex; eexists; split; [done|lia_div]..|].
    simpl. symmetry. apply u8_of_Z_eq. lia_div.
  - intros ((x & Hx & ?)%to_digit16_hex & (y & Hy & ?)%to_digit16_hex & ->).
    rewrite Hx, Hy. simpl. rewrite u8_to_of_Z by lia.
    replace ((x * 16 + y) / 16) with x by lia_div. replace ((x * 16 + y) mod 16) with y by lia_div.
    by rewrite (hex_digit_lower a x), (hex_digit_lower b y).
Qed.

(** The loop of [parse_ipv6_address] on the characters left, the size of the
    current block, the pending digit, the colons and the octets read. *)
Fixpoint ipv6_run (l : list u8) (size : Z) (prev : option u8) (n : Z) (octs : list u8)
    : option (Z * list u8) :=
  match l with
  | [] => None
  | b :: l =>
    if u8_eqb b ":" then
      if bool_decide (l = []) || (n =? 7) || negb (size =? 4) then None
      else ipv6_run l 0 None (n + 1) octs
    else if is_hex b then
      if size =? 4 then None
      else
        let prev' := match prev with Some _ => None | None => Some b end in
        let octs' := match prev with Some p => octs ++ [octet_of p b] | None => octs end in
        match l with [] => Some (n, octs') | _ => ipv6_run l (size + 1) prev' n octs' end
    else None
  end.

Lemma hex_not_colon b : is_hex b = true -> u8_eqb b ":" = false.
Proof. by destruct b. Qed.

Lemma ipv6_run_block a b c d l n octs :
  ipv6_run (a :: b :: c :: d :: l) 0 None n octs =
    if is_hex a && is_hex b && is_hex c && is_hex d then
      match l with
      | [] => Some (n, octs ++ [octet_of a b; octet_of c d])
      | e :: l' =>
        if u8_eqb e ":" && negb (bool_decide (l' = [])) && negb (n =? 7)
        then ipv6_run l' 0 None (n + 1) (octs ++ [octet_of a b; octet_of c d])
        else None
      end
    else None.
Proof.
  cbn [ipv6_run]. change (0 =? 4) with false. change (0 + 1 =? 4) with false.
  change (0 + 1 + 1 =? 4) with false. change (0 + 1 + 1 + 1 =? 4) with false.
  change (0 + 1 + 1 + 1 + 1 =? 4) with true. cbn [negb]. rewrite ?orb_true_r, ?orb_false_r.
  destruct (is_hex a) eqn:Ea; cbn [andb]; [rewrite (hex_not_colon a Ea)|by case_match].
  destruct (is_hex b) eqn:Eb; cbn [andb]; [rewrite (hex_not_colon b Eb)|by case_match].
  destruct (is_hex c) eqn:Ec; cbn [andb]; [rewrite (hex_not_colon c Ec)|by case_match].
  destruct (is_hex d) eqn:Ed; cbn [andb]; [rewrite (hex_not_colon d Ed)|by case_match].
  rewrite <- !app_assoc. cbn [app]. destruct l as [|e l']; [done|].
  change (0 + 1 + 1 + 1 + 1) with 4. cbn [ipv6_run]. change (4 =? 4) with true.
  cbn [negb]. rewrite ?orb_false_r.
  destruct (u8_eqb e ":"); cbn [andb]; [|by destruct (is_hex e)].
  by destruct (bool_decide (l' = [])), (n =? 7).
Qed.

Lemma ipv6_cons a b rest : rest <> [] ->
  ipv6_to_uncompressed_string (a :: b :: rest)
  = hex2 a ++ hex2 b ++ ":"%byte :: ipv6_to_uncompressed_string rest.
Proof. by destruct rest. Qed.

Lemma hex2_app_inj o p x y z w l : [x; y] ++ [z; w] ++ l = hex2 o ++ hex2 p ++ l ->
  [x; y] = hex2 o /\ [z; w] = hex2 p.
Proof. by intros [= -> -> -> ->]. Qed.

Lemma ascii_lower_colon e : ascii_lower e = ":"%byte <-> e = ":"%byte.
Proof. by destruct e. Qed.

(** [m] more colons follow the current block. *)
Lemma ipv6_run_iff m : forall l n octs res, length l = (5 * m + 4)%nat -> n + Z.of_nat m = 7 ->
  ipv6_run l 0 None n octs = Some (7, res) <->
  exists rest, length rest = (2 * m + 2)%nat /\ res = octs ++ rest /\
    lower l = ipv6_to_uncompressed_string rest.
Proof.
  induction m as [|m IH]; intros l n octs res Hl Hn;
    destruct l as [|a [|b [|c [|d l]]]]; simpl in Hl; try lia; rewrite ipv6_run_block.
  - destruct l as [|]; [|simpl in Hl; lia]. replace n with 7 by lia.
    transitivity (is_hex a = true /\ is_hex b = true /\ is_hex c = true /\ is_hex d = true /\
                  res = octs ++ [octet_of a b; octet_of c d]).
    { destruct (is_hex a), (is_hex b), (is_hex c), (is_hex d); naive_solver. }
    split.
    + intros (Ha & Hb & Hc & Hd & ->). exists [octet_of a b; octet_of c d].
      split_and!; [done|done|]. cbn [ipv6_to_uncompressed_string].
      rewrite <- (proj2 (hex2_lower (octet_of a b) a b)) by done.
      by rewrite <- (proj2 (hex2_lower (octet_of c d) c d)) by done.
    + intros (rest & Hr & -> & Ht). destruct rest as [|o [|p [|]]]; simplify_eq/=.
      destruct (proj1 (hex2_lower o a b)) as (? & ? & ->); [unfold hex2; congruence|].
      destruct (proj1 (hex2_lower p c d)) as (? & ? & ->); [unfold hex2; congruence|]. done.
  - destruct l as [|e l]; [simpl in Hl; lia|].
    assert (length l = (5 * m + 4)%nat) as Hl' by (simpl in Hl; lia).
    assert (l <> []) as Hne by (intros ->; simpl in Hl'; lia).
    rewrite bool_decide_eq_false_2 by done. rewrite (proj2 (Z.eqb_neq n 7)) by lia.
    cbn [negb]. rewrite !andb_true_r.
    transitivity (is_hex a = true /\ is_hex b = true /\ is_hex c = true /\ is_hex d = true /\
      e = ":"%byte /\ ipv6_run l 0 None (n + 1) (octs ++ [octet_of a b; octet_of c d]) = Some (7, res)).
    { rewrite <- u8_eqb_eq.
      destruct (is_hex a), (is_hex b), (is_hex c), (is_hex d), (u8_eqb e ":"); naive_solver. }
    rewrite (IH l (n + 1) _ res Hl') by lia. split.
    + intros (Ha & Hb & Hc & Hd & -> & rest & Hr & -> & Ht).
      exists (octet_of a b :: octet_of c d :: rest). rewrite <- app_assoc.
      split_and!; [simpl; lia|done|]. rewrite ipv6_cons by (destruct rest; simpl in Hr; done || lia).
      rewrite <- (proj2 (hex2_lower (octet_of a b) a b)) by done.
      rewrite <- (proj2 (hex2_lower (octet_of c d) c d)) by done. simpl. by rewrite <- Ht.
    + intros (rest & Hr & -> & Ht). destruct rest as [|o [|p rest]]; simpl in Hr; try lia.
      rewrite ipv6_cons in Ht by (intros ->; simpl in Hr; lia). cbn [map app hex2] in Ht.
      injection Ht as Ha Hb Hc Hd He Ht.
      destruct (proj1 (hex2_lower o a b)) as (? & ? & ->); [unfold hex2; congruence|].
      destruct (proj1 (hex2_lower p c d)) as (? & ? & ->); [unfold hex2; congruence|].
      apply ascii_lower_colon in He as ->. split_and!; [done..|].
      exists rest. rewrite <- app_assoc. split_and!; [lia|done|done].
Qed.

(** *** The loop on the reader *)
Definition in_block (first : bool) (size : Z) (prev : option u8) (n : Z) (octs : list u8)
    : ipv6_state := {|
  v6_is_first_byte := first;
  current_textual_block_size := size;
  colon_count := n;
  octet6 := length octs;
  previous_character := prev;
  octets6 := octs ++ repeat x00 (16 - length octs);
|}.

(** The octets read, for the colons and the size of the block. *)
Definition block_inv (first : bool) (size : Z) (prev : option u8) (n : Z) (octs : list u8) : Prop :=
  0 <= size <= 4 /\ 0 <= n <= 7 /\ (first = true -> size = 0) /\
  (forall p, prev = Some p -> is_hex p = true) /\
  2 * Z.of_nat (length octs) + (match prev with Some _ => 1 | None => 0 end) = 4 * n + size.

Lemma octet_of_eq {E} p b : is_hex p = true -> is_hex b = true ->
  exists h l, unwrap (E := E) (to_digit16 p) = Ok h /\ 0 <= h < 16 /\
    unwrap (E := E) (to_digit16 b) = Ok l /\ 0 <= l < 16 /\
    u8_or (u8_of_Z (Z.shiftl (u8_to_Z (u8_of_Z h)) 4)) (u8_of_Z l) = octet_of p b.
Proof.
  intros (h & Hh & ?)%to_digit16_hex (l & Hl & ?)%to_digit16_hex.
  exists h, l. unfold octet_of. rewrite Hh, Hl. split_and!; try done; try lia.
  unfold u8_or. rewrite (u8_to_of_Z h), (u8_to_of_Z l) by lia.
  rewrite Z.shiftl_mul_pow2 by lia. rewrite u8_to_of_Z by lia.
  rewrite <- Z.shiftl_mul_pow2, lor_shiftl by lia. simpl. done.
Qed.

Section Ipv6Loop.
Context {U : Untrusted} {L : UntrustedLaws U}.

Lemma ipv6_loop_eq : forall l fuel ip_address first size prev n octs,
  remaining ip_address = l -> (length l < fuel)%nat -> block_inv first size prev n octs ->
  match ipv6_run l size prev n octs with
  | None => ipv6_loop fuel ip_address (in_block first size prev n octs) = Err AddrParse
  | Some (n', os) => exists s,
      ipv6_loop fuel ip_address (in_block first size prev n octs) = Ok s /\
      octets6 s = os ++ repeat x00 (16 - length os) /\ colon_count s = n'
  end.
Proof.
  induction l as [|b l IH]; intros [|fuel] ip_address first size prev n octs Hl Hf
    (Hs & Hn & Hfirst & Hp & Hinv); simpl in Hf; try lia; cbn [ipv6_loop ipv6_run].
  { by destruct (read_byte_nil _ Hl) as (r' & -> & _). }
  destruct (read_byte_cons _ _ _ Hl) as (r' & -> & Hr'). unfold ipv6_byte.
  cbn [in_block v6_is_first_byte current_textual_block_size colon_count octet6
    previous_character octets6].
  rewrite !at_end_spec, Hr'. destruct (u8_eqb b ":") eqn:Eb.
  - destruct first; [rewrite (Hfirst eq_refl); by rewrite !orb_true_r|].
    destruct l as [|c l]; [done|]. rewrite bool_decide_eq_false_2 by done. cbn [orb].
    destruct (Z.eqb_spec n 7) as [|Hn7]; [done|]. cbn [orb].
    destruct (Z.eqb_spec size 0) as [->|]; [done|].
    destruct (Z.eqb_spec size 4) as [->|]; cbn [negb obind]; [|done].
    change (match c :: l with [] => true | _ => false end) with false. cbv iota.
    apply (IH fuel r' false 0 None (n + 1) octs); [done|simpl in *; lia|].
    split_and!; try done; try lia.
    destruct prev as [p|]; [exfalso; lia|lia].
  - unfold is_hex. destruct (u8_in "0" "9" b || u8_in "a" "f" b || u8_in "A" "F" b) eqn:Eh;
      [|done]. fold (is_hex b) in Eh.
    destruct (Z.eqb_spec size 4) as [|H4]; [done|].
    destruct prev as [p|]; cbn [obind].
    + destruct (octet_of_eq (E := AddrParseError) p b (Hp p eq_refl) Eh)
        as (h & lo & -> & Hh & -> & Hlo & Hoct). cbn [obind].
      rewrite !u8_try_into_ok by lia. cbn [obind]. rewrite Hoct, array_set_pad by lia.
      cbn [obind]. destruct l as [|c l]; [by eexists|].
      pose proof (IH fuel r' false (size + 1) None n (octs ++ [octet_of p b])) as IH'.
      unfold in_block in IH'. rewrite (length_app octs) in IH'. cbn [length] in IH'.
      replace (length octs + 1)%nat with (S (length octs)) in IH' by lia.
      rewrite length_app. cbn [length].
      replace (length octs + 1)%nat with (S (length octs)) by lia.
      apply IH'; [done|simpl in *; lia|]. split_and!; try done; try lia.
      rewrite length_app. simpl. lia.
    + destruct l as [|c l]; [by eexists|].
      apply (IH fuel r' false (size + 1) (Some b) n octs); [done|simpl in *; lia|].
      split_and!; try done; try lia. by intros p [= <-].
Qed.

(** The parser of IPv6 addresses on every input. *)
Lemma parse_ipv6_address_eq s :
  match parse_ipv6_address s with
  | Ok (V6 text octets) => text = s /\ length octets = 16%nat /\
      lower s = ipv6_to_uncompressed_string octets
  | Ok (V4 _ _) => False
  | Err _ => forall octets, length octets = 16%nat ->
      lower s <> ipv6_to_uncompressed_string octets
  | Panic | OutOfFuel => False
  end.
Proof.
  unfold parse_ipv6_address.
  assert (forall octets, length octets = 16%nat ->
    length (ipv6_to_uncompressed_string octets) = 39%nat) as Hlen.
  { intros octets Ho. do 16 (destruct octets as [|? octets]; [done|]). by destruct octets. }
  destruct (Nat.eqb_spec (length s) 39) as [Hs|Hs]; cbn [negb].
  2: { intros octets Ho H. apply Hs. rewrite <- (length_map ascii_lower s), H. by apply Hlen. }
  change {| v6_is_first_byte := true; current_textual_block_size := 0; colon_count := 0;
            octet6 := 0; previous_character := None; octets6 := repeat x00 16 |}
    with (in_block true 0 None 0 []).
  pose proof (ipv6_loop_eq s (S (length s)) (reader_new s) true 0 None 0 []
    (remaining_new s) ltac:(lia)) as Hloop.
  pose proof (fun res => ipv6_run_iff 7 s 0 [] res Hs eq_refl) as Hrun.
  assert (block_inv true 0 None 0 []) as Hinv by (split_and!; simpl; done || lia).
  specialize (Hloop Hinv). destruct (ipv6_run s 0 None 0 []) as [[n os]|].
  - destruct Hloop as (st & -> & Hocts & Hcol). cbn [obind]. rewrite Hocts, Hcol.
    destruct (Z.eqb_spec n 7) as [->|Hn]; cbn [negb].
    + destruct (proj1 (Hrun os) eq_refl) as (rest & Hr & Hos & Ht). simpl in Hos. subst rest.
      rewrite Hr. simpl. rewrite app_nil_r. done.
    + intros octets Ho Ht. enough (Some (n, os) = Some (7, octets)) as [= -> _] by done.
      apply Hrun. by exists octets.
  - rewrite Hloop. cbn [obind]. intros octets Ho Ht.
    enough (None = Some (7, octets)) by done. apply Hrun. by exists octets.
Qed.
End Ipv6Loop.

(** ** Lemmas: matching *)

(** The bits of octets, the most significant bit of each octet first. *)
Definition bits (l : list u8) : list bool := concat (map bits_of_byte l).

(** A network mask: [n] ones, then zeros. *)
Definition mask_of (n len : nat) : list bool := repeat true n ++ repeat false (len - n).

(** A constraint is an address and a mask of [n] bits; the name has the same
    first [n] bits as the address. *)
Definition in_network (name constraint : list u8) : Prop :=
  exists address mask n, constraint = address ++ mask /\
    length address = length name /\ length mask = length name /\
    (n <= 8 * length name)%nat /\ bits mask = mask_of n (8 * length name) /\
    take n (bits name) = take n (bits address).

(** The constraint has a mask that is not ones followed by zeros. *)
Definition valid_mask (mask : list u8) : Prop :=
  exists n, (n <= 8 * length mask)%nat /\ bits mask = mask_of n (8 * length mask).

Lemma testbit_of_Z z i : 0 <= i < 8 -> Z.testbit (u8_to_Z (u8_of_Z z)) i = Z.testbit z i.
Proof.
  intros Hi. replace (u8_of_Z z) with (u8_of_Z (z mod 256)).
  - rewrite u8_to_of_Z by (apply Z.mod_pos_bound; lia). change 256 with (2 ^ 8).
    by rewrite Z.mod_pow2_bits_low by lia.
  - unfold u8_of_Z. by rewrite Z.mod_mod by lia.
Qed.

Lemma bits_xor a b : bits_of_byte (u8_xor a b) = zip_with xorb (bits_of_byte a) (bits_of_byte b).
Proof.
  unfold bits_of_byte, u8_xor. cbn [map zip_with]. rewrite !testbit_of_Z by lia.
  by rewrite !Z.lxor_spec.
Qed.

Lemma bits_and a b : bits_of_byte (u8_and a b) = zip_with andb (bits_of_byte a) (bits_of_byte b).
Proof.
  unfold bits_of_byte, u8_and. cbn [map zip_with]. rewrite !testbit_of_Z by lia.
  by rewrite !Z.land_spec.
Qed.

Lemma bits_zero b : b = x00 <-> bits_of_byte b = repeat false 8.
Proof. split; [by intros ->|]. by destruct b. Qed.

Lemma byte_mask m : leading_ones m + trailing_zeros m = 8 ->
  bits_of_byte m = mask_of (Z.to_nat (leading_ones m)) 8 /\ 0 <= leading_ones m <= 8.
Proof. destruct m; intros H; try discriminate H; by vm_compute. Qed.

Lemma byte_mask_sum m : (leading_ones m + trailing_zeros m =? 8) = true <->
  exists n, (n <= 8)%nat /\ bits_of_byte m = mask_of n 8.
Proof.
  rewrite Z.eqb_eq. split.
  - intros H. destruct (byte_mask m H) as [Hb ?]. exists (Z.to_nat (leading_ones m)). split; [lia|done].
  - intros (n & Hn & Hb). unfold leading_ones, trailing_zeros. rewrite Hb. clear Hb m.
    do 9 (destruct n as [|n]; [done|]). lia.
Qed.

Lemma zip_mask : forall (la lb : list bool) n, length la = length lb -> (n <= length la)%nat ->
  zip_with andb (zip_with xorb la lb) (mask_of n (length la)) = repeat false (length la) <->
  take n la = take n lb.
Proof.
  unfold mask_of. induction la as [|x la IH]; intros [|y lb] n Hl Hn; simplify_eq/=.
  { by destruct n. }
  destruct n as [|n]; simpl.
  - specialize (IH lb 0%nat Hl ltac:(lia)). rewrite Nat.sub_0_r in IH. simpl in IH.
    rewrite andb_false_r. split; [done|]. intros _. f_equal. by apply IH.
  - specialize (IH lb n Hl ltac:(lia)). rewrite andb_true_r. split.
    + intros [= Hx H]. apply xorb_eq in Hx as ->. f_equal. by apply IH.
    + intros [= -> H]. rewrite xorb_nilpotent. f_equal. by apply IH.
Qed.

(** The comparison of an octet under a mask of [n] bits. *)
Lemma masked_equal a b m n : (n <= 8)%nat -> bits_of_byte m = mask_of n 8 ->
  u8_eqb (u8_and (u8_xor a b) m) x00 = true <->
  take n (bits_of_byte a) = take n (bits_of_byte b).
Proof.
  intros Hn Hm. rewrite u8_eqb_eq, bits_zero, bits_and, bits_xor, Hm.
  by apply (zip_mask (bits_of_byte a) (bits_of_byte b)).
Qed.

(** The loop on octets. *)
Fixpoint mask_run (name address mask : list u8) (seen_zero_bit : bool) : outcome Error bool :=
  match name, address, mask with
  | n :: name, a :: address, m :: mask =>
    if negb (leading_ones m + trailing_zeros m =? 8) then Err InvalidNetworkMaskConstraint
    else if seen_zero_bit && negb (u8_eqb m x00) then Err InvalidNetworkMaskConstraint
    else if negb (u8_eqb (u8_and (u8_xor n a) m) x00) then Ok false
    else
      match name with
      | [] => Ok true
      | _ => mask_run name address mask (seen_zero_bit || negb (u8_eqb m xff))
      end
  | _, _, _ => Panic
  end.

Lemma bits_cons b l : bits (b :: l) = bits_of_byte b ++ bits l.
Proof. done. Qed.

Lemma bits_length l : length (bits l) = (8 * length l)%nat.
Proof. induction l as [|b l IH]; [done|]. rewrite bits_cons, length_app, IH. simpl. lia. Qed.

Lemma u8_and_zero x : u8_and x x00 = x00.
Proof. unfold u8_and. change (u8_to_Z x00) with 0. by rewrite Z.land_0_r. Qed.

Lemma bits_zeros l : bits l = repeat false (8 * length l) <-> Forall (fun b => b = x00) l.
Proof.
  induction l as [|b l IH]; [split; [constructor|done]|].
  rewrite bits_cons, Forall_cons. cbn [length].
  replace (8 * S (length l))%nat with (8 + 8 * length l)%nat by lia.
  rewrite repeat_app, <- IH, bits_zero. split.
  - intros H. by apply app_inj_1 in H.
  - by intros [-> ->].
Qed.

(** After a zero bit the rest of the mask has to be zero. *)
Lemma mask_run_seen : forall name address mask,
  length address = length name -> length mask = length name -> name <> [] ->
  match mask_run name address mask true with
  | Ok b => b = true /\ Forall (fun b => b = x00) mask
  | Err e => e = InvalidNetworkMaskConstraint /\ ~ Forall (fun b => b = x00) mask
  | Panic | OutOfFuel => False
  end.
Proof.
  induction name as [|n name IH]; intros [|a address] [|m mask] Ha Hm Hne; simplify_eq/=.
  destruct (u8_eqb m x00) eqn:Em.
  - apply u8_eqb_eq in Em as ->. change (leading_ones x00 + trailing_zeros x00 =? 8) with true.
    rewrite u8_and_zero. rewrite u8_eqb_refl. cbn [negb]. destruct name as [|n' name].
    + split; [done|]. destruct mask; [by repeat constructor|done].
    + specialize (IH address mask Ha Hm ltac:(done)).
      destruct (mask_run (n' :: name) address mask true) as [b|e| |]; try done.
      * destruct IH as [-> IH]. split; [done|]. by constructor.
      * destruct IH as [-> IH]. split; [done|]. intros [_ H]%Forall_cons. done.
  - apply u8_eqb_neq in Em.
    destruct (negb (leading_ones m + trailing_zeros m =? 8)); cbn [negb];
      (split; [done|]; intros [H _]%Forall_cons; done).
Qed.

Lemma mask_of_inj : forall len n n', (n <= len)%nat -> (n' <= len)%nat ->
  mask_of n len = mask_of n' len -> n = n'.
Proof.
  unfold mask_of. induction len as [|len IH]; intros [|n] [|n'] Hn Hn' H; simpl in *; try lia; try done.
  injection H as H. f_equal. by apply IH; [lia|lia|].
Qed.

Lemma mask_of_split n len : (n <= 8 + len)%nat ->
  mask_of n (8 + len) = mask_of (Nat.min n 8) 8 ++ mask_of (n - 8) len.
Proof.
  intros Hn. unfold mask_of. destruct (Nat.le_gt_cases n 8) as [H|H].
  - rewrite Nat.min_l by done. replace (n - 8)%nat with 0%nat by lia. simpl repeat at 4.
    replace (8 + len - n)%nat with ((8 - n) + (len - 0))%nat by lia.
    by rewrite repeat_app, app_assoc.
  - rewrite Nat.min_r by lia. replace n with (8 + (n - 8))%nat at 1 by lia.
    rewrite repeat_app, <- app_assoc. change (repeat false (8 - 8)) with (@nil bool).
    rewrite (app_nil_r (repeat true 8)). do 3 f_equal. lia.
Qed.

Lemma bits_mask_cons m mask n : (n <= 8 + 8 * length mask)%nat ->
  bits (m :: mask) = mask_of n (8 * length (m :: mask)) <->
  bits_of_byte m = mask_of (Nat.min n 8) 8 /\ bits mask = mask_of (n - 8) (8 * length mask).
Proof.
  intros Hn. cbn [length]. replace (8 * S (length mask))%nat with (8 + 8 * length mask)%nat by lia.
  rewrite mask_of_split, bits_cons by done. split.
  - intros H. apply app_inj_1 in H; [done|]. unfold mask_of.
    rewrite length_app, !repeat_length. simpl. lia.
  - by intros [-> ->].
Qed.

Lemma take_bits n a name b address :
  take n (bits (a :: name)) = take n (bits (b :: address)) <->
  take (Nat.min n 8) (bits_of_byte a) = take (Nat.min n 8) (bits_of_byte b) /\
  take (n - 8) (bits name) = take (n - 8) (bits address).
Proof.
  rewrite !bits_cons, !take_app. change (length (bits_of_byte a)) with 8%nat.
  change (length (bits_of_byte b)) with 8%nat.
  assert (forall c, take (Nat.min n 8) (bits_of_byte c) = take n (bits_of_byte c)) as Hmin.
  { intros c. destruct (Nat.le_gt_cases n 8); [by rewrite Nat.min_l|].
    rewrite Nat.min_r by lia. by rewrite !take_ge by (simpl; lia). }
  rewrite !Hmin. split; [|by intros [-> ->]].
  intros H. apply app_inj_1 in H; [done|]. by rewrite !length_take.
Qed.

(** The first octet of a mask and the rest of it. *)
Lemma mask_cons_inv m mask n : (n <= 8 * length (m :: mask))%nat ->
  bits (m :: mask) = mask_of n (8 * length (m :: mask)) ->
  (n <= 8 + 8 * length mask)%nat /\ bits_of_byte m = mask_of (Nat.min n 8) 8 /\
  bits mask = mask_of (n - 8) (8 * length mask).
Proof.
  intros Hn Hb. cbn [length] in Hn. assert (n <= 8 + 8 * length mask)%nat by lia.
  split; [done|]. by apply bits_mask_cons.
Qed.

Lemma mask_first_octet m mask n k : (k <= 8)%nat -> bits_of_byte m = mask_of k 8 ->
  (n <= 8 * length (m :: mask))%nat -> bits (m :: mask) = mask_of n (8 * length (m :: mask)) ->
  Nat.min n 8 = k /\ bits mask = mask_of (n - 8) (8 * length mask).
Proof.
  intros Hk Hmk Hn Hb. destruct (mask_cons_inv _ _ _ Hn Hb) as (_ & H & Hrest). split; [|done].
  apply (mask_of_inj 8); [lia|lia|]. congruence.
Qed.

Lemma mask_join c name a address m mask k n : (k <= 8)%nat -> bits_of_byte m = mask_of k 8 ->
  take k (bits_of_byte c) = take k (bits_of_byte a) ->
  (n <= 8 * length mask)%nat -> (n <> 0%nat -> k = 8%nat) ->
  bits mask = mask_of n (8 * length mask) -> take n (bits name) = take n (bits address) ->
  exists n, (n <= 8 * length (m :: mask))%nat /\
    bits (m :: mask) = mask_of n (8 * length (m :: mask)) /\
    take n (bits (c :: name)) = take n (bits (a :: address)).
Proof.
  intros Hk Hmk Hc Hn Hn8 Hb Ht. exists (k + n)%nat.
  assert (Nat.min (k + n) 8 = k /\ (k + n - 8)%nat = n) as [Hm1 Hm2].
  { destruct (decide (n = 0%nat)); [lia|]. specialize (Hn8 n0). lia. }
  split; [cbn [length]; lia|]. rewrite bits_mask_cons, take_bits, Hm1, Hm2 by lia. done.
Qed.

(** The comparison with an address under a mask. *)
Lemma mask_run_spec : forall name address mask,
  length address = length name -> length mask = length name -> name <> [] ->
  match mask_run name address mask false with
  | Ok b => b = true <-> exists n, (n <= 8 * length mask)%nat /\
      bits mask = mask_of n (8 * length mask) /\ take n (bits name) = take n (bits address)
  | Err e => e = InvalidNetworkMaskConstraint /\ ~ valid_mask mask
  | Panic | OutOfFuel => False
  end.
Proof.
  unfold valid_mask.
  induction name as [|c name IH]; intros [|a address] [|m mask] Ha Hm Hne; try done.
  injection Ha as Ha. injection Hm as Hm. cbn [mask_run andb orb].
  destruct (leading_ones m + trailing_zeros m =? 8) eqn:Esum; cbn [negb].
  2: { split; [done|]. intros (n & Hn & Hb). destruct (mask_cons_inv _ _ _ Hn Hb) as (_ & Hm8 & _).
       enough ((leading_ones m + trailing_zeros m =? 8) = true) by congruence.
       apply byte_mask_sum. exists (Nat.min n 8). split; [lia|done]. }
  apply byte_mask_sum in Esum as (k & Hk & Hmk).
  pose proof (fun n => mask_first_octet m mask n k Hk Hmk) as Hk8.
  destruct (u8_eqb (u8_and (u8_xor c a) m) x00) eqn:Eq; cbn [negb].
  2: { split; [done|]. intros (n & Hn & Hb & [Ht _]%take_bits).
       destruct (Hk8 n Hn Hb) as [Hmin _]. rewrite Hmin in Ht.
       apply (masked_equal c a m k Hk Hmk) in Ht. congruence. }
  apply (masked_equal c a m k Hk Hmk) in Eq.
  pose proof (fun n => mask_join c name a address m mask k n Hk Hmk Eq) as Hjoin.
  destruct name as [|c' name].
  - destruct address, mask; try done. split; [intros _|done].
    apply (Hjoin 0%nat); [lia|done|done|done].
  - destruct (u8_eqb m xff) eqn:Em; cbn [negb].
    + apply u8_eqb_eq in Em as ->.
      assert (k = 8%nat) as -> by (apply (mask_of_inj 8); [lia|lia|by rewrite <- Hmk]).
      specialize (IH address mask Ha Hm ltac:(done)).
      destruct (mask_run (c' :: name) address mask false) as [b|e| |]; try done.
      * rewrite IH. split; [intros (n & Hn & Hb & Ht); by apply (Hjoin n)|].
        intros (n & Hn & Hb & [_ Ht]%take_bits). destruct (Hk8 n Hn Hb) as [_ Hb'].
        exists (n - 8)%nat. cbn [length] in Hn. split_and!; [lia|done|done].
      * destruct IH as [-> IH]. split; [done|]. intros (n & Hn & Hb).
        destruct (Hk8 n Hn Hb) as [_ Hb']. apply IH. exists (n - 8)%nat.
        cbn [length] in Hn. split; [lia|done].
    + assert (k <> 8%nat) as Hk'.
      { intros ->. apply u8_eqb_neq in Em. apply Em. clear - Hmk. by destruct m. }
      pose proof (mask_run_seen (c' :: name) address mask Ha Hm ltac:(done)) as Hseen.
      destruct (mask_run (c' :: name) address mask true) as [b|e| |]; try done.
      * destruct Hseen as [-> Hz%bits_zeros]. split; [intros _|done].
        apply (Hjoin 0%nat); [lia|done| |done]. unfold mask_of. rewrite Nat.sub_0_r. done.
      * destruct Hseen as [-> Hz]. split; [done|]. intros (n & Hn & Hb).
        destruct (Hk8 n Hn Hb) as [Hmin Hb']. apply Hz, bits_zeros.
        replace (n - 8)%nat with 0%nat in Hb' by lia. unfold mask_of in Hb'.
        by rewrite Nat.sub_0_r in Hb'.
Qed.

(** ** Lemmas: the texts determine the octets *)
Lemma ipv4_to_string_inj o o' : length o = 4%nat -> length o' = 4%nat ->
  ipv4_to_string o = ipv4_to_string o' -> o = o'.
Proof.
  intros Ho Ho' H.
  assert (forall os, length os = 4%nat -> ipv4_to_string os = ipv4_to_string o' ->
            ipv4_run (ipv4_to_string o') [] [] = Some os) as Hrun.
  { intros os Hl Ht. apply ipv4_run_iff; [apply ipv4_print_nonempty; by destruct o'
      |apply decimal_prefix_nil|done|simpl; lia|].
    exists os. simpl. split_and!; [done|lia|by destruct os|done]. }
  pose proof (Hrun o Ho H). pose proof (Hrun o' Ho' eq_refl). congruence.
Qed.

Lemma ipv6_to_string_lower o : lower (ipv6_to_uncompressed_string o) = ipv6_to_uncompressed_string o.
Proof.
  assert (forall b, lower (hex2 b) = hex2 b) as Hhex by (by intros []).
  enough (forall n o, (length o <= n)%nat ->
    lower (ipv6_to_uncompressed_string o) = ipv6_to_uncompressed_string o) as H by by apply (H (length o)).
  clear o. induction n as [|n IH]; intros o Hn; (destruct o as [|a [|b rest]]; [done|done|simpl in Hn; try lia]).
  cbn [ipv6_to_uncompressed_string]. rewrite !map_app, !Hhex. do 2 f_equal.
  destruct rest as [|c rest]; [done|]. cbn [map]. rewrite IH by (simpl in *; lia). done.
Qed.

Lemma ipv6_to_string_inj o o' : length o = 16%nat -> length o' = 16%nat ->
  ipv6_to_uncompressed_string o = ipv6_to_uncompressed_string o' -> o = o'.
Proof.
  intros Ho Ho' H.
  assert (length (ipv6_to_uncompressed_string o') = 39%nat) as Hlen.
  { do 16 (destruct o' as [|? o']; [done|]). by destruct o'. }
  assert (forall os, length os = 16%nat ->
            ipv6_to_uncompressed_string os = ipv6_to_uncompressed_string o' ->
            ipv6_run (ipv6_to_uncompressed_string o') 0 None 0 [] = Some (7, os)) as Hrun.
  { intros os Hl Ht. apply (ipv6_run_iff 7); [done|done|]. exists os.
    by rewrite ipv6_to_string_lower. }
  pose proof (Hrun o Ho H). pose proof (Hrun o' Ho' eq_refl). congruence.
Qed.

Lemma ipv4_ipv6_distinct o o' : length o = 4%nat -> length o' = 16%nat ->
  ipv6_to_uncompressed_string o' <> ipv4_to_string o.
Proof.
  intros Ho Ho' H. apply (f_equal length) in H.
  assert (forall b, (length (decimal b) <= 3)%nat) as Hd by (intros b; apply decimal_text).
  destruct o as [|a [|b [|c [|d [|]]]]]; try done.
  do 16 (destruct o' as [|? o']; [done|]). destruct o'; [|done].
  simpl in H. rewrite !length_app in H. simpl in H. rewrite !length_app in H. simpl in H.
  rewrite !length_app in H. simpl in H. rewrite !length_app in H. simpl in H.
  pose proof (Hd a). pose proof (Hd b). pose proof (Hd c). pose proof (Hd d). lia.
Qed.

(** The cases of the lengths. *)
Lemma reference_sizes {A} (n m : nat) (same other : A) :
  (match n, m with 4%nat, 4%nat | 16%nat, 16%nat => same | _, _ => other end)
  = if decide ((n = 4 \/ n = 16) /\ n = m)%nat then same else other.
Proof.
  do 17 (destruct n as [|n]; [do 17 (destruct m as [|m]; [case_decide; done || lia|]);
    case_decide; done || lia|]). case_decide; done || lia.
Qed.

Lemma constraint_sizes {A} (n m : nat) (same mixed bad other : A) :
  (match n, m with
   | 4%nat, 8%nat | 16%nat, 32%nat => same
   | 4%nat, 32%nat | 16%nat, 8%nat => mixed
   | 4%nat, _ | 16%nat, _ => bad
   | _, _ => other
   end)
  = if decide (n = 4 \/ n = 16)%nat
    then if decide (m = n + n)%nat then same
         else if decide (m = 8 \/ m = 32)%nat then mixed else bad
    else other.
Proof.
  case_decide as Hn.
  - destruct Hn as [-> | ->]; do 33 (destruct m as [|m]; [done|]); done.
  - do 17 (destruct n as [|n]; [lia || done|]). done.
Qed.

Section Matching.
Context {U : Untrusted} {L : UntrustedLaws U}.

Lemma ip_equal_loop_eq : forall p r fuel presented reference,
  remaining presented = p -> remaining reference = r -> length p = length r ->
  (length p < fuel)%nat ->
  ip_equal_loop fuel presented reference = Ok (bytes_eqb p r).
Proof.
  induction p as [|a p IH]; intros [|b r] [|fuel] presented reference Hp Hr Hl Hf;
    simpl in *; try lia; rewrite at_end_spec, Hp; [done|].
  destruct (read_byte_cons _ _ _ Hp) as (p' & -> & Hp').
  destruct (read_byte_cons _ _ _ Hr) as (r' & -> & Hr'). cbn [unwrap obind].
  destruct (u8_eqb a b) eqn:Eab; cbn [negb].
  - apply u8_eqb_eq in Eab as ->. rewrite (IH r) by (done || lia). f_equal.
    unfold bytes_eqb. apply bool_decide_ext. split; [by intros ->|by intros [=]].
  - f_equal. symmetry. apply bytes_eqb_neq. apply u8_eqb_neq in Eab. by intros [=].
Qed.

Lemma ip_mask_loop_eq : forall name address mask fuel rn ra rm seen,
  remaining rn = name -> remaining ra = address -> remaining rm = mask ->
  length address = length name -> length mask = length name -> name <> [] ->
  (length name <= fuel)%nat ->
  ip_mask_loop fuel rn ra rm seen = mask_run name address mask seen.
Proof.
  induction name as [|n name IH]; intros [|a address] [|m mask] [|fuel] rn ra rm seen
    Hn Ha Hm Hla Hlm Hne Hf; simpl in *; try done; try lia.
  destruct (read_byte_cons _ _ _ Hn) as (rn' & -> & Hn').
  destruct (read_byte_cons _ _ _ Ha) as (ra' & -> & Ha').
  destruct (read_byte_cons _ _ _ Hm) as (rm' & -> & Hm'). cbn [unwrap obind].
  destruct (negb (leading_ones m + trailing_zeros m =? 8)); [done|].
  destruct (seen && negb (u8_eqb m x00)); [done|].
  destruct (negb (u8_eqb (u8_and (u8_xor n a) m) x00)); [done|].
  rewrite at_end_spec, Hn'. destruct name as [|n' name]; [done|].
  rewrite (IH address mask) by (done || lia). f_equal.
  by destruct (u8_eqb m xff), seen.
Qed.

Lemma read_address_and_mask_eq constraint k :
  length constraint = (k + k)%nat ->
  read_all constraint BadDer (read_address_and_mask constraint)
  = Ok (take k constraint, drop k constraint).
Proof.
  intros Hl. rewrite read_all_spec. unfold read_address_and_mask, complete.
  replace (length constraint / 2)%nat with k.
  2: { rewrite Hl. replace (k + k)%nat with (k * 2)%nat by lia. by rewrite Nat.div_mul. }
  pose proof (read_bytes_spec (reader_new constraint) (N.of_nat k)) as H1.
  rewrite remaining_new in H1. rewrite (proj2 (N.leb_le _ _)) in H1 by lia.
  rewrite Nat2N.id in H1. destruct (read_bytes (reader_new constraint) (N.of_nat k)) as [o r1].
  simpl in H1. destruct H1 as [-> H1].
  pose proof (read_bytes_spec r1 (N.of_nat k)) as H2. rewrite H1, length_drop in H2.
  rewrite (proj2 (N.leb_le _ _)) in H2 by lia. rewrite Nat2N.id in H2.
  destruct (read_bytes r1 (N.of_nat k)) as [o r2]. simpl in H2. destruct H2 as [-> H2].
  cbn [unwrap obind fst snd]. rewrite at_end_spec, H2, drop_drop, drop_ge by lia.
  by rewrite (take_ge (drop k constraint)) by (rewrite length_drop; lia).
Qed.

Lemma ip_constraint_same_size name constraint :
  name <> [] -> length constraint = (length name + length name)%nat ->
  (let? (constraint_address, constraint_mask) :=
      read_all constraint BadDer (read_address_and_mask constraint) in
    ip_mask_loop (S (length name)) (reader_new name) (reader_new constraint_address)
      (reader_new constraint_mask) false)
  = mask_run name (take (length name) constraint) (drop (length name) constraint) false.
Proof.
  intros Hne Hl. rewrite (read_address_and_mask_eq constraint (length name) Hl). cbn [obind].
  apply ip_mask_loop_eq; rewrite ?remaining_new, ?length_take, ?length_drop; done || lia.
Qed.

Lemma in_network_iff name constraint : length constraint = (length name + length name)%nat ->
  in_network name constraint <->
  let mask := drop (length name) constraint in
  exists n, (n <= 8 * length mask)%nat /\ bits mask = mask_of n (8 * length mask) /\
    take n (bits name) = take n (bits (take (length name) constraint)).
Proof.
  intros Hl. simpl. rewrite length_drop, Hl.
  replace (length name + length name - length name)%nat with (length name) by lia. split.
  - intros (address & mask & n & -> & Ha & Hm & Hn & Hb & Ht). exists n.
    by rewrite take_app_length', drop_app_length' by done.
  - intros (n & Hn & Hb & Ht). exists (take (length name) constraint), (drop (length name) constraint), n.
    rewrite take_drop, length_take, length_drop. split_and!; try done; lia.
Qed.

(** C22: [IpAddrRef::try_from_ascii] always returns, and accepts exactly the
    canonical dotted decimal texts of four octets and the full hexadecimal
    texts of sixteen octets (in either case), with those octets. *)
Theorem try_from_ascii_accepts s :
  match IpAddrRef_try_from_ascii s with
  | Ok (V4 text octets) => text = s /\ length octets = 4%nat /\ s = ipv4_to_string octets
  | Ok (V6 text octets) => text = s /\ length octets = 16%nat /\
                           lower s = ipv6_to_uncompressed_string octets
  | Err _ => forall octets, (length octets = 4%nat -> s <> ipv4_to_string octets) /\
               (length octets = 16%nat -> lower s <> ipv6_to_uncompressed_string octets)
  | Panic | OutOfFuel => False
  end.
Proof.
  unfold IpAddrRef_try_from_ascii. pose proof (parse_ipv4_address_eq s) as H4.
  pose proof (parse_ipv6_address_eq s) as H6.
  destruct (parse_ipv4_address s) as [[]| | |]; try done.
  destruct (parse_ipv6_address s) as [[]| | |]; try done. auto.
Qed.

(** C23: The text of an address of the standard library parses back to the
    same address. *)
Theorem from_std_roundtrip a :
  match a with StdV4 octets => length octets = 4%nat | StdV6 octets => length octets = 16%nat end ->
  IpAddrRef_try_from_ascii (IpAddr_as_ref (IpAddr_from_std a))
  = Ok (IpAddrRef_from (IpAddr_from_std a)).
Proof.
  unfold IpAddrRef_try_from_ascii. destruct a as [octets|octets]; intros Ho; simpl.
  - pose proof (parse_ipv4_address_eq (ipv4_to_string octets)) as H4.
    destruct (parse_ipv4_address _) as [[text o|]| | |]; try done; [|by destruct (H4 octets)].
    destruct H4 as (-> & Ho' & Ht). by rewrite (ipv4_to_string_inj octets o).
  - pose proof (parse_ipv4_address_eq (ipv6_to_uncompressed_string octets)) as H4.
    pose proof (parse_ipv6_address_eq (ipv6_to_uncompressed_string octets)) as H6.
    destruct (parse_ipv4_address _) as [[text o|]| | |]; try done.
    { destruct H4 as (_ & Ho' & Ht). by destruct (ipv4_ipv6_distinct o octets). }
    rewrite ipv6_to_string_lower in H6.
    destruct (parse_ipv6_address _) as [[|text o]| | |]; try done; [|by destruct (H6 octets)].
    destruct H6 as (-> & Ho' & Ht). by rewrite (ipv6_to_string_inj octets o).
Qed.

Lemma ip_reference_matching_eq presented reference :
  ip_presented_id_matches_reference_id presented reference
  = Ok (bool_decide (presented = reference /\
                     (length presented = 4 \/ length presented = 16)%nat)).
Proof.
  unfold ip_presented_id_matches_reference_id. rewrite reference_sizes.
  case_decide as Hd.
  - rewrite (ip_equal_loop_eq presented reference) by (rewrite ?remaining_new; done || lia).
    f_equal. unfold bytes_eqb. apply bool_decide_ext. tauto.
  - f_equal. symmetry. apply bool_decide_eq_false. intros [-> ?]. tauto.
Qed.

Lemma ip_constraint_spec name constraint :
  match ip_presented_id_matches_constraint name constraint with
  | Ok b => (length name = 4 \/ length name = 16)%nat /\
            (b = true <-> in_network name constraint)
  | Err e =>
    if decide (length name = 4 \/ length name = 16)%nat
    then e = InvalidNetworkMaskConstraint /\
         (length constraint <> 8 /\ length constraint <> 32 \/
          ~ valid_mask (drop (length name) constraint))%nat
    else e = BadDer
  | Panic | OutOfFuel => False
  end.
Proof.
  unfold ip_presented_id_matches_constraint.
  rewrite constraint_sizes. case_decide as Hn; [|done].
  case_decide as Hc; [|case_decide as Hc'; simpl; [|split; [done|left; lia]]].
  - rewrite ip_constraint_same_size by (done || (intros ->; simpl in Hn; lia)).
    pose proof (in_network_iff name constraint Hc) as Hin.
    pose proof (mask_run_spec name (take (length name) constraint) (drop (length name) constraint)) as H.
    rewrite length_take, length_drop in H.
    specialize (H ltac:(lia) ltac:(lia) ltac:(intros ->; simpl in Hn; lia)).
    destruct (mask_run _ _ _ _) as [b|e| |]; try done.
    + split; [done|]. rewrite Hin, H. simpl. by rewrite length_drop.
    + destruct H as [-> H]. auto.
  - split; [done|]. split; [done|]. intros (address & mask & n & -> & Ha & Hm & _).
    rewrite length_app in Hc. lia.
Qed.

(** C21: Matching an address with an address range: the length of the range
    and its mask are checked, a range of the other family never matches, and
    a match means that the address has the leading bits of the range that
    its mask (ones followed by zeros) selects. *)
Theorem ip_constraint_matching name constraint :
  match ip_presented_id_matches_constraint name constraint with
  | Ok b => (length name = 4 \/ length name = 16)%nat /\
            (b = true <-> in_network name constraint)
  | Err e =>
    if decide (length name = 4 \/ length name = 16)%nat
    then e = InvalidNetworkMaskConstraint /\
         (length constraint <> 8 /\ length constraint <> 32 \/
          ~ valid_mask (drop (length name) constraint))%nat
    else e = BadDer
  | Panic | OutOfFuel => False
  end.
Proof. apply ip_constraint_spec. Qed.
End Matching.

(** *** Witnesses *)
Lemma try_from_ascii_accepts_witness : loopback = ipv4_to_string [x7f; x00; x00; x01].
Proof.
  pose proof (try_from_ascii_accepts (U := slice_reader) loopback) as H.
  assert (IpAddrRef_try_from_ascii (U := slice_reader) loopback
          = Ok (V4 loopback [x7f; x00; x00; x01])) as E by (by vm_compute).
  rewrite E in H. by apply H.
Defined.

Lemma from_std_roundtrip_witness :
  IpAddrRef_try_from_ascii (U := slice_reader) (IpAddr_as_ref (IpAddr_from_std (StdV4 [x7f; x00; x00; x01])))
  = Ok (V4 loopback [x7f; x00; x00; x01]).
Proof. rewrite (from_std_roundtrip (U := slice_reader) (StdV4 [x7f; x00; x00; x01])); by vm_compute. Defined.

Lemma ip_constraint_matching_witness :
  in_network [x0a; x01; x02; x03] [x0a; x00; x00; x00; xff; x00; x00; x00].
Proof.
  pose proof (ip_constraint_matching (U := slice_reader) [x0a; x01; x02; x03]
    [x0a; x00; x00; x00; xff; x00; x00; x00]) as H.
  assert (ip_presented_id_matches_constraint (U := slice_reader) [x0a; x01; x02; x03]
            [x0a; x00; x00; x00; xff; x00; x00; x00] = Ok true) as E by (by vm_compute).
  rewrite E in H. by apply H.
Defined.
