(* ===== verification/SubjectName.v ===== *)
(** * [src/subject_name/name.rs]: the name to verify a certificate for *)
From S2P Require Import Prelude Errors Untrusted Der Samples DnsName IpAddress.

Inductive SubjectNameRef : Type :=
  | SubjectDnsName (name : DnsNameRef)
  | SubjectIpAddress (address : IpAddrRef).

Inductive InvalidSubjectNameError : Type := InvalidSubjectName.

Section SubjectName.
Context {U : Untrusted}.

(** [SubjectNameRef::try_from_ascii]; the [?] of the last case is the only
    error. *)
Definition SubjectNameRef_try_from_ascii (subject_name : list u8)
    : outcome InvalidSubjectNameError SubjectNameRef :=
  match parse_ipv4_address subject_name with
  | Ok ip_address => Ok (SubjectIpAddress ip_address)
  | Panic => Panic
  | OutOfFuel => OutOfFuel
  | Err _ =>
    match parse_ipv6_address subject_name with
    | Ok ip_address => Ok (SubjectIpAddress ip_address)
    | Panic => Panic
    | OutOfFuel => OutOfFuel
    | Err _ =>
      match DnsNameRef_try_from_ascii subject_name with
      | Ok (inl name) => Ok (SubjectDnsName name)
      | Ok (inr _) => Err InvalidSubjectName
      | Err _ | Panic => Panic
      | OutOfFuel => OutOfFuel
      end
    end
  end.

(** From a [&str], which is its bytes. *)
Definition SubjectNameRef_try_from_ascii_str (subject_name : list u8)
    : outcome InvalidSubjectNameError SubjectNameRef :=
  SubjectNameRef_try_from_ascii subject_name.
End SubjectName.

Definition SubjectNameRef_from_dns (dns_name : DnsNameRef) : SubjectNameRef :=
  SubjectDnsName {| dns_name_bytes := dns_name_bytes dns_name |}.

Definition SubjectNameRef_from_ip (dns_name : IpAddrRef) : SubjectNameRef :=
  match dns_name with
  | V4 ip_address ip_address_octets => SubjectIpAddress (V4 ip_address ip_address_octets)
  | V6 ip_address ip_address_octets => SubjectIpAddress (V6 ip_address ip_address_octets)
  end.

Definition SubjectNameRef_as_ref (self : SubjectNameRef) : list u8 :=
  match self with
  | SubjectDnsName dns_name => dns_name_bytes dns_name
  | SubjectIpAddress ip_address =>
    match ip_address with V4 ip_address _ | V6 ip_address _ => ip_address end
  end.

(** ** Lemmas *)

(** The last label of a dotted decimal text is numeric, and a colon is not a
    character of a label: the three forms do not overlap. *)
Lemma ipv4_labels octets : octets <> [] ->
  split_dots (ipv4_to_string octets) = map decimal octets.
Proof.
  assert (forall o, Forall (fun c => u8_eqb c "." = false) (decimal o)) as Hd.
  { intros o. apply Forall_forall. intros c Hc%list_elem_of_In.
    pose proof (decimal_digits o) as Ho. rewrite forallb_forall in Ho. specialize (Ho c Hc).
    by destruct c. }
  induction octets as [|o rest IH]; [done|]. intros _. destruct rest as [|o' rest].
  - simpl. rewrite app_nil_r. by apply split_no_dot.
  - rewrite ipv4_cons, split_dots_app, split_no_dot, IH by done. done.
Qed.

Lemma ipv4_not_dns octets : length octets = 4%nat ->
  ~ dns_id_syntax Reference No (ipv4_to_string octets).
Proof.
  intros Ho [_ [[? _]|(names & Hn & [Hs|[[? _]|[? _]]])]]; try done.
  rewrite ipv4_labels in Hs by (by destruct octets).
  assert (exists o rest, octets = rest ++ [o]) as (o & rest & ->).
  { destruct octets as [|o rest _] using rev_ind; [done|eauto]. }
  rewrite map_app in Hs. change (map decimal [o]) with [decimal o] in Hs.
  destruct Hs as [<-|[_ Hs]].
  - destruct Hn as (_ & label & Hl & Hd). rewrite last_snoc in Hl. injection Hl as <-.
    change (all_digits (decimal o)) with (forallb is_digit (decimal o)) in Hd.
    by rewrite decimal_digits in Hd.
  - apply app_inj_tail in Hs as [_ Hs]. by destruct (decimal_text o) as (_ & [] & _).
Qed.

Lemma dns_no_colon s : dns_id_syntax Reference No s -> Forall (fun c => u8_eqb c ":" = false) s.
Proof.
  intros [_ [[? _]|(names & Hn & [Hs|[[? _]|[? _]]])]]; try done.
  rewrite <- (join_split s). apply host_labels_iff in Hn as (_ & Hv & _).
  assert (Forall (Forall (fun c => u8_eqb c ":" = false)) (split_dots s)) as Hall.
  { assert (Forall (Forall (fun c => u8_eqb c ":" = false)) names) as Hnames.
    { rewrite forallb_forall in Hv. apply Forall_forall. intros x Hx%list_elem_of_In.
      specialize (Hv x Hx). apply valid_label_prefix in Hv. unfold label_prefix in Hv.
      rewrite !andb_true_iff in Hv. destruct Hv as [[Hv _] _]. rewrite forallb_forall in Hv.
      apply Forall_forall. intros c Hc%list_elem_of_In. specialize (Hv c Hc). by destruct c. }
    destruct Hs as [->|[_ ->]]; [done|]. apply Forall_app. split; [done|]. by repeat constructor. }
  clear Hs. induction Hall as [|x ls Hx Hls IH]; [by constructor|]. destruct ls as [|y ls]; [done|].
  rewrite join_cons by done. apply Forall_app. split; [done|]. by constructor.
Qed.

Lemma ipv6_not_dns s octets : length octets = 16%nat ->
  lower s = ipv6_to_uncompressed_string octets -> ~ dns_id_syntax Reference No s.
Proof.
  intros Ho Hs Hd%dns_no_colon. destruct octets as [|o1 [|o2 [|o3 octets]]]; try done.
  destruct s as [|a [|b [|c [|d [|e s]]]]]; try discriminate Hs.
  injection Hs as _ _ _ _ He _. apply ascii_lower_colon in He as ->.
  do 4 apply Forall_cons in Hd as [_ Hd]. by apply Forall_cons in Hd as [? _].
Qed.

Lemma lower_digits_dots octets : lower (ipv4_to_string octets) = ipv4_to_string octets.
Proof.
  assert (forall o, lower (decimal o) = decimal o) as Hd by (by intros []).
  induction octets as [|o rest IH]; [done|]. destruct rest as [|o' rest].
  - simpl. by rewrite app_nil_r.
  - rewrite ipv4_cons, map_app, Hd by done. cbn [map]. by rewrite IH.
Qed.

Section SubjectNameProperties.
Context {U : Untrusted} {L : UntrustedLaws U}.

(** C24: A subject name is an address exactly when it is the text of an IPv4
    or IPv6 address and a DNS name exactly when it has the syntax of a
    reference identifier; the forms do not overlap, so the order in which
    they are tried does not matter. *)
Theorem subject_name_forms s :
  match SubjectNameRef_try_from_ascii s with
  | Ok name => SubjectNameRef_as_ref name = s
  | Err e => e = InvalidSubjectName
  | Panic | OutOfFuel => False
  end /\
  (forall octets, SubjectNameRef_try_from_ascii s = Ok (SubjectIpAddress (V4 s octets)) <->
     length octets = 4%nat /\ s = ipv4_to_string octets) /\
  (forall octets, SubjectNameRef_try_from_ascii s = Ok (SubjectIpAddress (V6 s octets)) <->
     length octets = 16%nat /\ lower s = ipv6_to_uncompressed_string octets) /\
  (SubjectNameRef_try_from_ascii s = Ok (SubjectDnsName {| dns_name_bytes := s |}) <->
     dns_id_syntax Reference No s).
Proof.
  unfold SubjectNameRef_try_from_ascii, DnsNameRef_try_from_ascii.
  pose proof (parse_ipv4_address_eq s) as H4. pose proof (parse_ipv6_address_eq s) as H6.
  pose proof (fun o => ipv4_not_dns o) as N4. pose proof (fun o => ipv6_not_dns s o) as N6.
  destruct (parse_ipv4_address s) as [[t o|]| | |]; try done.
  - destruct H4 as (-> & Ho & Hs).
    assert (lower s = s) as Hlow.
    { rewrite Hs. apply lower_digits_dots. }
    split_and!; [done| | |].
    + intros o'. split; [by intros [= <-]|]. intros [Ho' Hs'].
      by rewrite (ipv4_to_string_inj o' o) by congruence.
    + intros o'. split; [done|]. intros [Ho' Hs']. exfalso.
      apply (ipv4_ipv6_distinct o o' Ho Ho'). congruence.
    + split; [done|]. intros Hd. by destruct (N4 o Ho); rewrite <- Hs.
  - destruct (parse_ipv6_address s) as [[|t o]| | |]; try done.
    + destruct H6 as (-> & Ho & Hs). split_and!; [done| | |].
      * intros o'. split; [done|]. intros [Ho' Hs']. by destruct (H4 o').
      * intros o'. split; [by intros [= <-]|]. intros [Ho' Hs'].
        by rewrite (ipv6_to_string_inj o' o) by congruence.
      * split; [done|]. intros Hd. by destruct (N6 o Ho Hs).
    + rewrite is_valid_dns_id_eq. cbn [obind].
      destruct (dns_valid Reference No s) eqn:Hv; cbn [negb].
      * apply dns_valid_iff in Hv. split_and!; [done| | |done].
        -- intros o'. split; [done|]. intros [Ho' Hs']. by destruct (H4 o').
        -- intros o'. split; [done|]. intros [Ho' Hs']. by destruct (H6 o').
      * split_and!; [done| | |].
        -- intros o'. split; [done|]. intros [Ho' Hs']. by destruct (H4 o').
        -- intros o'. split; [done|]. intros [Ho' Hs']. by destruct (H6 o').
        -- rewrite <- dns_valid_iff, Hv. done.
Qed.
End SubjectNameProperties.

Lemma subject_name_forms_witness :
  dns_id_syntax Reference No www_example_com /\ ~ dns_id_syntax Reference No loopback.
Proof.
  split.
  - apply (subject_name_forms (U := slice_reader) www_example_com). by vm_compute.
  - intros H. apply (subject_name_forms (U := slice_reader) loopback) in H. by vm_compute in H.
Defined.
