(* ===== verification/VerifyName.v ===== *)
(** * [src/subject_name/verify.rs]: subject names and name constraints

    The iterator over the names of a certificate, the verification of a
    certificate for a subject name, and name constraints. *)
From S2P Require Import Prelude Errors Untrusted Der GeneralName Samples DnsName IpAddress.
From S2P Require Import SubjectName X509 SignedData Cert.

Abbreviation GnDnsName := GeneralName.DnsName.
Abbreviation GnIpAddress := GeneralName.IpAddress.

Inductive Subtrees : Type := PermittedSubtrees | ExcludedSubtrees.
Inductive SubjectCommonNameContents : Type := ContentsDnsName | Ignore.

Definition COMMON_NAME : Input := ["U"%byte; x04; x03].

Section VerifyName.
Context {U : Untrusted}.

(** ** The common name *)
Fixpoint common_name_loop (fuel : nat) : parser Error (option Input) :=
  match fuel with
  | O => out_of_fuel
  | S fuel =>
    let! at_end := p_at_end in
    if at_end then pret None
    else
      let! name_oid := expect_tag OID in
      if bytes_eqb name_oid COMMON_NAME then
        let! cn := expect_tag UTF8String in pret (Some cn)
      else
        let! _ := read_tag_and_get_value in
        common_name_loop fuel
  end.

Definition read_common_name : parser Error (option Input) :=
  nested Set' (TrailingData CommonNameOuterId)
    (nested Sequence (TrailingData CommonNameInnerId)
       (let! fuel := loop_fuel in common_name_loop fuel)).

Definition common_name (input : Input) : outcome Error (option Input) :=
  fst (read_common_name (reader_new input)).

(** ** The names of a certificate *)
Record NameIterator : Type := {
  it_subject_alt_name : option Reader;
  it_subject_directory_name : option Input;
  it_subject_common_name : option Input;
}.

Definition NameIterator_new (subject subject_alt_name : option Input)
    (subject_common_name_contents : SubjectCommonNameContents) : NameIterator :=
  let '(subject_directory_name, subject_common_name) :=
    match subject, subject_common_name_contents with
    | Some input, ContentsDnsName => (Some input, Some input)
    | Some input, Ignore => (Some input, None)
    | None, _ => (None, None)
    end in
  {| it_subject_alt_name := reader_new <$> subject_alt_name;
     it_subject_directory_name := subject_directory_name;
     it_subject_common_name := subject_common_name |}.

(** The part of [next] after the subjectAltName. *)
Definition next_subject_name (self : NameIterator)
    : option (outcome Error GeneralName) * NameIterator :=
  match it_subject_directory_name self with
  | Some subject_directory_name =>
    (Some (Ok (DirectoryName subject_directory_name)),
     {| it_subject_alt_name := it_subject_alt_name self;
        it_subject_directory_name := None;
        it_subject_common_name := it_subject_common_name self |})
  | None =>
    match it_subject_common_name self with
    | Some subject_common_name =>
      (match common_name subject_common_name with
       | Ok (Some cn) => Some (Ok (GnDnsName cn))
       | Ok None => None
       | Err err => Some (Err err)
       | Panic => Some Panic
       | OutOfFuel => Some OutOfFuel
       end,
       {| it_subject_alt_name := it_subject_alt_name self;
          it_subject_directory_name := it_subject_directory_name self;
          it_subject_common_name := None |})
    | None => (None, self)
    end
  end.

Definition NameIterator_next (self : NameIterator)
    : option (outcome Error GeneralName) * NameIterator :=
  match it_subject_alt_name self with
  | Some subject_alt_name =>
    if negb (at_end subject_alt_name) then
      match from_der (T := GeneralName) subject_alt_name with
      | (Err err, _) =>
        (Some (Err err),
         {| it_subject_alt_name := None; it_subject_directory_name := None;
            it_subject_common_name := None |})
      | (item, subject_alt_name) =>
        (Some item,
         {| it_subject_alt_name := Some subject_alt_name;
            it_subject_directory_name := it_subject_directory_name self;
            it_subject_common_name := it_subject_common_name self |})
      end
    else
      next_subject_name
        {| it_subject_alt_name := None;
           it_subject_directory_name := it_subject_directory_name self;
           it_subject_common_name := it_subject_common_name self |}
  | None => next_subject_name self
  end.

(** [Iterator::find_map] of the standard library.  The closure returns its
    option and the state it captures; a panic, in [next] or in the closure
    (an item or a result [Panic]), ends the search. *)
Fixpoint find_map_loop {B S} (fuel : nat) (self : NameIterator)
    (f : outcome Error GeneralName -> S -> option (outcome Error B) * S) (s : S)
    : option (outcome Error B) * S :=
  match fuel with
  | O => (Some OutOfFuel, s)
  | Datatypes.S fuel =>
    match NameIterator_next self with
    | (None, _) => (None, s)
    | (Some Panic, _) => (Some Panic, s)
    | (Some OutOfFuel, _) => (Some OutOfFuel, s)
    | (Some item, self) =>
      match f item s with
      | (Some b, s) => (Some b, s)
      | (None, s) => find_map_loop fuel self f s
      end
    end
  end.

(** The subjectAltName yields at most a name per byte, then two more. *)
Definition find_map {B S} (self : NameIterator)
    (f : outcome Error GeneralName -> S -> option (outcome Error B) * S) (s : S)
    : option (outcome Error B) * S :=
  find_map_loop
    (4 + match it_subject_alt_name self with Some r => length (remaining r) | None => 0 end)
    self f s.

(** [.find_map(..).unwrap_or(Err(Error::CertNotValidForName))]. *)
Definition find_name (self : NameIterator)
    (f : outcome Error GeneralName -> option (outcome Error unit)) : outcome Error unit :=
  default (Err CertNotValidForName) (fst (find_map self (fun item s => (f item, s)) tt)).

(** The closure of [verify_cert_dns_name]. *)
Definition matches_dns_name (dns_name : Input) (result : outcome Error GeneralName)
    : option (outcome Error unit) :=
  match result with
  | Ok (GnDnsName presented_id) =>
    match DnsName.presented_id_matches_reference_id presented_id dns_name with
    | Ok true => Some (Ok tt)
    | Ok false | Err MalformedDnsIdentifier => None
    | Err e => Some (Err e)
    | Panic => Some Panic
    | OutOfFuel => Some OutOfFuel
    end
  | Ok _ => None
  | Err err => Some (Err err)
  | Panic => Some Panic
  | OutOfFuel => Some OutOfFuel
  end.

(** [cert] is the certificate inside the [EndEntityCert]. *)
Definition verify_cert_dns_name (cert : Cert) (dns_name : DnsNameRef) : outcome Error unit :=
  let? dns_name := DnsNameRef_as_ref dns_name in
  find_name
    (NameIterator_new (Some (subject cert)) (subject_alt_name cert) Ignore)
    (matches_dns_name dns_name).

(** The closure of [verify_cert_subject_name]. *)
Definition matches_ip_address (ip_address : Input) (result : outcome Error GeneralName)
    : option (outcome Error unit) :=
  match result with
  | Ok (GnIpAddress presented_id) =>
    match ip_presented_id_matches_reference_id presented_id ip_address with
    | Ok true => Some (Ok tt)
    | Ok false => None
    | other => Some (let? _ := other in Ok tt)
    end
  | Ok _ => None
  | Err err => Some (Err err)
  | Panic => Some Panic
  | OutOfFuel => Some OutOfFuel
  end.

Definition verify_cert_subject_name (cert : Cert) (subject_name : SubjectNameRef)
    : outcome Error unit :=
  match subject_name with
  | SubjectDnsName dns_name => verify_cert_dns_name cert dns_name
  | SubjectIpAddress (V4 _ ip_address) | SubjectIpAddress (V6 _ ip_address) =>
    find_name (NameIterator_new None (subject_alt_name cert) Ignore)
      (matches_ip_address ip_address)
  end.

(** The closure of [list_cert_dns_names]; [names] is the vector it pushes to. *)
Definition collect_dns_name (result : outcome Error GeneralName)
    (names : list GeneralDnsNameRef)
    : option (outcome Error Error) * list GeneralDnsNameRef :=
  match result with
  | Ok (GnDnsName presented_id) =>
    match DnsNameRef_try_from_ascii presented_id with
    | Ok (inl name) => (None, names ++ [GeneralDnsName name])
    | Ok (inr _) =>
      match WildcardDnsNameRef_try_from_ascii presented_id with
      | Ok (inl name) => (None, names ++ [GeneralWildcard name])
      | Ok (inr _) => (None, names)
      | other => (Some (let? _ := other in Panic), names)
      end
    | other => (Some (let? _ := other in Panic), names)
    end
  | Ok _ => (None, names)
  | Err err => (Some (Ok err), names)
  | Panic => (Some Panic, names)
  | OutOfFuel => (Some OutOfFuel, names)
  end.

Definition list_cert_dns_names (cert : Cert) : outcome Error (list GeneralDnsNameRef) :=
  match find_map
          (NameIterator_new (Some (subject cert)) (subject_alt_name cert) ContentsDnsName)
          collect_dns_name [] with
  | (Some (Ok err), _) => Err err
  | (Some (Err e), _) => Err e
  | (Some Panic, _) => Panic
  | (Some OutOfFuel, _) => OutOfFuel
  | (None, names) => Ok names
  end.

(** ** Name constraints *)
Definition general_subtree : parser Error GeneralName :=
  let! value := expect_tag Sequence in plift (der_read_all (T := GeneralName) value).

(** [let matches = match (name, base) { .. }]; [None] is [continue]. *)
Definition name_matches_base (subtrees : Subtrees) (name base : GeneralName)
    : option (outcome Error bool) :=
  match name, base with
  | GnDnsName name, GnDnsName base => Some (DnsName.presented_id_matches_constraint name base)
  | DirectoryName _, DirectoryName _ =>
    Some (Ok (match subtrees with PermittedSubtrees => false | ExcludedSubtrees => true end))
  | GnIpAddress name, GnIpAddress base => Some (ip_presented_id_matches_constraint name base)
  | Unsupported name_tag, Unsupported base_tag =>
    if u8_eqb name_tag base_tag then Some (Err NameConstraintViolation) else None
  | _, _ => None
  end.

(** The [while] loop over the subtrees: [inl] holds
    [has_permitted_subtrees_match] and [has_permitted_subtrees_mismatch] at
    its end, [inr] the value of a [return Some(..)]. *)
Fixpoint subtrees_loop (fuel : nat) (subtrees : Subtrees) (name : GeneralName)
    (constraints : Reader) (has_match has_mismatch : bool)
    : (bool * bool) + outcome Error unit :=
  match fuel with
  | O => inr OutOfFuel
  | S fuel =>
    if at_end constraints then inl (has_match, has_mismatch)
    else
      let '(base, constraints) := general_subtree constraints in
      match base with
      | Ok base =>
        match name_matches_base subtrees name base with
        | None => subtrees_loop fuel subtrees name constraints has_match has_mismatch
        | Some matches =>
          match subtrees, matches with
          | PermittedSubtrees, Ok true =>
            subtrees_loop fuel subtrees name constraints true has_mismatch
          | PermittedSubtrees, Ok false =>
            subtrees_loop fuel subtrees name constraints has_match true
          | ExcludedSubtrees, Ok true => inr (Err NameConstraintViolation)
          | ExcludedSubtrees, Ok false =>
            subtrees_loop fuel subtrees name constraints has_match has_mismatch
          | _, Err err => inr (Err err)
          | _, Panic => inr Panic
          | _, OutOfFuel => inr OutOfFuel
          end
        end
      | Err err => inr (Err err)
      | Panic => inr Panic
      | OutOfFuel => inr OutOfFuel
      end
  end.

(** One iteration of the [for] over the kinds of subtrees. *)
Definition check_subtrees (subtrees : Subtrees) (name : GeneralName)
    (constraints : option Input) : option (outcome Error unit) :=
  match constraints with
  | None => None
  | Some constraints =>
    match subtrees_loop (S (length constraints)) subtrees name (reader_new constraints)
            false false with
    | inl (has_match, has_mismatch) =>
      if has_mismatch && negb has_match then Some (Err NameConstraintViolation) else None
    | inr result => Some result
    end
  end.

Definition check_presented_id_conforms_to_constraints (name : GeneralName)
    (permitted_subtrees excluded_subtrees : option Input) : option (outcome Error unit) :=
  match check_subtrees PermittedSubtrees name permitted_subtrees with
  | Some result => Some result
  | None => check_subtrees ExcludedSubtrees name excluded_subtrees
  end.

Definition parse_subtrees (subtrees_tag : Tag) : parser Error (option Input) :=
  let! present := p_peek (tag_u8 subtrees_tag) in
  if negb present then pret None
  else let! value := expect_tag subtrees_tag in pret (Some value).

(** The closure of the loop over the chain. *)
Definition check_name (permitted_subtrees excluded_subtrees : option Input)
    (result : outcome Error GeneralName) : option (outcome Error unit) :=
  match result with
  | Ok name =>
    check_presented_id_conforms_to_constraints name permitted_subtrees excluded_subtrees
  | Err err => Some (Err err)
  | Panic => Some Panic
  | OutOfFuel => Some OutOfFuel
  end.

(** The [loop] down the chain. *)
Fixpoint check_chain_names (permitted_subtrees excluded_subtrees : option Input)
    (contents : SubjectCommonNameContents) (child : Cert) : outcome Error unit :=
  let result :=
    fst (find_map (NameIterator_new (Some (subject child)) (subject_alt_name child) contents)
           (fun item s => (check_name permitted_subtrees excluded_subtrees item, s)) tt) in
  match result with
  | Some (Err err) => Err err
  | Some Panic => Panic
  | Some OutOfFuel => OutOfFuel
  | _ =>
    match child with
    | mkCert (Ca child_cert) _ _ _ _ _ _ _ _ _ _ _ _ =>
      check_chain_names permitted_subtrees excluded_subtrees contents child_cert
    | _ => Ok tt
    end
  end.

(** The closure that [read_all_optional] runs. *)
Definition read_name_constraints (subordinate_certs : Cert)
    (contents : SubjectCommonNameContents) : parser Error unit :=
  let! permitted_subtrees := parse_subtrees ContextSpecificConstructed0 in
  let! excluded_subtrees := parse_subtrees ContextSpecificConstructed1 in
  plift (check_chain_names permitted_subtrees excluded_subtrees contents subordinate_certs).

Definition check_name_constraints (subordinate_certs : Cert)
    (contents : SubjectCommonNameContents) (input : option Reader)
    : outcome Error unit * option Reader :=
  match input with
  | None => (Ok tt, None)
  | Some input =>
    let '(result, input) := read_name_constraints subordinate_certs contents input in
    (result, Some input)
  end.
End VerifyName.

(** ** Reference definitions *)

(** The items up to and including the first that is not a name. *)
Fixpoint until_error (items : list (outcome Error GeneralName)) : list (outcome Error GeneralName) :=
  match items with
  | [] => []
  | Ok name :: items => Ok name :: until_error items
  | item :: _ => [item]
  end.

Section NameItems.
Context {U : Untrusted}.

(** What the iterator yields for the bytes of a subjectAltName: one item per
    value, and nothing after an error. *)
Definition san_items (san : option Input) : list (outcome Error GeneralName) :=
  match san with
  | None => []
  | Some l => until_error (map fst (der_items (T := GeneralName) (S (length l)) l))
  end.

Definition common_name_item (input : Input) : list (outcome Error GeneralName) :=
  match common_name input with
  | Ok (Some cn) => [Ok (GnDnsName cn)]
  | Ok None => []
  | Err e => [Err e]
  | Panic => [Panic]
  | OutOfFuel => [OutOfFuel]
  end.

(** What the iterator yields for the subject. *)
Definition subject_items (subject : option Input) (contents : SubjectCommonNameContents)
    : list (outcome Error GeneralName) :=
  match subject with
  | None => []
  | Some input =>
    Ok (DirectoryName input) ::
    match contents with ContentsDnsName => common_name_item input | Ignore => [] end
  end.

Definition name_items (subject san : option Input) (contents : SubjectCommonNameContents)
    : list (outcome Error GeneralName) :=
  let items := san_items san in
  if forallb is_ok items then items ++ subject_items subject contents else items.

(** [find_map] over a list. *)
Fixpoint list_find_map {B S} (items : list (outcome Error GeneralName))
    (f : outcome Error GeneralName -> S -> option (outcome Error B) * S) (s : S)
    : option (outcome Error B) * S :=
  match items with
  | [] => (None, s)
  | Panic :: _ => (Some Panic, s)
  | OutOfFuel :: _ => (Some OutOfFuel, s)
  | item :: items =>
    match f item s with
    | (Some b, s) => (Some b, s)
    | (None, s) => list_find_map items f s
    end
  end.
End NameItems.

(** ** Lemmas: the iterator *)
Section IteratorLemmas.
Context {U : Untrusted} {L : UntrustedLaws U}.

#[export] Instance lawful_common_name_loop fuel : Lawful (common_name_loop fuel).
Proof.
  induction fuel as [|fuel IH]; cbn [common_name_loop]; [apply _|].
  unfold read_tag_and_get_value. lawful.
Qed.

#[export] Instance lawful_read_common_name : Lawful read_common_name.
Proof. unfold read_common_name. lawful. Qed.

Lemma ends_common_name_loop panics : forall fuel l, (length l < fuel)%nat ->
  ends panics (fst (den (common_name_loop fuel) l)).
Proof.
  induction fuel as [|fuel IH]; intros l Hl; [lia|]. cbn [common_name_loop]. den.
  destruct l as [|b l]; den; [done|].
  pose proof (ends_expect_tag panics OID (b :: l)) as He.
  destruct (den (expect_tag OID) (b :: l)) as [[i| | |] l1] eqn:E; try done.
  apply expect_tag_iff in E as [Hl1 _]. apply (f_equal length) in Hl1.
  rewrite length_app in Hl1. den. destruct (bytes_eqb i COMMON_NAME).
  - generalize l1. change (Ends panics (let! cn := expect_tag UTF8String in
      (pret (Some cn) : parser Error (option Input)))). ends.
  - den. pose proof (ends_read_tlv panics TWO_BYTE_DER_SIZE l1) as He2.
    unfold read_tag_and_get_value.
    destruct (den (read_tag_and_get_value_limited TWO_BYTE_DER_SIZE) l1)
      as [[[t v]| | |] l2] eqn:E2; try done.
    destruct (den_forward _ _ _ _ E2) as [c Hc]. apply (f_equal length) in Hc.
    rewrite length_app in Hc. apply IH. pose proof (length_tlv (tag_u8 OID) i).
    simpl in *. lia.
Qed.

Lemma ends_common_name panics input : ends panics (common_name input).
Proof.
  unfold common_name. pose proof (lawful_den (p := read_common_name) (reader_new input)) as H.
  apply (f_equal fst) in H. simpl in H. rewrite H, remaining_new.
  generalize input. change (Ends panics read_common_name). unfold read_common_name.
  apply ends_nested, ends_nested. intros l. den. apply ends_common_name_loop. lia.
Qed.

(** [next] on an iterator without subjectAltName. *)
Lemma find_map_subject {B S} fuel subject contents
    (f : outcome Error GeneralName -> S -> option (outcome Error B) * S) s :
  (3 <= fuel)%nat ->
  find_map_loop fuel (NameIterator_new subject None contents) f s
  = list_find_map (subject_items subject contents) f s.
Proof.
  intros Hf. do 3 (destruct fuel as [|fuel]; [lia|]). clear Hf.
  destruct subject as [input|]; [|done]. cbn [subject_items list_find_map].
  cbn [find_map_loop].
  assert (NameIterator_next (NameIterator_new (Some input) None contents)
    = (Some (Ok (DirectoryName input)),
       {| it_subject_alt_name := None; it_subject_directory_name := None;
          it_subject_common_name := match contents with ContentsDnsName => Some input | Ignore => None end |}))
    as -> by (by destruct contents).
  destruct (f (Ok (DirectoryName input)) s) as [[b|] s']; [done|].
  destruct contents; [|done]. cbn [NameIterator_next next_subject_name it_subject_alt_name
    it_subject_directory_name it_subject_common_name]. unfold common_name_item.
  destruct (common_name input) as [[cn|]|e| |]; try done; cbn [list_find_map];
    (destruct (f _ s') as [[b|] s'']; [done|]);
    by destruct fuel.
Qed.

(** The iterator at a reader of the subjectAltName. *)
Definition iterator_at (r : option Reader) (subject : option Input)
    (contents : SubjectCommonNameContents) : NameIterator := {|
  it_subject_alt_name := r;
  it_subject_directory_name := subject;
  it_subject_common_name :=
    match contents with ContentsDnsName => subject | Ignore => None end;
|}.

Lemma NameIterator_new_eq subject san contents :
  NameIterator_new subject san contents = iterator_at (reader_new <$> san) subject contents.
Proof. by destruct subject, contents. Qed.

Lemma find_map_at_end {B S} fuel r subject contents
    (f : outcome Error GeneralName -> S -> option (outcome Error B) * S) s :
  remaining r = [] ->
  find_map_loop fuel (iterator_at (Some r) subject contents) f s
  = find_map_loop fuel (iterator_at None subject contents) f s.
Proof.
  intros Hr. destruct fuel as [|fuel]; [done|]. cbn [find_map_loop].
  assert (NameIterator_next (iterator_at (Some r) subject contents)
          = NameIterator_next (iterator_at None subject contents)) as ->; [|done].
  unfold NameIterator_next. simpl. by rewrite at_end_spec, Hr.
Qed.

Lemma find_map_done {B S} fuel
    (f : outcome Error GeneralName -> S -> option (outcome Error B) * S) s : (0 < fuel)%nat ->
  find_map_loop fuel {| it_subject_alt_name := None; it_subject_directory_name := None;
                        it_subject_common_name := None |} f s = (None, s).
Proof. intros Hf. by destruct fuel; [lia|]. Qed.

Lemma find_map_san {B S} subject contents
    (f : outcome Error GeneralName -> S -> option (outcome Error B) * S) :
  forall k fuel r s, (length (remaining r) < k)%nat -> (length (remaining r) + 3 <= fuel)%nat ->
  find_map_loop fuel (iterator_at (Some r) subject contents) f s
  = list_find_map
      (let items := until_error (map fst (der_items (T := GeneralName) k (remaining r))) in
       if forallb is_ok items then items ++ subject_items subject contents else items) f s.
Proof.
  induction k as [|k IH]; intros fuel r s Hk Hfuel; [lia|].
  destruct (remaining r) as [|b l] eqn:Hr.
  { simpl. rewrite find_map_at_end by done.
    rewrite <- (NameIterator_new_eq subject None). by rewrite find_map_subject by (simpl in Hfuel; lia). }
  destruct fuel as [|fuel]; [simpl in Hfuel; lia|]. cbn [find_map_loop der_items].
  unfold NameIterator_next. cbn [iterator_at it_subject_alt_name it_subject_directory_name
    it_subject_common_name]. rewrite at_end_spec, Hr. cbn [negb].
  pose proof (lawful_den (p := from_der (T := GeneralName)) r) as Hden. rewrite Hr in Hden.
  pose proof (progress_shorter (T := GeneralName) (b :: l) ltac:(done)) as Hsh.
  rewrite <- Hden in Hsh |- *. destruct (from_der r) as [item r'] eqn:Ef. simpl in Hsh.
  cbn [fst snd map until_error].
  destruct item as [name|e| |]; [| |done|done].
  - cbn [until_error forallb is_ok andb app].
    fold (iterator_at (Some r') subject contents).
    specialize (IH fuel r').
    destruct (forallb is_ok (until_error (map fst (der_items k (remaining r'))))) eqn:Hok;
      cbn [list_find_map];
      (destruct (f (Ok name) s) as [[x|] s']; [done|]); rewrite IH by (simpl in *; lia);
      cbv zeta; by rewrite Hok.
  - cbn [until_error forallb is_ok andb list_find_map].
    destruct (f (Err e) s) as [[x|] s']; [done|]. by rewrite find_map_done by (simpl in Hfuel; lia).
Qed.

(** Searching the iterator is searching the list of its items. *)
Lemma find_map_items {B S} subject san contents
    (f : outcome Error GeneralName -> S -> option (outcome Error B) * S) s :
  find_map (NameIterator_new subject san contents) f s
  = list_find_map (name_items subject san contents) f s.
Proof.
  unfold find_map, name_items. rewrite NameIterator_new_eq. destruct san as [l|].
  - change (reader_new <$> Some l) with (Some (reader_new l)).
    rewrite (find_map_san subject contents f (Datatypes.S (length l)))
      by (cbn [iterator_at it_subject_alt_name]; rewrite ?remaining_new; lia).
    by rewrite remaining_new.
  - rewrite <- (NameIterator_new_eq subject None). by rewrite find_map_subject by lia.
Qed.
End IteratorLemmas.

(** *** The names and the error of a list of items *)
Fixpoint names_of (items : list (outcome Error GeneralName)) : list GeneralName :=
  match items with
  | [] => []
  | Ok name :: items => name :: names_of items
  | _ :: items => names_of items
  end.

Fixpoint error_of (items : list (outcome Error GeneralName)) : option Error :=
  match items with
  | [] => None
  | Err e :: _ => Some e
  | _ :: items => error_of items
  end.

(** Names, then perhaps an error: what an iterator yields. *)
Definition names_then_error (items : list (outcome Error GeneralName)) : Prop :=
  items = map Ok (names_of items) ++ match error_of items with Some e => [Err e] | None => [] end.

Lemma names_of_ok names rest : names_of (map Ok names ++ rest) = names ++ names_of rest.
Proof. induction names as [|n names IH]; [done|]. simpl. by rewrite IH. Qed.

Lemma error_of_ok names rest : error_of (map Ok names ++ rest) = error_of rest.
Proof. by induction names as [|n names IH]. Qed.

Lemma names_then_error_intro names err :
  names_then_error (map Ok names ++ match err with Some e => [Err e] | None => [] end).
Proof.
  unfold names_then_error. rewrite names_of_ok, error_of_ok.
  destruct err; simpl; by rewrite !app_nil_r.
Qed.

Lemma until_error_shape items : Forall (ends False) items -> names_then_error (until_error items).
Proof.
  intros Hall.
  enough (exists names err, until_error items
            = map Ok names ++ match err with Some e => [Err e] | None => [] end)
    as (names & err & ->) by apply names_then_error_intro.
  induction Hall as [|item items Hi _ (names & err & IH)]; [by exists [], None|].
  destruct item as [n|e| |]; try done.
  - exists (n :: names), err. simpl. by rewrite IH.
  - by exists [], (Some e).
Qed.

Section NamesLemmas.
Context {U : Untrusted} {L : UntrustedLaws U}.

Lemma name_items_shape subject san contents : names_then_error (name_items subject san contents).
Proof.
  unfold name_items.
  assert (names_then_error (san_items san)) as Hsan.
  { destruct san as [l|]; [|done]. apply until_error_shape, der_items_ends, ends_general_name. }
  destruct (forallb is_ok (san_items san)) eqn:Hok; [|done].
  assert (exists names, san_items san = map Ok names) as [names ->].
  { unfold names_then_error in Hsan. rewrite Hsan in Hok. destruct (error_of (san_items san)).
    - by rewrite forallb_app, andb_false_r in Hok.
    - rewrite app_nil_r in Hsan. eauto. }
  assert (exists names' err, subject_items subject contents
            = map Ok names' ++ match err with Some e => [Err e] | None => [] end)
    as (names' & err & ->).
  { destruct subject as [input|]; [|by exists [], None]. destruct contents; [|by exists [DirectoryName input], None].
    unfold subject_items, common_name_item. pose proof (ends_common_name False input).
    destruct (common_name input) as [[cn|]|e| |]; try done;
      [by exists [DirectoryName input; GnDnsName cn], None|by exists [DirectoryName input], None
      |by exists [DirectoryName input], (Some e)]. }
  rewrite app_assoc, <- map_app. apply names_then_error_intro.
Qed.

(** Searching names for one with a property, the errors ending the search. *)
Lemma find_name_spec subject san contents f (P : GeneralName -> Prop) `{!forall n, Decision (P n)} :
  (forall n, f (Ok n) = if decide (P n) then Some (Ok tt) else None) ->
  (forall e, f (Err e) = Some (Err e)) ->
  let items := name_items subject san contents in
  match find_name (NameIterator_new subject san contents) f with
  | Ok _ => exists n, n ∈ names_of items /\ P n
  | Err e => (forall n, n ∈ names_of items -> ~ P n) /\
             e = default CertNotValidForName (error_of items)
  | Panic | OutOfFuel => False
  end.
Proof.
  intros Hok Herr items. unfold find_name. rewrite find_map_items. fold items.
  pose proof (name_items_shape subject san contents) as Hshape. fold items in Hshape.
  unfold names_then_error in Hshape. clearbody items. revert Hshape.
  generalize (names_of items) (error_of items). intros names err ->.
  induction names as [|n names IH]; simpl.
  - destruct err as [e|]; simpl; [rewrite Herr; simpl|]; (split; [by intros n ?%elem_of_nil|done]).
  - rewrite Hok. destruct (decide (P n)) as [HP|HP]; simpl.
    + exists n. split; [|done]. by apply elem_of_cons; left.
    + destruct (default _ _) as [x|e| |]; try done.
      * destruct IH as (n' & Hn & HPn). exists n'. split; [|done]. by apply elem_of_cons; right.
      * destruct IH as [IH ->]. split; [|done]. intros n' [->|?]%elem_of_cons; auto.
Qed.
End NamesLemmas.

(** ** What the verification means *)

(** A name of the certificate that matches the subject name. *)
Definition presents (subject_name : SubjectNameRef) (n : GeneralName) : Prop :=
  match subject_name, n with
  | SubjectDnsName dns_name, GnDnsName presented =>
    dns_id_syntax Presented Yes presented /\
    matches_reference presented (dns_name_bytes dns_name)
  | SubjectIpAddress (V4 _ octets), GnIpAddress presented
  | SubjectIpAddress (V6 _ octets), GnIpAddress presented =>
    presented = octets /\ (length presented = 4 \/ length presented = 16)%nat
  | _, _ => False
  end.

(** A constructed subject name. *)
Definition subject_name_wf (subject_name : SubjectNameRef) : Prop :=
  match subject_name with
  | SubjectDnsName dns_name => dns_id_syntax Reference No (dns_name_bytes dns_name)
  | SubjectIpAddress _ => True
  end.

(** The items searched: the subject is looked at for DNS names only. *)
Definition subject_name_items {U : Untrusted} (cert : Cert) (subject_name : SubjectNameRef)
    : list (outcome Error GeneralName) :=
  match subject_name with
  | SubjectDnsName _ => name_items (Some (subject cert)) (subject_alt_name cert) Ignore
  | SubjectIpAddress _ => name_items None (subject_alt_name cert) Ignore
  end.

Lemma matches_reference_dec p r : dns_id_syntax Presented Yes p -> dns_id_syntax Reference No r ->
  Decision (matches_reference p r).
Proof.
  intros Hp Hr. refine (cast_if (decide (matches_valid Reference p r = true)));
    by rewrite <- matches_reference_iff.
Defined.

Lemma presents_dec subject_name n : subject_name_wf subject_name ->
  Decision (presents subject_name n).
Proof.
  intros Hwf. destruct subject_name as [dns_name|[t o|t o]], n; simpl in *;
    try (right; tauto); try apply _.
  destruct (decide (dns_id_syntax Presented Yes name)) as [Hp|Hp]; [|right; tauto].
  destruct (matches_reference_dec name (dns_name_bytes dns_name) Hp Hwf); [left|right]; tauto.
Defined.

Section SubjectNameProperty.
Context {U : Untrusted} {L : UntrustedLaws U}.

Lemma matches_ip_address_eq o n (P : GeneralName -> Prop) (d : Decision (P n)) :
  (P n <-> exists p, n = GnIpAddress p /\ p = o /\ (length p = 4 \/ length p = 16)%nat) ->
  matches_ip_address o (Ok n) = if d then Some (Ok tt) else None.
Proof.
  intros HP. destruct n as [p|p|p|p|tag]; simpl; try (destruct d; naive_solver).
  rewrite ip_reference_matching_eq. case_bool_decide; destruct d; naive_solver.
Qed.

(** C10: Verifying a certificate for a subject name succeeds exactly when one
    of the names that the certificate lists (before the first malformed one)
    is a DNS name that matches it, or the same address; otherwise the error
    is the one of the malformed name, or that no name matches. *)
Theorem verify_cert_subject_name_spec cert subject_name : subject_name_wf subject_name ->
  let items := subject_name_items cert subject_name in
  match verify_cert_subject_name cert subject_name with
  | Ok _ => exists n, n ∈ names_of items /\ presents subject_name n
  | Err e => (forall n, n ∈ names_of items -> ~ presents subject_name n) /\
             e = default CertNotValidForName (error_of items)
  | Panic | OutOfFuel => False
  end.
Proof.
  intros Hwf items. set (dec := fun n => presents_dec subject_name n Hwf).
  assert (verify_cert_subject_name cert subject_name =
    find_name (match subject_name with
               | SubjectDnsName _ => NameIterator_new (Some (subject cert)) (subject_alt_name cert) Ignore
               | SubjectIpAddress _ => NameIterator_new None (subject_alt_name cert) Ignore
               end)
      (match subject_name with
       | SubjectDnsName dns_name => matches_dns_name (dns_name_bytes dns_name)
       | SubjectIpAddress (V4 _ o) | SubjectIpAddress (V6 _ o) => matches_ip_address o
       end)) as ->.
  { destruct subject_name as [dns_name|[t o|t o]]; try done. simpl in *.
    unfold verify_cert_dns_name, DnsNameRef_as_ref. by rewrite (as_ref_ok Reference No). }
  destruct subject_name as [dns_name|address]; simpl in Hwf.
  - apply (@find_name_spec U L _ _ _ _ (presents (SubjectDnsName dns_name)) dec); [|done].
    intros n. unfold dec. generalize (presents_dec (SubjectDnsName dns_name) n Hwf).
    destruct n as [p|p|p|p|tag]; intros d; simpl in *; try (by destruct d).
    unfold presented_id_matches_reference_id.
    destruct (decide (dns_id_syntax Presented Yes p)) as [Hp|Hp].
    + rewrite internal_valid by done.
      pose proof (matches_reference_iff p (dns_name_bytes dns_name) Hp Hwf) as Hiff.
      destruct (matches_valid _ _ _), d; naive_solver.
    + rewrite internal_invalid_presented by done. destruct d; naive_solver.
  - destruct address as [t o|t o];
      (apply (@find_name_spec U L _ _ _ _ (presents (SubjectIpAddress _)) dec); [|done]);
      intros n; apply (matches_ip_address_eq _ _ (presents (SubjectIpAddress _)));
      destruct n; simpl; naive_solver.
Qed.
End SubjectNameProperty.

(** ** Name constraints *)
Section NameConstraints.
Context {U : Untrusted} {L : UntrustedLaws U}.

(** The base names encoded by the contents of a subtrees field. *)
Definition bases_of (constraints : Input) (bases : list GeneralName) : Prop :=
  exists raws, constraints = concat (map (tlv (tag_u8 Sequence)) raws) /\
    Forall (fun raw => Z.of_nat (length raw) < TWO_BYTE_DER_SIZE) raws /\
    Forall2 (fun raw base => der_read_all (T := GeneralName) raw = Ok base) raws bases.

(** A name is allowed by permitted subtrees if it can be compared with every
    base of its kind and, when there is one, is in the subtree of one. *)
Definition permitted (name : GeneralName) (bases : list GeneralName) : Prop :=
  (forall base m, base ∈ bases -> name_matches_base PermittedSubtrees name base = Some m ->
     exists b, m = Ok b) /\
  ((exists base, base ∈ bases /\ name_matches_base PermittedSubtrees name base = Some (Ok true)) \/
   forall base, base ∈ bases -> name_matches_base PermittedSubtrees name base = None).

(** A name is not excluded if it can be compared with every base of its kind
    and is in the subtree of none. *)
Definition not_excluded (name : GeneralName) (bases : list GeneralName) : Prop :=
  forall base m, base ∈ bases -> name_matches_base ExcludedSubtrees name base = Some m ->
    m = Ok false.

Definition allowed (subtrees : Subtrees) : GeneralName -> list GeneralName -> Prop :=
  match subtrees with PermittedSubtrees => permitted | ExcludedSubtrees => not_excluded end.

(** Allowed by both fields, an absent field allowing every name. *)
Definition conforms (name : GeneralName) (permitted_subtrees excluded_subtrees : option Input)
    : Prop :=
  (forall c, permitted_subtrees = Some c -> exists bases, bases_of c bases /\ permitted name bases) /\
  (forall c, excluded_subtrees = Some c -> exists bases, bases_of c bases /\ not_excluded name bases).

(** The encoding of an optional subtrees field. *)
Definition subtrees_field (tag : Tag) (subtrees : option Input) : Input :=
  match subtrees with None => [] | Some v => tlv (tag_u8 tag) v end.

(** *** Lemmas *)
#[export] Instance lawful_general_subtree : Lawful general_subtree.
Proof. unfold general_subtree. lawful. Qed.

Lemma ends_general_subtree panics : Ends panics general_subtree.
Proof.
  unfold general_subtree. ends.
  apply ends_der_read_all, ends_general_name.
Qed.

Lemma general_subtree_iff l base l' :
  den general_subtree l = (Ok base, l') <->
  exists raw, l = tlv (tag_u8 Sequence) raw ++ l' /\
    Z.of_nat (length raw) < TWO_BYTE_DER_SIZE /\
    der_read_all (T := GeneralName) raw = Ok base.
Proof.
  unfold general_subtree. split.
  - intros H. den_in H. read_value H raw. simplify_eq. eauto.
  - intros (raw & -> & ? & H). den.
    give_value Sequence raw. by rewrite H.
Qed.

(** The loop over the list of the bases. *)
Fixpoint subtrees_run (subtrees : Subtrees) (name : GeneralName) (bases : list GeneralName)
    (has_match has_mismatch : bool) : option (bool * bool) :=
  match bases with
  | [] => Some (has_match, has_mismatch)
  | base :: bases =>
    match name_matches_base subtrees name base, subtrees with
    | None, _ => subtrees_run subtrees name bases has_match has_mismatch
    | Some (Ok true), PermittedSubtrees => subtrees_run subtrees name bases true has_mismatch
    | Some (Ok false), PermittedSubtrees => subtrees_run subtrees name bases has_match true
    | Some (Ok false), ExcludedSubtrees => subtrees_run subtrees name bases has_match has_mismatch
    | _, _ => None
    end
  end.

Lemma bases_of_nil bases : bases_of [] bases <-> bases = [].
Proof.
  split; [|intros ->; by exists []].
  intros (raws & H & _ & H2). destruct raws as [|raw raws]; [by apply Forall2_nil_inv_l in H2|].
  apply (f_equal head) in H. simpl in H. destruct (tlv (tag_u8 Sequence) raw) eqn:E; [|done].
  pose proof (head_tlv (tag_u8 Sequence) raw) as Hh. by rewrite E in Hh.
Qed.

Lemma bases_of_cons raw l bases : Z.of_nat (length raw) < TWO_BYTE_DER_SIZE ->
  bases_of (tlv (tag_u8 Sequence) raw ++ l) bases <->
  exists base bases', bases = base :: bases' /\ der_read_all (T := GeneralName) raw = Ok base /\
    bases_of l bases'.
Proof.
  intros Hraw. split.
  - intros (raws & H & Hlen & H2). destruct raws as [|raw' raws].
    + apply (f_equal length) in H. rewrite length_app in H. cbn [map concat length] in H.
      pose proof (length_tlv (tag_u8 Sequence) raw). lia.
    + simpl in H. apply Forall_cons in Hlen as [Hraw' Hlen].
      assert (den (expect_tag Sequence) (tlv (tag_u8 Sequence) raw ++ l) = (Ok raw, l)) as H3
        by (by apply expect_tag_iff).
      rewrite H, (proj2 (expect_tag_iff Sequence _ raw' _)) in H3 by done.
      injection H3 as -> <-. apply Forall2_cons_inv_l in H2 as (base & bases' & ? & ? & ->).
      exists base, bases'. split_and!; [done|done|]. by exists raws.
  - intros (base & bases' & -> & Hb & raws & -> & Hlen & H2).
    exists (raw :: raws). split_and!; [done| |]; by constructor.
Qed.

Lemma bases_of_unique v bases bases' : bases_of v bases -> bases_of v bases' -> bases = bases'.
Proof.
  intros (raws & -> & Hlen & H2). revert bases bases' H2.
  induction raws as [|raw raws IH]; intros bases bases' H2; simpl.
  - intros ->%bases_of_nil. by apply Forall2_nil_inv_l in H2.
  - apply Forall_cons in Hlen as [Hraw Hlen].
    apply Forall2_cons_inv_l in H2 as (base & bs & Hb & H2 & ->).
    intros (base' & bs' & -> & Hb' & H)%bases_of_cons; [|done].
    rewrite Hb in Hb'. injection Hb' as ->. f_equal. by apply IH.
Qed.

Lemma subtrees_loop_run subtrees name : forall fuel r has_match has_mismatch,
  (length (remaining r) < fuel)%nat ->
  match subtrees_loop fuel subtrees name r has_match has_mismatch with
  | inl res => exists bases, bases_of (remaining r) bases /\
                 subtrees_run subtrees name bases has_match has_mismatch = Some res
  | inr result => forall bases, bases_of (remaining r) bases ->
                    subtrees_run subtrees name bases has_match has_mismatch = None
  end.
Proof.
  induction fuel as [|fuel IH]; intros r m mm Hf; [lia|]. cbn [subtrees_loop].
  rewrite at_end_spec. destruct (remaining r) as [|b l] eqn:Hr.
  { exists []. split; [|done]. by apply bases_of_nil. }
  pose proof (lawful_den (p := general_subtree) r) as Hd. rewrite Hr in Hd.
  destruct (general_subtree r) as [base r'] eqn:Eg. simpl in Hd. symmetry in Hd.
  destruct base as [base|e| |].
  - apply general_subtree_iff in Hd as (raw & Hl & Hraw & Hbase). rewrite Hl.
    assert (length (remaining r') < fuel)%nat as Hf'.
    { apply (f_equal length) in Hl. rewrite length_app in Hl.
      pose proof (length_tlv (tag_u8 Sequence) raw). lia. }
    assert (forall bases, bases_of (tlv (tag_u8 Sequence) raw ++ remaining r') bases <->
      exists bases', bases = base :: bases' /\ bases_of (remaining r') bases') as Hcons.
    { intros bases. rewrite bases_of_cons by done. split.
      - intros (base' & bases' & -> & Hb & ?). rewrite Hbase in Hb. injection Hb as ->. eauto.
      - intros (bases' & -> & ?). eauto. }
    assert (forall m' mm',
      (forall bases', subtrees_run subtrees name (base :: bases') m mm
                      = subtrees_run subtrees name bases' m' mm') ->
      match subtrees_loop fuel subtrees name r' m' mm' with
      | inl res => exists bases, bases_of (tlv (tag_u8 Sequence) raw ++ remaining r') bases /\
                     subtrees_run subtrees name bases m mm = Some res
      | inr result => forall bases, bases_of (tlv (tag_u8 Sequence) raw ++ remaining r') bases ->
                        subtrees_run subtrees name bases m mm = None
      end) as Hrec.
    { intros m' mm' Hrun. specialize (IH r' m' mm' Hf').
      destruct (subtrees_loop fuel subtrees name r' m' mm').
      - destruct IH as (bases' & Hb & Hr'). exists (base :: bases'). rewrite Hrun.
        split; [apply Hcons; eauto|done].
      - intros bases (bases' & -> & Hb)%Hcons. rewrite Hrun. by apply IH. }
    assert (forall (result : outcome Error unit),
      (forall bases', subtrees_run subtrees name (base :: bases') m mm = None) ->
      forall bases, bases_of (tlv (tag_u8 Sequence) raw ++ remaining r') bases ->
                    subtrees_run subtrees name bases m mm = None) as Hstop.
    { intros _ Hrun bases (bases' & -> & _)%Hcons. apply Hrun. }
    destruct (name_matches_base subtrees name base) as [[[]|e| |]|] eqn:En, subtrees;
      first [apply Hrec|apply (Hstop (Err BadDer))]; intros bases'; simpl; by rewrite En.
  - intros bases (raws & Hl & Hlen & H2). destruct raws as [|raw raws]; [done|].
    simpl in Hl. apply Forall_cons in Hlen as [Hlen _].
    apply Forall2_cons_inv_l in H2 as (base' & bases' & Hb & _ & ->).
    rewrite Hl, (proj2 (general_subtree_iff _ base' _)) in Hd by eauto. done.
  - pose proof (ends_general_subtree False (b :: l)) as He. by rewrite Hd in He.
  - pose proof (ends_general_subtree False (b :: l)) as He. by rewrite Hd in He.
Qed.

(** The outcome of a comparison is a value or an error. *)
Lemma ends_name_matches_base subtrees name base m :
  name_matches_base subtrees name base = Some m -> ends False m.
Proof.
  destruct name, base; simpl; try done.
  - intros [= <-]. pose proof (constraint_matching_spec name name0) as H.
    by destruct (presented_id_matches_constraint name name0).
  - by intros [= <-].
  - intros [= <-]. pose proof (ip_constraint_spec name name0) as H.
    by destruct (ip_presented_id_matches_constraint name name0).
  - case_match; [|done]. by intros [= <-].
Qed.

Lemma ends_subtrees_loop subtrees name : forall fuel r m mm,
  (length (remaining r) < fuel)%nat ->
  match subtrees_loop fuel subtrees name r m mm with inl _ => True | inr result => ends False result end.
Proof.
  induction fuel as [|fuel IH]; intros r m mm Hf; [lia|]. cbn [subtrees_loop].
  rewrite at_end_spec. destruct (remaining r) as [|b l] eqn:Hr; [done|].
  pose proof (lawful_den (p := general_subtree) r) as Hd. rewrite Hr in Hd.
  pose proof (ends_general_subtree False (b :: l)) as He. rewrite <- Hd in He.
  destruct (general_subtree r) as [base r'] eqn:Eg. simpl in Hd, He. symmetry in Hd.
  destruct base as [base|e| |]; try done.
  apply general_subtree_iff in Hd as (raw & Hl & _ & _).
  assert (length (remaining r') < fuel)%nat as Hf'.
  { apply (f_equal length) in Hl. rewrite length_app in Hl.
    pose proof (length_tlv (tag_u8 Sequence) raw). lia. }
  destruct (name_matches_base subtrees name base) as [m'|] eqn:En; [|by apply IH].
  apply ends_name_matches_base in En.
  destruct subtrees, m' as [[]|e| |]; try done; by apply IH.
Qed.

Definition comparable (subtrees : Subtrees) (name base : GeneralName) : bool :=
  match name_matches_base subtrees name base with None | Some (Ok _) => true | _ => false end.
Definition hits (subtrees : Subtrees) (name : GeneralName) (b : bool) (base : GeneralName) : bool :=
  match name_matches_base subtrees name base with Some (Ok b') => Bool.eqb b b' | _ => false end.

Lemma permitted_run name bases : forall m mm,
  subtrees_run PermittedSubtrees name bases m mm =
    if forallb (comparable PermittedSubtrees name) bases
    then Some (m || existsb (hits PermittedSubtrees name true) bases,
               mm || existsb (hits PermittedSubtrees name false) bases)
    else None.
Proof.
  unfold comparable, hits. induction bases as [|base bases IH]; intros m mm; simpl.
  - by rewrite !orb_false_r.
  - destruct (name_matches_base PermittedSubtrees name base) as [[[]|e| |]|]; simpl;
      rewrite ?IH, ?orb_true_r; try done; by case_match.
Qed.

Lemma excluded_run name bases : forall m mm,
  subtrees_run ExcludedSubtrees name bases m mm =
    if forallb (fun base => comparable ExcludedSubtrees name base
                            && negb (hits ExcludedSubtrees name true base)) bases
    then Some (m, mm) else None.
Proof.
  unfold comparable, hits. induction bases as [|base bases IH]; intros m mm; simpl; [done|].
  destruct (name_matches_base ExcludedSubtrees name base) as [[[]|e| |]|]; simpl; by rewrite ?IH.
Qed.

Lemma permitted_iff name bases : permitted name bases <->
  forallb (comparable PermittedSubtrees name) bases = true /\
  existsb (hits PermittedSubtrees name false) bases
    && negb (existsb (hits PermittedSubtrees name true) bases) = false.
Proof.
  unfold permitted. rewrite forallb_forall, andb_false_iff, negb_false_iff, existsb_exists.
  assert (existsb (hits PermittedSubtrees name false) bases = false <->
          forall base, In base bases -> hits PermittedSubtrees name false base = false) as ->.
  { rewrite <- not_true_iff_false, existsb_exists. split.
    - intros H base Hb. apply not_true_iff_false. intros Ht. apply H. eauto.
    - intros H (base & Hb & Ht). by rewrite H in Ht. }
  unfold comparable, hits. setoid_rewrite list_elem_of_In. split.
  - intros [Hc Hm]. split.
    + intros base Hb. destruct (name_matches_base _ name base) as [r|] eqn:E; [|done].
      by destruct (Hc base r Hb E) as [b ->].
    + destruct Hm as [(base & Hb & Hm)|Hm]; [right|left].
      * exists base. by rewrite Hm.
      * intros base Hb. by rewrite Hm.
  - intros [Hc Hm]. split.
    + intros base r Hb E. specialize (Hc base Hb). rewrite E in Hc. destruct r; try done. eauto.
    + destruct Hm as [Hm|(base & Hb & Hm)].
      * destruct (existsb (hits PermittedSubtrees name true) bases) eqn:Ee.
        -- apply existsb_exists in Ee as (base & Hb & Hh). left. exists base. split; [done|].
           unfold hits in Hh. by destruct (name_matches_base _ name base) as [[[]|e| |]|].
        -- right. intros base Hb. specialize (Hm base Hb). specialize (Hc base Hb).
           destruct (name_matches_base _ name base) as [[[]|e| |]|] eqn:E; try done.
           enough (existsb (hits PermittedSubtrees name true) bases = true) by congruence.
           apply existsb_exists. exists base. unfold hits. by rewrite E.
      * left. exists base. split; [done|].
        by destruct (name_matches_base _ name base) as [[[]|e| |]|].
Qed.

Lemma not_excluded_iff name bases : not_excluded name bases <->
  forallb (fun base => comparable ExcludedSubtrees name base
                       && negb (hits ExcludedSubtrees name true base)) bases = true.
Proof.
  unfold not_excluded, comparable, hits. rewrite forallb_forall. setoid_rewrite list_elem_of_In.
  split.
  - intros H base Hb. destruct (name_matches_base _ name base) as [r|] eqn:E; [|done].
    by rewrite (H base r Hb E).
  - intros H base r Hb E. specialize (H base Hb). rewrite E in H. by destruct r as [[]| | |].
Qed.

(** A field allows a name when its bases are well formed and allow it. *)
Lemma check_subtrees_none subtrees name c : check_subtrees subtrees name c = None <->
  forall v, c = Some v -> exists bases, bases_of v bases /\ allowed subtrees name bases.
Proof.
  unfold check_subtrees. destruct c as [v|]; [|done].
  pose proof (subtrees_loop_run subtrees name (S (length v)) (reader_new v) false false) as H.
  rewrite remaining_new in H. specialize (H ltac:(lia)).
  transitivity (exists bases, bases_of v bases /\ allowed subtrees name bases); [|naive_solver].
  destruct (subtrees_loop _ _ _ _ _ _) as [[m mm]|result].
  - destruct H as (bases & Hb & Hrun).
    transitivity (allowed subtrees name bases).
    2: { split; [eauto|]. intros (bases' & Hb' & Ha). by rewrite (bases_of_unique v bases bases'). }
    destruct subtrees; simpl.
    + rewrite permitted_iff. rewrite permitted_run in Hrun. case_match; [|done].
      injection Hrun as <- <-. simpl. case_match; [naive_solver|]. naive_solver.
    + rewrite not_excluded_iff. rewrite excluded_run in Hrun. case_match; [|done].
      by injection Hrun as <- <-.
  - split; [done|]. intros (bases & Hb & Ha). specialize (H bases Hb). destruct subtrees; simpl in Ha.
    + apply permitted_iff in Ha as [Ha _]. by rewrite permitted_run, Ha in H.
    + apply not_excluded_iff in Ha. by rewrite excluded_run, Ha in H.
Qed.

Lemma conforms_iff name p e :
  check_presented_id_conforms_to_constraints name p e = None <-> conforms name p e.
Proof.
  unfold check_presented_id_conforms_to_constraints, conforms.
  pose proof (check_subtrees_none PermittedSubtrees name p) as Hp.
  pose proof (check_subtrees_none ExcludedSubtrees name e) as He. simpl in Hp, He.
  destruct (check_subtrees PermittedSubtrees name p); [|tauto].
  split; [done|]. intros [Hc _]. by apply Hp in Hc.
Qed.

Lemma ends_check_subtrees subtrees name c r : check_subtrees subtrees name c = Some r -> ends False r.
Proof.
  unfold check_subtrees. destruct c as [v|]; [|done].
  pose proof (ends_subtrees_loop subtrees name (S (length v)) (reader_new v) false false) as H.
  rewrite remaining_new in H. specialize (H ltac:(lia)).
  destruct (subtrees_loop _ _ _ _ _ _) as [[m mm]|result]; [|by intros [= <-]].
  case_match; [by intros [= <-]|done].
Qed.

(** The check never succeeds early: what it returns is an error. *)
Lemma check_subtrees_error subtrees name c r :
  check_subtrees subtrees name c = Some r -> exists e, r = Err e.
Proof.
  intros H. pose proof (ends_check_subtrees _ _ _ _ H) as He. revert H He.
  unfold check_subtrees. destruct c as [v|]; [|done].
  assert (forall fuel r m mm, match subtrees_loop fuel subtrees name r m mm with
            | inr (Ok _) => False | _ => True end) as Hno.
  { induction fuel as [|fuel IH]; intros rd m mm; [done|]. cbn [subtrees_loop].
    destruct (at_end rd); [done|]. destruct (general_subtree rd) as [[base|e| |] rd']; try done.
    destruct (name_matches_base subtrees name base) as [m'|]; [|apply IH].
    destruct subtrees, m' as [[]|e| |]; done || apply IH. }
  specialize (Hno (S (length v)) (reader_new v) false false).
  destruct (subtrees_loop _ _ _ _ _ _) as [[m mm]|result].
  - case_match; [|done]. intros [= <-]. eauto.
  - intros [= <-]. destruct result; try done. eauto.
Qed.

Lemma check_conforms_error name p e r :
  check_presented_id_conforms_to_constraints name p e = Some r -> exists err, r = Err err.
Proof.
  unfold check_presented_id_conforms_to_constraints.
  destruct (check_subtrees PermittedSubtrees name p) as [r'|] eqn:E.
  - intros [= <-]. by apply check_subtrees_error in E.
  - intros H. by apply check_subtrees_error in H.
Qed.

(** The names of one certificate. *)
Lemma check_items_iff p e subject san contents :
  let items := name_items subject san contents in
  match fst (find_map (NameIterator_new subject san contents)
               (fun item s => (check_name p e item, s)) tt) with
  | None => error_of items = None /\ forall n, n ∈ names_of items -> conforms n p e
  | Some r => (exists err, r = Err err) /\
              ~ (error_of items = None /\ forall n, n ∈ names_of items -> conforms n p e)
  end.
Proof.
  intros items. rewrite find_map_items. fold items.
  pose proof (name_items_shape subject san contents) as Hshape. fold items in Hshape.
  unfold names_then_error in Hshape. clearbody items. revert Hshape.
  generalize (names_of items) (error_of items). intros names err ->.
  induction names as [|n names IH]; simpl.
  - destruct err as [er|]; simpl; [naive_solver|]. split; [done|]. by intros n ?%elem_of_nil.
  - pose proof (conforms_iff n p e) as Hn.
    destruct (check_presented_id_conforms_to_constraints n p e) as [r|] eqn:E; simpl.
    + split; [by apply check_conforms_error in E|]. intros [_ H].
      enough (Some r = None) by done. apply Hn, H. by apply elem_of_cons; left.
    + destruct (fst _) as [r|].
      * destruct IH as [Herr IH]. split; [done|]. intros [He H]. apply IH. split; [done|].
        intros n' Hn'. apply H. by apply elem_of_cons; right.
      * destruct IH as [He IH]. split; [done|]. intros n' [->|Hn']%elem_of_cons; [by apply Hn|auto].
Qed.

(** The names of the certificates of a chain conform to the constraints. *)
Definition chain_conforms (p e : option Input) (contents : SubjectCommonNameContents)
    (child : Cert) : Prop :=
  forall cert, cert ∈ chain_down child ->
    let items := name_items (Some (subject cert)) (subject_alt_name cert) contents in
    error_of items = None /\ forall n, n ∈ names_of items -> conforms n p e.

Lemma check_chain_names_iff p e contents child :
  check_chain_names p e contents child = Ok tt <-> chain_conforms p e contents child.
Proof.
  unfold chain_conforms. induction child as [child IH] using chain_ind.
  pose proof (check_items_iff p e (Some (subject child)) (subject_alt_name child) contents) as Hit.
  destruct child as [[|c] serial sd issuer va su sp bc ku eku nc san dp];
    cbn [check_chain_names chain_down ee_or_ca];
    destruct (fst (find_map _ _ _)) as [r|].
  - destruct Hit as [[err ->] Hno]. split; [done|]. intros H. destruct Hno. apply H.
    by apply elem_of_cons; left.
  - split; [|done]. by intros _ cert ->%list_elem_of_singleton.
  - destruct Hit as [[err ->] Hno]. split; [done|]. intros H. destruct Hno. apply H.
    by apply elem_of_cons; left.
  - cbn [ee_or_ca] in IH. rewrite IH. split.
    + intros H cert [->|Hc]%elem_of_cons; [done|by apply H].
    + intros H cert Hc. apply H. by apply elem_of_cons; right.
Qed.

Lemma ends_check_chain_names panics p e contents child :
  ends panics (check_chain_names p e contents child).
Proof.
  induction child as [child IH] using chain_ind.
  pose proof (check_items_iff p e (Some (subject child)) (subject_alt_name child) contents) as Hit.
  destruct child as [[|c] serial sd issuer va su sp bc ku eku nc san dp];
    cbn [check_chain_names]; cbn [ee_or_ca] in IH;
    (destruct (fst (find_map _ _ _)) as [r|]; [by destruct Hit as [[err ->] _]|done]).
Qed.

Lemma parse_subtrees_iff tag l o l' :
  den (parse_subtrees tag) l = (Ok o, l') <->
  l = subtrees_field tag o ++ l' /\ (o = None -> head l' <> Some (tag_u8 tag)) /\
  (forall v, o = Some v -> Z.of_nat (length v) < TWO_BYTE_DER_SIZE).
Proof.
  unfold parse_subtrees, subtrees_field. den. split.
  - destruct (match l with [] => false | c :: _ => u8_eqb c (tag_u8 tag) end) eqn:Ep;
      intros H; den_in H.
    + destruct (den (expect_tag tag) l) as [[v| | |] l1] eqn:E; try done. den_in H. simplify_eq.
      apply expect_tag_iff in E as [-> ?]. split_and!; [done|done|]. by intros v' [= <-].
    + simplify_eq. split_and!; [done| |done]. intros _. destruct l' as [|c l']; [done|].
      simpl. intros [= ->]. by rewrite u8_eqb_refl in Ep.
  - intros (-> & Hn & Hl). destruct o as [v|].
    + rewrite peek_tlv, u8_eqb_refl. den.
      rewrite (proj2 (expect_tag_iff tag _ v l')) by (split; [done|auto]). by den.
    + replace (match [] ++ l' with [] => false | c :: _ => u8_eqb c (tag_u8 tag) end) with false.
      * by den.
      * specialize (Hn eq_refl). simpl. destruct l' as [|c l']; [done|].
        symmetry. apply u8_eqb_neq. by intros ->.
Qed.

#[export] Instance lawful_parse_subtrees tag : Lawful (parse_subtrees tag).
Proof. unfold parse_subtrees. lawful. Qed.

#[export] Instance lawful_read_name_constraints child contents :
  Lawful (read_name_constraints child contents).
Proof. unfold read_name_constraints. lawful. Qed.

Lemma ends_read_name_constraints panics child contents :
  Ends panics (read_name_constraints child contents).
Proof.
  unfold read_name_constraints, parse_subtrees. der_ends; apply ends_check_chain_names.
Qed.

(** What the contents of a NameConstraints extension have to be. *)
Lemma read_name_constraints_iff child contents l l' :
  den (read_name_constraints child contents) l = (Ok tt, l') <->
  exists p e, l = subtrees_field ContextSpecificConstructed0 p
                    ++ subtrees_field ContextSpecificConstructed1 e ++ l' /\
    (e = None -> head l' <> Some (tag_u8 ContextSpecificConstructed1)) /\
    (p = None -> e = None -> head l' <> Some (tag_u8 ContextSpecificConstructed0)) /\
    (forall v, p = Some v \/ e = Some v -> Z.of_nat (length v) < TWO_BYTE_DER_SIZE) /\
    chain_conforms p e contents child.
Proof.
  unfold read_name_constraints. split.
  - intros H. den_in H.
    destruct (den (parse_subtrees ContextSpecificConstructed0) l) as [[p| | |] l1] eqn:E; try done.
    apply parse_subtrees_iff in E as (-> & Hp & Hpl). den_in H.
    destruct (den (parse_subtrees ContextSpecificConstructed1) l1) as [[e| | |] l2] eqn:E; try done.
    apply parse_subtrees_iff in E as (-> & He & Hel). den_in H.
    injection H as H ->. apply check_chain_names_iff in H. exists p, e.
    split_and!; [done|done| | |done].
    + intros Hpn Hen. specialize (Hp Hpn). by rewrite Hen in Hp.
    + naive_solver.
  - intros (p & e & -> & He & Hp & Hl & Hc). den.
    rewrite (proj2 (parse_subtrees_iff ContextSpecificConstructed0 _ p
      (subtrees_field ContextSpecificConstructed1 e ++ l'))).
    + den. rewrite (proj2 (parse_subtrees_iff ContextSpecificConstructed1 _ e l')).
      * den. by rewrite (proj2 (check_chain_names_iff p e contents child)).
      * split_and!; [done|done|]. intros v ->. apply Hl. by right.
    + split_and!; [done| |].
      * intros Hpn. destruct e as [v|]; [|by apply Hp].
        unfold subtrees_field. destruct (tlv _ v) eqn:Et;
          pose proof (head_tlv (tag_u8 ContextSpecificConstructed1) v) as Hh; rewrite Et in Hh; [done|].
        injection Hh as ->. by intros [= ?%tag_u8_inj].
      * intros v ->. apply Hl. by left.
Qed.

(** What an optional NameConstraints extension demands of a chain. *)
Definition name_constraints_ok (constraints : option Input) (child : Cert)
    (contents : SubjectCommonNameContents) : Prop :=
  forall c, constraints = Some c -> exists p e,
    c = subtrees_field ContextSpecificConstructed0 p
          ++ subtrees_field ContextSpecificConstructed1 e /\
    (forall v, p = Some v \/ e = Some v -> Z.of_nat (length v) < TWO_BYTE_DER_SIZE) /\
    chain_conforms p e contents child.

Lemma name_constraints_eq constraints child contents :
  read_all_optional constraints BadDer (check_name_constraints child contents) =
  match constraints with
  | None => Ok tt
  | Some c => read_all c BadDer (read_name_constraints child contents)
  end.
Proof.
  rewrite (read_all_optional_eq _ _ (read_name_constraints child contents)); [done|].
  intros r. unfold check_name_constraints. by destruct (read_name_constraints child contents r).
Qed.

Lemma check_name_constraints_iff constraints child contents :
  read_all_optional constraints BadDer (check_name_constraints child contents) = Ok tt <->
  name_constraints_ok constraints child contents.
Proof.
  rewrite name_constraints_eq. unfold name_constraints_ok. destruct constraints as [c|]; [|done].
  rewrite read_all_ok, read_name_constraints_iff. split.
  - intros (p & e & -> & _ & _ & Hl & Hc) ? [= <-]. exists p, e. by rewrite app_nil_r.
  - intros H. destruct (H c eq_refl) as (p & e & -> & Hl & Hc). exists p, e. by rewrite app_nil_r.
Qed.

Lemma ends_name_constraints panics constraints child contents :
  ends panics (read_all_optional constraints BadDer (check_name_constraints child contents)).
Proof.
  rewrite name_constraints_eq. destruct constraints as [c|]; [|done].
  apply ends_read_all, ends_read_name_constraints.
Qed.

(** C9: The check of a NameConstraints extension always returns, and succeeds
    exactly when the extension is the encoding of permitted and excluded
    subtrees to which every name of every certificate down the chain
    conforms, no name being malformed. *)
Theorem name_constraints_check constraints child contents :
  match read_all_optional constraints BadDer (check_name_constraints child contents) with
  | Ok _ => name_constraints_ok constraints child contents
  | Err _ => ~ name_constraints_ok constraints child contents
  | Panic | OutOfFuel => False
  end.
Proof.
  pose proof (ends_name_constraints False constraints child contents) as He.
  pose proof (check_name_constraints_iff constraints child contents) as H.
  destruct (read_all_optional _ _ _) as [[]|e| |]; try done; [by apply H|by intros ?%H].
Qed.
End NameConstraints.

(** ** The DNS names of a certificate *)

(** The name that a presented identifier is listed as. *)
Definition listed_name (presented : Input) : option GeneralDnsNameRef :=
  if decide (dns_id_syntax Reference No presented)
  then Some (GeneralDnsName {| dns_name_bytes := presented |})
  else if decide (dns_id_syntax Reference Yes presented)
  then Some (GeneralWildcard {| wildcard_bytes := presented |})
  else None.

Definition listed_names (names : list GeneralName) : list GeneralDnsNameRef :=
  omap (fun name => match name with GnDnsName presented => listed_name presented | _ => None end) names.

Section ListNames.
Context {U : Untrusted} {L : UntrustedLaws U}.

Lemma collect_dns_name_eq name acc :
  collect_dns_name (Ok name) acc = (None, acc ++ listed_names [name]).
Proof.
  destruct name as [p|p|p|p|tag]; simpl; rewrite ?app_nil_r; try done.
  unfold DnsNameRef_try_from_ascii, WildcardDnsNameRef_try_from_ascii, listed_name.
  rewrite !is_valid_dns_id_eq. cbn [obind].
  pose proof (dns_valid_iff Reference No p) as Hr. pose proof (dns_valid_iff Reference Yes p) as Hp.
  destruct (dns_valid Reference No p); cbn [negb obind].
  - by rewrite decide_True by (by apply Hr).
  - rewrite decide_False by (by intros ?%Hr). destruct (dns_valid Reference Yes p); cbn [negb obind].
    + by rewrite decide_True by (by apply Hp).
    + rewrite decide_False by (by intros ?%Hp). by rewrite app_nil_r.
Qed.

(** C35: The DNS names of a certificate are listed in order: each DNS name of
    the certificate, the common name included, that is a valid name or a valid
    wildcard name; the error of a malformed name is returned instead. *)
Theorem list_cert_dns_names_spec cert :
  let items := name_items (Some (subject cert)) (subject_alt_name cert) ContentsDnsName in
  list_cert_dns_names cert =
    match error_of items with Some e => Err e | None => Ok (listed_names (names_of items)) end.
Proof.
  intros items. unfold list_cert_dns_names. rewrite find_map_items. fold items.
  pose proof (name_items_shape (Some (subject cert)) (subject_alt_name cert) ContentsDnsName) as H.
  fold items in H. unfold names_then_error in H. clearbody items. revert H.
  generalize (names_of items) (error_of items). intros names err ->.
  assert (forall acc, list_find_map
            (map Ok names ++ match err with Some e => [Err e] | None => [] end) collect_dns_name acc
          = (Ok <$> err, acc ++ listed_names names)) as ->; [|by destruct err].
  induction names as [|n names IH]; intros acc.
  - simpl. rewrite app_nil_r. by destruct err.
  - cbn [map app list_find_map]. rewrite collect_dns_name_eq, IH. f_equal.
    rewrite <- app_assoc. f_equal. unfold listed_names.
    destruct n as [p|p|p|p|tag]; simpl; [by destruct (listed_name p)|done..].
Qed.
End ListNames.

(** *** Witnesses *)
Lemma verify_cert_subject_name_spec_witness :
  exists cert n, Cert_from_der (U := slice_reader) ee_der EndEntity = Ok cert /\
    n ∈ names_of (subject_name_items (U := slice_reader) cert
                    (SubjectDnsName {| dns_name_bytes := www_example_com |})) /\
    presents (SubjectDnsName {| dns_name_bytes := www_example_com |}) n.
Proof.
  assert (exists cert, Cert_from_der (U := slice_reader) ee_der EndEntity = Ok cert /\
    verify_cert_subject_name (U := slice_reader) cert
      (SubjectDnsName {| dns_name_bytes := www_example_com |}) = Ok tt)
    as (cert & E & Hok) by (eexists; split; [vm_compute; reflexivity|vm_compute; reflexivity]).
  pose proof (verify_cert_subject_name_spec (U := slice_reader) cert
    (SubjectDnsName {| dns_name_bytes := www_example_com |})
    ltac:(apply dns_valid_iff; by vm_compute)) as H.
  rewrite Hok in H. destruct H as (n & Hn & Hp).
  exists cert, n. exact (conj E (conj Hn Hp)).
Defined.

Lemma name_constraints_check_witness :
  exists cert, Cert_from_der (U := slice_reader) ee_der EndEntity = Ok cert /\
    name_constraints_ok (U := slice_reader) (Some sample_subtrees) cert ContentsDnsName.
Proof.
  assert (exists cert, Cert_from_der (U := slice_reader) ee_der EndEntity = Ok cert /\
    read_all_optional (Untrusted := slice_reader) (Some sample_subtrees) BadDer
      (check_name_constraints (U := slice_reader) cert ContentsDnsName) = Ok tt)
    as (cert & E & Hok) by (eexists; split; [vm_compute; reflexivity|vm_compute; reflexivity]).
  pose proof (name_constraints_check (U := slice_reader) (Some sample_subtrees) cert ContentsDnsName) as H.
  rewrite Hok in H. exists cert. exact (conj E H).
Defined.

Lemma list_cert_dns_names_spec_witness :
  exists cert, Cert_from_der (U := slice_reader) ee_der EndEntity = Ok cert /\
    list_cert_dns_names (U := slice_reader) cert
    = Ok (listed_names [GnDnsName www_example_com; DirectoryName (subject cert); GnDnsName www_example_com]).
Proof.
  eexists. split; [vm_compute; reflexivity|].
  rewrite (list_cert_dns_names_spec (U := slice_reader)). by vm_compute.
Defined.
