(* ===== verification/VerifyCert.v ===== *)
(** * [src/verify_cert.rs]: path building

    Revocation options, the checks on one certificate, the verification of the
    signatures and revocation status down a chain, and the search for a path
    from an end-entity certificate to a trust anchor.  The counter of signature
    checks, a [&mut usize] of the source, is threaded through the search. *)
From stdpp Require Import gmap.
From S2P Require Import Prelude Errors Untrusted Der Time GeneralName X509 SignedData Cert Crl.
From S2P Require Import Samples TrustAnchor VerifyName.

(** ** Revocation options *)
Inductive RevocationCheckDepth : Type := DepthEndEntity | DepthChain.
Inductive UnknownStatusPolicy : Type := Allow | Deny.
Inductive CrlsRequired : Type := mkCrlsRequired.

Record RevocationOptionsBuilder : Type := {
  builder_crls : list dyn_crl;
  builder_depth : RevocationCheckDepth;
  builder_status_requirement : UnknownStatusPolicy;
}.

Record RevocationOptions : Type := {
  crls : list dyn_crl;
  depth : RevocationCheckDepth;
  status_requirement : UnknownStatusPolicy;
}.

Definition RevocationOptionsBuilder_new (crls : list dyn_crl)
    : outcome CrlsRequired RevocationOptionsBuilder :=
  match crls with
  | [] => Err mkCrlsRequired
  | _ => Ok {| builder_crls := crls; builder_depth := DepthChain;
               builder_status_requirement := Deny |}
  end.

Definition with_depth (self : RevocationOptionsBuilder) (depth : RevocationCheckDepth)
    : RevocationOptionsBuilder :=
  {| builder_crls := builder_crls self; builder_depth := depth;
     builder_status_requirement := builder_status_requirement self |}.

Definition allow_unknown_status (self : RevocationOptionsBuilder) : RevocationOptionsBuilder :=
  {| builder_crls := builder_crls self; builder_depth := builder_depth self;
     builder_status_requirement := Allow |}.

Definition forbid_unknown_status (self : RevocationOptionsBuilder) : RevocationOptionsBuilder :=
  {| builder_crls := builder_crls self; builder_depth := builder_depth self;
     builder_status_requirement := Deny |}.

Definition RevocationOptionsBuilder_build (self : RevocationOptionsBuilder) : RevocationOptions :=
  {| crls := builder_crls self; depth := builder_depth self;
     status_requirement := builder_status_requirement self |}.

(** ** Key usage *)
Record KeyPurposeId : Type := { oid_value : Input }.

Definition KeyPurposeId_new (oid : list u8) : KeyPurposeId := {| oid_value := oid |}.

Definition EKU_SERVER_AUTH : KeyPurposeId := KeyPurposeId_new (oid 1 3 [6; 1; 5; 5; 7; 3; 1]).
Definition EKU_CLIENT_AUTH : KeyPurposeId := KeyPurposeId_new (oid 1 3 [6; 1; 5; 5; 7; 3; 2]).

Inductive ExtendedKeyUsage : Type :=
  | Required (eku : KeyPurposeId)
  | RequiredIfPresent (eku : KeyPurposeId).

Record KeyUsage : Type := { inner : ExtendedKeyUsage }.

Definition server_auth : KeyUsage := {| inner := RequiredIfPresent EKU_SERVER_AUTH |}.
Definition client_auth : KeyUsage := {| inner := RequiredIfPresent EKU_CLIENT_AUTH |}.
Definition required (oid : list u8) : KeyUsage := {| inner := Required (KeyPurposeId_new oid) |}.

Definition key_purpose_id_equals (self : ExtendedKeyUsage) (value : Input) : bool :=
  bytes_eqb (oid_value (match self with Required eku => eku | RequiredIfPresent eku => eku end))
    value.

(** [CrlSign = 6], the one key usage that is looked at. *)
Inductive KeyUsageMode : Type := CrlSign.
Definition key_usage_bit (self : KeyUsageMode) : Z := match self with CrlSign => 6 end.

Inductive UsedAsCa : Type := UsedAsCaYes | UsedAsCaNo.
Definition used_as_ca (ee_or_ca : EndEntityOrCa) : UsedAsCa :=
  match ee_or_ca with EndEntity => UsedAsCaNo | Ca _ => UsedAsCaYes end.

Record ChainOptions : Type := {
  opt_eku : KeyUsage;
  supported_sig_algs : list SignatureVerificationAlgorithm;
  trust_anchors : list TrustAnchor;
  intermediate_certs : list CertificateDer;
  revocation : option RevocationOptions;
}.

(** [loop_while_non_fatal_error]; the closure mutates the state [S]. *)
Fixpoint loop_while_non_fatal_error {A S} (default_error : Error) (values : list A)
    (f : A -> S -> outcome Error unit * S) (s : S) : outcome Error unit * S :=
  match values with
  | [] => (Err default_error, s)
  | v :: values =>
    match f v s with
    | (Ok tt, s) => (Ok tt, s)
    | (Err MaximumSignatureChecksExceeded, s) => (Err MaximumSignatureChecksExceeded, s)
    | (Err new_error, s) =>
      loop_while_non_fatal_error (most_specific default_error new_error) values f s
    | (Panic, s) => (Panic, s)
    | (OutOfFuel, s) => (OutOfFuel, s)
    end
  end.

Section Checks.
Context {U : Untrusted}.

(** ** The checks on one certificate *)
Fixpoint eku_loop (fuel : nat) (self : ExtendedKeyUsage) : parser Error unit :=
  match fuel with
  | O => out_of_fuel
  | S fuel =>
    let! value := expect_tag OID in
    if key_purpose_id_equals self value then p_skip_to_end
    else
      let! at_end := p_at_end in
      if at_end then pfail RequiredEkuNotFound else eku_loop fuel self
  end.

(** [ExtendedKeyUsage::check]. *)
Definition eku_check (self : ExtendedKeyUsage) (input : option Reader)
    : outcome Error unit * option Reader :=
  match input, self with
  | Some input, _ =>
    let '(result, input) := (let! fuel := loop_fuel in eku_loop fuel self) input in
    (result, Some input)
  | None, RequiredIfPresent _ => (Ok tt, None)
  | None, Required _ => (Err RequiredEkuNotFound, None)
  end.

(** [KeyUsageMode::check]; nothing looks at what follows the BIT STRING. *)
Definition key_usage_check (self : KeyUsageMode) (input : option Input) : outcome Error unit :=
  match input with
  | Some input =>
    let? bit_string := fst (expect_tag BitString (reader_new input)) in
    let? flags := bit_string_flags bit_string in
    if bit_set flags (key_usage_bit self) then Ok tt else Err IssuerNotCrlSigner
  | None => Ok tt
  end.

Definition check_validity (time : Time) : parser Error unit :=
  let! not_before := from_der (T := Time) in
  let! not_after := from_der (T := Time) in
  if time_ltb not_after not_before then pfail InvalidCertValidity
  else if time_ltb time not_before then pfail CertNotValidYet
  else if time_ltb not_after time then pfail CertExpired
  else pret tt.

(** The fields of BasicConstraints. *)
Definition read_basic_constraints : parser Error (bool * option Z) :=
  let! is_ca := from_der (T := bool) in
  let! at_end := p_at_end in
  if negb at_end then
    let! len := from_der (T := u8) in pret (is_ca, Some (u8_to_Z len))
  else pret (is_ca, None).

(** The [match] of [check_basic_constraints]. *)
Definition basic_constraints_verdict (used_as_ca : UsedAsCa) (is_ca : bool)
    (path_len_constraint : option Z) (sub_ca_count : Z) : outcome Error unit :=
  match used_as_ca, is_ca, path_len_constraint with
  | UsedAsCaNo, true, _ => Err CaUsedAsEndEntity
  | UsedAsCaYes, false, _ => Err EndEntityUsedAsCa
  | UsedAsCaYes, true, Some len =>
    if len <? sub_ca_count then Err PathLenConstraintViolated else Ok tt
  | _, _, _ => Ok tt
  end.

Definition check_basic_constraints (used_as_ca : UsedAsCa) (sub_ca_count : Z)
    (input : option Reader) : outcome Error unit * option Reader :=
  match input with
  | Some input =>
    let '(fields, input) := read_basic_constraints input in
    (let? (is_ca, path_len_constraint) := fields in
     basic_constraints_verdict used_as_ca is_ca path_len_constraint sub_ca_count, Some input)
  | None => (basic_constraints_verdict used_as_ca false None sub_ca_count, None)
  end.

Definition check_issuer_independent_properties (cert : Cert) (time : Time)
    (used_as_ca : UsedAsCa) (sub_ca_count : Z) (eku : ExtendedKeyUsage) : outcome Error unit :=
  let? _ := read_all (validity cert) BadDer (check_validity time) in
  let? _ := read_all_optional (basic_constraints cert) BadDer
              (check_basic_constraints used_as_ca sub_ca_count) in
  read_all_optional (Cert.eku cert) BadDer (eku_check eku).

(** ** Revocation *)
Definition crl_signature_err (err : Error) : Error :=
  match err with
  | UnsupportedSignatureAlgorithm => UnsupportedCrlSignatureAlgorithm
  | UnsupportedSignatureAlgorithmForPublicKey => UnsupportedCrlSignatureAlgorithmForPublicKey
  | InvalidSignatureForPublicKey => InvalidCrlSignatureForPublicKey
  | _ => err
  end.

Definition crl_authoritative (crl : dyn_crl) (cert : Cert) : outcome Error bool :=
  if negb (bytes_eqb (crl_issuer_name (dyn_value crl)) (issuer cert)) then Ok false
  else
    match crl_distribution_points cert, issuing_distribution_point (dyn_value crl) with
    | cert_dps, None => Ok (match cert_dps with None => true | Some _ => false end)
    | _, Some crl_idp =>
      match idp_from_der crl_idp with
      | Ok crl_idp => authoritative_for crl_idp cert
      | Err _ => Ok false
      | Panic => Panic
      | OutOfFuel => OutOfFuel
      end
    end.

(** [crls.iter().find(..)]. *)
Fixpoint find_crl (crls : list dyn_crl) (cert : Cert) : outcome Error (option dyn_crl) :=
  match crls with
  | [] => Ok None
  | crl :: crls =>
    let? authoritative := crl_authoritative crl cert in
    if authoritative : bool then Ok (Some crl) else find_crl crls cert
  end.

Inductive CertNotRevoked : Type := CertNotRevoked_assertion.

(** The body of [check_crls] after its assertion. *)
Definition check_revocation (supported_sig_algs : list SignatureVerificationAlgorithm)
    (cert : Cert) (issuer_spki : Input) (issuer_ku : option Input)
    (revocation : RevocationOptions) : outcome Error (option CertNotRevoked) :=
  match depth revocation, ee_or_ca cert with
  | DepthEndEntity, Ca _ => Ok None
  | _, _ =>
    let? crl := find_crl (crls revocation) cert in
    match crl, status_requirement revocation with
    | None, Allow => Ok None
    | None, Deny => Err UnknownRevocationStatus
    | Some crl, _ =>
      let? _ :=
        map_err crl_signature_err
          (crl_verify_signature (dyn_value crl) supported_sig_algs issuer_spki) in
      let? _ := key_usage_check CrlSign issuer_ku in
      let? entry := find_serial (dyn_value crl) (serial cert) in
      match entry with
      | None => Ok (Some CertNotRevoked_assertion)
      | Some _ => Err CertRevoked
      end
    end
  end.

Definition check_crls (supported_sig_algs : list SignatureVerificationAlgorithm)
    (cert : Cert) (issuer_subject issuer_spki : Input) (issuer_ku : option Input)
    (revocation : RevocationOptions) : outcome Error (option CertNotRevoked) :=
  (* assert_eq! *)
  if negb (bytes_eqb (issuer cert) issuer_subject) then Panic
  else check_revocation supported_sig_algs cert issuer_spki issuer_ku revocation.

(** ** Signatures down a chain *)
Fixpoint check_signatures_loop (supported_sig_algs : list SignatureVerificationAlgorithm)
    (revocation : option RevocationOptions) (spki_value issuer_subject : Input)
    (issuer_key_usage : option Input) (cert : Cert) (signatures : Z)
    : outcome Error unit * Z :=
  let signatures := signatures + 1 in
  if 100 <? signatures then (Err MaximumSignatureChecksExceeded, signatures)
  else
    let checks :=
      let? _ := verify_signed_data supported_sig_algs spki_value (signed_data cert) in
      match revocation with
      | Some revocation_opts =>
        let? _ := check_crls supported_sig_algs cert issuer_subject spki_value
                    issuer_key_usage revocation_opts in
        Ok tt
      | None => Ok tt
      end in
    match checks with
    | Ok _ =>
      match cert with
      | mkCert (Ca child_cert) _ _ _ _ _ _ _ _ _ _ _ _ =>
        check_signatures_loop supported_sig_algs revocation (spki cert) (subject cert)
          (key_usage cert) child_cert signatures
      | _ => (Ok tt, signatures)
      end
    | other => (other, signatures)
    end.

Definition check_signatures (supported_sig_algs : list SignatureVerificationAlgorithm)
    (cert_chain : Cert) (trust_anchor : TrustAnchor) (revocation : option RevocationOptions)
    (signatures : Z) : outcome Error unit * Z :=
  check_signatures_loop supported_sig_algs revocation
    (ta_subject_public_key_info trust_anchor) (ta_subject trust_anchor) None cert_chain signatures.

(** ** The search *)
Definition MAX_SUB_CA_COUNT : Z := 6.

(** The [loop] that looks for the potential issuer among the certificates of
    the chain: [true] is [return Err(Error::UnknownIssuer)]. *)
Fixpoint issuer_in_chain (potential_issuer prev : Cert) : bool :=
  if bytes_eqb (spki potential_issuer) (spki prev)
     && bytes_eqb (subject potential_issuer) (subject prev)
  then true
  else
    match prev with
    | mkCert (Ca child_cert) _ _ _ _ _ _ _ _ _ _ _ _ =>
      issuer_in_chain potential_issuer child_cert
    | _ => false
    end.

(** The closure of the loop over the trust anchors. *)
Definition try_trust_anchor (opts : ChainOptions) (cert : Cert)
    (contents : SubjectCommonNameContents) (trust_anchor : TrustAnchor) (signatures : Z)
    : outcome Error unit * Z :=
  if negb (bytes_eqb (issuer cert) (ta_subject trust_anchor)) then (Err UnknownIssuer, signatures)
  else
    match read_all_optional (ta_name_constraints trust_anchor) BadDer
            (check_name_constraints cert contents) with
    | Ok _ =>
      check_signatures (supported_sig_algs opts) cert trust_anchor (revocation opts) signatures
    | other => (other, signatures)
    end.

(** The tests of the loop over the intermediates, up to the recursive call. *)
Definition potential_issuer (cert : Cert) (contents : SubjectCommonNameContents)
    (cert_der : CertificateDer) : outcome Error Cert :=
  let? potential_issuer := Cert_from_der cert_der (Ca cert) in
  if negb (bytes_eqb (subject potential_issuer) (issuer cert)) then Err UnknownIssuer
  else if issuer_in_chain potential_issuer cert then Err UnknownIssuer
  else
    let? _ := read_all_optional (name_constraints potential_issuer) BadDer
                (check_name_constraints cert contents) in
    Ok potential_issuer.

Definition subject_common_name_contents (opts : ChainOptions) (used_as_ca : UsedAsCa)
    : SubjectCommonNameContents :=
  match key_purpose_id_equals (inner (opt_eku opts)) (oid_value EKU_SERVER_AUTH), used_as_ca with
  | true, UsedAsCaNo => ContentsDnsName
  | _, _ => Ignore
  end.

(** The [match used_as_ca] on the number of subordinate CAs. *)
Definition check_sub_ca_count (used_as_ca : UsedAsCa) (sub_ca_count : Z) : outcome Error unit :=
  match used_as_ca with
  | UsedAsCaYes => if MAX_SUB_CA_COUNT <=? sub_ca_count then Err UnknownIssuer else Ok tt
  (* assert_eq! *)
  | UsedAsCaNo => if 0 =? sub_ca_count then Ok tt else Panic
  end.

Fixpoint build_chain_inner (fuel : nat) (opts : ChainOptions) (cert : Cert) (time : Time)
    (sub_ca_count signatures : Z) : outcome Error unit * Z :=
  match fuel with
  | O => (OutOfFuel, signatures)
  | S fuel =>
    let used_as_ca := used_as_ca (ee_or_ca cert) in
    let checks :=
      let? _ := check_issuer_independent_properties cert time used_as_ca sub_ca_count
                  (inner (opt_eku opts)) in
      check_sub_ca_count used_as_ca sub_ca_count in
    match checks with
    | Ok _ =>
      let contents := subject_common_name_contents opts used_as_ca in
      match loop_while_non_fatal_error UnknownIssuer (trust_anchors opts)
              (try_trust_anchor opts cert contents) signatures with
      | (Err err, signatures) =>
        loop_while_non_fatal_error err (intermediate_certs opts)
          (fun cert_der signatures =>
             match potential_issuer cert contents cert_der with
             | Ok potential_issuer =>
               let next_sub_ca_count :=
                 match used_as_ca with
                 | UsedAsCaNo => sub_ca_count
                 | UsedAsCaYes => sub_ca_count + 1
                 end in
               build_chain_inner fuel opts potential_issuer time next_sub_ca_count signatures
             | Err e => (Err e, signatures)
             | Panic => (Panic, signatures)
             | OutOfFuel => (OutOfFuel, signatures)
             end)
          signatures
      | other => other
      end
    | other => (other, signatures)
    end
  end.

(** The end entity and CA certificates with 0 to 6 CA certificates below them:
    at most eight calls are nested. *)
Definition MAX_PATH : nat := 8.

Definition build_chain (opts : ChainOptions) (cert : Cert) (time : Time) : outcome Error unit :=
  fst (build_chain_inner MAX_PATH opts cert time 0 0).
End Checks.

(** ** Reference definitions: the checks on one certificate *)

(** The validity period contains the time. *)
Definition validity_contains (time : Time) (v : Input) : Prop :=
  exists not_before not_after v1 v2, v = v1 ++ v2 /\
    encodes_time not_before v1 /\ encodes_time not_after v2 /\
    seconds_since_unix_epoch not_before <= seconds_since_unix_epoch time
      <= seconds_since_unix_epoch not_after.

(** The encodings of BasicConstraints; FALSE may be absent or explicit. *)
Definition encodes_basic_constraints (is_ca : bool) (path_len : option Z) (v : Input) : Prop :=
  exists ca_bytes len_bytes, v = ca_bytes ++ len_bytes /\
    (ca_bytes = tlv (tag_u8 Boolean) [if is_ca then xff else x00] \/
     is_ca = false /\ ca_bytes = []) /\
    match path_len with
    | None => len_bytes = []
    | Some n => exists b, n = u8_to_Z b /\ len_bytes = tlv (tag_u8 Integer) (encode_nonneg [b])
    end.

(** An end entity is not a CA; a CA is, with a path length that admits the CAs
    below it. *)
Definition basic_constraints_allow (used_as_ca : UsedAsCa) (sub_ca_count : Z)
    (constraints : option Input) : Prop :=
  match constraints with
  | None => used_as_ca = UsedAsCaNo
  | Some v => exists is_ca path_len, encodes_basic_constraints is_ca path_len v /\
      match used_as_ca with
      | UsedAsCaNo => is_ca = false
      | UsedAsCaYes => is_ca = true /\ forall n, path_len = Some n -> sub_ca_count <= n
      end
  end.

(** The usage is optional and absent, or it is among the purposes listed
    (before anything malformed). *)
Definition eku_allows (eku : ExtendedKeyUsage) (purposes : option Input) : Prop :=
  match purposes, eku with
  | None, RequiredIfPresent _ => True
  | None, Required _ => False
  | Some v, Required k | Some v, RequiredIfPresent k =>
    exists before rest, v = concat (map (tlv (tag_u8 OID)) before) ++ tlv (tag_u8 OID) (oid_value k)
                              ++ rest /\
      Forall (fun o => Z.of_nat (length o) < TWO_BYTE_DER_SIZE) before /\
      Z.of_nat (length (oid_value k)) < TWO_BYTE_DER_SIZE
  end.

(** A key usage, when present, asserts cRLSign (bit 6). *)
Definition key_usage_allows_crl_sign (ku : option Input) : Prop :=
  forall v, ku = Some v -> exists padding bits last_byte rest,
    v = tlv (tag_u8 BitString) (padding :: bits) ++ rest /\
    Z.of_nat (length (padding :: bits)) < TWO_BYTE_DER_SIZE /\
    last bits = Some last_byte /\ u8_to_Z padding <= 7 /\
    u8_to_Z last_byte mod 2 ^ u8_to_Z padding = 0 /\
    bits_of {| raw_bits := bits |} !! 6%nat = Some true.

(** A list is about a certificate: it has the issuer of the certificate and,
    without an issuing distribution point, the certificate has no distribution
    points, or else its supported one covers the certificate. *)
Definition covers {U : Untrusted} (crl : dyn_crl) (cert : Cert) : Prop :=
  crl_issuer_name (dyn_value crl) = issuer cert /\
  match issuing_distribution_point (dyn_value crl) with
  | None => crl_distribution_points_field cert = None
  | Some der => exists idp, supported_idp idp der /\ idp_covers idp cert
  end.

(** ** Lemmas: the checks on one certificate *)
Section CheckLemmas.
Context {U : Untrusted} {L : UntrustedLaws U}.

#[export] Instance lawful_check_validity time : Lawful (check_validity time).
Proof. unfold check_validity. lawful. Qed.

Lemma check_validity_eq time not_before not_after v1 v2 :
  encodes_time not_before v1 -> encodes_time not_after v2 ->
  read_all (v1 ++ v2) BadDer (check_validity time) =
    if time_ltb not_after not_before then Err InvalidCertValidity
    else if time_ltb time not_before then Err CertNotValidYet
    else if time_ltb not_after time then Err CertExpired
    else Ok tt.
Proof.
  intros H1 H2. rewrite read_all_den. unfold check_validity. den.
  rewrite (proj2 (time_from_der_encodes (v1 ++ v2) not_before v2)) by eauto. den.
  rewrite (proj2 (time_from_der_encodes v2 not_after [])) by (eexists; by rewrite app_nil_r). den.
  destruct (time_ltb not_after not_before); [by den|].
  destruct (time_ltb time not_before); [by den|]. destruct (time_ltb not_after time); by den.
Qed.

Lemma check_validity_wf time v u : read_all v BadDer (check_validity time) = Ok u ->
  exists not_before not_after v1 v2, v = v1 ++ v2 /\
    encodes_time not_before v1 /\ encodes_time not_after v2.
Proof.
  rewrite read_all_ok. unfold check_validity. intros H. den_in H.
  destruct (den from_der v) as [[nb| | |] l1] eqn:E; try done.
  apply time_from_der_encodes in E as (v1 & H1 & ->). den_in H.
  destruct (den from_der l1) as [[na| | |] l2] eqn:E; try done.
  apply time_from_der_encodes in E as (v2 & H2 & ->). den_in H.
  destruct (time_ltb na nb); den_in H; [done|]. destruct (time_ltb time nb); den_in H; [done|].
  destruct (time_ltb na time); den_in H; [done|]. injection H as _ ->.
  rewrite app_nil_r. eauto 10.
Qed.

Lemma check_validity_iff time v :
  read_all v BadDer (check_validity time) = Ok tt <-> validity_contains time v.
Proof.
  unfold validity_contains. split.
  - intros H. destruct (check_validity_wf _ _ _ H) as (nb & na & v1 & v2 & -> & H1 & H2).
    rewrite (check_validity_eq time nb na v1 v2 H1 H2) in H. unfold time_ltb in H.
    destruct (Z.ltb_spec (seconds_since_unix_epoch na) (seconds_since_unix_epoch nb)); [done|].
    destruct (Z.ltb_spec (seconds_since_unix_epoch time) (seconds_since_unix_epoch nb)); [done|].
    destruct (Z.ltb_spec (seconds_since_unix_epoch na) (seconds_since_unix_epoch time)); [done|].
    exists nb, na, v1, v2. repeat split; try done; lia.
  - intros (nb & na & v1 & v2 & -> & H1 & H2 & Ht).
    rewrite (check_validity_eq time nb na v1 v2 H1 H2). unfold time_ltb.
    rewrite !(proj2 (Z.ltb_ge _ _)) by lia. done.
Qed.

#[export] Instance lawful_read_basic_constraints : Lawful read_basic_constraints.
Proof. unfold read_basic_constraints. lawful. Qed.

Lemma basic_constraints_eq constraints used_as_ca sub_ca_count :
  read_all_optional constraints BadDer (check_basic_constraints used_as_ca sub_ca_count) =
  match constraints with
  | None => basic_constraints_verdict used_as_ca false None sub_ca_count
  | Some v => read_all v BadDer
      (let! (is_ca, path_len_constraint) := read_basic_constraints in
       plift (basic_constraints_verdict used_as_ca is_ca path_len_constraint sub_ca_count))
  end.
Proof.
  rewrite (read_all_optional_eq _ _ (let! (is_ca, path_len_constraint) := read_basic_constraints in
    plift (basic_constraints_verdict used_as_ca is_ca path_len_constraint sub_ca_count))); [done|].
  intros r. unfold check_basic_constraints, pbind.
  by destruct (read_basic_constraints r) as [[[a b]|e| |] r'].
Qed.

Lemma read_basic_constraints_iff v is_ca path_len :
  den read_basic_constraints v = (Ok (is_ca, path_len), []) <->
  encodes_basic_constraints is_ca path_len v.
Proof.
  unfold read_basic_constraints, encodes_basic_constraints. split.
  - intros H. den_in H. destruct (den from_der v) as [[b| | |] l1] eqn:E; try done. den_in H.
    assert (exists cb, v = cb ++ l1 /\ (cb = tlv (tag_u8 Boolean) [if b then xff else x00] \/
              b = false /\ cb = [])) as (cb & -> & Hcb).
    { apply bool_from_der_iff in E as [(-> & -> & _)| ->]; [by exists []; auto|eauto]. }
    destruct l1 as [|c l1]; cbn [negb] in H; den_in H.
    + injection H as <- <-. by exists cb, [].
    + destruct (den from_der (c :: l1)) as [[n| | |] l2] eqn:E'; try done. den_in H.
      injection H as <- <- ->. apply u8_from_der_iff in E' as ->. rewrite app_nil_r.
      exists cb, (tlv (tag_u8 Integer) (encode_nonneg [n])). eauto.
  - intros (cb & lb & -> & Hcb & Hlb). den.
    rewrite (proj2 (bool_from_der_iff (cb ++ lb) is_ca lb)).
    + den. destruct path_len as [n|]; [|subst lb; by den].
      destruct Hlb as (b & -> & ->).
      destruct (tlv (tag_u8 Integer) (encode_nonneg [b])) as [|c l] eqn:Et.
      { pose proof (head_tlv (tag_u8 Integer) (encode_nonneg [b])) as Hh. by rewrite Et in Hh. }
      cbn [negb]. den. rewrite (proj2 (u8_from_der_iff (c :: l) b [])) by
        (by rewrite app_nil_r, Et). by den.
    + destruct Hcb as [->|[-> ->]]; [by right|left]. split_and!; [done|done|].
      destruct path_len as [n|]; [|by subst lb]. destruct Hlb as (b & -> & ->).
      rewrite app_nil_l, head_tlv. by intros [= ?%tag_u8_inj].
Qed.

Lemma check_basic_constraints_iff constraints used_as_ca sub_ca_count :
  read_all_optional constraints BadDer (check_basic_constraints used_as_ca sub_ca_count) = Ok tt <->
  basic_constraints_allow used_as_ca sub_ca_count constraints.
Proof.
  rewrite basic_constraints_eq. unfold basic_constraints_allow.
  assert (forall is_ca path_len,
    basic_constraints_verdict used_as_ca is_ca path_len sub_ca_count = Ok tt <->
    match used_as_ca with
    | UsedAsCaNo => is_ca = false
    | UsedAsCaYes => is_ca = true /\ forall n, path_len = Some n -> sub_ca_count <= n
    end) as Hv.
  { intros is_ca path_len. unfold basic_constraints_verdict.
    destruct used_as_ca, is_ca, path_len as [n|]; try naive_solver.
    destruct (Z.ltb_spec n sub_ca_count); split; try done.
    - intros [_ H']. specialize (H' n eq_refl). lia.
    - intros _. split; [done|]. intros m [= <-]. lia. }
  destruct constraints as [v|]; [|by destruct used_as_ca].
  rewrite read_all_ok. setoid_rewrite <- read_basic_constraints_iff.
  setoid_rewrite <- Hv. split.
  - intros H. den_in H. destruct (den read_basic_constraints v) as [[[a b]| | |] l]; try done.
    den_in H. injection H as H ->. eauto.
  - intros (a & b & H & Hverdict). den. rewrite H. den. by rewrite Hverdict.
Qed.

#[export] Instance lawful_eku_loop fuel eku : Lawful (eku_loop fuel eku).
Proof. induction fuel as [|fuel IH]; cbn [eku_loop]; lawful. Qed.

Definition target (eku : ExtendedKeyUsage) : Input :=
  oid_value (match eku with Required k => k | RequiredIfPresent k => k end).

Definition lists_purpose (eku : ExtendedKeyUsage) (v : Input) : Prop :=
  exists before rest, v = concat (map (tlv (tag_u8 OID)) before) ++ tlv (tag_u8 OID) (target eku)
                            ++ rest /\
    Forall (fun o => Z.of_nat (length o) < TWO_BYTE_DER_SIZE) before /\
    Z.of_nat (length (target eku)) < TWO_BYTE_DER_SIZE.

Lemma lists_purpose_cons eku o l : Z.of_nat (length o) < TWO_BYTE_DER_SIZE ->
  o <> target eku -> lists_purpose eku (tlv (tag_u8 OID) o ++ l) <-> lists_purpose eku l.
Proof.
  intros Ho Hne. split.
  - intros (before & rest & H & Hb & Ht).
    assert (den (expect_tag OID) (tlv (tag_u8 OID) o ++ l) = (Ok o, l)) as Hd by (by apply expect_tag_iff).
    destruct before as [|b before]; simpl in H; rewrite H in Hd.
    + rewrite (proj2 (expect_tag_iff OID _ (target eku) rest)) in Hd by done. congruence.
    + apply Forall_cons in Hb as [Hb Hbs]. rewrite <- app_assoc in Hd.
      rewrite (proj2 (expect_tag_iff OID _ b _)) in Hd by done. injection Hd as -> <-.
      by exists before, rest.
  - intros (before & rest & -> & Hb & Ht). exists (o :: before), rest. simpl.
    rewrite <- app_assoc. split_and!; [done| |done]. by constructor.
Qed.

Lemma lists_purpose_expect eku v : lists_purpose eku v ->
  exists o l, den (expect_tag OID) v = (Ok o, l).
Proof.
  intros (before & rest & -> & Hb & Ht). setoid_rewrite expect_tag_iff.
  destruct before as [|b before]; simpl; [eauto|].
  apply Forall_cons in Hb as [Hb _]. rewrite <- app_assoc. eauto.
Qed.

Lemma eku_loop_iff eku : forall fuel v, (length v < fuel)%nat ->
  (exists l, den (eku_loop fuel eku) v = (Ok tt, l)) <-> lists_purpose eku v.
Proof.
  induction fuel as [|fuel IH]; intros v Hfuel; [lia|]. cbn [eku_loop]. den.
  destruct (den (expect_tag OID) v) as [[o| | |] l] eqn:E.
  2-4: split; [by intros [? ?]|]; intros (o & l' & Ho)%lists_purpose_expect; congruence.
  apply expect_tag_iff in E as [-> Ho]. unfold key_purpose_id_equals. fold (target eku).
  destruct (bytes_eqb (target eku) o) eqn:Eo.
  - apply bytes_eqb_eq in Eo as <-. den. split; [|eauto]. intros _. by exists [], l.
  - apply bytes_eqb_neq in Eo. rewrite lists_purpose_cons by done. den.
    rewrite length_app in Hfuel. pose proof (length_tlv (tag_u8 OID) o).
    destruct l as [|c l]; den; [|by apply IH; simpl in *; lia].
    split; [by intros [? ?]|]. intros (before & rest & H' & _ & _).
    destruct before as [|b before]; simpl in H';
      (destruct (tlv (tag_u8 OID) _) eqn:Et; [|done]);
      apply (f_equal head) in Et; by rewrite head_tlv in Et.
Qed.

Lemma eku_loop_end eku : forall fuel v l, den (eku_loop fuel eku) v = (Ok tt, l) -> l = [].
Proof.
  induction fuel as [|fuel IH]; intros v l H; cbn [eku_loop] in H; den_in H; [done|].
  destruct (den (expect_tag OID) v) as [[o| | |] l1]; try done.
  destruct (key_purpose_id_equals eku o); den_in H; [by injection H|].
  destruct l1; den_in H; [done|]. by apply IH in H.
Qed.

Lemma eku_eq purposes eku :
  read_all_optional purposes BadDer (eku_check eku) =
  match purposes with
  | None => match eku with Required _ => Err RequiredEkuNotFound | RequiredIfPresent _ => Ok tt end
  | Some v => read_all v BadDer (let! fuel := loop_fuel in eku_loop fuel eku)
  end.
Proof.
  rewrite (read_all_optional_eq _ _ (let! fuel := loop_fuel in eku_loop fuel eku)).
  - destruct purposes; [done|]. by destruct eku.
  - intros r. unfold eku_check. by destruct ((let! fuel := loop_fuel in eku_loop fuel eku) r).
Qed.

Lemma eku_iff purposes eku :
  read_all_optional purposes BadDer (eku_check eku) = Ok tt <-> eku_allows eku purposes.
Proof.
  rewrite eku_eq. unfold eku_allows. destruct purposes as [v|]; [|by destruct eku].
  transitivity (lists_purpose eku v); [|by destruct eku].
  rewrite read_all_ok, <- (eku_loop_iff eku (S (length v)) v) by lia. den. split; [eauto|].
  intros [l Hl]. by rewrite <- (eku_loop_end _ _ _ _ Hl).
Qed.

(** The three checks together. *)
Lemma check_issuer_independent_properties_iff cert time used_as_ca sub_ca_count eku :
  check_issuer_independent_properties cert time used_as_ca sub_ca_count eku = Ok tt <->
  validity_contains time (validity cert) /\
  basic_constraints_allow used_as_ca sub_ca_count (basic_constraints cert) /\
  eku_allows eku (Cert.eku cert).
Proof.
  unfold check_issuer_independent_properties.
  rewrite <- check_validity_iff, <- check_basic_constraints_iff, <- eku_iff.
  rewrite obind_ok. setoid_rewrite obind_ok. split.
  - by intros ([] & -> & [] & -> & ->).
  - intros (H1 & H2 & H3). eauto.
Qed.

Lemma key_usage_check_iff ku : key_usage_check CrlSign ku = Ok tt <-> key_usage_allows_crl_sign ku.
Proof.
  unfold key_usage_check, key_usage_allows_crl_sign. destruct ku as [v|]; [|done].
  rewrite run_new, obind_ok. setoid_rewrite obind_ok. setoid_rewrite bit_string_flags_eq. split.
  - intros (b & Hb & flags & Hf & Hbit) v' [= <-].
    destruct (den (expect_tag BitString) v) as [o rest] eqn:E. simpl in Hb. subst o.
    apply expect_tag_iff in E as [-> Hl]. destruct b as [|padding bits]; [done|].
    destruct (last bits) as [last_byte|] eqn:El; [|by destruct (u8_eqb padding x00)].
    destruct (Z.leb_spec (u8_to_Z padding) 7); [|done]. simpl in Hf.
    destruct (Z.eqb_spec (u8_to_Z last_byte mod 2 ^ u8_to_Z padding) 0); [|done].
    injection Hf as <-. rewrite bit_set_eq in Hbit by done. cbn [key_usage_bit] in Hbit.
    exists padding, bits, last_byte, rest. split_and!; try done.
    change (Z.to_nat 6) with 6%nat in Hbit. by destruct (bits_of _ !! 6%nat) as [[]|].
  - intros H. destruct (H v eq_refl) as (padding & bits & last_byte & rest & -> & Hl & Hlast & Hp & Hm & Hb).
    exists (padding :: bits). split.
    { by rewrite (proj2 (expect_tag_iff BitString _ (padding :: bits) rest)). }
    exists {| raw_bits := bits |}. rewrite Hlast, (proj2 (Z.leb_le _ _)), Hm by done.
    split; [done|]. rewrite bit_set_eq by done. cbn [key_usage_bit].
    change (Z.to_nat 6) with 6%nat. by rewrite Hb.
Qed.

(** *** Totality *)
Lemma ends_check_validity panics time : Ends panics (check_validity time).
Proof. unfold check_validity. ends. Qed.

Lemma ends_eku_loop panics eku : forall fuel v, (length v < fuel)%nat ->
  ends panics (fst (den (eku_loop fuel eku) v)).
Proof.
  induction fuel as [|fuel IH]; intros v Hfuel; [lia|]. cbn [eku_loop]. den.
  pose proof (ends_expect_tag panics OID v) as H.
  destruct (den (expect_tag OID) v) as [[o| | |] l] eqn:E; try done.
  apply expect_tag_iff in E as [-> _].
  destruct (key_purpose_id_equals eku o); den; [done|].
  destruct l as [|c l]; den; [done|]. apply IH. rewrite length_app in Hfuel.
  pose proof (length_tlv (tag_u8 OID) o). simpl in *. lia.
Qed.

Lemma ends_check_issuer_independent_properties panics cert time used_as_ca sub_ca_count eku :
  ends panics (check_issuer_independent_properties cert time used_as_ca sub_ca_count eku).
Proof.
  unfold check_issuer_independent_properties.
  apply ends_obind; [apply ends_read_all, ends_check_validity|]. intros _ _.
  apply ends_obind; [|intros _ _].
  - rewrite basic_constraints_eq.
    assert (forall is_ca len, ends panics (basic_constraints_verdict used_as_ca is_ca len sub_ca_count))
      as Hv by (intros is_ca [n|]; unfold basic_constraints_verdict; by repeat case_match).
    destruct (basic_constraints cert) as [v|]; [|done]. apply ends_read_all.
    generalize v. change (Ends panics (let! (is_ca, path_len_constraint) := read_basic_constraints in
      plift (basic_constraints_verdict used_as_ca is_ca path_len_constraint sub_ca_count))).
    unfold read_basic_constraints. ends; apply ends_bool_from_der || apply ends_u8_from_der.
  - rewrite eku_eq. destruct (Cert.eku cert) as [v|]; [|by destruct eku].
    apply ends_read_all. den. apply ends_eku_loop. lia.
Qed.

(** The flags that make the revocation checks panic: a BIT STRING without any
    octet as the key usage of the issuer, or as the reasons of the distribution
    points of a list. *)
Definition empty_key_usage (ku : option Input) : Prop :=
  exists rest, ku = Some (tlv (tag_u8 BitString) [x00] ++ rest).

Definition empty_crl_reasons (crl : dyn_crl) : Prop :=
  exists der, issuing_distribution_point (dyn_value crl) = Some der /\
    occurs_in (tlv ONLY_CONTAINS_SOME_REASONS_TAG [x00]) der.

Lemma ends_key_usage_check mode ku : ends (empty_key_usage ku) (key_usage_check mode ku).
Proof.
  unfold key_usage_check. destruct ku as [v|]; [|done]. rewrite run_new.
  apply ends_obind; [apply ends_expect_tag|]. intros b Hb.
  destruct (den (expect_tag BitString) v) as [o rest] eqn:E. simpl in Hb. subst o.
  apply expect_tag_iff in E as [-> _].
  apply ends_obind; [|intros f _; by case_match].
  eapply ends_weaken; [|apply ends_bit_string_flags]. intros ->. by exists rest.
Qed.

Lemma ends_crl_authoritative crl cert :
  ends (empty_crl_reasons crl \/ empty_reasons cert) (crl_authoritative crl cert).
Proof.
  unfold crl_authoritative. case_match; [done|].
  assert (forall der, issuing_distribution_point (dyn_value crl) = Some der ->
    ends (empty_crl_reasons crl \/ empty_reasons cert)
      (match idp_from_der der with
       | Ok crl_idp => authoritative_for crl_idp cert
       | Err _ => Ok false | Panic => Panic | OutOfFuel => OutOfFuel end)) as Hidp.
  { intros der Hder. pose proof (ends_idp_from_der der) as He.
    destruct (idp_from_der der) as [idp|e| |] eqn:E; try done.
    - eapply ends_weaken; [|by eapply ends_authoritative_for, idp_from_der_supported]. by right.
    - left. by exists der. }
  destruct (crl_distribution_points cert), (issuing_distribution_point _) as [der|]; try done;
    by apply Hidp.
Qed.

Lemma ends_find_crl crls cert :
  ends (Exists empty_crl_reasons crls \/ empty_reasons cert) (find_crl crls cert).
Proof.
  induction crls as [|crl crls IH]; [done|]. simpl. apply ends_obind.
  - eapply ends_weaken; [|apply ends_crl_authoritative].
    intros [?|?]; [left; by constructor|by right].
  - intros [] _; [done|]. eapply ends_weaken; [|exact IH].
    intros [?|?]; [left; by constructor|by right].
Qed.

Lemma crl_authoritative_iff crl cert : crl_authoritative crl cert = Ok true <-> covers crl cert.
Proof.
  unfold crl_authoritative, covers, crl_distribution_points.
  destruct (bytes_eqb _ (issuer cert)) eqn:E; cbn [negb];
    [apply bytes_eqb_eq in E|apply bytes_eqb_neq in E; naive_solver].
  destruct (issuing_distribution_point (dyn_value crl)) as [der|].
  - setoid_rewrite <- idp_from_der_iff.
    destruct (idp_from_der der) as [idp|e| |] eqn:Ei; [|naive_solver..].
    rewrite authoritative_for_iff. naive_solver.
  - destruct (crl_distribution_points_field cert); simpl; naive_solver.
Qed.

(** The first authoritative list. *)
Lemma find_crl_some crls cert crl :
  find_crl crls cert = Ok (Some crl) <->
  exists before after, crls = before ++ crl :: after /\
    Forall (fun c => crl_authoritative c cert = Ok false) before /\ covers crl cert.
Proof.
  setoid_rewrite <- crl_authoritative_iff.
  induction crls as [|c crls IH]; simpl.
  - split; [done|]. intros (before & after & H & _). by destruct before.
  - rewrite obind_ok. split.
    + intros ([] & Hc & H).
      * injection H as ->. by exists [], crls.
      * apply IH in H as (before & after & -> & Hb & Ha). exists (c :: before), after.
        split_and!; [done| |done]. by constructor.
    + intros (before & after & H & Hb & Ha). destruct before as [|b before]; simpl in H.
      * injection H as -> ->. by exists true.
      * injection H as -> ->. apply Forall_cons in Hb as [Hb Hbs]. exists false. split; [done|].
        apply IH. eauto.
Qed.

Lemma find_crl_none crls cert :
  find_crl crls cert = Ok None <-> Forall (fun c => crl_authoritative c cert = Ok false) crls.
Proof.
  induction crls as [|c crls IH]; simpl; [split; [by constructor|done]|].
  rewrite obind_ok, Forall_cons, <- IH. split.
  - by intros ([] & -> & H).
  - intros [-> H]. by exists false.
Qed.
End CheckLemmas.

(** ** Reference definitions: the loop over candidates *)

(** The values are tried in order, each with a non-fatal error. *)
Inductive all_fail {A S} (f : A -> S -> outcome Error unit * S) : list A -> S -> list Error -> S -> Prop :=
  | all_fail_nil s : all_fail f [] s [] s
  | all_fail_cons v values s e s1 errors s2 :
      f v s = (Err e, s1) -> e <> MaximumSignatureChecksExceeded ->
      all_fail f values s1 errors s2 -> all_fail f (v :: values) s (e :: errors) s2.

(** The first value that does not fail so, after all those before it. *)
Definition decided_by {A S} (f : A -> S -> outcome Error unit * S) (values : list A) (s : S)
    (r : outcome Error unit) (s' : S) : Prop :=
  exists before v after errors s1, values = before ++ v :: after /\
    all_fail f before s errors s1 /\ f v s1 = (r, s').

(** ** Properties *)

(** C8: The loop over candidates stops at the first that succeeds, panics or
    exceeds the maximum of signature checks, with its result; when all fail,
    the error is the most specific of the default and theirs, the first of
    them among equals, and has the highest rank. *)
Theorem loop_while_non_fatal_error_spec {A S} default_error (values : list A)
    (f : A -> S -> outcome Error unit * S) s :
  let '(r, s') := loop_while_non_fatal_error default_error values f s in
  decided_by f values s r s' /\ (forall e, r = Err e -> e = MaximumSignatureChecksExceeded) \/
  exists errors, all_fail f values s errors s' /\
    r = Err (fold_left most_specific errors default_error) /\
    (forall e, e ∈ default_error :: errors -> rank e <= rank (fold_left most_specific errors default_error)).
Proof.
  revert default_error s. induction values as [|v values IH]; intros default_error s; simpl.
  { right. exists []. split_and!; [constructor|done|]. intros e ->%list_elem_of_singleton. done. }
  destruct (f v s) as [r s1] eqn:E.
  assert (decided_by f (v :: values) s r s1) as Hd.
  { exists [], v, values, [], s. split_and!; [done|constructor|done]. }
  destruct r as [[]|e| |]; [by left| |by left|by left].
  destruct (decide (e = MaximumSignatureChecksExceeded)) as [->|He].
  { left. split; [done|]. by intros ? [= <-]. }
  assert (forall T (a b : T), match e with MaximumSignatureChecksExceeded => a | _ => b end = b)
    as -> by (intros T a b; by destruct e).
  specialize (IH (most_specific default_error e) s1).
  destruct (loop_while_non_fatal_error _ values f s1) as [r s'].
  destruct IH as [[(before & w & after & errors & s2 & -> & Hb & Hw) Hfatal]|(errors & Hall & -> & Hrank)].
  - left. split; [|done]. exists (v :: before), w, after, (e :: errors), s2.
    split_and!; [done|by econstructor|done].
  - right. exists (e :: errors). split_and!; [by econstructor|done|].
    pose proof (Hrank _ ltac:(by apply elem_of_cons; left)) as Hhd.
    rewrite rank_most_specific in Hhd. simpl.
    intros e' [->|[->|He']%elem_of_cons]%elem_of_cons; [lia|lia|].
    apply Hrank, elem_of_cons. by right.
Qed.

Section CheckProperties.
Context {U : Untrusted} {L : UntrustedLaws U}.

(** C11: The checks that do not depend on the issuer always return, and pass
    exactly when the validity period contains the time, the basic constraints
    fit the use as a CA or as an end entity and the number of CAs below, and
    the extended key usage is listed, or absent where it may be. *)
Theorem issuer_independent_checks cert time used_as_ca sub_ca_count eku :
  let pass := validity_contains time (validity cert) /\
    basic_constraints_allow used_as_ca sub_ca_count (basic_constraints cert) /\
    eku_allows eku (Cert.eku cert) in
  match check_issuer_independent_properties cert time used_as_ca sub_ca_count eku with
  | Ok _ => pass
  | Err _ => ~ pass
  | Panic | OutOfFuel => False
  end.
Proof.
  intros pass.
  pose proof (check_issuer_independent_properties_iff cert time used_as_ca sub_ca_count eku) as H.
  pose proof (ends_check_issuer_independent_properties False cert time used_as_ca sub_ca_count eku).
  destruct (check_issuer_independent_properties _ _ _ _ _) as [[]|e| |]; try done;
    [by apply H|by intros ?%H].
Qed.

(** C29: The verdict on a well-formed validity period: an empty period is
    invalid whatever the time, then the time is before it, after it, or in it,
    both ends included. *)
Theorem validity_verdict time not_before not_after v1 v2 :
  encodes_time not_before v1 -> encodes_time not_after v2 ->
  let t := seconds_since_unix_epoch in
  read_all (v1 ++ v2) BadDer (check_validity time) =
    if t not_after <? t not_before then Err InvalidCertValidity
    else if t time <? t not_before then Err CertNotValidYet
    else if t not_after <? t time then Err CertExpired
    else Ok tt.
Proof. intros H1 H2 t. exact (check_validity_eq time _ _ _ _ H1 H2). Qed.

(** C28: A certificate may sign revocation lists when it has no key usage or one
    with bit 6 set; without the bit it is no signer, anything malformed is
    [BadDer], and a BIT STRING without octets panics. *)
Theorem key_usage_crl_sign ku :
  match key_usage_check CrlSign ku with
  | Ok _ => key_usage_allows_crl_sign ku
  | Err e => (e = IssuerNotCrlSigner \/ e = BadDer) /\ ~ key_usage_allows_crl_sign ku
  | Panic => exists rest, ku = Some (tlv (tag_u8 BitString) [x00] ++ rest)
  | OutOfFuel => False
  end.
Proof.
  pose proof (key_usage_check_iff ku) as Hiff.
  enough (match key_usage_check CrlSign ku with
          | Ok _ => True
          | Err e => e = IssuerNotCrlSigner \/ e = BadDer
          | Panic => exists rest, ku = Some (tlv (tag_u8 BitString) [x00] ++ rest)
          | OutOfFuel => False
          end) as H.
  { destruct (key_usage_check CrlSign ku) as [[]|e| |]; try done; [by apply Hiff|].
    split; [done|]. by intros ?%Hiff. }
  unfold key_usage_check. destruct ku as [v|]; [|done]. rewrite run_new.
  rewrite expect_tag_limited.
  destruct (expect_outcome BitString TWO_BYTE_DER_SIZE v) as [(b & rest & E)|(rest & E)];
    rewrite E; simpl; [|by right].
  apply expect_sound in E as [-> _].
  pose proof (bit_string_flags_eq b) as ->. destruct b as [|padding bits]; simpl; [by right|].
  destruct (last bits) as [last_byte|] eqn:El.
  - destruct (_ && _); simpl; [|by right]. destruct (bit_set _ 6); [done|by left].
  - apply last_None in El as ->. destruct (u8_eqb padding x00) eqn:Ep; simpl; [|by right].
    apply u8_eqb_eq in Ep as ->. by exists rest.
Qed.
End CheckProperties.

(** *** Witnesses *)
Definition sample_time : Time := from_seconds_since_unix_epoch 1700000000.

Lemma issuer_independent_checks_witness :
  exists cert, Cert_from_der (U := slice_reader) ca_der EndEntity = Ok cert /\
    validity_contains sample_time (validity cert) /\
    basic_constraints_allow UsedAsCaYes 0 (basic_constraints cert) /\
    ~ (validity_contains sample_time (validity cert) /\
       basic_constraints_allow UsedAsCaYes 1 (basic_constraints cert) /\
       eku_allows (inner server_auth) (Cert.eku cert)).
Proof.
  assert (exists cert, Cert_from_der (U := slice_reader) ca_der EndEntity = Ok cert /\
    check_issuer_independent_properties (U := slice_reader) cert sample_time UsedAsCaYes 0
      (inner server_auth) = Ok tt /\
    check_issuer_independent_properties (U := slice_reader) cert sample_time UsedAsCaYes 1
      (inner server_auth) = Err PathLenConstraintViolated) as (cert & E & H0 & H1)
    by (eexists; split; [vm_compute; reflexivity|split; [vm_compute; reflexivity|vm_compute; reflexivity]]).
  exists cert.
  pose proof (issuer_independent_checks (U := slice_reader) cert sample_time UsedAsCaYes 0 (inner server_auth)) as H.
  pose proof (issuer_independent_checks (U := slice_reader) cert sample_time UsedAsCaYes 1 (inner server_auth)) as H'.
  cbv zeta in H, H'. rewrite H0 in H. rewrite H1 in H'. destruct H as (Hv & Hb & _).
  exact (conj E (conj Hv (conj Hb H'))).
Defined.

Lemma validity_verdict_witness :
  read_all (Untrusted := slice_reader) (sample_date ++ sample_date) BadDer
    (check_validity (from_seconds_since_unix_epoch 1675209601)) = Err CertExpired.
Proof.
  assert (encodes_time (from_seconds_since_unix_epoch 1675209600) sample_date) as H.
  { exists {| c_year := 2023; c_month := 2; c_day := 1; c_hour := 0; c_min := 0; c_sec := 0 |}.
    split; [unfold valid_civil; split_and!; by vm_compute|]. split; [by vm_compute|].
    left. by vm_compute. }
  rewrite (validity_verdict (U := slice_reader) _ _ _ _ _ H H). by vm_compute.
Defined.

Lemma key_usage_crl_sign_witness :
  key_usage_allows_crl_sign (Some [x03; x02; x01; x06]) /\
  ~ key_usage_allows_crl_sign (Some [x03; x02; x02; x04]).
Proof.
  pose proof (key_usage_crl_sign (U := slice_reader) (Some [x03; x02; x01; x06])) as H1.
  pose proof (key_usage_crl_sign (U := slice_reader) (Some [x03; x02; x02; x04])) as H2.
  assert (key_usage_check (U := slice_reader) CrlSign (Some [x03; x02; x01; x06]) = Ok tt)
    as E1 by (by vm_compute).
  assert (key_usage_check (U := slice_reader) CrlSign (Some [x03; x02; x02; x04]) = Err IssuerNotCrlSigner)
    as E2 by (by vm_compute).
  rewrite E1 in H1. rewrite E2 in H2. by destruct H2.
Defined.
