(* ===== verification/SignatureLimit.v ===== *)
(** * Which computations report the limit on signature checks

    [MaximumSignatureChecksExceeded] ends the search for a path.  Only the
    counter of [check_signatures] reports it: the parsers and checks of the
    other components never do, which this file shows by the structure of each
    of them. *)
From stdpp Require Import gmap.
From S2P Require Import Prelude Errors Untrusted Der Time GeneralName X509 SignedData Cert Crl.
From S2P Require Import TrustAnchor DnsName IpAddress SubjectName VerifyName VerifyCert.

(** The outcome is not the error that ends the search. *)
Definition below_limit {A} (m : outcome Error A) : Prop :=
  m <> Err MaximumSignatureChecksExceeded.

Lemma below_limit_obind {A B} (m : outcome Error A) (f : A -> outcome Error B) :
  below_limit m -> (forall a, m = Ok a -> below_limit (f a)) -> below_limit (obind m f).
Proof. unfold below_limit. destruct m; simpl; naive_solver congruence. Qed.

Section Limit.
Context {U : Untrusted} {L : UntrustedLaws U}.

Definition Below {A} (p : parser Error A) : Prop := forall l, below_limit (fst (den p l)).

Lemma below_bind {A B} (p : parser Error A) (f : A -> parser Error B) :
  (forall a, Lawful (f a)) -> Below p -> (forall a, Below (f a)) -> Below (pbind p f).
Proof.
  unfold Below, below_limit. intros HL Hp Hf l. rewrite den_bind by done.
  specialize (Hp l). destruct (den p l) as [[a|e| |] l']; simpl in *; try done; first [apply Hf|congruence].
Qed.

Lemma below_lift {A} (o : outcome Error A) : below_limit o -> Below (plift o).
Proof. intros H l. by rewrite den_lift. Qed.

Lemma below_ret {A} (a : A) : Below (pret a).
Proof. by apply below_lift. Qed.

Lemma below_fail {A} e : e <> MaximumSignatureChecksExceeded -> Below (A := A) (pfail e).
Proof. intros H. apply below_lift. intros [= ->]. done. Qed.

Lemma below_map_err {A E'} (f : E' -> Error) (p : parser E' A) :
  (forall e, f e <> MaximumSignatureChecksExceeded) -> Below (pmap_err f p).
Proof.
  intros Hf l. rewrite den_map_err. unfold below_limit. simpl.
  destruct (fst (den p l)); simpl; try done. intros [= H]. by apply Hf in H.
Qed.

Lemma below_read_byte_or e : e <> MaximumSignatureChecksExceeded -> Below (p_read_byte_or e).
Proof. intros H l. rewrite den_read_byte_or. destruct l; simpl; [by intros [= ->]|done]. Qed.

Lemma below_read_byte : Below p_read_byte.
Proof. by apply below_read_byte_or. Qed.

Lemma below_read_bytes n : Below (p_read_bytes n).
Proof. intros l. rewrite den_read_bytes. by case_match. Qed.

Lemma below_read_bytes_to_end : Below p_read_bytes_to_end.
Proof. intros l. by rewrite den_read_bytes_to_end. Qed.

Lemma below_skip_to_end : Below p_skip_to_end.
Proof. intros l. by rewrite den_skip_to_end. Qed.

Lemma below_at_end : Below p_at_end.
Proof. intros l. by rewrite den_at_end. Qed.

Lemma below_peek b : Below (p_peek b).
Proof. intros l. by rewrite den_peek. Qed.

Lemma below_loop_fuel : Below loop_fuel.
Proof. intros l. by rewrite den_loop_fuel. Qed.

Lemma below_out_of_fuel {A} : Below (A := A) out_of_fuel.
Proof. by apply below_lift. Qed.

Lemma below_read_partial {A} (p : parser Error A) : Lawful p -> Below p ->
  Below (read_partial p : parser Error (Input * A)).
Proof.
  intros HL H l. specialize (H l). destruct (den p l) as [o l'] eqn:E0.
  destruct (den_forward p l _ _ E0) as [c Hc].
  rewrite (den_read_partial p _ _ _ _ E0 Hc). unfold below_limit in *. destruct o; simpl in *; congruence.
Qed.

Lemma below_read_all {A} i e (p : parser Error A) : e <> MaximumSignatureChecksExceeded ->
  Below p -> below_limit (read_all i e p).
Proof.
  intros He Hp. specialize (Hp i). rewrite read_all_den. unfold below_limit in *.
  destruct (den p i) as [[a|e'| |] [|b l]]; simpl in *; congruence.
Qed.
End Limit.

Create HintDb below.
#[export] Hint Resolve below_ret below_read_byte below_read_bytes below_read_bytes_to_end
  below_skip_to_end below_at_end below_peek below_loop_fuel below_out_of_fuel : below.

Ltac below_step :=
  first
    [ progress intros
    | progress cbv zeta
    | done
    | solve [auto with below]
    | match goal with
      | |- Below (pbind _ _) => apply below_bind; [lawful|..]
      | |- Below (pmap_err _ _) => apply below_map_err
      | |- Below (pfail _) => apply below_fail
      | |- Below (p_read_byte_or _) => apply below_read_byte_or
      | |- Below (read_partial _) => apply below_read_partial; [lawful|]
      | |- Below (plift _) => apply below_lift
      | |- below_limit (read_all _ _ _) => apply below_read_all
      | |- below_limit (obind _ _) => apply below_limit_obind
      | |- Below (match ?x with _ => _ end) => destruct x
      | |- Below (let '(_, _) := ?x in _) => destruct x
      | |- below_limit (match ?x with _ => _ end) => destruct x
      end ].
Ltac below := repeat below_step.

Section Parsers.
Context {U : Untrusted} {L : UntrustedLaws U}.

(** *** DER *)
Lemma below_read_tlv lim : Below (read_tag_and_get_value_limited lim).
Proof. unfold read_tag_and_get_value_limited, read_length. below. Qed.
#[local] Hint Resolve below_read_tlv : below.

Lemma below_expect_limited tag lim : Below (expect_tag_and_get_value_limited tag lim).
Proof. unfold expect_tag_and_get_value_limited. below. Qed.
#[local] Hint Resolve below_expect_limited : below.

Lemma below_expect_tag tag : Below (expect_tag tag).
Proof. unfold expect_tag. below. Qed.
#[local] Hint Resolve below_expect_tag : below.

Lemma below_nested_limited {R} tag error (decoder : parser Error R) lim :
  error <> MaximumSignatureChecksExceeded -> Below decoder ->
  Below (nested_limited tag error decoder lim).
Proof. intros He Hd. unfold nested_limited. below. Qed.

Lemma below_nested {R} tag error (decoder : parser Error R) :
  error <> MaximumSignatureChecksExceeded -> Below decoder -> Below (nested tag error decoder).
Proof. apply below_nested_limited. Qed.

Lemma below_nested_of_mut_loop {S} tag error (decoder : S -> parser Error S) :
  error <> MaximumSignatureChecksExceeded -> (forall s, Lawful (decoder s)) ->
  (forall s, Below (decoder s)) ->
  forall fuel s, Below (nested_of_mut_loop fuel tag error decoder s).
Proof.
  intros He HL Hd. induction fuel as [|fuel IH]; intros s; cbn [nested_of_mut_loop]; below.
  by apply below_nested.
Qed.

Lemma below_nested_of_mut {S} outer inner error (decoder : S -> parser Error S) s :
  error <> MaximumSignatureChecksExceeded -> (forall s, Lawful (decoder s)) ->
  (forall s, Below (decoder s)) -> Below (nested_of_mut outer inner error decoder s).
Proof.
  intros He HL Hd. unfold nested_of_mut. apply below_nested; [done|]. below.
  by apply below_nested_of_mut_loop.
Qed.

Lemma below_bit_string_no_unused : Below bit_string_with_no_unused_bits.
Proof. unfold bit_string_with_no_unused_bits. apply below_nested; [done|]. below. Qed.
#[local] Hint Resolve below_bit_string_no_unused : below.

Lemma below_bit_string_flags input : below_limit (bit_string_flags input).
Proof. rewrite bit_string_flags_eq. unfold below_limit. by repeat case_match. Qed.

Lemma below_nonnegative_integer : Below nonnegative_integer.
Proof. unfold nonnegative_integer. below. Qed.
#[local] Hint Resolve below_nonnegative_integer : below.

Lemma below_u8 : Below (from_der (T := u8)).
Proof. cbn [from_der u8_from_der]. below. Qed.

Lemma below_bool : Below (from_der (T := bool)).
Proof. cbn [from_der bool_from_der]. below. apply below_nested; [done|]. below. Qed.
#[local] Hint Resolve below_u8 below_bool : below.

Lemma below_der_read_all {T} `{!FromDer T} input :
  Below (from_der (T := T)) -> below_limit (der_read_all (T := T) input).
Proof. intros H. by apply below_read_all. Qed.

(** *** Times *)
Lemma below_u64 f a b : f = @u64_add Error \/ f = @u64_sub Error \/ f = @u64_mul Error ->
  below_limit (f a b).
Proof. intros [->|[->| ->]]; unfold u64_add, u64_sub, u64_mul; by case_match. Qed.

Lemma below_u64_sum_from l : forall acc, below_limit (u64_sum_from acc l).
Proof.
  induction l as [|x l IH]; intros acc; [done|]. simpl.
  apply below_limit_obind; [by apply below_u64; auto|]. intros; apply IH.
Qed.

Lemma below_time_from_ymdhms_utc year month day h m s :
  below_limit (time_from_ymdhms_utc year month day h m s).
Proof.
  unfold time_from_ymdhms_utc.
  repeat (apply below_limit_obind; [|intros ? _]); try done;
    try (by apply below_u64; auto); try apply below_u64_sum_from.
  - unfold days_before_year_since_unix_epoch. case_match; [done|].
    apply below_limit_obind; [|intros ? _; case_match; [done|by apply below_u64; auto]].
    unfold days_before_year_ad.
    repeat (apply below_limit_obind; [|intros ? _]); by apply below_u64; auto.
  - unfold days_before_month_in_year. destruct month as [|p|p]; try done.
    repeat (destruct p as [p|p|]; try done; try apply below_u64_sum_from).
Qed.

Lemma below_read_two_digits min max : Below (read_two_digits min max).
Proof. unfold read_two_digits, read_digit. below; by apply below_u64; auto. Qed.
#[local] Hint Resolve below_read_two_digits : below.

Lemma below_days_in_month year month : below_limit (days_in_month year month).
Proof.
  unfold days_in_month. destruct month as [|p|p]; try done.
  by repeat (destruct p as [p|p|]; try done).
Qed.

Lemma below_time : Below (from_der (T := Time)).
Proof.
  cbn [from_der time_from_der]. apply below_bind; [lawful|below|]. intros is_utc.
  apply below_nested; [done|]. unfold read_time.
  below; try (by apply below_u64; auto); try apply below_days_in_month;
    apply below_time_from_ymdhms_utc.
Qed.
#[local] Hint Resolve below_time : below.

(** *** Certificates *)
Lemma below_extension : Below (from_der (T := Extension)).
Proof. cbn [from_der extension_from_der]. below. Qed.
#[local] Hint Resolve below_extension : below.

Lemma below_unsupported {S} ext (s : S) : below_limit (unsupported ext s).
Proof. unfold unsupported. by case_match. Qed.

Lemma below_set_extension_once {T} (d : option T) p :
  below_limit p -> below_limit (set_extension_once d p).
Proof. intros H. destruct d; [done|]. by apply below_limit_obind. Qed.

Lemma below_remember_extension {S} ext handler (s : S) :
  (forall n s, below_limit (handler n s)) -> below_limit (remember_extension ext handler s).
Proof.
  intros H. destruct (remember_extension_cases ext handler s) as [(n & _ & ->)|[_ ->]];
    [done|apply below_unsupported].
Qed.

Lemma below_SignedData lim : Below (SignedData_from_der lim).
Proof.
  rewrite SignedData_from_der_unfold. unfold read_tbs. apply below_bind; [intros [d t]; lawful| |].
  - apply below_read_partial; [apply _|below].
  - intros [d t]. below.
Qed.

Lemma below_spki : Below (from_der (T := SubjectPublicKeyInfo)).
Proof. cbn [from_der spki_from_der]. below. Qed.

Lemma below_verify_signature alg spki_value msg sig :
  below_limit (verify_signature alg spki_value msg sig).
Proof.
  unfold verify_signature. apply below_limit_obind; [apply below_der_read_all, below_spki|].
  intros spki _. by repeat case_match.
Qed.

Lemma below_verify_signed_data algs spki_value sd :
  below_limit (verify_signed_data algs spki_value sd).
Proof.
  unfold verify_signed_data. generalize false as found.
  induction algs as [|alg algs IH]; intros found; simpl; [by case_match|].
  case_match; [done|].
  pose proof (below_verify_signature alg spki_value (data sd) (signature sd)) as Hb.
  destruct (verify_signature _ _ _ _) as [|e| |]; try done. by destruct e.
Qed.

Lemma below_Cert_from_der cert_der e : below_limit (Cert_from_der cert_der e).
Proof.
  unfold Cert_from_der. apply below_limit_obind.
  - apply below_read_all; [done|]. apply below_nested; [done|]. apply below_SignedData.
  - intros [tbs sd] _. apply below_read_all; [done|].
    unfold read_tbs_certificate, lenient_certificate_serial_number.
    apply below_bind; [intros; lawful| |intros _; below].
    + unfold version3. apply below_nested; [done|]. below.
    + unfold read_extensions. below. apply below_nested; [done|].
      apply below_nested_of_mut; [done|lawful|]. intros s. unfold extension_decoder. below.
      apply below_remember_extension. intros n c. destruct (extension_slot n) as [sl|];
        [|apply below_unsupported].
      apply below_limit_obind; [|done]. apply below_set_extension_once, below_read_all; [done|].
      destruct (u8_eqb n x0f); below.
Qed.

(** *** Names *)
Lemma below_general_name : Below (from_der (T := GeneralName)).
Proof.
  cbn [from_der general_name_from_der]. unfold read_tag_and_get_value. below.
  unfold general_name_of. by repeat case_match.
Qed.

Lemma below_name_matches_base subtrees name base m :
  name_matches_base subtrees name base = Some m -> below_limit m.
Proof.
  destruct name, base; simpl; try done; intros H.
  - injection H as <-. pose proof (constraint_matching_spec name name0) as Hs.
    destruct (presented_id_matches_constraint _ _); try done. destruct Hs as [-> _].
    unfold below_limit. by case_decide.
  - by injection H as <-.
  - injection H as <-. pose proof (ip_constraint_spec name name0) as Hs.
    destruct (ip_presented_id_matches_constraint _ _); try done.
    case_decide; unfold below_limit; [destruct Hs as [-> _]|subst]; done.
  - case_match; [|done]. by injection H as <-.
Qed.

Lemma below_check_subtrees subtrees name c r : check_subtrees subtrees name c = Some r ->
  below_limit r.
Proof.
  unfold check_subtrees. destruct c as [v|]; [|done].
  assert (forall fuel rd m mm, match subtrees_loop fuel subtrees name rd m mm with
            | inr r => below_limit r | _ => True end) as Hloop.
  { induction fuel as [|fuel IH]; intros rd m mm; [done|]. cbn [subtrees_loop].
    destruct (at_end rd); [done|].
    assert (Below general_subtree) as Hg.
    { unfold general_subtree. below. apply below_der_read_all, below_general_name. }
    specialize (Hg (remaining rd)). rewrite <- (lawful_den (p := general_subtree)) in Hg.
    destruct (general_subtree rd) as [[base|e| |] rd']; try done.
    - destruct (name_matches_base subtrees name base) as [m'|] eqn:Em; [|apply IH].
      apply below_name_matches_base in Em.
      destruct subtrees, m' as [[]|e| |]; try done; try apply IH; unfold below_limit in *; congruence.
    - simpl in Hg. unfold below_limit in *. congruence. }
  specialize (Hloop (S (length v)) (reader_new v) false false).
  destruct (subtrees_loop _ _ _ _ _ _) as [[m mm]|result].
  - case_match; [|done]. by intros [= <-].
  - by intros [= <-].
Qed.

Lemma below_common_name input : below_limit (common_name input).
Proof.
  unfold common_name. rewrite run_new. generalize input. change (Below read_common_name).
  unfold read_common_name. do 2 (apply below_nested; [done|]). below.
  match goal with |- Below (common_name_loop ?f) => induction f as [|f IH] end;
    cbn [common_name_loop]; unfold read_tag_and_get_value; below.
Qed.

Lemma below_der_items {T} `{!FromDer T} k l : Below (from_der (T := T)) ->
  Forall below_limit (map fst (der_items (T := T) k l)).
Proof.
  intros He. revert l. induction k as [|k IH]; intros l; [constructor|].
  destruct l as [|b l]; [constructor|]. cbn [der_items].
  specialize (He (b :: l)). destruct (den from_der (b :: l)) as [item l']. simpl. by constructor.
Qed.

Lemma below_name_items subject san contents :
  Forall below_limit (name_items subject san contents).
Proof.
  assert (Forall below_limit (san_items san)) as Hsan.
  { destruct san as [l|]; [|done]. unfold san_items.
    pose proof (below_der_items (S (length l)) l below_general_name) as H.
    induction H as [|item items Hi _ IH]; [constructor|]. destruct item; simpl; by repeat constructor. }
  unfold name_items. case_match; [|done]. apply Forall_app. split; [done|].
  destruct subject as [input|]; [|constructor]. constructor; [done|].
  destruct contents; [|constructor]. unfold common_name_item.
  pose proof (below_common_name input) as Hb. unfold below_limit in Hb.
  destruct (common_name input) as [[cn|]|e| |]; repeat constructor; try done.
  intros [= ->]. done.
Qed.

Lemma below_check_chain_names p e contents child :
  below_limit (check_chain_names p e contents child).
Proof.
  induction child as [child IH] using chain_ind.
  assert (forall r, fst (find_map (NameIterator_new (Some (subject child)) (subject_alt_name child) contents)
             (fun item s => (check_name p e item, s)) tt) = Some r -> below_limit r) as Hf.
  { rewrite find_map_items.
    pose proof (below_name_items (Some (subject child)) (subject_alt_name child) contents) as H.
    induction H as [|item items Hi _ IHi]; [done|]. intros r.
    assert (forall r', check_name p e item = Some r' -> below_limit r') as Hc.
    { destruct item as [n|er| |]; simpl; try (intros ? [= <-]); try done.
      - intros r'. unfold check_presented_id_conforms_to_constraints.
        destruct (check_subtrees PermittedSubtrees n p) eqn:E1.
        + intros [= <-]. by apply below_check_subtrees in E1.
        + apply below_check_subtrees.
      - unfold below_limit in *. congruence. }
    destruct item; cbn [list_find_map]; try (by intros [= <-]);
      (destruct (check_name p e _) as [r'|]; [intros [= <-]; by apply Hc|apply IHi]). }
  destruct child as [[|c] serial sd issuer va su sp bc ku eku nc san dp];
    cbn [check_chain_names]; cbn [ee_or_ca] in IH;
    (destruct (fst (find_map _ _ _)) as [[[]|er| |]|]; try done;
     specialize (Hf _ eq_refl); unfold below_limit in *; congruence).
Qed.

Lemma below_name_constraints constraints child contents :
  below_limit (read_all_optional constraints BadDer (check_name_constraints child contents)).
Proof.
  rewrite name_constraints_eq. destruct constraints as [c|]; [|done].
  apply below_read_all; [done|]. unfold read_name_constraints, parse_subtrees. below;
    apply below_check_chain_names.
Qed.

(** *** The checks on one certificate *)
Lemma below_check_issuer_independent_properties cert time used_as_ca sub_ca_count eku :
  below_limit (check_issuer_independent_properties cert time used_as_ca sub_ca_count eku).
Proof.
  unfold check_issuer_independent_properties.
  apply below_limit_obind; [|intros _ _; apply below_limit_obind; [|intros _ _]].
  - apply below_read_all; [done|]. unfold check_validity. below.
  - rewrite basic_constraints_eq.
    assert (forall is_ca len, below_limit (basic_constraints_verdict used_as_ca is_ca len sub_ca_count))
      as Hv by (intros is_ca [n|]; unfold basic_constraints_verdict; by repeat case_match).
    destruct (basic_constraints cert) as [v|]; [|done]. apply below_read_all; [done|].
    unfold read_basic_constraints. below.
  - rewrite eku_eq. destruct (Cert.eku cert) as [v|]; [|by destruct eku].
    apply below_read_all; [done|]. below.
    match goal with |- Below (eku_loop ?f _) => induction f as [|f IH] end; cbn [eku_loop]; below.
Qed.

Lemma below_key_usage_check mode ku : below_limit (key_usage_check mode ku).
Proof.
  unfold key_usage_check. destruct ku as [v|]; [|done]. rewrite run_new.
  apply below_limit_obind; [apply below_expect_tag|]. intros b _.
  apply below_limit_obind; [apply below_bit_string_flags|]. intros f _. by case_match.
Qed.

(** *** Lookups in a list *)
Lemma below_revoked_cert : Below (from_der (T := BorrowedRevokedCert)).
Proof.
  cbn [from_der revoked_cert_from_der]. apply below_nested; [done|].
  assert (forall rc, Below (entry_extension_decoder rc)) as Hdec.
  { intros rc. unfold entry_extension_decoder. below. apply below_remember_extension.
    intros n rc'. destruct (decide (n = x15)) as [->|]; [|destruct (decide (n = x18)) as [->|]].
    - apply below_limit_obind; [|done]. apply below_set_extension_once, below_der_read_all.
      cbn [from_der reason_from_der]. below. by destruct a1.
    - apply below_limit_obind; [|done]. apply below_set_extension_once, below_read_all; [done|below].
    - destruct n; try done; apply below_unsupported. }
  unfold read_entry, lenient_certificate_serial_number. below.
  unfold entry_extensions. rewrite run_new.
  match goal with |- below_limit (fst (den ?p ?l)) => generalize l; change (Below p) end.
  below. apply below_nested_of_mut_loop; [done|lawful|done].
Qed.

Lemma below_borrowed_find_serial crl serial : below_limit (borrowed_find_serial crl serial).
Proof.
  rewrite borrowed_find_serial_eq.
  pose proof (below_der_items (S (length (crl_revoked_certs crl))) (crl_revoked_certs crl)
    below_revoked_cert) as H.
  fold (entry_items (crl_revoked_certs crl)) in H.
  induction H as [|item items Hi _ IH]; [done|]. simpl. apply below_limit_obind; [done|].
  intros rc _. by case_match.
Qed.

Lemma below_items_for {T S R} (items : list (outcome Error T * Input)) l
    (body : outcome Error T -> S -> outcome Error (S + R)) s :
  (forall item s, below_limit (body item s)) -> below_limit (fst (items_for items l body s)).
Proof.
  intros Hb. revert l s. induction items as [|[item l'] items IH]; intros l s; [done|].
  simpl. pose proof (Hb item s) as H.
  destruct item; try done; (destruct (body _ s) as [[s'|r]|e'| |]; try done; by apply IH).
Qed.

Lemma below_authoritative_for idp cert : below_limit (authoritative_for idp cert).
Proof.
  unfold authoritative_for. do 2 (case_match; [done|]).
  destruct (crl_distribution_points cert) as [it|] eqn:Ei; [|done].
  unfold crl_distribution_points in Ei. destruct (crl_distribution_points_field cert); [|done].
  injection Ei as <-. destruct (idp_names idp) as [[[n|names]|]|e| |]; try done.
  apply below_limit_obind; [|done]. rewrite der_for_items. apply below_items_for.
  intros [dp|e| |] s; try done. unfold cert_dp_body. case_match; [done|].
  destruct (CrlDistributionPoint_names dp) as [[[n|ns]|]|e| |]; try done.
  pose proof (proj1 (uri_name_in_common_eq s ns)) as Hu.
  destruct (uri_name_in_common s ns) as [res s']. simpl in Hu. subst res. simpl. by case_match.
Qed.
End Parsers.
