(* ===== verification/Path.v ===== *)
(** * The search for a path implements path validation

    A declarative account of certification paths (which certificates are
    acceptable, which issue which, when a chain is signed and not revoked) and
    the proof that [build_chain] finds one exactly when there is one, as far as
    its budget of signature checks goes. *)
From stdpp Require Import gmap.
From S2P Require Import Prelude Errors Untrusted Der Time GeneralName X509 SignedData Cert Crl.
From S2P Require Import Samples TrustAnchor DnsName IpAddress SubjectName VerifyName VerifyCert.
From S2P Require Import SignatureLimit.

(** ** The contract of revocation lists

    What the search relies on of an implementation of the trait: its
    operations return, and do not report the limit on signature checks. *)
Class CrlLaws (C : Type) `{!CertRevocationList C} : Prop := {
  find_serial_returns c serial : returns (find_serial c serial);
  find_serial_below c serial : below_limit (find_serial c serial);
  crl_verify_returns c algs spki : returns (crl_verify_signature c algs spki);
  crl_verify_below c algs spki : below_limit (crl_verify_signature c algs spki);
}.

Definition lawful_crl (crl : dyn_crl) : Prop := CrlLaws (dyn_type crl).

(** The lists that are consulted keep the contract. *)
Definition lawful_revocation (revocation : option RevocationOptions) : Prop :=
  forall r, revocation = Some r -> Forall lawful_crl (crls r).

(** ** Paths *)

(** The number of CA certificates below the issuer of a certificate. *)
Definition next_count (c : Cert) (n : Z) : Z :=
  match ee_or_ca c with EndEntity => n | Ca _ => n + 1 end.

Section Path.
Context {U : Untrusted}.
Variable opts : ChainOptions.
Variable time : Time.

Definition contents_of (c : Cert) : SubjectCommonNameContents :=
  subject_common_name_contents opts (used_as_ca (ee_or_ca c)).

(** A certificate that can stand in a path above [n] CA certificates. *)
Record acceptable (c : Cert) (n : Z) : Prop := {
  acc_validity : validity_contains time (validity c);
  acc_basic_constraints :
    basic_constraints_allow (used_as_ca (ee_or_ca c)) n (basic_constraints c);
  acc_eku : eku_allows (inner (opt_eku opts)) (eku c);
  acc_depth : match ee_or_ca c with EndEntity => n = 0 | Ca _ => n < MAX_SUB_CA_COUNT end;
}.

(** A certificate of the intermediates that issued [child]: it carries the
    subject that [child] names, is not in the chain already, and its name
    constraints hold for the chain below it. *)
Record issued_by (child issuer : Cert) : Prop := {
  iss_intermediate : exists cert_der, cert_der ∈ intermediate_certs opts /\
    Cert_from_der cert_der (Ca child) = Ok issuer;
  iss_name : subject issuer = Cert.issuer child;
  iss_fresh : forall prev, prev ∈ chain_down child ->
    ~ (spki issuer = spki prev /\ subject issuer = subject prev);
  iss_constraints : name_constraints_ok (name_constraints issuer) child (contents_of child);
}.

(** Paths from a certificate up to the last certificate below an anchor. *)
Inductive path_from : Cert -> Z -> Cert -> Prop :=
  | path_here c n : acceptable c n -> path_from c n c
  | path_up c n issuer top : acceptable c n -> issued_by c issuer ->
      path_from issuer (next_count c n) top -> path_from c n top.

(** The revocation status of a certificate is acceptable: it is not looked at,
    unknown where that is allowed, or the first list that covers it, those before
    it being passed over, is signed by the issuer, which may sign lists, and does
    not have the serial number. *)
Inductive not_revoked (cert : Cert) (issuer_spki : Input) (issuer_ku : option Input)
    (r : RevocationOptions) : Prop :=
  | not_looked_at child : depth r = DepthEndEntity -> ee_or_ca cert = Ca child ->
      not_revoked cert issuer_spki issuer_ku r
  | unknown_allowed : status_requirement r = Allow ->
      Forall (fun crl => crl_authoritative crl cert = Ok false) (crls r) ->
      not_revoked cert issuer_spki issuer_ku r
  | not_listed before crl after : crls r = before ++ crl :: after ->
      Forall (fun crl => crl_authoritative crl cert = Ok false) before ->
      covers crl cert ->
      crl_verify_signature (dyn_value crl) (supported_sig_algs opts) issuer_spki = Ok tt ->
      key_usage_allows_crl_sign issuer_ku ->
      find_serial (dyn_value crl) (serial cert) = Ok None ->
      not_revoked cert issuer_spki issuer_ku r.

(** Every certificate of the chain is signed with the key of the one above
    and not revoked. *)
Fixpoint signed_chain (spki_value : Input) (issuer_ku : option Input) (cert : Cert) : Prop :=
  verify_signed_data (supported_sig_algs opts) spki_value (signed_data cert) = Ok tt /\
  (forall r, revocation opts = Some r -> not_revoked cert spki_value issuer_ku r) /\
  match cert with
  | mkCert (Ca child) _ _ _ _ _ _ _ _ _ _ _ _ =>
    signed_chain (spki cert) (key_usage cert) child
  | _ => True
  end.

(** A trust anchor for the last certificate. *)
Definition anchored (top : Cert) : Prop :=
  exists anchor, anchor ∈ trust_anchors opts /\ issuer top = ta_subject anchor /\
    name_constraints_ok (ta_name_constraints anchor) top (contents_of top) /\
    signed_chain (ta_subject_public_key_info anchor) None top.

(** A certification path from an end-entity certificate to an anchor. *)
Definition valid_path (c : Cert) : Prop := exists top, path_from c 0 top /\ anchored top.
End Path.

(** The names of a chain are linked. *)
Fixpoint linked (c : Cert) : Prop :=
  match c with
  | mkCert (Ca child) _ _ _ _ _ _ _ _ _ _ _ _ => issuer child = subject c /\ linked child
  | _ => True
  end.

Fixpoint chain_length (c : Cert) : Z :=
  match c with
  | mkCert (Ca child) _ _ _ _ _ _ _ _ _ _ _ _ => 1 + chain_length child
  | _ => 1
  end.

(** ** Lemmas: the implementations of the trait *)
Section CrlContract.
Context {U : Untrusted} {L : UntrustedLaws U}.

#[export] Instance borrowed_crl_laws : CrlLaws BorrowedCertRevocationList.
Proof.
  split; intros c; intros.
  - simpl. rewrite borrowed_find_serial_eq.
    pose proof (entry_items_ends (crl_revoked_certs c)) as H.
    induction H as [|item items Hi _ IH]; [done|]. simpl. apply ends_obind; [done|].
    intros rc _. by case_match.
  - apply below_borrowed_find_serial.
  - apply ends_verify_signed_data.
  - apply below_verify_signed_data.
Qed.

#[export] Instance owned_crl_laws : CrlLaws OwnedCertRevocationList.
Proof.
  split; intros c; intros; [done|done|apply ends_verify_signed_data|apply below_verify_signed_data].
Qed.
End CrlContract.

(** ** Lemmas: revocation and signatures *)
Section SignatureLemmas.
Context {U : Untrusted} {L : UntrustedLaws U}.

Lemma check_revocation_iff opts cert spki_value ku r :
  (exists x, check_revocation (supported_sig_algs opts) cert spki_value ku r = Ok x) <->
  not_revoked opts cert spki_value ku r.
Proof.
  unfold check_revocation. split.
  - intros [x H].
    destruct (depth r) eqn:Ed, (ee_or_ca cert) as [|child] eqn:Ee;
      try (by apply not_looked_at with child);
      (apply obind_ok in H as ([crl|] & Hf & H);
       [|apply find_crl_none in Hf; destruct (status_requirement r) eqn:Es; [|done];
         by apply unknown_allowed];
       apply find_crl_some in Hf as (before & after & Hc & Hb & Ha);
       apply obind_ok in H as ([] & Hv & H); apply obind_ok in H as ([] & Hk & H);
       apply obind_ok in H as ([entry|] & Hs & H); [done|];
       apply not_listed with before crl after; try done;
       [by destruct (crl_verify_signature _ _ _) as [[]| | |]|by apply key_usage_check_iff]).
  - intros [child Hd Hc|Hs Hn|before crl after Hc Hb Ha Hv Hk Hs].
    + rewrite Hd, Hc. eauto.
    + apply find_crl_none in Hn. rewrite Hn, Hs. destruct (depth r), (ee_or_ca cert); simpl; eauto.
    + assert (find_crl (crls r) cert = Ok (Some crl)) as -> by (apply find_crl_some; eauto).
      apply key_usage_check_iff in Hk. simpl. rewrite Hv. simpl. rewrite Hk. simpl. rewrite Hs.
      destruct (depth r), (ee_or_ca cert); simpl; eauto.
Qed.

(** The checks on one certificate of the chain, without the counter. *)
Definition checks_of (opts : ChainOptions) (spki_value issuer_subject : Input)
    (issuer_ku : option Input) (cert : Cert) : outcome Error unit :=
  let? _ := verify_signed_data (supported_sig_algs opts) spki_value (signed_data cert) in
  match revocation opts with
  | Some r =>
    let? _ := check_crls (supported_sig_algs opts) cert issuer_subject spki_value issuer_ku r in
    Ok tt
  | None => Ok tt
  end.

Lemma checks_of_ok opts spki_value ku cert :
  checks_of opts spki_value (issuer cert) ku cert = Ok tt <->
  verify_signed_data (supported_sig_algs opts) spki_value (signed_data cert) = Ok tt /\
  (forall r, revocation opts = Some r -> not_revoked opts cert spki_value ku r).
Proof.
  unfold checks_of. rewrite obind_ok. unfold check_crls. rewrite bytes_eqb_refl. simpl.
  destruct (revocation opts) as [r|].
  2: { split; [by intros ([] & -> & _)|]. intros [-> _]. by exists tt. }
  transitivity (verify_signed_data (supported_sig_algs opts) spki_value (signed_data cert) = Ok tt /\
    exists x, check_revocation (supported_sig_algs opts) cert spki_value ku r = Ok x).
  - split.
    + intros ([] & Hv & H). apply obind_ok in H as (x & H & _). eauto.
    + intros (Hv & x & H). exists tt. split; [done|]. apply obind_ok. eauto.
  - rewrite check_revocation_iff. split; [intros [? ?]; split; [done|]; by intros ? [= <-]|].
    intros [? H]. split; [done|]. by apply H.
Qed.

(** The assertion of [check_crls] holds for linked names. *)
Lemma checks_of_issuer opts spki_value subject ku cert : revocation opts <> None ->
  checks_of opts spki_value subject ku cert = Ok tt -> issuer cert = subject.
Proof.
  unfold checks_of. intros Hr (x & _ & H)%obind_ok. destruct (revocation opts) as [r|]; [|done].
  apply obind_ok in H as (y & H & _). unfold check_crls in H.
  destruct (bytes_eqb (issuer cert) subject) eqn:E; [|done]. by apply bytes_eqb_eq.
Qed.

Lemma check_signatures_unfold opts spki_value subject ku cert s :
  check_signatures_loop (supported_sig_algs opts) (revocation opts) spki_value subject ku cert s =
  if 100 <? s + 1 then (Err MaximumSignatureChecksExceeded, s + 1)
  else
    match checks_of opts spki_value subject ku cert with
    | Ok _ =>
      match ee_or_ca cert with
      | Ca child =>
        check_signatures_loop (supported_sig_algs opts) (revocation opts) (spki cert)
          (Cert.subject cert) (key_usage cert) child (s + 1)
      | EndEntity => (Ok tt, s + 1)
      end
    | other => (other, s + 1)
    end.
Proof.
  destruct cert as [[|c] serial sd issuer va su sp bc k eku nc san dp];
    cbn [check_signatures_loop ee_or_ca];
    unfold checks_of; destruct (100 <? s + 1); try done;
    destruct (verify_signed_data _ _ _) as [[]| | |]; try done; simpl;
    destruct (revocation opts) as [r|]; try done;
    by destruct (check_crls _ _ _ _ _ _).
Qed.

(** The counter: one more for each certificate that is looked at. *)
Lemma check_signatures_counter opts : forall cert spki_value subject ku s r s',
  check_signatures_loop (supported_sig_algs opts) (revocation opts) spki_value subject ku cert s
    = (r, s') ->
  s + 1 <= s' <= s + chain_length cert /\ (r = Ok tt -> s' = s + chain_length cert /\ s' <= 100).
Proof.
  induction cert as [cert IH] using chain_ind. intros spki_value subject ku s r s'.
  rewrite check_signatures_unfold.
  assert (0 < chain_length cert) as Hpos.
  { clear. induction cert as [c IH] using chain_ind.
    destruct c as [[|child] ? ? ? ? ? ? ? ? ? ? ? ?]; cbn [chain_length ee_or_ca] in *; lia. }
  destruct (Z.ltb_spec 100 (s + 1)); [intros [= <- <-]; split; [lia|done]|].
  destruct (checks_of opts spki_value subject ku cert); try (intros [= <- <-]; split; [lia|done]).
  destruct cert as [[|child] ? ? ? ? ? ? ? ? ? ? ? ?]; cbn [ee_or_ca chain_length] in *.
  - intros [= <- <-]. split; [lia|]. intros _. lia.
  - intros H'. apply IH in H' as [H1 H2]. split; [lia|]. intros Hr. specialize (H2 Hr). lia.
Qed.

Lemma check_signatures_sound opts : forall cert spki_value subject ku s s',
  check_signatures_loop (supported_sig_algs opts) (revocation opts) spki_value subject ku cert s
    = (Ok tt, s') -> issuer cert = subject -> linked cert ->
  signed_chain opts spki_value ku cert.
Proof.
  induction cert as [cert IH] using chain_ind. intros spki_value subject ku s s'.
  rewrite check_signatures_unfold. intros H Hsub Hl. destruct (100 <? s + 1); [done|].
  destruct (checks_of opts spki_value subject ku cert) as [[]| | |] eqn:Ec; try done.
  subst subject. apply checks_of_ok in Ec as [Hv Hr].
  destruct cert as [[|child] ? ? ? ? ? ? ? ? ? ? ? ?]; cbn [signed_chain ee_or_ca linked] in *; [done|].
  destruct Hl as [Hsubj Hl]. split_and!; [done|done|]. by apply (IH _ _ _ _ _ H).
Qed.

Lemma check_signatures_complete opts : forall cert spki_value ku s r s',
  check_signatures_loop (supported_sig_algs opts) (revocation opts) spki_value (issuer cert) ku cert s
    = (r, s') -> linked cert -> signed_chain opts spki_value ku cert -> s' <= 100 -> r = Ok tt.
Proof.
  induction cert as [cert IH] using chain_ind. intros spki_value ku s r s' H Hl Hc Hs'.
  pose proof (check_signatures_counter _ _ _ _ _ _ _ _ H) as [Hcount _].
  rewrite check_signatures_unfold in H. rewrite (proj2 (Z.ltb_ge _ _)) in H by lia.
  assert (checks_of opts spki_value (issuer cert) ku cert = Ok tt) as Hok.
  { apply checks_of_ok. destruct cert; cbn [signed_chain] in Hc. tauto. }
  rewrite Hok in H.
  destruct cert as [[|child] ? ? ? ? ? ? ? ? ? ? ? ?]; cbn [signed_chain ee_or_ca linked] in *;
    [by injection H|].
  destruct Hl as [Hsub Hl], Hc as (_ & _ & Hc). rewrite <- Hsub in H. by apply (IH _ _ _ _ _ H).
Qed.
End SignatureLemmas.

(** ** Lemmas: the search *)

(** The loop over candidates: success comes from one of them; after an error
    that is not the limit, each of them was tried and failed. *)
Lemma loop_ok {A S} (f : A -> S -> outcome Error unit * S) values : forall e s s',
  loop_while_non_fatal_error e values f s = (Ok tt, s') ->
  exists v s1, v ∈ values /\ f v s1 = (Ok tt, s').
Proof.
  induction values as [|v values IH]; intros e s s'; simpl; [done|].
  destruct (f v s) as [[[]|err| |] s1] eqn:E; try done.
  - intros [= <-]. exists v, s. split; [by apply elem_of_cons; left|done].
  - intros H. assert (exists e', loop_while_non_fatal_error e' values f s1 = (Ok tt, s')) as [e' H']
      by (destruct err; by eauto).
    apply IH in H' as (w & s2 & Hw & Hf). exists w, s2. split; [by apply elem_of_cons; right|done].
Qed.

Lemma loop_err {A} (f : A -> Z -> outcome Error unit * Z) values :
  (forall v s r s', f v s = (r, s') -> s <= s') ->
  (forall v s s', f v s = (Err MaximumSignatureChecksExceeded, s') -> 100 < s') ->
  forall e s err s', loop_while_non_fatal_error e values f s = (Err err, s') -> s' <= 100 ->
  forall v, v ∈ values -> exists s1 e1 s2, f v s1 = (Err e1, s2) /\ s2 <= s'.
Proof.
  intros Hmono Hlimit.
  assert (forall values e s r s', loop_while_non_fatal_error e values f s = (r, s') -> s <= s') as Hloop.
  { clear values. induction values as [|v values IH]; intros e s r s'; simpl; [intros [= _ <-]; lia|].
    destruct (f v s) as [[[]|err| |] s1] eqn:E; apply Hmono in E; try (intros [= _ <-]; lia).
    destruct err; try (intros H%IH; lia). intros [= _ <-]. lia. }
  induction values as [|v values IH]; intros e s err s' H Hs' w Hw; [by apply elem_of_nil in Hw|].
  simpl in H. destruct (f v s) as [[[]|e1| |] s1] eqn:E; try done.
  assert (e1 <> MaximumSignatureChecksExceeded) as Hne.
  { intros ->. injection H as _ <-. apply Hlimit in E. lia. }
  assert (exists e', loop_while_non_fatal_error e' values f s1 = (Err err, s')) as [e' H']
    by (destruct e1; by eauto).
  apply elem_of_cons in Hw as [->|Hw]; [|by apply (IH _ _ _ _ H' Hs')].
  exists s, e1, s1. split; [done|]. by apply Hloop in H'.
Qed.

(** Every outcome of the loop is one of its candidates', or an error. *)
Lemma loop_ends {A} (P : outcome Error unit * Z -> Prop) (f : A -> Z -> outcome Error unit * Z) :
  (forall e s, P (Err e, s)) -> (forall v s, P (f v s)) ->
  forall values e s, P (loop_while_non_fatal_error e values f s).
Proof.
  intros Herr Hf. induction values as [|v values IH]; intros e s; simpl; [apply Herr|].
  pose proof (Hf v s) as H. destruct (f v s) as [[[]|err| |] s1]; try done.
  destruct err; try apply IH. done.
Qed.

Section SearchLemmas.
Context {U : Untrusted} {L : UntrustedLaws U}.
Variable opts : ChainOptions.
Variable time : Time.

Lemma issuer_in_chain_iff pi c :
  issuer_in_chain pi c = false <->
  forall prev, prev ∈ chain_down c -> ~ (spki pi = spki prev /\ subject pi = subject prev).
Proof.
  induction c as [c IH] using chain_ind.
  assert (forall c, bytes_eqb (spki pi) (spki c) && bytes_eqb (subject pi) (subject c) = false <->
            ~ (spki pi = spki c /\ subject pi = subject c)) as Hone.
  { intros c'. rewrite <- not_true_iff_false, andb_true_iff, !bytes_eqb_eq. done. }
  specialize (Hone c).
  destruct c as [[|child] ? ? ? ? ? ? ? ? ? ? ? ?]; cbn [issuer_in_chain chain_down ee_or_ca] in *.
  - destruct (_ && _).
    + split; [done|]. intros H. exfalso. assert (true = false) by
        (apply Hone, H, list_elem_of_singleton; done). done.
    + split; [|done]. intros _ prev ->%list_elem_of_singleton. by apply Hone.
  - destruct (_ && _).
    + split; [done|]. intros H. exfalso. assert (true = false) by
        (apply Hone, H, elem_of_cons; by left). done.
    + rewrite IH. split.
      * intros H prev [->|Hp]%elem_of_cons; [by apply Hone|by apply H].
      * intros H prev Hp. apply H, elem_of_cons. by right.
Qed.

Lemma Cert_from_der_child cert_der e c : Cert_from_der cert_der e = Ok c -> ee_or_ca c = e.
Proof. by intros [? _]%Cert_from_der_encodes. Qed.

Lemma potential_issuer_iff c issuer :
  (exists cert_der, cert_der ∈ intermediate_certs opts /\
     potential_issuer c (contents_of opts c) cert_der = Ok issuer) <->
  issued_by opts c issuer.
Proof.
  unfold potential_issuer. split.
  - intros (der & Hin & (pi & Hpi & H)%obind_ok).
    destruct (bytes_eqb (subject pi) (Cert.issuer c)) eqn:Es; [|done].
    destruct (issuer_in_chain pi c) eqn:Ei; [done|]. simpl in H.
    apply obind_ok in H as ([] & Hnc & [= ->]). split; [eauto|by apply bytes_eqb_eq| |].
    + by apply issuer_in_chain_iff.
    + by apply check_name_constraints_iff.
  - intros [(der & Hin & Hder) Hname Hfresh Hnc]. exists der. split; [done|].
    rewrite Hder. simpl. rewrite Hname, bytes_eqb_refl. simpl.
    apply issuer_in_chain_iff in Hfresh. rewrite Hfresh.
    apply check_name_constraints_iff in Hnc. by rewrite Hnc.
Qed.

Lemma issued_by_child c issuer : issued_by opts c issuer -> ee_or_ca issuer = Ca c.
Proof. intros [(der & _ & H) _ _ _]. by apply Cert_from_der_child in H. Qed.

Lemma issued_by_linked c issuer : issued_by opts c issuer -> linked c -> linked issuer.
Proof.
  intros Hi Hl. pose proof (issued_by_child _ _ Hi) as Hc. destruct Hi as [_ Hn _ _].
  destruct issuer; cbn in Hc; subst. done.
Qed.

(** The checks before the search, on one certificate. *)
Lemma acceptable_iff c n :
  (let? _ := check_issuer_independent_properties c time (used_as_ca (ee_or_ca c)) n
               (inner (opt_eku opts)) in
   check_sub_ca_count (used_as_ca (ee_or_ca c)) n) = Ok tt <-> acceptable opts time c n.
Proof.
  assert (check_sub_ca_count (used_as_ca (ee_or_ca c)) n = Ok tt <->
          match ee_or_ca c with EndEntity => n = 0 | Ca _ => n < MAX_SUB_CA_COUNT end) as Hd.
  { unfold check_sub_ca_count. destruct (ee_or_ca c); cbn [used_as_ca].
    - destruct (Z.eqb_spec 0 n); split; congruence.
    - destruct (Z.leb_spec MAX_SUB_CA_COUNT n); split; try done; lia. }
  rewrite obind_ok. split.
  - intros ([] & (Hv & Hb & He)%check_issuer_independent_properties_iff & H%Hd). by split.
  - intros [Hv Hb He H]. exists tt. split; [|by apply Hd].
    by apply check_issuer_independent_properties_iff.
Qed.

(** One trust anchor. *)
Definition anchors (c : Cert) (anchor : TrustAnchor) : Prop :=
  issuer c = ta_subject anchor /\
  name_constraints_ok (ta_name_constraints anchor) c (contents_of opts c) /\
  signed_chain opts (ta_subject_public_key_info anchor) None c.

Lemma try_trust_anchor_sound c anchor s s' : linked c ->
  try_trust_anchor opts c (contents_of opts c) anchor s = (Ok tt, s') -> anchors c anchor /\ s' <= 100.
Proof.
  intros Hl. unfold try_trust_anchor.
  destruct (bytes_eqb (issuer c) (ta_subject anchor)) eqn:Es; simpl; [|done].
  apply bytes_eqb_eq in Es.
  destruct (read_all_optional _ _ _) as [[]| | |] eqn:En; try done. intros H.
  apply check_name_constraints_iff in En. split.
  - split_and!; [done|done|]. by apply (check_signatures_sound _ _ _ _ _ _ _ H).
  - apply check_signatures_counter in H as [_ H]. by apply H.
Qed.

Lemma try_trust_anchor_complete c anchor s r s' : linked c ->
  try_trust_anchor opts c (contents_of opts c) anchor s = (r, s') -> anchors c anchor ->
  s' <= 100 -> r = Ok tt.
Proof.
  intros Hl. unfold try_trust_anchor. intros H (Hs & Hn & Hc) Hs'.
  rewrite Hs, bytes_eqb_refl in H. simpl in H.
  apply check_name_constraints_iff in Hn. rewrite Hn in H. unfold check_signatures in H.
  rewrite <- Hs in H. by apply (check_signatures_complete _ _ _ _ _ _ _ H).
Qed.

Lemma try_trust_anchor_counter c contents anchor s r s' :
  try_trust_anchor opts c contents anchor s = (r, s') -> s <= s'.
Proof.
  unfold try_trust_anchor. case_match; [intros [= _ <-]; lia|].
  destruct (read_all_optional _ _ _); try (intros [= _ <-]; lia).
  intros H'. apply check_signatures_counter in H' as [H' _]. lia.
Qed.

(** The recursive call of the loop over the intermediates. *)
Definition try_intermediate (fuel : nat) (c : Cert) (n : Z) (cert_der : CertificateDer)
    (signatures : Z) : outcome Error unit * Z :=
  match potential_issuer c (contents_of opts c) cert_der with
  | Ok issuer => build_chain_inner fuel opts issuer time (next_count c n) signatures
  | Err e => (Err e, signatures)
  | Panic => (Panic, signatures)
  | OutOfFuel => (OutOfFuel, signatures)
  end.

Lemma build_chain_inner_unfold fuel c n s :
  build_chain_inner (S fuel) opts c time n s =
  match (let? _ := check_issuer_independent_properties c time (used_as_ca (ee_or_ca c)) n
                     (inner (opt_eku opts)) in
         check_sub_ca_count (used_as_ca (ee_or_ca c)) n) with
  | Ok _ =>
    match loop_while_non_fatal_error UnknownIssuer (trust_anchors opts)
            (try_trust_anchor opts c (contents_of opts c)) s with
    | (Err err, s) =>
      loop_while_non_fatal_error err (intermediate_certs opts) (try_intermediate fuel c n) s
    | other => other
    end
  | Err e => (Err e, s)
  | Panic => (Panic, s)
  | OutOfFuel => (OutOfFuel, s)
  end.
Proof.
  cbn [build_chain_inner]. unfold contents_of.
  assert (forall der s, match potential_issuer c (subject_common_name_contents opts
                   (used_as_ca (ee_or_ca c))) der with
             | Ok issuer => build_chain_inner fuel opts issuer time
                 (match used_as_ca (ee_or_ca c) with
                  | UsedAsCaNo => n | UsedAsCaYes => n + 1 end) s
             | Err e => (Err e, s)
             | Panic => (Panic, s)
             | OutOfFuel => (OutOfFuel, s)
             end = try_intermediate fuel c n der s) as Ht.
  { intros der s1. unfold try_intermediate, contents_of, next_count. by destruct (ee_or_ca c). }
  destruct (obind _ _) as [[]|e| |]; try done.
  destruct (loop_while_non_fatal_error UnknownIssuer _ _ _) as [[|err| |] s1]; try done.
  revert err s1. induction (intermediate_certs opts) as [|der ders IH]; intros err s1; [done|].
  cbn [loop_while_non_fatal_error]. rewrite Ht.
  destruct (try_intermediate fuel c n der s1) as [[[]|e| |] s2]; try done. by destruct e.
Qed.

(** *** The counter *)
Lemma loop_counter {A} (f : A -> Z -> outcome Error unit * Z) :
  (forall v s r s', f v s = (r, s') -> s <= s') ->
  forall values e s r s', loop_while_non_fatal_error e values f s = (r, s') -> s <= s'.
Proof.
  intros Hmono. induction values as [|v values IH]; intros e s r s'; simpl; [intros [= _ <-]; lia|].
  destruct (f v s) as [[[]|err| |] s1] eqn:E; apply Hmono in E; try (intros [= _ <-]; lia).
  destruct err; try (intros H%IH; lia). intros [= _ <-]. lia.
Qed.

Lemma inner_counter fuel : forall c n s r s',
  build_chain_inner fuel opts c time n s = (r, s') -> s <= s'.
Proof.
  induction fuel as [|fuel IH]; intros c n s r s'; [intros [= _ <-]; lia|].
  rewrite build_chain_inner_unfold. destruct (obind _ _); try (intros [= _ <-]; lia).
  destruct (loop_while_non_fatal_error UnknownIssuer _ _ _) as [o s1] eqn:E.
  apply loop_counter in E; [|apply try_trust_anchor_counter].
  destruct o; try (intros [= _ <-]; lia). intros H.
  apply loop_counter in H; [lia|]. clear -IH. intros der s r s'. unfold try_intermediate.
  destruct (potential_issuer _ _ _); try (intros [= _ <-]; lia). apply IH.
Qed.

Lemma loop_limit {A} (f : A -> Z -> outcome Error unit * Z) :
  (forall v s r s', f v s = (r, s') -> s <= s') ->
  (forall v s s', f v s = (Err MaximumSignatureChecksExceeded, s') -> 100 < s') ->
  forall values e s s', (e = MaximumSignatureChecksExceeded -> 100 < s) ->
  loop_while_non_fatal_error e values f s = (Err MaximumSignatureChecksExceeded, s') -> 100 < s'.
Proof.
  intros Hmono Hlimit. induction values as [|v values IH]; intros e s s' He; simpl.
  { intros [= -> <-]. by apply He. }
  destruct (f v s) as [[[]|err| |] s1] eqn:E; try done. intros H.
  destruct (decide (err = MaximumSignatureChecksExceeded)) as [->|Hne].
  - injection H as <-. by apply Hlimit in E.
  - assert (loop_while_non_fatal_error (most_specific e err) values f s1
            = (Err MaximumSignatureChecksExceeded, s')) as H' by (by destruct err).
    apply IH in H'; [done|]. intros Hm. apply Hmono in E.
    destruct (most_specific_choice e err) as [Hc|Hc]; rewrite Hc in Hm; [|done].
    specialize (He Hm). lia.
Qed.

Lemma below_crl_authoritative crl cert : below_limit (crl_authoritative crl cert).
Proof.
  unfold crl_authoritative. destruct (negb _); [done|].
  destruct (crl_distribution_points cert), (issuing_distribution_point (dyn_value crl)) as [idp|];
    try done; (destruct (idp_from_der idp); try done; apply below_authoritative_for).
Qed.

Lemma below_find_crl crls cert : below_limit (find_crl crls cert).
Proof.
  induction crls as [|crl crls IH]; [done|]. simpl.
  apply below_limit_obind; [apply below_crl_authoritative|intros []; done].
Qed.

Lemma lawful_found r cert crl : Forall lawful_crl (crls r) ->
  find_crl (crls r) cert = Ok (Some crl) -> lawful_crl crl.
Proof.
  intros Hr (before & after & Hc & _)%find_crl_some. rewrite Hc in Hr.
  apply Forall_app in Hr as [_ Hr]. by apply Forall_cons in Hr as [? _].
Qed.

Lemma below_check_revocation algs cert spki_value ku r : Forall lawful_crl (crls r) ->
  below_limit (check_revocation algs cert spki_value ku r).
Proof.
  intros Hr. unfold check_revocation.
  destruct (depth r), (ee_or_ca cert); try done;
    (apply below_limit_obind; [apply below_find_crl|]; intros [crl|] Hfind;
     [|by destruct (status_requirement r)];
     pose proof (lawful_found r cert crl Hr Hfind) as [Hf1 Hf2 Hv1 Hv2];
     apply below_limit_obind;
     [|intros _ _; apply below_limit_obind; [apply below_key_usage_check|
       intros _ _; apply below_limit_obind; [apply Hf2|intros [e|] _; done]]];
     specialize (Hv2 (dyn_value crl) algs spki_value); unfold below_limit in *;
     destruct (crl_verify_signature _ _ _) as [|e| |]; try done; by destruct e).
Qed.

Lemma below_checks_of : lawful_revocation (revocation opts) ->
  forall spki_value subject ku cert, below_limit (checks_of opts spki_value subject ku cert).
Proof.
  intros Hrev spki_value subject ku cert. unfold checks_of.
  apply below_limit_obind; [apply below_verify_signed_data|]. intros _ _.
  destruct (revocation opts) as [r|] eqn:Er; [|done]. apply below_limit_obind; [|done].
  unfold check_crls. destruct (negb _); [done|]. apply below_check_revocation, (Hrev r eq_refl).
Qed.

Lemma check_signatures_limit : lawful_revocation (revocation opts) ->
  forall cert spki_value subject ku s s',
  check_signatures_loop (supported_sig_algs opts) (revocation opts) spki_value subject ku cert s
    = (Err MaximumSignatureChecksExceeded, s') -> 100 < s'.
Proof.
  intros Hrev. induction cert as [cert IH] using chain_ind. intros spki_value subject ku s s'.
  rewrite check_signatures_unfold. destruct (Z.ltb_spec 100 (s + 1)) as [Hs|_].
  { intros [= <-]. lia. }
  pose proof (below_checks_of Hrev spki_value subject ku cert) as Hb.
  destruct (checks_of opts spki_value subject ku cert) as [[]|e| |]; try done.
  - destruct (ee_or_ca cert) as [|child]; [done|]. apply IH.
  - intros [= ->]. by destruct Hb.
Qed.

(** *** The search *)
Lemma inner_sound fuel : forall c n s s',
  build_chain_inner fuel opts c time n s = (Ok tt, s') -> linked c ->
  exists top, path_from opts time c n top /\ anchored opts top /\ s' <= 100.
Proof.
  induction fuel as [|fuel IH]; intros c n s s' H Hl; [done|].
  rewrite build_chain_inner_unfold in H.
  destruct (obind _ _) as [[]| | |] eqn:Ec; try done. apply acceptable_iff in Ec.
  destruct (loop_while_non_fatal_error UnknownIssuer _ _ _) as [[[]|e| |] s1] eqn:E; try done.
  - injection H as <-. apply loop_ok in E as (anchor & s2 & Hin & E).
    apply try_trust_anchor_sound in E as [(Hi & Hn & Hs) Hs1]; [|done]. exists c. split_and!.
    + by apply path_here.
    + by exists anchor.
    + done.
  - apply loop_ok in H as (der & s2 & Hin & H). unfold try_intermediate in H.
    destruct (potential_issuer c (contents_of opts c) der) as [issuer| | |] eqn:Ep; try done.
    assert (issued_by opts c issuer) as Hiss by (apply potential_issuer_iff; eauto).
    destruct (IH _ _ _ _ H) as (top & Hp & Ha & Hs); [by apply (issued_by_linked c)|].
    exists top. split_and!; [|done|done]. by apply path_up with issuer.
Qed.

Hypothesis Hrev : lawful_revocation (revocation opts).

Lemma try_trust_anchor_limit c anchor s s' :
  try_trust_anchor opts c (contents_of opts c) anchor s = (Err MaximumSignatureChecksExceeded, s') ->
  100 < s'.
Proof.
  unfold try_trust_anchor. destruct (negb _); [done|].
  pose proof (below_name_constraints (ta_name_constraints anchor) c (contents_of opts c)) as Hb.
  destruct (read_all_optional _ _ _) as [[]|e| |]; try done.
  - by apply check_signatures_limit.
  - intros [= ->]. by destruct Hb.
Qed.

Lemma below_potential_issuer c contents der : below_limit (potential_issuer c contents der).
Proof.
  unfold potential_issuer. apply below_limit_obind; [apply below_Cert_from_der|]. intros pi _.
  destruct (negb _); [done|]. destruct (issuer_in_chain pi c); [done|].
  apply below_limit_obind; [apply below_name_constraints|done].
Qed.

Lemma below_acceptable c n :
  below_limit (let? _ := check_issuer_independent_properties c time (used_as_ca (ee_or_ca c)) n
               (inner (opt_eku opts)) in
   check_sub_ca_count (used_as_ca (ee_or_ca c)) n).
Proof.
  apply below_limit_obind; [apply below_check_issuer_independent_properties|]. intros _ _.
  unfold check_sub_ca_count. destruct (used_as_ca _); by case_match.
Qed.

Lemma try_intermediate_counter fuel c n der s r s' :
  try_intermediate fuel c n der s = (r, s') -> s <= s'.
Proof.
  unfold try_intermediate. destruct (potential_issuer _ _ _); try (intros [= _ <-]; lia).
  apply inner_counter.
Qed.

(** The limit is only reported once the counter has passed it. *)
Lemma inner_limit fuel : forall c n s s',
  build_chain_inner fuel opts c time n s = (Err MaximumSignatureChecksExceeded, s') -> 100 < s'.
Proof.
  induction fuel as [|fuel IH]; intros c n s s'; [done|]. rewrite build_chain_inner_unfold.
  pose proof (below_acceptable c n) as Hb.
  destruct (obind _ _) as [[]|e| |]; try done; [|by intros [= ->]; destruct Hb].
  destruct (loop_while_non_fatal_error UnknownIssuer _ _ _) as [[[]|err| |] s1] eqn:E; try done.
  intros H. apply (loop_limit _ (try_intermediate_counter fuel c n)) in H; [done| |].
  - intros der s2 s3. unfold try_intermediate.
    pose proof (below_potential_issuer c (contents_of opts c) der) as Hp.
    destruct (potential_issuer _ _ _) as [issuer|e| |]; try done; [apply IH|].
    intros [= ->]. by destruct Hp.
  - intros ->. apply (loop_limit _ (try_trust_anchor_counter c _)) in E; [done| |done].
    apply try_trust_anchor_limit.
Qed.

Lemma try_intermediate_limit fuel c n der s s' :
  try_intermediate fuel c n der s = (Err MaximumSignatureChecksExceeded, s') -> 100 < s'.
Proof.
  unfold try_intermediate.
  pose proof (below_potential_issuer c (contents_of opts c) der) as Hp.
  destruct (potential_issuer _ _ _) as [issuer|e| |]; try done; [apply inner_limit|].
  intros [= ->]. by destruct Hp.
Qed.

(** An error within the budget means that there is no path. *)
Lemma inner_complete fuel : forall c n s e s' top,
  build_chain_inner fuel opts c time n s = (Err e, s') -> s' <= 100 -> linked c ->
  path_from opts time c n top -> anchored opts top -> False.
Proof.
  induction fuel as [|fuel IH]; intros c n s e s' top H Hs' Hl Hp Ha; [done|].
  rewrite build_chain_inner_unfold in H.
  assert (acceptable opts time c n) as Hacc by by destruct Hp.
  apply acceptable_iff in Hacc. rewrite Hacc in H.
  destruct (loop_while_non_fatal_error UnknownIssuer _ _ _) as [[[]|err| |] s1] eqn:E; try done.
  pose proof (loop_counter _ (try_intermediate_counter fuel c n) _ _ _ _ _ H) as Hs1.
  destruct Hp as [c n _|c n issuer top _ Hiss Hp].
  - destruct Ha as (anchor & Hin & Hanchor).
    destruct (loop_err _ _ (try_trust_anchor_counter c _) (try_trust_anchor_limit c) _ _ _ _ E
      ltac:(lia) _ Hin) as (s2 & e1 & s3 & Hf & Hs3).
    apply (try_trust_anchor_complete c anchor) in Hf; [done|done|done|lia].
  - pose proof Hiss as (der & Hin & Hder)%potential_issuer_iff.
    destruct (loop_err _ _ (try_intermediate_counter fuel c n) (try_intermediate_limit fuel c n)
      _ _ _ _ H Hs' _ Hin) as (s2 & e1 & s3 & Hf & Hs3).
    unfold try_intermediate in Hf. rewrite Hder in Hf.
    apply (IH _ _ _ _ _ top Hf); [lia| |done|done]. by apply (issued_by_linked c).
Qed.

(** *** Termination *)

(** Enough fuel for a certificate above [n] CA certificates. *)
Definition enough_fuel (fuel : nat) (c : Cert) (n : Z) : Prop :=
  match ee_or_ca c with
  | EndEntity => n = 0 /\ 8 <= Z.of_nat fuel
  | Ca _ => 0 <= n /\ 7 - n <= Z.of_nat fuel /\ (1 <= fuel)%nat
  end.

Lemma ends_check_revocation algs cert spki_value ku r : Forall lawful_crl (crls r) ->
  ends (Exists empty_crl_reasons (crls r) \/ empty_reasons cert \/ empty_key_usage ku)
    (check_revocation algs cert spki_value ku r).
Proof.
  intros Hr. unfold check_revocation.
  destruct (depth r), (ee_or_ca cert); try done;
    (apply ends_obind; [eapply ends_weaken; [|apply ends_find_crl]; tauto|]; intros [crl|] Hfind;
     [|by destruct (status_requirement r)];
     pose proof (lawful_found r cert crl Hr Hfind) as [Hf1 Hf2 Hv1 Hv2];
     apply ends_obind;
     [|intros _ _; apply ends_obind; [eapply ends_weaken; [|apply ends_key_usage_check]; tauto|
       intros _ _; apply ends_obind; [apply ends_mono, Hf1|intros [e|] _; done]]];
     apply ends_map_err, ends_mono, Hv1).
Qed.

(** How the checks on a chain end: a panic is possible only with revocation
    checking, and only with flags without any octet. *)
Definition empty_flags (c : Cert) : Prop := empty_reasons c \/ empty_key_usage (key_usage c).

Definition flags_panic (certs : list Cert) : Prop :=
  exists r, revocation opts = Some r /\
    (Exists empty_crl_reasons (crls r) \/ Exists empty_flags certs).

Lemma ends_checks_of certs spki_value ku cert :
  cert ∈ certs -> (forall v, ku = Some v -> exists c, c ∈ certs /\ key_usage c = Some v) ->
  ends (flags_panic certs) (checks_of opts spki_value (issuer cert) ku cert).
Proof.
  intros Hin Hku. unfold checks_of. apply ends_obind; [apply ends_verify_signed_data|]. intros _ _.
  destruct (revocation opts) as [r|] eqn:Er; [|done]. apply ends_obind; [|done].
  unfold check_crls. rewrite bytes_eqb_refl. cbn [negb].
  eapply ends_weaken; [|apply ends_check_revocation, (Hrev r eq_refl)]. intros H. exists r.
  split; [done|]. destruct H as [H|[H|[rest H]]]; [by left|right..]; apply Exists_exists.
  - exists cert. by split; [|left].
  - destruct (Hku _ H) as (c & Hc & Hk). exists c. split; [done|]. right. by exists rest.
Qed.

Lemma ends_check_signatures certs : forall cert spki_value ku s,
  linked cert -> chain_down cert ⊆ certs ->
  (forall v, ku = Some v -> exists c, c ∈ certs /\ key_usage c = Some v) ->
  ends (flags_panic certs) (fst (check_signatures_loop (supported_sig_algs opts) (revocation opts)
    spki_value (issuer cert) ku cert s)).
Proof.
  induction cert as [cert IH] using chain_ind. intros spki_value ku s Hl Hc Hku.
  assert (cert ∈ certs) as Hin by (apply Hc; destruct cert; apply elem_of_cons; by left).
  rewrite check_signatures_unfold. destruct (100 <? s + 1); [done|].
  pose proof (ends_checks_of certs spki_value ku cert Hin Hku) as H.
  destruct (checks_of opts spki_value _ ku cert) as [[]| | |]; try done.
  destruct (ee_or_ca cert) as [|child] eqn:Ec; [done|].
  destruct cert as [e ? ? ? ? ? ? ? ? ? ? ? ?]. cbn [ee_or_ca] in Ec. subst e.
  destruct Hl as [Hn Hl]. cbn [Cert.subject Cert.key_usage] in *. rewrite <- Hn. apply IH; [done| |].
  - intros x Hx. apply Hc. apply elem_of_cons. by right.
  - intros v Hv. eexists. by split; [exact Hin|].
Qed.

Lemma ends_loop {A} panics (f : A -> Z -> outcome Error unit * Z) values :
  (forall v s, v ∈ values -> ends panics (fst (f v s))) ->
  forall e s, ends panics (fst (loop_while_non_fatal_error e values f s)).
Proof.
  induction values as [|v values IH]; intros Hf e s; [done|]. simpl.
  pose proof (Hf v s ltac:(by apply elem_of_cons; left)) as H.
  assert (forall e s, ends panics (fst (loop_while_non_fatal_error e values f s))) as Hrest.
  { apply IH. intros w s' Hw. apply Hf, elem_of_cons. by right. }
  destruct (f v s) as [[[]|err| |] s1]; try done. destruct err; done || apply Hrest.
Qed.

(** The certificates that the search considers: the end entity and what the
    intermediates parse to. *)
Definition considered (end_entity c : Cert) : Prop :=
  c = end_entity \/
  exists cert_der child, cert_der ∈ intermediate_certs opts /\ Cert_from_der cert_der (Ca child) = Ok c.

Definition may_panic (end_entity : Cert) : Prop :=
  exists certs, Forall (considered end_entity) certs /\ flags_panic certs.

Lemma ends_potential_issuer panics c contents der : ends panics (potential_issuer c contents der).
Proof.
  unfold potential_issuer. apply ends_obind; [apply ends_Cert_from_der|]. intros pi _.
  destruct (negb _); [done|]. destruct (issuer_in_chain pi c); [done|].
  apply ends_obind; [apply ends_name_constraints|done].
Qed.

Lemma ends_try_trust_anchor c contents anchor s : linked c ->
  ends (flags_panic (chain_down c)) (fst (try_trust_anchor opts c contents anchor s)).
Proof.
  intros Hl. unfold try_trust_anchor.
  destruct (bytes_eqb (issuer c) (ta_subject anchor)) eqn:E; [|done]. cbn [negb].
  pose proof (ends_name_constraints False (ta_name_constraints anchor) c contents) as Hnc.
  destruct (read_all_optional _ _ _) as [[]| | |]; try done.
  apply bytes_eqb_eq in E. unfold check_signatures. rewrite <- E. by apply ends_check_signatures.
Qed.

Lemma ends_inner ee fuel : forall c n s, enough_fuel fuel c n -> linked c ->
  Forall (considered ee) (chain_down c) ->
  ends (may_panic ee) (fst (build_chain_inner fuel opts c time n s)).
Proof.
  induction fuel as [|fuel IH]; intros c n s Hfuel Hl Hc.
  { unfold enough_fuel in Hfuel. destruct (ee_or_ca c); lia. }
  rewrite build_chain_inner_unfold.
  pose proof (ends_check_issuer_independent_properties False c time (used_as_ca (ee_or_ca c)) n
    (inner (opt_eku opts))) as Hind.
  destruct (check_issuer_independent_properties _ _ _ _ _) as [[]| | |]; try done. simpl.
  destruct (check_sub_ca_count _ n) as [[]| | |] eqn:Ec; try done.
  2: { unfold check_sub_ca_count in Ec. unfold enough_fuel in Hfuel.
       destruct (ee_or_ca c); cbn [used_as_ca] in Ec; [|by case_match].
       destruct Hfuel as [-> _]. done. }
  2: { unfold check_sub_ca_count in Ec. destruct (used_as_ca _); by case_match. }
  pose proof (ends_loop (may_panic ee) (try_trust_anchor opts c (contents_of opts c))
    (trust_anchors opts)) as Hta.
  specialize (Hta ltac:(intros anchor s0 _; eapply ends_weaken; [|by apply ends_try_trust_anchor];
    intros ?; by exists (chain_down c)) UnknownIssuer s).
  destruct (loop_while_non_fatal_error UnknownIssuer _ _ _) as [[[]|err| |] s1]; try done.
  apply ends_loop. intros der s0 Hin. unfold try_intermediate.
  pose proof (ends_potential_issuer False c (contents_of opts c) der) as Hp.
  destruct (potential_issuer c (contents_of opts c) der) as [issuer| | |] eqn:Ep; try done.
  assert (issued_by opts c issuer) as Hi by (apply potential_issuer_iff; eauto).
  pose proof (issued_by_child _ _ Hi) as Hch.
  apply IH; [|by apply (issued_by_linked c)|].
  - unfold enough_fuel, next_count in *. rewrite Hch.
    unfold check_sub_ca_count, MAX_SUB_CA_COUNT in Ec.
    destruct (ee_or_ca c); cbn [used_as_ca] in Ec; [lia|].
    destruct (Z.leb_spec 6 n); [done|]. lia.
  - assert (chain_down issuer = issuer :: chain_down c) as -> by (destruct issuer; simpl in *; by subst).
    apply Forall_cons. split; [|done]. right. destruct Hi as [(d & Hd & Hd') _ _ _]. eauto.
Qed.
End SearchLemmas.

(** ** Properties *)
Section PathProperties.
Context {U : Untrusted} {L : UntrustedLaws U}.

(** C6: The revocation check of a certificate, for its issuer: it passes
    exactly when the status is not looked at, unknown and unknown is allowed,
    or the first authoritative list is signed by the issuer, which may sign
    lists, and does not list the certificate.  It can end in another way only
    when it is called for another issuer, or when the key usage of the issuer or
    the reasons of a distribution point are flags without any octet. *)
Theorem check_crls_spec opts cert issuer_subject issuer_spki issuer_ku r :
  Forall lawful_crl (crls r) ->
  match check_crls (supported_sig_algs opts) cert issuer_subject issuer_spki issuer_ku r with
  | Ok _ => issuer cert = issuer_subject /\ not_revoked opts cert issuer_spki issuer_ku r
  | Err _ => issuer cert = issuer_subject /\ ~ not_revoked opts cert issuer_spki issuer_ku r
  | Panic => issuer cert = issuer_subject ->
      ~ not_revoked opts cert issuer_spki issuer_ku r /\
      (Exists empty_crl_reasons (crls r) \/ empty_reasons cert \/ empty_key_usage issuer_ku)
  | OutOfFuel => False
  end.
Proof.
  intros Hr. unfold check_crls.
  destruct (bytes_eqb (issuer cert) issuer_subject) eqn:E; cbn [negb];
    [apply bytes_eqb_eq in E|by apply bytes_eqb_neq in E].
  pose proof (check_revocation_iff opts cert issuer_spki issuer_ku r) as Hiff.
  pose proof (ends_check_revocation (supported_sig_algs opts) cert issuer_spki issuer_ku r Hr) as He.
  destruct (check_revocation _ _ _ _ _) as [x|e| |]; try done.
  - split; [done|]. apply Hiff. eauto.
  - split; [done|]. intros H. apply Hiff in H as [x H]. done.
  - intros _. split; [|done]. intros H. by apply Hiff in H as [x H].
Qed.

(** C7: A certificate that is looked at and listed by the first authoritative
    list, signed by the issuer, is reported as revoked, whatever the policy on
    unknown status. *)
Theorem revoked_certificate_rejected opts cert issuer_spki issuer_ku r before crl after entry :
  depth r = DepthChain \/ ee_or_ca cert = EndEntity ->
  crls r = before ++ crl :: after ->
  Forall (fun crl => crl_authoritative crl cert = Ok false) before ->
  covers crl cert ->
  crl_verify_signature (dyn_value crl) (supported_sig_algs opts) issuer_spki = Ok tt ->
  key_usage_allows_crl_sign issuer_ku ->
  find_serial (dyn_value crl) (serial cert) = Ok (Some entry) ->
  check_crls (supported_sig_algs opts) cert (issuer cert) issuer_spki issuer_ku r = Err CertRevoked.
Proof.
  intros Hd Hc Hb Ha Hv Hk%key_usage_check_iff Hs. unfold check_crls. rewrite bytes_eqb_refl.
  cbn [negb]. unfold check_revocation.
  assert (find_crl (crls r) cert = Ok (Some crl)) as -> by (apply find_crl_some; eauto).
  simpl. rewrite Hv. simpl. rewrite Hk. simpl. rewrite Hs. simpl.
  destruct (depth r), (ee_or_ca cert); done || by destruct Hd.
Qed.
End PathProperties.

(** The key and name that a certificate is known by in a chain. *)
Definition identity_of (c : Cert) : Input * Input := (spki c, subject c).

(** A call of [build_chain_inner] inside another: the arguments that change are
    the certificate and the number of CA certificates below it. *)
Inductive search_step {U : Untrusted} (opts : ChainOptions) (time : Time)
    : Cert * Z -> Cert * Z -> Prop :=
  | nested_call c n cert_der issuer :
      (let? _ := check_issuer_independent_properties c time (used_as_ca (ee_or_ca c)) n
                   (inner (opt_eku opts)) in
       check_sub_ca_count (used_as_ca (ee_or_ca c)) n) = Ok tt ->
      cert_der ∈ intermediate_certs opts ->
      potential_issuer c (subject_common_name_contents opts (used_as_ca (ee_or_ca c))) cert_der
        = Ok issuer ->
      search_step opts time (c, n)
        (issuer, match used_as_ca (ee_or_ca c) with UsedAsCaNo => n | UsedAsCaYes => n + 1 end).

(** What holds of every call: [c] is the top of a chain, above [n] CA
    certificates that count. *)
Record chain_invariant (call : Cert * Z) : Prop := {
  inv_linked : linked (fst call);
  inv_distinct : NoDup (identity_of <$> chain_down (fst call));
  inv_length : match ee_or_ca (fst call) with
               | EndEntity => chain_length (fst call) = 1 /\ snd call = 0
               | Ca _ => chain_length (fst call) = snd call + 2 /\ 0 <= snd call <= MAX_SUB_CA_COUNT
               end;
}.

Section PathInvariant.
Context {U : Untrusted} {L : UntrustedLaws U}.

Lemma chain_invariant_step opts time call call' : search_step opts time call call' ->
  chain_invariant call -> chain_invariant call'.
Proof.
  intros [c n der issuer Hacc%acceptable_iff Hin Hpi] [Hl Hd Hn]. cbn [fst snd] in *.
  assert (issued_by opts c issuer) as Hi by (apply potential_issuer_iff; eauto).
  pose proof (issued_by_child opts _ _ Hi) as Hca. pose proof (issued_by_linked opts _ _ Hi Hl) as Hl'.
  destruct Hi as [_ _ Hfresh _]. destruct Hacc as [_ _ _ Hdepth]. unfold MAX_SUB_CA_COUNT in Hdepth.
  destruct issuer as [e ? ? ? ? ? ? ? ? ? ? ? ?]. cbn [ee_or_ca] in Hca. subst e.
  split; cbn [fst snd]; [done| |].
  - cbn [chain_down ee_or_ca]. rewrite fmap_cons. apply NoDup_cons. split; [|done].
    intros (prev & Heq & Hprev)%list_elem_of_fmap. apply (Hfresh prev Hprev).
    unfold identity_of in Heq. cbn [Cert.spki Cert.subject] in *. by simplify_eq.
  - cbn [ee_or_ca chain_length]. unfold used_as_ca, MAX_SUB_CA_COUNT in *. destruct (ee_or_ca c); lia.
Qed.

Lemma chain_invariant_end_entity c : ee_or_ca c = EndEntity -> chain_invariant (c, 0).
Proof.
  destruct c as [e ? ? ? ? ? ? ? ? ? ? ? ?]. cbn [ee_or_ca]. intros ->.
  split; [done|apply NoDup_singleton|done].
Qed.

Lemma chain_invariant_reachable opts time c call : ee_or_ca c = EndEntity ->
  rtc (search_step opts time) (c, 0) call -> chain_invariant call.
Proof.
  intros He H. eapply (rtc_ind_r (fun call => chain_invariant call)); [|clear call H|exact H].
  - by apply chain_invariant_end_entity.
  - intros call call' _ Hstep Hinv. by apply (chain_invariant_step opts time call).
Qed.

(** C4: The calls of the search, from an end entity on, keep an invariant: down
    from the certificate of the call, each certificate names the one above as
    its issuer, no certificate (key and name) occurs twice, there are at most
    eight certificates, and the counter is the number of CA certificates
    strictly below the certificate. *)
Theorem path_invariant opts time end_entity c n : ee_or_ca end_entity = EndEntity ->
  rtc (search_step opts time) (end_entity, 0) (c, n) ->
  linked c /\ NoDup (identity_of <$> chain_down c) /\ 1 <= chain_length c <= 8 /\
  n = Z.max 0 (chain_length c - 2).
Proof.
  intros He [Hl Hd Hn]%chain_invariant_reachable; [|done]. unfold MAX_SUB_CA_COUNT in Hn.
  cbn [fst snd] in *. split_and!; [done|done|..]; destruct (ee_or_ca c); lia.
Qed.
End PathInvariant.

(** ** Sample chain options *)
Definition sample_anchor : TrustAnchor := {|
  ta_subject := root_name;
  ta_subject_public_key_info := sample_spki root_key;
  ta_name_constraints := None;
|}.

Definition sample_options (revocation : option RevocationOptions) : ChainOptions := {|
  opt_eku := server_auth;
  supported_sig_algs := [toy_algorithm];
  trust_anchors := [sample_anchor];
  intermediate_certs := [ca_der];
  revocation := revocation;
|}.

(** Revocation options with one borrowed list, and with the sample list. *)
Definition borrowed_revocation (crl : BorrowedCertRevocationList) (depth : RevocationCheckDepth)
    (policy : UnknownStatusPolicy) : RevocationOptions := {|
  crls := [{| dyn_type := BorrowedCertRevocationList;
              dyn_ops := borrowed_crl (U := slice_reader);
              dyn_value := crl |}];
  depth := depth;
  status_requirement := policy;
|}.

Definition sample_revocation (depth : RevocationCheckDepth) (policy : UnknownStatusPolicy)
    : option RevocationOptions :=
  match BorrowedCertRevocationList_from_der (U := slice_reader) crl_der with
  | Ok crl => Some (borrowed_revocation crl depth policy)
  | _ => None
  end.

Lemma borrowed_revocation_lawful crl depth policy :
  Forall lawful_crl (crls (borrowed_revocation crl depth policy)).
Proof. repeat constructor; apply (borrowed_crl_laws (U := slice_reader)). Qed.

Lemma sample_revocation_lawful depth policy : lawful_revocation (sample_revocation depth policy).
Proof.
  intros r. unfold sample_revocation.
  destruct (BorrowedCertRevocationList_from_der crl_der) as [crl| | |]; try done. intros [= <-].
  apply borrowed_revocation_lawful.
Qed.

(** *** Witnesses *)
Lemma check_crls_spec_witness :
  exists cert crl, Cert_from_der (U := slice_reader) ee_der EndEntity = Ok cert /\
    BorrowedCertRevocationList_from_der (U := slice_reader) crl_der = Ok crl /\
    not_revoked (U := slice_reader) (sample_options None) cert (sample_spki ca_key) None
      (borrowed_revocation crl DepthChain Deny).
Proof.
  assert (exists cert crl, Cert_from_der (U := slice_reader) ee_der EndEntity = Ok cert /\
    BorrowedCertRevocationList_from_der (U := slice_reader) crl_der = Ok crl /\
    check_crls (U := slice_reader) [toy_algorithm] cert (issuer cert) (sample_spki ca_key) None
      (borrowed_revocation crl DepthChain Deny) = Ok (Some CertNotRevoked_assertion))
    as (cert & crl & E & Ecrl & H).
  { do 2 eexists. split; [vm_compute; reflexivity|]. split; [vm_compute; reflexivity|].
    vm_compute. reflexivity. }
  pose proof (check_crls_spec (U := slice_reader) (sample_options None) cert (issuer cert)
    (sample_spki ca_key) None _ (borrowed_revocation_lawful crl DepthChain Deny)) as Hspec.
  cbn [supported_sig_algs sample_options] in Hspec. rewrite H in Hspec.
  exists cert, crl. exact (conj E (conj Ecrl (proj2 Hspec))).
Defined.

Lemma revoked_certificate_rejected_witness :
  exists cert crl, Cert_from_der (U := slice_reader) revoked_ee_der EndEntity = Ok cert /\
    BorrowedCertRevocationList_from_der (U := slice_reader) crl_der = Ok crl /\
    check_crls (U := slice_reader) [toy_algorithm] cert (issuer cert) (sample_spki ca_key)
      (Some [x03; x02; x01; x06]) (borrowed_revocation crl DepthEndEntity Allow) = Err CertRevoked.
Proof.
  do 2 eexists. split; [vm_compute; reflexivity|]. split; [vm_compute; reflexivity|].
  eapply (revoked_certificate_rejected (U := slice_reader) (sample_options None) _ _ _ _ []).
  - right. reflexivity.
  - reflexivity.
  - constructor.
  - apply (crl_authoritative_iff (U := slice_reader)). vm_compute. reflexivity.
  - vm_compute. reflexivity.
  - apply (key_usage_check_iff (U := slice_reader)). vm_compute. reflexivity.
  - vm_compute. reflexivity.
Defined.

Lemma path_invariant_witness :
  exists ee ca, Cert_from_der (U := slice_reader) ee_der EndEntity = Ok ee /\
    Cert_from_der (U := slice_reader) ca_der (Ca ee) = Ok ca /\
    linked ca /\ NoDup (identity_of <$> chain_down ca) /\ 1 <= chain_length ca <= 8 /\
    0 = Z.max 0 (chain_length ca - 2).
Proof.
  assert (exists ee ca, Cert_from_der (U := slice_reader) ee_der EndEntity = Ok ee /\
    Cert_from_der (U := slice_reader) ca_der (Ca ee) = Ok ca /\
    ee_or_ca ee = EndEntity /\
    (let? _ := check_issuer_independent_properties (U := slice_reader) ee sample_time
                 UsedAsCaNo 0 (inner server_auth) in check_sub_ca_count UsedAsCaNo 0) = Ok tt /\
    potential_issuer (U := slice_reader) ee ContentsDnsName ca_der = Ok ca)
    as (ee & ca & Eee & Eca & He & Hc & Hi).
  { do 2 eexists. split; [vm_compute; reflexivity|]. split; [vm_compute; reflexivity|].
    split; [reflexivity|]. split; [vm_compute; reflexivity|vm_compute; reflexivity]. }
  assert (rtc (search_step (U := slice_reader) (sample_options None) sample_time) (ee, 0) (ca, 0))
    as Hp.
  { apply rtc_once. pose proof (nested_call (U := slice_reader) (sample_options None) sample_time
      ee 0 ca_der ca) as Hs. rewrite He in Hs.
    exact (Hs Hc (proj2 (list_elem_of_singleton _ _) eq_refl) Hi). }
  exists ee, ca.
  exact (conj Eee (conj Eca (path_invariant (U := slice_reader) _ _ ee ca 0 He Hp))).
Defined.
