(* ===== verification/EndEntity.v ===== *)
(** * [src/end_entity.rs]: end-entity certificates

    The public type and its operations, and the theorems about path validation
    as a whole. *)
From S2P Require Import Prelude Errors Untrusted Der Samples Time SignedData Cert Crl.
From S2P Require Import TrustAnchor DnsName SubjectName VerifyName VerifyCert SignatureLimit.
From S2P Require Import Path.

Record EndEntityCert : Type := { ee_inner : Cert }.

Section EndEntity.
Context {U : Untrusted}.

(** [TryFrom<&CertificateDer>]. *)
Definition EndEntityCert_try_from (cert : CertificateDer) : outcome Error EndEntityCert :=
  let? inner := Cert_from_der cert EndEntity in Ok {| ee_inner := inner |}.

Definition verify_for_usage (self : EndEntityCert)
    (supported_sig_algs : list SignatureVerificationAlgorithm)
    (trust_anchors : list TrustAnchor) (intermediate_certs : list CertificateDer)
    (time : Time) (usage : KeyUsage) (revocation : option RevocationOptions)
    : outcome Error unit :=
  build_chain
    {| opt_eku := usage;
       supported_sig_algs := supported_sig_algs;
       trust_anchors := trust_anchors;
       intermediate_certs := intermediate_certs;
       revocation := revocation |}
    (ee_inner self) time.

Definition verify_is_valid_for_subject_name (self : EndEntityCert) (subject_name : SubjectNameRef)
    : outcome Error unit :=
  verify_cert_subject_name (ee_inner self) subject_name.

Definition EndEntityCert_verify_signature (self : EndEntityCert)
    (signature_alg : SignatureVerificationAlgorithm) (msg signature : list u8)
    : outcome Error unit :=
  verify_signature signature_alg (spki (ee_inner self)) msg signature.

Definition dns_names (self : EndEntityCert) : outcome Error (list GeneralDnsNameRef) :=
  list_cert_dns_names (ee_inner self).
End EndEntity.

(** ** Lemmas *)
Section EndEntityLemmas.
Context {U : Untrusted} {L : UntrustedLaws U}.

Lemma end_entity_linked c : ee_or_ca c = EndEntity -> linked c.
Proof. destruct c; simpl; by intros ->. Qed.

Lemma try_from_end_entity cert_der ee :
  EndEntityCert_try_from cert_der = Ok ee -> ee_or_ca (ee_inner ee) = EndEntity.
Proof.
  unfold EndEntityCert_try_from. intros (c & H & [= <-])%obind_ok. by apply Cert_from_der_child in H.
Qed.

(** The number of signature checks of the search. *)
Definition signatures_counted (opts : ChainOptions) (cert : Cert) (time : Time) : Z :=
  snd (build_chain_inner MAX_PATH opts cert time 0 0).

Lemma build_chain_ends opts cert time : lawful_revocation (revocation opts) ->
  ee_or_ca cert = EndEntity -> ends (may_panic opts cert) (build_chain opts cert time).
Proof.
  intros Hrev He. apply ends_inner; [done| |by apply end_entity_linked|].
  - unfold enough_fuel. by rewrite He.
  - destruct cert. simpl in He. subst. constructor; [by left|constructor].
Qed.

Lemma verify_for_usage_eq ee opts time :
  verify_for_usage ee (supported_sig_algs opts) (trust_anchors opts) (intermediate_certs opts) time
    (opt_eku opts) (revocation opts) = build_chain opts (ee_inner ee) time.
Proof. by destruct opts. Qed.

Lemma build_chain_valid_path opts cert time : ee_or_ca cert = EndEntity ->
  build_chain opts cert time = Ok tt -> valid_path opts time cert.
Proof.
  unfold build_chain. intros He.
  destruct (build_chain_inner MAX_PATH _ _ _ 0 0) as [r s] eqn:E. cbn [fst]. intros ->.
  apply inner_sound in E as (top & Hp & Ha & _); [by exists top|by apply end_entity_linked].
Qed.
End EndEntityLemmas.

(** *** The sample path *)
Lemma sample_path_exists revocation :
  revocation = None \/ revocation = sample_revocation DepthEndEntity Deny ->
  exists ee, EndEntityCert_try_from (U := slice_reader) ee_der = Ok ee /\
    valid_path (U := slice_reader) (sample_options revocation) sample_time (ee_inner ee).
Proof.
  intros Hrev. eexists. split; [vm_compute; reflexivity|].
  destruct Hrev as [-> | ->]; apply (build_chain_valid_path (U := slice_reader)); vm_compute; reflexivity.
Qed.

(** The limit ends the loop over the candidates that reports it, but the error
    of the loop over the anchors is only the default of the loop over the
    intermediates, and of the lowest rank: with 101 anchors of the issuer's name
    that did not sign, and one malformed intermediate, the limit is exceeded and
    the error is the one of the intermediate. *)
Definition exhausting_options : ChainOptions := {|
  opt_eku := server_auth;
  supported_sig_algs := [toy_algorithm];
  trust_anchors :=
    repeat {| ta_subject := sample_name_ca; ta_subject_public_key_info := sample_spki root_key;
              ta_name_constraints := None |} 101;
  intermediate_certs := [[x00]];
  revocation := None;
|}.

Lemma exhausted_budget_replaced :
  exists ee, EndEntityCert_try_from (U := slice_reader) ee_der = Ok ee /\
    signatures_counted (U := slice_reader) exhausting_options (ee_inner ee) sample_time = 101 /\
    build_chain (U := slice_reader) exhausting_options (ee_inner ee) sample_time
    = Err (TrailingData SignedDataId).
Proof.
  eexists.
  split; [vm_compute; reflexivity|]. split; [vm_compute; reflexivity|vm_compute; reflexivity].
Qed.

(** ** Properties *)
Section Properties.
Context {U : Untrusted} {L : UntrustedLaws U}.

(** C1: Path validation is sound: an end-entity certificate that
    [verify_for_usage] accepts has a certification path to a trust anchor.
    Every certificate of it is within its validity period, has the basic
    constraints, depth and extended key usage of its place, satisfies the name
    constraints above it, is issued and signed by the next one up to the
    anchor, and is not revoked by the lists that are consulted. *)
Theorem verify_for_usage_sound cert_der ee algs anchors intermediates time usage revocation :
  EndEntityCert_try_from cert_der = Ok ee ->
  verify_for_usage ee algs anchors intermediates time usage revocation = Ok tt ->
  valid_path {| opt_eku := usage; supported_sig_algs := algs; trust_anchors := anchors;
                intermediate_certs := intermediates; revocation := revocation |}
    time (ee_inner ee).
Proof. intros Hee%try_from_end_entity. by apply build_chain_valid_path. Qed.

(** C2: Path validation is complete within its budget: when an end-entity
    certificate has a certification path, an error is returned only if more
    than 100 signature checks were counted, and a panic is possible only with
    revocation checking and flags without any octet.  It relies on the contract
    of the revocation lists. *)
Theorem verify_for_usage_complete cert_der ee opts time :
  lawful_revocation (revocation opts) ->
  EndEntityCert_try_from cert_der = Ok ee -> valid_path opts time (ee_inner ee) ->
  match verify_for_usage ee (supported_sig_algs opts) (trust_anchors opts)
          (intermediate_certs opts) time (opt_eku opts) (revocation opts) with
  | Ok _ => True
  | Err _ => 100 < signatures_counted opts (ee_inner ee) time
  | Panic => may_panic opts (ee_inner ee)
  | OutOfFuel => False
  end.
Proof.
  intros Hrev Hee%try_from_end_entity (top & Hp & Ha).
  pose proof (build_chain_ends opts _ time Hrev Hee) as Hends.
  rewrite verify_for_usage_eq. unfold signatures_counted, build_chain in *.
  destruct (build_chain_inner MAX_PATH opts _ time 0 0) as [r s] eqn:E. cbn [fst snd] in *.
  destruct r as [|e| |]; try done.
  - apply Z.nle_gt. intros Hs.
    apply (inner_complete _ _ Hrev _ _ _ _ _ _ top E); [done| |done|done]. by apply end_entity_linked.
Qed.

(** C3: Path validation returns: the recursion over the intermediates is at
    most eight deep and no assertion of the search fails.  The one possible
    panic is in the revocation checks, when a list restricts its reasons, or a
    certificate that is considered has the reasons of a distribution point or a
    key usage, with a BIT STRING without any octet. *)
Theorem verify_for_usage_returns cert_der ee opts time :
  lawful_revocation (revocation opts) -> EndEntityCert_try_from cert_der = Ok ee ->
  match verify_for_usage ee (supported_sig_algs opts) (trust_anchors opts)
          (intermediate_certs opts) time (opt_eku opts) (revocation opts) with
  | Ok _ | Err _ => True
  | Panic => exists r, revocation opts = Some r /\
      (Exists empty_crl_reasons (crls r) \/
       exists c, considered opts (ee_inner ee) c /\
         (empty_reasons c \/ empty_key_usage (key_usage c)))
  | OutOfFuel => False
  end.
Proof.
  intros Hrev Hee%try_from_end_entity. rewrite verify_for_usage_eq.
  pose proof (build_chain_ends opts _ time Hrev Hee) as H.
  destruct (build_chain _ _ _) as [| | |]; try done.
  destruct H as (certs & Hcerts & r & Hr & [H|(c & Hc & H)%Exists_exists]); exists r; [by auto|].
  split; [done|]. right. exists c. split; [|done].
  rewrite Forall_forall in Hcerts. by apply Hcerts.
Qed.

End Properties.

(** Witnesses: the sample path, without and with revocation checking. *)
Lemma verify_for_usage_sound_witness :
  exists ee, EndEntityCert_try_from (U := slice_reader) ee_der = Ok ee /\
    valid_path (U := slice_reader) (sample_options (sample_revocation DepthEndEntity Deny))
      sample_time (ee_inner ee).
Proof.
  eexists. split; [vm_compute; reflexivity|].
  eapply (verify_for_usage_sound (U := slice_reader) ee_der); vm_compute; reflexivity.
Defined.

Lemma verify_for_usage_complete_witness :
  let opts := sample_options (sample_revocation DepthEndEntity Deny) in
  exists ee, match verify_for_usage (U := slice_reader) ee [toy_algorithm] [sample_anchor] [ca_der]
                     sample_time server_auth (sample_revocation DepthEndEntity Deny) with
             | Ok _ => True
             | Err _ => 100 < signatures_counted (U := slice_reader) opts (ee_inner ee) sample_time
             | Panic => may_panic (U := slice_reader) opts (ee_inner ee)
             | OutOfFuel => False
             end.
Proof.
  intros opts.
  destruct (sample_path_exists (sample_revocation DepthEndEntity Deny)) as (ee & Hee & Hp);
    [by right|].
  exists ee.
  exact (verify_for_usage_complete (U := slice_reader) ee_der ee opts sample_time
    (sample_revocation_lawful _ _) Hee Hp).
Defined.

Lemma verify_for_usage_returns_witness :
  exists ee, EndEntityCert_try_from (U := slice_reader) ee_der = Ok ee /\
    match verify_for_usage (U := slice_reader) ee [toy_algorithm] [sample_anchor] [ca_der]
            sample_time server_auth None with
    | Ok _ | Err _ => True
    | Panic => exists r, @None RevocationOptions = Some r /\
        (Exists empty_crl_reasons (crls r) \/
         exists c, considered (U := slice_reader) (sample_options None) (ee_inner ee) c /\
           (empty_reasons c \/ empty_key_usage (key_usage c)))
    | OutOfFuel => False
    end.
Proof.
  destruct (sample_path_exists None) as (ee & Hee & _); [by left|]. exists ee.
  exact (conj Hee (verify_for_usage_returns (U := slice_reader) ee_der ee (sample_options None)
    sample_time (fun r H => ltac:(discriminate H)) Hee)).
Defined.

