(* ===== verification/Revocation.v ===== *)
(** * Revocation lists and signature algorithms behind their interfaces

    Path validation sees a revocation list and a signature algorithm only through
    the operations of their traits, and of what a list finds only whether it is
    there.  An owned list can therefore stand for the borrowed one it was made
    from, although the two find different entries when a serial number is
    listed twice. *)
From S2P Require Import Prelude Errors Untrusted Der Samples SignedData Cert Crl TrustAnchor.
From S2P Require Import VerifyName VerifyCert Path EndEntity.

(** [&crl as &dyn CertRevocationList]. *)
Definition borrowed_dyn {U : Untrusted} (crl : BorrowedCertRevocationList) : dyn_crl :=
  Build_dyn_crl _ borrowed_crl crl.
Definition owned_dyn {U : Untrusted} (crl : OwnedCertRevocationList) : dyn_crl :=
  Build_dyn_crl _ owned_crl crl.

(** Whether a lookup finds an entry. *)
Definition listed (found : outcome Error (option BorrowedRevokedCert)) : outcome Error bool :=
  let? entry := found in Ok (match entry with Some _ => true | None => false end).

(** Two lists that answer alike, each given its own algorithms. *)
Record answers_alike (algs algs' : list SignatureVerificationAlgorithm) (a b : dyn_crl) : Prop := {
  alike_issuer : crl_issuer_name (dyn_value a) = crl_issuer_name (dyn_value b);
  alike_idp : issuing_distribution_point (dyn_value a) = issuing_distribution_point (dyn_value b);
  alike_verify spki :
    crl_verify_signature (dyn_value a) algs spki = crl_verify_signature (dyn_value b) algs' spki;
  alike_find serial :
    listed (find_serial (dyn_value a) serial) = listed (find_serial (dyn_value b) serial);
}.

(** Options with equivalent algorithms and lists. *)
Definition same_revocation (algs algs' : list SignatureVerificationAlgorithm)
    (r r' : RevocationOptions) : Prop :=
  depth r = depth r' /\ status_requirement r = status_requirement r' /\
  Forall2 (answers_alike algs algs') (crls r) (crls r').

Record same_options (opts opts' : ChainOptions) : Prop := {
  same_usage : opt_eku opts = opt_eku opts';
  same_anchors : trust_anchors opts = trust_anchors opts';
  same_intermediates : intermediate_certs opts = intermediate_certs opts';
  same_algorithms :
    Forall2 same_algorithm (supported_sig_algs opts) (supported_sig_algs opts');
  same_lists :
    option_Forall2 (same_revocation (supported_sig_algs opts) (supported_sig_algs opts'))
      (revocation opts) (revocation opts');
}.

(** A list or the owned list made from it. *)
Inductive owned_form {U : Untrusted} : dyn_crl -> dyn_crl -> Prop :=
  | as_it_is crl : owned_form crl crl
  | made_owned crl owned : BorrowedCertRevocationList_to_owned crl = Ok owned ->
      owned_form (borrowed_dyn crl) (owned_dyn owned).

(** Loops over closures with the same results. *)
Lemma loop_ext {A S} (f g : A -> S -> outcome Error unit * S) values :
  (forall v s, f v s = g v s) -> forall e s,
  loop_while_non_fatal_error e values f s = loop_while_non_fatal_error e values g s.
Proof.
  intros Hfg. induction values as [|v values IH]; intros e s; simpl; [done|]. rewrite Hfg.
  destruct (g v s) as [[[]|err| |] s']; try done. destruct err; done || apply IH.
Qed.

Section Interchange.
Context {U : Untrusted} {L : UntrustedLaws U}.

Section Related.
Context (algs algs' : list SignatureVerificationAlgorithm).
Context (Halgs : Forall2 same_algorithm algs algs').

Lemma crl_authoritative_same a b cert : answers_alike algs algs' a b ->
  crl_authoritative a cert = crl_authoritative b cert.
Proof. intros [Hi Hd _ _]. unfold crl_authoritative. by rewrite Hi, Hd. Qed.

Lemma find_crl_same lists lists' cert : Forall2 (answers_alike algs algs') lists lists' ->
  match find_crl lists cert, find_crl lists' cert with
  | Ok (Some a), Ok (Some b) => answers_alike algs algs' a b
  | Ok None, Ok None => True
  | Err e, Err e' => e = e'
  | Panic, Panic | OutOfFuel, OutOfFuel => True
  | _, _ => False
  end.
Proof.
  induction 1 as [|a b lists lists' Hab _ IH]; [done|]. simpl.
  rewrite (crl_authoritative_same a b cert Hab).
  destruct (crl_authoritative b cert) as [[]| | |]; simpl; done.
Qed.

Lemma check_revocation_same cert spki_value ku r r' : same_revocation algs algs' r r' ->
  check_revocation algs cert spki_value ku r = check_revocation algs' cert spki_value ku r'.
Proof.
  intros (Hd & Hs & Hall). pose proof (find_crl_same _ _ cert Hall) as H. unfold check_revocation.
  rewrite Hd, Hs.
  destruct (find_crl (crls r) cert) as [[a|]|e| |], (find_crl (crls r') cert) as [[b|]|e'| |];
    try done; simpl; [|by subst].
  destruct H as [_ _ Hv Hf]. rewrite Hv.
  destruct (map_err _ _); [|done..]. simpl. destruct (key_usage_check _ _); [|done..]. simpl.
  specialize (Hf (serial cert)). unfold listed in Hf.
  destruct (find_serial (dyn_value a) _) as [[]|e| |], (find_serial (dyn_value b) _) as [[]|e'| |];
    by simplify_eq/=.
Qed.

Lemma check_signatures_same o o' : option_Forall2 (same_revocation algs algs') o o' ->
  forall cert spki_value subject ku s,
  check_signatures_loop algs o spki_value subject ku cert s
  = check_signatures_loop algs' o' spki_value subject ku cert s.
Proof.
  intros Ho. induction cert as [cert IH] using chain_ind. intros spki_value subject ku s.
  assert ((let? _ := verify_signed_data algs spki_value (signed_data cert) in
           match o with
           | Some r => let? _ := check_crls algs cert subject spki_value ku r in Ok tt
           | None => Ok tt
           end)
        = (let? _ := verify_signed_data algs' spki_value (signed_data cert) in
           match o' with
           | Some r => let? _ := check_crls algs' cert subject spki_value ku r in Ok tt
           | None => Ok tt
           end)) as Hchecks.
  { rewrite (verify_signed_data_proper algs algs' Halgs spki_value _ eq_refl _ _ eq_refl).
    destruct Ho as [r r' Hr|]; [|done]. unfold check_crls.
    by rewrite (check_revocation_same cert spki_value ku r r' Hr). }
  destruct cert as [[|child] ? ? ? ? ? ? ? ? ? ? ? ?]; cbn [check_signatures_loop ee_or_ca] in *;
    (destruct (100 <? s + 1); [done|]);
    match goal with
    | |- match ?checks with _ => _ end = match ?checks' with _ => _ end =>
      replace checks with checks' by (symmetry; exact Hchecks); by destruct checks'
    end.
Qed.
End Related.

Lemma inner_same opts opts' time : same_options opts opts' ->
  forall fuel cert n s,
  build_chain_inner fuel opts cert time n s = build_chain_inner fuel opts' cert time n s.
Proof.
  intros [He Ha Hi Halgs Hr]. induction fuel as [|fuel IH]; intros cert n s; [done|]. simpl.
  rewrite He. destruct (obind _ _); try done.
  assert (forall e s, loop_while_non_fatal_error e (trust_anchors opts)
      (try_trust_anchor opts cert (subject_common_name_contents opts (used_as_ca (ee_or_ca cert)))) s
    = loop_while_non_fatal_error e (trust_anchors opts')
      (try_trust_anchor opts' cert (subject_common_name_contents opts' (used_as_ca (ee_or_ca cert)))) s)
    as Hanchors.
  { unfold subject_common_name_contents. rewrite He, Ha. apply loop_ext. intros anchor s0.
    unfold try_trust_anchor, check_signatures. destruct (negb _); [done|].
    destruct (read_all_optional _ _ _); [by apply check_signatures_same|done..]. }
  rewrite Hanchors, Hi. unfold subject_common_name_contents. rewrite He.
  destruct (loop_while_non_fatal_error _ _ _ _) as [[|e| |] s1]; try done.
  apply loop_ext. intros der s0. destruct (potential_issuer _ _ _); [apply IH|done..].
Qed.

Lemma build_chain_same opts opts' cert time : same_options opts opts' ->
  build_chain opts cert time = build_chain opts' cert time.
Proof. intros H. unfold build_chain. by rewrite (inner_same opts opts' time H). Qed.

(** Each list of the crate answers alike under equivalent algorithms. *)
Lemma borrowed_alike algs algs' crl : Forall2 same_algorithm algs algs' ->
  answers_alike algs algs' (borrowed_dyn crl) (borrowed_dyn crl).
Proof. intros H. split; try done. intros spki_value. by apply verify_signed_data_proper. Qed.

Lemma owned_alike algs algs' crl : Forall2 same_algorithm algs algs' ->
  answers_alike algs algs' (owned_dyn crl) (owned_dyn crl).
Proof. intros H. split; try done. intros spki_value. by apply verify_signed_data_proper. Qed.

(** An owned list answers like the borrowed list it was made from: the first
    and the last of the entries with a serial number exist together. *)
Lemma owned_form_alike algs a b : owned_form a b -> answers_alike algs algs a b.
Proof.
  intros [crl|crl owned Howned]; [by split|].
  unfold BorrowedCertRevocationList_to_owned in Howned. rewrite collect_revoked_certs_eq in Howned.
  apply obind_ok in Howned as (entries & He%all_entries_ok & [= <-]).
  split; [done|done|by intros; destruct crl as [[] ? ? ?]|]. intros serial.
  change (listed (borrowed_find_serial crl serial)
    = listed (Ok (OwnedRevokedCert_borrow <$> collect_map entries !! serial))).
  rewrite borrowed_find_serial_eq, He, first_decisive_ok, collect_map_lookup. unfold last_entry.
  destruct (List.filter _ entries) as [|rc l]; [done|]. simpl.
  by destruct (last_is_Some (rc :: l)) as [_ [rc' ->]].
Qed.

(** C19: An owned revocation list can stand for the borrowed one it was made
    from: with some of the lists exchanged in this way, path validation has the
    same result, error and panic included, also when a list has several entries
    for a serial number, of which the two find different ones. *)
Theorem owned_lists_validate_alike ee algs anchors intermediates time usage r r' :
  depth r = depth r' -> status_requirement r = status_requirement r' ->
  Forall2 owned_form (crls r) (crls r') ->
  verify_for_usage ee algs anchors intermediates time usage (Some r)
  = verify_for_usage ee algs anchors intermediates time usage (Some r').
Proof.
  intros Hd Hs Hall. unfold verify_for_usage. apply build_chain_same. split; try done; cbn.
  constructor. split_and!; [done|done|]. eapply Forall2_impl; [exact Hall|].
  intros a b. apply owned_form_alike.
Qed.
End Interchange.

(** *** Witness: a list with two entries for the serial number of a certificate *)
Definition doubled_crl_der : Input :=
  sample_crl (sample_revoked ++ der_sequence (tlv (tag_u8 Integer) [x07] ++ sample_date)).

Definition without_reason (entry : BorrowedRevokedCert) : BorrowedRevokedCert :=
  {| serial_number := serial_number entry; revocation_date := revocation_date entry;
     reason_code := None; invalidity_date := invalidity_date entry |}.

Definition options_with (crl : dyn_crl) : RevocationOptions :=
  {| crls := [crl]; depth := DepthEndEntity; status_requirement := Deny |}.

Lemma owned_lists_validate_alike_witness :
  let validate ee crl :=
    verify_for_usage (U := slice_reader) ee [toy_algorithm] [sample_anchor] [ca_der] sample_time
      server_auth (Some (options_with crl)) in
  exists ee crl owned, EndEntityCert_try_from (U := slice_reader) revoked_ee_der = Ok ee /\
    BorrowedCertRevocationList_from_der (U := slice_reader) doubled_crl_der = Ok crl /\
    find_serial (CertRevocationList := borrowed_crl (U := slice_reader)) crl [x07]
      <> find_serial (CertRevocationList := owned_crl (U := slice_reader)) owned [x07] /\
    validate ee (borrowed_dyn (U := slice_reader) crl) = Err CertRevoked /\
    validate ee (borrowed_dyn (U := slice_reader) crl)
    = validate ee (owned_dyn (U := slice_reader) owned).
Proof.
  assert (exists ee crl owned, EndEntityCert_try_from (U := slice_reader) revoked_ee_der = Ok ee /\
    BorrowedCertRevocationList_from_der (U := slice_reader) doubled_crl_der = Ok crl /\
    BorrowedCertRevocationList_to_owned (U := slice_reader) crl = Ok owned /\
    find_serial (CertRevocationList := borrowed_crl (U := slice_reader)) crl [x07]
    = Ok (Some sample_entry) /\
    find_serial (CertRevocationList := owned_crl (U := slice_reader)) owned [x07]
    = Ok (Some (without_reason sample_entry)) /\
    verify_for_usage (U := slice_reader) ee [toy_algorithm] [sample_anchor] [ca_der] sample_time
      server_auth (Some (options_with (borrowed_dyn (U := slice_reader) crl))) = Err CertRevoked)
    as (ee & crl & owned & Hee & Hcrl & Howned & Hb & Ho & Hrevoked)
    by (do 3 eexists; do 5 (split; [vm_compute; reflexivity|]); vm_compute; reflexivity).
  exists ee, crl, owned. split; [exact Hee|]. split; [exact Hcrl|].
  split; [rewrite Hb, Ho; discriminate|]. split; [exact Hrevoked|].
  apply (owned_lists_validate_alike (U := slice_reader)); [reflexivity|reflexivity|].
  apply Forall2_cons_2; [|apply Forall2_nil_2]. exact (made_owned crl owned Howned).
Defined.
