(* ===== verification/Formatting.v ===== *)
(** * [Display] and [Debug] implementations

    The texts of the errors, which their derived [Debug] writes, and of the
    references to DNS names.  A text is the list of the bytes of its UTF-8. *)
From Stdlib Require Import Strings.String.
From S2P Require Import Prelude Errors Untrusted Samples DnsName IpAddress.

(** ** Errors *)

(** The derived [Debug]: the name of the variant. *)
Definition DerTypeId_debug (t : DerTypeId) : Input :=
  match t with
  | BitStringId => ascii_bytes "BitString"
  | BoolId => ascii_bytes "Bool"
  | CertificateId => ascii_bytes "Certificate"
  | CertificateExtensionsId => ascii_bytes "CertificateExtensions"
  | CertificateTbsCertificateId => ascii_bytes "CertificateTbsCertificate"
  | CertRevocationListId => ascii_bytes "CertRevocationList"
  | CertRevocationListExtensionId => ascii_bytes "CertRevocationListExtension"
  | CrlDistributionPointId => ascii_bytes "CrlDistributionPoint"
  | CommonNameInnerId => ascii_bytes "CommonNameInner"
  | CommonNameOuterId => ascii_bytes "CommonNameOuter"
  | DistributionPointNameId => ascii_bytes "DistributionPointName"
  | ExtensionId => ascii_bytes "Extension"
  | GeneralNameId => ascii_bytes "GeneralName"
  | RevocationReasonId => ascii_bytes "RevocationReason"
  | SignatureId => ascii_bytes "Signature"
  | SignatureAlgorithmId => ascii_bytes "SignatureAlgorithm"
  | SignedDataId => ascii_bytes "SignedData"
  | SubjectPublicKeyInfoId => ascii_bytes "SubjectPublicKeyInfo"
  | TimeId => ascii_bytes "Time"
  | TrustAnchorV1Id => ascii_bytes "TrustAnchorV1"
  | TrustAnchorV1TbsCertificateId => ascii_bytes "TrustAnchorV1TbsCertificate"
  | U8Id => ascii_bytes "U8"
  | RevokedCertificateId => ascii_bytes "RevokedCertificate"
  | RevokedCertificateExtensionId => ascii_bytes "RevokedCertificateExtension"
  | RevokedCertEntryId => ascii_bytes "RevokedCertEntry"
  | IssuingDistributionPointId => ascii_bytes "IssuingDistributionPoint"
  end.

Definition Error_debug (e : Error) : Input :=
  match e with
  | BadDer => ascii_bytes "BadDer"
  | BadDerTime => ascii_bytes "BadDerTime"
  | CaUsedAsEndEntity => ascii_bytes "CaUsedAsEndEntity"
  | CertExpired => ascii_bytes "CertExpired"
  | CertNotValidForName => ascii_bytes "CertNotValidForName"
  | CertNotValidYet => ascii_bytes "CertNotValidYet"
  | CertRevoked => ascii_bytes "CertRevoked"
  | EndEntityUsedAsCa => ascii_bytes "EndEntityUsedAsCa"
  | ExtensionValueInvalid => ascii_bytes "ExtensionValueInvalid"
  | InvalidCertValidity => ascii_bytes "InvalidCertValidity"
  | InvalidCrlNumber => ascii_bytes "InvalidCrlNumber"
  | InvalidNetworkMaskConstraint => ascii_bytes "InvalidNetworkMaskConstraint"
  | InvalidSerialNumber => ascii_bytes "InvalidSerialNumber"
  | InvalidCrlSignatureForPublicKey => ascii_bytes "InvalidCrlSignatureForPublicKey"
  | InvalidSignatureForPublicKey => ascii_bytes "InvalidSignatureForPublicKey"
  | IssuerNotCrlSigner => ascii_bytes "IssuerNotCrlSigner"
  | MalformedDnsIdentifier => ascii_bytes "MalformedDnsIdentifier"
  | MalformedExtensions => ascii_bytes "MalformedExtensions"
  | MalformedNameConstraint => ascii_bytes "MalformedNameConstraint"
  | MaximumSignatureChecksExceeded => ascii_bytes "MaximumSignatureChecksExceeded"
  | NameConstraintViolation => ascii_bytes "NameConstraintViolation"
  | PathLenConstraintViolated => ascii_bytes "PathLenConstraintViolated"
  | RequiredEkuNotFound => ascii_bytes "RequiredEkuNotFound"
  | SignatureAlgorithmMismatch => ascii_bytes "SignatureAlgorithmMismatch"
  | TrailingData t => ascii_bytes "TrailingData(" ++ DerTypeId_debug t ++ ascii_bytes ")"
  | UnknownIssuer => ascii_bytes "UnknownIssuer"
  | UnknownRevocationStatus => ascii_bytes "UnknownRevocationStatus"
  | UnsupportedCertVersion => ascii_bytes "UnsupportedCertVersion"
  | UnsupportedCriticalExtension => ascii_bytes "UnsupportedCriticalExtension"
  | UnsupportedCrlIssuingDistributionPoint => ascii_bytes "UnsupportedCrlIssuingDistributionPoint"
  | UnsupportedCrlVersion => ascii_bytes "UnsupportedCrlVersion"
  | UnsupportedDeltaCrl => ascii_bytes "UnsupportedDeltaCrl"
  | UnsupportedIndirectCrl => ascii_bytes "UnsupportedIndirectCrl"
  | UnsupportedRevocationReason => ascii_bytes "UnsupportedRevocationReason"
  | UnsupportedRevocationReasonsPartitioning => ascii_bytes "UnsupportedRevocationReasonsPartitioning"
  | UnsupportedCrlSignatureAlgorithm => ascii_bytes "UnsupportedCrlSignatureAlgorithm"
  | UnsupportedSignatureAlgorithm => ascii_bytes "UnsupportedSignatureAlgorithm"
  | UnsupportedCrlSignatureAlgorithmForPublicKey => ascii_bytes "UnsupportedCrlSignatureAlgorithmForPublicKey"
  | UnsupportedSignatureAlgorithmForPublicKey => ascii_bytes "UnsupportedSignatureAlgorithmForPublicKey"
  end.

(** [write!(f, "{:?}", self)]. *)
Definition Error_display (self : Error) : Input := Error_debug self.

Definition InvalidDnsNameError_debug (self : InvalidDnsNameError) : Input :=
  match self with InvalidDnsName => ascii_bytes "InvalidDnsNameError" end.
Definition InvalidDnsNameError_display (self : InvalidDnsNameError) : Input :=
  InvalidDnsNameError_debug self.

Definition AddrParseError_debug (self : AddrParseError) : Input :=
  match self with AddrParse => ascii_bytes "AddrParseError" end.
Definition AddrParseError_display (self : AddrParseError) : Input := AddrParseError_debug self.

(** ** References to names *)

(** [write_char(char::from(ch))]: the UTF-8 of a character below 256. *)
Definition write_char (ch : u8) : Input :=
  let c := u8_to_Z ch in
  if c <? 128 then [ch] else [u8_of_Z (192 + c / 64); u8_of_Z (128 + c mod 64)].

(** The loop of both implementations. *)
Fixpoint write_lower (bytes : list u8) : Input :=
  match bytes with
  | [] => []
  | ch :: bytes => write_char (ascii_lower ch) ++ write_lower bytes
  end.

Definition quote : u8 := x22.

Definition DnsNameRef_debug (self : DnsNameRef) : Input :=
  ascii_bytes "DnsNameRef(" ++ [quote] ++ write_lower (dns_name_bytes self)
  ++ [quote] ++ ascii_bytes ")".

Definition WildcardDnsNameRef_debug (self : WildcardDnsNameRef) : Input :=
  ascii_bytes "WildcardDnsNameRef(" ++ [quote] ++ write_lower (wildcard_bytes self)
  ++ [quote] ++ ascii_bytes ")".

(** ** Lemmas: the texts of errors are distinct *)
Definition all_types : list DerTypeId :=
  [ BitStringId; BoolId; CertificateId; CertificateExtensionsId; CertificateTbsCertificateId;
    CertRevocationListId; CertRevocationListExtensionId; CrlDistributionPointId;
    CommonNameInnerId; CommonNameOuterId; DistributionPointNameId; ExtensionId; GeneralNameId;
    RevocationReasonId; SignatureId; SignatureAlgorithmId; SignedDataId; SubjectPublicKeyInfoId;
    TimeId; TrustAnchorV1Id; TrustAnchorV1TbsCertificateId; U8Id; RevokedCertificateId;
    RevokedCertificateExtensionId; RevokedCertEntryId; IssuingDistributionPointId ].
Definition all_errors : list Error :=
  [ BadDer; BadDerTime; CaUsedAsEndEntity; CertExpired; CertNotValidForName; CertNotValidYet;
    CertRevoked; EndEntityUsedAsCa; ExtensionValueInvalid; InvalidCertValidity;
    InvalidCrlNumber; InvalidNetworkMaskConstraint; InvalidSerialNumber;
    InvalidCrlSignatureForPublicKey; InvalidSignatureForPublicKey; IssuerNotCrlSigner;
    MalformedDnsIdentifier; MalformedExtensions; MalformedNameConstraint;
    MaximumSignatureChecksExceeded; NameConstraintViolation; PathLenConstraintViolated;
    RequiredEkuNotFound; SignatureAlgorithmMismatch; UnknownIssuer; UnknownRevocationStatus;
    UnsupportedCertVersion; UnsupportedCriticalExtension;
    UnsupportedCrlIssuingDistributionPoint; UnsupportedCrlVersion; UnsupportedDeltaCrl;
    UnsupportedIndirectCrl; UnsupportedRevocationReason;
    UnsupportedRevocationReasonsPartitioning; UnsupportedCrlSignatureAlgorithm;
    UnsupportedSignatureAlgorithm; UnsupportedCrlSignatureAlgorithmForPublicKey;
    UnsupportedSignatureAlgorithmForPublicKey ]
  ++ map TrailingData all_types.

(** The error with a given text. *)
Definition error_of (text : Input) : option Error :=
  List.find (fun e => bool_decide (Error_display e = text)) all_errors.

(** The search, over the texts computed once. *)
Definition error_table : list (Input * Error) := map (fun e => (Error_display e, e)) all_errors.
Definition find_text (table : list (Input * Error)) (text : Input) : option Error :=
  snd <$> List.find (fun p => bool_decide (fst p = text)) table.

Lemma error_of_table text : error_of text = find_text error_table text.
Proof.
  unfold error_of, find_text, error_table. induction all_errors as [|e l IH]; simpl; [done|].
  by case_bool_decide.
Qed.

Lemma error_table_found :
  (fun table => forallb (fun p => bool_decide (find_text table (fst p) = Some (snd p))) table)
    error_table = true.
Proof. vm_compute. reflexivity. Qed.

Lemma all_errors_complete e : In e all_errors.
Proof. apply list_elem_of_In, (bool_decide_unpack _). destruct e; try exact I. by destruct t. Qed.

Lemma error_of_display e : error_of (Error_display e) = Some e.
Proof.
  pose proof (proj1 (forallb_forall _ _) error_table_found) as H.
  rewrite error_of_table. apply (fun Hin => proj1 (bool_decide_eq_true _) (H (Error_display e, e) Hin)).
  apply (in_map (fun e => (Error_display e, e))), all_errors_complete.
Qed.

(** Different errors are displayed differently. *)
Lemma Error_display_inj e e' : Error_display e = Error_display e' -> e = e'.
Proof.
  intros H. assert (Some e = Some e') as [=]; [|done].
  by rewrite <- (error_of_display e), H, error_of_display.
Qed.

(** ** Lemmas: the texts of names *)
Lemma write_char_ascii b : u8_in x00 x7f b = true -> write_char b = [b].
Proof. by destruct b. Qed.

Lemma ascii_lower_ascii b : u8_in x00 x7f b = true -> u8_in x00 x7f (ascii_lower b) = true.
Proof. by destruct b. Qed.

Lemma write_lower_ascii l : Forall (fun b => u8_in x00 x7f b = true) l ->
  write_lower l = map ascii_lower l.
Proof.
  induction 1 as [|b l Hb _ IH]; simpl; [done|].
  by rewrite write_char_ascii, IH by by apply ascii_lower_ascii.
Qed.

(** The text of a constructed name shows its owned copy. *)
Lemma DnsNameRef_debug_owned {U : Untrusted} {L : UntrustedLaws U} bytes name :
  DnsNameRef_try_from_ascii bytes = Ok (inl name) ->
  exists owned, DnsNameRef_to_owned (E := Error) name = Ok owned /\
    DnsNameRef_debug name
    = ascii_bytes "DnsNameRef(" ++ [quote] ++ DnsName_str owned ++ [quote] ++ ascii_bytes ")".
Proof.
  unfold DnsNameRef_try_from_ascii. rewrite is_valid_dns_id_eq. cbn [obind].
  destruct (dns_valid Reference No bytes) eqn:Hv; cbn [negb]; [|done]. intros [= <-].
  apply dns_valid_iff in Hv. unfold DnsNameRef_to_owned, DnsNameRef_as_ref, DnsNameRef_debug.
  simpl. rewrite (as_ref_ok Reference No bytes Hv). eexists. split; [done|]. simpl.
  by rewrite (write_lower_ascii bytes) by by eapply dns_id_ascii.
Qed.
