(* ===== verification/Testing.v ===== *)
(** * Unit tests as terms

    The vocabulary of the unit tests of the crate ([mod tests] of its files),
    which are translated in the files [*Tests]: a test is a computation that
    panics when an assertion fails, and the lemma [X_passes] says that the
    translation of the test [X] returns.  The inputs of the tests are read with
    the reader of a list. *)
From Stdlib Require Import Strings.String.
From Stdlib Require Strings.Ascii.
From S2P Require Import Prelude Errors Untrusted Der Samples.

(** A test returns nothing; its failures are panics. *)
Abbreviation test := (outcome Empty_set unit).
Definition passes (t : test) : Prop := t = Ok tt.

#[export] Instance outcome_eq_dec {E A} `{EqDecision E, EqDecision A} :
  EqDecision (outcome E A).
Proof. solve_decision. Defined.
#[export] Instance BitStringFlags_eq_dec : EqDecision BitStringFlags.
Proof. solve_decision. Defined.

(** [assert!] and [assert_eq!]. *)
Definition assert (b : bool) : test := if b then Ok tt else Panic.
Definition assert_eq {A} `{EqDecision A} (left right : A) : test := assert (bool_decide (left = right)).

(** [Result::unwrap] and [Result::unwrap_err]. *)
Definition result_unwrap {E A} (r : outcome E A) : outcome Empty_set A :=
  match r with Ok a => Ok a | Err _ | Panic => Panic | OutOfFuel => OutOfFuel end.
Definition unwrap_err {E A} (r : outcome E A) : outcome Empty_set E :=
  match r with Err e => Ok e | Ok _ | Panic => Panic | OutOfFuel => OutOfFuel end.

(** [matches!(r, Err(e))]; [Result::is_ok] is [is_ok] of [Prelude]. *)
Definition is_err {E A} `{EqDecision E} (r : outcome E A) (e : E) : bool :=
  match r with Err e' => bool_decide (e' = e) | _ => false end.

(** [for x in xs { f(x) }], and statements in sequence. *)
Fixpoint for_each {A} (xs : list A) (f : A -> test) : test :=
  match xs with
  | [] => Ok tt
  | x :: xs => let? _ := f x in for_each xs f
  end.
Definition all_of (ts : list test) : test := for_each ts (fun t => t).

(** [iter().map(f).collect()], for a function that may panic. *)
Fixpoint map_all {A B} (f : A -> outcome Empty_set B) (l : list A)
    : outcome Empty_set (list B) :=
  match l with
  | [] => Ok []
  | x :: l => let? y := f x in let? ys := map_all f l in Ok (y :: ys)
  end.

(** A parser run on bytes by a test that only looks at its result. *)
Definition run {E A} (p : parser (U := slice_reader) E A) (bytes : Input) : outcome E A :=
  fst (p (reader_new (Untrusted := slice_reader) bytes)).

(** [Option::expect], as [Option::unwrap]. *)
Definition expect {A} (o : option A) : outcome Empty_set A := unwrap o.

(** [iterator.collect::<Result<Vec<_>, Error>>()]: the first error ends it. *)
Definition collect {T} {U : Untrusted} `{FromDer T} (it : DerIterator T)
    : outcome Error (list T) :=
  let? res := fst (der_for it (fun item acc => let? x := item in Ok (inl (acc ++ [x]))) []) in
  match res with
  | inl xs => Ok xs
  | inr e => match e : Empty_set with end
  end.

(** A file of the tests, in hexadecimal; the lines of a file have an even length. *)
Definition nibble (c : Ascii.ascii) : N :=
  let n := Ascii.N_of_ascii c in if (n <? 58)%N then (n - 48)%N else (n - 87)%N.
Fixpoint hex (s : string) : Input :=
  match s with
  | EmptyString => []
  | String a s =>
    if (Ascii.N_of_ascii a =? 10)%N then hex s
    else
      match s with
      | String b s => u8_of_Z (Z.of_N (16 * nibble a + nibble b)) :: hex s
      | EmptyString => []
      end
  end.

(** ** Lemmas *)
Lemma passes_for_each {A} (xs : list A) f :
  passes (for_each xs f) <-> Forall (fun x => passes (f x)) xs.
Proof.
  unfold passes. induction xs as [|x xs IH]; simpl; [by rewrite Forall_nil|].
  rewrite Forall_cons, <- IH. destruct (f x) as [[]|[]| |]; simpl; naive_solver.
Qed.

Lemma passes_all_of ts : passes (all_of ts) <-> Forall passes ts.
Proof. apply passes_for_each. Qed.

Lemma passes_assert b : passes (assert b) <-> b = true.
Proof. by destruct b. Qed.

Lemma passes_assert_eq {A} `{EqDecision A} (a b : A) : passes (assert_eq a b) <-> a = b.
Proof. unfold assert_eq. rewrite passes_assert. apply bool_decide_eq_true. Qed.

(** Evaluate a test. *)
Ltac evaluate := unfold passes; vm_compute; reflexivity.
