(* ===== verification/DerTests.v ===== *)
(** * The unit tests of [src/der.rs] and [src/time.rs] *)
From Stdlib Require Import Strings.String.
From S2P Require Import Prelude Errors Untrusted Der Samples Time Testing.

#[local] Existing Instance slice_reader.

(** ** [src/der.rs] *)
Definition test_optional_boolean : test :=
  all_of
    [ (* empty input results in false *)
      (let? b := result_unwrap (run (from_der (T := bool)) []) in assert (negb b));
      (* optional, so another data type results in false *)
      (let? b := result_unwrap (run (from_der (T := bool)) [x05; x00]) in assert (negb b));
      (* only 0x00 and 0xff are accepted values *)
      assert_eq (Err BadDer) (run (from_der (T := bool)) [x01; x01; x42]);
      (let? b := result_unwrap (run (from_der (T := bool)) [x01; x01; xff]) in assert b);
      (let? b := result_unwrap (run (from_der (T := bool)) [x01; x01; x00]) in assert (negb b)) ].

Definition test_bit_string_with_no_unused_bits : test :=
  all_of
    [ (* unexpected type *)
      assert_eq (Err (TrailingData BitStringId))
        (run bit_string_with_no_unused_bits [x01; x01; xff]);
      (* unexpected nonexistent type *)
      assert_eq (Err (TrailingData BitStringId))
        (run bit_string_with_no_unused_bits [x42; xff; xff]);
      (* unexpected empty input *)
      assert_eq (Err (TrailingData BitStringId)) (run bit_string_with_no_unused_bits []);
      (* valid input with non-zero unused bits *)
      assert_eq (Err BadDer) (run bit_string_with_no_unused_bits [x03; x03; x04; x12; x34]);
      (* valid input *)
      (let? v := result_unwrap (run bit_string_with_no_unused_bits [x03; x03; x00; x12; x34]) in
       assert_eq [x12; x34] v) ].

Definition EXAMPLE_TAG : u8 := tag_u8 Sequence.

Definition read_tag_and_get_value_default_limit : test :=
  let inputs :=
    [ [EXAMPLE_TAG; x83; xff; xff; xff];
      [EXAMPLE_TAG; x84; xff; xff; xff; xff] ] in
  for_each inputs (fun input => assert (is_err (run read_tag_and_get_value input) BadDer)).

Definition read_tag_and_get_value_limited_high_form : test :=
  assert (is_err (run (read_tag_and_get_value_limited LONG_FORM_LEN_TWO_BYTES_MAX) [xff]) BadDer).

Definition read_tag_and_get_value_limited_non_canonical : test :=
  let inputs :=
    [ (* two byte length, with expressed length < 128 *)
      [EXAMPLE_TAG; x81; x01];
      (* three byte length, with expressed length < 256 *)
      [EXAMPLE_TAG; x82; x00; x01];
      (* four byte length, with expressed length < 65536 *)
      [EXAMPLE_TAG; x83; x00; x00; x01];
      (* five byte length, with expressed length < 16777216 *)
      [EXAMPLE_TAG; x84; x00; x00; x00; x01] ] in
  for_each inputs (fun input =>
    assert (is_err (run (read_tag_and_get_value_limited LONG_FORM_LEN_TWO_BYTES_MAX) input)
      BadDer)).

(** The [while] loop of [der_encode_length]; 64 turns shift out an [usize]. *)
Fixpoint encode_length_loop (fuel : nat) (encoded : list u8) (remaining_length : Z)
    : outcome Empty_set (list u8) :=
  match fuel with
  | O => OutOfFuel
  | S fuel =>
    if 0 <? remaining_length then
      let byte := u8_of_Z (Z.land remaining_length 0xff) in
      encode_length_loop fuel (byte :: encoded) (Z.shiftr remaining_length 8)
    else Ok encoded
  end.

Definition der_encode_length (length : Z) : outcome Empty_set (list u8) :=
  if length <? 128 then Ok [u8_of_Z length]
  else
    let? encoded := encode_length_loop 64 [] length in
    let length_octet := u8_or (u8_of_Z (Z.of_nat (List.length encoded))) x80 in
    Ok (length_octet :: encoded).

(** [struct Testcase]. *)
Record limit_testcase : Type := { tc_input : Input; tc_limit : Z; tc_err : option Error }.

Definition read_tag_and_get_value_limited_limits : test :=
  let short_input := [xff] in
  let? short_length := der_encode_length (Z.of_nat (List.length short_input)) in
  let short_input_encoded := concat [[EXAMPLE_TAG]; short_length; short_input] in
  let long_input := repeat x01 (Z.to_nat 65537) in
  let? long_length := der_encode_length (Z.of_nat (List.length long_input)) in
  let long_input_encoded := concat [[EXAMPLE_TAG]; long_length; long_input] in
  let testcases :=
    [ {| tc_input := short_input_encoded; tc_limit := 1; tc_err := Some BadDer |};
      {| tc_input := short_input_encoded;
         tc_limit := Z.of_nat (List.length short_input_encoded) + 1; tc_err := None |};
      {| tc_input := long_input_encoded;
         tc_limit := Z.of_nat (List.length long_input); tc_err := Some BadDer |};
      {| tc_input := long_input_encoded;
         tc_limit := Z.of_nat (List.length long_input) + 1; tc_err := None |} ] in
  for_each testcases (fun tc =>
    let res := run (read_tag_and_get_value_limited (tc_limit tc)) (tc_input tc) in
    match tc_err tc with
    | None => assert (is_ok res)
    | Some e => let? actual := unwrap_err res in assert_eq actual e
    end).

Definition misencoded_bit_string_flags : test :=
  all_of
    [ (* 8 bits of padding *)
      assert (is_err (bit_string_flags [x08; x06]) BadDer);
      (* 1 bit of padding, no flags value *)
      assert (is_err (bit_string_flags [x01]) BadDer) ].

Definition valid_bit_string_flags : test :=
  let? res := result_unwrap (bit_string_flags [x01; x06]) in
  all_of
    [ assert (negb (bit_set res 0));
      assert (negb (bit_set res 1));
      assert (negb (bit_set res 2));
      assert (negb (bit_set res 3));
      assert (negb (bit_set res 4));
      assert (bit_set res 5);
      assert (bit_set res 6);
      assert (negb (bit_set res 7));
      assert (negb (bit_set res 8));
      (* bits outside the range of values shouldn't be considered set *)
      assert (negb (bit_set res 256)) ].

(** [first..=last]. *)
Definition u8_values (first last : Z) : list u8 := map u8_of_Z (seqZ first (last - first + 1)).

Definition test_small_nonnegative_integer : test :=
  let integer := tag_u8 Integer in
  let u8_of bytes := run (from_der (T := u8)) bytes in
  all_of
    [ for_each (u8_values 0 127) (fun value => assert_eq (u8_of [integer; x01; value]) (Ok value));
      for_each (u8_values 128 255) (fun value =>
        assert_eq (u8_of [integer; x02; x00; value]) (Ok value));
      (* not an integer *)
      assert_eq (u8_of [tag_u8 Sequence; x01; x01]) (Err BadDer);
      (* negative *)
      assert_eq (u8_of [integer; x01; xff]) (Err BadDer);
      (* positive but too large *)
      assert_eq (u8_of [integer; x02; x01; x00]) (Err BadDer);
      (* unnecessary leading zero *)
      assert_eq (u8_of [integer; x02; x00; x05]) (Err BadDer);
      (* truncations *)
      assert_eq (u8_of []) (Err BadDer);
      assert_eq (u8_of [integer]) (Err BadDer);
      assert_eq (u8_of [integer; x01]) (Err BadDer);
      assert_eq (u8_of [integer; x02; x00]) (Err BadDer) ].

(** ** [src/time.rs]

    The operations return an [outcome] even where the source has a plain
    integer, because of their panics. *)
#[export] Instance Time_eq_dec : EqDecision Time.
Proof. solve_decision. Defined.

Definition test_days_before_unix_epoch : test :=
  assert_eq (Ok DAYS_BEFORE_UNIX_EPOCH_AD) (days_before_year_ad UNIX_EPOCH_YEAR).

Definition test_days_before_year_since_unix_epoch : test :=
  all_of
    [ assert_eq (Ok 0) (days_before_year_since_unix_epoch UNIX_EPOCH_YEAR);
      assert_eq (Ok 365) (days_before_year_since_unix_epoch (UNIX_EPOCH_YEAR + 1));
      assert_eq (Err BadDerTime) (days_before_year_since_unix_epoch (UNIX_EPOCH_YEAR - 1)) ].

Definition test_days_in_month : test :=
  for_each
    [ (2017, 1, 31); (2017, 2, 28); (2017, 3, 31); (2017, 4, 30); (2017, 5, 31); (2017, 6, 30);
      (2017, 7, 31); (2017, 8, 31); (2017, 9, 30); (2017, 10, 31); (2017, 11, 30); (2017, 12, 31);
      (* leap cases *)
      (2000, 2, 29); (2004, 2, 29); (2016, 2, 29); (2100, 2, 28) ]
    (fun '(year, month, days) => assert_eq (days_in_month year month) (Ok days)).

Definition test_time_from_ymdhms_utc : test :=
  let is_time seconds (t : outcome Error Time) :=
    let? t := result_unwrap t in assert_eq (from_seconds_since_unix_epoch seconds) t in
  all_of
    [ (* 1969-12-31 00:00:00 *)
      assert_eq (Err BadDerTime) (time_from_ymdhms_utc (UNIX_EPOCH_YEAR - 1) 1 1 0 0 0);
      (* 1969-12-31 23:59:59 *)
      assert_eq (Err BadDerTime) (time_from_ymdhms_utc (UNIX_EPOCH_YEAR - 1) 12 31 23 59 59);
      (* 1970-01-01 00:00:00 *)
      is_time 0 (time_from_ymdhms_utc UNIX_EPOCH_YEAR 1 1 0 0 0);
      (* 1970-01-01 00:00:01 *)
      is_time 1 (time_from_ymdhms_utc UNIX_EPOCH_YEAR 1 1 0 0 1);
      (* 1971-01-01 00:00:00 *)
      is_time (365 * 86400) (time_from_ymdhms_utc (UNIX_EPOCH_YEAR + 1) 1 1 0 0 0);
      (* year boundary *)
      is_time 1483228799 (time_from_ymdhms_utc 2016 12 31 23 59 59);
      is_time 1483228800 (time_from_ymdhms_utc 2017 1 1 0 0 0);
      (* not a leap year *)
      is_time 1492449162 (time_from_ymdhms_utc 2017 4 17 17 12 42);
      (* leap year, after February *)
      is_time 1460913162 (time_from_ymdhms_utc 2016 4 17 17 12 42) ].

(** ** The tests pass *)
Lemma test_optional_boolean_passes : passes test_optional_boolean.
Proof. evaluate. Qed.

Lemma test_bit_string_with_no_unused_bits_passes : passes test_bit_string_with_no_unused_bits.
Proof. evaluate. Qed.

Lemma read_tag_and_get_value_default_limit_passes : passes read_tag_and_get_value_default_limit.
Proof. evaluate. Qed.

Lemma read_tag_and_get_value_limited_high_form_passes :
  passes read_tag_and_get_value_limited_high_form.
Proof. evaluate. Qed.

Lemma read_tag_and_get_value_limited_non_canonical_passes :
  passes read_tag_and_get_value_limited_non_canonical.
Proof. evaluate. Qed.

(** The encoder of lengths of the tests is the reference encoder of [Der]. *)
Lemma encode_length_loop_zero fuel encoded : encode_length_loop (S fuel) encoded 0 = Ok encoded.
Proof. done. Qed.

Lemma encode_length_loop_step fuel encoded n : 0 < n ->
  encode_length_loop (S fuel) encoded n
  = encode_length_loop fuel (u8_of_Z (n mod 256) :: encoded) (n / 256).
Proof.
  intros Hn. cbn [encode_length_loop]. destruct (Z.ltb_spec 0 n); [|lia].
  change 0xff with (Z.ones 8). by rewrite Z.land_ones, Z.shiftr_div_pow2.
Qed.

Lemma der_encode_length_eq n : 0 <= n <= LONG_FORM_LEN_FOUR_BYTES_MAX ->
  der_encode_length n = Ok (encode_length n).
Proof.
  unfold LONG_FORM_LEN_FOUR_BYTES_MAX, der_encode_length, encode_length. intros Hn.
  destruct (Z.ltb_spec n 128); [done|].
  repeat match goal with
    | |- context [?a <=? ?b] => destruct (Z.leb_spec a b)
    | |- context [encode_length_loop _ _ 0] => rewrite encode_length_loop_zero
    | |- context [encode_length_loop _ _ ?m] =>
      first [ replace m with 0 by lia_div | rewrite encode_length_loop_step by lia_div ]
    end.
  all: rewrite ?Z.div_div by lia; simpl; repeat f_equal; lia_div.
Qed.

#[local] Transparent tlv.

(** A value at the size limit or above it is refused. *)
Lemma read_tlv_too_long lim t v :
  low_tag t = true -> lim <= Z.of_nat (length v) <= LONG_FORM_LEN_FOUR_BYTES_MAX ->
  run (read_tag_and_get_value_limited lim) (tlv t v) = Err BadDer.
Proof.
  intros Ht [Hlim Hmax]. unfold run. rewrite run_new.
  unfold read_tag_and_get_value_limited, tlv. den.
  rewrite high_tag_low_tag, Ht. cbn [negb]. den. rewrite read_length_complete by lia.
  destruct (Z.leb_spec lim (Z.of_nat (length v))); [by den|lia].
Qed.

Lemma read_tlv_fits lim t v :
  low_tag t = true -> Z.of_nat (length v) < lim ->
  Z.of_nat (length v) <= LONG_FORM_LEN_FOUR_BYTES_MAX ->
  run (read_tag_and_get_value_limited lim) (tlv t v) = Ok (t, v).
Proof.
  intros. unfold run. rewrite run_new, <- (app_nil_r (tlv t v)).
  by rewrite (read_tlv_complete lim t v []).
Qed.

(** The long input has 65537 octets: the test follows from the lemmas. *)
Lemma read_tag_and_get_value_limited_limits_passes :
  passes read_tag_and_get_value_limited_limits.
Proof.
  unfold read_tag_and_get_value_limited_limits, passes. cbv zeta.
  set (long := repeat x01 (Z.to_nat 65537)).
  assert (Z.of_nat (length long) = 65537) as Hlong by by (unfold long; rewrite repeat_length, Z2Nat.id).
  clearbody long.
  rewrite (der_encode_length_eq (Z.of_nat (length [xff]))), (der_encode_length_eq (Z.of_nat (length long)))
    by (rewrite ?Hlong; by vm_compute). cbn [obind].
  assert (forall v, concat [[EXAMPLE_TAG]; encode_length (Z.of_nat (length v)); v] = tlv EXAMPLE_TAG v)
    as Htlv by (intros v; simpl; by rewrite app_nil_r).
  rewrite !Htlv.
  apply passes_for_each. rewrite !Forall_cons. split_and!; cbn [tc_err tc_limit tc_input].
  - by rewrite read_tlv_too_long.
  - by rewrite read_tlv_fits.
  - rewrite read_tlv_too_long; rewrite ?Hlong; try done; by vm_compute.
  - rewrite read_tlv_fits; rewrite ?Hlong; try done; by vm_compute.
  - done.
Qed.

Lemma misencoded_bit_string_flags_passes : passes misencoded_bit_string_flags.
Proof. evaluate. Qed.

Lemma valid_bit_string_flags_passes : passes valid_bit_string_flags.
Proof. evaluate. Qed.

Lemma test_small_nonnegative_integer_passes : passes test_small_nonnegative_integer.
Proof. evaluate. Qed.

Lemma test_days_before_unix_epoch_passes : passes test_days_before_unix_epoch.
Proof. evaluate. Qed.

Lemma test_days_before_year_since_unix_epoch_passes : passes test_days_before_year_since_unix_epoch.
Proof. evaluate. Qed.

Lemma test_days_in_month_passes : passes test_days_in_month.
Proof. evaluate. Qed.

Lemma test_time_from_ymdhms_utc_passes : passes test_time_from_ymdhms_utc.
Proof. evaluate. Qed.
