(* ===== verification/NameTests.v ===== *)
(** * The unit tests of [src/subject_name/dns_name.rs] and [src/subject_name/ip_address.rs]

    The tables of names, addresses and constraints, with the results that the
    tests expect, and the loops over them. *)
From Stdlib Require Import Strings.String.
From S2P Require Import Prelude Errors Untrusted Der Samples DnsName IpAddress.
From S2P Require Import Formatting Testing.

#[local] Existing Instance slice_reader.

#[export] Instance IpAddr_eq_dec : EqDecision IpAddr.
Proof. solve_decision. Defined.
#[export] Instance IpAddrRef_eq_dec : EqDecision IpAddrRef.
Proof. solve_decision. Defined.
#[export] Instance AddrParseError_eq_dec : EqDecision AddrParseError.
Proof. solve_decision. Defined.

(** ** [src/subject_name/dns_name.rs] *)

(** [PRESENTED_MATCHES_REFERENCE], in three parts: the presented name, the reference
    name and the result. *)

Definition PRESENTED_MATCHES_REFERENCE_1 : list (Input * Input * outcome Error bool) :=
  [ ([], ascii_bytes "a", Err MalformedDnsIdentifier);
    (ascii_bytes "a", ascii_bytes "a", Ok true);
    (ascii_bytes "b", ascii_bytes "a", Ok false);
    (ascii_bytes "*.b.a", ascii_bytes "c.b.a", Ok true);
    (ascii_bytes "*.b.a", ascii_bytes "b.a", Ok false);
    (ascii_bytes "*.b.a", ascii_bytes "b.a.", Ok false);
    (* Wildcard not in leftmost label *)
    (ascii_bytes "d.c.b.a", ascii_bytes "d.c.b.a", Ok true);
    (ascii_bytes "d.*.b.a", ascii_bytes "d.c.b.a", Err MalformedDnsIdentifier);
    (ascii_bytes "d.c*.b.a", ascii_bytes "d.c.b.a", Err MalformedDnsIdentifier);
    (ascii_bytes "d.c*.b.a", ascii_bytes "d.cc.b.a", Err MalformedDnsIdentifier);
    (* case sensitivity *)
    (ascii_bytes "abcdefghijklmnopqrstuvwxyz", ascii_bytes "ABCDEFGHIJKLMNOPQRSTUVWXYZ", Ok
     true);
    (ascii_bytes "ABCDEFGHIJKLMNOPQRSTUVWXYZ", ascii_bytes "abcdefghijklmnopqrstuvwxyz", Ok
     true);
    (ascii_bytes "aBc", ascii_bytes "Abc", Ok true);
    (* digits *)
    (ascii_bytes "a1", ascii_bytes "a1", Ok true);
    (* A trailing dot indicates an absolute name, and absolute names can match relative names,
     and vice-versa. *)
    (ascii_bytes "example", ascii_bytes "example", Ok true);
    (ascii_bytes "example.", ascii_bytes "example.", Err MalformedDnsIdentifier);
    (ascii_bytes "example", ascii_bytes "example.", Ok true);
    (ascii_bytes "example.", ascii_bytes "example", Err MalformedDnsIdentifier);
    (ascii_bytes "example.com", ascii_bytes "example.com", Ok true);
    (ascii_bytes "example.com.", ascii_bytes "example.com.", Err MalformedDnsIdentifier);
    (ascii_bytes "example.com", ascii_bytes "example.com.", Ok true);
    (ascii_bytes "example.com.", ascii_bytes "example.com", Err MalformedDnsIdentifier);
    (ascii_bytes "example.com..", ascii_bytes "example.com.", Err MalformedDnsIdentifier);
    (ascii_bytes "example.com..", ascii_bytes "example.com", Err MalformedDnsIdentifier);
    (ascii_bytes "example.com...", ascii_bytes "example.com.", Err MalformedDnsIdentifier);
    (* xn-- IDN prefix *)
    (ascii_bytes "x*.b.a", ascii_bytes "xa.b.a", Err MalformedDnsIdentifier);
    (ascii_bytes "x*.b.a", ascii_bytes "xna.b.a", Err MalformedDnsIdentifier);
    (ascii_bytes "x*.b.a", ascii_bytes "xn-a.b.a", Err MalformedDnsIdentifier);
    (ascii_bytes "x*.b.a", ascii_bytes "xn--a.b.a", Err MalformedDnsIdentifier);
    (ascii_bytes "xn*.b.a", ascii_bytes "xn--a.b.a", Err MalformedDnsIdentifier);
    (ascii_bytes "xn-*.b.a", ascii_bytes "xn--a.b.a", Err MalformedDnsIdentifier);
    (ascii_bytes "xn--*.b.a", ascii_bytes "xn--a.b.a", Err MalformedDnsIdentifier);
    (ascii_bytes "xn*.b.a", ascii_bytes "xn--a.b.a", Err MalformedDnsIdentifier);
    (ascii_bytes "xn-*.b.a", ascii_bytes "xn--a.b.a", Err MalformedDnsIdentifier);
    (ascii_bytes "xn--*.b.a", ascii_bytes "xn--a.b.a", Err MalformedDnsIdentifier);
    (ascii_bytes "xn---*.b.a", ascii_bytes "xn--a.b.a", Err MalformedDnsIdentifier);
    (* "*" cannot expand to nothing. *)
    (ascii_bytes "c*.b.a", ascii_bytes "c.b.a", Err MalformedDnsIdentifier);
    (ascii_bytes "foo.com", ascii_bytes "foo.com", Ok true);
    (ascii_bytes "f", ascii_bytes "f", Ok true);
    (ascii_bytes "i", ascii_bytes "h", Ok false);
    (ascii_bytes "*.foo.com", ascii_bytes "bar.foo.com", Ok true);
    (ascii_bytes "*.test.fr", ascii_bytes "www.test.fr", Ok true);
    (ascii_bytes "*.test.FR", ascii_bytes "wwW.tESt.fr", Ok true);
    (ascii_bytes ".uk", ascii_bytes "f.uk", Err MalformedDnsIdentifier);
    (ascii_bytes "?.bar.foo.com", ascii_bytes "w.bar.foo.com", Err MalformedDnsIdentifier);
    (ascii_bytes "(www|ftp).foo.com", ascii_bytes "www.foo.com", Err MalformedDnsIdentifier);
    (* regex! *)
    ((ascii_bytes "www.foo.com" ++ [x00]), ascii_bytes "www.foo.com", Err
     MalformedDnsIdentifier) ].

Definition PRESENTED_MATCHES_REFERENCE_2 : list (Input * Input * outcome Error bool) :=
  [ ((ascii_bytes "www.foo.com" ++ [x00] ++ ascii_bytes "*.foo.com"), ascii_bytes "www.foo.com",
     Err MalformedDnsIdentifier);
    (ascii_bytes "ww.house.example", ascii_bytes "www.house.example", Ok false);
    (ascii_bytes "www.test.org", ascii_bytes "test.org", Ok false);
    (ascii_bytes "*.test.org", ascii_bytes "test.org", Ok false);
    (ascii_bytes "*.org", ascii_bytes "test.org", Err MalformedDnsIdentifier);
    (* a star must be the only character in the wildcard label *)
    (ascii_bytes "w*.bar.foo.com", ascii_bytes "w.bar.foo.com", Err MalformedDnsIdentifier);
    (ascii_bytes "ww*ww.bar.foo.com", ascii_bytes "www.bar.foo.com", Err
     MalformedDnsIdentifier);
    (ascii_bytes "ww*ww.bar.foo.com", ascii_bytes "wwww.bar.foo.com", Err
     MalformedDnsIdentifier);
    (ascii_bytes "w*w.bar.foo.com", ascii_bytes "wwww.bar.foo.com", Err MalformedDnsIdentifier);
    (ascii_bytes "w*w.bar.foo.c0m", ascii_bytes "wwww.bar.foo.com", Err MalformedDnsIdentifier);
    (ascii_bytes "wa*.bar.foo.com", ascii_bytes "WALLY.bar.foo.com", Err
     MalformedDnsIdentifier);
    (ascii_bytes "*Ly.bar.foo.com", ascii_bytes "wally.bar.foo.com", Err
     MalformedDnsIdentifier);
    (* Chromium does URL decoding of the reference ID, but we don't, and we also require that
     the reference ID is valid, so we can't test these two. (b"www.foo.com", b"ww%57.foo.com",
     Ok(true)), (b"www&.foo.com", b"www%26.foo.com", Ok(true)), *)
    (ascii_bytes "*.test.de", ascii_bytes "www.test.co.jp", Ok false);
    (ascii_bytes "*.jp", ascii_bytes "www.test.co.jp", Err MalformedDnsIdentifier);
    (ascii_bytes "www.test.co.uk", ascii_bytes "www.test.co.jp", Ok false);
    (ascii_bytes "www.*.co.jp", ascii_bytes "www.test.co.jp", Err MalformedDnsIdentifier);
    (ascii_bytes "www.bar.foo.com", ascii_bytes "www.bar.foo.com", Ok true);
    (ascii_bytes "*.foo.com", ascii_bytes "www.bar.foo.com", Ok false);
    (ascii_bytes "*.*.foo.com", ascii_bytes "www.bar.foo.com", Err MalformedDnsIdentifier);
    (* Our matcher requires the reference ID to be a valid DNS name, so we cannot test this
     case. (b"*.*.bar.foo.com", b"*..bar.foo.com", Ok(false)), *)
    (ascii_bytes "www.bath.org", ascii_bytes "www.bath.org", Ok true);
    (* Our matcher requires the reference ID to be a valid DNS name, so we cannot test these
     cases. DNS_ID_MISMATCH("www.bath.org", ""), (b"www.bath.org", b"20.30.40.50", Ok(false)),
     (b"www.bath.org", b"66.77.88.99", Ok(false)), IDN tests *)
    (ascii_bytes "xn--poema-9qae5a.com.br", ascii_bytes "xn--poema-9qae5a.com.br", Ok true);
    (ascii_bytes "*.xn--poema-9qae5a.com.br", ascii_bytes "www.xn--poema-9qae5a.com.br", Ok
     true);
    (ascii_bytes "*.xn--poema-9qae5a.com.br", ascii_bytes "xn--poema-9qae5a.com.br", Ok false);
    (ascii_bytes "xn--poema-*.com.br", ascii_bytes "xn--poema-9qae5a.com.br", Err
     MalformedDnsIdentifier);
    (ascii_bytes "xn--*-9qae5a.com.br", ascii_bytes "xn--poema-9qae5a.com.br", Err
     MalformedDnsIdentifier);
    (ascii_bytes "*--poema-9qae5a.com.br", ascii_bytes "xn--poema-9qae5a.com.br", Err
     MalformedDnsIdentifier);
    (* The following are adapted from the examples quoted from
     http://tools.ietf.org/html/rfc6125#section-6.4.3 (e.g., *.example.com would match
     foo.example.com but not bar.foo.example.com or example.com). *)
    (ascii_bytes "*.example.com", ascii_bytes "foo.example.com", Ok true);
    (ascii_bytes "*.example.com", ascii_bytes "bar.foo.example.com", Ok false);
    (ascii_bytes "*.example.com", ascii_bytes "example.com", Ok false);
    (ascii_bytes "baz*.example.net", ascii_bytes "baz1.example.net", Err MalformedDnsIdentifier)
     ].

Definition PRESENTED_MATCHES_REFERENCE_3 : list (Input * Input * outcome Error bool) :=
  [ (ascii_bytes "*baz.example.net", ascii_bytes "foobaz.example.net", Err
     MalformedDnsIdentifier);
    (ascii_bytes "b*z.example.net", ascii_bytes "buzz.example.net", Err MalformedDnsIdentifier);
    (* Wildcards should not be valid for public registry controlled domains, and
     unknown/unrecognized domains, at least three domain components must be present. For
     mozilla::pkix and NSS, there must always be at least two labels after the wildcard label.
     *)
    (ascii_bytes "*.test.example", ascii_bytes "www.test.example", Ok true);
    (ascii_bytes "*.example.co.uk", ascii_bytes "test.example.co.uk", Ok true);
    (ascii_bytes "*.example", ascii_bytes "test.example", Err MalformedDnsIdentifier);
    (* The result is different than Chromium, because Chromium takes into account the additional
     knowledge it has that "co.uk" is a TLD. mozilla::pkix does not know that. *)
    (ascii_bytes "*.co.uk", ascii_bytes "example.co.uk", Ok true);
    (ascii_bytes "*.com", ascii_bytes "foo.com", Err MalformedDnsIdentifier);
    (ascii_bytes "*.us", ascii_bytes "foo.us", Err MalformedDnsIdentifier);
    (ascii_bytes "*", ascii_bytes "foo", Err MalformedDnsIdentifier);
    (* IDN variants of wildcards and registry controlled domains. *)
    (ascii_bytes "*.xn--poema-9qae5a.com.br", ascii_bytes "www.xn--poema-9qae5a.com.br", Ok
     true);
    (ascii_bytes "*.example.xn--mgbaam7a8h", ascii_bytes "test.example.xn--mgbaam7a8h", Ok
     true);
    (* RFC6126 allows this, and NSS accepts it, but Chromium disallows it. TODO: File bug
     against Chromium. *)
    (ascii_bytes "*.com.br", ascii_bytes "xn--poema-9qae5a.com.br", Ok true);
    (ascii_bytes "*.xn--mgbaam7a8h", ascii_bytes "example.xn--mgbaam7a8h", Err
     MalformedDnsIdentifier);
    (* Wildcards should be permissible for 'private' registry-controlled domains. (In
     mozilla::pkix, we do not know if it is a private registry- controlled domain or not.) *)
    (ascii_bytes "*.appspot.com", ascii_bytes "www.appspot.com", Ok true);
    (ascii_bytes "*.s3.amazonaws.com", ascii_bytes "foo.s3.amazonaws.com", Ok true);
    (* Multiple wildcards are not valid. *)
    (ascii_bytes "*.*.com", ascii_bytes "foo.example.com", Err MalformedDnsIdentifier);
    (ascii_bytes "*.bar.*.com", ascii_bytes "foo.bar.example.com", Err MalformedDnsIdentifier);
    (* Absolute vs relative DNS name tests. Although not explicitly specified in RFC 6125,
     absolute reference names (those ending in a .) should match either absolute or relative
     presented names. TODO: File errata against RFC 6125 about this. *)
    (ascii_bytes "foo.com.", ascii_bytes "foo.com", Err MalformedDnsIdentifier);
    (ascii_bytes "foo.com", ascii_bytes "foo.com.", Ok true);
    (ascii_bytes "foo.com.", ascii_bytes "foo.com.", Err MalformedDnsIdentifier);
    (ascii_bytes "f.", ascii_bytes "f", Err MalformedDnsIdentifier);
    (ascii_bytes "f", ascii_bytes "f.", Ok true);
    (ascii_bytes "f.", ascii_bytes "f.", Err MalformedDnsIdentifier);
    (ascii_bytes "*.bar.foo.com.", ascii_bytes "www-3.bar.foo.com", Err MalformedDnsIdentifier);
    (ascii_bytes "*.bar.foo.com", ascii_bytes "www-3.bar.foo.com.", Ok true);
    (ascii_bytes "*.bar.foo.com.", ascii_bytes "www-3.bar.foo.com.", Err
     MalformedDnsIdentifier);
    (* We require the reference ID to be a valid DNS name, so we cannot test this case. (b".",
     b".", Ok(false)), *)
    (ascii_bytes "*.com.", ascii_bytes "example.com", Err MalformedDnsIdentifier);
    (ascii_bytes "*.com", ascii_bytes "example.com.", Err MalformedDnsIdentifier);
    (ascii_bytes "*.com.", ascii_bytes "example.com.", Err MalformedDnsIdentifier);
    (ascii_bytes "*.", ascii_bytes "foo.", Err MalformedDnsIdentifier);
    (ascii_bytes "*.", ascii_bytes "foo", Err MalformedDnsIdentifier);
    (* The result is different than Chromium because we don't know that co.uk is a TLD. *)
    (ascii_bytes "*.co.uk.", ascii_bytes "foo.co.uk", Err MalformedDnsIdentifier);
    (ascii_bytes "*.co.uk.", ascii_bytes "foo.co.uk.", Err MalformedDnsIdentifier) ].

Definition PRESENTED_MATCHES_REFERENCE : list (Input * Input * outcome Error bool) :=
  PRESENTED_MATCHES_REFERENCE_1 ++ PRESENTED_MATCHES_REFERENCE_2 ++ PRESENTED_MATCHES_REFERENCE_3.

Definition presented_matches_reference_test : test :=
  for_each PRESENTED_MATCHES_REFERENCE (fun '(presented, reference, expected_result) =>
    let actual_result := presented_id_matches_reference_id presented reference in
    assert_eq actual_result expected_result).

(** The presented name, the constraint and the result. *)

Definition DNS_PRESENTED_MATCHES_CONSTRAINT : list (Input * Input * outcome Error bool) :=
  [ (* No absolute presented IDs allowed *)
    (ascii_bytes ".", [], Err MalformedDnsIdentifier);
    (ascii_bytes "www.example.com.", [], Err MalformedDnsIdentifier);
    (ascii_bytes "www.example.com.", ascii_bytes "www.example.com.", Err
     MalformedDnsIdentifier);
    (* No absolute constraints allowed *)
    (ascii_bytes "www.example.com", ascii_bytes ".", Err MalformedNameConstraint);
    (ascii_bytes "www.example.com", ascii_bytes "www.example.com.", Err
     MalformedNameConstraint);
    (* No wildcard in constraints allowed *)
    (ascii_bytes "www.example.com", ascii_bytes "*.example.com", Err MalformedNameConstraint);
    (* No empty presented IDs allowed *)
    ([], [], Err MalformedDnsIdentifier);
    (* Empty constraints match everything allowed *)
    (ascii_bytes "example.com", [], Ok true);
    (ascii_bytes "*.example.com", [], Ok true);
    (* Constraints that start with a dot *)
    (ascii_bytes "www.example.com", ascii_bytes ".example.com", Ok true);
    (ascii_bytes "www.example.com", ascii_bytes ".EXAMPLE.COM", Ok true);
    (ascii_bytes "www.example.com", ascii_bytes ".axample.com", Ok false);
    (ascii_bytes "www.example.com", ascii_bytes ".xample.com", Ok false);
    (ascii_bytes "www.example.com", ascii_bytes ".exampl.com", Ok false);
    (ascii_bytes "badexample.com", ascii_bytes ".example.com", Ok false);
    (* Constraints that do not start with a dot *)
    (ascii_bytes "www.example.com", ascii_bytes "example.com", Ok true);
    (ascii_bytes "www.example.com", ascii_bytes "EXAMPLE.COM", Ok true);
    (ascii_bytes "www.example.com", ascii_bytes "axample.com", Ok false);
    (ascii_bytes "www.example.com", ascii_bytes "xample.com", Ok false);
    (ascii_bytes "www.example.com", ascii_bytes "exampl.com", Ok false);
    (ascii_bytes "badexample.com", ascii_bytes "example.com", Ok false);
    (* Presented IDs with wildcard *)
    (ascii_bytes "*.example.com", ascii_bytes ".example.com", Ok true);
    (ascii_bytes "*.example.com", ascii_bytes "example.com", Ok true);
    (ascii_bytes "*.example.com", ascii_bytes "www.example.com", Ok true);
    (ascii_bytes "*.example.com", ascii_bytes "www.EXAMPLE.COM", Ok true);
    (ascii_bytes "*.example.com", ascii_bytes "www.axample.com", Ok false);
    (ascii_bytes "*.example.com", ascii_bytes ".xample.com", Ok false);
    (ascii_bytes "*.example.com", ascii_bytes "xample.com", Ok false);
    (ascii_bytes "*.example.com", ascii_bytes ".exampl.com", Ok false);
    (ascii_bytes "*.example.com", ascii_bytes "exampl.com", Ok false);
    (* Matching IDs *)
    (ascii_bytes "www.example.com", ascii_bytes "www.example.com", Ok true) ].

Definition dns_presented_matches_constraint_test : test :=
  for_each DNS_PRESENTED_MATCHES_CONSTRAINT (fun '(presented, constraint, expected_result) =>
    let actual_result := presented_id_matches_constraint presented constraint in
    assert_eq actual_result expected_result).

(** ** [src/subject_name/ip_address.rs] *)

Definition ipv4_address (ip_address octets : list u8) : Input * outcome AddrParseError IpAddrRef :=
  (ip_address, Ok (V4 ip_address octets)).

Definition IPV4_ADDRESSES : list (Input * outcome AddrParseError IpAddrRef) :=
  [ (* Valid IPv4 addresses *)
    ipv4_address (ascii_bytes "0.0.0.0") [x00; x00; x00; x00];
    ipv4_address (ascii_bytes "1.1.1.1") [x01; x01; x01; x01];
    ipv4_address (ascii_bytes "205.0.0.0") [xcd; x00; x00; x00];
    ipv4_address (ascii_bytes "0.205.0.0") [x00; xcd; x00; x00];
    ipv4_address (ascii_bytes "0.0.205.0") [x00; x00; xcd; x00];
    ipv4_address (ascii_bytes "0.0.0.205") [x00; x00; x00; xcd];
    ipv4_address (ascii_bytes "0.0.0.20") [x00; x00; x00; x14];
    (* Invalid IPv4 addresses *)
    ([], Err AddrParse);
    (ascii_bytes "...", Err AddrParse);
    (ascii_bytes ".0.0.0.0", Err AddrParse);
    (ascii_bytes "0.0.0.0.", Err AddrParse);
    (ascii_bytes "0.0.0", Err AddrParse);
    (ascii_bytes "0.0.0.", Err AddrParse);
    (ascii_bytes "256.0.0.0", Err AddrParse);
    (ascii_bytes "0.256.0.0", Err AddrParse);
    (ascii_bytes "0.0.256.0", Err AddrParse);
    (ascii_bytes "0.0.0.256", Err AddrParse);
    (ascii_bytes "1..1.1.1", Err AddrParse);
    (ascii_bytes "1.1..1.1", Err AddrParse);
    (ascii_bytes "1.1.1..1", Err AddrParse);
    (ascii_bytes "025.0.0.0", Err AddrParse);
    (ascii_bytes "0.025.0.0", Err AddrParse);
    (ascii_bytes "0.0.025.0", Err AddrParse);
    (ascii_bytes "0.0.0.025", Err AddrParse);
    (ascii_bytes "1234.0.0.0", Err AddrParse);
    (ascii_bytes "0.1234.0.0", Err AddrParse);
    (ascii_bytes "0.0.1234.0", Err AddrParse);
    (ascii_bytes "0.0.0.1234", Err AddrParse) ].

Definition parse_ipv4_address_test : test :=
  for_each IPV4_ADDRESSES (fun '(ip_address, expected_result) =>
    assert_eq (parse_ipv4_address ip_address) expected_result).

Definition ipv6_address (ip_address octets : list u8) : Input * outcome AddrParseError IpAddrRef :=
  (ip_address, Ok (V6 ip_address octets)).

Definition IPV6_ADDRESSES_1 : list (Input * outcome AddrParseError IpAddrRef) :=
  [ (* Valid IPv6 addresses *)
    ipv6_address (ascii_bytes "2a05:d018:076c:b685:e8ab:afd3:af51:3aed") [x2a; x05; xd0; x18;
     x07; x6c; xb6; x85; xe8; xab; xaf; xd3; xaf; x51; x3a; xed];
    ipv6_address (ascii_bytes "2A05:D018:076C:B685:E8AB:AFD3:AF51:3AED") [x2a; x05; xd0; x18;
     x07; x6c; xb6; x85; xe8; xab; xaf; xd3; xaf; x51; x3a; xed];
    ipv6_address (ascii_bytes "ffff:ffff:ffff:ffff:ffff:ffff:ffff:ffff") [xff; xff; xff; xff;
     xff; xff; xff; xff; xff; xff; xff; xff; xff; xff; xff; xff];
    ipv6_address (ascii_bytes "FFFF:FFFF:FFFF:FFFF:FFFF:FFFF:FFFF:FFFF") [xff; xff; xff; xff;
     xff; xff; xff; xff; xff; xff; xff; xff; xff; xff; xff; xff];
    ipv6_address (ascii_bytes "FFFF:ffff:ffff:ffff:ffff:ffff:ffff:ffff") [xff; xff; xff; xff;
     xff; xff; xff; xff; xff; xff; xff; xff; xff; xff; xff; xff];
    (* Invalid IPv6 addresses Missing octets on uncompressed addresses. The unmatching letter
     has the violation *)
    (ascii_bytes "aaa:ffff:ffff:ffff:ffff:ffff:ffff:ffff", Err AddrParse);
    (ascii_bytes "ffff:aaa:ffff:ffff:ffff:ffff:ffff:ffff", Err AddrParse);
    (ascii_bytes "ffff:ffff:aaa:ffff:ffff:ffff:ffff:ffff", Err AddrParse);
    (ascii_bytes "ffff:ffff:ffff:aaa:ffff:ffff:ffff:ffff", Err AddrParse);
    (ascii_bytes "ffff:ffff:ffff:ffff:aaa:ffff:ffff:ffff", Err AddrParse);
    (ascii_bytes "ffff:ffff:ffff:ffff:ffff:aaa:ffff:ffff", Err AddrParse);
    (ascii_bytes "ffff:ffff:ffff:ffff:ffff:ffff:aaa:ffff", Err AddrParse);
    (ascii_bytes "ffff:ffff:ffff:ffff:ffff:ffff:ffff:aaa", Err AddrParse);
    (* Wrong hexadecimal characters on different positions *)
    (ascii_bytes "ffgf:ffff:ffff:ffff:ffff:ffff:ffff:ffff", Err AddrParse);
    (ascii_bytes "ffff:gfff:ffff:ffff:ffff:ffff:ffff:ffff", Err AddrParse);
    (ascii_bytes "ffff:ffff:fffg:ffff:ffff:ffff:ffff:ffff", Err AddrParse);
    (ascii_bytes "ffff:ffff:ffff:ffgf:ffff:ffff:ffff:ffff", Err AddrParse);
    (ascii_bytes "ffff:ffff:ffff:ffff:gfff:ffff:ffff:ffff", Err AddrParse);
    (ascii_bytes "ffff:ffff:ffff:ffff:ffff:fgff:ffff:ffff", Err AddrParse);
    (ascii_bytes "ffff:ffff:ffff:ffff:ffff:ffff:ffgf:ffff", Err AddrParse) ].

Definition IPV6_ADDRESSES_2 : list (Input * outcome AddrParseError IpAddrRef) :=
  [ (ascii_bytes "ffff:ffff:ffff:ffff:ffff:ffff:ffgf:fffg", Err AddrParse);
    (* Wrong colons on uncompressed addresses *)
    (ascii_bytes ":ffff:ffff:ffff:ffff:ffff:ffff:ffff:ffff", Err AddrParse);
    (ascii_bytes "ffff::ffff:ffff:ffff:ffff:ffff:ffff:ffff", Err AddrParse);
    (ascii_bytes "ffff:ffff::ffff:ffff:ffff:ffff:ffff:ffff", Err AddrParse);
    (ascii_bytes "ffff:ffff:ffff::ffff:ffff:ffff:ffff:ffff", Err AddrParse);
    (ascii_bytes "ffff:ffff:ffff:ffff::ffff:ffff:ffff:ffff", Err AddrParse);
    (ascii_bytes "ffff:ffff:ffff:ffff:ffff::ffff:ffff:ffff", Err AddrParse);
    (ascii_bytes "ffff:ffff:ffff:ffff:ffff:ffff::ffff:ffff", Err AddrParse);
    (ascii_bytes "ffff:ffff:ffff:ffff:ffff:ffff:ffff::ffff", Err AddrParse);
    (* More colons than allowed *)
    (ascii_bytes "ffff:ffff:ffff:ffff:ffff:ffff:ffff:ffff:", Err AddrParse);
    (ascii_bytes "ffff:ffff:ffff:ffff:ffff:ffff:ffff:ffff:ffff", Err AddrParse);
    (* v Invalid UTF-8 encoding *)
    (([xc3] ++ ascii_bytes "(a05:d018:076c:b685:e8ab:afd3:af51:3aed"), Err AddrParse);
    (* v Invalid hexadecimal *)
    (ascii_bytes "ga05:d018:076c:b685:e8ab:afd3:af51:3aed", Err AddrParse);
    (* Cannot start with colon *)
    (ascii_bytes ":a05:d018:076c:b685:e8ab:afd3:af51:3aed", Err AddrParse);
    (* Cannot end with colon *)
    (ascii_bytes "2a05:d018:076c:b685:e8ab:afd3:af51:3ae:", Err AddrParse);
    (* Cannot have more than seven colons *)
    (ascii_bytes "2a05:d018:076c:b685:e8ab:afd3:af51:3a::", Err AddrParse);
    (* Cannot contain two colons in a row *)
    (ascii_bytes "2a05::018:076c:b685:e8ab:afd3:af51:3aed", Err AddrParse);
    (* v Textual block size is longer *)
    (ascii_bytes "2a056:d018:076c:b685:e8ab:afd3:af51:3ae", Err AddrParse);
    (* v Textual block size is shorter *)
    (ascii_bytes "2a0:d018:076c:b685:e8ab:afd3:af51:3aed ", Err AddrParse);
    (* Shorter IPv6 address *)
    (ascii_bytes "d018:076c:b685:e8ab:afd3:af51:3aed", Err AddrParse);
    (* Longer IPv6 address *)
    (ascii_bytes "2a05:d018:076c:b685:e8ab:afd3:af51:3aed3aed", Err AddrParse);
    (* These are valid IPv6 addresses, but we don't support compressed addresses *)
    (ascii_bytes "0:0:0:0:0:0:0:1", Err AddrParse);
    (ascii_bytes "2a05:d018:76c:b685:e8ab:afd3:af51:3aed", Err AddrParse) ].

Definition IPV6_ADDRESSES : list (Input * outcome AddrParseError IpAddrRef) :=
  IPV6_ADDRESSES_1 ++ IPV6_ADDRESSES_2.

Definition parse_ipv6_address_test : test :=
  for_each IPV6_ADDRESSES (fun '(ip_address, expected_result) =>
    assert_eq (parse_ipv6_address ip_address) expected_result).

Definition IP_ADDRESSES : list (Input * outcome AddrParseError IpAddrRef) :=
  [ (* Valid IPv4 addresses *)
    (ascii_bytes "127.0.0.1", Ok (V4 (ascii_bytes "127.0.0.1") [x7f; x00; x00; x01]));
    (* Invalid IPv4 addresses *)
    (ascii_bytes "127.0.0.", Err AddrParse);
    (* Valid IPv6 addresses *)
    (ascii_bytes "0000:0000:0000:0000:0000:0000:0000:0001", Ok (V6 (ascii_bytes
     "0000:0000:0000:0000:0000:0000:0000:0001") [x00; x00; x00; x00; x00; x00; x00; x00; x00;
     x00; x00; x00; x00; x00; x00; x01]));
    (* Invalid IPv6 addresses *)
    (ascii_bytes "0:0:0:0:0:0:0:1", Err AddrParse);
    (* Something else *)
    (ascii_bytes "example.com", Err AddrParse) ].

Definition try_from_ascii_ip_address_test : test :=
  for_each IP_ADDRESSES (fun '(ip_address, expected_result) =>
    assert_eq (IpAddrRef_try_from_ascii ip_address) expected_result).

Definition IP_ADDRESSES_STR : list (Input * outcome AddrParseError IpAddrRef) :=
  [ (* Valid IPv4 addresses *)
    (ascii_bytes "127.0.0.1", Ok (V4 (ascii_bytes "127.0.0.1") [x7f; x00; x00; x01]));
    (* Invalid IPv4 addresses *)
    (ascii_bytes "127.0.0.", Err AddrParse);
    (* Valid IPv6 addresses *)
    (ascii_bytes "0000:0000:0000:0000:0000:0000:0000:0001", Ok (V6 (ascii_bytes
     "0000:0000:0000:0000:0000:0000:0000:0001") [x00; x00; x00; x00; x00; x00; x00; x00; x00;
     x00; x00; x00; x00; x00; x00; x01]));
    (* Invalid IPv6 addresses *)
    (ascii_bytes "0:0:0:0:0:0:0:1", Err AddrParse);
    (* Something else *)
    (ascii_bytes "example.com", Err AddrParse) ].

Definition try_from_ascii_str_ip_address_test : test :=
  for_each IP_ADDRESSES_STR (fun '(ip_address, expected_result) =>
    assert_eq (IpAddrRef_try_from_ascii_str ip_address) expected_result).

Definition ipv4_names_and_constraints : list (Input * Input * outcome Error bool) :=
  [ ([xc0; x00; x02; x00], [xc0; x00; x02; x00; xff; xff; xff; x00], Ok true);
    ([xc0; x00; x02; x01], [xc0; x00; x02; x00; xff; xff; xff; x00], Ok true);
    ([xc0; x00; x02; xff], [xc0; x00; x02; x00; xff; xff; xff; x00], Ok true);
    ([xc0; x00; x01; xff], [xc0; x00; x02; x00; xff; xff; xff; x00], Ok false);
    ([xc0; x00; x03; x00], [xc0; x00; x02; x00; xff; xff; xff; x00], Ok false) ].

Definition ipv4_constraint_lengths : list test :=
  [ (* Invalid name length (shorter) *)
    assert_eq (ip_presented_id_matches_constraint [xc0; x00; x02] [xc0; x00; x02; x00; xff; xff;
     xff; x00]) (Err BadDer);
    (* Invalid name length (longer) *)
    assert_eq (ip_presented_id_matches_constraint [xc0; x00; x02; x00; x00] [xc0; x00; x02; x00;
     xff; xff; xff; x00]) (Err BadDer);
    (* Unmatching constraint size (shorter) *)
    assert_eq (ip_presented_id_matches_constraint [xc0; x00; x02; x00] [xc0; x00; x02; x00; xff;
     xff; xff]) (Err InvalidNetworkMaskConstraint);
    (* Unmatching constraint size (longer) *)
    assert_eq (ip_presented_id_matches_constraint [xc0; x00; x02; x00] [xc0; x00; x02; x00; xff;
     xff; xff; x00; x00]) (Err InvalidNetworkMaskConstraint);
    (* Unmatching constraint size (IPv6 constraint for IPv4 address) *)
    assert_eq (ip_presented_id_matches_constraint [xc0; x00; x02; x00] [x20; x01; x0d; xb8; xab;
     xcd; x00; x12; x00; x00; x00; x00; x00; x00; x00; x00; xff; xff; xff; xff; xff; xff; xff;
     xff; x00; x00; x00; x00; x00; x00; x00; x00]) (Ok false) ].

Definition presented_id_matches_constraint_ipv4_test : test :=
  all_of
    (for_each ipv4_names_and_constraints (fun '(name, constraint, match_result) =>
       assert_eq (ip_presented_id_matches_constraint name constraint) match_result)
     :: ipv4_constraint_lengths).

Definition ipv6_names_and_constraints : list (Input * Input * outcome Error bool) :=
  [ ([x20; x01; x0d; xb8; xab; xcd; x00; x12; x00; x00; x00; x00; x00; x00; x00; x00], [x20;
     x01; x0d; xb8; xab; xcd; x00; x12; x00; x00; x00; x00; x00; x00; x00; x00; xff; xff; xff;
     xff; xff; xff; xff; xff; x00; x00; x00; x00; x00; x00; x00; x00], Ok true);
    ([x20; x01; x0d; xb8; xab; xcd; x00; x12; x00; x00; x00; x00; x00; x00; x00; x01], [x20;
     x01; x0d; xb8; xab; xcd; x00; x12; x00; x00; x00; x00; x00; x00; x00; x00; xff; xff; xff;
     xff; xff; xff; xff; xff; x00; x00; x00; x00; x00; x00; x00; x00], Ok true);
    ([x20; x01; x0d; xb8; xab; xcd; x00; x12; xff; xff; xff; xff; xff; xff; xff; xff], [x20;
     x01; x0d; xb8; xab; xcd; x00; x12; x00; x00; x00; x00; x00; x00; x00; x00; xff; xff; xff;
     xff; xff; xff; xff; xff; x00; x00; x00; x00; x00; x00; x00; x00], Ok true);
    ([x20; x01; x0d; xb8; xab; xcd; x00; x11; x00; x00; x00; x00; x00; x00; x00; x00], [x20;
     x01; x0d; xb8; xab; xcd; x00; x12; x00; x00; x00; x00; x00; x00; x00; x00; xff; xff; xff;
     xff; xff; xff; xff; xff; x00; x00; x00; x00; x00; x00; x00; x00], Ok false);
    ([x20; x01; x0d; xb8; xab; xcd; x00; x13; x00; x00; x00; x00; x00; x00; x00; x00], [x20;
     x01; x0d; xb8; xab; xcd; x00; x12; x00; x00; x00; x00; x00; x00; x00; x00; xff; xff; xff;
     xff; xff; xff; xff; xff; x00; x00; x00; x00; x00; x00; x00; x00], Ok false) ].

Definition ipv6_constraint_lengths : list test :=
  [ (* Invalid name length (shorter) *)
    assert_eq (ip_presented_id_matches_constraint [x20; x01; x0d; xb8; xab; xcd; x00; x12; x00;
     x00; x00; x00; x00; x00; x00] [x20; x01; x0d; xb8; xab; xcd; x00; x12; x00; x00; x00; x00;
     x00; x00; x00; x00; xff; xff; xff; xff; xff; xff; xff; xff; x00; x00; x00; x00; x00; x00;
     x00; x00]) (Err BadDer);
    (* Invalid name length (longer) *)
    assert_eq (ip_presented_id_matches_constraint [x20; x01; x0d; xb8; xab; xcd; x00; x12; x00;
     x00; x00; x00; x00; x00; x00; x00; x00] [x20; x01; x0d; xb8; xab; xcd; x00; x12; x00; x00;
     x00; x00; x00; x00; x00; x00; xff; xff; xff; xff; xff; xff; xff; xff; x00; x00; x00; x00;
     x00; x00; x00; x00]) (Err BadDer);
    (* Unmatching constraint size (shorter) *)
    assert_eq (ip_presented_id_matches_constraint [x20; x01; x0d; xb8; xab; xcd; x00; x12; x00;
     x00; x00; x00; x00; x00; x00; x00] [x20; x01; x0d; xb8; xab; xcd; x00; x12; x00; x00; x00;
     x00; x00; x00; x00; x00; xff; xff; xff; xff; xff; xff; xff; xff; x00; x00; x00; x00; x00;
     x00; x00]) (Err InvalidNetworkMaskConstraint);
    (* Unmatching constraint size (longer) *)
    assert_eq (ip_presented_id_matches_constraint [x20; x01; x0d; xb8; xab; xcd; x00; x12; x00;
     x00; x00; x00; x00; x00; x00; x00] [x20; x01; x0d; xb8; xab; xcd; x00; x12; x00; x00; x00;
     x00; x00; x00; x00; x00; xff; xff; xff; xff; xff; xff; xff; xff; x00; x00; x00; x00; x00;
     x00; x00; x00; x00]) (Err InvalidNetworkMaskConstraint);
    (* Unmatching constraint size (IPv4 constraint for IPv6 address) *)
    assert_eq (ip_presented_id_matches_constraint [x20; x01; x0d; xb8; xab; xcd; x00; x12; x00;
     x00; x00; x00; x00; x00; x00; x00] [xc0; x00; x02; x00; xff; xff; xff; x00]) (Ok false) ].

Definition presented_id_matches_constraint_ipv6_test : test :=
  all_of
    (for_each ipv6_names_and_constraints (fun '(name, constraint, match_result) =>
       assert_eq (ip_presented_id_matches_constraint name constraint) match_result)
     :: ipv6_constraint_lengths).

Definition test_presented_id_matches_reference_id : test :=
  all_of
    [ assert_eq (Ok false) (ip_presented_id_matches_reference_id [] []);
      assert_eq (Ok false) (ip_presented_id_matches_reference_id [x01] []);
      assert_eq (Ok false) (ip_presented_id_matches_reference_id [] [x01]);
      assert_eq (Ok true) (ip_presented_id_matches_reference_id [x01; x02; x03; x04] [x01; x02;
       x03; x04]);
      assert_eq (Ok false) (ip_presented_id_matches_reference_id [x01; x02; x03; x04; x05; x06;
       x07; x08; x09; x0a; x0b; x0c; x0d; x0e; x0f; x10] [x01; x02; x03; x04]);
      assert_eq (Ok false) (ip_presented_id_matches_reference_id [x01; x02; x03; x04] [x01; x02;
       x03; x04; x05; x06; x07; x08; x09; x0a; x0b; x0c; x0d; x0e; x0f; x10]);
      assert_eq (Ok true) (ip_presented_id_matches_reference_id [x01; x02; x03; x04; x05; x06;
       x07; x08; x09; x0a; x0b; x0c; x0d; x0e; x0f; x10] [x01; x02; x03; x04; x05; x06; x07; x08;
       x09; x0a; x0b; x0c; x0d; x0e; x0f; x10]) ].

Definition presented_id_matches_constraint_rejects_incorrect_length_arguments : test :=
  all_of
    [ (* wrong length names *)
      assert_eq (ip_presented_id_matches_constraint [x00; x00; x00] []) (Err BadDer);
      assert_eq (ip_presented_id_matches_constraint [x00; x00; x00; x00; x00] []) (Err BadDer);
      assert_eq (ip_presented_id_matches_constraint [x00; x00; x00; x00; x00; x00; x00; x00; x00;
       x00; x00; x00; x00; x00; x00] []) (Err BadDer);
      assert_eq (ip_presented_id_matches_constraint [x00; x00; x00; x00; x00; x00; x00; x00; x00;
       x00; x00; x00; x00; x00; x00; x00; x00] []) (Err BadDer);
      (* wrong length constraints *)
      assert_eq (ip_presented_id_matches_constraint [x00; x00; x00; x00] [x00; x00; x00; x00; xff;
       xff; xff]) (Err InvalidNetworkMaskConstraint);
      assert_eq (ip_presented_id_matches_constraint [x00; x00; x00; x00] [x00; x00; x00; x00; xff;
       xff; xff; xff; x00]) (Err InvalidNetworkMaskConstraint);
      assert_eq (ip_presented_id_matches_constraint [x00; x00; x00; x00; x00; x00; x00; x00; x00;
       x00; x00; x00; x00; x00; x00; x00] [x00; x00; x00; x00; x00; x00; x00; x00; x00; x00; x00;
       x00; x00; x00; x00; x00; xff; xff; xff; xff; xff; xff; xff; xff; xff; xff; xff; xff; xff;
       xff; xff]) (Err InvalidNetworkMaskConstraint);
      assert_eq (ip_presented_id_matches_constraint [x00; x00; x00; x00; x00; x00; x00; x00; x00;
       x00; x00; x00; x00; x00; x00; x00] [x00; x00; x00; x00; x00; x00; x00; x00; x00; x00; x00;
       x00; x00; x00; x00; x00; xff; xff; xff; xff; xff; xff; xff; xff; xff; xff; xff; xff; xff;
       xff; xff; xff; xff]) (Err InvalidNetworkMaskConstraint);
      (* ipv4-length not considered for ipv6-length name, and vv *)
      assert_eq (ip_presented_id_matches_constraint [x00; x00; x00; x00] [x00; x00; x00; x00; x00;
       x00; x00; x00; x00; x00; x00; x00; x00; x00; x00; x00; xff; xff; xff; xff; xff; xff; xff;
       xff; xff; xff; xff; xff; xff; xff; xff; xff]) (Ok false);
      assert_eq (ip_presented_id_matches_constraint [x00; x00; x00; x00; x00; x00; x00; x00; x00;
       x00; x00; x00; x00; x00; x00; x00] [x00; x00; x00; x00; xff; xff; xff; xff]) (Ok false) ].

Definition ip_addresses_text : list (IpAddrRef * Input) :=
  [ (* IPv4 addresses *)
    (V4 (ascii_bytes "127.0.0.1") [x7f; x00; x00; x01], ascii_bytes "127.0.0.1");
    (* IPv6 addresses *)
    (V6 (ascii_bytes "0000:0000:0000:0000:0000:0000:0000:0001") [x00; x00; x00; x00; x00; x00;
     x00; x00; x00; x00; x00; x00; x00; x00; x00; x01], ascii_bytes
     "0000:0000:0000:0000:0000:0000:0000:0001") ].

Definition str_from_ip_address_ref_test : test :=
  for_each ip_addresses_text (fun '(ip_address, expected_ip_address) =>
    assert_eq (IpAddrRef_str (E := Error) ip_address) (Ok expected_ip_address)).

Definition ip_addresses_bytes : list (IpAddrRef * Input) :=
  [ (* IPv4 addresses *)
    (V4 (ascii_bytes "127.0.0.1") [x7f; x00; x00; x01], ascii_bytes "127.0.0.1");
    (* IPv6 addresses *)
    (V6 (ascii_bytes "0000:0000:0000:0000:0000:0000:0000:0001") [x00; x00; x00; x00; x00; x00;
     x00; x00; x00; x00; x00; x00; x00; x00; x00; x01], ascii_bytes
     "0000:0000:0000:0000:0000:0000:0000:0001") ].

Definition u8_array_from_ip_address_ref_test : test :=
  for_each ip_addresses_bytes (fun '(ip_address, expected_ip_address) =>
    assert_eq (IpAddrRef_bytes ip_address) expected_ip_address).

(** ** The tests of the owned addresses *)
Definition localhost4 : Input := ascii_bytes "127.0.0.1".
Definition localhost4_octets : list u8 := [x7f; x00; x00; x01].
Definition localhost6 : Input := ascii_bytes "0000:0000:0000:0000:0000:0000:0000:0001".
Definition localhost6_octets : list u8 := repeat x00 15 ++ [x01].

Definition as_ref_ip_address_test : test :=
  all_of
    [ assert_eq (IpAddr_as_ref (IpAddr_V4 localhost4 localhost4_octets)) localhost4;
      assert_eq (IpAddr_as_ref (IpAddr_V6 localhost6 localhost6_octets)) localhost6 ].

Definition from_ip_address_ref_for_ip_address_test : test :=
  all_of
    [ assert_eq (IpAddr_from_ref (E := Error) (V4 localhost4 localhost4_octets))
        (Ok (IpAddr_V4 localhost4 localhost4_octets));
      assert_eq (IpAddr_from_ref (E := Error) (V6 localhost6 localhost6_octets))
        (Ok (IpAddr_V6 localhost6 localhost6_octets)) ].

Definition from_ip_address_for_ip_address_ref_test : test :=
  all_of
    [ assert_eq (IpAddrRef_from (IpAddr_V4 localhost4 localhost4_octets))
        (V4 localhost4 localhost4_octets);
      assert_eq (IpAddrRef_from (IpAddr_V6 localhost6 localhost6_octets))
        (V6 localhost6 localhost6_octets) ].

Definition display_invalid_ip_address_error_test : test :=
  assert_eq (AddrParseError_display AddrParse) (ascii_bytes "AddrParseError").

Definition ip_address_ref_to_owned_test : test :=
  all_of
    [ assert_eq (IpAddrRef_to_owned (E := Error) (V4 localhost4 localhost4_octets))
        (Ok (IpAddr_V4 localhost4 localhost4_octets));
      assert_eq (IpAddrRef_to_owned (E := Error) (V6 localhost6 localhost6_octets))
        (Ok (IpAddr_V6 localhost6 localhost6_octets)) ].

Definition ip_address_from_std_net_ipaddr_test : test :=
  for_each
    [ (StdV4 localhost4_octets, IpAddr_V4 localhost4 localhost4_octets);
      (StdV6 localhost6_octets, IpAddr_V6 localhost6 localhost6_octets) ]
    (fun '(ip_address, expected_ip_address) =>
       assert_eq (IpAddr_from_std ip_address) expected_ip_address).

Definition ipv6_to_uncompressed_string_test : test :=
  for_each
    [ ([x00; x00; x00; x00; x00; x00; x00; x00; x00; x00; x00; x00; x00; x00; x00; x01],
       ascii_bytes "0000:0000:0000:0000:0000:0000:0000:0001");
      ([x2a; x05; xd0; x18; x07; x6c; xb6; x84; x8e; x48; x47; xc9; x84; xaa; xb3; x4d],
       ascii_bytes "2a05:d018:076c:b684:8e48:47c9:84aa:b34d") ]
    (fun '(ip_address_octets, expected_result) =>
       assert_eq (ipv6_to_uncompressed_string ip_address_octets) expected_result).

(** The presented address, the address and the mask of the constraint, the result. *)

Definition IP_PRESENTED_MATCHES_CONSTRAINT : list (Input * Input * Input * outcome Error bool) :=
  [ (* Cannot mix IpV4 with IpV6 and viceversa *)
    (ascii_bytes "2001:db8::", ascii_bytes "8.8.8.8", ascii_bytes "255.255.255.255", Ok false);
    (ascii_bytes "8.8.8.8", ascii_bytes "2001:db8::", ascii_bytes "ffff::", Ok false);
    (* IpV4 non-contiguous masks *)
    (ascii_bytes "8.8.8.8", ascii_bytes "8.8.8.8", ascii_bytes "255.255.255.1", Err
     InvalidNetworkMaskConstraint);
    (ascii_bytes "8.8.8.8", ascii_bytes "8.8.8.8", ascii_bytes "255.255.0.255", Err
     InvalidNetworkMaskConstraint);
    (ascii_bytes "8.8.8.8", ascii_bytes "8.8.8.8", ascii_bytes "255.0.255.255", Err
     InvalidNetworkMaskConstraint);
    (ascii_bytes "8.8.8.8", ascii_bytes "8.8.8.8", ascii_bytes "0.255.255.255", Err
     InvalidNetworkMaskConstraint);
    (ascii_bytes "8.8.8.8", ascii_bytes "8.8.8.8", ascii_bytes "1.255.255.255", Err
     InvalidNetworkMaskConstraint);
    (ascii_bytes "8.8.8.8", ascii_bytes "8.8.8.8", ascii_bytes "128.128.128.128", Err
     InvalidNetworkMaskConstraint);
    (* IpV4 *)
    (ascii_bytes "8.8.8.8", ascii_bytes "8.8.8.8", ascii_bytes "255.255.255.255", Ok true);
    (ascii_bytes "8.8.8.9", ascii_bytes "8.8.8.8", ascii_bytes "255.255.255.255", Ok false);
    (ascii_bytes "8.8.8.9", ascii_bytes "8.8.8.8", ascii_bytes "255.255.255.254", Ok true);
    (ascii_bytes "8.8.8.10", ascii_bytes "8.8.8.8", ascii_bytes "255.255.255.254", Ok false);
    (ascii_bytes "8.8.8.10", ascii_bytes "8.8.8.8", ascii_bytes "255.255.255.0", Ok true);
    (ascii_bytes "8.8.15.10", ascii_bytes "8.8.8.8", ascii_bytes "255.255.248.0", Ok true);
    (ascii_bytes "8.8.16.10", ascii_bytes "8.8.8.8", ascii_bytes "255.255.248.0", Ok false);
    (ascii_bytes "8.8.16.10", ascii_bytes "8.8.8.8", ascii_bytes "255.255.0.0", Ok true);
    (ascii_bytes "8.31.16.10", ascii_bytes "8.8.8.8", ascii_bytes "255.224.0.0", Ok true);
    (ascii_bytes "8.32.16.10", ascii_bytes "8.8.8.8", ascii_bytes "255.224.0.0", Ok false);
    (ascii_bytes "8.32.16.10", ascii_bytes "8.8.8.8", ascii_bytes "255.0.0.0", Ok true);
    (ascii_bytes "63.32.16.10", ascii_bytes "8.8.8.8", ascii_bytes "192.0.0.0", Ok true);
    (ascii_bytes "64.32.16.10", ascii_bytes "8.8.8.8", ascii_bytes "192.0.0.0", Ok false);
    (ascii_bytes "64.32.16.10", ascii_bytes "8.8.8.8", ascii_bytes "0.0.0.0", Ok true);
    (* IpV6 non-contiguous masks *)
    (ascii_bytes "2001:db8::", ascii_bytes "2001:db8::", ascii_bytes "fffe:ffff::", Err
     InvalidNetworkMaskConstraint);
    (ascii_bytes "2001:db8::", ascii_bytes "2001:db8::", ascii_bytes "ffff:fdff::", Err
     InvalidNetworkMaskConstraint);
    (ascii_bytes "2001:db8::", ascii_bytes "2001:db8::", ascii_bytes "ffff:feff::", Err
     InvalidNetworkMaskConstraint);
    (ascii_bytes "2001:db8::", ascii_bytes "2001:db8::", ascii_bytes "ffff:fcff::", Err
     InvalidNetworkMaskConstraint);
    (ascii_bytes "2001:db8::", ascii_bytes "2001:db8::", ascii_bytes "7fff:ffff::", Err
     InvalidNetworkMaskConstraint);
    (* IpV6 *)
    (ascii_bytes "2001:db8::", ascii_bytes "2001:db8::", ascii_bytes "ffff:ffff::", Ok true);
    (ascii_bytes "2001:db9::", ascii_bytes "2001:db8::", ascii_bytes "ffff:ffff::", Ok false);
    (ascii_bytes "2001:db9::", ascii_bytes "2001:db8::", ascii_bytes "ffff:fffe::", Ok true);
    (ascii_bytes "2001:dba::", ascii_bytes "2001:db8::", ascii_bytes "ffff:fffe::", Ok false);
    (ascii_bytes "2001:dba::", ascii_bytes "2001:db8::", ascii_bytes "ffff:ff00::", Ok true);
    (ascii_bytes "2001:dca::", ascii_bytes "2001:db8::", ascii_bytes "ffff:fe00::", Ok true);
    (ascii_bytes "2001:fca::", ascii_bytes "2001:db8::", ascii_bytes "ffff:fe00::", Ok false);
    (ascii_bytes "2001:fca::", ascii_bytes "2001:db8::", ascii_bytes "ffff:0000::", Ok true);
    (ascii_bytes "2000:fca::", ascii_bytes "2001:db8::", ascii_bytes "fffe:0000::", Ok true);
    (ascii_bytes "2003:fca::", ascii_bytes "2001:db8::", ascii_bytes "fffe:0000::", Ok false);
    (ascii_bytes "2003:fca::", ascii_bytes "2001:db8::", ascii_bytes "ff00:0000::", Ok true);
    (ascii_bytes "1003:fca::", ascii_bytes "2001:db8::", ascii_bytes "e000:0000::", Ok false);
    (ascii_bytes "1003:fca::", ascii_bytes "2001:db8::", ascii_bytes "0000:0000::", Ok true) ].

(** [str::parse::<std::net::IpAddr>] of the standard library, without the mixed
    notation of IPv6 addresses that end with an IPv4 address: decimal octets
    without leading zeros, or groups of up to four hexadecimal digits with at
    most one gap of zeros. *)
Fixpoint split_on (separator : u8) (l : list u8) : list (list u8) :=
  match l with
  | [] => [[]]
  | b :: l =>
    match split_on separator l with
    | group :: groups =>
      if u8_eqb b separator then [] :: group :: groups else (b :: group) :: groups
    | [] => []
    end
  end.

Definition std_octet (digits : list u8) : option u8 :=
  let value := fold_left (fun acc b => acc * 10 + (u8_to_Z b - u8_to_Z "0")) digits 0 in
  if (1 <=? length digits)%nat && (length digits <=? 3)%nat && forallb (u8_in "0" "9") digits
     && ((length digits =? 1)%nat || negb (bool_decide (head digits = Some "0"%byte)))
     && (value <? 256)
  then Some (u8_of_Z value) else None.

Definition std_group (digits : list u8) : option (list u8) :=
  if (1 <=? length digits)%nat && (length digits <=? 4)%nat then
    values ← mapM to_digit16 digits;
    let value := fold_left (fun acc v => acc * 16 + v) values 0 in
    Some [u8_of_Z (value / 256); u8_of_Z (value mod 256)]
  else None.

Definition std_groups (l : list u8) : option (list u8) :=
  match l with
  | [] => Some []
  | _ => (fun groups => concat groups) <$> mapM std_group (split_on ":" l)
  end.

(** The texts before and after the first double colon. *)
Fixpoint split_gap (l : list u8) : option (list u8 * list u8) :=
  match l with
  | [] => None
  | b :: l' =>
    match l' with
    | c :: after =>
      if u8_eqb b ":" && u8_eqb c ":" then Some ([], after)
      else '(before, after) ← split_gap l'; Some (b :: before, after)
    | [] => None
    end
  end.

Definition std_ipv6 (l : list u8) : option (list u8) :=
  match split_gap l with
  | None => octets ← std_groups l; if (length octets =? 16)%nat then Some octets else None
  | Some (before, after) =>
    a ← std_groups before;
    b ← std_groups after;
    if (length a + length b <=? 14)%nat
    then Some (a ++ repeat x00 (16 - (length a + length b)) ++ b) else None
  end.

Definition std_ipv4 (l : list u8) : option (list u8) :=
  octets ← mapM std_octet (split_on "." l);
  if (length octets =? 4)%nat then Some octets else None.

Definition std_parse_ip (l : list u8) : outcome AddrParseError StdIpAddr :=
  match std_ipv4 l, std_ipv6 l with
  | Some octets, _ => Ok (StdV4 octets)
  | None, Some octets => Ok (StdV6 octets)
  | None, None => Err AddrParse
  end.

Definition std_octets (ip_address : StdIpAddr) : list u8 :=
  match ip_address with StdV4 octets | StdV6 octets => octets end.

Definition ip_presented_matches_constraint_test : test :=
  for_each IP_PRESENTED_MATCHES_CONSTRAINT
    (fun '(presented, constraint_address, constraint_mask, expected_result) =>
       let? presented_bytes := result_unwrap (std_parse_ip presented) in
       let? ca_bytes := result_unwrap (std_parse_ip constraint_address) in
       let? cm_bytes := result_unwrap (std_parse_ip constraint_mask) in
       let constraint_bytes := std_octets ca_bytes ++ std_octets cm_bytes in
       let actual_result :=
         ip_presented_id_matches_constraint (std_octets presented_bytes) constraint_bytes in
       assert_eq actual_result expected_result).

(** ** The tests pass *)
Lemma presented_matches_reference_test_passes : passes presented_matches_reference_test.
Proof. evaluate. Qed.

Lemma dns_presented_matches_constraint_test_passes :
  passes dns_presented_matches_constraint_test.
Proof. evaluate. Qed.

Lemma parse_ipv4_address_test_passes : passes parse_ipv4_address_test.
Proof. evaluate. Qed.

Lemma parse_ipv6_address_test_passes : passes parse_ipv6_address_test.
Proof. evaluate. Qed.

Lemma try_from_ascii_ip_address_test_passes : passes try_from_ascii_ip_address_test.
Proof. evaluate. Qed.

Lemma try_from_ascii_str_ip_address_test_passes : passes try_from_ascii_str_ip_address_test.
Proof. evaluate. Qed.

Lemma presented_id_matches_constraint_ipv4_test_passes :
  passes presented_id_matches_constraint_ipv4_test.
Proof. evaluate. Qed.

Lemma presented_id_matches_constraint_ipv6_test_passes :
  passes presented_id_matches_constraint_ipv6_test.
Proof. evaluate. Qed.

Lemma test_presented_id_matches_reference_id_passes :
  passes test_presented_id_matches_reference_id.
Proof. evaluate. Qed.

Lemma presented_id_matches_constraint_rejects_incorrect_length_arguments_passes :
  passes presented_id_matches_constraint_rejects_incorrect_length_arguments.
Proof. evaluate. Qed.

Lemma str_from_ip_address_ref_test_passes : passes str_from_ip_address_ref_test.
Proof. evaluate. Qed.

Lemma u8_array_from_ip_address_ref_test_passes : passes u8_array_from_ip_address_ref_test.
Proof. evaluate. Qed.

Lemma as_ref_ip_address_test_passes : passes as_ref_ip_address_test.
Proof. evaluate. Qed.

Lemma from_ip_address_ref_for_ip_address_test_passes :
  passes from_ip_address_ref_for_ip_address_test.
Proof. evaluate. Qed.

Lemma from_ip_address_for_ip_address_ref_test_passes :
  passes from_ip_address_for_ip_address_ref_test.
Proof. evaluate. Qed.

Lemma display_invalid_ip_address_error_test_passes :
  passes display_invalid_ip_address_error_test.
Proof. evaluate. Qed.

Lemma ip_address_ref_to_owned_test_passes : passes ip_address_ref_to_owned_test.
Proof. evaluate. Qed.

Lemma ip_address_from_std_net_ipaddr_test_passes : passes ip_address_from_std_net_ipaddr_test.
Proof. evaluate. Qed.

Lemma ipv6_to_uncompressed_string_test_passes : passes ipv6_to_uncompressed_string_test.
Proof. evaluate. Qed.

Lemma ip_presented_matches_constraint_test_passes : passes ip_presented_matches_constraint_test.
Proof. evaluate. Qed.
