(* ===== verification/Recorded.v ===== *)
(** * Recorded answers of the ring crate

    The integration tests verify real signatures.  The ring crate is a
    parameter, so what a test needs of it is stated as its answers on given
    signatures: [agrees] says that ring gives them.  A ring that agrees with a
    record can be exchanged, by [build_chain_same], for one that looks the
    answers up, with which a test can be evaluated. *)
From S2P Require Import Prelude Errors Untrusted Der Samples Time SignedData RingAlgs Cert Crl.
From S2P Require Import TrustAnchor VerifyCert EndEntity Path Revocation Testing.

(** ** Answers *)
Record answer : Type := {
  by_algorithm : ring_name;
  under_key : Input;
  on_message : Input;
  on_signature : Input;
  verdict : bool;
}.

Definition agrees (R : Ring) (record : list answer) : Prop :=
  Forall (fun a => ring_verify (named (by_algorithm a)) (under_key a) (on_message a)
                     (on_signature a) = verdict a) record.

Definition answers_query (name : ring_name) (key message signature : Input) (a : answer)
    : bool :=
  bool_decide (by_algorithm a = name) && bytes_eqb (under_key a) key
  && bytes_eqb (on_signature a) signature && bytes_eqb (on_message a) message.

(** The ring that looks its answers up in a record, and asks [R] for the others. *)
Definition recorded (R : Ring) (record : list answer) : Ring := {|
  VerificationAlgorithm := ring_name;
  ring_verify name key message signature :=
    match List.find (answers_query name key message signature) record with
    | Some a => verdict a
    | None => ring_verify (named name) key message signature
    end;
  ring_ECDSA_P256_SHA256_ASN1 := RN_ECDSA_P256_SHA256;
  ring_ECDSA_P256_SHA384_ASN1 := RN_ECDSA_P256_SHA384;
  ring_ECDSA_P384_SHA256_ASN1 := RN_ECDSA_P384_SHA256;
  ring_ECDSA_P384_SHA384_ASN1 := RN_ECDSA_P384_SHA384;
  ring_RSA_PKCS1_2048_8192_SHA256 := RN_RSA_PKCS1_2048_8192_SHA256;
  ring_RSA_PKCS1_2048_8192_SHA384 := RN_RSA_PKCS1_2048_8192_SHA384;
  ring_RSA_PKCS1_2048_8192_SHA512 := RN_RSA_PKCS1_2048_8192_SHA512;
  ring_RSA_PKCS1_3072_8192_SHA384 := RN_RSA_PKCS1_3072_8192_SHA384;
  ring_RSA_PSS_2048_8192_SHA256 := RN_RSA_PSS_2048_8192_SHA256;
  ring_RSA_PSS_2048_8192_SHA384 := RN_RSA_PSS_2048_8192_SHA384;
  ring_RSA_PSS_2048_8192_SHA512 := RN_RSA_PSS_2048_8192_SHA512;
  ring_ED25519 := RN_ED25519;
|}.

(** A ring that agrees with the record gives the same verdicts. *)
Lemma recorded_verify R record name key message signature : agrees R record ->
  ring_verify (Ring := recorded R record) name key message signature
  = ring_verify (Ring := R) (named name) key message signature.
Proof.
  intros H. simpl. destruct (List.find _ record) as [a|] eqn:Ef; [|done].
  apply find_some in Ef as [Hin Ha].
  unfold agrees in H. rewrite List.Forall_forall in H. rewrite <- (H a Hin).
  unfold answers_query in Ha. rewrite !andb_true_iff, bool_decide_eq_true, !bytes_eqb_eq in Ha.
  by destruct Ha as [[[-> ->] ->] ->].
Qed.

(** The hypothesis can hold: a record with one verdict for each query is that of
    the ring that looks it up. *)
Definition one_verdict (record : list answer) : Prop :=
  forall a b, a ∈ record -> b ∈ record ->
    answers_query (by_algorithm a) (under_key a) (on_message a) (on_signature a) b = true ->
    verdict b = verdict a.

Lemma recorded_agrees R record : one_verdict record -> agrees (recorded R record) record.
Proof.
  intros H. apply Forall_forall. intros a Ha.
  assert (named (R := recorded R record) (by_algorithm a) = by_algorithm a) as ->
    by (by destruct (by_algorithm a)).
  simpl. destruct (List.find _ record) as [b|] eqn:Ef.
  - apply find_some in Ef as [Hb Hq]. apply H; [done| |done]. by apply list_elem_of_In.
  - apply list_elem_of_In in Ha. eapply find_none in Ef; [|exact Ha].
    unfold answers_query in Ef. rewrite !andb_false_iff, bool_decide_eq_false in Ef.
    assert (forall x, bytes_eqb x x = true) as Hx by (intros; by apply bytes_eqb_eq).
    rewrite !Hx in Ef. naive_solver.
Qed.

Lemma recorded_same R record key_id sig_id name : agrees R record ->
  same_algorithm
    (ring_algorithm (R := R)
       {| ring_public_key_alg_id := key_id; ring_signature_alg_id := sig_id;
          verification_alg := named (R := R) name |})
    (ring_algorithm (R := recorded R record)
       {| ring_public_key_alg_id := key_id; ring_signature_alg_id := sig_id;
          verification_alg := (name : @VerificationAlgorithm (recorded R record)) |}).
Proof. intros H. split; [done|done|]. intros. symmetry. by apply recorded_verify. Qed.

(** The algorithms of the crate, over [R] and over the record. *)
Section CrateAlgorithms.
Context {R : Ring} {record : list answer} (H : agrees R record).
#[local] Abbreviation over_record f := (same_algorithm (f R) (f (recorded R record))).

Lemma recorded_ECDSA_P256_SHA256 : over_record (@ECDSA_P256_SHA256).
Proof. by apply (recorded_same _ _ _ _ RN_ECDSA_P256_SHA256). Qed.
Lemma recorded_ECDSA_P256_SHA384 : over_record (@ECDSA_P256_SHA384).
Proof. by apply (recorded_same _ _ _ _ RN_ECDSA_P256_SHA384). Qed.
Lemma recorded_ECDSA_P384_SHA256 : over_record (@ECDSA_P384_SHA256).
Proof. by apply (recorded_same _ _ _ _ RN_ECDSA_P384_SHA256). Qed.
Lemma recorded_ECDSA_P384_SHA384 : over_record (@ECDSA_P384_SHA384).
Proof. by apply (recorded_same _ _ _ _ RN_ECDSA_P384_SHA384). Qed.
Lemma recorded_RSA_PKCS1_2048_8192_SHA256 : over_record (@RSA_PKCS1_2048_8192_SHA256).
Proof. by apply (recorded_same _ _ _ _ RN_RSA_PKCS1_2048_8192_SHA256). Qed.
Lemma recorded_RSA_PKCS1_2048_8192_SHA384 : over_record (@RSA_PKCS1_2048_8192_SHA384).
Proof. by apply (recorded_same _ _ _ _ RN_RSA_PKCS1_2048_8192_SHA384). Qed.
Lemma recorded_RSA_PKCS1_2048_8192_SHA512 : over_record (@RSA_PKCS1_2048_8192_SHA512).
Proof. by apply (recorded_same _ _ _ _ RN_RSA_PKCS1_2048_8192_SHA512). Qed.
Lemma recorded_RSA_PKCS1_3072_8192_SHA384 : over_record (@RSA_PKCS1_3072_8192_SHA384).
Proof. by apply (recorded_same _ _ _ _ RN_RSA_PKCS1_3072_8192_SHA384). Qed.
Lemma recorded_RSA_PSS_2048_8192_SHA256_LEGACY_KEY :
  over_record (@RSA_PSS_2048_8192_SHA256_LEGACY_KEY).
Proof. by apply (recorded_same _ _ _ _ RN_RSA_PSS_2048_8192_SHA256). Qed.
Lemma recorded_RSA_PSS_2048_8192_SHA384_LEGACY_KEY :
  over_record (@RSA_PSS_2048_8192_SHA384_LEGACY_KEY).
Proof. by apply (recorded_same _ _ _ _ RN_RSA_PSS_2048_8192_SHA384). Qed.
Lemma recorded_RSA_PSS_2048_8192_SHA512_LEGACY_KEY :
  over_record (@RSA_PSS_2048_8192_SHA512_LEGACY_KEY).
Proof. by apply (recorded_same _ _ _ _ RN_RSA_PSS_2048_8192_SHA512). Qed.
Lemma recorded_ED25519 : over_record (@ED25519).
Proof. by apply (recorded_same _ _ _ _ RN_ED25519). Qed.
End CrateAlgorithms.

Create HintDb recorded discriminated.
#[export] Hint Constants Opaque : recorded.
#[export] Hint Resolve recorded_ECDSA_P256_SHA256 recorded_ECDSA_P256_SHA384
  recorded_ECDSA_P384_SHA256 recorded_ECDSA_P384_SHA384
  recorded_RSA_PKCS1_2048_8192_SHA256 recorded_RSA_PKCS1_2048_8192_SHA384
  recorded_RSA_PKCS1_2048_8192_SHA512 recorded_RSA_PKCS1_3072_8192_SHA384
  recorded_RSA_PSS_2048_8192_SHA256_LEGACY_KEY
  recorded_RSA_PSS_2048_8192_SHA384_LEGACY_KEY
  recorded_RSA_PSS_2048_8192_SHA512_LEGACY_KEY recorded_ED25519 : recorded.

(** The head of an application. *)
Ltac head_of t := lazymatch t with ?f _ => head_of f | _ => t end.

(** A list of the algorithms, over [R] and over the record. *)
Ltac recorded_algorithms :=
  try (lazymatch goal with |- Forall2 _ ?algs _ => let f := head_of algs in unfold f end);
  repeat (apply Forall2_cons_2; [solve [auto with recorded nocore]|]);
  apply Forall2_nil_2.

(** ** The answers of a chain *)
#[local] Existing Instance slice_reader.

(** The key of a certificate, and what the issuer of a file signed. *)
Definition key_of (cert_der : Input) : Input :=
  match
    (let? anchor := extract_trust_anchor cert_der in
     der_read_all (T := SubjectPublicKeyInfo) (ta_subject_public_key_info anchor))
  with
  | Ok spki => key_value spki
  | _ => []
  end.
Definition signed_by_issuer (der : Input) : Input * Input :=
  match
    run (nested_limited Sequence (TrailingData SignedDataId) (SignedData_from_der MAX_DER_SIZE)
           MAX_DER_SIZE) der
  with
  | Ok (_, signed_data) => (data signed_data, signature signed_data)
  | _ => ([], [])
  end.

(** The answer on the signature of [der] under the key of [issuer_der]. *)
Definition chain_answer (name : ring_name) (issuer_der der : Input) (accepted : bool)
    : answer := {|
  by_algorithm := name;
  under_key := key_of issuer_der;
  on_message := fst (signed_by_issuer der);
  on_signature := snd (signed_by_issuer der);
  verdict := accepted;
|}.

(** The answers of a chain, each of whose files is signed by the next one. *)
Fixpoint chain_answers (name : ring_name) (chain : list Input) : list answer :=
  match chain with
  | der :: ((issuer_der :: _) as rest) =>
    chain_answer name issuer_der der true :: chain_answers name rest
  | _ => []
  end.

(** ** Validation over a record *)

Inductive of_crate : dyn_crl -> Prop :=
  | of_crate_borrowed crl : of_crate (borrowed_dyn crl)
  | of_crate_owned crl : of_crate (owned_dyn crl).
Definition lists_of_crate (r : RevocationOptions) : Prop := Forall of_crate (crls r).

(** Equivalent algorithms validate alike, with the lists of the crate. *)
Lemma verify_for_usage_same ee algs algs' anchors intermediates time usage r :
  Forall2 same_algorithm algs algs' -> from_option lists_of_crate True r ->
  verify_for_usage ee algs anchors intermediates time usage r
  = verify_for_usage ee algs' anchors intermediates time usage r.
Proof.
  intros Halgs Hr. unfold verify_for_usage. apply build_chain_same. split; try done. cbn.
  destruct r as [r|]; constructor. split_and!; [done|done|].
  unfold from_option, lists_of_crate in Hr.
  induction Hr as [|d l [crl|crl] _ IH]; constructor; [|done| |done];
    [by apply borrowed_alike|by apply owned_alike].
Qed.

(** Programs that go on alike. *)
Lemma obind_congruent {E A B} (m m' : outcome E A) (f g : A -> outcome E B) :
  m = m' -> (forall a, m = Ok a -> f a = g a) -> obind m f = obind m' g.
Proof. intros <-. destruct m; simpl; auto. Qed.

(** The lists of built options are those given to the builder. *)
Lemma built_of_crate lists builder : Forall of_crate lists ->
  result_unwrap (RevocationOptionsBuilder_new lists) = Ok builder ->
  Forall of_crate (builder_crls builder).
Proof. destruct lists; simpl; intros H [= <-]. done. Qed.

Ltac built_from_crate :=
  try exact I;
  lazymatch goal with
  | H : result_unwrap (RevocationOptionsBuilder_new _) = Ok _ |- _ =>
    apply built_of_crate in H; [exact H|repeat constructor]
  end.

(** The [?] operator in a function of a test, which may also panic. *)
Definition continue_with (r : outcome Error unit) (k : outcome Empty_set (outcome Error unit))
    : outcome Empty_set (outcome Error unit) :=
  match r with
  | Ok _ => k
  | Err e => Ok (Err e)
  | Panic => Panic
  | OutOfFuel => OutOfFuel
  end.

(** The results of a test that matter below are those of the builder. *)
Ltac forget_results :=
  lazymatch goal with
  | H : result_unwrap (RevocationOptionsBuilder_new _) = Ok _ |- _ => idtac
  | H : _ = Ok _ |- _ => clear H
  | |- _ => idtac
  end.

(** A program over [R] and over the record: only the parts that depend on the
    ring are looked into, down to the validations. *)
Ltac over_the_record :=
  cbv beta zeta;
  lazymatch goal with
  | |- ?a = ?b =>
    tryif constr_eq a b then reflexivity
    else
      lazymatch goal with
      | |- obind _ _ = obind _ _ =>
        apply obind_congruent; [over_the_record|intros ? ?; forget_results; over_the_record]
      | |- Ok ?a = Ok ?b => refine (f_equal Ok (_ : a = b)); over_the_record
      | |- assert_eq ?a ?r = assert_eq ?b ?r =>
        refine (f_equal (fun result => assert_eq result r) (_ : a = b)); over_the_record
      | |- continue_with ?a ?k = continue_with ?b ?k =>
        refine (f_equal (fun result => continue_with result k) (_ : a = b)); over_the_record
      | |- verify_for_usage _ _ _ _ _ _ _ = _ =>
        apply verify_for_usage_same; [recorded_algorithms|built_from_crate]
      | |- _ => let f := head_of a in unfold f; over_the_record
      end
  end.

(** Tests with answers of the ring crate, and tests that need none. *)
Ltac by_record :=
  let H := fresh "H" in
  intros H; unfold passes;
  lazymatch goal with
  | |- ?test ?R = _ =>
    lazymatch type of H with
    | agrees _ ?record =>
      transitivity (test (recorded R record)); [over_the_record|vm_compute; reflexivity]
    end
  end.
Ltac by_no_record := evaluate.

(** ** [ALL_SIGALGS] of the files under [src/tests/] *)
Definition ALL_SIGALGS `{R : Ring} : list SignatureVerificationAlgorithm :=
  [ ECDSA_P256_SHA256; ECDSA_P256_SHA384; ECDSA_P384_SHA256; ECDSA_P384_SHA384; ED25519;
    RSA_PKCS1_2048_8192_SHA256; RSA_PKCS1_2048_8192_SHA384; RSA_PKCS1_2048_8192_SHA512;
    RSA_PKCS1_3072_8192_SHA384 ].
