(* ===== verification/TestData.v ===== *)
(** * Files of the unit tests

    Certificates and revocation lists under [src/tests/], byte for byte, that the
    unit tests of [src/cert.rs], [src/crl.rs] and [src/verify_cert.rs] include. *)
From Stdlib Require Import Strings.String.
From S2P Require Import Prelude Untrusted Testing.

#[local] Open Scope string_scope.

(** [tests/misc/serial_neg_ee.der] *)
Definition serial_neg_ee_der : Input := hex "
30820313308201fba0030201020205ff21524111300d06092a864886f70d01010b0500301d311b301906035504030c12
64656d6f2e73657269616c6e65672e636f6d301e170d3232313130323135303030395a170d3332303830313135303030
395a301d311b301906035504030c1264656d6f2e73657269616c6e65672e636f6d30820122300d06092a864886f70d01
010105000382010f003082010a0282010100ba06dab6f936380b93a81e1dda263dabf8537c28081c24039d30b2cf2d23
1d55a348aa93654059034fed73c35dce4ff14cb60252f21ec8e972c797245140a3276120249d5a856f6cb46aa9982ee5
2d988bda7f0aad5e7463461585c848721673b76abea67b696b4d5a13a28657af8d3ef93622d2b568b0b187e68c6aaac7
ed654c01e394dac6169a9d8024654bb9ebe183bb01918ad9e8a8cd9b8ccfef972210b313bf66421d2428cd9cf9fcd1d0
338d2dd4eb72597c6b15fee0d676b7edf0df206e0ea8b865d8da1d8fdb0e61b2f875a64a70861e00217e2674abd727fc
7ac7e8686c6daf63b5b85c6978a9aedf1ab9de6e252a7396f32d05831278082fdd510203010001a35a3058301f060355
1d23041830168014a4889dc1edf37c3030d8ebec846d749d64d146e530090603551d1304023000300b0603551d0f0404
030204f0301d0603551d1104163014821264656d6f2e73657269616c6e65672e636f6d300d06092a864886f70d01010b
0500038201010066e9fd498080f92593e27ef48336258588a944927176afb18657977983e01c984b63117e4b8f0869c5
1ded18882bf1d873119e812bdc9fa52a71ce34ac8c700d9b8a2b858d1779a26e6e0e2ff6f90ddb8cc3c209e8a34049d6
f3b4694e0ff735c722fa1ced1ed6d61d1bf2791297474b18ca6b19eff47b4bbdf49a9ce0fcd7c29698b4619c510b2cb5
7c16e6fde6b190553de3b00afc4bbe80338aa3f147014f72958367e544a21ff84b1d4831382af0b28aabb6d79767851a
313492a8617b3fb4b0f13f32a5e1b2a924b0e8e9c9bd1d17183712f4f081113aea2f922b94550b72fb7a6b66fca55198
ca675019c3ee45ad4980ddb95a153551d25114cc4a2ea7".

(** [tests/misc/serial_large_positive.der] *)
Definition serial_large_positive_der : Input := hex "
3082037130820259a003020102021500e609fe7aea00688ce024b4ed201b1fef52b444d1300d06092a864886f70d0101
0505003050310b300906035504061302504c31283026060355040a0c1f4b72616a6f776120497a626120526f7a6c6963
7a656e696f776120532e412e3117301506035504030c0e535a4146495220524f4f54204341301e170d31313132303631
31313035375a170d3331313230363131313035375a3050310b300906035504061302504c31283026060355040a0c1f4b
72616a6f776120497a626120526f7a6c69637a656e696f776120532e412e3117301506035504030c0e535a4146495220
524f4f5420434130820122300d06092a864886f70d01010105000382010f003082010a0282010100ac472f8f593139a5
ea0df0a58c2bbd02a4bdcd0a73aa09e6cc5f826a75a997e5bb06eff3c05da1c1d2897958f0dceb558cee581a7b27ff4a
50b300a16a13233390e82f53366e186c0f40d63757d7060d2f9024ca57fc5b92ff238057853f4a9e523ac7e6bb055026
9ebfd3b65faeb53fc0b26b367d17c4b05daf64f3311f8505a8e021163c539262567f60aee27bd14091dcb6d07e704028
6a0fe1111b7ffadce8e14473eb1eabd7db68626c71e058e3064521590c355f6d6b7bffc7a1fdbed18822c184fce332db
7aa0ea08e30e5f1bc7e3cd32183921fd0a1acd65f753be47404c53fe2265c27bbb23557a1d7ced288c02063b317df6c7
de33ac84226dcb070203010001a3423040300f0603551d130101ff040530030101ff300e0603551d0f0101ff04040302
0106301d0603551d0e041604145392a37dff8276f033d4eb92674761331b683b2a300d06092a864886f70d0101050500
03820101003950559de442ffa41be220c9b5cc3d892d40a9a749891bb264c339c83b36b084698515ac46a31021401120
85a3fe134291ebaa00c150bac5edf64145521df5aa5a77736ce0f32c1f328fb580474703338e599e04813c1b851375ae
18b257f60d74d044df217fb860147fe0d47fbaf4e7a6777d7ad7bb5a197465f63de32baee3142a079405bfe3fb2175d5
9533a3923b865c47324008d0cdb15a4fdbc800149b7825d605b8ef397ba4272e9680089c97318d498a6badef11cb275d
7e68d6f47206c2c20ed37125762befa8460bd47bf5c3f3eeafee8550439a2faf0f108528bdf830201d81030faf643bb0
707d265f9e3c3e88c6ca0e37e1c0e39125dade61c5".

(** [tests/netflix/ee.der] *)
Definition netflix_ee_der : Input := hex "
308206e8308205d0a00302010202104cbd642e234c692792a150b98c69e129300d06092a864886f70d01010b0500307e
310b3009060355040613025553311d301b060355040a131453796d616e74656320436f72706f726174696f6e311f301d
060355040b131653796d616e746563205472757374204e6574776f726b312f302d0603550403132653796d616e746563
20436c61737320332053656375726520536572766572204341202d204734301e170d3136313130383030303030305a17
0d3138313130323233353935395a307d310b30090603550406130255533113301106035504080c0a43616c69666f726e
69613112301006035504070c096c6f73206761746f7331163014060355040a0c0d4e6574666c69782c20496e632e3113
3011060355040b0c0a4f7065726174696f6e733118301606035504030c0f7777772e6e6574666c69782e636f6d308201
22300d06092a864886f70d01010105000382010f003082010a0282010100bf0a7b7dc3d65a50c18d230e9fcf4fad599a
50c9faf8fbcd660fc75e6176fffe285f899876cb829f4ee26d43a5b15e90a140fcd9530c9099b8d5b86ee9c1a5eba66e
7a6daa9026ce9b3365e511aa3356be5add1af2751a5ea565178e9bb03781d9e2f64bd104285ef959e505e414848dd4a4
09afaa16c722d0d931f17b9b05b4430c4e72f49a4e43e995942c3cb57ae143a9d62476827a0f901b9d46806f75cdf698
ccde2efd7797a912a3b2594bbc6b9d4bb1578c28eebbb30bd2620290067caab9a5410bfaefe59cbbcc5cfbc6114ec058
b52dfda286f22eb1e8c3355b98b4de5593a74887079425ebc28dbbeea713eda124030a0fb12b87a52e7d4b12807b0203
010001a38203613082035d3081ea0603551d110481e23081df82136163636f756e742e6e6574666c69782e636f6d820e
63612e6e6574666c69782e636f6d820a6e6574666c69782e6361820b6e6574666c69782e636f6d82127369676e75702e
6e6574666c69782e636f6d820e7777772e6e6574666c69782e63618210777777312e6e6574666c69782e636f6d821077
7777322e6e6574666c69782e636f6d8210777777332e6e6574666c69782e636f6d8219646576656c6f702d7374616765
2e6e6574666c69782e636f6d821972656c656173652d73746167652e6e6574666c69782e636f6d820f7777772e6e6574
666c69782e636f6d30090603551d1304023000300e0603551d0f0101ff0404030205a0301d0603551d25041630140608
2b0601050507030106082b0601050507030230610603551d20045a30583056060667810c010202304c302306082b0601
0505070201161768747470733a2f2f642e73796d63622e636f6d2f637073302506082b0601050507020230190c176874
7470733a2f2f642e73796d63622e636f6d2f727061301f0603551d230418301680145f60cf619055df8443148a602ab2
f57af44318ef302f06082b0601050507010104233021301f06082b060105050730018613687474703a2f2f73732e7379
6d63642e636f6d3082017d060a2b06010401d6790204020482016d048201690167007500ddeb1d2b7a0d4fa6208b81ad
8168707e2e8e9d01d55c888d3d11c4cdb6ecbecc000001584549e27c0000040300463044022060900c3cebf6ce465318
a5d4315d5a40e8fb7c9f45b9a59784b4e752a497860a02206a3e4805171800de2959b1b6cba2f1c9e8086a3825e53213
0564bb1ec52691cc00760068f698f81f6482be3a8ceeb9281d4cfc71515d6793d444d10a67acbb4f4ffbc40000015845
49e2ba0000040300473045022100fc076f10d85af507d392f52ffe63139b1b076560e2cb1896337302c57f346d990220
3727e20a00c5759eebac0bd0f8ccdcd976ccc5bdc904e891c9460460b198557c007600ee4bbdb775ce60bae142691fab
e19e66a30f7e5fb072d88300c47b897aa8fdcb000001584549e2c60000040300473045022064f17db0adafb30f1fea92
afe868f04866f8f1f540b561e478c95502a9d9d1d2022100ffcff8bc402e53c58c0ad2a0c2f39494a538793967ac7bc7
9dcfc1b5cb2ca431300d06092a864886f70d01010b05000382010100ab335c1a6e6e52d52ad042d40d6b98776d36a827
435c68b98bac1e1846593c94dedcafb427a1afb0869e479c579bdbaaeeb9507b079702feeaa7b0395ee70e030ea1c62f
e06c1b44fd3716dd0c68816d788e9c800d6f525c97633308faf131c3f4d2796e079d3999e7b68b09fea94cda059375f8
7f6b0326d299d3f88d9f0129829d2bbb8a5e0b6842a8efc522c0fcdac935e030289b1782efad3fdbb7d834a0817a663f
9d811d3cf3cf9f542a31f70078110e4a8a9c2b7215fbdad9c7f9cb84a76c8232b07eebdf53f20c78a0645722be721065
33d9c266ba29b9670f6acd515bf0c1cd06c069b29e08cc9dea91c9568d35c0c2a596c13ec6a85fd30cc9825a".

(** [tests/netflix/inter.der] *)
Definition netflix_inter_der : Input := hex "
30820515308203fda0030201020210282e2791793392e428f221a74ec937ae300d06092a864886f70d01010b05003081
ca310b300906035504061302555331173015060355040a130e566572695369676e2c20496e632e311f301d060355040b
1316566572695369676e205472757374204e6574776f726b313a3038060355040b133128632920313939392056657269
5369676e2c20496e632e202d20466f7220617574686f72697a656420757365206f6e6c79314530430603550403133c56
6572695369676e20436c6173732033205075626c6963205072696d6172792043657274696669636174696f6e20417574
686f72697479202d204733301e170d3133313033313030303030305a170d3233313033303233353935395a307e310b30
09060355040613025553311d301b060355040a131453796d616e74656320436f72706f726174696f6e311f301d060355
040b131653796d616e746563205472757374204e6574776f726b312f302d0603550403132653796d616e74656320436c
61737320332053656375726520536572766572204341202d20473430820122300d06092a864886f70d01010105000382
010f003082010a0282010100b2d805ca1c742db5175639c54a520996e84bd80cf1689f9a422862c3a530537e5511825b
037a0d2fe17904c9b496771981019459f9bcf77a9927822db783dd5a277fb2037a9c5325e9481f464fc89d29f8be7956
f6f7fdd93a68da8b4b82334112c3c83cccd6967a84211a22040327178b1c6861930f0e5180331db4b5ceeb7ed062acee
b37b0174ef6935ebcad53da9ee9798ca8daa440e25994a1596a4ce6d02541f2a6a26e2063a6348acb44cd1759350ff13
2fd6dae1c618f59fc9255df3003ade264db42909cd0f3d236f164a8116fbf28310c3b8d6d855323df1bd0fbd8c52954a
16977a522163752f16f9c466bef5b509d8ff2700cd447c6f4b3fb0f70203010001a38201403082013c301d0603551d0e
041604145f60cf619055df8443148a602ab2f57af44318ef30120603551d130101ff040830060101ff020100306b0603
551d20046430623060060a6086480186f8450107363052302606082b06010505070201161a687474703a2f2f7777772e
73796d617574682e636f6d2f637073302806082b06010505070202301c1a1a687474703a2f2f7777772e73796d617574
682e636f6d2f727061302f0603551d1f042830263024a022a020861e687474703a2f2f732e73796d63622e636f6d2f70
6361332d67332e63726c300e0603551d0f0101ff04040302010630290603551d1104223020a41e301c311a3018060355
0403131153796d616e746563504b492d312d353334302e06082b0601050507010104223020301e06082b060105050730
018612687474703a2f2f732e73796d63642e636f6d300d06092a864886f70d01010b050003820101005b1752bed6567b
f4f734094b96cac7f621d06980efe79a19e824e27fd92f61dd13eb5a65e4e16a90cb4e2ae98a16e7528df6431b47050d
80a3a89afe29d3bc1d28d5a54ad4713c0f75c50b733f004865790dab6a1e250cc002de66acbd4b066b9a578a2a817e67
9bba526073c415f7bbc150c908a5ba574a3a1b10731ce17bb694034bae51b082403a5a249cee0d585daeba297aca339e
b281c22f8ec127cf40f004a13ff537c2cafcac536da953694fe176640c2581a93703f2397334d2c17c78181ca86b16e7
e7e09d29afd8e46939799569b97b5c5d019cd4f7f34845136495d70a6e72da4322246f3e5a70dcc092e02de557f8e42b
27eef5ff1bb301837a".

(** [tests/crl_distrib_point/with_reasons.der] *)
Definition with_reasons_der : Input := hex "
308201bd30820163a00302010202140f4544d2b07f034dfa5174eb12527f8812ddcbed300a06082a8648ce3d04030230
44312b302906035504030c2263726c2d646973747269622d706f696e742d746573742e6578616d706c652e636f6d3115
3013060355040a0c0c776974685f726561736f6e73301e170d3836313232333031353931315a170d3836313232333032
303031315a3044312b302906035504030c2263726c2d646973747269622d706f696e742d746573742e6578616d706c65
2e636f6d31153013060355040a0c0c776974685f726561736f6e733059301306072a8648ce3d020106082a8648ce3d03
0107034200044120d9ee9460584e4f9ad09b1bad53e17844bf2204d2562f25137eb4f5461c22e7f14a6859f1a6d48005
874cea40e9dfddd7c9111e5c9bbe5c4f47d1823e48fda3333031302f0603551d1f042830263024a01ea01c861a687474
703a2f2f6578616d706c652e636f6d2f63726c2e64657281020450300a06082a8648ce3d040302034800304502204529
c117ef32f362ed808959d0bddac421ca331f38ac6c4921ffe4ca4a262dfe022100e8798579ab14720001f78411cde094
243b4276ce24844f197efafea2895e656f".

(** [tests/crl_distrib_point/with_crl_issuer.der] *)
Definition with_crl_issuer_der : Input := hex "
308201d330820178a003020102021411a9e58ea91872e50177587640d56b251328726e300a06082a8648ce3d04030230
47312b302906035504030c2263726c2d646973747269622d706f696e742d746573742e6578616d706c652e636f6d3118
3016060355040a0c0f776974685f63726c5f697373756572301e170d3836313232333031353931315a170d3836313232
333032303031315a3047312b302906035504030c2263726c2d646973747269622d706f696e742d746573742e6578616d
706c652e636f6d31183016060355040a0c0f776974685f63726c5f6973737565723059301306072a8648ce3d02010608
2a8648ce3d030107034200044120d9ee9460584e4f9ad09b1bad53e17844bf2204d2562f25137eb4f5461c22e7f14a68
59f1a6d48005874cea40e9dfddd7c9111e5c9bbe5c4f47d1823e48fda3423040303e0603551d1f043730353033a231a4
2f302d312b302906035504030c2263726c2d646973747269622d706f696e742d746573742e6578616d706c652e636f6d
300a06082a8648ce3d0403020349003046022100d0ee8efc67be5f28caeca5ee2e0e966bf7152eb29bc4f2d8c52676ab
57354562022100e5eeb9b761568a99aef4161cf8a26698d3a450deffa6fcebdf03a91b558d1d89".

(** [tests/crl_distrib_point/unknown_tag.der] *)
Definition unknown_tag_der : Input := hex "
308201bc30820163a0030201020214792eb0fdb77dc8e8f484882ae3fd6f859f150310300a06082a8648ce3d04030230
44312b302906035504030c2263726c2d646973747269622d706f696e742d746573742e6578616d706c652e636f6d3115
3013060355040a0c0c776974685f726561736f6e73301e170d3836313232333031353931315a170d3836313232333032
303031315a3044312b302906035504030c2263726c2d646973747269622d706f696e742d746573742e6578616d706c65
2e636f6d31153013060355040a0c0c776974685f726561736f6e733059301306072a8648ce3d020106082a8648ce3d03
010703420004e1b92eea68ad8c894483e1bcfda458c4eb16b64ccf45fb61abb547bbdf7b92266cf4586f6b5d2cc24b8a
61c5279fc2f3c59db8bec313cf52a85bb438c3f84cf7a3333031302f0603551d1f042830263024a01ea01c861a687474
703a2f2f6578616d706c652e636f6d2f63726c2e64657284020450300a06082a8648ce3d040302034700304402200296
eba32e155ebe20d1b1c092c0e666971954e713eeab3e723f15ad331492b902207017abb3fcdc1abdbe1c3897e76d4901
3e53415fd213f48df84018c9e0ee985e".

(** [tests/crl_distrib_point/only_reasons.der] *)
Definition only_reasons_der : Input := hex "
3082019c30820143a0030201020214792eb0fdb77dc8e8f484882ae3fd6f859f150310300a06082a8648ce3d04030230
44312b302906035504030c2263726c2d646973747269622d706f696e742d746573742e6578616d706c652e636f6d3115
3013060355040a0c0c776974685f726561736f6e73301e170d3836313232333031353931315a170d3836313232333032
303031315a3044312b302906035504030c2263726c2d646973747269622d706f696e742d746573742e6578616d706c65
2e636f6d31153013060355040a0c0c776974685f726561736f6e733059301306072a8648ce3d020106082a8648ce3d03
010703420004e1b92eea68ad8c894483e1bcfda458c4eb16b64ccf45fb61abb547bbdf7b92266cf4586f6b5d2cc24b8a
61c5279fc2f3c59db8bec313cf52a85bb438c3f84cf7a3133011300f0603551d1f04083006300481020450300a06082a
8648ce3d040302034700304402200296eba32e155ebe20d1b1c092c0e666971954e713eeab3e723f15ad331492b90220
7017abb3fcdc1abdbe1c3897e76d49013e53415fd213f48df84018c9e0ee985e".

(** [tests/crl_distrib_point/dp_name_relative_to_issuer.der] *)
Definition dp_name_relative_to_issuer_der : Input := hex "
308201cc30820173a003020102021462fa36623f8f3c1b35e61652bcece2614efcdf16300a06082a8648ce3d04030230
52312b302906035504030c2263726c2d646973747269622d706f696e742d746573742e6578616d706c652e636f6d3123
3021060355040a0c1a64705f6e616d655f72656c61746976655f746f5f697373756572301e170d383631323233303135
3931315a170d3836313232333032303031315a3052312b302906035504030c2263726c2d646973747269622d706f696e
742d746573742e6578616d706c652e636f6d31233021060355040a0c1a64705f6e616d655f72656c61746976655f746f
5f6973737565723059301306072a8648ce3d020106082a8648ce3d030107034200044120d9ee9460584e4f9ad09b1bad
53e17844bf2204d2562f25137eb4f5461c22e7f14a6859f1a6d48005874cea40e9dfddd7c9111e5c9bbe5c4f47d1823e
48fda327302530230603551d1f041c301a3018a016a114301206035504030c0b6578616d706c652e636f6d300a06082a
8648ce3d040302034700304402207ce2df7c51daeae816bff77c512f67c501a62b99773c5f8fee2d410d6af2a2580220
6e3f99f1f7c2f3d46eeb9e4359ab6f3674e07b7855760798ed7228744052d54e".

(** [tests/crl_distrib_point/unknown_dp_name_tag.der] *)
Definition unknown_dp_name_tag_der : Input := hex "
308201b53082015ba00302010202144a318383d85fcb0156f06e2c6b9f75dbcca89370300a06082a8648ce3d04030230
44312b302906035504030c2263726c2d646973747269622d706f696e742d746573742e6578616d706c652e636f6d3115
3013060355040a0c0c776974685f726561736f6e73301e170d3836313232333031353931315a170d3836313232333032
303031315a3044312b302906035504030c2263726c2d646973747269622d706f696e742d746573742e6578616d706c65
2e636f6d31153013060355040a0c0c776974685f726561736f6e733059301306072a8648ce3d020106082a8648ce3d03
01070342000498333a0b61bbb126bcb13f9f382ea115a07e87ce0da5b79e58dea9817fb81e54931c9f1f13b9fa15ae2c
5e2f1b63a59260ca90fed283c159a6c23bce274a1e26a32b302930270603551d1f0420301e301ca01aa4183016060355
04030c0f63727970746f6772617068792e696f300a06082a8648ce3d0403020348003045022016f9b57ffe9a4474ee61
a2dc481e3048c70cdbce22b1e112a4b641657b0e2a7f022100c8c92955dc85fc741a9e80ce314365b33485e5add15258
fa78ad8a9b0dc03122".

(** [tests/crl_distrib_point/multiple_distribution_points.der] *)
Definition multiple_distribution_points_der : Input := hex "
3082021d308201c3a003020102021427ece2df1825c2aeac95aa8fcc4a3e73d7b70f14300a06082a8648ce3d04030230
54312b302906035504030c2263726c2d646973747269622d706f696e742d746573742e6578616d706c652e636f6d3125
3023060355040a0c1c6d756c7469706c655f646973747269627574696f6e5f706f696e7473301e170d38363132323330
31353931315a170d3836313232333032303031315a3054312b302906035504030c2263726c2d646973747269622d706f
696e742d746573742e6578616d706c652e636f6d31253023060355040a0c1c6d756c7469706c655f6469737472696275
74696f6e5f706f696e74733059301306072a8648ce3d020106082a8648ce3d030107034200044120d9ee9460584e4f9a
d09b1bad53e17844bf2204d2562f25137eb4f5461c22e7f14a6859f1a6d48005874cea40e9dfddd7c9111e5c9bbe5c4f
47d1823e48fda3733071306f0603551d1f046830663022a020a01e861c687474703a2f2f6578616d706c652e636f6d2f
63726c2e312e6465723040a03ea03c861c687474703a2f2f6578616d706c652e636f6d2f63726c2e322e646572861c68
7474703a2f2f6578616d706c652e636f6d2f63726c2e332e646572300a06082a8648ce3d04030203480030450221009f
463346842462cf615dfd953e99c5f45313a75a33419ff4b08280b7d88e5423022071657f41022227eecf135e31b0d245
d5b15a2c6c18b524ade601b5e152eb4cac".

(** [tests/crls/crl.valid.der] *)
Definition crl_valid_der : Input := hex "
308201983082011f020101300a06082a8648ce3d0403033049310b300906035504061302585831153013060355040a13
0c426f756c6465722054657374312330210603550403131a28544553542920456c6567616e7420456c657068616e7420
4531170d3232313031303230313230375a170d3232313031393230313230365a30293027020803ae51db51155a3c170d
3232313031303139313230375a300c300a0603551d1504030a0101a07a3078301f0603551d2304183016801401dabb7a
cb25208e5e79d6f996422f02412907be30110603551d14040a0208171cce3de482ba6130420603551d1c0101ff043830
36a031a02f862d687474703a2f2f632e626f756c6465722e746573742f36363238333735363931333538383238382f30
2e63726c8101ff300a06082a8648ce3d040303036700306402302f0e42149d361abc9ea1f3ad3a303c85876bb0fdc17e
3959cce2c13c9d4746cb45d88348467db478318fa44714506b22023057903e972922bd33817a4fea5517534adc2d2bda
b6e69e41256bdb89c68d9ecfcb4bdcf78c349fb89d67cc237b9fbf33".

(** [tests/crls/crl.idp.valid.der] *)
Definition crl_idp_valid_der : Input := hex "
3082032e30820216020101300d06092a864886f70d01010b0500305b310b300906035504061302504131243022060355
040a0c1b5472757374436f722053797374656d7320532e20646520522e4c2e3126302406035504030c1d547275737443
6f722044562053534c204341202d204732202d20525341170d3233303432313133323531355a170d3233303432353133
323531345a30820112302b020c4b1a440ab7d79c679adf1100170d3232303531393134313532315a300c300a0603551d
1504030a0103302b020c5529a074abaf2406d185c100170d3232303631313132313830375a300c300a0603551d150403
0a0103302c020d00e48f22273b2269be776cb000170d3232303630313136313731305a300c300a0603551d1504030a01
03302c020d00f76938b014dbe0171eb28d00170d3232303433303030343330365a300c300a0603551d1504030a010330
2c020d00d0089b30c89fdfc6d9da5e00170d3232303830373132353531355a300c300a0603551d1504030a0103302c02
0d00de0a3dc1811d29fd1e594b00170d3232303532323037343834365a300c300a0603551d1504030a0103a071306f30
1f0603551d2304183016801412ec1e9cb4ffc324178b9ef0bc70d51e2f607457300b0603551d14040402020cab303f06
03551d1c0101ff04353033a031a02f862d687474703a2f2f63726c2e7472757374636f722e63612f7375622f64762d73
736c2d7273612d732d302e63726c300d06092a864886f70d01010b050003820101009a0bb7e5e4c384457abea0689bf2
f36865ad23698f5010a35d7df4a64cfd02ee6008cf44d76c23f27172be05950ed9142546adcbae59647d8db84fd3d0bc
c38be4f0a84be6f132d71fa53a58850e78b6c065b8b47f325d9c9b9950dc61782c696459157a44d9c7735b2b00e69e46
25d6cf6285e3eb598469205c83c8077618f60cfa59075c80c4c43f2cf9f5b6d6dffbffca819d21bc0e112635c1592e94
dabe4155ae2ff88ef82992842252ab9a8a6a5018a0decce75bac8302907b1855e0a850032a8c2fe90769281bb1ec9ced
7c2540d5e8746806ac391ec8990b425deb241cfb85450c1ac012742f5d83f250e3e8e605df8fd5650253e823f920dd6f
1585".

(** [tests/crls/crl.idp.only_user_certs.der] *)
Definition crl_idp_only_user_certs_der : Input := hex "
308201243081cc020101300a06082a8648ce3d0403023047312b302906035504030c2263726c2d646973747269622d70
6f696e742d746573742e6578616d706c652e636f6d31183016060355040a0c0f6f6e6c795f757365725f636572747317
0d3836313232333031353931315a170d3836313232333032303031315aa0543052301d0603551d14041602147e216bf5
3e1d804c3b988da2d54d53416419a19430310603551d1c0101ff04273025a020a01e861c687474703a2f2f6578616d70
6c652e636f6d2f63726c2e312e6465728101ff300a06082a8648ce3d040302034700304402200b1dc8c6ae74b39261b2
48602269e91c4bdaad51aee620516d2dae7116b56357022077d80cca4b87a75b5a31a499051e29ffe40d75e476706421
1fe4abaac81242ea".

(** [tests/crls/crl.idp.only_ca_certs.der] *)
Definition crl_idp_only_ca_certs_der : Input := hex "
308201233081ca020101300a06082a8648ce3d0403023045312b302906035504030c2263726c2d646973747269622d70
6f696e742d746573742e6578616d706c652e636f6d31163014060355040a0c0d6f6e6c795f63615f6365727473170d38
36313232333031353931315a170d3836313232333032303031315aa0543052301d0603551d14041602143db926c66e97
47db59fb97e68697272195f8950630310603551d1c0101ff04273025a020a01e861c687474703a2f2f6578616d706c65
2e636f6d2f63726c2e312e6465728201ff300a06082a8648ce3d040302034800304502205a33cb5e4cd5b27935cb1b83
b7062c4c1840e69ffcf905bb386ee49176edc623022100fc9634e4f41a568305a587fba2c11e7391c0b0a1199b021d54
0cc6a2a504bb9c".

(** [tests/crls/crl.idp.indirect_crl.der] *)
Definition crl_idp_indirect_crl_der : Input := hex "
308201223081c9020101300a06082a8648ce3d0403023044312b302906035504030c2263726c2d646973747269622d70
6f696e742d746573742e6578616d706c652e636f6d31153013060355040a0c0c696e6469726563745f63726c170d3836
313232333031353931315a170d3836313232333032303031315aa0543052301d0603551d14041602145d829cff2beb38
036eb1e4963e13a8f357a5313930310603551d1c0101ff04273025a020a01e861c687474703a2f2f6578616d706c652e
636f6d2f63726c2e312e6465728401ff300a06082a8648ce3d0403020348003045022100e7319174048a87b3b1f83e5d
8830284efc1fb6f617768a1bed1300ff6c4938ea0220460f5157075683e467806e4758750cbb3f253647fcc0876e3d9b
fc27239c49cb".

(** [tests/crls/crl.idp.only_attribute_certs.der] *)
Definition crl_idp_only_attribute_certs_der : Input := hex "
308201293081d1020101300a06082a8648ce3d040302304c312b302906035504030c2263726c2d646973747269622d70
6f696e742d746573742e6578616d706c652e636f6d311d301b060355040a0c146f6e6c795f6174747269627574655f63
65727473170d3836313232333031353931315a170d3836313232333032303031315aa0543052301d0603551d14041602
14703e9f22f7cc0065293f9e0b63392fa226d4eef030310603551d1c0101ff04273025a020a01e861c687474703a2f2f
6578616d706c652e636f6d2f63726c2e312e6465728501ff300a06082a8648ce3d040302034700304402201dce0e048c
a0b77e75220ea214622cb814b7cc93d310b326ba105492317eb83d02206734d17fafd6aff62a545e6b9100257acdd360
cbb662db23e171f6fcc0d837ae".

(** [tests/crls/crl.idp.only_some_reasons.der] *)
Definition crl_idp_only_some_reasons_der : Input := hex "
308201273081cf020101300a06082a8648ce3d0403023049312b302906035504030c2263726c2d646973747269622d70
6f696e742d746573742e6578616d706c652e636f6d311a3018060355040a0c116f6e6c795f736f6d655f726561736f6e
73170d3836313232333031353931315a170d3836313232333032303031315aa0553053301d0603551d14041602142163
9a890643fd274b09c6ce2a7470dd8555cf5630320603551d1c0101ff04283026a020a01e861c687474703a2f2f657861
6d706c652e636f6d2f63726c2e312e64657283020450300a06082a8648ce3d04030203470030440220164d36bc9f7399
97bdb39d2830873620ceb94ddaa72e7e3b8b48ac4374d76ea1022058f29aa8aaec5cee07655fe61bfbe60cc4f0dd9ca8
a920889e0f046e8adab201".

(** [tests/crls/crl.idp.invalid.bool.der] *)
Definition crl_idp_invalid_bool_der : Input := hex "
308201223081ca020101300a06082a8648ce3d0403023045312b302906035504030c2263726c2d646973747269622d70
6f696e742d746573742e6578616d706c652e636f6d31163014060355040a0c0d6f6e6c795f63615f6365727473170d38
36313232333031353931315a170d3836313232333032303031315aa0543052301d0603551d14041602141a7d5c57c1aa
399208f8e24197de6ef9361aaf0730310603551d1c0101ff04273025a020a01e861c687474703a2f2f6578616d706c65
2e636f6d2f63726c2e312e6465728201ab300a06082a8648ce3d040302034700304402206aa680a8805f3902540464b9
3e4be1f4daa81820ef92ca860061443a6cb37e910220329f8fcf98fee441707abf7aa3f68699ff5cd48ab7c130ab8d3c
dd2e5af0e6a3".

(** [tests/crls/crl.idp.explicit.false.bool.der] *)
Definition crl_idp_explicit_false_bool_der : Input := hex "
308201253081cc020101300a06082a8648ce3d0403023047312b302906035504030c2263726c2d646973747269622d70
6f696e742d746573742e6578616d706c652e636f6d31183016060355040a0c0f6f6e6c795f757365725f636572747317
0d3836313232333031353931315a170d3836313232333032303031315aa0543052301d0603551d1404160214611f7403
187a4d50ad64b1b102e42a2506b29e7a30310603551d1c0101ff04273025a020a01e861c687474703a2f2f6578616d70
6c652e636f6d2f63726c2e312e646572810100300a06082a8648ce3d0403020348003045022100a0e67b667ed4673f3e
902ac3fabd8b27e977dbb2eaf71362d1f6879a3145d7c8022010cdea16c558ab3346923184c4a6af9698dec9e952d723
bcdb02bdb91b69ce11".

(** [tests/crls/crl.idp.unknown.tag.der] *)
Definition crl_idp_unknown_tag_der : Input := hex "
308201253081cc020101300a06082a8648ce3d0403023047312b302906035504030c2263726c2d646973747269622d70
6f696e742d746573742e6578616d706c652e636f6d31183016060355040a0c0f6f6e6c795f757365725f636572747317
0d3836313232333031353931315a170d3836313232333032303031315aa0543052301d0603551d1404160214611f7403
187a4d50ad64b1b102e42a2506b29e7a30310603551d1c0101ff04273025a020a01e861c687474703a2f2f6578616d70
6c652e636f6d2f63726c2e312e6465728901ff300a06082a8648ce3d0403020348003045022100a0e67b667ed4673f3e
902ac3fabd8b27e977dbb2eaf71362d1f6879a3145d7c8022010cdea16c558ab3346923184c4a6af9698dec9e952d723
bcdb02bdb91b69ce11".

(** [tests/crls/crl.idp.invalid.name.der] *)
Definition crl_idp_invalid_name_der : Input := hex "
308201253081cc020101300a06082a8648ce3d0403023047312b302906035504030c2263726c2d646973747269622d70
6f696e742d746573742e6578616d706c652e636f6d31183016060355040a0c0f6f6e6c795f757365725f636572747317
0d3836313232333031353931315a170d3836313232333032303031315aa0543052301d0603551d1404160214611f7403
187a4d50ad64b1b102e42a2506b29e7a30310603551d1c0101ff04273025a020a81e861c687474703a2f2f6578616d70
6c652e636f6d2f63726c2e312e6465728101ff300a06082a8648ce3d0403020348003045022100a0e67b667ed4673f3e
902ac3fabd8b27e977dbb2eaf71362d1f6879a3145d7c8022010cdea16c558ab3346923184c4a6af9698dec9e952d723
bcdb02bdb91b69ce11".

(** [tests/crls/crl.idp.name_relative_to_issuer.der] *)
Definition crl_idp_name_relative_to_issuer_der : Input := hex "
308201203081c7020101300a06082a8648ce3d040302304f312b302906035504030c2263726c2d646973747269622d70
6f696e742d746573742e6578616d706c652e636f6d3120301e060355040a0c176e616d655f72656c61746976655f746f
5f697373756572170d3836313232333031353931315a170d3836313232333032303031315aa0473045301d0603551d14
041602141f7315fcecfc2a55850f22f793d771692d445e6430240603551d1c0101ff041a3018a016a114301206035504
030c0b6578616d706c652e636f6d300a06082a8648ce3d04030203480030450221009c04e9a4c70346e3508907f7dea3
6eddd10f32db2e51894d8b3faf0f23d84851022007407ba9930258ff266873f3fe6d6dc7da4ba27488924107ce9fc844
4ff1b670".

(** [tests/crls/crl.idp.no_distribution_point_name.der] *)
Definition crl_idp_no_distribution_point_name_der : Input := hex "
3082010e3081b5020101300a06082a8648ce3d0403023052312b302906035504030c2263726c2d646973747269622d70
6f696e742d746573742e6578616d706c652e636f6d31233021060355040a0c1a6e6f5f646973747269627574696f6e5f
706f696e745f6e616d65170d3836313232333031353931315a170d3836313232333032303031315aa0323030301d0603
551d14041602145a25e288431f302e6fd68338f15ca5b4ba0045ac300f0603551d1c0101ff040530038101ff300a0608
2a8648ce3d040302034800304502201ea2e013512958559815e32b9406078734f9eea3dde524c6ce415b883ef3ee1d02
210087102ccd22424616ba37509c339f308dcea4fe5e0ae3352967e0df6114a792bd".

(** [tests/client_auth_revocation/no_crl_ku_chain.ee.der] *)
Definition no_crl_ku_chain_ee_der : Input := hex "
3082024f308201f5a003020102021451f921a3421e7512bccd42816e210f4554735d8f300a06082a8648ce3d04030230
3d311b301906035504030c126973737565722e6578616d706c652e636f6d311e301c060355040a0c15696e742e612e6e
6f5f63726c5f6b755f636861696e301e170d3836313232333031353931315a170d3836313232333032303031315a3035
3119301706035504030c10746573742e6578616d706c652e636f6d31183016060355040a0c0f6e6f5f63726c5f6b755f
636861696e30820122300d06092a864886f70d01010105000382010f003082010a0282010100c257e058bd86e0a9e527
afed099924ebd0b7c0c9f8c4b02e1455b0804142bbef9dd27fe36d611c5faeb5580016d032428d5350b7704aa9d035d4
2bcc4431e1c9aeefa0583d976527a0d0102dbf3baa10b56320cc6ee7f9f023b326a578da86189137d2d41143845e64bb
65533e5895258cdf82d4b7c8ecd0172881ec957c5b72e723e9afb204f7e84e4476e940c5eabd1d65197536994ced7095
b59ef0bc0f3002d4094081d01b4d2e4c26cb011a70750425c458822971a1d188251f51770bb587aafdd85388fb18fe0b
61fd301ce552f4e67397733fbe0a022ad4a2221f9be649435dae3bb2b3b8c3b466009d880d85c24ed20214312a570b31
dfbf62c803730203010001a310300e300c0603551d130101ff04023000300a06082a8648ce3d04030203480030450221
00fdbc91fe5bb379e9cb8a1fd04a3e3459ed685dbba75c566e27f58c0b4dea21460220593f258fbe75484e735a754a77
eeb01262bfbcd3a96e1916f3dbc77e18c03060".

(** [tests/client_auth_revocation/no_crl_ku_chain.int.a.ca.der] *)
Definition no_crl_ku_chain_int_a_ca_der : Input := hex "
308201a030820145a0030201020214509b64ad6c025c5611fe116640d9f0929f5b02ff300a06082a8648ce3d04030230
3d311b301906035504030c126973737565722e6578616d706c652e636f6d311e301c060355040a0c15696e742e622e6e
6f5f63726c5f6b755f636861696e301e170d3836313232333031353931315a170d3836313232333032303031315a303d
311b301906035504030c126973737565722e6578616d706c652e636f6d311e301c060355040a0c15696e742e612e6e6f
5f63726c5f6b755f636861696e3059301306072a8648ce3d020106082a8648ce3d0301070342000438c99da2f175c483
cb391222f174f0a7bbb4b0429837880890dc940fac9ecfff28aba0b8dbbed44e7589b2c278ec8e0f97e8a8910739270c
ec24d69e42ddea61a3233021300f0603551d130101ff040530030101ff300e0603551d0f0101ff040403020284300a06
082a8648ce3d0403020349003046022100d599359da889b91e58d3760d51445b591ea5873d78986731607ec579251c62
300221008c4fdb0e6b5042cc27b6ab796668804842966caa3290c33510ab9d1019740713".

(** [tests/client_auth_revocation/no_ku_chain.ee.der] *)
Definition no_ku_chain_ee_der : Input := hex "
30820248308201eda00302010202141b745177065f7266f32cb13f34ecaa0ff51f4b50300a06082a8648ce3d04030230
39311b301906035504030c126973737565722e6578616d706c652e636f6d311a3018060355040a0c11696e742e612e6e
6f5f6b755f636861696e301e170d3836313232333031353931315a170d3836313232333032303031315a303131193017
06035504030c10746573742e6578616d706c652e636f6d31143012060355040a0c0b6e6f5f6b755f636861696e308201
22300d06092a864886f70d01010105000382010f003082010a0282010100a2130335bb1de391ad6fd759111b37294ed6
0d48f83b97916c51c42e225edd8868386e90027e0729e01d7b14b56ea6a619393968cf4ae824ca92aa440ca2788d3534
3c303ee18ffef34e92610c43768556c50fefe53a501bba4bcfd3e27173f1ee79002ba63f4eb608069d0b7449f9a016cb
d7c1c9845fba0dfb7a089aa37ef76b27a9f815e1a18d4cd7f629f1e469a7d54df7a3fc0203677b287ccf0c62b1e276c8
0ab1f93daf216f222185fe5f4f69f1a3ba0f6de01733ef0770cca3f31cfe58312613163cf724ce0c532f177057cc0464
047e9bbf35b0e3de677f0c29ebfaec50d03dd27fec761f5911a0ffc2bda8c1b621825aaba2f8bdf5673cad76bca30203
010001a310300e300c0603551d130101ff04023000300a06082a8648ce3d0403020349003046022100b6c22f6bb521b9
7cbb8538a53c8afd65101d36af8234634ff9424f708a7b88e9022100f58dfbeff5d4b2006e16f1bce566d08bf2633da5
5a89e6bf3112a2d6a2975edc".

(** [tests/client_auth_revocation/ku_chain.ee.der] *)
Definition ku_chain_ee_der : Input := hex "
30820242308201e7a003020102021441c731dfa92966cddc27d9a03e0dc14604415312300a06082a8648ce3d04030230
36311b301906035504030c126973737565722e6578616d706c652e636f6d31173015060355040a0c0e696e742e612e6b
755f636861696e301e170d3836313232333031353931315a170d3836313232333032303031315a302e31193017060355
04030c10746573742e6578616d706c652e636f6d3111300f060355040a0c086b755f636861696e30820122300d06092a
864886f70d01010105000382010f003082010a02820101008c5d14163357ed39ce65c8f23b67b668c96b7825a22fb548
522d87d6e7d1c451b36c896435bb25f4f67f66854d3f6950737fa1a5e295654936b923c2da6cef7099e4c71c98e379e5
ca1fcf87c1c9832387f95980b27b84ff6e06231817ac3ad78f0ca8d2b3430f17748c080bd13e8d98ae25af72aa35af81
e2964088b39a7e697149d3747cb499fa5a35ea0f04b8fd564261ae89473bad579c79373b2148bd12ffce8ea54ed77ced
e7473a4ff00aaac0e2f5568882d4a918e582b5e5a6d265de84c0f02860a46ccab3bb5d9173f756461c531eeecc09a0f7
aedc8d0cdb3a6e376d3a7ec2fefc3a4edd9859fc5185513f918c81b7ebd279fe7c9ec2abb4bff1f70203010001a31030
0e300c0603551d130101ff04023000300a06082a8648ce3d040302034900304602210094ac13874f245a66e62f0a82fc
1f003bacdc781fa70b13f24df87c7222e600d8022100ed4762d947fd12f5d2aa633a2e77b9441b00b87b78e53ab0071f
853ec07477c3".

(** [tests/client_auth_revocation/ee_revoked_crl_ku_ee_depth.crl.der] *)
Definition ee_revoked_crl_ku_ee_depth_crl_der : Input := hex "
308201173081bf020101300a06082a8648ce3d0403023036311b301906035504030c126973737565722e6578616d706c
652e636f6d31173015060355040a0c0e696e742e612e6b755f636861696e170d3836313232333031353931315a170d38
36313232333032303031315a30353033021441c731dfa92966cddc27d9a03e0dc14604415312170d3836313232333031
353931315a300c300a0603551d1504030a0101a021301f301d0603551d14041602142ee0e78e14ea35634568c071d8f3
8ef07819ec66300a06082a8648ce3d0403020347003044022052c87709d0355af4b093715383ac02c9c4ce0c7c6a4ca9
440d3071ae31ab9dba022076d01aeb2255ceeb6fdf1c9fca1b4d65c87d6cb4f7bb21f6d2e2ca0c61c84c15".
