(* ===== verification/CertTests.v ===== *)
(** * The unit tests of [src/cert.rs]

    Certificates of the test data, their serial numbers and their CRL
    distribution points. *)
From Stdlib Require Import Strings.String.
From S2P Require Import Prelude Errors Untrusted Der Samples GeneralName X509 SignedData Cert Crl.
From S2P Require Import Testing TestData.

#[local] Existing Instance slice_reader.

(** [Cert::from_der(..).expect(..)]. *)
Definition parse_cert (der : Input) (ee_or_ca : EndEntityOrCa) : outcome Empty_set Cert :=
  result_unwrap (Cert_from_der der ee_or_ca).

(** [cert.crl_distribution_points().expect(..).collect::<Result<Vec<_>, Error>>()]. *)
Definition collect_points (cert : Cert)
    : outcome Empty_set (outcome Error (list CrlDistributionPoint)) :=
  let? points := expect (crl_distribution_points cert) in Ok (collect points).

(** The one distribution point of a certificate. *)
Definition single_point (cert : Cert) : outcome Empty_set CrlDistributionPoint :=
  let? points := collect_points cert in
  let? crl_distribution_points := result_unwrap points in
  let? _ := assert_eq (length crl_distribution_points) 1%nat in
  expect (head crl_distribution_points).

(** [names().expect(..).expect(..)]. *)
Definition point_name (point : CrlDistributionPoint) : outcome Empty_set DistributionPointName :=
  let? name := result_unwrap (CrlDistributionPoint_names point) in expect name.

Definition test_serial_read : test :=
  let? cert := parse_cert serial_neg_ee_der EndEntity in
  let? _ := assert_eq (serial cert) [xff; x21; x52; x41; x11] in
  let? cert := parse_cert serial_large_positive_der EndEntity in
  assert_eq (serial cert)
    [x00; xe6; x09; xfe; x7a; xea; x00; x68; x8c; xe0; x24; xb4; xed; x20; x1b; x1f; xef; x52;
     xb4; x44; xd1].

Definition test_crl_distribution_point_netflix : test :=
  let? ee_cert := parse_cert netflix_ee_der EndEntity in
  let? cert := parse_cert netflix_inter_der (Ca ee_cert) in
  (* the end entity certificate has no distribution point *)
  let? _ := assert (bool_decide (crl_distribution_points_field ee_cert = None)) in
  let? crl_distribution_point := single_point cert in
  let? _ := assert (bool_decide (reasons crl_distribution_point = None)) in
  let? _ := assert (bool_decide (crl_issuer crl_distribution_point = None)) in
  let? distribution_point_name := point_name crl_distribution_point in
  let? names :=
    match distribution_point_name with
    | NameRelativeToCrlIssuer _ => Panic
    | FullName names => Ok names
    end in
  let? names := result_unwrap (collect names) in
  let? _ := assert_eq (length names) 1%nat in
  let? name := expect (head names) in
  match name with
  | UniformResourceIdentifier uri =>
    assert_eq uri (ascii_bytes "http://s.symcb.com/pca3-g3.crl")
  | _ => Panic
  end.

Definition test_crl_distribution_point_with_reasons : test :=
  let? cert := parse_cert with_reasons_der EndEntity in
  let? crl_distribution_point := single_point cert in
  let? reasons := expect (reasons crl_distribution_point) in
  let expected := [KeyCompromise; AffiliationChanged] in
  for_each reason_iter (fun reason =>
    if bool_decide (reason ∈ expected)
    then assert (bit_set reasons (u8_to_Z (reason_u8 reason)))
    else assert (negb (bit_set reasons (u8_to_Z (reason_u8 reason))))).

Definition test_crl_distribution_point_with_crl_issuer : test :=
  let? cert := parse_cert with_crl_issuer_der EndEntity in
  let? crl_distribution_point := single_point cert in
  all_of
    [ assert (negb (bool_decide (crl_issuer crl_distribution_point = None)));
      assert (bool_decide (distribution_point crl_distribution_point = None));
      assert (bool_decide (reasons crl_distribution_point = None)) ].

Definition test_crl_distribution_point_bad_der : test :=
  let? cert := parse_cert unknown_tag_der EndEntity in
  let? result := collect_points cert in
  assert (is_err result BadDer).

Definition test_crl_distribution_point_only_reasons : test :=
  let? cert := parse_cert only_reasons_der EndEntity in
  let? result := collect_points cert in
  assert (is_err result MalformedExtensions).

Definition test_crl_distribution_point_name_relative_to_issuer : test :=
  let? cert := parse_cert dp_name_relative_to_issuer_der EndEntity in
  let? crl_distribution_point := single_point cert in
  let? _ := assert (bool_decide (crl_issuer crl_distribution_point = None)) in
  let? _ := assert (bool_decide (reasons crl_distribution_point = None)) in
  let? distribution_point_name := point_name crl_distribution_point in
  match distribution_point_name with
  | NameRelativeToCrlIssuer name => assert (negb (bool_decide (name = [])))
  | FullName _ => Panic
  end.

Definition test_crl_distribution_point_unknown_name_tag : test :=
  let? cert := parse_cert unknown_dp_name_tag_der EndEntity in
  let? crl_distribution_point := single_point cert in
  assert (is_err (CrlDistributionPoint_names crl_distribution_point) BadDer).

(** The local functions of the last test. *)
Definition get_names (point : CrlDistributionPoint)
    : outcome Empty_set (DerIterator GeneralName) :=
  let? name := point_name point in
  match name with
  | NameRelativeToCrlIssuer _ => Panic
  | FullName names => Ok names
  end.

Definition uri_bytes (name : GeneralName) : outcome Empty_set Input :=
  match name with UniformResourceIdentifier uri => Ok uri | _ => Panic end.

(** [a.chain(b).collect()]: the items of [b] are only read when those of [a]
    have been. *)
Definition collect_chain (a b : DerIterator GeneralName) : outcome Error (list GeneralName) :=
  let? xs := collect a in let? ys := collect b in Ok (xs ++ ys).

Definition test_crl_distribution_point_multiple : test :=
  let? cert := parse_cert multiple_distribution_points_der EndEntity in
  let? points := collect_points cert in
  let? crl_distribution_points := result_unwrap points in
  let? point_a := expect (crl_distribution_points !! 0%nat) in
  let? point_b := expect (crl_distribution_points !! 1%nat) in
  let expected_names :=
    [ ascii_bytes "http://example.com/crl.1.der";
      ascii_bytes "http://example.com/crl.2.der";
      ascii_bytes "http://example.com/crl.3.der" ] in
  let? names_a := get_names point_a in
  let? names_b := get_names point_b in
  let? all_names := result_unwrap (collect_chain names_a names_b) in
  let? uris := map_all uri_bytes all_names in
  assert_eq uris expected_names.

(** ** The tests pass *)
Lemma test_serial_read_passes : passes test_serial_read.
Proof. evaluate. Qed.

Lemma test_crl_distribution_point_netflix_passes : passes test_crl_distribution_point_netflix.
Proof. evaluate. Qed.

Lemma test_crl_distribution_point_with_reasons_passes :
  passes test_crl_distribution_point_with_reasons.
Proof. evaluate. Qed.

Lemma test_crl_distribution_point_with_crl_issuer_passes :
  passes test_crl_distribution_point_with_crl_issuer.
Proof. evaluate. Qed.

Lemma test_crl_distribution_point_bad_der_passes : passes test_crl_distribution_point_bad_der.
Proof. evaluate. Qed.

Lemma test_crl_distribution_point_only_reasons_passes :
  passes test_crl_distribution_point_only_reasons.
Proof. evaluate. Qed.

Lemma test_crl_distribution_point_name_relative_to_issuer_passes :
  passes test_crl_distribution_point_name_relative_to_issuer.
Proof. evaluate. Qed.

Lemma test_crl_distribution_point_unknown_name_tag_passes :
  passes test_crl_distribution_point_unknown_name_tag.
Proof. evaluate. Qed.

Lemma test_crl_distribution_point_multiple_passes : passes test_crl_distribution_point_multiple.
Proof. evaluate. Qed.
