(* ===== verification/CrlTests.v ===== *)
(** * The unit tests of [src/crl.rs]

    Revocation reasons, the traits of the lists, and issuing distribution points
    of the revocation lists of the test data. *)
From stdpp Require Import gmap.
From Stdlib Require Import Strings.String.
From S2P Require Import Prelude Errors Untrusted Der Samples GeneralName X509 SignedData Cert Crl.
From S2P Require Import Testing TestData.

#[local] Existing Instance slice_reader.

Definition revocation_reasons : test :=
  let testcases :=
    [ (x00, Unspecified); (x01, KeyCompromise); (x02, CaCompromise); (x03, AffiliationChanged);
      (x04, Superseded); (x05, CessationOfOperation); (x06, CertificateHold);
      (* 7 is unused *)
      (x08, RemoveFromCrl); (x09, PrivilegeWithdrawn); (x0a, AaCompromise) ] in
  let? _ :=
    for_each testcases (fun '(id, expected) =>
      let? actual := result_unwrap (reason_try_from id) in assert_eq actual expected) in
  (* unknown reason codes produce an error *)
  let? _ := assert (is_err (reason_try_from x07) UnsupportedRevocationReason) in
  (* the iterator produces all reasons *)
  let expected := map snd testcases in
  assert_eq reason_iter expected.

(** The operations of the test; what it prints is not modelled. *)
Definition test_derived_traits : test :=
  let? crl := result_unwrap (BorrowedCertRevocationList_from_der crl_valid_der) in
  let? owned_crl := result_unwrap (BorrowedCertRevocationList_to_owned crl) in
  let revoked_certs := crl_into_iter crl in
  let? revoked_cert := expect (fst (der_iterator_next revoked_certs)) in
  let? revoked_cert := result_unwrap revoked_cert in
  let owned_revoked_cert := BorrowedRevokedCert_to_owned revoked_cert in
  Ok tt.

(** [BorrowedCertRevocationList::from_der(..).unwrap()] and the extension of the list. *)
Definition parse_crl (der : Input) : outcome Empty_set BorrowedCertRevocationList :=
  result_unwrap (BorrowedCertRevocationList_from_der der).
Definition crl_idp_der (crl : BorrowedCertRevocationList) : outcome Empty_set Input :=
  expect (issuing_distribution_point crl).
Definition parse_idp (der : Input) : outcome Empty_set IssuingDistributionPoint :=
  let? crl := parse_crl der in
  let? crl_issuing_dp := crl_idp_der crl in
  result_unwrap (idp_from_der crl_issuing_dp).

(** The URIs of a list of names: the closure of [map] panics on other names. *)
Definition collect_uris (general_names : DerIterator GeneralName)
    : outcome Empty_set (list Input) :=
  let? res :=
    fst (der_for general_names
           (fun general_name uris =>
              match general_name with
              | Ok (UniformResourceIdentifier uri) => Ok (inl (uris ++ [uri]))
              | _ => Panic
              end) []) in
  match res with
  | inl uris => Ok uris
  | inr e => match e : Empty_set with end
  end.

Definition parse_issuing_distribution_point_ext : test :=
  let? crl := parse_crl crl_idp_valid_der in
  let? crl_issuing_dp := crl_idp_der crl in
  (* the owned list has the extension too *)
  let? owned_crl := result_unwrap (BorrowedCertRevocationList_to_owned crl) in
  let? _ := assert (negb (bool_decide (issuing_distribution_point owned_crl = None))) in
  let? crl_issuing_dp := result_unwrap (idp_from_der crl_issuing_dp) in
  let? _ := assert (negb (only_contains_user_certs crl_issuing_dp)) in
  let? _ := assert (negb (only_contains_ca_certs crl_issuing_dp)) in
  let? _ := assert (negb (indirect_crl crl_issuing_dp)) in
  let? _ := assert (bool_decide (only_some_reasons crl_issuing_dp = None)) in
  let? dp_name := result_unwrap (idp_names crl_issuing_dp) in
  let? dp_name := expect dp_name in
  let? uri :=
    match dp_name with
    | NameRelativeToCrlIssuer _ => Panic
    | FullName general_names => collect_uris general_names
    end in
  let expected := [ascii_bytes "http://crl.trustcor.ca/sub/dv-ssl-rsa-s-0.crl"] in
  assert_eq uri expected.

Definition test_issuing_distribution_point_only_user_certs : test :=
  let? crl_issuing_dp := parse_idp crl_idp_only_user_certs_der in
  let? _ := assert (only_contains_user_certs crl_issuing_dp) in
  (* not authoritative for a CA certificate *)
  let? ee := result_unwrap (Cert_from_der no_crl_ku_chain_ee_der EndEntity) in
  let? ca := result_unwrap (Cert_from_der no_crl_ku_chain_int_a_ca_der (Ca ee)) in
  let? authoritative := result_unwrap (authoritative_for crl_issuing_dp ca) in
  assert (negb authoritative).

Definition test_issuing_distribution_point_only_ca_certs : test :=
  let? crl_issuing_dp := parse_idp crl_idp_only_ca_certs_der in
  let? _ := assert (only_contains_ca_certs crl_issuing_dp) in
  (* not authoritative for an end entity *)
  let? ee := result_unwrap (Cert_from_der no_crl_ku_chain_ee_der EndEntity) in
  let? authoritative := result_unwrap (authoritative_for crl_issuing_dp ee) in
  assert (negb authoritative).

Definition test_issuing_distribution_point_indirect : test :=
  let result := BorrowedCertRevocationList_from_der crl_idp_indirect_crl_der in
  assert (is_err result UnsupportedIndirectCrl).

Definition test_issuing_distribution_only_attribute_certs : test :=
  let result := BorrowedCertRevocationList_from_der crl_idp_only_attribute_certs_der in
  assert (is_err result MalformedExtensions).

Definition test_issuing_distribution_only_some_reasons : test :=
  let result := BorrowedCertRevocationList_from_der crl_idp_only_some_reasons_der in
  assert (is_err result UnsupportedRevocationReasonsPartitioning).

Definition test_issuing_distribution_invalid_bool : test :=
  let result := BorrowedCertRevocationList_from_der crl_idp_invalid_bool_der in
  assert (is_err result BadDer).

Definition test_issuing_distribution_explicit_false_bool : test :=
  let? crl := parse_crl crl_idp_explicit_false_bool_der in
  let? crl_issuing_dp := crl_idp_der crl in
  assert (is_ok (idp_from_der crl_issuing_dp)).

Definition test_issuing_distribution_unknown_tag : test :=
  let result := BorrowedCertRevocationList_from_der crl_idp_unknown_tag_der in
  assert (is_err result BadDer).

Definition test_issuing_distribution_invalid_name : test :=
  let result := BorrowedCertRevocationList_from_der crl_idp_invalid_name_der in
  assert (is_err result MalformedExtensions).

Definition test_issuing_distribution_relative_name : test :=
  let result := BorrowedCertRevocationList_from_der crl_idp_name_relative_to_issuer_der in
  assert (is_err result UnsupportedCrlIssuingDistributionPoint).

Definition test_issuing_distribution_no_name : test :=
  let result := BorrowedCertRevocationList_from_der crl_idp_no_distribution_point_name_der in
  assert (is_err result UnsupportedCrlIssuingDistributionPoint).

(** ** The tests pass *)
Lemma revocation_reasons_passes : passes revocation_reasons.
Proof. evaluate. Qed.

Lemma test_derived_traits_passes : passes test_derived_traits.
Proof. evaluate. Qed.

Lemma parse_issuing_distribution_point_ext_passes : passes parse_issuing_distribution_point_ext.
Proof. evaluate. Qed.

Lemma test_issuing_distribution_point_only_user_certs_passes :
  passes test_issuing_distribution_point_only_user_certs.
Proof. evaluate. Qed.

Lemma test_issuing_distribution_point_only_ca_certs_passes :
  passes test_issuing_distribution_point_only_ca_certs.
Proof. evaluate. Qed.

Lemma test_issuing_distribution_point_indirect_passes :
  passes test_issuing_distribution_point_indirect.
Proof. evaluate. Qed.

Lemma test_issuing_distribution_only_attribute_certs_passes :
  passes test_issuing_distribution_only_attribute_certs.
Proof. evaluate. Qed.

Lemma test_issuing_distribution_only_some_reasons_passes :
  passes test_issuing_distribution_only_some_reasons.
Proof. evaluate. Qed.

Lemma test_issuing_distribution_invalid_bool_passes :
  passes test_issuing_distribution_invalid_bool.
Proof. evaluate. Qed.

Lemma test_issuing_distribution_explicit_false_bool_passes :
  passes test_issuing_distribution_explicit_false_bool.
Proof. evaluate. Qed.

Lemma test_issuing_distribution_unknown_tag_passes :
  passes test_issuing_distribution_unknown_tag.
Proof. evaluate. Qed.

Lemma test_issuing_distribution_invalid_name_passes :
  passes test_issuing_distribution_invalid_name.
Proof. evaluate. Qed.

Lemma test_issuing_distribution_relative_name_passes :
  passes test_issuing_distribution_relative_name.
Proof. evaluate. Qed.

Lemma test_issuing_distribution_no_name_passes : passes test_issuing_distribution_no_name.
Proof. evaluate. Qed.
