(* ===== verification/VerifyCertTests.v ===== *)
(** * The unit tests of [src/verify_cert.rs]

    The identifiers of key purposes, the builder of revocation options, and the
    authority of revocation lists.  The test of the limit on signature checks
    generates its certificates with a third-party crate; the limit is
    characterised in [SignatureLimit] and [EndEntity]. *)
From stdpp Require Import gmap.
From Stdlib Require Import Strings.String.
From S2P Require Import Prelude Errors Untrusted Der Samples GeneralName X509 SignedData Cert Crl.
From S2P Require Import TrustAnchor VerifyCert Path EndEntity Testing TestData.

#[local] Existing Instance slice_reader.

#[export] Instance RevocationCheckDepth_eq_dec : EqDecision RevocationCheckDepth.
Proof. solve_decision. Defined.
#[export] Instance UnknownStatusPolicy_eq_dec : EqDecision UnknownStatusPolicy.
Proof. solve_decision. Defined.

Definition eku_key_purpose_id : test :=
  assert (key_purpose_id_equals (RequiredIfPresent EKU_SERVER_AUTH) (oid_value EKU_SERVER_AUTH)).

(** [&crl as &dyn CertRevocationList]. *)
Definition as_dyn (crl : BorrowedCertRevocationList) : dyn_crl := Build_dyn_crl _ borrowed_crl crl.

(** The three assertions on built options. *)
Definition assert_options (opts : RevocationOptions) (expected_depth : RevocationCheckDepth)
    (expected_status : UnknownStatusPolicy) : test :=
  all_of
    [ assert_eq (depth opts) expected_depth;
      assert_eq (status_requirement opts) expected_status;
      assert_eq (length (crls opts)) 1%nat ].

Definition test_revocation_opts_builder : test :=
  (* without lists, the builder fails *)
  let result := RevocationOptionsBuilder_new [] in
  let? _ := assert (match result with Err mkCrlsRequired => true | _ => false end) in
  (* the defaults *)
  let? crl := result_unwrap (BorrowedCertRevocationList_from_der crl_valid_der) in
  let crls := [as_dyn crl] in
  let? builder := result_unwrap (RevocationOptionsBuilder_new crls) in
  let opts := RevocationOptionsBuilder_build builder in
  let? _ := assert_options opts DepthChain Deny in
  (* a custom depth *)
  let? builder := result_unwrap (RevocationOptionsBuilder_new crls) in
  let opts := RevocationOptionsBuilder_build (with_depth builder DepthEndEntity) in
  let? _ := assert_options opts DepthEndEntity Deny in
  (* unknown status allowed *)
  let? builder := result_unwrap (RevocationOptionsBuilder_new crls) in
  let opts := RevocationOptionsBuilder_build (allow_unknown_status builder) in
  let? _ := assert_options opts DepthChain Allow in
  (* depth and unknown status together *)
  let? builder := result_unwrap (RevocationOptionsBuilder_new crls) in
  let opts :=
    RevocationOptionsBuilder_build (with_depth (allow_unknown_status builder) DepthEndEntity) in
  let? _ := assert_options opts DepthEndEntity Allow in
  (* unknown status explicitly forbidden *)
  let? builder := result_unwrap (RevocationOptionsBuilder_new crls) in
  let opts :=
    RevocationOptionsBuilder_build (with_depth (forbid_unknown_status builder) DepthEndEntity) in
  assert_options opts DepthEndEntity Deny.

Definition test_crl_authoritative_issuer_mismatch : test :=
  let? crl := result_unwrap (BorrowedCertRevocationList_from_der crl_valid_der) in
  let? ee := result_unwrap (Cert_from_der no_ku_chain_ee_der EndEntity) in
  (* not authoritative for an end entity of a different issuer *)
  let? authoritative := result_unwrap (crl_authoritative (as_dyn crl) ee) in
  assert (negb authoritative).

Definition test_crl_authoritative_no_idp_no_cert_dp : test :=
  let? crl := result_unwrap (BorrowedCertRevocationList_from_der ee_revoked_crl_ku_ee_depth_crl_der) in
  let? ee := result_unwrap (Cert_from_der ku_chain_ee_der EndEntity) in
  (* the issuers match, the list has no distribution point, the certificate none *)
  let? authoritative := result_unwrap (crl_authoritative (as_dyn crl) ee) in
  assert authoritative.

(** The scenario of [test_too_many_signatures], with the certificates and the
    signatures of [Samples] in place of those of the rcgen crate: a trust anchor,
    101 intermediates with its name, each signed by the one before, and an end
    entity signed by the last. *)
Definition unconstrained_ca : Input :=
  sample_extension x13 true (der_sequence (tlv (tag_u8 Boolean) [xff])).
Definition issuer_key (n : Z) : Input := [x40; u8_of_Z n].
Definition make_intermediate (n : Z) : Input :=
  sample_cert x01 "Bogus Subject" "Bogus Subject" (issuer_key n) (issuer_key (n - 1))
    [unconstrained_ca; sample_key_usage].

Definition too_many_signatures : test :=
  let ca_cert := make_intermediate 0 in
  let intermediates := map make_intermediate (seqZ 1 101) in
  let ee_cert := sample_cert x01 "Bogus Subject" "example.com" ee_key (issuer_key 101) [sample_san] in
  let? anchor := result_unwrap (extract_trust_anchor ca_cert) in
  let? cert := result_unwrap (EndEntityCert_try_from ee_cert) in
  let result :=
    build_chain
      {| opt_eku := server_auth; supported_sig_algs := [toy_algorithm]; trust_anchors := [anchor];
         intermediate_certs := intermediates; revocation := None |}
      (ee_inner cert) sample_time in
  assert (is_err result MaximumSignatureChecksExceeded).

(** ** The tests pass *)
Lemma eku_key_purpose_id_passes : passes eku_key_purpose_id.
Proof. evaluate. Qed.

Lemma test_revocation_opts_builder_passes : passes test_revocation_opts_builder.
Proof. evaluate. Qed.

Lemma test_crl_authoritative_issuer_mismatch_passes :
  passes test_crl_authoritative_issuer_mismatch.
Proof. evaluate. Qed.

Lemma test_crl_authoritative_no_idp_no_cert_dp_passes :
  passes test_crl_authoritative_no_idp_no_cert_dp.
Proof. evaluate. Qed.

Lemma too_many_signatures_passes : passes too_many_signatures.
Proof. evaluate. Qed.
