(* ===== verification/SignedTestData.v ===== *)
(** * Files of the unit tests of [src/ring_algs.rs]

    The sections of the files under [third-party/chromium/data/verify_signed_data/],
    decoded: a public key, signed data, an algorithm and a signature. *)
From Stdlib Require Import Strings.String.
From S2P Require Import Prelude Untrusted Testing.

#[local] Open Scope string_scope.

(** [struct TestSignedData]. *)
Record TestSignedData : Type := {
  tsd_spki : Input;
  tsd_data : Input;
  tsd_algorithm : Input;
  tsd_signature : Input;
}.

(** [ecdsa-prime256v1-sha512-spki-params-null.pem] *)
Definition ecdsa_prime256v1_sha512_spki_params_null : TestSignedData := {|
  tsd_spki := hex "
3051300b06072a8648ce3d02010500034200049cb0cf69303dafc761d4e4687b4ecf039e6d34ab964af80810d8d558a4
a8d6f72d51233a1788920a86ee08a1962c79efa317fb7879e297dad2146db995fa1c78";
  tsd_data := hex "
6e2932153301a4eef680e6428929adae988c108d668a31ff55d0489947d75ff81a46bf89e84d6401f023be6e87688fbc
d784d785ca846735524acb52d00452c84040a479e7cc330936441d93bbe722a9432a6e1db112b5c9403b10272cb1347f
d619d463f7a9d223ad76fde06d8a6883500fb843235abff98e241bdfb5538c3e";
  tsd_algorithm := hex "300a06082a8648ce3d040304";
  tsd_signature := hex "
034700304402204b9f91e4285287261a1d1c923cf619cd52c175cfe7f1be60a5258c610348ba3d022028c45f901d71c4
1b298638ec0d6a85d7fcb0c33bbfec5a9c810846b639289a84";
|}.

(** [ecdsa-prime256v1-sha512-unused-bits-signature.pem] *)
Definition ecdsa_prime256v1_sha512_unused_bits_signature : TestSignedData := {|
  tsd_spki := hex "
3059301306072a8648ce3d020106082a8648ce3d030107034200049cb0cf69303dafc761d4e4687b4ecf039e6d34ab96
4af80810d8d558a4a8d6f72d51233a1788920a86ee08a1962c79efa317fb7879e297dad2146db995fa1c78";
  tsd_data := hex "
6e2932153301a4eef680e6428929adae988c108d668a31ff55d0489947d75ff81a46bf89e84d6401f023be6e87688fbc
d784d785ca846735524acb52d00452c84040a479e7cc330936441d93bbe722a9432a6e1db112b5c9403b10272cb1347f
d619d463f7a9d223ad76fde06d8a6883500fb843235abff98e241bdfb5538c3e";
  tsd_algorithm := hex "300a06082a8648ce3d040304";
  tsd_signature := hex "
034702304402204b9f91e4285287261a1d1c923cf619cd52c175cfe7f1be60a5258c610348ba3d022028c45f901d71c4
1b298638ec0d6a85d7fcb0c33bbfec5a9c810846b639289a84";
|}.

(** [ecdsa-prime256v1-sha512-using-ecdh-key.pem] *)
Definition ecdsa_prime256v1_sha512_using_ecdh_key : TestSignedData := {|
  tsd_spki := hex "
3057301106052b8104010c06082a8648ce3d030107034200049cb0cf69303dafc761d4e4687b4ecf039e6d34ab964af8
0810d8d558a4a8d6f72d51233a1788920a86ee08a1962c79efa317fb7879e297dad2146db995fa1c78";
  tsd_data := hex "
6e2932153301a4eef680e6428929adae988c108d668a31ff55d0489947d75ff81a46bf89e84d6401f023be6e87688fbc
d784d785ca846735524acb52d00452c84040a479e7cc330936441d93bbe722a9432a6e1db112b5c9403b10272cb1347f
d619d463f7a9d223ad76fde06d8a6883500fb843235abff98e241bdfb5538c3e";
  tsd_algorithm := hex "300a06082a8648ce3d040304";
  tsd_signature := hex "
034700304402204b9f91e4285287261a1d1c923cf619cd52c175cfe7f1be60a5258c610348ba3d022028c45f901d71c4
1b298638ec0d6a85d7fcb0c33bbfec5a9c810846b639289a84";
|}.

(** [ecdsa-prime256v1-sha512-using-ecmqv-key.pem] *)
Definition ecdsa_prime256v1_sha512_using_ecmqv_key : TestSignedData := {|
  tsd_spki := hex "
3057301106052b8104010d06082a8648ce3d030107034200049cb0cf69303dafc761d4e4687b4ecf039e6d34ab964af8
0810d8d558a4a8d6f72d51233a1788920a86ee08a1962c79efa317fb7879e297dad2146db995fa1c78";
  tsd_data := hex "
6e2932153301a4eef680e6428929adae988c108d668a31ff55d0489947d75ff81a46bf89e84d6401f023be6e87688fbc
d784d785ca846735524acb52d00452c84040a479e7cc330936441d93bbe722a9432a6e1db112b5c9403b10272cb1347f
d619d463f7a9d223ad76fde06d8a6883500fb843235abff98e241bdfb5538c3e";
  tsd_algorithm := hex "300a06082a8648ce3d040304";
  tsd_signature := hex "
034700304402204b9f91e4285287261a1d1c923cf619cd52c175cfe7f1be60a5258c610348ba3d022028c45f901d71c4
1b298638ec0d6a85d7fcb0c33bbfec5a9c810846b639289a84";
|}.

(** [ecdsa-prime256v1-sha512-using-rsa-algorithm.pem] *)
Definition ecdsa_prime256v1_sha512_using_rsa_algorithm : TestSignedData := {|
  tsd_spki := hex "
3059301306072a8648ce3d020106082a8648ce3d030107034200049cb0cf69303dafc761d4e4687b4ecf039e6d34ab96
4af80810d8d558a4a8d6f72d51233a1788920a86ee08a1962c79efa317fb7879e297dad2146db995fa1c78";
  tsd_data := hex "
6e2932153301a4eef680e6428929adae988c108d668a31ff55d0489947d75ff81a46bf89e84d6401f023be6e87688fbc
d784d785ca846735524acb52d00452c84040a479e7cc330936441d93bbe722a9432a6e1db112b5c9403b10272cb1347f
d619d463f7a9d223ad76fde06d8a6883500fb843235abff98e241bdfb5538c3e";
  tsd_algorithm := hex "300d06092a864886f70d01010d0500";
  tsd_signature := hex "
034700304402204b9f91e4285287261a1d1c923cf619cd52c175cfe7f1be60a5258c610348ba3d022028c45f901d71c4
1b298638ec0d6a85d7fcb0c33bbfec5a9c810846b639289a84";
|}.

(** [ecdsa-prime256v1-sha512-wrong-signature-format.pem] *)
Definition ecdsa_prime256v1_sha512_wrong_signature_format : TestSignedData := {|
  tsd_spki := hex "
3059301306072a8648ce3d020106082a8648ce3d030107034200049cb0cf69303dafc761d4e4687b4ecf039e6d34ab96
4af80810d8d558a4a8d6f72d51233a1788920a86ee08a1962c79efa317fb7879e297dad2146db995fa1c78";
  tsd_data := hex "
6e2932153301a4eef680e6428929adae988c108d668a31ff55d0489947d75ff81a46bf89e84d6401f023be6e87688fbc
d784d785ca846735524acb52d00452c84040a479e7cc330936441d93bbe722a9432a6e1db112b5c9403b10272cb1347f
d619d463f7a9d223ad76fde06d8a6883500fb843235abff98e241bdfb5538c3e";
  tsd_algorithm := hex "300a06082a8648ce3d040304";
  tsd_signature := hex "
0341004b9f91e4285287261a1d1c923cf619cd52c175cfe7f1be60a5258c610348ba3d28c45f901d71c41b298638ec0d
6a85d7fcb0c33bbfec5a9c810846b639289a84";
|}.

(** [ecdsa-prime256v1-sha512.pem] *)
Definition ecdsa_prime256v1_sha512 : TestSignedData := {|
  tsd_spki := hex "
3059301306072a8648ce3d020106082a8648ce3d030107034200049cb0cf69303dafc761d4e4687b4ecf039e6d34ab96
4af80810d8d558a4a8d6f72d51233a1788920a86ee08a1962c79efa317fb7879e297dad2146db995fa1c78";
  tsd_data := hex "
6e2932153301a4eef680e6428929adae988c108d668a31ff55d0489947d75ff81a46bf89e84d6401f023be6e87688fbc
d784d785ca846735524acb52d00452c84040a479e7cc330936441d93bbe722a9432a6e1db112b5c9403b10272cb1347f
d619d463f7a9d223ad76fde06d8a6883500fb843235abff98e241bdfb5538c3e";
  tsd_algorithm := hex "300a06082a8648ce3d040304";
  tsd_signature := hex "
034700304402204b9f91e4285287261a1d1c923cf619cd52c175cfe7f1be60a5258c610348ba3d022028c45f901d71c4
1b298638ec0d6a85d7fcb0c33bbfec5a9c810846b639289a84";
|}.

(** [ecdsa-secp384r1-sha256-corrupted-data.pem] *)
Definition ecdsa_secp384r1_sha256_corrupted_data : TestSignedData := {|
  tsd_spki := hex "
3076301006072a8648ce3d020106052b81040022036200045c58418be58a5eec5e2bdc826c2f63a84721c2308db10e11
5c0b09d3ba0767e42acf9e5c34863904085c4344186398eff418a618bf52ba152e392b92dcf9fdaebb08146705b22872
e240ebf2bab9fbb45b37c6d5d39ee05b97a66232edbc3b10";
  tsd_data := hex "
308200e8a003020102020900b545717edebf55cd300a06082a8648ce3d040302306f310b300906035504061302415531
13301106035504080c0a536f6d652d53746174653121301f060355040a0c18496e7465726e6574205769646769747320
507479204c7464310c300a06035504030c03616861311a301806092a864886f70d010901160b73757040666f6f2e636f
6d301e170d3135303730323030333831345a170d3136303730313030333831345a306f310b3009060355040613024155
3113301106035504080c0a536f6d652d53746174653121301f060355040a0c18496e7465726e65742057696467697473
20507479204c7464310c300a06035504030c03616861311a301806092a864886f70d010901160b73757040666f6f2e63
6f6d3076301006072a8648ce3d020106052b81040022036200045c58418be58a5eec5e2bdc826c2f63a84721c2308db1
0e115c0b09d3ba0767e42acf9e5c34863904085c4344186398eff418a618bf52ba152e392b92dcf9fdaebb08146705b2
2872e240ebf2bab9fbb45b37c6d5d39ee05b97a66232edbc3b10a350304e301d0603551d0e041604147a9c382d3da946
d89bd2956cdd1910a2fc2bbb36301f0603551d230418301680147a9c382d3da946d89bd2956cdd1910a2fc2bbb36300c
0603551d13040530030101ff";
  tsd_algorithm := hex "300a06082a8648ce3d040302";
  tsd_signature := hex "
036900306602310083c0c49954967ca9386235357b557e7b9bc7dd367352e9c5c88d16288784a8ce56169961a1f3b9e1
989242783d7a8d53023100e4ae8018f28362f11c4b528afe2e8ce185582edb8b6eea5729e0c3fc1f7672f1b05e6b91de
ac077502a269dcec7b2835";
|}.

(** [ecdsa-secp384r1-sha256.pem] *)
Definition ecdsa_secp384r1_sha256 : TestSignedData := {|
  tsd_spki := hex "
3076301006072a8648ce3d020106052b81040022036200045c58418be58a5eec5e2bdc826c2f63a84721c2308db10e11
5c0b09d3ba0767e42acf9e5c34863904085c4344186398eff418a618bf52ba152e392b92dcf9fdaebb08146705b22872
e240ebf2bab9fbb45b37c6d5d39ee05b97a66232edbc3b10";
  tsd_data := hex "
308201e8a003020102020900b545717edebf55cd300a06082a8648ce3d040302306f310b300906035504061302415531
13301106035504080c0a536f6d652d53746174653121301f060355040a0c18496e7465726e6574205769646769747320
507479204c7464310c300a06035504030c03616861311a301806092a864886f70d010901160b73757040666f6f2e636f
6d301e170d3135303730323030333831345a170d3136303730313030333831345a306f310b3009060355040613024155
3113301106035504080c0a536f6d652d53746174653121301f060355040a0c18496e7465726e65742057696467697473
20507479204c7464310c300a06035504030c03616861311a301806092a864886f70d010901160b73757040666f6f2e63
6f6d3076301006072a8648ce3d020106052b81040022036200045c58418be58a5eec5e2bdc826c2f63a84721c2308db1
0e115c0b09d3ba0767e42acf9e5c34863904085c4344186398eff418a618bf52ba152e392b92dcf9fdaebb08146705b2
2872e240ebf2bab9fbb45b37c6d5d39ee05b97a66232edbc3b10a350304e301d0603551d0e041604147a9c382d3da946
d89bd2956cdd1910a2fc2bbb36301f0603551d230418301680147a9c382d3da946d89bd2956cdd1910a2fc2bbb36300c
0603551d13040530030101ff";
  tsd_algorithm := hex "300a06082a8648ce3d040302";
  tsd_signature := hex "
036900306602310083c0c49954967ca9386235357b557e7b9bc7dd367352e9c5c88d16288784a8ce56169961a1f3b9e1
989242783d7a8d53023100e4ae8018f28362f11c4b528afe2e8ce185582edb8b6eea5729e0c3fc1f7672f1b05e6b91de
ac077502a269dcec7b2835";
|}.

(** [ecdsa-using-rsa-key.pem] *)
Definition ecdsa_using_rsa_key : TestSignedData := {|
  tsd_spki := hex "
30819f300d06092a864886f70d010101050003818d0030818902818100a56e4a0e701017589a5187dc7ea841d156f2ec
0e36ad52a44dfeb1e61f7ad991d8c51056ffedb162b4c0f283a12a88a394dff526ab7291cbb307ceabfce0b1dfd5cd95
08096d5b2b8b6df5d671ef6377c0921cb23c270a70e2598e6ff89d19f105acc2d3f0cb35f29280e1386b6f64c4ef22e1
e1f20d0ce8cffb2249bd9a21370203010001";
  tsd_data := hex "
308201e8a003020102020900b545717edebf55cd300a06082a8648ce3d040302306f310b300906035504061302415531
13301106035504080c0a536f6d652d53746174653121301f060355040a0c18496e7465726e6574205769646769747320
507479204c7464310c300a06035504030c03616861311a301806092a864886f70d010901160b73757040666f6f2e636f
6d301e170d3135303730323030333831345a170d3136303730313030333831345a306f310b3009060355040613024155
3113301106035504080c0a536f6d652d53746174653121301f060355040a0c18496e7465726e65742057696467697473
20507479204c7464310c300a06035504030c03616861311a301806092a864886f70d010901160b73757040666f6f2e63
6f6d3076301006072a8648ce3d020106052b81040022036200045c58418be58a5eec5e2bdc826c2f63a84721c2308db1
0e115c0b09d3ba0767e42acf9e5c34863904085c4344186398eff418a618bf52ba152e392b92dcf9fdaebb08146705b2
2872e240ebf2bab9fbb45b37c6d5d39ee05b97a66232edbc3b10a350304e301d0603551d0e041604147a9c382d3da946
d89bd2956cdd1910a2fc2bbb36301f0603551d230418301680147a9c382d3da946d89bd2956cdd1910a2fc2bbb36300c
0603551d13040530030101ff";
  tsd_algorithm := hex "300a06082a8648ce3d040302";
  tsd_signature := hex "
036900306602310083c0c49954967ca9386235357b557e7b9bc7dd367352e9c5c88d16288784a8ce56169961a1f3b9e1
989242783d7a8d53023100e4ae8018f28362f11c4b528afe2e8ce185582edb8b6eea5729e0c3fc1f7672f1b05e6b91de
ac077502a269dcec7b2835";
|}.

(** [rsa-pkcs1-sha1-bad-key-der-length.pem] *)
Definition rsa_pkcs1_sha1_bad_key_der_length : TestSignedData := {|
  tsd_spki := hex "
30839f300d06092a864886f70d010101050003818d0030818902818100a56e4a0e701017589a5187dc7ea841d156f2ec
0e36ad52a44dfeb1e61f7ad991d8c51056ffedb162b4c0f283a12a88a394dff526ab7291cbb307ceabfce0b1dfd5cd95
08096d5b2b8b6df5d671ef6377c0921cb23c270a70e2598e6ff89d19f105acc2d3f0cb35f29280e1386b6f64c4ef22e1
e1f20d0ce8cffb2249bd9a21370203010001";
  tsd_data := hex "
cdc87da223d786df3b45e0bbbc721326d1ee2af806cc315475cc6f0d9c66e1b62371d45ce2392e1ac92844c310102f15
6a0d8d52c1f4c40ba3aa65095786cb769757a6563ba958fed0bcc984e8b517a3d5f515b23b8a41e74aa867693f90dfb0
61a6e86dfaaee64472c00e5f20945729cbebe77f06ce78e08f4098fba41f9d6193c0317e8b60d4b6084acb42d29e3808
a3bc372d85e331170fcbf7cc72d0b71c296648b3a4d10f416295d0807aa625cab2744fd9ea8fd223c42537029828bd16
be02546f130fd2e33b936d2676e08aed1b73318b750a0167d0";
  tsd_algorithm := hex "300d06092a864886f70d0101050500";
  tsd_signature := hex "
038181006bc3a06656842930a247e30d5864b4d819236ba7c68965862ad7dbc4e24af28e86bb531f03358be5fb74777c
6086f850caef893f0d6fcc2d0c91ec013693b4ea00b80cd49aac4ecb5f8911afe539ada4a8f3823d1d13e472d1490547
c659c7617f3d24087ddb6f2b72096167fc097cab18e9a458fcb634cdce8ee35894c484d7";
|}.

(** [rsa-pkcs1-sha1-bad-key-der-null.pem] *)
Definition rsa_pkcs1_sha1_bad_key_der_null : TestSignedData := {|
  tsd_spki := hex "
30819f300d06092a864886f70d010101050003818d0030818902818100a56e4a0e701017589a5187dc7ea841d156f2ec
0e36ad52a44dfeb1e61f7ad991d8c51056ffedb162b4c0f283a12a88a394dff526ab7291cbb307ceabfce0b1dfd5cd95
08096d5b2b8b6df5d671ef6377c0921cb23c270a70e2598e6ff89d19f105acc2d3f0cb35f29280e1386b6f64c4ef22e1
e1f20d0ce8cffb2249bd9a213702030100010500";
  tsd_data := hex "
cdc87da223d786df3b45e0bbbc721326d1ee2af806cc315475cc6f0d9c66e1b62371d45ce2392e1ac92844c310102f15
6a0d8d52c1f4c40ba3aa65095786cb769757a6563ba958fed0bcc984e8b517a3d5f515b23b8a41e74aa867693f90dfb0
61a6e86dfaaee64472c00e5f20945729cbebe77f06ce78e08f4098fba41f9d6193c0317e8b60d4b6084acb42d29e3808
a3bc372d85e331170fcbf7cc72d0b71c296648b3a4d10f416295d0807aa625cab2744fd9ea8fd223c42537029828bd16
be02546f130fd2e33b936d2676e08aed1b73318b750a0167d0";
  tsd_algorithm := hex "300d06092a864886f70d0101050500";
  tsd_signature := hex "
038181006bc3a06656842930a247e30d5864b4d819236ba7c68965862ad7dbc4e24af28e86bb531f03358be5fb74777c
6086f850caef893f0d6fcc2d0c91ec013693b4ea00b80cd49aac4ecb5f8911afe539ada4a8f3823d1d13e472d1490547
c659c7617f3d24087ddb6f2b72096167fc097cab18e9a458fcb634cdce8ee35894c484d7";
|}.

(** [rsa-pkcs1-sha1-key-params-absent.pem] *)
Definition rsa_pkcs1_sha1_key_params_absent : TestSignedData := {|
  tsd_spki := hex "
30819d300b06092a864886f70d01010103818d0030818902818100a56e4a0e701017589a5187dc7ea841d156f2ec0e36
ad52a44dfeb1e61f7ad991d8c51056ffedb162b4c0f283a12a88a394dff526ab7291cbb307ceabfce0b1dfd5cd950809
6d5b2b8b6df5d671ef6377c0921cb23c270a70e2598e6ff89d19f105acc2d3f0cb35f29280e1386b6f64c4ef22e1e1f2
0d0ce8cffb2249bd9a21370203010001";
  tsd_data := hex "
cdc87da223d786df3b45e0bbbc721326d1ee2af806cc315475cc6f0d9c66e1b62371d45ce2392e1ac92844c310102f15
6a0d8d52c1f4c40ba3aa65095786cb769757a6563ba958fed0bcc984e8b517a3d5f515b23b8a41e74aa867693f90dfb0
61a6e86dfaaee64472c00e5f20945729cbebe77f06ce78e08f4098fba41f9d6193c0317e8b60d4b6084acb42d29e3808
a3bc372d85e331170fcbf7cc72d0b71c296648b3a4d10f416295d0807aa625cab2744fd9ea8fd223c42537029828bd16
be02546f130fd2e33b936d2676e08aed1b73318b750a0167d0";
  tsd_algorithm := hex "300d06092a864886f70d0101050500";
  tsd_signature := hex "
038181006bc3a06656842930a247e30d5864b4d819236ba7c68965862ad7dbc4e24af28e86bb531f03358be5fb74777c
6086f850caef893f0d6fcc2d0c91ec013693b4ea00b80cd49aac4ecb5f8911afe539ada4a8f3823d1d13e472d1490547
c659c7617f3d24087ddb6f2b72096167fc097cab18e9a458fcb634cdce8ee35894c484d7";
|}.

(** [rsa-pkcs1-sha1-using-pss-key-no-params.pem] *)
Definition rsa_pkcs1_sha1_using_pss_key_no_params : TestSignedData := {|
  tsd_spki := hex "
30819d300b06092a864886f70d01010a03818d0030818902818100a56e4a0e701017589a5187dc7ea841d156f2ec0e36
ad52a44dfeb1e61f7ad991d8c51056ffedb162b4c0f283a12a88a394dff526ab7291cbb307ceabfce0b1dfd5cd950809
6d5b2b8b6df5d671ef6377c0921cb23c270a70e2598e6ff89d19f105acc2d3f0cb35f29280e1386b6f64c4ef22e1e1f2
0d0ce8cffb2249bd9a21370203010001";
  tsd_data := hex "
cdc87da223d786df3b45e0bbbc721326d1ee2af806cc315475cc6f0d9c66e1b62371d45ce2392e1ac92844c310102f15
6a0d8d52c1f4c40ba3aa65095786cb769757a6563ba958fed0bcc984e8b517a3d5f515b23b8a41e74aa867693f90dfb0
61a6e86dfaaee64472c00e5f20945729cbebe77f06ce78e08f4098fba41f9d6193c0317e8b60d4b6084acb42d29e3808
a3bc372d85e331170fcbf7cc72d0b71c296648b3a4d10f416295d0807aa625cab2744fd9ea8fd223c42537029828bd16
be02546f130fd2e33b936d2676e08aed1b73318b750a0167d0";
  tsd_algorithm := hex "300d06092a864886f70d0101050500";
  tsd_signature := hex "
038181006bc3a06656842930a247e30d5864b4d819236ba7c68965862ad7dbc4e24af28e86bb531f03358be5fb74777c
6086f850caef893f0d6fcc2d0c91ec013693b4ea00b80cd49aac4ecb5f8911afe539ada4a8f3823d1d13e472d1490547
c659c7617f3d24087ddb6f2b72096167fc097cab18e9a458fcb634cdce8ee35894c484d7";
|}.

(** [rsa-pkcs1-sha1-wrong-algorithm.pem] *)
Definition rsa_pkcs1_sha1_wrong_algorithm : TestSignedData := {|
  tsd_spki := hex "
30819f300d06092a864886f70d010101050003818d0030818902818100a56e4a0e701017589a5187dc7ea841d156f2ec
0e36ad52a44dfeb1e61f7ad991d8c51056ffedb162b4c0f283a12a88a394dff526ab7291cbb307ceabfce0b1dfd5cd95
08096d5b2b8b6df5d671ef6377c0921cb23c270a70e2598e6ff89d19f105acc2d3f0cb35f29280e1386b6f64c4ef22e1
e1f20d0ce8cffb2249bd9a21370203010001";
  tsd_data := hex "
cdc87da223d786df3b45e0bbbc721326d1ee2af806cc315475cc6f0d9c66e1b62371d45ce2392e1ac92844c310102f15
6a0d8d52c1f4c40ba3aa65095786cb769757a6563ba958fed0bcc984e8b517a3d5f515b23b8a41e74aa867693f90dfb0
61a6e86dfaaee64472c00e5f20945729cbebe77f06ce78e08f4098fba41f9d6193c0317e8b60d4b6084acb42d29e3808
a3bc372d85e331170fcbf7cc72d0b71c296648b3a4d10f416295d0807aa625cab2744fd9ea8fd223c42537029828bd16
be02546f130fd2e33b936d2676e08aed1b73318b750a0167d0";
  tsd_algorithm := hex "300d06092a864886f70d01010b0500";
  tsd_signature := hex "
038181006bc3a06656842930a247e30d5864b4d819236ba7c68965862ad7dbc4e24af28e86bb531f03358be5fb74777c
6086f850caef893f0d6fcc2d0c91ec013693b4ea00b80cd49aac4ecb5f8911afe539ada4a8f3823d1d13e472d1490547
c659c7617f3d24087ddb6f2b72096167fc097cab18e9a458fcb634cdce8ee35894c484d7";
|}.

(** [rsa-pkcs1-sha1.pem] *)
Definition rsa_pkcs1_sha1 : TestSignedData := {|
  tsd_spki := hex "
30819f300d06092a864886f70d010101050003818d0030818902818100a56e4a0e701017589a5187dc7ea841d156f2ec
0e36ad52a44dfeb1e61f7ad991d8c51056ffedb162b4c0f283a12a88a394dff526ab7291cbb307ceabfce0b1dfd5cd95
08096d5b2b8b6df5d671ef6377c0921cb23c270a70e2598e6ff89d19f105acc2d3f0cb35f29280e1386b6f64c4ef22e1
e1f20d0ce8cffb2249bd9a21370203010001";
  tsd_data := hex "
cdc87da223d786df3b45e0bbbc721326d1ee2af806cc315475cc6f0d9c66e1b62371d45ce2392e1ac92844c310102f15
6a0d8d52c1f4c40ba3aa65095786cb769757a6563ba958fed0bcc984e8b517a3d5f515b23b8a41e74aa867693f90dfb0
61a6e86dfaaee64472c00e5f20945729cbebe77f06ce78e08f4098fba41f9d6193c0317e8b60d4b6084acb42d29e3808
a3bc372d85e331170fcbf7cc72d0b71c296648b3a4d10f416295d0807aa625cab2744fd9ea8fd223c42537029828bd16
be02546f130fd2e33b936d2676e08aed1b73318b750a0167d0";
  tsd_algorithm := hex "300d06092a864886f70d0101050500";
  tsd_signature := hex "
038181006bc3a06656842930a247e30d5864b4d819236ba7c68965862ad7dbc4e24af28e86bb531f03358be5fb74777c
6086f850caef893f0d6fcc2d0c91ec013693b4ea00b80cd49aac4ecb5f8911afe539ada4a8f3823d1d13e472d1490547
c659c7617f3d24087ddb6f2b72096167fc097cab18e9a458fcb634cdce8ee35894c484d7";
|}.

(** [rsa-pkcs1-sha256.pem] *)
Definition rsa_pkcs1_sha256 : TestSignedData := {|
  tsd_spki := hex "
30819f300d06092a864886f70d010101050003818d0030818902818100aa47e076323d62acda75267636cd02104503f3
ef26ecea65231d3de17f900fc9a8a0daee9f04f4e1ab1b2c820d18be2a888ffef48552bf25772a3f5ce0479021b00d1a
827c008df07fa30e041fedc7118579daaa7137df295310bed65da1815b67f31092fc91b28cafba76ffa5670de2c49a17
d918d5b5d278fdc9f7d7c121850203010001";
  tsd_data := hex "
308201e3a003020102020900de5e2d14e5628b45300d06092a864886f70d01010b05003056310b300906035504061302
41553113301106035504080c0a536f6d652d53746174653121301f060355040a0c18496e7465726e6574205769646769
747320507479204c7464310f300d06035504030c064d79206b6579301e170d3135303730323137303633395a170d3136
303730313137303633395a3056310b30090603550406130241553113301106035504080c0a536f6d652d537461746531
21301f060355040a0c18496e7465726e6574205769646769747320507479204c7464310f300d06035504030c064d7920
6b657930819f300d06092a864886f70d010101050003818d0030818902818100aa47e076323d62acda75267636cd0210
4503f3ef26ecea65231d3de17f900fc9a8a0daee9f04f4e1ab1b2c820d18be2a888ffef48552bf25772a3f5ce0479021
b00d1a827c008df07fa30e041fedc7118579daaa7137df295310bed65da1815b67f31092fc91b28cafba76ffa5670de2
c49a17d918d5b5d278fdc9f7d7c121850203010001a350304e301d0603551d0e04160414cd00552931249f22e7756776
1d3b017532afca29301f0603551d23041830168014cd00552931249f22e77567761d3b017532afca29300c0603551d13
040530030101ff";
  tsd_algorithm := hex "300d06092a864886f70d01010b0500";
  tsd_signature := hex "
038181003ac74a6152270fc6bfb86ce4f373a5a27002b8bfb22b5aac865fccdfd28d1fa7f0bf327931288836f5f81931
945bd7bcf1d368e2a83b75a5b2534d3b18755b9fc99186063949027322239e59faa92e7ad2299caf754d8e8993fccf0c
d88b2cfab26229abb54d1b9a3fb1fc8baf86a9fdec68676bf3f2e7bc501d350be46a542d";
|}.

(** [rsa-pkcs1-sha256-key-encoded-ber.pem] *)
Definition rsa_pkcs1_sha256_key_encoded_ber : TestSignedData := {|
  tsd_spki := hex "
3082009f300d06092a864886f70d010101050003818d0030818902818100aa47e076323d62acda75267636cd02104503
f3ef26ecea65231d3de17f900fc9a8a0daee9f04f4e1ab1b2c820d18be2a888ffef48552bf25772a3f5ce0479021b00d
1a827c008df07fa30e041fedc7118579daaa7137df295310bed65da1815b67f31092fc91b28cafba76ffa5670de2c49a
17d918d5b5d278fdc9f7d7c121850203010001";
  tsd_data := hex "
308201e3a003020102020900de5e2d14e5628b45300d06092a864886f70d01010b05003056310b300906035504061302
41553113301106035504080c0a536f6d652d53746174653121301f060355040a0c18496e7465726e6574205769646769
747320507479204c7464310f300d06035504030c064d79206b6579301e170d3135303730323137303633395a170d3136
303730313137303633395a3056310b30090603550406130241553113301106035504080c0a536f6d652d537461746531
21301f060355040a0c18496e7465726e6574205769646769747320507479204c7464310f300d06035504030c064d7920
6b657930819f300d06092a864886f70d010101050003818d0030818902818100aa47e076323d62acda75267636cd0210
4503f3ef26ecea65231d3de17f900fc9a8a0daee9f04f4e1ab1b2c820d18be2a888ffef48552bf25772a3f5ce0479021
b00d1a827c008df07fa30e041fedc7118579daaa7137df295310bed65da1815b67f31092fc91b28cafba76ffa5670de2
c49a17d918d5b5d278fdc9f7d7c121850203010001a350304e301d0603551d0e04160414cd00552931249f22e7756776
1d3b017532afca29301f0603551d23041830168014cd00552931249f22e77567761d3b017532afca29300c0603551d13
040530030101ff";
  tsd_algorithm := hex "300d06092a864886f70d01010b0500";
  tsd_signature := hex "
038181003ac74a6152270fc6bfb86ce4f373a5a27002b8bfb22b5aac865fccdfd28d1fa7f0bf327931288836f5f81931
945bd7bcf1d368e2a83b75a5b2534d3b18755b9fc99186063949027322239e59faa92e7ad2299caf754d8e8993fccf0c
d88b2cfab26229abb54d1b9a3fb1fc8baf86a9fdec68676bf3f2e7bc501d350be46a542d";
|}.

(** [rsa-pkcs1-sha256-spki-non-null-params.pem] *)
Definition rsa_pkcs1_sha256_spki_non_null_params : TestSignedData := {|
  tsd_spki := hex "
30819f300d06092a864886f70d010101020003818d0030818902818100aa47e076323d62acda75267636cd02104503f3
ef26ecea65231d3de17f900fc9a8a0daee9f04f4e1ab1b2c820d18be2a888ffef48552bf25772a3f5ce0479021b00d1a
827c008df07fa30e041fedc7118579daaa7137df295310bed65da1815b67f31092fc91b28cafba76ffa5670de2c49a17
d918d5b5d278fdc9f7d7c121850203010001";
  tsd_data := hex "
308201e3a003020102020900de5e2d14e5628b45300d06092a864886f70d01010b05003056310b300906035504061302
41553113301106035504080c0a536f6d652d53746174653121301f060355040a0c18496e7465726e6574205769646769
747320507479204c7464310f300d06035504030c064d79206b6579301e170d3135303730323137303633395a170d3136
303730313137303633395a3056310b30090603550406130241553113301106035504080c0a536f6d652d537461746531
21301f060355040a0c18496e7465726e6574205769646769747320507479204c7464310f300d06035504030c064d7920
6b657930819f300d06092a864886f70d010101050003818d0030818902818100aa47e076323d62acda75267636cd0210
4503f3ef26ecea65231d3de17f900fc9a8a0daee9f04f4e1ab1b2c820d18be2a888ffef48552bf25772a3f5ce0479021
b00d1a827c008df07fa30e041fedc7118579daaa7137df295310bed65da1815b67f31092fc91b28cafba76ffa5670de2
c49a17d918d5b5d278fdc9f7d7c121850203010001a350304e301d0603551d0e04160414cd00552931249f22e7756776
1d3b017532afca29301f0603551d23041830168014cd00552931249f22e77567761d3b017532afca29300c0603551d13
040530030101ff";
  tsd_algorithm := hex "300d06092a864886f70d01010b0500";
  tsd_signature := hex "
038181003ac74a6152270fc6bfb86ce4f373a5a27002b8bfb22b5aac865fccdfd28d1fa7f0bf327931288836f5f81931
945bd7bcf1d368e2a83b75a5b2534d3b18755b9fc99186063949027322239e59faa92e7ad2299caf754d8e8993fccf0c
d88b2cfab26229abb54d1b9a3fb1fc8baf86a9fdec68676bf3f2e7bc501d350be46a542d";
|}.

(** [rsa-pkcs1-sha256-using-ecdsa-algorithm.pem] *)
Definition rsa_pkcs1_sha256_using_ecdsa_algorithm : TestSignedData := {|
  tsd_spki := hex "
30819f300d06092a864886f70d010101050003818d0030818902818100aa47e076323d62acda75267636cd02104503f3
ef26ecea65231d3de17f900fc9a8a0daee9f04f4e1ab1b2c820d18be2a888ffef48552bf25772a3f5ce0479021b00d1a
827c008df07fa30e041fedc7118579daaa7137df295310bed65da1815b67f31092fc91b28cafba76ffa5670de2c49a17
d918d5b5d278fdc9f7d7c121850203010001";
  tsd_data := hex "
308201e3a003020102020900de5e2d14e5628b45300d06092a864886f70d01010b05003056310b300906035504061302
41553113301106035504080c0a536f6d652d53746174653121301f060355040a0c18496e7465726e6574205769646769
747320507479204c7464310f300d06035504030c064d79206b6579301e170d3135303730323137303633395a170d3136
303730313137303633395a3056310b30090603550406130241553113301106035504080c0a536f6d652d537461746531
21301f060355040a0c18496e7465726e6574205769646769747320507479204c7464310f300d06035504030c064d7920
6b657930819f300d06092a864886f70d010101050003818d0030818902818100aa47e076323d62acda75267636cd0210
4503f3ef26ecea65231d3de17f900fc9a8a0daee9f04f4e1ab1b2c820d18be2a888ffef48552bf25772a3f5ce0479021
b00d1a827c008df07fa30e041fedc7118579daaa7137df295310bed65da1815b67f31092fc91b28cafba76ffa5670de2
c49a17d918d5b5d278fdc9f7d7c121850203010001a350304e301d0603551d0e04160414cd00552931249f22e7756776
1d3b017532afca29301f0603551d23041830168014cd00552931249f22e77567761d3b017532afca29300c0603551d13
040530030101ff";
  tsd_algorithm := hex "300a06082a8648ce3d040302";
  tsd_signature := hex "
038181003ac74a6152270fc6bfb86ce4f373a5a27002b8bfb22b5aac865fccdfd28d1fa7f0bf327931288836f5f81931
945bd7bcf1d368e2a83b75a5b2534d3b18755b9fc99186063949027322239e59faa92e7ad2299caf754d8e8993fccf0c
d88b2cfab26229abb54d1b9a3fb1fc8baf86a9fdec68676bf3f2e7bc501d350be46a542d";
|}.

(** [rsa-pkcs1-sha256-using-id-ea-rsa.pem] *)
Definition rsa_pkcs1_sha256_using_id_ea_rsa : TestSignedData := {|
  tsd_spki := hex "
30819a3008060455080101050003818d0030818902818100aa47e076323d62acda75267636cd02104503f3ef26ecea65
231d3de17f900fc9a8a0daee9f04f4e1ab1b2c820d18be2a888ffef48552bf25772a3f5ce0479021b00d1a827c008df0
7fa30e041fedc7118579daaa7137df295310bed65da1815b67f31092fc91b28cafba76ffa5670de2c49a17d918d5b5d2
78fdc9f7d7c121850203010001";
  tsd_data := hex "
308201e3a003020102020900de5e2d14e5628b45300d06092a864886f70d01010b05003056310b300906035504061302
41553113301106035504080c0a536f6d652d53746174653121301f060355040a0c18496e7465726e6574205769646769
747320507479204c7464310f300d06035504030c064d79206b6579301e170d3135303730323137303633395a170d3136
303730313137303633395a3056310b30090603550406130241553113301106035504080c0a536f6d652d537461746531
21301f060355040a0c18496e7465726e6574205769646769747320507479204c7464310f300d06035504030c064d7920
6b657930819f300d06092a864886f70d010101050003818d0030818902818100aa47e076323d62acda75267636cd0210
4503f3ef26ecea65231d3de17f900fc9a8a0daee9f04f4e1ab1b2c820d18be2a888ffef48552bf25772a3f5ce0479021
b00d1a827c008df07fa30e041fedc7118579daaa7137df295310bed65da1815b67f31092fc91b28cafba76ffa5670de2
c49a17d918d5b5d278fdc9f7d7c121850203010001a350304e301d0603551d0e04160414cd00552931249f22e7756776
1d3b017532afca29301f0603551d23041830168014cd00552931249f22e77567761d3b017532afca29300c0603551d13
040530030101ff";
  tsd_algorithm := hex "300d06092a864886f70d01010b0500";
  tsd_signature := hex "
038181003ac74a6152270fc6bfb86ce4f373a5a27002b8bfb22b5aac865fccdfd28d1fa7f0bf327931288836f5f81931
945bd7bcf1d368e2a83b75a5b2534d3b18755b9fc99186063949027322239e59faa92e7ad2299caf754d8e8993fccf0c
d88b2cfab26229abb54d1b9a3fb1fc8baf86a9fdec68676bf3f2e7bc501d350be46a542d";
|}.

(** [rsa-pss-sha1-salt20-using-pss-key-no-params.pem] *)
Definition rsa_pss_sha1_salt20_using_pss_key_no_params : TestSignedData := {|
  tsd_spki := hex "
30819d300b06092a864886f70d01010a03818d0030818902818100a56e4a0e701017589a5187dc7ea841d156f2ec0e36
ad52a44dfeb1e61f7ad991d8c51056ffedb162b4c0f283a12a88a394dff526ab7291cbb307ceabfce0b1dfd5cd950809
6d5b2b8b6df5d671ef6377c0921cb23c270a70e2598e6ff89d19f105acc2d3f0cb35f29280e1386b6f64c4ef22e1e1f2
0d0ce8cffb2249bd9a21370203010001";
  tsd_data := hex "
cdc87da223d786df3b45e0bbbc721326d1ee2af806cc315475cc6f0d9c66e1b62371d45ce2392e1ac92844c310102f15
6a0d8d52c1f4c40ba3aa65095786cb769757a6563ba958fed0bcc984e8b517a3d5f515b23b8a41e74aa867693f90dfb0
61a6e86dfaaee64472c00e5f20945729cbebe77f06ce78e08f4098fba41f9d6193c0317e8b60d4b6084acb42d29e3808
a3bc372d85e331170fcbf7cc72d0b71c296648b3a4d10f416295d0807aa625cab2744fd9ea8fd223c42537029828bd16
be02546f130fd2e33b936d2676e08aed1b73318b750a0167d0";
  tsd_algorithm := hex "300d06092a864886f70d01010a3000";
  tsd_signature := hex "
038181009074308fb598e9701b2294388e52f971faac2b60a5145af185df5287b5ed2887e57ce7fd44dc8634e407c8e0
e4360bc226f3ec227f9d9e54638e8d31f5051215df6ebb9c2f9579aa77598a38f914b5b9c1bd83c4e2f9f382a0d0aa35
42ffee65984a601bc69eb28deb27dca12c82c2d4c3f66cd500f1ff2b994d8a4e30cbb33c";
|}.

(** [rsa-pss-sha1-salt20-using-pss-key-with-null-params.pem] *)
Definition rsa_pss_sha1_salt20_using_pss_key_with_null_params : TestSignedData := {|
  tsd_spki := hex "
30819f300d06092a864886f70d01010a050003818d0030818902818100a56e4a0e701017589a5187dc7ea841d156f2ec
0e36ad52a44dfeb1e61f7ad991d8c51056ffedb162b4c0f283a12a88a394dff526ab7291cbb307ceabfce0b1dfd5cd95
08096d5b2b8b6df5d671ef6377c0921cb23c270a70e2598e6ff89d19f105acc2d3f0cb35f29280e1386b6f64c4ef22e1
e1f20d0ce8cffb2249bd9a21370203010001";
  tsd_data := hex "
cdc87da223d786df3b45e0bbbc721326d1ee2af806cc315475cc6f0d9c66e1b62371d45ce2392e1ac92844c310102f15
6a0d8d52c1f4c40ba3aa65095786cb769757a6563ba958fed0bcc984e8b517a3d5f515b23b8a41e74aa867693f90dfb0
61a6e86dfaaee64472c00e5f20945729cbebe77f06ce78e08f4098fba41f9d6193c0317e8b60d4b6084acb42d29e3808
a3bc372d85e331170fcbf7cc72d0b71c296648b3a4d10f416295d0807aa625cab2744fd9ea8fd223c42537029828bd16
be02546f130fd2e33b936d2676e08aed1b73318b750a0167d0";
  tsd_algorithm := hex "300d06092a864886f70d01010a3000";
  tsd_signature := hex "
038181009074308fb598e9701b2294388e52f971faac2b60a5145af185df5287b5ed2887e57ce7fd44dc8634e407c8e0
e4360bc226f3ec227f9d9e54638e8d31f5051215df6ebb9c2f9579aa77598a38f914b5b9c1bd83c4e2f9f382a0d0aa35
42ffee65984a601bc69eb28deb27dca12c82c2d4c3f66cd500f1ff2b994d8a4e30cbb33c";
|}.

(** [rsa-pss-sha1-salt20.pem] *)
Definition rsa_pss_sha1_salt20 : TestSignedData := {|
  tsd_spki := hex "
30819f300d06092a864886f70d010101050003818d0030818902818100a56e4a0e701017589a5187dc7ea841d156f2ec
0e36ad52a44dfeb1e61f7ad991d8c51056ffedb162b4c0f283a12a88a394dff526ab7291cbb307ceabfce0b1dfd5cd95
08096d5b2b8b6df5d671ef6377c0921cb23c270a70e2598e6ff89d19f105acc2d3f0cb35f29280e1386b6f64c4ef22e1
e1f20d0ce8cffb2249bd9a21370203010001";
  tsd_data := hex "
cdc87da223d786df3b45e0bbbc721326d1ee2af806cc315475cc6f0d9c66e1b62371d45ce2392e1ac92844c310102f15
6a0d8d52c1f4c40ba3aa65095786cb769757a6563ba958fed0bcc984e8b517a3d5f515b23b8a41e74aa867693f90dfb0
61a6e86dfaaee64472c00e5f20945729cbebe77f06ce78e08f4098fba41f9d6193c0317e8b60d4b6084acb42d29e3808
a3bc372d85e331170fcbf7cc72d0b71c296648b3a4d10f416295d0807aa625cab2744fd9ea8fd223c42537029828bd16
be02546f130fd2e33b936d2676e08aed1b73318b750a0167d0";
  tsd_algorithm := hex "300d06092a864886f70d01010a3000";
  tsd_signature := hex "
038181009074308fb598e9701b2294388e52f971faac2b60a5145af185df5287b5ed2887e57ce7fd44dc8634e407c8e0
e4360bc226f3ec227f9d9e54638e8d31f5051215df6ebb9c2f9579aa77598a38f914b5b9c1bd83c4e2f9f382a0d0aa35
42ffee65984a601bc69eb28deb27dca12c82c2d4c3f66cd500f1ff2b994d8a4e30cbb33c";
|}.

(** [rsa-pss-sha1-wrong-salt.pem] *)
Definition rsa_pss_sha1_wrong_salt : TestSignedData := {|
  tsd_spki := hex "
30819f300d06092a864886f70d010101050003818d0030818902818100a56e4a0e701017589a5187dc7ea841d156f2ec
0e36ad52a44dfeb1e61f7ad991d8c51056ffedb162b4c0f283a12a88a394dff526ab7291cbb307ceabfce0b1dfd5cd95
08096d5b2b8b6df5d671ef6377c0921cb23c270a70e2598e6ff89d19f105acc2d3f0cb35f29280e1386b6f64c4ef22e1
e1f20d0ce8cffb2249bd9a21370203010001";
  tsd_data := hex "
cdc87da223d786df3b45e0bbbc721326d1ee2af806cc315475cc6f0d9c66e1b62371d45ce2392e1ac92844c310102f15
6a0d8d52c1f4c40ba3aa65095786cb769757a6563ba958fed0bcc984e8b517a3d5f515b23b8a41e74aa867693f90dfb0
61a6e86dfaaee64472c00e5f20945729cbebe77f06ce78e08f4098fba41f9d6193c0317e8b60d4b6084acb42d29e3808
a3bc372d85e331170fcbf7cc72d0b71c296648b3a4d10f416295d0807aa625cab2744fd9ea8fd223c42537029828bd16
be02546f130fd2e33b936d2676e08aed1b73318b750a0167d0";
  tsd_algorithm := hex "301206092a864886f70d01010a3005a203020117";
  tsd_signature := hex "
038181009074308fb598e9701b2294388e52f971faac2b60a5145af185df5287b5ed2887e57ce7fd44dc8634e407c8e0
e4360bc226f3ec227f9d9e54638e8d31f5051215df6ebb9c2f9579aa77598a38f914b5b9c1bd83c4e2f9f382a0d0aa35
42ffee65984a601bc69eb28deb27dca12c82c2d4c3f66cd500f1ff2b994d8a4e30cbb33c";
|}.

(** [rsa-pss-sha256-mgf1-sha512-salt33.pem] *)
Definition rsa_pss_sha256_mgf1_sha512_salt33 : TestSignedData := {|
  tsd_spki := hex "
30819f300d06092a864886f70d010101050003818d0030818902818100a56e4a0e701017589a5187dc7ea841d156f2ec
0e36ad52a44dfeb1e61f7ad991d8c51056ffedb162b4c0f283a12a88a394dff526ab7291cbb307ceabfce0b1dfd5cd95
08096d5b2b8b6df5d671ef6377c0921cb23c270a70e2598e6ff89d19f105acc2d3f0cb35f29280e1386b6f64c4ef22e1
e1f20d0ce8cffb2249bd9a21370203010001";
  tsd_data := hex "54657374206d65737361676520746f206265207369676e65642e2e2e";
  tsd_algorithm := hex "
304106092a864886f70d01010a3034a00f300d06096086480165030402010500a11c301a06092a864886f70d01010830
0d06096086480165030402030500a203020121";
  tsd_signature := hex "
038181005a1bd07482e6eb93a8abb827f963fb96c36be1e18a3e07de49569efb7a61cfb0c0fcdaeff502e258061b2bd9
a83df645411db7bbd9d78aaa60d939ddbe5a8f80b680132f2f357b3dacb89a640ce034966b92473314c82ea1370c3aa2
86b6cc701c36ab75c0b0b7237aa2d643dca9f2d7e7576d61f7caac08bb44aebc5958746b";
|}.

(** [rsa-pss-sha256-salt10-using-pss-key-with-params.pem] *)
Definition rsa_pss_sha256_salt10_using_pss_key_with_params : TestSignedData := {|
  tsd_spki := hex "
3081d1304106092a864886f70d01010a3034a00f300d06096086480165030402010500a11c301a06092a864886f70d01
0108300d06096086480165030402010500a20302010a03818b0030818702818100be499b5e7f06c83fa0293e31465c8e
b6b58af920bae52a7b5b9bfeb7aa72db1264112eb3fd431d31a2a7e50941566929494a0e891ed5613918b4b51b0d1fb9
7783b26acf7d0f384cfb35f4d2824f5dd380623a26bf180b63961c619dcdb20cae406f22f6e276c80a37259490cfeb72
c1a71a84f1846d330877ba3e3101ec9c7b020111";
  tsd_data := hex "
c7f5270fca725f9bd19f519a8d7cca3cc5c079024029f3bae510f9b02140fe238908e4f6c18f07a89c687c8684669b1f
1db2baf9251a3c829faccb493084e16ec9e28d58868074a5d6221667dd6e528d16fe2c9f3db4cfaf6c4dce8c8439af38
ceaaaa9ce2ecae7bc8f4a5a55e3bf96df9cd575c4f9cb327951b8cdfe4087168";
  tsd_algorithm := hex "
304106092a864886f70d01010a3034a00f300d06096086480165030402010500a11c301a06092a864886f70d01010830
0d06096086480165030402010500a20302010a";
  tsd_signature := hex "
0381810011e169f2fd40b07641b9768a2ab19965fb6c27f10fcf0323fcc6d12eb4f1c06b330ddaa1ea504407afa29de9
ebe0374fe9d1e7d0ffbd5fc1cf3a3446e4145415d2ab24f789b3464c5c43a256bbc1d692cf7f04801dac5bb401a4a03a
b7d5728a860c19e1a4dc797ca542c8203cec2e601eb0c51f567f2eda022b0b9ebddeeefa";
|}.

(** [rsa-pss-sha256-salt10-using-pss-key-with-wrong-params.pem] *)
Definition rsa_pss_sha256_salt10_using_pss_key_with_wrong_params : TestSignedData := {|
  tsd_spki := hex "
3081d1304106092a864886f70d01010a3034a00f300d06096086480165030402020500a11c301a06092a864886f70d01
0108300d06096086480165030402010500a20302010a03818b0030818702818100be499b5e7f06c83fa0293e31465c8e
b6b58af920bae52a7b5b9bfeb7aa72db1264112eb3fd431d31a2a7e50941566929494a0e891ed5613918b4b51b0d1fb9
7783b26acf7d0f384cfb35f4d2824f5dd380623a26bf180b63961c619dcdb20cae406f22f6e276c80a37259490cfeb72
c1a71a84f1846d330877ba3e3101ec9c7b020111";
  tsd_data := hex "
c7f5270fca725f9bd19f519a8d7cca3cc5c079024029f3bae510f9b02140fe238908e4f6c18f07a89c687c8684669b1f
1db2baf9251a3c829faccb493084e16ec9e28d58868074a5d6221667dd6e528d16fe2c9f3db4cfaf6c4dce8c8439af38
ceaaaa9ce2ecae7bc8f4a5a55e3bf96df9cd575c4f9cb327951b8cdfe4087168";
  tsd_algorithm := hex "
304106092a864886f70d01010a3034a00f300d06096086480165030402010500a11c301a06092a864886f70d01010830
0d06096086480165030402010500a20302010a";
  tsd_signature := hex "
0381810011e169f2fd40b07641b9768a2ab19965fb6c27f10fcf0323fcc6d12eb4f1c06b330ddaa1ea504407afa29de9
ebe0374fe9d1e7d0ffbd5fc1cf3a3446e4145415d2ab24f789b3464c5c43a256bbc1d692cf7f04801dac5bb401a4a03a
b7d5728a860c19e1a4dc797ca542c8203cec2e601eb0c51f567f2eda022b0b9ebddeeefa";
|}.

(** [rsa-pss-sha256-salt10.pem] *)
Definition rsa_pss_sha256_salt10 : TestSignedData := {|
  tsd_spki := hex "
30819d300d06092a864886f70d010101050003818b0030818702818100be499b5e7f06c83fa0293e31465c8eb6b58af9
20bae52a7b5b9bfeb7aa72db1264112eb3fd431d31a2a7e50941566929494a0e891ed5613918b4b51b0d1fb97783b26a
cf7d0f384cfb35f4d2824f5dd380623a26bf180b63961c619dcdb20cae406f22f6e276c80a37259490cfeb72c1a71a84
f1846d330877ba3e3101ec9c7b020111";
  tsd_data := hex "
c7f5270fca725f9bd19f519a8d7cca3cc5c079024029f3bae510f9b02140fe238908e4f6c18f07a89c687c8684669b1f
1db2baf9251a3c829faccb493084e16ec9e28d58868074a5d6221667dd6e528d16fe2c9f3db4cfaf6c4dce8c8439af38
ceaaaa9ce2ecae7bc8f4a5a55e3bf96df9cd575c4f9cb327951b8cdfe4087168";
  tsd_algorithm := hex "
304106092a864886f70d01010a3034a00f300d06096086480165030402010500a11c301a06092a864886f70d01010830
0d06096086480165030402010500a20302010a";
  tsd_signature := hex "
0381810011e169f2fd40b07641b9768a2ab19965fb6c27f10fcf0323fcc6d12eb4f1c06b330ddaa1ea504407afa29de9
ebe0374fe9d1e7d0ffbd5fc1cf3a3446e4145415d2ab24f789b3464c5c43a256bbc1d692cf7f04801dac5bb401a4a03a
b7d5728a860c19e1a4dc797ca542c8203cec2e601eb0c51f567f2eda022b0b9ebddeeefa";
|}.

(** [ours/rsa-pss-sha256-salt32.pem] *)
Definition ours_rsa_pss_sha256_salt32 : TestSignedData := {|
  tsd_spki := hex "
30820122300d06092a864886f70d01010105000382010f003082010a0282010100b550dc83504ca8f9de88d04be7e9a3
101e66c63273824982959479cf58cd86df80b3af8c9607e59e2d1b07c2e38566c8b7e759e81b787121ce9c03a790c0ce
170b6bc4913a120d46436bb1f670d536fad092838bce75ebc4c87f69fd29712a3c908b439a4a9b57f7e2dd0eda8296dc
59cff8c1364e7ceea59ece276f9b34f28694bf7b85e56734b24b4dafa85ee91df3490e982b929917341d9c4b46738830
1d65d9f71b7825e00d86dde6e11369318f3da99b19c66aa87b0607b9741401f97b5b40c2de1a313a82f04aa2f66eddb3
30c791f16028e75618d1c267cc01044dc9d620ce9e6a56f93ac8f78921249f145395ecb8ed2b0e0d0d266945168fcc04
8f0203010001";
  tsd_data := hex "
2b90428f2e2108d019066453fb04b8879c0383ba4eebba0715a6c3b79717369f17eac2cd1f6be32022ed3b69e23f067f
624db24b10bc3203bff94f6c7525f1a8";
  tsd_algorithm := hex "
304106092a864886f70d01010a3034a00f300d06096086480165030402010500a11c301a06092a864886f70d01010830
0d06096086480165030402010500a203020120";
  tsd_signature := hex "
038201010099aa55c986f88528e2877b5b2c6e6d1386d02701b72e3f7002059c9fa418df625c40825b4dcc19e612dc63
b1b6503cc5c70c7c98f9f7445f02b6bdba02cfb0732115dcadc246ce3b01736ccf78d6659a169a748a1ae5df23cb7931
9d3f9fdd8563286641ab00daa84e4a89e8e157495a4caf9c346157a3d6b7ca5202a24face2354dd98eea13e22683200d
6d9ca7d5de96e959c57f8195be29f6845c1309c667280e836cd62702b6db3661e6301d92fb52b0f5d024967cd99b05a0
352462aed4e95074c121662adc1d213cbf08cf02a4f3dfe2283698d9fa55fd69eda0bda680cee86bfefea1059adbb046
61fb586660e9210b4d6d478ee1506769ea86800e5f";
|}.

(** [ours/rsa-pss-sha384-salt48.pem] *)
Definition ours_rsa_pss_sha384_salt48 : TestSignedData := {|
  tsd_spki := hex "
30820122300d06092a864886f70d01010105000382010f003082010a0282010100b550dc83504ca8f9de88d04be7e9a3
101e66c63273824982959479cf58cd86df80b3af8c9607e59e2d1b07c2e38566c8b7e759e81b787121ce9c03a790c0ce
170b6bc4913a120d46436bb1f670d536fad092838bce75ebc4c87f69fd29712a3c908b439a4a9b57f7e2dd0eda8296dc
59cff8c1364e7ceea59ece276f9b34f28694bf7b85e56734b24b4dafa85ee91df3490e982b929917341d9c4b46738830
1d65d9f71b7825e00d86dde6e11369318f3da99b19c66aa87b0607b9741401f97b5b40c2de1a313a82f04aa2f66eddb3
30c791f16028e75618d1c267cc01044dc9d620ce9e6a56f93ac8f78921249f145395ecb8ed2b0e0d0d266945168fcc04
8f0203010001";
  tsd_data := hex "
4c3465cf974a3aa7ce4218abc078f4d1bb1595ffb45847b6a8c7bd97a495afd487078128c36eabf9a53bfa9199169efb
e0ed38d7121e5368191d8ccd5818c665";
  tsd_algorithm := hex "
304106092a864886f70d01010a3034a00f300d06096086480165030402020500a11c301a06092a864886f70d01010830
0d06096086480165030402020500a203020130";
  tsd_signature := hex "
03820101006f94be00bb02f7844a1b328941cd1ff4833b89f6ee004d610f3b9b93881b5d279371f4eea0142aed64cc1f
114f6ae1bcdacca5725914a99f6dc666396635884508d95f63797a225871184573fd878e825ac147c8456c0d7bf37e63
4e6702474f46e9267b5b09bc355eeb8b0c285b5e40d4dd9ac6e68001c0b17fd4f8f2e7a10265eb7c0a49ca09763d678a
cf3013500b86ccb2e643484d195bd4adac4225f89e86d9cc9645948926608ef9972afe8dd89b4df1d1cc1d51333d3068
bb86b6e68cd0211008185bd961c0e6e435b808d26a14cd664efd8111e3825b987006deb4c66f245ce5f8386c2013207f
687b6d5873dd022154a0e0e8e63e0cb5cbda8ee5ad";
|}.

(** [ours/rsa-pss-sha512-salt64.pem] *)
Definition ours_rsa_pss_sha512_salt64 : TestSignedData := {|
  tsd_spki := hex "
30820122300d06092a864886f70d01010105000382010f003082010a0282010100b550dc83504ca8f9de88d04be7e9a3
101e66c63273824982959479cf58cd86df80b3af8c9607e59e2d1b07c2e38566c8b7e759e81b787121ce9c03a790c0ce
170b6bc4913a120d46436bb1f670d536fad092838bce75ebc4c87f69fd29712a3c908b439a4a9b57f7e2dd0eda8296dc
59cff8c1364e7ceea59ece276f9b34f28694bf7b85e56734b24b4dafa85ee91df3490e982b929917341d9c4b46738830
1d65d9f71b7825e00d86dde6e11369318f3da99b19c66aa87b0607b9741401f97b5b40c2de1a313a82f04aa2f66eddb3
30c791f16028e75618d1c267cc01044dc9d620ce9e6a56f93ac8f78921249f145395ecb8ed2b0e0d0d266945168fcc04
8f0203010001";
  tsd_data := hex "
0449c6618f86ac3b2f6b06f4f243ff399d2259b1b9c81949a42209d582cf7d30a3128baf073c00916a5412c237ce4d0d
f3ec5c332277a8e8a922c5f862715f3f";
  tsd_algorithm := hex "
304106092a864886f70d01010a3034a00f300d06096086480165030402030500a11c301a06092a864886f70d01010830
0d06096086480165030402030500a203020140";
  tsd_signature := hex "
03820101004f0352bbf3b35a13271d0070df8a5d7f1768a623d3dc543e59ba5a01cfd423d6ae197dd67d3cc6a0ba70c1
55142806bd550e123a5640dfc90be129e6c86d2b1f93fa89a0d646099b6c2a15dc1a6e59236f9f51b6cc5bb13094a95e
f12a9708744020808d0ffab0ba775caa990b3473aa38af064546079c970c9906cc081531f5ac37211bb62d1a7a16d070
035eacb6949ab7f3655fe687efd7f507fba81690d5cc6ecac28aa602ebfcd6f39541208d4e7e0cac2cb19894cba9b93a
7eb5cdee7445f9240e3e4b14c175d8829cc6c8586bc20507c24737b24371fe33937e95a7be339455b8bcd126bd8bb108
39c9ade083f86b70513d64ff3136030cf00322055f";
|}.

(** [ours/rsa-pss-sha256-salt32-corrupted-data.pem] *)
Definition ours_rsa_pss_sha256_salt32_corrupted_data : TestSignedData := {|
  tsd_spki := hex "
30820122300d06092a864886f70d01010105000382010f003082010a0282010100b550dc83504ca8f9de88d04be7e9a3
101e66c63273824982959479cf58cd86df80b3af8c9607e59e2d1b07c2e38566c8b7e759e81b787121ce9c03a790c0ce
170b6bc4913a120d46436bb1f670d536fad092838bce75ebc4c87f69fd29712a3c908b439a4a9b57f7e2dd0eda8296dc
59cff8c1364e7ceea59ece276f9b34f28694bf7b85e56734b24b4dafa85ee91df3490e982b929917341d9c4b46738830
1d65d9f71b7825e00d86dde6e11369318f3da99b19c66aa87b0607b9741401f97b5b40c2de1a313a82f04aa2f66eddb3
30c791f16028e75618d1c267cc01044dc9d620ce9e6a56f93ac8f78921249f145395ecb8ed2b0e0d0d266945168fcc04
8f0203010001";
  tsd_data := hex "
2ba0428f2e2108d019066453fb04b8879c0383ba4eebba0715a6c3b79717369f17eac2cd1f6be32022ed3b69e23f067f
624db24b10bc3203bff94f6c7525f1a8";
  tsd_algorithm := hex "
304106092a864886f70d01010a3034a00f300d06096086480165030402010500a11c301a06092a864886f70d01010830
0d06096086480165030402010500a203020120";
  tsd_signature := hex "
038201010099aa55c986f88528e2877b5b2c6e6d1386d02701b72e3f7002059c9fa418df625c40825b4dcc19e612dc63
b1b6503cc5c70c7c98f9f7445f02b6bdba02cfb0732115dcadc246ce3b01736ccf78d6659a169a748a1ae5df23cb7931
9d3f9fdd8563286641ab00daa84e4a89e8e157495a4caf9c346157a3d6b7ca5202a24face2354dd98eea13e22683200d
6d9ca7d5de96e959c57f8195be29f6845c1309c667280e836cd62702b6db3661e6301d92fb52b0f5d024967cd99b05a0
352462aed4e95074c121662adc1d213cbf08cf02a4f3dfe2283698d9fa55fd69eda0bda680cee86bfefea1059adbb046
61fb586660e9210b4d6d478ee1506769ea86800e5f";
|}.

(** [ours/rsa-pss-sha384-salt48-corrupted-data.pem] *)
Definition ours_rsa_pss_sha384_salt48_corrupted_data : TestSignedData := {|
  tsd_spki := hex "
30820122300d06092a864886f70d01010105000382010f003082010a0282010100b550dc83504ca8f9de88d04be7e9a3
101e66c63273824982959479cf58cd86df80b3af8c9607e59e2d1b07c2e38566c8b7e759e81b787121ce9c03a790c0ce
170b6bc4913a120d46436bb1f670d536fad092838bce75ebc4c87f69fd29712a3c908b439a4a9b57f7e2dd0eda8296dc
59cff8c1364e7ceea59ece276f9b34f28694bf7b85e56734b24b4dafa85ee91df3490e982b929917341d9c4b46738830
1d65d9f71b7825e00d86dde6e11369318f3da99b19c66aa87b0607b9741401f97b5b40c2de1a313a82f04aa2f66eddb3
30c791f16028e75618d1c267cc01044dc9d620ce9e6a56f93ac8f78921249f145395ecb8ed2b0e0d0d266945168fcc04
8f0203010001";
  tsd_data := hex "
4c3ae5cf974a3aa7ce4218abc078f4d1bb1595ffb45847b6a8c7bd97a495afd487078128c36eabf9a53bfa9199169efb
e0ed38d7121e5368191d8ccd5818c665";
  tsd_algorithm := hex "
304106092a864886f70d01010a3034a00f300d06096086480165030402020500a11c301a06092a864886f70d01010830
0d06096086480165030402020500a203020130";
  tsd_signature := hex "
03820101006f94be00bb02f7844a1b328941cd1ff4833b89f6ee004d610f3b9b93881b5d279371f4eea0142aed64cc1f
114f6ae1bcdacca5725914a99f6dc666396635884508d95f63797a225871184573fd878e825ac147c8456c0d7bf37e63
4e6702474f46e9267b5b09bc355eeb8b0c285b5e40d4dd9ac6e68001c0b17fd4f8f2e7a10265eb7c0a49ca09763d678a
cf3013500b86ccb2e643484d195bd4adac4225f89e86d9cc9645948926608ef9972afe8dd89b4df1d1cc1d51333d3068
bb86b6e68cd0211008185bd961c0e6e435b808d26a14cd664efd8111e3825b987006deb4c66f245ce5f8386c2013207f
687b6d5873dd022154a0e0e8e63e0cb5cbda8ee5ad";
|}.

(** [ours/rsa-pss-sha512-salt64-corrupted-data.pem] *)
Definition ours_rsa_pss_sha512_salt64_corrupted_data : TestSignedData := {|
  tsd_spki := hex "
30820122300d06092a864886f70d01010105000382010f003082010a0282010100b550dc83504ca8f9de88d04be7e9a3
101e66c63273824982959479cf58cd86df80b3af8c9607e59e2d1b07c2e38566c8b7e759e81b787121ce9c03a790c0ce
170b6bc4913a120d46436bb1f670d536fad092838bce75ebc4c87f69fd29712a3c908b439a4a9b57f7e2dd0eda8296dc
59cff8c1364e7ceea59ece276f9b34f28694bf7b85e56734b24b4dafa85ee91df3490e982b929917341d9c4b46738830
1d65d9f71b7825e00d86dde6e11369318f3da99b19c66aa87b0607b9741401f97b5b40c2de1a313a82f04aa2f66eddb3
30c791f16028e75618d1c267cc01044dc9d620ce9e6a56f93ac8f78921249f145395ecb8ed2b0e0d0d266945168fcc04
8f0203010001";
  tsd_data := hex "
044346618f86ac3b2f6b06f4f243ff399d2259b1b9c81949a42209d582cf7d30a3128baf073c00916a5412c237ce4d0d
f3ec5c332277a8e8a922c5f862715f3f";
  tsd_algorithm := hex "
304106092a864886f70d01010a3034a00f300d06096086480165030402030500a11c301a06092a864886f70d01010830
0d06096086480165030402030500a203020140";
  tsd_signature := hex "
03820101004f0352bbf3b35a13271d0070df8a5d7f1768a623d3dc543e59ba5a01cfd423d6ae197dd67d3cc6a0ba70c1
55142806bd550e123a5640dfc90be129e6c86d2b1f93fa89a0d646099b6c2a15dc1a6e59236f9f51b6cc5bb13094a95e
f12a9708744020808d0ffab0ba775caa990b3473aa38af064546079c970c9906cc081531f5ac37211bb62d1a7a16d070
035eacb6949ab7f3655fe687efd7f507fba81690d5cc6ecac28aa602ebfcd6f39541208d4e7e0cac2cb19894cba9b93a
7eb5cdee7445f9240e3e4b14c175d8829cc6c8586bc20507c24737b24371fe33937e95a7be339455b8bcd126bd8bb108
39c9ade083f86b70513d64ff3136030cf00322055f";
|}.

(** [rsa-using-ec-key.pem] *)
Definition rsa_using_ec_key : TestSignedData := {|
  tsd_spki := hex "
3059301306072a8648ce3d020106082a8648ce3d030107034200049cb0cf69303dafc761d4e4687b4ecf039e6d34ab96
4af80810d8d558a4a8d6f72d51233a1788920a86ee08a1962c79efa317fb7879e297dad2146db995fa1c78";
  tsd_data := hex "
308201e3a003020102020900de5e2d14e5628b45300d06092a864886f70d01010b05003056310b300906035504061302
41553113301106035504080c0a536f6d652d53746174653121301f060355040a0c18496e7465726e6574205769646769
747320507479204c7464310f300d06035504030c064d79206b6579301e170d3135303730323137303633395a170d3136
303730313137303633395a3056310b30090603550406130241553113301106035504080c0a536f6d652d537461746531
21301f060355040a0c18496e7465726e6574205769646769747320507479204c7464310f300d06035504030c064d7920
6b657930819f300d06092a864886f70d010101050003818d0030818902818100aa47e076323d62acda75267636cd0210
4503f3ef26ecea65231d3de17f900fc9a8a0daee9f04f4e1ab1b2c820d18be2a888ffef48552bf25772a3f5ce0479021
b00d1a827c008df07fa30e041fedc7118579daaa7137df295310bed65da1815b67f31092fc91b28cafba76ffa5670de2
c49a17d918d5b5d278fdc9f7d7c121850203010001a350304e301d0603551d0e04160414cd00552931249f22e7756776
1d3b017532afca29301f0603551d23041830168014cd00552931249f22e77567761d3b017532afca29300c0603551d13
040530030101ff";
  tsd_algorithm := hex "300d06092a864886f70d01010b0500";
  tsd_signature := hex "
038181003ac74a6152270fc6bfb86ce4f373a5a27002b8bfb22b5aac865fccdfd28d1fa7f0bf327931288836f5f81931
945bd7bcf1d368e2a83b75a5b2534d3b18755b9fc99186063949027322239e59faa92e7ad2299caf754d8e8993fccf0c
d88b2cfab26229abb54d1b9a3fb1fc8baf86a9fdec68676bf3f2e7bc501d350be46a542d";
|}.

(** [rsa2048-pkcs1-sha512.pem] *)
Definition rsa2048_pkcs1_sha512 : TestSignedData := {|
  tsd_spki := hex "
30820122300d06092a864886f70d01010105000382010f003082010a0282010100cdcbb6b21251ad7140c0c91fdf4cb6
018d73220f5517f85e81871e8f3751d80cd46fcbd4d935e57768bca69e3897e0ebbedaa6cd2ec6fb2c71dee3b1fb3b28
a816944f473d1df91b13e21199c2e4405bd8a52a66e84bbc392d78092984b6247dd44b7c2d1d3e6ddd069f7a6099bf9e
a452416813de0d2888fec9aa282b3bc8fd38fad4b8438af8ec6d382e14a9e3f866a87df66f819c9bd9ec8a11d5f457cf
7d57710d0504269dc083204fc213d9100ca1a104bbdd38e3c571ea2514b3dfb4a5b9e3153ee36772a6d3e2700c2b3db9
2750ad465421db5b99cdf6364113f79baac066ab90528b357de6c2e80eea9a14258d628a997b5f558f9f01a9acb5d1eb
5b0203010001";
  tsd_data := hex "
30820245a003020102020900ee35912e4c07bc7b300d06092a864886f70d01010d05003045310b300906035504061302
41553113301106035504080c0a536f6d652d53746174653121301f060355040a0c18496e7465726e6574205769646769
747320507479204c7464301e170d3135303732383032323233315a170d3136303732373032323233315a3045310b3009
0603550406130241553113301106035504080c0a536f6d652d53746174653121301f060355040a0c18496e7465726e65
74205769646769747320507479204c746430820122300d06092a864886f70d01010105000382010f003082010a028201
0100cdcbb6b21251ad7140c0c91fdf4cb6018d73220f5517f85e81871e8f3751d80cd46fcbd4d935e57768bca69e3897
e0ebbedaa6cd2ec6fb2c71dee3b1fb3b28a816944f473d1df91b13e21199c2e4405bd8a52a66e84bbc392d78092984b6
247dd44b7c2d1d3e6ddd069f7a6099bf9ea452416813de0d2888fec9aa282b3bc8fd38fad4b8438af8ec6d382e14a9e3
f866a87df66f819c9bd9ec8a11d5f457cf7d57710d0504269dc083204fc213d9100ca1a104bbdd38e3c571ea2514b3df
b4a5b9e3153ee36772a6d3e2700c2b3db92750ad465421db5b99cdf6364113f79baac066ab90528b357de6c2e80eea9a
14258d628a997b5f558f9f01a9acb5d1eb5b0203010001a350304e301d0603551d0e041604146c08f6a3904b1c64ce92
a4b6cd4daffb758e5acf301f0603551d230418301680146c08f6a3904b1c64ce92a4b6cd4daffb758e5acf300c060355
1d13040530030101ff";
  tsd_algorithm := hex "300d06092a864886f70d01010d0500";
  tsd_signature := hex "
03820101002129236af97fc27f386d36c328e8c2694c18c9055e5f8477ab219afa7b7a33093042476f6f62c567278ffa
8b994bd6935e3a132576d867b9294ccd34b56667b53aa45607753c426c02170843c56fe2e1f753f24c4302610b369e33
d067176dedbb57cf793c4d11fe6f0fe3b07ac5badaf9242510c5b5d8ad449dd52aaceeaf80b6e86d5d789af796760734
2883a70ca82c4c757c353575c37aada75ba37ef8b361f059bb2c8c380d7264f0e944466d0a5ae8ee5b9fc0343bf8b812
76d34b30300ccdaa5f2230043d53552e6273320cda1ea32c64cf203fcbd601d7dc4789829965d5a2dacce9dd6b8c919d
4400c038d6020b8ffe77520c9151a855fa5a7a3e88";
|}.
