(* ===== verification/RingAlgsTests.v ===== *)
(** * The unit tests of [src/ring_algs.rs]

    The verification of signed data of the Chromium project against the
    algorithms of the crate.  The ring crate is a parameter: a test whose result
    is decided before a signature is checked passes for every [Ring]; a test
    whose result is a verdict on a signature passes exactly when ring's
    verification of that signature by the named algorithm answers as expected. *)
From Stdlib Require Import Strings.String.
From S2P Require Import Prelude Errors Untrusted Der Samples SignedData RingAlgs Testing.
From S2P Require Import SignedTestData.

#[local] Existing Instance slice_reader.

(** ** Reading a file *)
Section Pem.
(** [general_purpose::STANDARD.decode] of the base64 crate. *)
Context (decode : list u8 -> option (list u8)).

(** The first loop of [read_pem_section]: skip to the line [begin_section]. *)
Fixpoint skip_to (begin_section : Input) (lines : list Input) : outcome Empty_set (list Input) :=
  match lines with
  | [] => Panic
  | line :: lines =>
    if bool_decide (line = begin_section) then Ok lines else skip_to begin_section lines
  end.

(** The second loop: the lines up to [end_section], joined. *)
Fixpoint push_to (end_section : Input) (lines : list Input) (base64 : Input)
    : outcome Empty_set (Input * list Input) :=
  match lines with
  | [] => Panic
  | line :: lines =>
    if bool_decide (line = end_section) then Ok (base64, lines)
    else push_to end_section lines (base64 ++ line)
  end.

Definition begin_line (section_name : string) : Input :=
  ascii_bytes ("-----BEGIN " ++ section_name ++ "-----").
Definition end_line (section_name : string) : Input :=
  ascii_bytes ("-----END " ++ section_name ++ "-----").

(** The iterator over the lines is the list of those that are left. *)
Definition read_pem_section (lines : list Input) (section_name : string)
    : outcome Empty_set (Input * list Input) :=
  let? lines := skip_to (begin_line section_name) lines in
  let? (base64, lines) := push_to (end_line section_name) lines [] in
  let? decoded := unwrap (decode base64) in
  Ok (decoded, lines).

Definition parse_test_signed_data (lines : list Input) : outcome Empty_set TestSignedData :=
  let? (spki, lines) := read_pem_section lines "PUBLIC KEY" in
  let? (algorithm, lines) := read_pem_section lines "ALGORITHM" in
  let? (data, lines) := read_pem_section lines "DATA" in
  let? (signature, lines) := read_pem_section lines "SIGNATURE" in
  Ok {| tsd_spki := spki; tsd_data := data; tsd_algorithm := algorithm;
        tsd_signature := signature |}.

(** A section after comments is read as the decoding of its lines. *)
Lemma skip_to_spec b comments lines : b ∉ comments ->
  skip_to b (comments ++ b :: lines) = Ok lines.
Proof.
  induction comments as [|c comments IH]; simpl; intros Hb.
  - by rewrite bool_decide_eq_true_2.
  - apply not_elem_of_cons in Hb as [Hc Hb]. rewrite bool_decide_eq_false_2 by done. by apply IH.
Qed.

Lemma push_to_spec e body lines acc : e ∉ body ->
  push_to e (body ++ e :: lines) acc = Ok (acc ++ concat body, lines).
Proof.
  revert acc. induction body as [|l body IH]; simpl; intros acc He.
  - by rewrite bool_decide_eq_true_2, app_nil_r.
  - apply not_elem_of_cons in He as [Hl He]. rewrite bool_decide_eq_false_2 by done.
    by rewrite IH, <- app_assoc.
Qed.

(** The lines of a section with its armour. *)
Definition pem_section (section_name : string) (body : list Input) : list Input :=
  begin_line section_name :: body ++ [end_line section_name].

(** Lines that hold a section with the value, after comments. *)
Definition armoured (section_name : string) (value : Input) (lines : list Input) : Prop :=
  exists comments body, lines = comments ++ pem_section section_name body /\
    (begin_line section_name ∉ comments) /\ (end_line section_name ∉ body) /\
    decode (concat body) = Some value.

Lemma read_pem_section_armoured name value text lines : armoured name value text ->
  read_pem_section (text ++ lines) name = Ok (value, lines).
Proof.
  intros (comments & body & -> & Hc & Hb & Hd). unfold read_pem_section, pem_section.
  rewrite <- app_assoc. simpl app. rewrite skip_to_spec by done. simpl.
  rewrite <- app_assoc. simpl app. rewrite push_to_spec by done. simpl. by rewrite Hd.
Qed.

(** A file with the four sections in order is read as their values. *)
Lemma parse_test_signed_data_armoured tsd spki algorithm data signature rest :
  armoured "PUBLIC KEY" (tsd_spki tsd) spki ->
  armoured "ALGORITHM" (tsd_algorithm tsd) algorithm ->
  armoured "DATA" (tsd_data tsd) data ->
  armoured "SIGNATURE" (tsd_signature tsd) signature ->
  parse_test_signed_data (spki ++ algorithm ++ data ++ signature ++ rest) = Ok tsd.
Proof.
  intros. unfold parse_test_signed_data.
  by repeat (erewrite read_pem_section_armoured by done; cbn [obind]); destruct tsd.
Qed.
End Pem.

(** ** The tests *)
Section RingAlgsTests.
Context {R : Ring}.

Definition SUPPORTED_ALGORITHMS_IN_TESTS : list SignatureVerificationAlgorithm :=
  [ (* reasonable algorithms *)
    ECDSA_P256_SHA256; ECDSA_P384_SHA384; ED25519;
    RSA_PKCS1_2048_8192_SHA256; RSA_PKCS1_2048_8192_SHA384; RSA_PKCS1_2048_8192_SHA512;
    RSA_PKCS1_3072_8192_SHA384;
    RSA_PSS_2048_8192_SHA256_LEGACY_KEY; RSA_PSS_2048_8192_SHA384_LEGACY_KEY;
    RSA_PSS_2048_8192_SHA512_LEGACY_KEY;
    (* deprecated: truncates the digest, a digest that is too short *)
    ECDSA_P256_SHA384; ECDSA_P384_SHA256 ].

(** From the sections of the file, as [parse_test_signed_data] reads them. *)
Definition test_verify_signed_data (tsd : TestSignedData) (expected_result : outcome Error unit)
    : test :=
  let? spki_value := result_unwrap (read_all (tsd_spki tsd) BadDer (expect_tag Sequence)) in
  let? algorithm :=
    result_unwrap
      (read_all (tsd_algorithm tsd) (TrailingData SignatureAlgorithmId) (expect_tag Sequence)) in
  let? signature :=
    result_unwrap
      (read_all (tsd_signature tsd) (TrailingData SignatureId) bit_string_with_no_unused_bits) in
  let signed_data := {| data := tsd_data tsd; algorithm := algorithm; signature := signature |} in
  assert_eq expected_result
    (verify_signed_data SUPPORTED_ALGORITHMS_IN_TESTS spki_value signed_data).

Definition test_verify_signed_data_signature_outer (tsd : TestSignedData) (expected_error : Error)
    : test :=
  assert_eq (Err expected_error)
    (read_all (tsd_signature tsd) (TrailingData SignatureId) bit_string_with_no_unused_bits).

Definition test_parse_spki_bad_outer (tsd : TestSignedData) (expected_error : Error) : test :=
  assert_eq (Err expected_error) (read_all (tsd_spki tsd) BadDer (expect_tag Sequence)).

(** The values with the feature [alloc]. *)
Definition UNSUPPORTED_SIGNATURE_ALGORITHM_FOR_RSA_KEY : Error :=
  UnsupportedSignatureAlgorithmForPublicKey.
Definition INVALID_SIGNATURE_FOR_RSA_KEY : Error := InvalidSignatureForPublicKey.
Definition OK_IF_RSA_AVAILABLE : outcome Error unit := Ok tt.

(** What ring answers on the signature of a file. *)
Definition ring_verdict (alg : VerificationAlgorithm) (tsd : TestSignedData) : bool :=
  match read_all (tsd_spki tsd) BadDer
          (nested Sequence BadDer (from_der (T := SubjectPublicKeyInfo))),
        read_all (tsd_signature tsd) BadDer bit_string_with_no_unused_bits with
  | Ok spki, Ok signature => ring_verify alg (key_value spki) (tsd_data tsd) signature
  | _, _ => false
  end.

Definition test_ecdsa_prime256v1_sha512_spki_params_null : test :=
  test_verify_signed_data ecdsa_prime256v1_sha512_spki_params_null
    (Err UnsupportedSignatureAlgorithm).

Definition test_ecdsa_prime256v1_sha512_unused_bits_signature : test :=
  test_verify_signed_data_signature_outer ecdsa_prime256v1_sha512_unused_bits_signature BadDer.

Definition test_ecdsa_prime256v1_sha512_using_ecdh_key : test :=
  test_verify_signed_data ecdsa_prime256v1_sha512_using_ecdh_key
    (Err UnsupportedSignatureAlgorithm).

Definition test_ecdsa_prime256v1_sha512_using_ecmqv_key : test :=
  test_verify_signed_data ecdsa_prime256v1_sha512_using_ecmqv_key
    (Err UnsupportedSignatureAlgorithm).

Definition test_ecdsa_prime256v1_sha512_using_rsa_algorithm : test :=
  test_verify_signed_data ecdsa_prime256v1_sha512_using_rsa_algorithm
    (Err UNSUPPORTED_SIGNATURE_ALGORITHM_FOR_RSA_KEY).

Definition test_ecdsa_prime256v1_sha512_wrong_signature_format : test :=
  test_verify_signed_data ecdsa_prime256v1_sha512_wrong_signature_format
    (Err UnsupportedSignatureAlgorithm).

Definition test_ecdsa_prime256v1_sha512 : test :=
  test_verify_signed_data ecdsa_prime256v1_sha512 (Err UnsupportedSignatureAlgorithm).

Definition test_ecdsa_secp384r1_sha256_corrupted_data : test :=
  test_verify_signed_data ecdsa_secp384r1_sha256_corrupted_data
    (Err InvalidSignatureForPublicKey).

Definition test_ecdsa_secp384r1_sha256 : test :=
  test_verify_signed_data ecdsa_secp384r1_sha256 (Ok tt).

Definition test_ecdsa_using_rsa_key : test :=
  test_verify_signed_data ecdsa_using_rsa_key (Err UnsupportedSignatureAlgorithmForPublicKey).

Definition test_rsa_pkcs1_sha1_bad_key_der_length : test :=
  test_parse_spki_bad_outer rsa_pkcs1_sha1_bad_key_der_length BadDer.

Definition test_rsa_pkcs1_sha1_bad_key_der_null : test :=
  test_parse_spki_bad_outer rsa_pkcs1_sha1_bad_key_der_null BadDer.

Definition test_rsa_pkcs1_sha1_key_params_absent : test :=
  test_verify_signed_data rsa_pkcs1_sha1_key_params_absent (Err UnsupportedSignatureAlgorithm).

Definition test_rsa_pkcs1_sha1_using_pss_key_no_params : test :=
  test_verify_signed_data rsa_pkcs1_sha1_using_pss_key_no_params
    (Err UnsupportedSignatureAlgorithm).

Definition test_rsa_pkcs1_sha1_wrong_algorithm : test :=
  test_verify_signed_data rsa_pkcs1_sha1_wrong_algorithm (Err INVALID_SIGNATURE_FOR_RSA_KEY).

Definition test_rsa_pkcs1_sha1 : test :=
  test_verify_signed_data rsa_pkcs1_sha1 (Err UnsupportedSignatureAlgorithm).

Definition test_rsa_pkcs1_sha256 : test :=
  test_verify_signed_data rsa_pkcs1_sha256 (Err INVALID_SIGNATURE_FOR_RSA_KEY).

Definition test_rsa_pkcs1_sha256_key_encoded_ber : test :=
  test_parse_spki_bad_outer rsa_pkcs1_sha256_key_encoded_ber BadDer.

Definition test_rsa_pkcs1_sha256_spki_non_null_params : test :=
  test_verify_signed_data rsa_pkcs1_sha256_spki_non_null_params
    (Err UNSUPPORTED_SIGNATURE_ALGORITHM_FOR_RSA_KEY).

Definition test_rsa_pkcs1_sha256_using_ecdsa_algorithm : test :=
  test_verify_signed_data rsa_pkcs1_sha256_using_ecdsa_algorithm
    (Err UnsupportedSignatureAlgorithmForPublicKey).

Definition test_rsa_pkcs1_sha256_using_id_ea_rsa : test :=
  test_verify_signed_data rsa_pkcs1_sha256_using_id_ea_rsa
    (Err UNSUPPORTED_SIGNATURE_ALGORITHM_FOR_RSA_KEY).

Definition test_rsa_pss_sha1_salt20_using_pss_key_no_params : test :=
  test_verify_signed_data rsa_pss_sha1_salt20_using_pss_key_no_params
    (Err UnsupportedSignatureAlgorithm).

Definition test_rsa_pss_sha1_salt20_using_pss_key_with_null_params : test :=
  test_verify_signed_data rsa_pss_sha1_salt20_using_pss_key_with_null_params
    (Err UnsupportedSignatureAlgorithm).

Definition test_rsa_pss_sha1_salt20 : test :=
  test_verify_signed_data rsa_pss_sha1_salt20 (Err UnsupportedSignatureAlgorithm).

Definition test_rsa_pss_sha1_wrong_salt : test :=
  test_verify_signed_data rsa_pss_sha1_wrong_salt (Err UnsupportedSignatureAlgorithm).

Definition test_rsa_pss_sha256_mgf1_sha512_salt33 : test :=
  test_verify_signed_data rsa_pss_sha256_mgf1_sha512_salt33 (Err UnsupportedSignatureAlgorithm).

Definition test_rsa_pss_sha256_salt10_using_pss_key_with_params : test :=
  test_verify_signed_data rsa_pss_sha256_salt10_using_pss_key_with_params
    (Err UnsupportedSignatureAlgorithm).

Definition test_rsa_pss_sha256_salt10_using_pss_key_with_wrong_params : test :=
  test_verify_signed_data rsa_pss_sha256_salt10_using_pss_key_with_wrong_params
    (Err UnsupportedSignatureAlgorithm).

Definition test_rsa_pss_sha256_salt10 : test :=
  test_verify_signed_data rsa_pss_sha256_salt10 (Err UnsupportedSignatureAlgorithm).

Definition test_rsa_pss_sha256_salt32 : test :=
  test_verify_signed_data ours_rsa_pss_sha256_salt32 OK_IF_RSA_AVAILABLE.

Definition test_rsa_pss_sha384_salt48 : test :=
  test_verify_signed_data ours_rsa_pss_sha384_salt48 OK_IF_RSA_AVAILABLE.

Definition test_rsa_pss_sha512_salt64 : test :=
  test_verify_signed_data ours_rsa_pss_sha512_salt64 OK_IF_RSA_AVAILABLE.

Definition test_rsa_pss_sha256_salt32_corrupted_data : test :=
  test_verify_signed_data ours_rsa_pss_sha256_salt32_corrupted_data
    (Err INVALID_SIGNATURE_FOR_RSA_KEY).

Definition test_rsa_pss_sha384_salt48_corrupted_data : test :=
  test_verify_signed_data ours_rsa_pss_sha384_salt48_corrupted_data
    (Err INVALID_SIGNATURE_FOR_RSA_KEY).

Definition test_rsa_pss_sha512_salt64_corrupted_data : test :=
  test_verify_signed_data ours_rsa_pss_sha512_salt64_corrupted_data
    (Err INVALID_SIGNATURE_FOR_RSA_KEY).

Definition test_rsa_using_ec_key : test :=
  test_verify_signed_data rsa_using_ec_key (Err UNSUPPORTED_SIGNATURE_ALGORITHM_FOR_RSA_KEY).

Definition test_rsa2048_pkcs1_sha512 : test :=
  test_verify_signed_data rsa2048_pkcs1_sha512 OK_IF_RSA_AVAILABLE.

End RingAlgsTests.

(** ** Which tests pass *)

Ltac evaluate_verdict :=
  unfold passes; match goal with R : Ring |- _ => destruct R end; vm_compute;
  match goal with
  | verify : _ -> _ -> _ -> _ -> bool |- context [?v ?alg ?key ?message ?signature] =>
    constr_eq verify v; destruct (v alg key message signature)
  end;
  done.

Lemma test_ecdsa_prime256v1_sha512_spki_params_null_passes `{R : Ring} :
  passes test_ecdsa_prime256v1_sha512_spki_params_null.
Proof. evaluate. Qed.

Lemma test_ecdsa_prime256v1_sha512_unused_bits_signature_passes `{R : Ring} :
  passes test_ecdsa_prime256v1_sha512_unused_bits_signature.
Proof. evaluate. Qed.

Lemma test_ecdsa_prime256v1_sha512_using_ecdh_key_passes `{R : Ring} :
  passes test_ecdsa_prime256v1_sha512_using_ecdh_key.
Proof. evaluate. Qed.

Lemma test_ecdsa_prime256v1_sha512_using_ecmqv_key_passes `{R : Ring} :
  passes test_ecdsa_prime256v1_sha512_using_ecmqv_key.
Proof. evaluate. Qed.

Lemma test_ecdsa_prime256v1_sha512_using_rsa_algorithm_passes `{R : Ring} :
  passes test_ecdsa_prime256v1_sha512_using_rsa_algorithm.
Proof. evaluate. Qed.

Lemma test_ecdsa_prime256v1_sha512_wrong_signature_format_passes `{R : Ring} :
  passes test_ecdsa_prime256v1_sha512_wrong_signature_format.
Proof. evaluate. Qed.

Lemma test_ecdsa_prime256v1_sha512_passes `{R : Ring} : passes test_ecdsa_prime256v1_sha512.
Proof. evaluate. Qed.

Lemma test_ecdsa_secp384r1_sha256_corrupted_data_passes `{R : Ring} :
  passes test_ecdsa_secp384r1_sha256_corrupted_data <->
  ring_verdict ring_ECDSA_P384_SHA256_ASN1 ecdsa_secp384r1_sha256_corrupted_data = false.
Proof. evaluate_verdict. Qed.

Lemma test_ecdsa_secp384r1_sha256_passes `{R : Ring} :
  passes test_ecdsa_secp384r1_sha256 <->
  ring_verdict ring_ECDSA_P384_SHA256_ASN1 ecdsa_secp384r1_sha256 = true.
Proof. evaluate_verdict. Qed.

Lemma test_ecdsa_using_rsa_key_passes `{R : Ring} : passes test_ecdsa_using_rsa_key.
Proof. evaluate. Qed.

Lemma test_rsa_pkcs1_sha1_bad_key_der_length_passes `{R : Ring} :
  passes test_rsa_pkcs1_sha1_bad_key_der_length.
Proof. evaluate. Qed.

Lemma test_rsa_pkcs1_sha1_bad_key_der_null_passes `{R : Ring} :
  passes test_rsa_pkcs1_sha1_bad_key_der_null.
Proof. evaluate. Qed.

Lemma test_rsa_pkcs1_sha1_key_params_absent_passes `{R : Ring} :
  passes test_rsa_pkcs1_sha1_key_params_absent.
Proof. evaluate. Qed.

Lemma test_rsa_pkcs1_sha1_using_pss_key_no_params_passes `{R : Ring} :
  passes test_rsa_pkcs1_sha1_using_pss_key_no_params.
Proof. evaluate. Qed.

Lemma test_rsa_pkcs1_sha1_wrong_algorithm_passes `{R : Ring} :
  passes test_rsa_pkcs1_sha1_wrong_algorithm <->
  ring_verdict ring_RSA_PKCS1_2048_8192_SHA256 rsa_pkcs1_sha1_wrong_algorithm = false.
Proof. evaluate_verdict. Qed.

Lemma test_rsa_pkcs1_sha1_passes `{R : Ring} : passes test_rsa_pkcs1_sha1.
Proof. evaluate. Qed.

Lemma test_rsa_pkcs1_sha256_passes `{R : Ring} :
  passes test_rsa_pkcs1_sha256 <->
  ring_verdict ring_RSA_PKCS1_2048_8192_SHA256 rsa_pkcs1_sha256 = false.
Proof. evaluate_verdict. Qed.

Lemma test_rsa_pkcs1_sha256_key_encoded_ber_passes `{R : Ring} :
  passes test_rsa_pkcs1_sha256_key_encoded_ber.
Proof. evaluate. Qed.

Lemma test_rsa_pkcs1_sha256_spki_non_null_params_passes `{R : Ring} :
  passes test_rsa_pkcs1_sha256_spki_non_null_params.
Proof. evaluate. Qed.

Lemma test_rsa_pkcs1_sha256_using_ecdsa_algorithm_passes `{R : Ring} :
  passes test_rsa_pkcs1_sha256_using_ecdsa_algorithm.
Proof. evaluate. Qed.

Lemma test_rsa_pkcs1_sha256_using_id_ea_rsa_passes `{R : Ring} :
  passes test_rsa_pkcs1_sha256_using_id_ea_rsa.
Proof. evaluate. Qed.

Lemma test_rsa_pss_sha1_salt20_using_pss_key_no_params_passes `{R : Ring} :
  passes test_rsa_pss_sha1_salt20_using_pss_key_no_params.
Proof. evaluate. Qed.

Lemma test_rsa_pss_sha1_salt20_using_pss_key_with_null_params_passes `{R : Ring} :
  passes test_rsa_pss_sha1_salt20_using_pss_key_with_null_params.
Proof. evaluate. Qed.

Lemma test_rsa_pss_sha1_salt20_passes `{R : Ring} : passes test_rsa_pss_sha1_salt20.
Proof. evaluate. Qed.

Lemma test_rsa_pss_sha1_wrong_salt_passes `{R : Ring} : passes test_rsa_pss_sha1_wrong_salt.
Proof. evaluate. Qed.

Lemma test_rsa_pss_sha256_mgf1_sha512_salt33_passes `{R : Ring} :
  passes test_rsa_pss_sha256_mgf1_sha512_salt33.
Proof. evaluate. Qed.

Lemma test_rsa_pss_sha256_salt10_using_pss_key_with_params_passes `{R : Ring} :
  passes test_rsa_pss_sha256_salt10_using_pss_key_with_params.
Proof. evaluate. Qed.

Lemma test_rsa_pss_sha256_salt10_using_pss_key_with_wrong_params_passes `{R : Ring} :
  passes test_rsa_pss_sha256_salt10_using_pss_key_with_wrong_params.
Proof. evaluate. Qed.

Lemma test_rsa_pss_sha256_salt10_passes `{R : Ring} : passes test_rsa_pss_sha256_salt10.
Proof. evaluate. Qed.

Lemma test_rsa_pss_sha256_salt32_passes `{R : Ring} :
  passes test_rsa_pss_sha256_salt32 <->
  ring_verdict ring_RSA_PSS_2048_8192_SHA256 ours_rsa_pss_sha256_salt32 = true.
Proof. evaluate_verdict. Qed.

Lemma test_rsa_pss_sha384_salt48_passes `{R : Ring} :
  passes test_rsa_pss_sha384_salt48 <->
  ring_verdict ring_RSA_PSS_2048_8192_SHA384 ours_rsa_pss_sha384_salt48 = true.
Proof. evaluate_verdict. Qed.

Lemma test_rsa_pss_sha512_salt64_passes `{R : Ring} :
  passes test_rsa_pss_sha512_salt64 <->
  ring_verdict ring_RSA_PSS_2048_8192_SHA512 ours_rsa_pss_sha512_salt64 = true.
Proof. evaluate_verdict. Qed.

Lemma test_rsa_pss_sha256_salt32_corrupted_data_passes `{R : Ring} :
  passes test_rsa_pss_sha256_salt32_corrupted_data <->
  ring_verdict ring_RSA_PSS_2048_8192_SHA256 ours_rsa_pss_sha256_salt32_corrupted_data = false.
Proof. evaluate_verdict. Qed.

Lemma test_rsa_pss_sha384_salt48_corrupted_data_passes `{R : Ring} :
  passes test_rsa_pss_sha384_salt48_corrupted_data <->
  ring_verdict ring_RSA_PSS_2048_8192_SHA384 ours_rsa_pss_sha384_salt48_corrupted_data = false.
Proof. evaluate_verdict. Qed.

Lemma test_rsa_pss_sha512_salt64_corrupted_data_passes `{R : Ring} :
  passes test_rsa_pss_sha512_salt64_corrupted_data <->
  ring_verdict ring_RSA_PSS_2048_8192_SHA512 ours_rsa_pss_sha512_salt64_corrupted_data = false.
Proof. evaluate_verdict. Qed.

Lemma test_rsa_using_ec_key_passes `{R : Ring} : passes test_rsa_using_ec_key.
Proof. evaluate. Qed.

Lemma test_rsa2048_pkcs1_sha512_passes `{R : Ring} :
  passes test_rsa2048_pkcs1_sha512 <->
  ring_verdict ring_RSA_PKCS1_2048_8192_SHA512 rsa2048_pkcs1_sha512 = true.
Proof. evaluate_verdict. Qed.
