(* ===== verification/IntegrationData.v ===== *)
(** * Files of the integration tests

    Certificates and revocation lists under [src/tests/], byte for byte. *)
From Stdlib Require Import Strings.String.
From S2P Require Import Prelude Untrusted Testing.

#[local] Open Scope string_scope.

(** [tests/cert_v1.der] *)
Definition cert_v1_der : Input := hex "
308203253082020d020900d6ebaa9d302af809300d06092a864886f70d01010505003052310b30090603550406130255
53310f300d06035504080c0644656e69616c3114301206035504070c0b537072696e746669656c64310c300a06035504
0a0c03446973310e300c06035504030c056d792e6361301e170d3231303231363033333834395a170d32313032313730
33333834395a3057310b3009060355040613025553310d300b06035504080c0455746168310e300c06035504070c0550
726f766f31153013060355040a0c0c41434d4520536572766963653112301006035504030c096c6f63616c686f737430
820122300d06092a864886f70d01010105000382010f003082010a0282010100bf5c59f35a6649ce00da45464f83f6e2
6e576f90c410a51d6714d2fe771d7108ae121fa9c6d802f4a8fad382e1076838ca9aa3abc8512b842e5019da7e316e6e
b3f0ecd34e3fa3dd2e08cd572a2fda70cce89fda6c4617624b99fa2cc8a88e762d6c3479a5fb3ac8f1497dea87655cad
5de861f1fb6736bf73d9547982b9ea0808faa7b9781dc20e3e84088aa32ab6c5a9adcee2eb0bf065e469c7a8701fb2dc
aeb4303b6ed609cabd00a2e366391058161c18a32f0d4816c2eed9e67538302cc8c08626c3c7436aa00856258fc714c9
3484494a473ab87a35c32e54776b32a30d38aff0f0a61063ced16ef02d4873b48e5f8e649e0d5a30294d9e2878b726db
0203010001300d06092a864886f70d0101050500038201010040ec4811083539bcd509e9da515a4af6af7465fe0e7c10
a09960641c092ea764219c1acbc7a67e5923000daa0633ae8d5c7cfb996c6d0123a15e9806f9d4e33bb8ec6a7faf39ef
a1a7968c5fecddf8770725a6f7715bd1fd8375c8506e80481a9738536712cc2a1a39472f0341d5273a5c5064e17f1575
47b358c7c02e364b125fc6f9efbd05f297f147678d0dd1f38f56056026bc3a54e155c8055ebd9c5163549ef7ea0b058a
8e0508fbc334d47f322c974e2df5943bb87d7f3366f4fb5a701a69a400ca447273d36bc5c9b72b9ae566bfc3e0f5f55e
6b2c295db00201f3d7e07a59fb61a513daa9845c23d667596d8d802d357e7f538f5b0b68b12bb32cbb".

(** [tests/cert_without_extensions.der] *)
Definition cert_without_extensions_der : Input := hex "
3082032a30820212a003020102020900d6ebaa9d302af825300d06092a864886f70d01010505003052310b3009060355
040613025553310f300d06035504080c0644656e69616c3114301206035504070c0b537072696e746669656c64310c30
0a060355040a0c03446973310e300c06035504030c056d792e6361301e170d3231303231363036313635325a170d3231
303231373036313635325a3057310b3009060355040613025553310d300b06035504080c0455746168310e300c060355
04070c0550726f766f31153013060355040a0c0c41434d4520536572766963653112301006035504030c096c6f63616c
686f737430820122300d06092a864886f70d01010105000382010f003082010a0282010100ac7f5803b27a271b9fe3d4
e6583c63d0422ec02de56b9007ca0bf297ebaef13acc7883a2cb63288265ed92225a10dd083b30cded16212f6184ee3d
1adfeea67aa30660ccc4b6dbc1b3df24f229f43139e7b6bbff81a9e16b0216d83b5000d7ec155b70742fc8ef62fd1282
0822061163f3793bcac384845e5762ceddbbef527a3bef2b9a85c2d3469855c5dc06aced220cfd762a9a325799979f5d
21d613fbdbad7cbe0b6d0e8d2917f033269691ac208e6e8f98699badda7e53285b6ad5ab2a3a5076e2d8b5be33d44f92
ac05b7e556cecfe4744f6f179693fab9d1c4e86c2b71f2636ec93d4fea5d9fb50bd3d3e2245ed31858fa3b5ded882fc8
7fb3aae6f70203010001300d06092a864886f70d01010505000382010100b11c0f6ef8d6945b4011c98f9cd473ce8802
08042f8a0de731d0acb8d53c8ed35f6383b2afd11b4ee4ebc3f051eccd87a84d509717c3f6d77ad19a8e14a1cd804aff
711be995fac9645386a553104333ee043eb27fb30284bf637dd4006a1a3d79c8f80009b4bcf79590c997222f3df6c3d0
25827919ec3ce63fbb210baa57a2f679ab840ec369eb6858908f508271ce4967a2697c0d18fd5326de1d6b39c7b986e2
38e4071a6980143028551bd49ded28f1e661723e894f1c7c73291e419dcc546dfefc89c627ccf09297af7a74a099da24
636476c5acec22d5b88bcfaf3c579804ce8c8921632bae244bf610cb00c150838109f9cf64f953511d097fe76b74".

(** [tests/client_auth/cert_with_both_ekus_accepted_for_client_auth.ca.der] *)
Definition cert_with_both_ekus_accepted_for_client_auth_ca_der : Input := hex "
3082034930820231a00302010202144a487abdd5c9369e5ad9014685fff30199dbd187300d06092a864886f70d01010b
05003054311b301906035504030c126973737565722e6578616d706c652e636f6d31353033060355040a0c2c63657274
5f776974685f626f74685f656b75735f61636365707465645f666f725f636c69656e745f61757468301e170d38363132
32333031353931315a170d3836313232333032303031315a3054311b301906035504030c126973737565722e6578616d
706c652e636f6d31353033060355040a0c2c636572745f776974685f626f74685f656b75735f61636365707465645f66
6f725f636c69656e745f6175746830820122300d06092a864886f70d01010105000382010f003082010a02820101009b
fc7261139d0b550137590110a271fef06083a6ee29525241ef73f2c172a391de6062233caa53b85d6f5fa4a662e2d5bc
c7cb2b0e76d1d99b4236c19491aafa8ebc553b116240caf89b8a2e53822ec0372f486cc4c2d330a5c6e3d23d188e98be
97fbf7396f0ddd36146b1d3b0ddb095057207d945acef17e5c315cac30900e530aede07a5413bd4efe5874d5414fe4f0
2f83014f7d82136fa41c85ec23e6749a69690b82bcd25f408cd4886aec22ec0f2491226e74b1cdee6ab975215449801f
c1127220cd9211b139a7da1fe1ac4af2bc62ee6d8f8bd318ca01f28df4db18ecbf1ea7a0cb7231a8a5ec695ee0970aac
d22c6b6f3eea55a6c099e8a7610a2b0203010001a3133011300f0603551d130101ff040530030101ff300d06092a8648
86f70d01010b0500038201010075cdcc5dacf9b21e3ce90b49e964dedf579e6006798db810090cc20dc887898f8e4781
21d6c568e43613baeb598686dd666b05eab118bf2d696ff7000fc2db0523ae6768e44c17fcb2c93a162c9efdc7f97818
b27a9264881b0f6d0a3eacd1ec912b7e2899c316ffddb8a61eda09ae3873c7d047419d22c3cc0a05bae7d48a3d289eee
56e5baccbd59ee723f8d927322aa856215d88f82cc53d9ca152d172580096cdfec7c8ebfa89d07c9ca9c5559be40390b
98e8609e85da808268dc120e952208c042bb82495c18abebf51578121a7135e15481e6a27a75e12f9eab1d7692146910
69151e32ea4b2a25119bc20532a1c139535937ceb50c3757fe7f2484d6".

(** [tests/client_auth/cert_with_both_ekus_accepted_for_client_auth.ee.der] *)
Definition cert_with_both_ekus_accepted_for_client_auth_ee_der : Input := hex "
3082034830820230a003020102021476bd7715910d5e612b26cdc5df7da179db25fc63300d06092a864886f70d01010b
05003054311b301906035504030c126973737565722e6578616d706c652e636f6d31353033060355040a0c2c63657274
5f776974685f626f74685f656b75735f61636365707465645f666f725f636c69656e745f61757468301e170d38363132
32333031353931315a170d3836313232333032303031315a303731353033060355040a0c2c636572745f776974685f62
6f74685f656b75735f61636365707465645f666f725f636c69656e745f6175746830820122300d06092a864886f70d01
010105000382010f003082010a0282010100912e8e1b941e934c6de8dffc68617bdfd180770fb399fb761e364aea516a
b4956134bd65571b2d2ae66c649a46f11984f6d7a577c8e234c14de95049dde004a294b17a49b060c911c1152fb706db
4b19b1582e6c0c286a72fc1ce31aca30ce079e1ab7d2984640f95f37b603fb997e4de4a7cddd05436f61fd400be211a2
248c943bac066f17b7e610a543bffc7f54abfab89eb4379dc3dfd62cfac59ca3b185318711d2bf7a40624c5151a849a6
b72d5367ddc0dd721bfbaa01165e1213c5cb26aaaf1c2073622a9682004b1ec26a4bc1ed0528993ddef9ded5d532b390
fb68213caae2a01778c2b51b3a4c692353da3a20c599771f441a58d4ca97707b41dd0203010001a32f302d301d060355
1d250416301406082b0601050507030206082b06010505070301300c0603551d130101ff04023000300d06092a864886
f70d01010b0500038201010092ebb3c3684a5e92f34eb68926855c9442c8e46a1dada760d6394d5ad9c1d2129817ab0c
375fc7c0300a1e72b669dfa46abfb2b8b1d06d8a56e356fcce21d884347edad2f096d80c4021f6f917df0f03376f36f0
a7361828d2f52f08d27590f815767335ba4c75cc3b27959fa50a9043223e9e2188037c1aff25e63296e129029db34540
67dec54faefa2703322d8cd2b81e06455add37c2cf01cf9ef23c8274ae608ea0fcf9a854075e202b2c977a96753a3c34
7142f7daf080c6cd4d160b0b8a1608f4d53b4b64b764892f8fa2bcdfa0d29c524619af4fe250e90e261f2f99bc763d67
5f9542ce37e1fb0a8cf03f7584a34f1e8e0e06549e597a8bc0b6c760".

(** [tests/client_auth/cert_with_clientauth_eku_accepted_for_client_auth.ca.der] *)
Definition cert_with_clientauth_eku_accepted_for_client_auth_ca_der : Input := hex "
308203533082023ba00302010202143384a0cacf058e930197c7968ffe4731e5c0f0e1300d06092a864886f70d01010b
05003059311b301906035504030c126973737565722e6578616d706c652e636f6d313a3038060355040a0c3163657274
5f776974685f636c69656e74617574685f656b755f61636365707465645f666f725f636c69656e745f61757468301e17
0d3836313232333031353931315a170d3836313232333032303031315a3059311b301906035504030c12697373756572
2e6578616d706c652e636f6d313a3038060355040a0c31636572745f776974685f636c69656e74617574685f656b755f
61636365707465645f666f725f636c69656e745f6175746830820122300d06092a864886f70d01010105000382010f00
3082010a02820101009bfc7261139d0b550137590110a271fef06083a6ee29525241ef73f2c172a391de6062233caa53
b85d6f5fa4a662e2d5bcc7cb2b0e76d1d99b4236c19491aafa8ebc553b116240caf89b8a2e53822ec0372f486cc4c2d3
30a5c6e3d23d188e98be97fbf7396f0ddd36146b1d3b0ddb095057207d945acef17e5c315cac30900e530aede07a5413
bd4efe5874d5414fe4f02f83014f7d82136fa41c85ec23e6749a69690b82bcd25f408cd4886aec22ec0f2491226e74b1
cdee6ab975215449801fc1127220cd9211b139a7da1fe1ac4af2bc62ee6d8f8bd318ca01f28df4db18ecbf1ea7a0cb72
31a8a5ec695ee0970aacd22c6b6f3eea55a6c099e8a7610a2b0203010001a3133011300f0603551d130101ff04053003
0101ff300d06092a864886f70d01010b05000382010100331a140e381668ea16b394cb85630446e1f288253e163c904a
1d6f8481c20184146b893ad70774f40a437a6db27b3e681bbcf03260b0ecd5abbbb2b8fe2c6ecbbb3e082d044a149715
be710940150b5e37c90952b50a5819e5932e53c802f7ae648dd7ce156403fd86432d9ee993ab100a4f9c0bd6adb0a89e
cde9bffdbc3e5533f6be6db77d9095e8494bc7cabcc30b14e53625bc0f9be63d7d8188e6a79452f08e4aad27080d563d
50db2ffb6503b9c93927d6bd25fa32cbd83665c806fd82cc9440d7ef790e95d891fbf13ed8688fecbca2f4e27312ad8c
6c4e84996a4debdd26439df9dafd6e71836f9305dee9a8d33bcec5f584d77c0c1e8000e3f9cf55".

(** [tests/client_auth/cert_with_clientauth_eku_accepted_for_client_auth.ee.der] *)
Definition cert_with_clientauth_eku_accepted_for_client_auth_ee_der : Input := hex "
3082034830820230a0030201020214607a91423b9b63cfb2838de14ab987c335d5b77c300d06092a864886f70d01010b
05003059311b301906035504030c126973737565722e6578616d706c652e636f6d313a3038060355040a0c3163657274
5f776974685f636c69656e74617574685f656b755f61636365707465645f666f725f636c69656e745f61757468301e17
0d3836313232333031353931315a170d3836313232333032303031315a303c313a3038060355040a0c31636572745f77
6974685f636c69656e74617574685f656b755f61636365707465645f666f725f636c69656e745f617574683082012230
0d06092a864886f70d01010105000382010f003082010a028201010094e20436fb35a4df3820dee422e8a30ad5f78a49
770dc34359d27cdccc1038ba37f5d839e99864ddd09120c48ef6c8eb900b0b1e855c8a5499ef9a35be3524e1cb2b3fc9
b03c57b348034f5420eb0a1344bd11633b68a16eabfd84d03576b4e5e295a81a31120ef8b7ed0f3dbaafe920ac586940
71680d88d79fa8bce048b6d070ab50b9b7eec2a7268f5a68471ab40b9a4e27db592e0e86c4a0f371bd0e9658bb0f6f34
e4f58d3a90ddc2cd9715711e0f03a8ddb735c8bfcdce0899691d78dab8954cb7145147d2a80ca9381582899e53a62a2e
ba571acfb801703b6fc49a68f49f382b3de4357e725104ea33791ed08caabedf9a1575d03253280cb9f79add02030100
01a325302330130603551d25040c300a06082b06010505070302300c0603551d130101ff04023000300d06092a864886
f70d01010b050003820101005ea8796825282afda3aa3dd56fdd6ba95509848bc257e64f967bd8ed25e21045063a99e2
e56a948a5701d8c8b8e7e01f329380d4994e018bc3c538295d80b6b409e0af6115dd86000d1af14c56329e7d0f535a3d
54ebef79e6088b97e45e520238418f43c56d063518f994d9eb70c6e75ddc1b9403b530af1723790ae1a3d5e9f6e17551
dcb36b1985f3b9d2235c18fd7a0fc4f1834f8171398f5d673bb18be7f1613d6a38644661a36626a3078a4ec978de476f
a49aa1321812fa7f00b8e569afeaf9834829bdabde23565c65d7a8d7f67df7ddad4d8705fd84c45e874f1e3852e9a120
3e3af244ada5725d6817805a00345d9088f5c2a0bb0069511ae0b060".

(** [tests/client_auth/cert_with_no_eku_accepted_for_client_auth.ca.der] *)
Definition cert_with_no_eku_accepted_for_client_auth_ca_der : Input := hex "
308203433082022ba003020102021475d5ec5beebcf260d37324cf566737b4ed314872300d06092a864886f70d01010b
05003051311b301906035504030c126973737565722e6578616d706c652e636f6d31323030060355040a0c2963657274
5f776974685f6e6f5f656b755f61636365707465645f666f725f636c69656e745f61757468301e170d38363132323330
31353931315a170d3836313232333032303031315a3051311b301906035504030c126973737565722e6578616d706c65
2e636f6d31323030060355040a0c29636572745f776974685f6e6f5f656b755f61636365707465645f666f725f636c69
656e745f6175746830820122300d06092a864886f70d01010105000382010f003082010a02820101009bfc7261139d0b
550137590110a271fef06083a6ee29525241ef73f2c172a391de6062233caa53b85d6f5fa4a662e2d5bcc7cb2b0e76d1
d99b4236c19491aafa8ebc553b116240caf89b8a2e53822ec0372f486cc4c2d330a5c6e3d23d188e98be97fbf7396f0d
dd36146b1d3b0ddb095057207d945acef17e5c315cac30900e530aede07a5413bd4efe5874d5414fe4f02f83014f7d82
136fa41c85ec23e6749a69690b82bcd25f408cd4886aec22ec0f2491226e74b1cdee6ab975215449801fc1127220cd92
11b139a7da1fe1ac4af2bc62ee6d8f8bd318ca01f28df4db18ecbf1ea7a0cb7231a8a5ec695ee0970aacd22c6b6f3eea
55a6c099e8a7610a2b0203010001a3133011300f0603551d130101ff040530030101ff300d06092a864886f70d01010b
05000382010100662492947066117b7be5fa17e6faf07e1305ca7f6eab7fac7581492c2ef5fbbeb1b9bdf05fd022c129
0f22729f6ad46471ebdeb62e1a650fd5306ba2fe67df9eeff97b23d65f413bd22bd9b5f33c8f5576b52cc65474348610
d8c34364300c37e39cf16b0b709ca0ace470318b94984ff33422fa8f87f5f1137a7e1e40a02694de636012203021142b
3bf570e4bd71097f42ad75365e3a429a0f0f97a479a5032463a590164a93731f5175fd7d2be52b5e65f25b57ef47b2c7
f055be6bc43718e0cf0509a126a90656858e9ab820d01182ed7293c4b737f6f27b3d3d977011eec0f4b127e55e4182f4
c82b416e88215a8059b6524de05e81914d4e5614fd3bf2".

(** [tests/client_auth/cert_with_no_eku_accepted_for_client_auth.ee.der] *)
Definition cert_with_no_eku_accepted_for_client_auth_ee_der : Input := hex "
308203233082020ba00302010202140523cd39a574d83ba61fd220b3c79c59a0714cd0300d06092a864886f70d01010b
05003051311b301906035504030c126973737565722e6578616d706c652e636f6d31323030060355040a0c2963657274
5f776974685f6e6f5f656b755f61636365707465645f666f725f636c69656e745f61757468301e170d38363132323330
31353931315a170d3836313232333032303031315a303431323030060355040a0c29636572745f776974685f6e6f5f65
6b755f61636365707465645f666f725f636c69656e745f6175746830820122300d06092a864886f70d01010105000382
010f003082010a0282010100deb09563cadf47f756b4b5a4fcf06eec262d09940577754260e749b4dda28272b5c3bd78
85c289d1690b80995dffda7046803372bbb78b645a708bf64f3738791ce80f972e0bb911ae7ec20021279272d8a31800
95eac0b6731485e0b68c50c98efb69c6b2396d6d2ab786cc64f24bfdd6e5f1c38a676fe9ab32ab852f3491c46eaee9f7
daa7a346571cbadbfd80b3379a77f6b6e9ca3def019dcdf575c13805916381d9be3243d15f3d5bfc91964f6f3ab45a5d
8dd2a61a6b1f6977929702d6662245d923d500da7154b8f8f9b862d92abb4c90ed9d04f15fe69964c3b2a6a04d1e0ae8
a9835f47e2e79c01a40f90af8d1124ea8a565e3c14803740a42f72eb0203010001a310300e300c0603551d130101ff04
023000300d06092a864886f70d01010b050003820101005dfbd1673ea909b456424889014ace7a258b28571a16670cfe
90f149c0811925cf8af0caf7d3c9288d27932aabb3c4171ba5f92d71e51b8d9f398d0a482396e3df3258d64a3970d639
8f3228102ae74ae08320d288b4c265699c0cd0e9add9df7d1b0ba4fd7d7ed0507d87de7c1a9a43094e6b630ddbb8e899
cca19928dca9f1f7f21e7e7383043050a97d850274aa9ed8511f608287aa89506cd72f73f0b2479a7e0b458ce72fda7c
19c396c1f728c50ab8c61c79212c816b033183ac6be7a09a0e85df95bafa91b62baabb5e5ac830671b10b13a8b54a2d4
e94ef6f64bdbd93c8ee633ebc7b7555b8800e9bcc7eaad5e8ce629d4f7bc0320427f9d0b9eacda".

(** [tests/client_auth/cert_with_serverauth_eku_rejected_for_client_auth.ca.der] *)
Definition cert_with_serverauth_eku_rejected_for_client_auth_ca_der : Input := hex "
308203533082023ba00302010202143751006d920a564d57551c35ddf97728cd09ea85300d06092a864886f70d01010b
05003059311b301906035504030c126973737565722e6578616d706c652e636f6d313a3038060355040a0c3163657274
5f776974685f736572766572617574685f656b755f72656a65637465645f666f725f636c69656e745f61757468301e17
0d3836313232333031353931315a170d3836313232333032303031315a3059311b301906035504030c12697373756572
2e6578616d706c652e636f6d313a3038060355040a0c31636572745f776974685f736572766572617574685f656b755f
72656a65637465645f666f725f636c69656e745f6175746830820122300d06092a864886f70d01010105000382010f00
3082010a02820101009bfc7261139d0b550137590110a271fef06083a6ee29525241ef73f2c172a391de6062233caa53
b85d6f5fa4a662e2d5bcc7cb2b0e76d1d99b4236c19491aafa8ebc553b116240caf89b8a2e53822ec0372f486cc4c2d3
30a5c6e3d23d188e98be97fbf7396f0ddd36146b1d3b0ddb095057207d945acef17e5c315cac30900e530aede07a5413
bd4efe5874d5414fe4f02f83014f7d82136fa41c85ec23e6749a69690b82bcd25f408cd4886aec22ec0f2491226e74b1
cdee6ab975215449801fc1127220cd9211b139a7da1fe1ac4af2bc62ee6d8f8bd318ca01f28df4db18ecbf1ea7a0cb72
31a8a5ec695ee0970aacd22c6b6f3eea55a6c099e8a7610a2b0203010001a3133011300f0603551d130101ff04053003
0101ff300d06092a864886f70d01010b050003820101007fa0d0262d2cd2f789da3a19010cb8a91bc7e54640b1a8a1cc
6ebf71bc361085fed6501a74aa9cf75db538bd2cd8881f8bb2ba616c9d21190f16496a5b4f4d4eb2447ada2b2f4f32b4
eadc8f1da78984bc347c6b2f6c939ce3a98b751f66acc668189db32d10cb9c7110471038b4635348a7085c9efcaeaea2
a85070483cccc1dd749fce379fb96b76110d9b1694cb410dd2c299b9dd5003ef3820a7ef1d3a5b4702d662be0f12f7ae
6212dc6c498d157f7336bd627fe0c4cf23f6330c5f4d7f6c06962d98d68b65544a99ea73b0e5b705566ea3c050838908
f651a17a51d8d96379fadd7c2e34f25dd2f94cf081d3f0c05600477d1107698450742a8c53f35d".

(** [tests/client_auth/cert_with_serverauth_eku_rejected_for_client_auth.ee.der] *)
Definition cert_with_serverauth_eku_rejected_for_client_auth_ee_der : Input := hex "
3082034830820230a003020102021426624d536a0ba4a54d24135230aa9d557209c7c4300d06092a864886f70d01010b
05003059311b301906035504030c126973737565722e6578616d706c652e636f6d313a3038060355040a0c3163657274
5f776974685f736572766572617574685f656b755f72656a65637465645f666f725f636c69656e745f61757468301e17
0d3836313232333031353931315a170d3836313232333032303031315a303c313a3038060355040a0c31636572745f77
6974685f736572766572617574685f656b755f72656a65637465645f666f725f636c69656e745f617574683082012230
0d06092a864886f70d01010105000382010f003082010a0282010100cd9ecce6a98f1a7da49cb3fd7fc774224409e2d9
86e5805b5fd2247b415926394cd0a15ca7f6af0edd911ee195eccb05251a77cf58f121a87160e85302aa85ad4af73297
34b7691a7062485801b70b6ebfd1dc8950db05a3345036d102e1c8570d5e1e858e8db40c907d4b0069ee0b18547a7155
df076b2e08989e19e4abe1528f50a0e1623544d6ec0a7614df2d0e5a1a465ebc6d95b5074ed2a410762f20a3c453b86f
49c33ce87978981cf8cc7f3cf0b2478e5d916f629761b0b48072fa2ffab4ea33edf1c63400492552542d868c26dc8151
f1023d5840396194f35b52805d915372a56d89932492870ec05890a97c89be86485d9d94b9eea51c19a17c5502030100
01a325302330130603551d25040c300a06082b06010505070301300c0603551d130101ff04023000300d06092a864886
f70d01010b050003820101006b9dec3df4afac033652221706e4a2b4f82ceb1a3d45bf7f99ecf79012e428bf5e81c01c
bd06faf9d3ccf19159c0aa93875e9fbf9e93fddae62d816ff9a94f3e2dd88bc4e778eccdd7beaad996c8ac2ede5eb165
afe2561eb9756904af5e09a73838681e3fff5e7adf73651ba8e2d914fc757def140df52c57eaeae931b144b4d0493047
f4e18f8a042494eb1ddebea3bdcd7f9cdabdcb6c858357956af7794b8828edff37a2e555868889e4c9f74f20d8461466
0d398877d4897b7e1797ce2ae4eeb9ec68f32510eac41b57e534f86fdaa6962d1c2b0fa34078be8054907bcaa6367e21
6889bff009b38fd0a771755c63e5c90580e7afafc5b0030c12ba8b85".

(** [tests/client_auth_revocation/dp_chain.ee.der] *)
Definition dp_chain_ee_der : Input := hex "
3082029c30820243a003020102021414ac270cdc3186c727e463224e654dd36110365a300a06082a8648ce3d04030230
36311b301906035504030c126973737565722e6578616d706c652e636f6d31173015060355040a0c0e696e742e612e64
705f636861696e301e170d3836313232333031353931315a170d3836313232333032303031315a302e31193017060355
04030c10746573742e6578616d706c652e636f6d3111300f060355040a0c0864705f636861696e30820122300d06092a
864886f70d01010105000382010f003082010a02820101009df828457336bac5e2051c7d9cca1563f7699fac6a2ae71d
98906c6126b9a229f38585d582775f2d1ce2148a3c59ff436af49d1b10891136a1409c0b721ed4ece4916e440d644b3a
7571d2c4820921e28c6218cb47c30bec613047bd35dfc25253633e92596b1d93e871ab03c48c4fa326d09cd9a0523e82
75537066062052d8c0ae0f0e33c9f59a75d2029136113ae7b4ad38633aec2d873f9b9d93612fac89dc175f93adfd6820
6ae8226a082168fdbba030cb3497afc39f1c3d1a0dee5c2c37897da96de17f014efe964dab98d7221ab30a701e3d0c07
f6fcc9d0187b25ad9ab4496558814efece59a2462fbe7e22fe4927b4b649aeda2205d6ea7a54ceef0203010001a36c30
6a305a0603551d1f04533051304fa04da04b820b6578616d706c652e636f6d861e687474703a2f2f6578616d706c652e
636f6d2f616e6f746865722e63726c861c687474703a2f2f6578616d706c652e636f6d2f76616c69642e63726c300c06
03551d130101ff04023000300a06082a8648ce3d040302034700304402200371873e5d200b44c6ce6a4c967a086b8249
4bcda0401d6a3b9f9e0d2e6aa054022035654da62df546e94627ab4c85adde681a5b410dee6df8c440f9898bf25b6ba4".

(** [tests/client_auth_revocation/dp_chain.int.a.ca.der] *)
Definition dp_chain_int_a_ca_der : Input := hex "
308201dd30820183a003020102021443ee51b5b3d9f24d750445896ed72f904f24bc7a300a06082a8648ce3d04030230
36311b301906035504030c126973737565722e6578616d706c652e636f6d31173015060355040a0c0e696e742e622e64
705f636861696e301e170d3836313232333031353931315a170d3836313232333032303031315a3036311b3019060355
04030c126973737565722e6578616d706c652e636f6d31173015060355040a0c0e696e742e612e64705f636861696e30
59301306072a8648ce3d020106082a8648ce3d03010703420004c78fb2bba99f59bb73a5d008d986395fff525b243ee5
d5eabdbb41c6b609105a9dc2152e33641d3e5fff9216ea4f8690f85b51e6228662f9c6689b0c5b689679a36f306d300f
0603551d130101ff040530030101ff305a0603551d1f04533051304fa04da04b820b6578616d706c652e636f6d861e68
7474703a2f2f6578616d706c652e636f6d2f616e6f746865722e63726c861c687474703a2f2f6578616d706c652e636f
6d2f76616c69642e63726c300a06082a8648ce3d0403020348003045022100f812196346fa6483dbad58805362ce33da
65db558ef5ccf101f8d80f8f560ab5022020ef283f65e3b5ebf85d69347380662d94dde35885152259cb140cf0507732
22".

(** [tests/client_auth_revocation/dp_chain.int.b.ca.der] *)
Definition dp_chain_int_b_ca_der : Input := hex "
308201d930820180a003020102021403e0a6e64d385c04eba8e9e50498314d7b2015df300a06082a8648ce3d04030230
33311b301906035504030c126973737565722e6578616d706c652e636f6d31143012060355040a0c0b63612e64705f63
6861696e301e170d3836313232333031353931315a170d3836313232333032303031315a3036311b301906035504030c
126973737565722e6578616d706c652e636f6d31173015060355040a0c0e696e742e622e64705f636861696e30593013
06072a8648ce3d020106082a8648ce3d03010703420004a2f5908453d8ef54fcd081216e529d5b337c43bce39ae3ae35
23f5c2cc18a30e2d8827b75c501c8495223c4ec554de17f53901bd2c99a8b5e4a98b7ca9c5bff9a36f306d300f060355
1d130101ff040530030101ff305a0603551d1f04533051304fa04da04b820b6578616d706c652e636f6d861e68747470
3a2f2f6578616d706c652e636f6d2f616e6f746865722e63726c861c687474703a2f2f6578616d706c652e636f6d2f76
616c69642e63726c300a06082a8648ce3d04030203470030440220338dc772bd8005ef057958c01890cbad7c35515f65
0e1bf66725c70cc54183840220135b2ff6f7d2901a4365d472bca8d7f90de3d48d331882a914a0ff8f38065cbd".

(** [tests/client_auth_revocation/dp_chain.root.ca.der] *)
Definition dp_chain_root_ca_der : Input := hex "
308201d73082017da0030201020214792ce14f958aff221e3759bfa5805213d7f3ca62300a06082a8648ce3d04030230
33311b301906035504030c126973737565722e6578616d706c652e636f6d31143012060355040a0c0b63612e64705f63
6861696e301e170d3836313232333031353931315a170d3836313232333032303031315a3033311b301906035504030c
126973737565722e6578616d706c652e636f6d31143012060355040a0c0b63612e64705f636861696e3059301306072a
8648ce3d020106082a8648ce3d03010703420004f22c518b69a11c4031a1ca519c43b2c1aaec991952f62099c455677b
1dee9083c8ca4a775550418724836f329630022e06b7b5ae8a2a1778b8c6c38d1c826642a36f306d300f0603551d1301
01ff040530030101ff305a0603551d1f04533051304fa04da04b820b6578616d706c652e636f6d861e687474703a2f2f
6578616d706c652e636f6d2f616e6f746865722e63726c861c687474703a2f2f6578616d706c652e636f6d2f76616c69
642e63726c300a06082a8648ce3d0403020348003045022100f6c622edfdce5810ea14f4e534585419f6a42836cffd00
b800b0ee3af05ccced022003377cb7942723a96a82df183a67001f901210902ba04506bc2e1b3a0ad0a390".

(** [tests/client_auth_revocation/ee_crl_mismatched_idp_unknown_status.crl.der] *)
Definition ee_crl_mismatched_idp_unknown_status_crl_der : Input := hex "
3082013c3081e3020101300a06082a8648ce3d0403023036311b301906035504030c126973737565722e6578616d706c
652e636f6d31173015060355040a0c0e696e742e612e64705f636861696e170d3836313232333031353931315a170d38
36313232333032303031315a30243022020300ffff170d3836313232333031353931315a300c300a0603551d1504030a
0101a056305430330603551d1c0101ff04293027a025a0238621687474703a2f2f646f65732e6e6f742e6d617463682e
6578616d706c652e636f6d301d0603551d14041602146416a9c655b8306ec36c22997afefa8d4932b81e300a06082a86
48ce3d0403020348003045022053543a16853a25bc922cb74f519c03f99f9c3a6140e5e7fa6a7c53983a7687c8022100
cb4c7373ae51bdb9a64cfa6f01b5e779a29186cde96a4f4697713616973a9bda".

(** [tests/client_auth_revocation/ee_crl_no_idp_unknown_status.crl.der] *)
Definition ee_crl_no_idp_unknown_status_crl_der : Input := hex "
308201073081ae020101300a06082a8648ce3d0403023036311b301906035504030c126973737565722e6578616d706c
652e636f6d31173015060355040a0c0e696e742e612e64705f636861696e170d3836313232333031353931315a170d38
36313232333032303031315a30243022020300ffff170d3836313232333031353931315a300c300a0603551d1504030a
0101a021301f301d0603551d14041602147273f6fed50589fcffbdbc7a46a4b678dcf4f23a300a06082a8648ce3d0403
0203480030450221009383fe9f1760e4fb4709498f35bc19d2cba2dc3011f2ddc4bc8eba4893070d1a02207b240c55ab
f870b73d57a71897103a3302b6e3855b859a1f02018ace82f98d5f".

(** [tests/client_auth_revocation/ee_dp_idp_match.crl.der] *)
Definition ee_dp_idp_match_crl_der : Input := hex "
308201653082010b020101300a06082a8648ce3d0403023036311b301906035504030c126973737565722e6578616d70
6c652e636f6d31173015060355040a0c0e696e742e612e64705f636861696e170d3836313232333031353931315a170d
3836313232333032303031315a30243022020300ffff170d3836313232333031353931315a300c300a0603551d150403
0a0101a07e307c305b0603551d1c0101ff0451304fa04da04b820b6578616d706c652e636f6d861e687474703a2f2f65
78616d706c652e636f6d2f616e6f746865722e63726c861c687474703a2f2f6578616d706c652e636f6d2f76616c6964
2e63726c301d0603551d14041602141f40f5a17fa02ca25880e3986aed10efbb6f063a300a06082a8648ce3d04030203
480030450221008d9362ef25847855b1a4d26b1d003079df1c538294c73164dae1929f2c7c577c022040f6a8a1adfc1f
e333e2da2d80058e03ca08b0babf9954ffb3b09df97f8fd547".

(** [tests/client_auth_revocation/ee_dp_invalid.crl.der] *)
Definition ee_dp_invalid_crl_der : Input := hex "
308201653082010a020101300a06082a8648ce3d040302303e311b301906035504030c126973737565722e6578616d70
6c652e636f6d311f301d060355040a0c16696e742e612e696e76616c69645f64705f636861696e170d38363132323330
31353931315a170d3836313232333032303031315a30243022020300ffff170d3836313232333031353931315a300c30
0a0603551d1504030a0101a075307330520603551d1c0101ff04483046a044a0428622687474703a2f2f6578616d706c
652e636f6d2f7965742e616e6f746865722e63726c861c687474703a2f2f6578616d706c652e636f6d2f76616c69642e
63726c301d0603551d14041602147de92ff75df9d38eda364da4656b59dac26889b7300a06082a8648ce3d0403020349
0030460221009c4da52879da9d2b52b9674e62ca2aa0621fcc7d4b887ad2e60194325b370b95022100ecfd44735dbec2
ebdf31f59673df3ba82356c9c680fec046061247522d0c3481".

(** [tests/client_auth_revocation/ee_indirect_dp_unknown_status.crl.der] *)
Definition ee_indirect_dp_unknown_status_crl_der : Input := hex "
3082016e30820114020101300a06082a8648ce3d040302303f311b301906035504030c126973737565722e6578616d70
6c652e636f6d3120301e060355040a0c17696e742e612e696e6469726563745f64705f636861696e170d383631323233
3031353931315a170d3836313232333032303031315a30243022020300ffff170d3836313232333031353931315a300c
300a0603551d1504030a0101a07e307c305b0603551d1c0101ff0451304fa04da04b820b6578616d706c652e636f6d86
1e687474703a2f2f6578616d706c652e636f6d2f616e6f746865722e63726c861c687474703a2f2f6578616d706c652e
636f6d2f76616c69642e63726c301d0603551d1404160214645e8f19979aca6f910458f05fa2fc4e647d2488300a0608
2a8648ce3d040302034800304502201712df76457ee5ee1e82bfcac71d175de0d907d7572fe5f7da87a9fdb99c9e0502
2100d7dbe0657d2b0d048c8f057cc0ce2f09d53294b62b73cef9d188bd69d04329f9".

(** [tests/client_auth_revocation/ee_no_dp_crl_idp.crl.der] *)
Definition ee_no_dp_crl_idp_crl_der : Input := hex "
3082016030820105020101300a06082a8648ce3d0403023039311b301906035504030c126973737565722e6578616d70
6c652e636f6d311a3018060355040a0c11696e742e612e6e6f5f6b755f636861696e170d383631323233303135393131
5a170d3836313232333032303031315a30243022020300ffff170d3836313232333031353931315a300c300a0603551d
1504030a0101a075307330520603551d1c0101ff04483046a044a0428622687474703a2f2f6578616d706c652e636f6d
2f7965742e616e6f746865722e63726c861c687474703a2f2f6578616d706c652e636f6d2f76616c69642e63726c301d
0603551d14041602145e645ade2173fa01714be5d278fd86aaf9acc54c300a06082a8648ce3d04030203490030460221
00f581c6d90319d4491b6f9a10c2f1a7aab824e746b7ece6aa20b431c2e96e933f022100a395d267da9a512a63b56d3a
604de917954033f9f4720daf4dc564596fea7811".

(** [tests/client_auth_revocation/ee_nofullname_dp_unknown_status.crl.der] *)
Definition ee_nofullname_dp_unknown_status_crl_der : Input := hex "
3082017030820116020101300a06082a8648ce3d0403023041311b301906035504030c126973737565722e6578616d70
6c652e636f6d31223020060355040a0c19696e742e612e6e6f66756c6c6e616d655f64705f636861696e170d38363132
32333031353931315a170d3836313232333032303031315a30243022020300ffff170d3836313232333031353931315a
300c300a0603551d1504030a0101a07e307c305b0603551d1c0101ff0451304fa04da04b820b6578616d706c652e636f
6d861e687474703a2f2f6578616d706c652e636f6d2f616e6f746865722e63726c861c687474703a2f2f6578616d706c
652e636f6d2f76616c69642e63726c301d0603551d140416021433b22db528cb486322e48ee959887f1f3d211508300a
06082a8648ce3d0403020348003045022045ae86baa61cd02dbab026b9ffb5f18eb0f8aace2ab189562be38a8aa5b73d
e2022100ee9e10ebf69c5803662a675c322b1eb66944c8bfcec9f87b447d58e712386b59".

(** [tests/client_auth_revocation/ee_not_revoked_chain_depth.crl.der] *)
Definition ee_not_revoked_chain_depth_crl_der : Input := hex "
308201093081b0020101300a06082a8648ce3d0403023039311b301906035504030c126973737565722e6578616d706c
652e636f6d311a3018060355040a0c11696e742e612e6e6f5f6b755f636861696e170d3836313232333031353931315a
170d3836313232333032303031315a3023302102023039170d3836313232333031353931315a300c300a0603551d1504
030a0101a021301f301d0603551d14041602143d43508b204dbdac0a9dd76aa73e4d79c08104c2300a06082a8648ce3d
04030203480030450220746ca3b7e6d475b98d95970614574b2cea5ece4addd58be9d065701b4337acc8022100fa6582
4e1bc838877c062fa4d01f9016149b6701407090da50a09308d68d04d4".

(** [tests/client_auth_revocation/ee_not_revoked_ee_depth.crl.der] *)
Definition ee_not_revoked_ee_depth_crl_der : Input := hex "
3082010a3081b0020101300a06082a8648ce3d0403023039311b301906035504030c126973737565722e6578616d706c
652e636f6d311a3018060355040a0c11696e742e612e6e6f5f6b755f636861696e170d3836313232333031353931315a
170d3836313232333032303031315a3023302102023039170d3836313232333031353931315a300c300a0603551d1504
030a0101a021301f301d0603551d1404160214011ef6ff3e9bac9a928247242a075abb7dd5d9ef300a06082a8648ce3d
0403020349003046022100ad80a6b0dacbc1721a7a117270d2d01ac8fc2ba6c8cef0e22884b1330febf57f022100f0e6
8dc4ea929d92e1d64667691dc1d636d550b7821de77ee042e4a346aefe87".

(** [tests/client_auth_revocation/ee_not_revoked_wrong_ku_ee_depth.crl.der] *)
Definition ee_not_revoked_wrong_ku_ee_depth_crl_der : Input := hex "
3082010d3081b4020101300a06082a8648ce3d040302303d311b301906035504030c126973737565722e6578616d706c
652e636f6d311e301c060355040a0c15696e742e612e6e6f5f63726c5f6b755f636861696e170d383631323233303135
3931315a170d3836313232333032303031315a3023302102023039170d3836313232333031353931315a300c300a0603
551d1504030a0101a021301f301d0603551d14041602141b4e2beab06f68288276f54610da7ab251aa0bd6300a06082a
8648ce3d04030203480030450221008b3d9dda45dfb0c204fb1823806d95afb2ca04fa02e557237272c2965899d4e602
205f1bdf24258c4fd109f4b74707cefc3298ddc1a706d799d1a4c136469347c5fa".

(** [tests/client_auth_revocation/ee_reasons_dp_unknown_status.crl.der] *)
Definition ee_reasons_dp_unknown_status_crl_der : Input := hex "
3082016c30820113020101300a06082a8648ce3d040302303e311b301906035504030c126973737565722e6578616d70
6c652e636f6d311f301d060355040a0c16696e742e612e726561736f6e735f64705f636861696e170d38363132323330
31353931315a170d3836313232333032303031315a30243022020300ffff170d3836313232333031353931315a300c30
0a0603551d1504030a0101a07e307c305b0603551d1c0101ff0451304fa04da04b820b6578616d706c652e636f6d861e
687474703a2f2f6578616d706c652e636f6d2f616e6f746865722e63726c861c687474703a2f2f6578616d706c652e63
6f6d2f76616c69642e63726c301d0603551d14041602141791501da0c95cebc6070e5f73be5b9dbaf48e15300a06082a
8648ce3d0403020347003044022008ff9b3a7c390de03ef5fea7e836017d6cb2f9d51f909620ee8a98db154edb060220
7588212126ea3762490afbaad2bb79d3bd8adc99cf602ce36d61fb0e9334a4b3".

(** [tests/client_auth_revocation/ee_revoked_badsig_ee_depth.crl.der] *)
Definition ee_revoked_badsig_ee_depth_crl_der : Input := hex "
3082011c3081c2020101300a06082a8648ce3d0403023039311b301906035504030c126973737565722e6578616d706c
652e636f6d311a3018060355040a0c11696e742e612e6e6f5f6b755f636861696e170d3836313232333031353931315a
170d3836313232333032303031315a3035303302141b745177065f7266f32cb13f34ecaa0ff51f4b50170d3836313232
333031353931315a300c300a0603551d1504030a0101a021301f301d0603551d14041602144bd50739dc99bfad7ee77e
a8f3e2d8e9bb33b810300a06082a8648ce3d0403020349003046022100a91155c92092a1ae379d4b707c02ba8be2f13f
5cf18de3a57db51ac0e07e63d0022100f1e69a7fc45260347a7b51f03eee94862179adb4ca2fb1acde0e44560b9e9e0c".

(** [tests/client_auth_revocation/ee_revoked_chain_depth.crl.der] *)
Definition ee_revoked_chain_depth_crl_der : Input := hex "
3082011b3081c2020101300a06082a8648ce3d0403023039311b301906035504030c126973737565722e6578616d706c
652e636f6d311a3018060355040a0c11696e742e612e6e6f5f6b755f636861696e170d3836313232333031353931315a
170d3836313232333032303031315a3035303302141b745177065f7266f32cb13f34ecaa0ff51f4b50170d3836313232
333031353931315a300c300a0603551d1504030a0101a021301f301d0603551d140416021432374293501d11e2b66050
1ca8c1a666a8e90764300a06082a8648ce3d0403020348003045022066e3de2a8ed94a02601823a30c54b9dcef643ab0
2d870dcbbbf24aeb090e0348022100b82663bf6a58a3bc5742b5cb42857a4aaf930562df0dbbdec214c836055d93de".

(** [tests/client_auth_revocation/ee_revoked_no_ku_ee_depth.crl.der] *)
Definition ee_revoked_no_ku_ee_depth_crl_der : Input := hex "
3082011b3081c2020101300a06082a8648ce3d0403023039311b301906035504030c126973737565722e6578616d706c
652e636f6d311a3018060355040a0c11696e742e612e6e6f5f6b755f636861696e170d3836313232333031353931315a
170d3836313232333032303031315a3035303302141b745177065f7266f32cb13f34ecaa0ff51f4b50170d3836313232
333031353931315a300c300a0603551d1504030a0101a021301f301d0603551d140416021446bee5c63177a6faa2a3b1
24eeb717f89f63cd2c300a06082a8648ce3d04030203480030450220723605a05d72959f8d4703dc1be9ef5b1d6544e1
89441c6a8ea6279b3428431c022100976c4cd28d0c94fd1d1915667d9d8c638df951ed3e7f1361154494d7e6025f30".

(** [tests/client_auth_revocation/ee_revoked_wrong_ku_ee_depth.crl.der] *)
Definition ee_revoked_wrong_ku_ee_depth_crl_der : Input := hex "
3082011f3081c6020101300a06082a8648ce3d040302303d311b301906035504030c126973737565722e6578616d706c
652e636f6d311e301c060355040a0c15696e742e612e6e6f5f63726c5f6b755f636861696e170d383631323233303135
3931315a170d3836313232333032303031315a30353033021451f921a3421e7512bccd42816e210f4554735d8f170d38
36313232333031353931315a300c300a0603551d1504030a0101a021301f301d0603551d140416021445d996a6a204aa
c47ac2e2c087f42df1e79744bc300a06082a8648ce3d0403020348003045022041a2881abdb88d5289e68710ef2aa668
404f1c7a433dc3c63d5313cc1264f3d5022100f6f506dcb517aa5a370020efed5bcf6f08d3bebeab067a871496e0e7d8
0e9fae".

(** [tests/client_auth_revocation/ee_with_top_bit_set_serial_revoked.crl.der] *)
Definition ee_with_top_bit_set_serial_revoked_crl_der : Input := hex "
3082010b3081b3020101300a06082a8648ce3d0403023036311b301906035504030c126973737565722e6578616d706c
652e636f6d31173015060355040a0c0e696e742e612e6b755f636861696e170d3836313232333031353931315a170d38
36313232333032303031315a3029302702080080deadbeeff00d170d3836313232333031353931315a300c300a060355
1d1504030a0101a021301f301d0603551d14041602142ec1d00f7fd965ce7a800ff209df3191cf5b4092300a06082a86
48ce3d040302034700304402204cf461e3f385e5cd8dc5f511a52807de4530d87b75952de1cbddcea0071225b3022076
17065c6239acc8a512168407f4128ea7ab268f4be1aaae7bc61cc9b0abf430".

(** [tests/client_auth_revocation/indirect_dp_chain.ee.der] *)
Definition indirect_dp_chain_ee_der : Input := hex "
308202c93082026fa0030201020214114073a8fcde1788c3ac8b76a74329e192d05d12300a06082a8648ce3d04030230
3f311b301906035504030c126973737565722e6578616d706c652e636f6d3120301e060355040a0c17696e742e612e69
6e6469726563745f64705f636861696e301e170d3836313232333031353931315a170d3836313232333032303031315a
30373119301706035504030c10746573742e6578616d706c652e636f6d311a3018060355040a0c11696e646972656374
5f64705f636861696e30820122300d06092a864886f70d01010105000382010f003082010a0282010100e2e181ecef76
3b9c0dc3a5ed3acc4d1f2bd70e73a386ca447504efdf26b8b803f1738cc7c7002aa483d05acf8e8e85c849a92f4e2120
0bb9e06f915e37c95660d7ce11c455efd92fddec28068a940f1c2aed3d82af2d389b15b200577a9ae5885d259185e11a
ba7617b82d3e2365ed8efa516534540589c53ef4241ae4f3d1fd783f8bbe9c4ba46f175b4fa5dac0604749fcede7f98b
2ecf747739a1a633591427874bb674cee8f962305a8fbc50fe8fdd68209faadc851409bb850960f55ba34122dd03e526
149272ac8a4105f8dac2629226aa110d9d5b74963f4d707ff4581f597a585ef972a5ce73d32e08925b432dabb7f676b6
c263d302fcba7d0dc7df0203010001a3818530818230720603551d1f046b30693067a04da04b820b6578616d706c652e
636f6d861e687474703a2f2f6578616d706c652e636f6d2f616e6f746865722e63726c861c687474703a2f2f6578616d
706c652e636f6d2f76616c69642e63726ca2168214696e6469726563742e6578616d706c652e636f6d300c0603551d13
0101ff04023000300a06082a8648ce3d0403020348003045022100f4953d6dc2b1dbc90577fcb69014a8129f2ab4f7a7
e3d6c120cd567b80c39ab102206c6a62306642bd5350f6ab68e2893661af54f88db9b089838d9e4c7d8c999ffb".

(** [tests/client_auth_revocation/indirect_dp_chain.int.a.ca.der] *)
Definition indirect_dp_chain_int_a_ca_der : Input := hex "
30820209308201afa003020102021440e9d15dbbdc65326660d7de3516955bbaac6a17300a06082a8648ce3d04030230
3f311b301906035504030c126973737565722e6578616d706c652e636f6d3120301e060355040a0c17696e742e622e69
6e6469726563745f64705f636861696e301e170d3836313232333031353931315a170d3836313232333032303031315a
303f311b301906035504030c126973737565722e6578616d706c652e636f6d3120301e060355040a0c17696e742e612e
696e6469726563745f64705f636861696e3059301306072a8648ce3d020106082a8648ce3d0301070342000450f12422
574e49f1a566240136c1e7fa423233bc30ff0295e97601312e5a891e3b251092e1c6023da6b5e55d7e06995daa2e79a2
93371bfad250e7b3c157df2fa38188308185300f0603551d130101ff040530030101ff30720603551d1f046b30693067
a04da04b820b6578616d706c652e636f6d861e687474703a2f2f6578616d706c652e636f6d2f616e6f746865722e6372
6c861c687474703a2f2f6578616d706c652e636f6d2f76616c69642e63726ca2168214696e6469726563742e6578616d
706c652e636f6d300a06082a8648ce3d04030203480030450220411688006b03c14c9b5e2cefe17e3588ea677ac37792
9452ef3537b7872e7367022100e6446d1bed185d25020a995d80d1d1cd77754eca8fd44445d1a3f70a77b9565d".

(** [tests/client_auth_revocation/indirect_dp_chain.int.b.ca.der] *)
Definition indirect_dp_chain_int_b_ca_der : Input := hex "
30820206308201aca003020102021472dcb86cf1bfaa6d45facdf0ca28a254af3b4606300a06082a8648ce3d04030230
3c311b301906035504030c126973737565722e6578616d706c652e636f6d311d301b060355040a0c1463612e696e6469
726563745f64705f636861696e301e170d3836313232333031353931315a170d3836313232333032303031315a303f31
1b301906035504030c126973737565722e6578616d706c652e636f6d3120301e060355040a0c17696e742e622e696e64
69726563745f64705f636861696e3059301306072a8648ce3d020106082a8648ce3d03010703420004415bdba8726a8c
d34d14effb1ca62121a39317dea92bbd4423cdb16951d42180b156d85d7ea03ce7d7423696606276505bcf1bdfb41e11
0454390fea023d7b8ba38188308185300f0603551d130101ff040530030101ff30720603551d1f046b30693067a04da0
4b820b6578616d706c652e636f6d861e687474703a2f2f6578616d706c652e636f6d2f616e6f746865722e63726c861c
687474703a2f2f6578616d706c652e636f6d2f76616c69642e63726ca2168214696e6469726563742e6578616d706c65
2e636f6d300a06082a8648ce3d040302034800304502200c61d5278d1aef639f06f1c33576e3d18fe6e1702d50511c70
040a3932eb95c0022100a276d3fd350d007a071ac9059121d7f29eab517a525ab3d91113ddeeadd3db00".

(** [tests/client_auth_revocation/indirect_dp_chain.root.ca.der] *)
Definition indirect_dp_chain_root_ca_der : Input := hex "
30820204308201a9a003020102021421136ed8256007b4df9af89dc5c883efe5ffb468300a06082a8648ce3d04030230
3c311b301906035504030c126973737565722e6578616d706c652e636f6d311d301b060355040a0c1463612e696e6469
726563745f64705f636861696e301e170d3836313232333031353931315a170d3836313232333032303031315a303c31
1b301906035504030c126973737565722e6578616d706c652e636f6d311d301b060355040a0c1463612e696e64697265
63745f64705f636861696e3059301306072a8648ce3d020106082a8648ce3d0301070342000400a7e118f74c53a67ce3
d026a7113f84bd98d00789fa2bfb638ad9fd3ebf6a3fe216998c8098848f2c00bf4c84c54f4e01cc9967a2e662802a5f
d82aab81de03a38188308185300f0603551d130101ff040530030101ff30720603551d1f046b30693067a04da04b820b
6578616d706c652e636f6d861e687474703a2f2f6578616d706c652e636f6d2f616e6f746865722e63726c861c687474
703a2f2f6578616d706c652e636f6d2f76616c69642e63726ca2168214696e6469726563742e6578616d706c652e636f
6d300a06082a8648ce3d0403020349003046022100c4e35cf8d1d6b0918b6e8c896dc1b784549524bef0fc09cbab9a23
4d67426ceb022100faadf300349ba6e238118f7b1503d3c33dbaed0e0eafbcd13233166326dc46b6".

(** [tests/client_auth_revocation/int_not_revoked_chain_depth.crl.der] *)
Definition int_not_revoked_chain_depth_crl_der : Input := hex "
308201083081b0020101300a06082a8648ce3d0403023039311b301906035504030c126973737565722e6578616d706c
652e636f6d311a3018060355040a0c11696e742e622e6e6f5f6b755f636861696e170d3836313232333031353931315a
170d3836313232333032303031315a3023302102023039170d3836313232333031353931315a300c300a0603551d1504
030a0101a021301f301d0603551d14041602147b167d24ce6b09387e7a548e5a8959f29f501be9300a06082a8648ce3d
0403020347003044022027bde3ae9316992da79a74e909ef4752d8aeabcb70e54d76a6963c85fcf3b6a90220688d9963
27a839d3b755e2f747c36a15e59f8a8d94836bf1b6b177243bce2997".

(** [tests/client_auth_revocation/int_not_revoked_chain_depth_forbid_unknown.crl.der] *)
Definition int_not_revoked_chain_depth_forbid_unknown_crl_der : Input := hex "
308201093081b0020101300a06082a8648ce3d0403023039311b301906035504030c126973737565722e6578616d706c
652e636f6d311a3018060355040a0c11696e742e622e6e6f5f6b755f636861696e170d3836313232333031353931315a
170d3836313232333032303031315a3023302102023039170d3836313232333031353931315a300c300a0603551d1504
030a0101a021301f301d0603551d14041602140c57fb91a9873aafac50e3cef1c56c3c14f1755f300a06082a8648ce3d
040302034800304502202a5f2a70f88149bb9a84dc34422b15a8ff9fecd71d54b38d10e900a2a2c0a6d2022100f6b0de
341b294356381859e6716d413f82729ea5a3a2dbbbff54192f3704a8fa".

(** [tests/client_auth_revocation/int_not_revoked_chain_depth_forbid_unknown_b.crl.der] *)
Definition int_not_revoked_chain_depth_forbid_unknown_b_crl_der : Input := hex "
308201053081ad020101300a06082a8648ce3d0403023036311b301906035504030c126973737565722e6578616d706c
652e636f6d31173015060355040a0c0e63612e6e6f5f6b755f636861696e170d3836313232333031353931315a170d38
36313232333032303031315a3023302102023039170d3836313232333031353931315a300c300a0603551d1504030a01
01a021301f301d0603551d14041602145efa149c75e53476d26805ca2922fdd490e24228300a06082a8648ce3d040302
034700304402203580e47dbbfa0f2b774b3b59607a283b2ceec78b44f710448bd89f142505fb5b0220186aa8e8061c93
6aca19bf6f6d738d04af358b68158a2ddccf86cc07b3cb9aec".

(** [tests/client_auth_revocation/int_not_revoked_chain_depth_forbid_unknown_ee.crl.der] *)
Definition int_not_revoked_chain_depth_forbid_unknown_ee_crl_der : Input := hex "
3082010a3081b0020101300a06082a8648ce3d0403023039311b301906035504030c126973737565722e6578616d706c
652e636f6d311a3018060355040a0c11696e742e612e6e6f5f6b755f636861696e170d3836313232333031353931315a
170d3836313232333032303031315a302330210202270f170d3836313232333031353931315a300c300a0603551d1504
030a0101a021301f301d0603551d14041602145c4f42debcd0aa30933de63eb71b52e566c27166300a06082a8648ce3d
0403020349003046022100ad32a2960df07f18a2bbb39606aa62df4dc61fc4f1eb130290683602e6572e31022100b05e
67864b030726d887abc0dd3053bcebef72bb50d12d8e64ce37e1e545d555".

(** [tests/client_auth_revocation/int_revoked_badsig_chain_depth.crl.der] *)
Definition int_revoked_badsig_chain_depth_crl_der : Input := hex "
3082011b3081c2020101300a06082a8648ce3d0403023039311b301906035504030c126973737565722e6578616d706c
652e636f6d311a3018060355040a0c11696e742e622e6e6f5f6b755f636861696e170d3836313232333031353931315a
170d3836313232333032303031315a30353033021403bb8b248064d85f9430d9d07ba7c7892087d1bd170d3836313232
333031353931315a300c300a0603551d1504030a0101a021301f301d0603551d14041602146991b25119a012e1cc33cb
da5bd6f74a768aa647300a06082a8648ce3d0403020348003045022100965cc4de79e6eb22e65e98e8721e2e5b2957d8
aa10cd59b3f3694eb285c5622d02206e8e818d15ae43317705bdece0f6da3562a7c7759eaf78eb4a7d55ecd0f4200e".

(** [tests/client_auth_revocation/int_revoked_crl_ku_chain_depth.crl.der] *)
Definition int_revoked_crl_ku_chain_depth_crl_der : Input := hex "
308201173081bf020101300a06082a8648ce3d0403023036311b301906035504030c126973737565722e6578616d706c
652e636f6d31173015060355040a0c0e696e742e622e6b755f636861696e170d3836313232333031353931315a170d38
36313232333032303031315a3035303302141621ee86adf2b4b8930f92604962cb48f850fe30170d3836313232333031
353931315a300c300a0603551d1504030a0101a021301f301d0603551d14041602145c5f38049666cf868b8df57c7041
bf49f59df27e300a06082a8648ce3d0403020347003044022008d66e1b824d3a840828ebcfc62de979746fccf083ddc5
cb25a16bec3f3c23fd02202d41765711df739bbeec80358433d8cc9280613251b590eb6c262ec3112f59f2".

(** [tests/client_auth_revocation/int_revoked_no_ku_chain_depth.crl.der] *)
Definition int_revoked_no_ku_chain_depth_crl_der : Input := hex "
3082011a3081c2020101300a06082a8648ce3d0403023039311b301906035504030c126973737565722e6578616d706c
652e636f6d311a3018060355040a0c11696e742e622e6e6f5f6b755f636861696e170d3836313232333031353931315a
170d3836313232333032303031315a30353033021403bb8b248064d85f9430d9d07ba7c7892087d1bd170d3836313232
333031353931315a300c300a0603551d1504030a0101a021301f301d0603551d14041602143edfc30fb7b6e7c1712959
f9d5e1d6a3a3b0c0bb300a06082a8648ce3d0403020347003044022019dea713587c2691c7f58d40c9d7719aade39e43
2ebf6000090f60670157c56402200b34c49092c275a2b00cddd2caf53530a934c4d12134a64263e546916652bfbe".

(** [tests/client_auth_revocation/int_revoked_wrong_ku_chain_depth.crl.der] *)
Definition int_revoked_wrong_ku_chain_depth_crl_der : Input := hex "
308201203081c6020101300a06082a8648ce3d040302303d311b301906035504030c126973737565722e6578616d706c
652e636f6d311e301c060355040a0c15696e742e622e6e6f5f63726c5f6b755f636861696e170d383631323233303135
3931315a170d3836313232333032303031315a303530330214509b64ad6c025c5611fe116640d9f0929f5b02ff170d38
36313232333031353931315a300c300a0603551d1504030a0101a021301f301d0603551d1404160214156dc84074de48
5f07a66b8ed0ecdb7d56d5057a300a06082a8648ce3d0403020349003046022100d8139ea0941945f13054bf52d6d6c0
7b801e7e538214785ea218abc4bae69476022100b21a12691dc2f53b9568e87dbca293a6adfc9f42b2ba417012cdc219
c740ecf0".

(** [tests/client_auth_revocation/invalid_dp_chain.ee.der] *)
Definition invalid_dp_chain_ee_der : Input := hex "
3082026230820208a003020102021474ed9e19a88ffc4af618e4d390d9e39d2b3ffa47300a06082a8648ce3d04030230
3e311b301906035504030c126973737565722e6578616d706c652e636f6d311f301d060355040a0c16696e742e612e69
6e76616c69645f64705f636861696e301e170d3836313232333031353931315a170d3836313232333032303031315a30
363119301706035504030c10746573742e6578616d706c652e636f6d31193017060355040a0c10696e76616c69645f64
705f636861696e30820122300d06092a864886f70d01010105000382010f003082010a0282010100e5e7608f92f32841
eb223258eaa9c273c3f7af67e734c6a07d4fe3e2e7996cdb1b080e909a7a33b9ffbd85e09dae21f906d86ec40ab85949
788a203bfebfa6bf9f4740f9adafcae85b2ad35bfd213908c53a770e91c0ab0cc0074fbe8de0aed96ae76743d1881414
1b9173a6e084740eed454e49756edcdc5fac936fa474d06b8df632f2c0de81609a1cbfa328bfebf84073864caeffe459
d4aa4b979fd958e6768a4d5c59fe97697695248d301a690d6e4e2c944cdb78e0c5e8ac27e3c9fff22df52132c617afc6
82a5b90473c9c1941444e65b92bf8211559239da12a8e7cb9ca4d33163aab8dfaf79cacf043ec9e9f355e24262278015
42634c002b1a1dd10203010001a321301f300f0603551d1f04083006300481020640300c0603551d130101ff04023000
300a06082a8648ce3d04030203480030450221009eda57d28f17ffb2c5f3c088a1134879f23a3f47668f5858d57a769f
980dece80220063bfd7ad8d044fbdad5db1ca6f02501e3f66bc08e6653a7a019cfd2256ddf1b".

(** [tests/client_auth_revocation/invalid_dp_chain.int.a.ca.der] *)
Definition invalid_dp_chain_int_a_ca_der : Input := hex "
308201a330820148a003020102021433729f26c83b34909b9777f0a3e7ce7b1d9044d0300a06082a8648ce3d04030230
3e311b301906035504030c126973737565722e6578616d706c652e636f6d311f301d060355040a0c16696e742e622e69
6e76616c69645f64705f636861696e301e170d3836313232333031353931315a170d3836313232333032303031315a30
3e311b301906035504030c126973737565722e6578616d706c652e636f6d311f301d060355040a0c16696e742e612e69
6e76616c69645f64705f636861696e3059301306072a8648ce3d020106082a8648ce3d03010703420004fca231888bca
9cf4a0009302eb6a9bec17b9c5a4cda7c1886edfc28e7a86e1b35c926a51489d65c0a1b4e1aad46c47ee4e1ea9423d7e
e9f607d5d3e6b72875d1a3243022300f0603551d130101ff040530030101ff300f0603551d1f04083006300481020640
300a06082a8648ce3d0403020349003046022100dd091fdcbecb8f146a422257238bc8a1d514a020ddbce0781a682901
f4de8b60022100b8d323b43ab5da447d710dff1b180e49bcd99c529c361fbdeac621523a160c7c".

(** [tests/client_auth_revocation/invalid_dp_chain.int.b.ca.der] *)
Definition invalid_dp_chain_int_b_ca_der : Input := hex "
3082019f30820145a00302010202141024060120ae9983e887f113404f34e3952106b7300a06082a8648ce3d04030230
3b311b301906035504030c126973737565722e6578616d706c652e636f6d311c301a060355040a0c1363612e696e7661
6c69645f64705f636861696e301e170d3836313232333031353931315a170d3836313232333032303031315a303e311b
301906035504030c126973737565722e6578616d706c652e636f6d311f301d060355040a0c16696e742e622e696e7661
6c69645f64705f636861696e3059301306072a8648ce3d020106082a8648ce3d030107034200045695e8121869443174
1cf37fb74c2d67ff41f3803bd6f77290d5881ca8211008d0fb706c88d56d22ac691d0fcb30e54da296a2c8dbf4977c3d
b57e323b150fb6a3243022300f0603551d130101ff040530030101ff300f0603551d1f04083006300481020640300a06
082a8648ce3d0403020348003045022100d174ea1f6f8387e884e91658c15ca5f516a7fe4530dc7a0450894ba47599f8
da022058dd58b1ebcd18c6954ab31b051f241f3f81124ea080fc5858a01a5b0d5f6629".

(** [tests/client_auth_revocation/invalid_dp_chain.root.ca.der] *)
Definition invalid_dp_chain_root_ca_der : Input := hex "
3082019b30820142a00302010202142cac522a81020f22beeb228664f0d924bd0f9c38300a06082a8648ce3d04030230
3b311b301906035504030c126973737565722e6578616d706c652e636f6d311c301a060355040a0c1363612e696e7661
6c69645f64705f636861696e301e170d3836313232333031353931315a170d3836313232333032303031315a303b311b
301906035504030c126973737565722e6578616d706c652e636f6d311c301a060355040a0c1363612e696e76616c6964
5f64705f636861696e3059301306072a8648ce3d020106082a8648ce3d03010703420004c8fa585a169ffbf105d5dcce
ec98363c7cd9030de7364ff7cc78cb44338a712200f96567a69da19a4bb0f9ef4b6793762e6009c88ecb0e686bd00f4a
4fa509f5a3243022300f0603551d130101ff040530030101ff300f0603551d1f04083006300481020640300a06082a86
48ce3d04030203470030440220227e70ddd6a06cdbea3d1d8ee0c4fdc6117f53edc12255f54861e967fb450c1802202d
ef5d90ec5f2bb1d31f587d52d405d738a17e4957fad3e816e1f6ff6f7a8a84".

(** [tests/client_auth_revocation/ku_chain.int.a.ca.der] *)
Definition ku_chain_int_a_ca_der : Input := hex "
3082019130820137a00302010202141621ee86adf2b4b8930f92604962cb48f850fe30300a06082a8648ce3d04030230
36311b301906035504030c126973737565722e6578616d706c652e636f6d31173015060355040a0c0e696e742e622e6b
755f636861696e301e170d3836313232333031353931315a170d3836313232333032303031315a3036311b3019060355
04030c126973737565722e6578616d706c652e636f6d31173015060355040a0c0e696e742e612e6b755f636861696e30
59301306072a8648ce3d020106082a8648ce3d03010703420004a6c6253ef11875dc97fcd1ea69b755e569dd4406f6de
5cf5674c190bf684dc7c55010bbba876fb0e83b3cf872eced18a6ea82608751c126e085fddd51c080dbba3233021300f
0603551d130101ff040530030101ff300e0603551d0f0101ff040403020186300a06082a8648ce3d0403020348003045
02200ccadc96ad359b370bc4cc857ba89597f4809386f51394e1dfe340a24057f214022100d45c991b4b096f8e7dd562
d293ede1284971659f73afd5defb700016d3ebc651".

(** [tests/client_auth_revocation/ku_chain.int.b.ca.der] *)
Definition ku_chain_int_b_ca_der : Input := hex "
3082018f30820134a0030201020214329f29072950fb5c740e0ff421b2c05530de031a300a06082a8648ce3d04030230
33311b301906035504030c126973737565722e6578616d706c652e636f6d31143012060355040a0c0b63612e6b755f63
6861696e301e170d3836313232333031353931315a170d3836313232333032303031315a3036311b301906035504030c
126973737565722e6578616d706c652e636f6d31173015060355040a0c0e696e742e622e6b755f636861696e30593013
06072a8648ce3d020106082a8648ce3d0301070342000475603e64f0fa8ccd62e742277c8012c15c1cec5ac0fae66fd9
7c63f668fe06f8819be7f9d8d80d886f183f8e0e285a7ca9661b537b36e2f08987615ee4555820a3233021300f060355
1d130101ff040530030101ff300e0603551d0f0101ff040403020186300a06082a8648ce3d0403020349003046022100
b0abea815d9e35ceda3c212cf111bf606f7b546d44198715768aeb84611a871c022100fd56311eee451cd63aebb03bc6
1ce3285cd55190eee06920f5e669283b99dcda".

(** [tests/client_auth_revocation/ku_chain.root.ca.der] *)
Definition ku_chain_root_ca_der : Input := hex "
3082018b30820131a003020102021428c250efa2f325a7c5a3c04da31ccd5ceb77f183300a06082a8648ce3d04030230
33311b301906035504030c126973737565722e6578616d706c652e636f6d31143012060355040a0c0b63612e6b755f63
6861696e301e170d3836313232333031353931315a170d3836313232333032303031315a3033311b301906035504030c
126973737565722e6578616d706c652e636f6d31143012060355040a0c0b63612e6b755f636861696e3059301306072a
8648ce3d020106082a8648ce3d03010703420004dedeefa1d2e512d69ccab13ae443bd4204131d256571a8703c9f77c8
cf3d8ae8aa897a6c98c86cc20b29b5d98a2ebb0ad03fc7c93c38f4ee76480b4889206f07a3233021300f0603551d1301
01ff040530030101ff300e0603551d0f0101ff040403020186300a06082a8648ce3d040302034800304502203d02a7ab
20c74b55e7b69b0fef45f82169cf517bbb4344886be6a3599fd89b08022100f25d6cd204dcaea1190caf00d47681c3a7
22735b4736eb083e6d9f5ff3702251".

(** [tests/client_auth_revocation/ku_chain.topbit.ee.der] *)
Definition ku_chain_topbit_ee_der : Input := hex "
30820235308201dba00302010202080080deadbeeff00d300a06082a8648ce3d0403023036311b301906035504030c12
6973737565722e6578616d706c652e636f6d31173015060355040a0c0e696e742e612e6b755f636861696e301e170d38
36313232333031353931315a170d3836313232333032303031315a302e3119301706035504030c10746573742e657861
6d706c652e636f6d3111300f060355040a0c086b755f636861696e30820122300d06092a864886f70d01010105000382
010f003082010a0282010100e271ca733e4a668c2b1c2672a37a67fb6b2741c82f405cd1e8afda95d64021b03a946d3a
a9612dcb0cc2e81a5d8da2887e9248a71ee46f24060175b92e8c958c0f6deef6d8553c01f3f76b98668f72ecdad631f5
9cb95627dd7ff086ad123173c14a2e1da7d40f524f4b0ffb820dad9635eeb1517665a3b4471cdf2204fe1ed871cdd763
ae19d7c77eb44f8f1d8cca9aa865286424ae557da3cdcbc523816b5086a1c9638f8616110dfc984f41b3632e247ab05f
1c7148f4b275157e6016acc46a52ccc2a8720def55207b50fcc5ea29a005ef6d4da9c2ab7ef800337c57d58423bc76b9
549aafeca284745af4673c8294717687fee668be6a49e54366e02ec50203010001a310300e300c0603551d130101ff04
023000300a06082a8648ce3d040302034800304502210093a2968bb1e4a75fc08dc796eb41001983e20e94d0abb93005
b2b7d03473d7c402204a27ec39edb6db4dc76ee711ea90add3cc3e16be8765ff8c21667e0732efe073".

(** [tests/client_auth_revocation/no_crl_ku_chain.int.b.ca.der] *)
Definition no_crl_ku_chain_int_b_ca_der : Input := hex "
3082019c30820142a00302010202146ae6adccda8751ba6adce32351c57798152bb917300a06082a8648ce3d04030230
3a311b301906035504030c126973737565722e6578616d706c652e636f6d311b3019060355040a0c1263612e6e6f5f63
726c5f6b755f636861696e301e170d3836313232333031353931315a170d3836313232333032303031315a303d311b30
1906035504030c126973737565722e6578616d706c652e636f6d311e301c060355040a0c15696e742e622e6e6f5f6372
6c5f6b755f636861696e3059301306072a8648ce3d020106082a8648ce3d030107034200047642ba2f40fc2ea0b62ed0
3668b3e2372c679983eb813d6a30a5a6ff3434664bae45e70db764dce9e0c8361b62d9c33b1f210d7b4effd39e614f2a
805ede48b1a3233021300f0603551d130101ff040530030101ff300e0603551d0f0101ff040403020284300a06082a86
48ce3d040302034800304502202cf73b521eb49a7d0508f2e95dd769bfd731e7a18b3fbb79ffc1cbc16e47c44e022100
d12500e79e1939275cb859f9bb4bdcb33a68e0805a96f569425a0393e0ff5389".

(** [tests/client_auth_revocation/no_crl_ku_chain.root.ca.der] *)
Definition no_crl_ku_chain_root_ca_der : Input := hex "
308201993082013fa00302010202146ae3f5e2f93c1cc0456e0ac5b7eb008e72f2bcab300a06082a8648ce3d04030230
3a311b301906035504030c126973737565722e6578616d706c652e636f6d311b3019060355040a0c1263612e6e6f5f63
726c5f6b755f636861696e301e170d3836313232333031353931315a170d3836313232333032303031315a303a311b30
1906035504030c126973737565722e6578616d706c652e636f6d311b3019060355040a0c1263612e6e6f5f63726c5f6b
755f636861696e3059301306072a8648ce3d020106082a8648ce3d0301070342000479f3e2c7da20328c7d320960de54
024ef6336cb34c7903df98ba9e1483f89be9cc1b40be4479c91b67e9877b1bcab5040b5aa2f2fbd22b2b1ce1c50702c5
8d5ba3233021300f0603551d130101ff040530030101ff300e0603551d0f0101ff040403020284300a06082a8648ce3d
0403020348003045022100d15fd961c57adbac92be31e2d6a41b7681b69b1b46dce5c912202c0a488f977002202b4200
8e5492b7a60f7499d1831f707c9a6de4c8cbba03c8214bf25f1eb064c0".

(** [tests/client_auth_revocation/no_ku_chain.int.a.ca.der] *)
Definition no_ku_chain_int_a_ca_der : Input := hex "
308201873082012da003020102021403bb8b248064d85f9430d9d07ba7c7892087d1bd300a06082a8648ce3d04030230
39311b301906035504030c126973737565722e6578616d706c652e636f6d311a3018060355040a0c11696e742e622e6e
6f5f6b755f636861696e301e170d3836313232333031353931315a170d3836313232333032303031315a3039311b3019
06035504030c126973737565722e6578616d706c652e636f6d311a3018060355040a0c11696e742e612e6e6f5f6b755f
636861696e3059301306072a8648ce3d020106082a8648ce3d030107034200041e1d9e60ebabab3da1e26163524428e7
b26f3a62b4d53660244383bcf958b31abface3d0bc17a0cb1b89880e625eacd80cd42b79daa39aa3cf2ac224737bc59a
a3133011300f0603551d130101ff040530030101ff300a06082a8648ce3d0403020348003045022100cd6064ffc6fac0
8ddcc601e65c74ba49fcff8c253b5cd6d9cb26526d1a00ff170220265456df36e657f01ca1788900bb5f2d07a6e27160
7061ffa56dadc16b4359cc".

(** [tests/client_auth_revocation/no_ku_chain.int.b.ca.der] *)
Definition no_ku_chain_int_b_ca_der : Input := hex "
308201843082012aa003020102021406aaeb109058294edeac92f1cdb0b99057608ee8300a06082a8648ce3d04030230
36311b301906035504030c126973737565722e6578616d706c652e636f6d31173015060355040a0c0e63612e6e6f5f6b
755f636861696e301e170d3836313232333031353931315a170d3836313232333032303031315a3039311b3019060355
04030c126973737565722e6578616d706c652e636f6d311a3018060355040a0c11696e742e622e6e6f5f6b755f636861
696e3059301306072a8648ce3d020106082a8648ce3d03010703420004747e4c961740993e273f5826b6cce085fadee9
1c8dc7c54ef00b2a1e86412523d6b22746d05dc408a057f24175298278d87649470807c5a6c1aee70c3820194fa31330
11300f0603551d130101ff040530030101ff300a06082a8648ce3d04030203480030450220692dfd5b94a9e0cbafe75e
c0fe947f1a76dda94453c008d3ba387267ac4cc338022100e03bdf3166b3a823bde55ed6768a4e6fcb63c66466730853
a873e9ad657591dd".

(** [tests/client_auth_revocation/no_ku_chain.root.ca.der] *)
Definition no_ku_chain_root_ca_der : Input := hex "
3082017f30820126a003020102021365157e099ccfaf2a99a69f6f4675e637790e76300a06082a8648ce3d0403023036
311b301906035504030c126973737565722e6578616d706c652e636f6d31173015060355040a0c0e63612e6e6f5f6b75
5f636861696e301e170d3836313232333031353931315a170d3836313232333032303031315a3036311b301906035504
030c126973737565722e6578616d706c652e636f6d31173015060355040a0c0e63612e6e6f5f6b755f636861696e3059
301306072a8648ce3d020106082a8648ce3d0301070342000474dd462918602632af10fe896d9007bb11f4985275da05
29f3e10aa80bec51783a4f4b2a04ab51ae904bebe928d8e52756fee7bf68422a16a97f5bc03dcf9089a3133011300f06
03551d130101ff040530030101ff300a06082a8648ce3d04030203470030440220024f5f521d9da7ddf753c915009afa
c732d49571bdbf4d6b81153e1a7ad26c1002206be669af2780d5863e161a2c79e0f70d51106a7e8cd7af42d20de5ed15
fc0e7d".

(** [tests/client_auth_revocation/no_relevant_crl_chain_depth_allow_unknown.crl.der] *)
Definition no_relevant_crl_chain_depth_allow_unknown_crl_der : Input := hex "
308201e83081d1020101300d06092a864886f70d01010b05003045310f300d06035504030c0677686174657631323030
060355040a0c296e6f5f72656c6576616e745f63726c5f636861696e5f64657074685f616c6c6f775f756e6b6e6f776e
170d3836313232333031353931315a170d3836313232333032303031315a30353033021403bb8b248064d85f9430d9d0
7ba7c7892087d1bd170d3836313232333031353931315a300c300a0603551d1504030a0101a021301f301d0603551d14
0416021421008286c156fd46a3d09afad2569044a8dae942300d06092a864886f70d01010b050003820101005df87f29
08c9bce003ba17690d802ea4555fc41e4ab4f693fb8330d00afc60e99f1c26ec203a994e7cc8af47a1b59b8eeb11dde8
d42ded87a7f47b84f87e77b62b23445c301f11c6eb1938c2dab5bf8b5779bc0b2846d25ccc558bba01474be312ad9ad4
b9b76c414add38de3b8da5609af29f29beeb6bdea57b58e45a17e6d7a44b5808d698eaaee408413573a1a1e8cd9de19f
3cdf0582830f93c99bb7d60651d65737362d5a0b88bfce04744672eb26e0e71a23efbb5d3344e7249a1498336d6da2ba
e007b52422710cde61eb456269e7dd365d5569cd4bef49b04afe32893dc586b24f6d62135177d8fde85dbf67d1886280
4817306c44a83b0029ef5610".

(** [tests/client_auth_revocation/no_relevant_crl_chain_depth_forbid_unknown.crl.der] *)
Definition no_relevant_crl_chain_depth_forbid_unknown_crl_der : Input := hex "
308201e93081d2020101300d06092a864886f70d01010b05003046310f300d06035504030c0677686174657631333031
060355040a0c2a6e6f5f72656c6576616e745f63726c5f636861696e5f64657074685f666f726269645f756e6b6e6f77
6e170d3836313232333031353931315a170d3836313232333032303031315a30353033021403bb8b248064d85f9430d9
d07ba7c7892087d1bd170d3836313232333031353931315a300c300a0603551d1504030a0101a021301f301d0603551d
14041602142f1cf5a665b76def0330709760be9f623f840bc8300d06092a864886f70d01010b05000382010100cad6a8
eb9856671622b764f8bf8d101f6a3c3fc2e605b8a2de70836b323ee72975da68b65e6d9ab0f575363a94f56fb5b8b366
50226aa1947c1f703e5d21b67c44d6afb0342bef6d6f9dd242a9c572d16149d439431807386f5e3a95f2d90102df6cc5
3d1574b6964f46a5262133a851dec00ce3459eef9be3fa4574a91334ade2d005865e0caa05569d4f842a643bcc51c6c8
f022f55226d44f6d46b73d4e695d6924010615a8624599fc2b83f27cb776545185a253a1badba31e2b55d2c93a16a0b8
dda53a9cf7dd3e6d82172e2ead154cd5fadf4b9ea175199ca64440d7bad2eba69cfbaecedfa9afd4ae0fa67606c7a280
4290f260a98291dd657e966cad".

(** [tests/client_auth_revocation/no_relevant_crl_ee_depth_allow_unknown.crl.der] *)
Definition no_relevant_crl_ee_depth_allow_unknown_crl_der : Input := hex "
308201e53081ce020101300d06092a864886f70d01010b05003042310f300d06035504030c06776861746576312f302d
060355040a0c266e6f5f72656c6576616e745f63726c5f65655f64657074685f616c6c6f775f756e6b6e6f776e170d38
36313232333031353931315a170d3836313232333032303031315a3035303302141b745177065f7266f32cb13f34ecaa
0ff51f4b50170d3836313232333031353931315a300c300a0603551d1504030a0101a021301f301d0603551d14041602
142994f9402c9970970261ad0e75f9b56bae028d7a300d06092a864886f70d01010b050003820101007842629f85e711
4f3476524dfbf8438bc6c7edcdc24782ae12079c0b9b36e8bfa801dda7335fe78d20eca05aa416aca47a1467b41b2996
06ffa85e6db6d6a94cbdad3c07e08a50b8e58e9fb5e9d2271af20187b88b99e17ba62590712f498c54c33d0732c56836
50acb5086d283be09cdfd7ea965bc3a1ace3c6ec83dab3416c84d9f8376d64f20ce0f3723a504035703f82c344bcaa4f
dd25ec912a8d5764f0227bf8e872838fb4b6b87a67d13bc9f86e91619e9706c292a2e55b766aeec0910397c1bfe58cd9
c34b37b7c1af9a0c9cbc8f74fe316bbf78f8c902ed3884561574746e2a7eb8c0299aad6d04a72b294e8a0ebb495a5772
e7f88f3f98c39bb752".

(** [tests/client_auth_revocation/no_relevant_crl_ee_depth_forbid_unknown.crl.der] *)
Definition no_relevant_crl_ee_depth_forbid_unknown_crl_der : Input := hex "
308201e63081cf020101300d06092a864886f70d01010b05003043310f300d06035504030c067768617465763130302e
060355040a0c276e6f5f72656c6576616e745f63726c5f65655f64657074685f666f726269645f756e6b6e6f776e170d
3836313232333031353931315a170d3836313232333032303031315a3035303302141b745177065f7266f32cb13f34ec
aa0ff51f4b50170d3836313232333031353931315a300c300a0603551d1504030a0101a021301f301d0603551d140416
02147c209d899842dc473da8bf993e049cc30d4b9d34300d06092a864886f70d01010b05000382010100a6b914294c41
7ec595c6936a282978b23707dc7f2877e01a7e9543c801fe5b3d11a3f256ebbd33dc1d3ba6b375d1364d2fa428fe189e
926216426e343f7ceb434d1600ad9065de3bb3c45d9920d1590e48608b96da416f8d77c41f3fa595dcd037744517828a
60e0076b7971e7ddd27908d6304327ce984382809abf7433b793dedd139880d1dc640d63439a028c8500a127505fd51c
5bc8897618269d99c5e91e3be4dedebe6df660703d7dac284c103d589b0728505ac68c6a6c5a811420ab9a7d1b55f54a
a3fb731f070ffcfea600e06f26b2b56e64e6cb05a00723ecfbeeee7c94537aadbd8991665116c151f6b25f82a95acaab
30fe8a4b4826182ba28b".

(** [tests/client_auth_revocation/nofullname_dp_chain.ee.der] *)
Definition nofullname_dp_chain_ee_der : Input := hex "
3082027c30820222a00302010202143fbc66b31411067383151ee064c0eb9b9fc64e31300a06082a8648ce3d04030230
41311b301906035504030c126973737565722e6578616d706c652e636f6d31223020060355040a0c19696e742e612e6e
6f66756c6c6e616d655f64705f636861696e301e170d3836313232333031353931315a170d3836313232333032303031
315a30393119301706035504030c10746573742e6578616d706c652e636f6d311c301a060355040a0c136e6f66756c6c
6e616d655f64705f636861696e30820122300d06092a864886f70d01010105000382010f003082010a0282010100ac03
6ff32d4a7a926a24c6147b6b9abd593151c333eb1af7f7ec7967ed161e5d12ff10e1406a24a1c42bc4ba186455fc4cbb
3ff6c9798749e91b9cc99c3b94514f4ba896f9db098b4164b18c108ee7ac2b5b87706515a3a6d9b769e0577ac7060ab6
ffc70dbe19b318e2e7894dfbdb6c3fe62563db73fcc11ebd3ef0e8d10da76ac77f6979ab170d0c8f3dc6307ed3ebb4a5
a5e43c65253aa783d176a9ce843a3c8a1ec82c9e3cad6fd91efe4db29737495b64a9e6df5967a26e24f0ed9c1ef90da8
75b515d8b84c9d8492eba6de46aa3a1a0909e4fb5f649e198d58d6f05808653adf66a7a6936ef8b1c92de65a9d847d62
393733d91912d42ab106937db3c10203010001a335303330230603551d1f041c301a3018a016a114301206035504030c
0b6578616d706c652e636f6d300c0603551d130101ff04023000300a06082a8648ce3d0403020348003045022100be76
5f294145c59a062d9e5e519a1e0ebe86d602cede9591dcca2039b7c41c2b022016c3334362d1c0c6ba7ad228e02c05a0
1b47faf4757c4ec9d08da470ecbb1a00".

(** [tests/client_auth_revocation/nofullname_dp_chain.int.a.ca.der] *)
Definition nofullname_dp_chain_int_a_ca_der : Input := hex "
308201bb30820162a003020102021463bb9d2a88f56f6224dc6919e1c8663800810559300a06082a8648ce3d04030230
41311b301906035504030c126973737565722e6578616d706c652e636f6d31223020060355040a0c19696e742e622e6e
6f66756c6c6e616d655f64705f636861696e301e170d3836313232333031353931315a170d3836313232333032303031
315a3041311b301906035504030c126973737565722e6578616d706c652e636f6d31223020060355040a0c19696e742e
612e6e6f66756c6c6e616d655f64705f636861696e3059301306072a8648ce3d020106082a8648ce3d03010703420004
4d6c276d85ad680cda909901a9c84c2efe00ad96f880d394af0a901327f16b5349cf64ec448154f85c50cb624a050ec0
676a4e713b88952a64497c3b2641e63fa3383036300f0603551d130101ff040530030101ff30230603551d1f041c301a
3018a016a114301206035504030c0b6578616d706c652e636f6d300a06082a8648ce3d040302034700304402204ad950
6e9dc9379511fce671399694f9938707fb42bb6d8eac5523d671f45bb9022025cab62c4ee74abbbca15400dd4ab07d9f
e9cece645701b0a938ad20b6801e45".

(** [tests/client_auth_revocation/nofullname_dp_chain.int.b.ca.der] *)
Definition nofullname_dp_chain_int_b_ca_der : Input := hex "
308201ba3082015fa003020102021441b3b77ee4aa03f7cbe4d69e5a969628e0fc912f300a06082a8648ce3d04030230
3e311b301906035504030c126973737565722e6578616d706c652e636f6d311f301d060355040a0c1663612e6e6f6675
6c6c6e616d655f64705f636861696e301e170d3836313232333031353931315a170d3836313232333032303031315a30
41311b301906035504030c126973737565722e6578616d706c652e636f6d31223020060355040a0c19696e742e622e6e
6f66756c6c6e616d655f64705f636861696e3059301306072a8648ce3d020106082a8648ce3d0301070342000431b336
b5e60c5a6585139d6e7ca3d99f08437184f6f5f3c88dd3c158d2a4e154bdb6891c7b560d903100cd7470a8a43773d34b
a51bc93aa2f15484713d7e6689a3383036300f0603551d130101ff040530030101ff30230603551d1f041c301a3018a0
16a114301206035504030c0b6578616d706c652e636f6d300a06082a8648ce3d0403020349003046022100a484be3ed5
740c2f5c23a72a12483adb0f3d9b04f85709600334cd45fde83ad4022100fcf726fba7a7806527a7e88091320d6a34aa
096e8d0ae5e848d4901b89ee02d7".

(** [tests/client_auth_revocation/nofullname_dp_chain.root.ca.der] *)
Definition nofullname_dp_chain_root_ca_der : Input := hex "
308201b73082015ca00302010202147a9cb5e64cd7a9f68c74aa452b81ba4b8e3c8d57300a06082a8648ce3d04030230
3e311b301906035504030c126973737565722e6578616d706c652e636f6d311f301d060355040a0c1663612e6e6f6675
6c6c6e616d655f64705f636861696e301e170d3836313232333031353931315a170d3836313232333032303031315a30
3e311b301906035504030c126973737565722e6578616d706c652e636f6d311f301d060355040a0c1663612e6e6f6675
6c6c6e616d655f64705f636861696e3059301306072a8648ce3d020106082a8648ce3d030107034200041b3d95c1cdb8
802c313b8ad26ae42f597db03fbb8c66c74cf0741566a00119d424217231a9336758c8b909994686a1b681edf0dfe220
9f52f1da4d6b1330e4a5a3383036300f0603551d130101ff040530030101ff30230603551d1f041c301a3018a016a114
301206035504030c0b6578616d706c652e636f6d300a06082a8648ce3d0403020349003046022100a0bd929f2c9e0e94
1d9d9a0a5bb798a167681f1b0039c3d7d19640c03b3dee8d02210098d12ceca66283e37d520d3426be0c38fd743e517c
0024673ab0619223d9ff17".

(** [tests/client_auth_revocation/reasons_dp_chain.ee.der] *)
Definition reasons_dp_chain_ee_der : Input := hex "
308202b130820257a003020102021412a10ba8c2c82a38f3063086fa6c68c81310eb81300a06082a8648ce3d04030230
3e311b301906035504030c126973737565722e6578616d706c652e636f6d311f301d060355040a0c16696e742e612e72
6561736f6e735f64705f636861696e301e170d3836313232333031353931315a170d3836313232333032303031315a30
363119301706035504030c10746573742e6578616d706c652e636f6d31193017060355040a0c10726561736f6e735f64
705f636861696e30820122300d06092a864886f70d01010105000382010f003082010a0282010100a6dc605e62bbb14c
c14d8c1e56e1deec78c6f9badfcde977717839b1f37e771bccee6da5793b686276b5b743a93f8b108c427b5f0c208140
ea12aaf8fb557e50428b45f9ef6040e9f19f4895a149a15aad73d456bd3bc5dc8113bd027eca09a70a72d623117401ff
d0959e0bb5fae67b7ca553b44c12c46308911bf4612bbdf1f96bb5d49858af023fc185e8438f106a56ecb951e1686c84
d134e09a0719f4bebebadd5581696bea6ff4d6a46525a110ec014695813ac7db5ba22b0aaad1b3083ea3763faf9f9295
c3e816bf93cf750dc48ad0dd647239312ebc4ed644e8acc6f6d6ee9aa2259a6e90e3af19f5f60648f33f38f9e05db1ac
d7d680d1d5ce3d3d0203010001a370306e305e0603551d1f045730553053a04da04b820b6578616d706c652e636f6d86
1e687474703a2f2f6578616d706c652e636f6d2f616e6f746865722e63726c861c687474703a2f2f6578616d706c652e
636f6d2f76616c69642e63726c81020640300c0603551d130101ff04023000300a06082a8648ce3d0403020348003045
0220186c149ec5b1a3a347c2bfdf3a0cc78f10072abf98d263a0c9cabfcb4c8d0273022100aaa6caf7f54a42e245b8b0
6233b43ef154c24e6445cb736a9bd87aab08df282d".

(** [tests/client_auth_revocation/reasons_dp_chain.int.a.ca.der] *)
Definition reasons_dp_chain_int_a_ca_der : Input := hex "
308201f030820197a003020102021461e82fe57538aa66721410f312c5a731765b7093300a06082a8648ce3d04030230
3e311b301906035504030c126973737565722e6578616d706c652e636f6d311f301d060355040a0c16696e742e622e72
6561736f6e735f64705f636861696e301e170d3836313232333031353931315a170d3836313232333032303031315a30
3e311b301906035504030c126973737565722e6578616d706c652e636f6d311f301d060355040a0c16696e742e612e72
6561736f6e735f64705f636861696e3059301306072a8648ce3d020106082a8648ce3d0301070342000430f05584d6ff
83cd65fc2d4c5af26329d54e2e455780ee26475bc54fb9cd718f4a6ea980cbeaa2a8e061bed0568d1b19e51a8883b3d7
ea39817b5f7af6adc399a3733071300f0603551d130101ff040530030101ff305e0603551d1f045730553053a04da04b
820b6578616d706c652e636f6d861e687474703a2f2f6578616d706c652e636f6d2f616e6f746865722e63726c861c68
7474703a2f2f6578616d706c652e636f6d2f76616c69642e63726c81020640300a06082a8648ce3d0403020347003044
02207e44241baeec879459444fd8cc37a6f21bce3507cd7c31bda8c9db5bc772cc110220790f9579d05cd84ace704658
b18d146b0a79eefec0cb9910f1f40b83472b98fd".

(** [tests/client_auth_revocation/reasons_dp_chain.int.b.ca.der] *)
Definition reasons_dp_chain_int_b_ca_der : Input := hex "
308201ef30820194a00302010202144cea2230c73c5cd548349aee8114e1f6d8ee06b9300a06082a8648ce3d04030230
3b311b301906035504030c126973737565722e6578616d706c652e636f6d311c301a060355040a0c1363612e72656173
6f6e735f64705f636861696e301e170d3836313232333031353931315a170d3836313232333032303031315a303e311b
301906035504030c126973737565722e6578616d706c652e636f6d311f301d060355040a0c16696e742e622e72656173
6f6e735f64705f636861696e3059301306072a8648ce3d020106082a8648ce3d030107034200045350f9e19c110a207b
879175ca23ee2d7751011dfc8e08e121fa88dbb311906ff2ef4ff90c8f81845c85cb3e55f2344446399ad084497fe285
2a2e0556f375eea3733071300f0603551d130101ff040530030101ff305e0603551d1f045730553053a04da04b820b65
78616d706c652e636f6d861e687474703a2f2f6578616d706c652e636f6d2f616e6f746865722e63726c861c68747470
3a2f2f6578616d706c652e636f6d2f76616c69642e63726c81020640300a06082a8648ce3d0403020349003046022100
cf6fba2983ac4a48b9a1a8864ea7836d2cccc02e19fdc3feb0d00979384b754302210097331427b5a9aedb03dc7a4738
414f8bd2774f78ac23a2f71bbf74cddac50140".

(** [tests/client_auth_revocation/reasons_dp_chain.root.ca.der] *)
Definition reasons_dp_chain_root_ca_der : Input := hex "
308201ec30820191a0030201020214055f5a791afc5e37d0161950d65c799432348761300a06082a8648ce3d04030230
3b311b301906035504030c126973737565722e6578616d706c652e636f6d311c301a060355040a0c1363612e72656173
6f6e735f64705f636861696e301e170d3836313232333031353931315a170d3836313232333032303031315a303b311b
301906035504030c126973737565722e6578616d706c652e636f6d311c301a060355040a0c1363612e726561736f6e73
5f64705f636861696e3059301306072a8648ce3d020106082a8648ce3d03010703420004287f870cd2d886ccccce591a
01bc6847722689b57b27caf638c86a4c0b4569b4a3148ad973aae364b4c407617aa9497b1af907e3c498502139ede193
716e6735a3733071300f0603551d130101ff040530030101ff305e0603551d1f045730553053a04da04b820b6578616d
706c652e636f6d861e687474703a2f2f6578616d706c652e636f6d2f616e6f746865722e63726c861c687474703a2f2f
6578616d706c652e636f6d2f76616c69642e63726c81020640300a06082a8648ce3d0403020349003046022100db7624
243b816ab8dd7e4b318de64b26a01fb89e58c2422182fde4608b050718022100d9a7402f2d83d7603b41ecc15e6431e3
b2fdc017d1eafad6be26166e9f31168b".

(** [tests/cloudflare_dns/ca.der] *)
Definition cloudflare_ca_der : Input := hex "
308203af30820297a0030201020210083be056904246b1a1756ac95991c74a300d06092a864886f70d01010505003061
310b300906035504061302555331153013060355040a130c446967694365727420496e6331193017060355040b131077
77772e64696769636572742e636f6d3120301e06035504031317446967694365727420476c6f62616c20526f6f742043
41301e170d3036313131303030303030305a170d3331313131303030303030305a3061310b3009060355040613025553
31153013060355040a130c446967694365727420496e6331193017060355040b13107777772e64696769636572742e63
6f6d3120301e06035504031317446967694365727420476c6f62616c20526f6f7420434130820122300d06092a864886
f70d01010105000382010f003082010a0282010100e23be11172dea8a4d3a357aa50a28f0b7790c9a2a5ee12ce965b01
0920cc0193a74e30b753f743c46900579de28d22dd870640008109cece1b83bfdfcd3b7146e2d666c705b37627168f7b
9e1e957deeb748a308dad6af7a0c3906657f4a5d1fbc17f8abbeee28d7747f7a78995985686e5c23324bbf4ec0e85a6d
e370bf7710bffc01f685d9a844105832a97518d5d1a2be47e2276af49a33f84908608bd45fb43a84bfa1aa4a4c7d3ecf
4f5f6c765ea04b37919edc22e66dce141a8e6acbfecdb3146417c75b299e32bff2eefad30b42d4abb74132da0cd4eff8
81d5bb8d583fb51be84928a270da3104ddf7b216f24c0a4e07a8ed4a3d5eb57fa390c3af270203010001a3633061300e
0603551d0f0101ff040403020186300f0603551d130101ff040530030101ff301d0603551d0e0416041403de503556d1
4cbb66f0a3e21b1bc397b23dd155301f0603551d2304183016801403de503556d14cbb66f0a3e21b1bc397b23dd15530
0d06092a864886f70d01010505000382010100cb9c37aa4813120afadd449c4f52b0f4dfae04f5797908a32418fc4b2b
84c02db9d5c7fef4c11f58cbb86d9c7a74e79829ab11b5e370a0a1cd4c8899938c9170e2ab0f1cbe93a9ff63d5e40760
d3a3bf9d5b09f1d58ee353f48e63fa3fa7dbb466df6266d6d16e418df22db5ea774a9f9d58e22b59c04023ed2d288245
3e7954922698e08048a837eff0d6796016deace80ecd6eac4417382f49dae1453e2ab93653cf3a5006f72ee8c457496c
612118d504ad783c2c3a806ba7ebaf1514e9d889c1b9386ce2916c8aff64b977255730c01b24a3e1dce9df477cb5b424
080530ec2dbd0bbf45bf50b9a9f3eb980112adc888c698345f8d0a3cc6e9d595956dde".

(** [tests/cloudflare_dns/ee.der] *)
Definition cloudflare_ee_der : Input := hex "
308205f930820580a00302010202100f75a36d32c16b03c7ca5f5f714a0370300a06082a8648ce3d0403033056310b30
0906035504061302555331153013060355040a130c446967694365727420496e633130302e0603550403132744696769
4365727420544c53204879627269642045434320534841333834203230323020434131301e170d323131303235303030
3030305a170d3232313032353233353935395a3072310b3009060355040613025553311330110603550408130a43616c
69666f726e6961311630140603550407130d53616e204672616e636973636f31193017060355040a1310436c6f756466
6c6172652c20496e632e311b301906035504031312636c6f7564666c6172652d646e732e636f6d3059301306072a8648
ce3d020106082a8648ce3d03010703420004fb2944f2983fd8bd8256d32cbd8e099f312b98269e22968d7b4bfcdac57b
7b29aa8e356c9c0a48056c8973ed200ecd4621f0ec4db3a5e9af1b3899e5f4daf184a38204123082040e301f0603551d
230418301680140abc0829178ca5396d7a0ece33c72eb3edfbc37a301d0603551d0e0416041419451b2318f874da2214
cb466be213b3601582403081a60603551d1104819e30819b8212636c6f7564666c6172652d646e732e636f6d82142a2e
636c6f7564666c6172652d646e732e636f6d820f6f6e652e6f6e652e6f6e652e6f6e6587040101010187040100000187
04a29f24018704a29f2e0187102606470047000000000000000000111187102606470047000000000000000000100187
1026064700470000000000000000000064871026064700470000000000000000006400300e0603551d0f0101ff040403
020780301d0603551d250416301406082b0601050507030106082b0601050507030230819b0603551d1f048193308190
3046a044a0428640687474703a2f2f63726c332e64696769636572742e636f6d2f4469676943657274544c5348796272
6964454343534841333834323032304341312d312e63726c3046a044a0428640687474703a2f2f63726c342e64696769
636572742e636f6d2f4469676943657274544c53487962726964454343534841333834323032304341312d312e63726c
303e0603551d20043730353033060667810c0102023029302706082b06010505070201161b687474703a2f2f7777772e
64696769636572742e636f6d2f43505330818506082b0601050507010104793077302406082b06010505073001861868
7474703a2f2f6f6373702e64696769636572742e636f6d304f06082b060105050730028643687474703a2f2f63616365
7274732e64696769636572742e636f6d2f4469676943657274544c534879627269644543435348413338343230323043
41312d312e637274300c0603551d130101ff040230003082017e060a2b06010401d6790204020482016e0482016a0168
0077002979bef09e393921f056739f63a577e5be577d9c600af8f94d5d265c255dc7840000017cb961c1ef0000040300
483046022100cb0bbc4dedf1cca358c11ba9f2bdb2a816ab24eab34cfbfee376b2e3fbbc9590022100f60a6183c813a8
58c5ab7523915213ef0001860d0f8089512bdbd4862bd4510900750051a3b0f5fd01799c566db837788f0ca47acc1b27
cbf79e88429a0dfed48b05e50000017cb961c1fa000004030046304402207fc0218a38d4983fc06371d795972a372141
83a6549588c0032e1b732aa661f8022007e25246eac74955dc5f679b62850aaad0ed3d6a4d099dd31b2c10fd085deef4
00760041c8cab1df22464a10c6a13a0942875e4e318b1b03ebeb4bc768f090629606f60000017cb961c1b80000040300
473045022064da95ee2f34b628596fae0b16a412a29dbff7006fa981649cd64e00f1ad10780221008f02d58b997a5b08
cd8577ce91e2c88964c4a4dd9588349673fefd4c1d1d3680300a06082a8648ce3d040303036700306402301152a6a4c9
0ca1c95c6f9c9cf0cb2dc63f1f4230a411ca43c33fa921f1d2d4515b5b8ae684681a20c30c762e0f1b4a1b023049a1f9
ab8b7256fb377e6011a1bddf5667f2d60ab9de4b4a621650c06170af9ab4eb965f8b841107d395aa245bb71e1a".

(** [tests/cloudflare_dns/inter.der] *)
Definition cloudflare_inter_der : Input := hex "
30820417308202ffa003020102021007f2f35c87a877af7aefe947993525bd300d06092a864886f70d01010c05003061
310b300906035504061302555331153013060355040a130c446967694365727420496e6331193017060355040b131077
77772e64696769636572742e636f6d3120301e06035504031317446967694365727420476c6f62616c20526f6f742043
41301e170d3231303431343030303030305a170d3331303431333233353935395a3056310b3009060355040613025553
31153013060355040a130c446967694365727420496e633130302e06035504031327446967694365727420544c532048
796272696420454343205348413338342032303230204341313076301006072a8648ce3d020106052b81040022036200
04c11bc69a5b98d9a429a0e9d404b5dbeba6b26c55c0ffed98c6492f062751cbbf70c1057ac3b19d8789baadb41317c9
a8b483c8b890d1cc7435363c8372b0b5d0f72269c8f180c47b408fcf6887265c3989f14d914dda898be403c343e5bf2f
73a38201823082017e30120603551d130101ff040830060101ff020100301d0603551d0e041604140abc0829178ca539
6d7a0ece33c72eb3edfbc37a301f0603551d2304183016801403de503556d14cbb66f0a3e21b1bc397b23dd155300e06
03551d0f0101ff040403020186301d0603551d250416301406082b0601050507030106082b0601050507030230760608
2b06010505070101046a3068302406082b060105050730018618687474703a2f2f6f6373702e64696769636572742e63
6f6d304006082b060105050730028634687474703a2f2f636163657274732e64696769636572742e636f6d2f44696769
43657274476c6f62616c526f6f7443412e63727430420603551d1f043b30393037a035a0338631687474703a2f2f6372
6c332e64696769636572742e636f6d2f4469676943657274476c6f62616c526f6f7443412e63726c303d0603551d2004
363034300b06096086480186fd6c02013007060567810c01013008060667810c0102013008060667810c010202300806
0667810c010203300d06092a864886f70d01010c050003820101004759817fd41b1fb071f6985d18ba984798b07e762b
eaff1a8bac26b3428d31e64ae819d0efda14e7d71492a192f2a72e2daffb1df6fb53b08a3ffcd8160ae9b02eb6a50b18
903526a2daf6a8b732fc95234bc645b9c4cfe47ceee6c9f890bd72e399c31d0b057c6a976db2ab0236d8c2bc2c01923f
04a38b7511c7b929bc11d086ba92bc26f965c837cd26f686130c04aa89e578b1c14e79bc76a30b51e4c5d09e6afe1a2c
56ae063627a3731c087d9332d0c24419da8df40e7b1d28032b098a76ca77dc877aac7b522655a7720f9dd2884ffeb121
c51aa1aa39f556dbc284c4351f70dabb46f086bf6400c43ef79f461b9d2305b97db34f0fa9453ae3743098".

(** [tests/critical_extensions/ca-cert.der] *)
Definition critical_ca_cert_der : Input := hex "
308202fc308201e4a003020102020102300d06092a864886f70d01010b050030123110300e06035504030c07526f6f74
2043413020170d3230313231323230313635305a180f32313230313231333230313635305a300d310b30090603550403
0c02434130820122300d06092a864886f70d01010105000382010f003082010a0282010100969da43d004b1c5fc6cbdd
8fd231b28815ccc4862c5ce2698b84f4a7a353df91e3bf5189fbf07c100d3badac356275f57ffff46e548f05a69223b3
9f5939d03918b01040de62738a4eb08edfdce7c941225484800829bc353c86df30deddb424ff7e62a5c07ae82a163fd6
97dac542db2f696491cb08d7565a797f1b8441e94d9d770910a86c293344c6c05465e6e8e3f275056a64956cc0f4fd25
616e4836f0c0030705d67ce511fd18e84a2dd3720c37283631313885e8718dd80249c8bc1989c58ab13fa235eaaa901c
64687baf676a5a06540f50e1f9b4f6be3ad4ce3f1e4c7dc677323ea258eddbdd74d892146aa8f7cb345891a87c14b17d
08b34db1470203010001a360305e300f0603551d130101ff040530030101ff300b0603551d0f040403020106301d0603
551d0e04160414b41133f1d7e25ef7539e2022104f8606bf1fc95e301f0603551d230418301680148ef525af1e9b6b84
3d7c809ac9539c4d72f7a352300d06092a864886f70d01010b05000382010100da720e471e8fb2680a4f6fa9a4fd23fc
2770a3416851ceff75930b062e784f8192381dcb297498136b39ebb2d8a20355518e443f930cdddbd49fb5bd64062a34
a40c9b966adabee7d17688df4e090c9c5c9149a8f8147b8e42af259d7de0c252a7e6106d105e9077e53bf4c9293002da
7313ddc89b36b600cea4fd63c1eb9b39ac2ab0a9718408f081d797d10a7c8948f806b634ce0e10e629b49842a8e218a3
e3d75042aa166a409e8c7e103f6f93d6eac9b111a7f6b5e4fe7916f5d68d61a403ca800f96786be6853ea4fdfe85279c
3a5f379f4f1567c062cd348f906d09ebab19182e63bec7f9ad7f181d446fd233711dc1bc415126c82c0fa9f0d32387f3".

(** [tests/critical_extensions/ee-cert-crit-unknown-ext.der] *)
Definition critical_ee_cert_crit_unknown_ext_der : Input := hex "
3082033030820218a003020102020102300d06092a864886f70d01010b0500300d310b300906035504030c0243413020
170d3230303932333130333931335a180f32313230303932343130333931335a30193117301506035504030c0e736572
7665722e6578616d706c6530820122300d06092a864886f70d01010105000382010f003082010a0282010100a8ff8958
6185aededb2c0fd573fbe2b7a81b7a75602bd47d3c7376b5aede932f7f24906dc91cf48a38cd9fa2801656cbb42cbb93
e5171fff0dc643fe3134f828d875e9a3bb8882efa372e2536205454de03197efaa9d10d2580d9e069e32bb1b08565d65
0f3f668ec236a011ffc05935fd491cdd1c42330678ae043823e5e77567d394ad5aa9401fac5910f50cc164ad4ac4c635
53b3966a821b158bd199abe49e6f94aad296e557fb8c91648a3c2416c6d219be8260133b62b0ed3e1db3caf96bdf31b9
7a9e4b4768a729c73f4ae22227b4ef9063d7efd072493e5badb91bd42b6f8668ddd57312b843c9dc410fa2a3464f8b67
88840f61fe79341f4a891fb70203010001a3818c308189301d0603551d0e04160414e79be22aad8a6c3acb7651e58e07
982297e173a2301f0603551d23041830168014b41133f1d7e25ef7539e2022104f8606bf1fc95e30090603551d130402
300030130603551d25040c300a06082b0601050507030130190603551d1104123010820e7365727665722e6578616d70
6c65300c06032a03040101ff04020500300d06092a864886f70d01010b050003820101003a3057fe63cab5138c75ddd2
8c633149c4e7757cbe38c0931a644ca451ab47cc9002050385c3f2b7137b154fb9528d6a695ebef711fd43cd26b49ea2
0dbe6a1ddc40c3fd424c328ccd5514dde56ad4030f6c44520bf25849e41cb7ead0d0de107ce8c4a535e754c6de68bf90
c82b1eb4f2b623ca3c7badf0b8262059620542db33ba71a729d6c5eb49fd308f2e02bc9a0820d4a6d39d5c8887043216
d592e784002bf51bf02b9fa9878a4179f1cc0bd3ffb59fde075e24b336803c186ff1c24a12f33a7606e811b53528ca33
558eeb4fbfbbad313aff60282fa739cfe444d280bf504fe2d6f8048cef46c01b8bf505619a4b7b7a3251d3ea0cf44a80
d25eecc7".

(** [tests/critical_extensions/ee-cert-noncrit-unknown-ext.der] *)
Definition critical_ee_cert_noncrit_unknown_ext_der : Input := hex "
3082032d30820215a003020102020102300d06092a864886f70d01010b0500300d310b300906035504030c0243413020
170d3230303932333130333935325a180f32313230303932343130333935325a30193117301506035504030c0e736572
7665722e6578616d706c6530820122300d06092a864886f70d01010105000382010f003082010a0282010100a8ff8958
6185aededb2c0fd573fbe2b7a81b7a75602bd47d3c7376b5aede932f7f24906dc91cf48a38cd9fa2801656cbb42cbb93
e5171fff0dc643fe3134f828d875e9a3bb8882efa372e2536205454de03197efaa9d10d2580d9e069e32bb1b08565d65
0f3f668ec236a011ffc05935fd491cdd1c42330678ae043823e5e77567d394ad5aa9401fac5910f50cc164ad4ac4c635
53b3966a821b158bd199abe49e6f94aad296e557fb8c91648a3c2416c6d219be8260133b62b0ed3e1db3caf96bdf31b9
7a9e4b4768a729c73f4ae22227b4ef9063d7efd072493e5badb91bd42b6f8668ddd57312b843c9dc410fa2a3464f8b67
88840f61fe79341f4a891fb70203010001a38189308186301d0603551d0e04160414e79be22aad8a6c3acb7651e58e07
982297e173a2301f0603551d23041830168014b41133f1d7e25ef7539e2022104f8606bf1fc95e30090603551d130402
300030130603551d25040c300a06082b0601050507030130190603551d1104123010820e7365727665722e6578616d70
6c65300906032a030404020500300d06092a864886f70d01010b0500038201010018f8101d2880a86300babd8a5b8052
a2902bb614a1ed94f5c15117d253f9948fc152ffd0d586272845ae47da3ef2f3f5c38814845ce0f59af08f7ac23680b9
c76262a59b7c911a39c9c5efe2dcebe95e27d734a0181ca3ada75cd1511fbaa9b0d56a71bcba07795f616e25c541ff3f
3e22d5179059d194898d30ea3167ea6064999d6a8b82502a859b475e475a1884be309d8c8703da5202cd013ce9b49e1a
7e3505f5aa5b08bb73d14cefa2317f5a66f2fdfcdb9cf6ca0f257a3fc233b1f2e0ac7f4d5cdffd3811b97af559a383d1
df6799c208dd7edbbae1bd90c28662d1d2271cec093b7d147e091eca96138e740b49786bcf9e843eef6c5823465eceb5
2c".

(** [tests/critical_extensions/root-cert.der] *)
Definition critical_root_cert_der : Input := hex "
30820301308201e9a003020102020101300d06092a864886f70d01010b050030123110300e06035504030c07526f6f74
2043413020170d3230313231323230303934395a180f32313230313231333230303934395a30123110300e0603550403
0c07526f6f7420434130820122300d06092a864886f70d01010105000382010f003082010a0282010100e1e600f506bc
a04638790f3f1e7119136d02df2b9b766bfcacb021edd69108423ba56335ec525ba0a24ac5d6009403975a3db96728d2
7de3215ca4edc63c8d8e84d19d54c33dd974a296766771f9c61a5077b3fd78ee5be0e38c8923c29a22ec3ed4379e07cd
c02b5511173a34421c690d3a18b0ed15945ec6fd9e87c61ce7941a92c05f05c17343e503de0991c924ced88e8b7e2ee0
3148d1862a6a55267ae80b364e97b1e0a4c9da5c694b0380085683a31fb22ab8c14cfec5b14dd4c001aaedbece25bdee
69adf607cd6e2ba18954f568eb9809edc96066cb33624a03b068d60eab5fc135557efd46eebaebdcb6a2a3ed857f77df
b56822437e662423afc50203010001a360305e300f0603551d130101ff040530030101ff300b0603551d0f0404030201
06301d0603551d0e041604148ef525af1e9b6b843d7c809ac9539c4d72f7a352301f0603551d230418301680148ef525
af1e9b6b843d7c809ac9539c4d72f7a352300d06092a864886f70d01010b05000382010100bdaca980793f6d9cd3af04
50da0c01f0e01b19ee678f1d7564962bf396892e54e5523b47f73cbe33821d4d4e23f7907e139e9d7c671cd176401bae
6e3760e4898fb2f810345b3a65481e9d087e138243913a67edb28282d2bbaa500f517651648eae01a1f9ccabb7c853d4
da4a30dcb142c18badad27d583a258797f9cb98b0b1c5ccdcce86a87cf0cbbdc89ee93c9f1f69e1c58251dae757a86b0
beeac05649e4eedcd4c4b64dd0fc43f67addb95c2d8a5b856c23f3d04b4fe43b752b294674facabc224d905911257f92
d2df55348872a8b9ac94fe6e485b6e4edf2da17922cda625c4854772492fa6e29907c9bb97c0bf9689bdb2a6a08d9d49
21ffad7847".

(** [tests/crls/crl.delta.der] *)
Definition crl_delta_der : Input := hex "
308201ad30820134020101300a06082a8648ce3d0403033049310b300906035504061302585831153013060355040a13
0c426f756c6465722054657374312330210603550403131a28544553542920456c6567616e7420456c657068616e7420
4531170d3232313031303230313230375a170d3232313031393230313230365a30293027020803ae51db51155a3c170d
3232313031303139313230375a300c300a0603551d1504030a0101a0818e30818b301f0603551d2304183016801401da
bb7acb25208e5e79d6f996422f02412907be30110603551d14040a0208171cce3de482ba6130110603551d1b040a0208
171cce3de482ba6130420603551d1c0101ff04383036a031a02f862d687474703a2f2f632e626f756c6465722e746573
742f36363238333735363931333538383238382f302e63726c8101ff300a06082a8648ce3d040303036700306402302f
0e42149d361abc9ea1f3ad3a303c85876bb0fdc17e3959cce2c13c9d4746cb45d88348467db478318fa44714506b2202
3057903e972922bd33817a4fea5517534adc2d2bdab6e69e41256bdb89c68d9ecfcb4bdcf78c349fb89d67cc237b9fbf
33".

(** [tests/crls/crl.empty.der] *)
Definition crl_empty_der : Input := hex "
3081a6304f020101300a06082a8648ce3d0403023000170d3233303431323138303831355a170d323330343133313830
3831355aa01e301c300e0603551d23040730058003c0ffee300a0603551d14040302010a300a06082a8648ce3d040302
034700304402205ccab170e7156765339ee299bf8088a668efc522385eadb2f6aa0e31f3bf762802201495e00acf57a4
067face032cf16d67858de3e20d23970d0ce8052e30f2ae382".

(** [tests/crls/crl.entry.empty.ext.seq.der] *)
Definition crl_entry_empty_ext_seq_der : Input := hex "
3082022b30820113020101300d06092a864886f70d01010b05003075310b300906035504061302444531253023060355
040a131c542d53797374656d7320496e7465726e6174696f6e616c20476d6248311f301d060355040b1316542d537973
74656d732054727573742043656e746572311e301c0603550403131554656c6553656320427573696e65737320434120
31170d3233303431363130333933375a170d3233303432343130333933365a301e301c0209008361f33529c21c8c170d
3139313230393131303530345a3000a04a304830180603551d3c0411180f32303232303431363030303030305a301f06
03551d230418301680148688931f8beb559665d54701bd378c7ccda8c7a3300b0603551d14040402021772300d06092a
864886f70d01010b050003820101003a932bfd756c28f52bf27edca2f3e2574d6973bb9b50d39974342da442f93768c3
4f4f72dad4221b4901e4f5d00814fd79fe3cec7fdf84c2807e5f945350d19dd005ccb8f3e6af058e01f163b91594effb
870328d590951184f43977507125b5fa2fdcf3655ebb25d45c4c22957666bc7a30c667c48d0a10921e86583db0fdf983
85e6eeccb290e6c2bd48be4e2828fba079dd39d38195d9dba0833dc3b8507e3a676783b870683aa52888c95dadac22f4
ec6ab8bfef4ffa8440ab6f32b04c0065b4294137a58bae4dcec336b099595f4e72a0bdd08a3ae71ff0941edd44bbaca0
5d970316d2233385a65697731350f23d52e86e683a1361819b88ecd8de088e".

(** [tests/crls/crl.entry.invalid.reason.der] *)
Definition crl_entry_invalid_reason_der : Input := hex "
308201983082011f020101300a06082a8648ce3d0403033049310b300906035504061302585831153013060355040a13
0c426f756c6465722054657374312330210603550403131a28544553542920456c6567616e7420456c657068616e7420
4531170d3232313031303230313230375a170d3232313031393230313230365a30293027020803ae51db51155a3c170d
3232313031303139313230375a300c300a0603551d1504030a0169a07a3078301f0603551d2304183016801401dabb7a
cb25208e5e79d6f996422f02412907be30110603551d14040a0208171cce3de482ba6130420603551d1c0101ff043830
36a031a02f862d687474703a2f2f632e626f756c6465722e746573742f36363238333735363931333538383238382f30
2e63726c8101ff300a06082a8648ce3d040303036700306402302f0e42149d361abc9ea1f3ad3a303c85876bb0fdc17e
3959cce2c13c9d4746cb45d88348467db478318fa44714506b22023057903e972922bd33817a4fea5517534adc2d2bda
b6e69e41256bdb89c68d9ecfcb4bdcf78c349fb89d67cc237b9fbf33".

(** [tests/crls/crl.entry.invalidity.date.der] *)
Definition crl_entry_invalidity_date_der : Input := hex "
308201b030820137020101300a06082a8648ce3d0403033049310b300906035504061302585831153013060355040a13
0c426f756c6465722054657374312330210603550403131a28544553542920456c6567616e7420456c657068616e7420
4531170d3232313031303230313230375a170d3232313031393230313230365a3041303f020803ae51db51155a3c170d
3232313031303139313230375a3024300a0603551d1504030a010130160603551d18040f170d32323130313031393132
30375aa07a3078301f0603551d2304183016801401dabb7acb25208e5e79d6f996422f02412907be30110603551d1404
0a0208171cce3de482ba6130420603551d1c0101ff04383036a031a02f862d687474703a2f2f632e626f756c6465722e
746573742f36363238333735363931333538383238382f302e63726c8101ff300a06082a8648ce3d0403030367003064
02302f0e42149d361abc9ea1f3ad3a303c85876bb0fdc17e3959cce2c13c9d4746cb45d88348467db478318fa4471450
6b22023057903e972922bd33817a4fea5517534adc2d2bdab6e69e41256bdb89c68d9ecfcb4bdcf78c349fb89d67cc23
7b9fbf33".

(** [tests/crls/crl.entry.issuer.ext.der] *)
Definition crl_entry_issuer_ext_der : Input := hex "
308201b43082013b020101300a06082a8648ce3d0403033049310b300906035504061302585831153013060355040a13
0c426f756c6465722054657374312330210603550403131a28544553542920456c6567616e7420456c657068616e7420
4531170d3232313031303230313230375a170d3232313031393230313230365a30453043020803ae51db51155a3c170d
3232313031303139313230375a3028300a0603551d1504030a0101301a0603551d1d04131311626f6775732d706c6163
65686f6c646572a07a3078301f0603551d2304183016801401dabb7acb25208e5e79d6f996422f02412907be30110603
551d14040a0208171cce3de482ba6130420603551d1c0101ff04383036a031a02f862d687474703a2f2f632e626f756c
6465722e746573742f36363238333735363931333538383238382f302e63726c8101ff300a06082a8648ce3d04030303
6700306402302f0e42149d361abc9ea1f3ad3a303c85876bb0fdc17e3959cce2c13c9d4746cb45d88348467db478318f
a44714506b22023057903e972922bd33817a4fea5517534adc2d2bdab6e69e41256bdb89c68d9ecfcb4bdcf78c349fb8
9d67cc237b9fbf33".

(** [tests/crls/crl.entry.unknown.crit.ext.der] *)
Definition crl_entry_unknown_crit_ext_der : Input := hex "
308201a73082012e020101300a06082a8648ce3d0403033049310b300906035504061302585831153013060355040a13
0c426f756c6465722054657374312330210603550403131a28544553542920456c6567616e7420456c657068616e7420
4531170d3232313031303230313230375a170d3232313031393230313230365a30383036020803ae51db51155a3c170d
3232313031303139313230375a301b300a0603551d1504030a0101300d0603551d630101ff04030a0101a07a3078301f
0603551d2304183016801401dabb7acb25208e5e79d6f996422f02412907be30110603551d14040a0208171cce3de482
ba6130420603551d1c0101ff04383036a031a02f862d687474703a2f2f632e626f756c6465722e746573742f36363238
333735363931333538383238382f302e63726c8101ff300a06082a8648ce3d040303036700306402302f0e42149d361a
bc9ea1f3ad3a303c85876bb0fdc17e3959cce2c13c9d4746cb45d88348467db478318fa44714506b22023057903e9729
22bd33817a4fea5517534adc2d2bdab6e69e41256bdb89c68d9ecfcb4bdcf78c349fb89d67cc237b9fbf33".

(** [tests/crls/crl.invalid.this.update.time.der] *)
Definition crl_invalid_this_update_time_der : Input := hex "
30819a3042020101300a06082a8648ce3d0403023000180f30303031303130313030303030305aa01e301c300e060355
1d23040730058003c0ffee300a0603551d14040302010a300a06082a8648ce3d0403020348003045022100ffd99d28b4
5db2893a956e8935634de9f72a3d1dc988ea0380028bf7cb0bb47d02204277f9b3dc61ac9ebe3b115e14f21ad0a79ee3
e2f764700e08d74fb394670401".

(** [tests/crls/crl.mismatched.sigalg.der] *)
Definition crl_mismatched_sigalg_der : Input := hex "
308201983082011f020101300a06082a8648ce3d0403633049310b300906035504061302585831153013060355040a13
0c426f756c6465722054657374312330210603550403131a28544553542920456c6567616e7420456c657068616e7420
4531170d3232313031303230313230375a170d3232313031393230313230365a30293027020803ae51db51155a3c170d
3232313031303139313230375a300c300a0603551d1504030a0101a07a3078301f0603551d2304183016801401dabb7a
cb25208e5e79d6f996422f02412907be30110603551d14040a0208171cce3de482ba6130420603551d1c0101ff043830
36a031a02f862d687474703a2f2f632e626f756c6465722e746573742f36363238333735363931333538383238382f30
2e63726c8101ff300a06082a8648ce3d040303036700306402302f0e42149d361abc9ea1f3ad3a303c85876bb0fdc17e
3959cce2c13c9d4746cb45d88348467db478318fa44714506b22023057903e972922bd33817a4fea5517534adc2d2bda
b6e69e41256bdb89c68d9ecfcb4bdcf78c349fb89d67cc237b9fbf33".

(** [tests/crls/crl.missing.exts.der] *)
Definition crl_missing_exts_der : Input := hex "
3082011b3081a3020101300a06082a8648ce3d0403033049310b300906035504061302585831153013060355040a130c
426f756c6465722054657374312330210603550403131a28544553542920456c6567616e7420456c657068616e742045
31170d3232313031303230313230375a170d3232313031393230313230365a30293027020803ae51db51155a3c170d32
32313031303139313230375a300c300a0603551d1504030a0101300a06082a8648ce3d040303036700306402302f0e42
149d361abc9ea1f3ad3a303c85876bb0fdc17e3959cce2c13c9d4746cb45d88348467db478318fa44714506b22023057
903e972922bd33817a4fea5517534adc2d2bdab6e69e41256bdb89c68d9ecfcb4bdcf78c349fb89d67cc237b9fbf33".

(** [tests/crls/crl.missing.next.update.der] *)
Definition crl_missing_next_update_der : Input := hex "
3082018930820110020101300a06082a8648ce3d0403033049310b300906035504061302585831153013060355040a13
0c426f756c6465722054657374312330210603550403131a28544553542920456c6567616e7420456c657068616e7420
4531170d3232313031303230313230375a30293027020803ae51db51155a3c170d3232313031303139313230375a300c
300a0603551d1504030a0101a07a3078301f0603551d2304183016801401dabb7acb25208e5e79d6f996422f02412907
be30110603551d14040a0208171cce3de482ba6130420603551d1c0101ff04383036a031a02f862d687474703a2f2f63
2e626f756c6465722e746573742f36363238333735363931333538383238382f302e63726c8101ff300a06082a8648ce
3d040303036700306402302f0e42149d361abc9ea1f3ad3a303c85876bb0fdc17e3959cce2c13c9d4746cb45d8834846
7db478318fa44714506b22023057903e972922bd33817a4fea5517534adc2d2bdab6e69e41256bdb89c68d9ecfcb4bdc
f78c349fb89d67cc237b9fbf33".

(** [tests/crls/crl.negative.crl.number.der] *)
Definition crl_negative_crl_number_der : Input := hex "
3081a93052020101300a06082a8648ce3d0403023000170d3233303431323138303831355a170d323330343133313830
3831355aa021301f300e0603551d23040730058003c0ffee300d0603551d1404060204fd78a84e300a06082a8648ce3d
04030203470030440220503c9555a684757af7f80985f848f0e6369267c2517f494a964aca5df60ff90e022010339b7d
6fce275cf5e71c3b308600634edc9631c3f75b6f2e9120085a7f5175".

(** [tests/crls/crl.negative.serial.der] *)
Definition crl_negative_serial_der : Input := hex "
308201943082011b020101300a06082a8648ce3d0403033049310b300906035504061302585831153013060355040a13
0c426f756c6465722054657374312330210603550403131a28544553542920456c6567616e7420456c657068616e7420
4531170d3232313031303230313230375a170d3232313031393230313230365a302530230204fd78a84e170d32323130
31303139313230375a300c300a0603551d1504030a0101a07a3078301f0603551d2304183016801401dabb7acb25208e
5e79d6f996422f02412907be30110603551d14040a0208171cce3de482ba6130420603551d1c0101ff04383036a031a0
2f862d687474703a2f2f632e626f756c6465722e746573742f36363238333735363931333538383238382f302e63726c
8101ff300a06082a8648ce3d040303036700306402302f0e42149d361abc9ea1f3ad3a303c85876bb0fdc17e3959cce2
c13c9d4746cb45d88348467db478318fa44714506b22023057903e972922bd33817a4fea5517534adc2d2bdab6e69e41
256bdb89c68d9ecfcb4bdcf78c349fb89d67cc237b9fbf33".

(** [tests/crls/crl.no.entry.exts.der] *)
Definition crl_no_entry_exts_der : Input := hex "
3082018a30820111020101300a06082a8648ce3d0403033049310b300906035504061302585831153013060355040a13
0c426f756c6465722054657374312330210603550403131a28544553542920456c6567616e7420456c657068616e7420
4531170d3232313031303230313230375a170d3232313031393230313230365a301b3019020803ae51db51155a3c170d
3232313031303139313230375aa07a3078301f0603551d2304183016801401dabb7acb25208e5e79d6f996422f024129
07be30110603551d14040a0208171cce3de482ba6130420603551d1c0101ff04383036a031a02f862d687474703a2f2f
632e626f756c6465722e746573742f36363238333735363931333538383238382f302e63726c8101ff300a06082a8648
ce3d040303036700306402302f0e42149d361abc9ea1f3ad3a303c85876bb0fdc17e3959cce2c13c9d4746cb45d88348
467db478318fa44714506b22023057903e972922bd33817a4fea5517534adc2d2bdab6e69e41256bdb89c68d9ecfcb4b
dcf78c349fb89d67cc237b9fbf33".

(** [tests/crls/crl.too.long.crl.number.der] *)
Definition crl_too_long_crl_number_der : Input := hex "
308201af30820136020101300a06082a8648ce3d0403033049310b300906035504061302585831153013060355040a13
0c426f756c6465722054657374312330210603550403131a28544553542920456c6567616e7420456c657068616e7420
4531170d3232313031303230313230375a170d3232313031393230313230365a30293027020803ae51db51155a3c170d
3232313031303139313230375a300c300a0603551d1504030a0101a0819030818d301f0603551d2304183016801401da
bb7acb25208e5e79d6f996422f02412907be30260603551d14041f021d20202020202020202020202020202020202020
2020202020202020202030420603551d1c0101ff04383036a031a02f862d687474703a2f2f632e626f756c6465722e74
6573742f36363238333735363931333538383238382f302e63726c8101ff300a06082a8648ce3d040303036700306402
302f0e42149d361abc9ea1f3ad3a303c85876bb0fdc17e3959cce2c13c9d4746cb45d88348467db478318fa44714506b
22023057903e972922bd33817a4fea5517534adc2d2bdab6e69e41256bdb89c68d9ecfcb4bdcf78c349fb89d67cc237b
9fbf33".

(** [tests/crls/crl.topbit.serial.der] *)
Definition crl_topbit_serial_der : Input := hex "
308201963082011d020101300a06082a8648ce3d0403033049310b300906035504061302585831153013060355040a13
0c426f756c6465722054657374312330210603550403131a28544553542920456c6567616e7420456c657068616e7420
4531170d3232313031303230313230375a170d3232313031393230313230365a3027302502060080feedf00d170d3232
313031303139313230375a300c300a0603551d1504030a0101a07a3078301f0603551d2304183016801401dabb7acb25
208e5e79d6f996422f02412907be30110603551d14040a0208171cce3de482ba6130420603551d1c0101ff04383036a0
31a02f862d687474703a2f2f632e626f756c6465722e746573742f36363238333735363931333538383238382f302e63
726c8101ff300a06082a8648ce3d040303036700306402302f0e42149d361abc9ea1f3ad3a303c85876bb0fdc17e3959
cce2c13c9d4746cb45d88348467db478318fa44714506b22023057903e972922bd33817a4fea5517534adc2d2bdab6e6
9e41256bdb89c68d9ecfcb4bdcf78c349fb89d67cc237b9fbf33".

(** [tests/crls/crl.unknown.crit.ext.der] *)
Definition crl_unknown_crit_ext_der : Input := hex "
308201ab30820132020101300a06082a8648ce3d0403033049310b300906035504061302585831153013060355040a13
0c426f756c6465722054657374312330210603550403131a28544553542920456c6567616e7420456c657068616e7420
4531170d3232313031303230313230375a170d3232313031393230313230365a30293027020803ae51db51155a3c170d
3232313031303139313230375a300c300a0603551d1504030a0101a0818c308189301f0603551d2304183016801401da
bb7acb25208e5e79d6f996422f02412907be30110603551d14040a0208171cce3de482ba61300f0603551d450101ff04
050203c0ffee30420603551d1c0101ff04383036a031a02f862d687474703a2f2f632e626f756c6465722e746573742f
36363238333735363931333538383238382f302e63726c8101ff300a06082a8648ce3d040303036700306402302f0e42
149d361abc9ea1f3ad3a303c85876bb0fdc17e3959cce2c13c9d4746cb45d88348467db478318fa44714506b22023057
903e972922bd33817a4fea5517534adc2d2bdab6e69e41256bdb89c68d9ecfcb4bdcf78c349fb89d67cc237b9fbf33".

(** [tests/crls/crl.wrong.version.der] *)
Definition crl_wrong_version_der : Input := hex "
308201983082011f020100300a06082a8648ce3d0403033049310b300906035504061302585831153013060355040a13
0c426f756c6465722054657374312330210603550403131a28544553542920456c6567616e7420456c657068616e7420
4531170d3232313031303230313230375a170d3232313031393230313230365a30293027020803ae51db51155a3c170d
3232313031303139313230375a300c300a0603551d1504030a0101a07a3078301f0603551d2304183016801401dabb7a
cb25208e5e79d6f996422f02412907be30110603551d14040a0208171cce3de482ba6130420603551d1c0101ff043830
36a031a02f862d687474703a2f2f632e626f756c6465722e746573742f36363238333735363931333538383238382f30
2e63726c8101ff300a06082a8648ce3d040303036700306402302f0e42149d361abc9ea1f3ad3a303c85876bb0fdc17e
3959cce2c13c9d4746cb45d88348467db478318fa44714506b22023057903e972922bd33817a4fea5517534adc2d2bda
b6e69e41256bdb89c68d9ecfcb4bdcf78c349fb89d67cc237b9fbf33".

(** [tests/ed25519/ca.der] *)
Definition ed25519_ca_der : Input := hex "
308201c730820179a00302010202142976fdf22c6979666fae36f0830def7156f7b11b300506032b65703059310b3009
0603550406130241553113301106035504080c0a536f6d652d53746174653121301f060355040a0c18496e7465726e65
74205769646769747320507479204c74643112301006035504030c09524f4f542054455354301e170d31393031313330
36333531375a170d3436303533303036333531375a3059310b30090603550406130241553113301106035504080c0a53
6f6d652d53746174653121301f060355040a0c18496e7465726e6574205769646769747320507479204c746431123010
06035504030c09524f4f542054455354302a300506032b657003210058568ff01599d2668a984ae4b7a6723ed287e64d
d43f390591eaec8c3667d490a3533051301d0603551d0e041604145c24ed584e09a59aa265b796f26327933269de0d30
1f0603551d230418301680145c24ed584e09a59aa265b796f26327933269de0d300f0603551d130101ff040530030101
ff300506032b6570034100397c1ec3a0b1830ccb1176129667f0f7307ff083470fa13c37c11f6392693f0c79cf2b299a
8f4877d7144d3581c2b7056a69ff58d001812e8a006b75a8cbcf00".

(** [tests/ed25519/ee.der] *)
Definition ed25519_ee_der : Input := hex "
308201df30820191a00302010202021000300506032b65703059310b3009060355040613024155311330110603550408
0c0a536f6d652d53746174653121301f060355040a0c18496e7465726e6574205769646769747320507479204c746431
12301006035504030c09524f4f542054455354301e170d3139303131333037303335325a170d32313130303830373033
35325a305b310b30090603550406130241553113301106035504080c0a536f6d652d53746174653121301f060355040a
0c18496e7465726e6574205769646769747320507479204c74643114301206035504030c0b434c49454e542054455354
302a300506032b6570032100fe5a1e366c17275bf1581e3a0ee656298d9e1b3fd33f9646efbf046bc73d475ca37b3079
30090603551d1304023000302c06096086480186f842010d041f161d4f70656e53534c2047656e657261746564204365
727469666963617465301d0603551d0e041604144d9dc95d80ff8255d6381d3001bb42d980c310e2301f0603551d2304
18301680145c24ed584e09a59aa265b796f26327933269de0d300506032b6570034100bba42a1e597a1c044e9cd7b078
0280c21e65554c8b7493c2e255a8b8769a8c92f9c28c86b3e6352686aa862f60c924c96647e1d533b2c05a42fc8702fa
27a800".

(** [tests/misc/dns_names_and_wildcards.der] *)
Definition dns_names_and_wildcards_der : Input := hex "
308204b030820398a003020102020900e7c58896481562d8300d06092a864886f70d01010b05003045310b3009060355
040613024155311330110603550408130a536f6d652d53746174653121301f060355040a1318496e7465726e65742057
69646769747320507479204c7464301e170d3139303730343135313435345a170d3231303730333135313435345a3045
310b3009060355040613024155311330110603550408130a536f6d652d53746174653121301f060355040a1318496e74
65726e6574205769646769747320507479204c746430820122300d06092a864886f70d01010105000382010f00308201
0a0282010100d0116260226737b52c28b3e1313b62dcf87ef10c857a697d920ccf7465e1271228a965c0ab8f50dae3ed
53009742d8e56ccddd492fccbe76b13840e032f158ab78a899e6789940b4d86d6fc6b19accf952d103fe334004cd4e86
f6d453a7e5be97e1027cbf6db28881fc78fb2438bafefdcfc0135aad51a65276d930d3e1e469123fae6e4241aa1793b4
bc432337ff2e511ba185b4a88a22c23caa8789e3483556a366b1687b4507bac0d3d9ecdd60caec3cb6a759ce502c55eb
b421fce81bf484c73999378ca05a0badbef3d5706217aa27edac737356f6551b1947e92e5ecfca069de930dc92b4b4c0
2edd94b7b5a405f682d6a235e78a9fded89c02df2f2d0203010001a38201a13082019d3081e90603551d110481e13081
de82136163636f756e742e6e6574666c69782e636f6d820d2a2e6e6574666c69782e636f6d820a6e6574666c69782e63
61820b6e6574666c69782e636f6d82127369676e75702e6e6574666c69782e636f6d820e7777772e6e6574666c69782e
63618210777777312e6e6574666c69782e636f6d8210777777322e6e6574666c69782e636f6d8210777777332e6e6574
666c69782e636f6d8219646576656c6f702d73746167652e6e6574666c69782e636f6d821972656c656173652d737461
67652e6e6574666c69782e636f6d820f7777772e6e6574666c69782e636f6d300b0603551d0f0404030205a0301d0603
551d0e041604144d63a3d614c57521a864dd68c0ce691fc4408a3e30750603551d23046e306c80144d63a3d614c57521
a864dd68c0ce691fc4408a3ea149a4473045310b3009060355040613024155311330110603550408130a536f6d652d53
746174653121301f060355040a1318496e7465726e6574205769646769747320507479204c7464820900e7c588964815
62d8300c0603551d13040530030101ff300d06092a864886f70d01010b050003820101008f85965487c6ce230bfbe91a
a818776710fe8180928598efcd1accb9d66cf78a244b3a84d41fe61544af19b28a1f06032aa2ef0cf587484ef07a19c9
2ef1a5ecefae320b8c187d16bfc3e088062c0504966daefc86c12927225b7b322ff139c0d61819c4179422ba48f4fbe1
141db2ccf433fc748689d31b9560bbf563ebc88b7e157fa055ffa33b4435b4a6d38ec33ec62f118d424fde9469b05c0c
125bce5e69b8e3ed042f9b84df405e097e138dbd4927445fb3fc08a744a8223aa450ef85a2cb5bfc4ce543a82aacb179
ca6ecdaa8ae51e72f42f323d0ab64208c6f517eaf5bd351ffbdf2794f3954e408843f6d973868a3370e0df5fc5446152
49fd0425".

(** [tests/misc/invalid_subject_alternative_name.der] *)
Definition invalid_subject_alternative_name_der : Input := hex "
308206e8308205d0a00302010202104cbd642e234c692792a150b98c69e129300d06092a864886f70d01010b0500307e
310b3009060355040613025553311d301b060355040a131453796d616e74656320436f72706f726174696f6e311f301d
060355040b131653796d616e746563205472757374204e6574776f726b312f302d0603550403132653796d616e746563
20436c61737320332053656375726520536572766572204341202d204734301e170d3136313130383030303030305a17
0d3138313130323233353935395a307d310b30090603550406130255533113301106035504080c0a43616c69666f726e
69613112301006035504070c096c6f73206761746f7331163014060355040a0c0d4e6574666c69782c20496e632e3113
3011060355040b0c0a4f7065726174696f6e733118301606035504030c0f7777772e6e6574666c69782e636f6d308201
22300d06092a864886f70d01010105000382010f003082010a0282010100bf0a7b7dc3d65a50c18d230e9fcf4fad599a
50c9faf8fbcd660fc75e6176fffe285f899876cb829f4ee26d43a5b15e90a140fcd9530c9099b8d5b86ee9c1a5eba66e
7a6daa9026ce9b3365e511aa3356be5add1af2751a5ea565178e9bb03781d9e2f64bd104285ef959e505e414848dd4a4
09afaa16c722d0d931f17b9b05b4430c4e72f49a4e43e995942c3cb57ae143a9d62476827a0f901b9d46806f75cdf698
ccde2efd7797a912a3b2594bbc6b9d4bb1578c28eebbb30bd2620290067caab9a5410bfaefe59cbbcc5cfbc6114ec058
b52dfda286f22eb1e8c3355b98b4de5593a74887079425ebc28dbbeea713eda124030a0fb12b87a52e7d4b12807b0203
010001a38203613082035d3081ea0603551d110481e23081df82136163636f756e742e6e6574666c69782e636f6d820e
63612e6e6574666c69782e636f6d820a6e6574666c69782e6361820b6e6574666c69782e636f6d82127369676e75702e
6e6574666c69782e636f6d820e7777772e6e6574666c69782e63618210777777312e6e6574666c69782e636f6d821077
7777322e6e6574666c69782e636f6d8210777777332e6e6574666c69782e636f6d8219646576656c6f702d7374616765
2e6e6574666c69782e636f6d821972656c656173652d73746167652e6e6574666c69782e636f6d820f7777772e6e6574
666c69783a636f6d30090603551d1304023000300e0603551d0f0101ff0404030205a0301d0603551d25041630140608
2b0601050507030106082b0601050507030230610603551d20045a30583056060667810c010202304c302306082b0601
0505070201161768747470733a2f2f642e73796d63622e636f6d2f637073302506082b0601050507020230190c176874
7470733a2f2f642e73796d63622e636f6d2f727061301f0603551d230418301680145f60cf619055df8443148a602ab2
f57af44318ef302f06082b0601050507010104233021301f06082b060105050730018613687474703a2f2f73732e7379
6d63642e636f6d3082017d060a2b06010401d6790204020482016d048201690167007500ddeb1d2b7a0d4fa6208b81ad
8168707e2e8e9d01d55c888d3d11c4cdb6ecbecc000001584549e27c0000040300463044022060900c3cebf6ce465318
a5d4315d5a40e8fb7c9f45b9a59784b4e752a497860a02206a3e4805171800de2959b1b6cba2f1c9e8086a3825e53213
0564bb1ec52691cc00760068f698f81f6482be3a8ceeb9281d4cfc71515d6793d444d10a67acbb4f4ffbc40000015845
49e2ba0000040300473045022100fc076f10d85af507d392f52ffe63139b1b076560e2cb1896337302c57f346d990220
3727e20a00c5759eebac0bd0f8ccdcd976ccc5bdc904e891c9460460b198557c007600ee4bbdb775ce60bae142691fab
e19e66a30f7e5fb072d88300c47b897aa8fdcb000001584549e2c60000040300473045022064f17db0adafb30f1fea92
afe868f04866f8f1f540b561e478c95502a9d9d1d2022100ffcff8bc402e53c58c0ad2a0c2f39494a538793967ac7bc7
9dcfc1b5cb2ca431300d06092a864886f70d01010b05000382010100ab335c1a6e6e52d52ad042d40d6b98776d36a827
435c68b98bac1e1846593c94dedcafb427a1afb0869e479c579bdbaaeeb9507b079702feeaa7b0395ee70e030ea1c62f
e06c1b44fd3716dd0c68816d788e9c800d6f525c97633308faf131c3f4d2796e079d3999e7b68b09fea94cda059375f8
7f6b0326d299d3f88d9f0129829d2bbb8a5e0b6842a8efc522c0fcdac935e030289b1782efad3fdbb7d834a0817a663f
9d811d3cf3cf9f542a31f70078110e4a8a9c2b7215fbdad9c7f9cb84a76c8232b07eebdf53f20c78a0645722be721065
33d9c266ba29b9670f6acd515bf0c1cd06c069b29e08cc9dea91c9568d35c0c2a596c13ec6a85fd30cc9825a".

(** [tests/misc/mdoc_eku.ca.der] *)
Definition mdoc_eku_ca_der : Input := hex "
308201ce30820173a00302010202142ab4edd052b2582f4c6ad96186de70f4de5a3994300a06082a8648ce3d04030230
233114301206035504030c0b75746f7069612069616361310b3009060355040613025553301e170d3230313030313030
303030305a170d3239303932393030303030305a30233114301206035504030c0b75746f7069612069616361310b3009
0603550406130255533059301306072a8648ce3d020106082a8648ce3d030107034200042c3e103dbc07b25c5a770aee
dfa5d8bd15417e3e676142461a7875e3b4188a2221e6423599d1db19aaef66f923d394b61709549bcec2ea6ff60ec752
68f2e094a38184308181301e0603551d120417301581136578616d706c65406578616d706c652e636f6d301c0603551d
1f041530133011a00fa00d820b6578616d706c652e636f6d301d0603551d0e0416041454fa2383a04c28e0d930792261
c80c4881d2c00b300e0603551d0f0101ff04040302010630120603551d130101ff040830060101ff020100300a06082a
8648ce3d0403020349003046022100ec897f0b8ae51028288955031f860069659b75989af7129fa609c24299a5c78702
2100d088d8741f5d05b360ef6e85023e90df1d31dd1e6701a88efe9a7103021f986c".

(** [tests/misc/mdoc_eku.ee.der] *)
Definition mdoc_eku_ee_der : Input := hex "
308201ef30820195a00302010202143c4416eed784f3b413e48f56f075abfa6d87eb84300a06082a8648ce3d04030230
233114301206035504030c0b75746f7069612069616361310b3009060355040613025553301e170d3230313030313030
303030305a170d3231313030313030303030305a30213112301006035504030c0975746f706961206473310b30090603
550406130255533059301306072a8648ce3d020106082a8648ce3d03010703420004ace7ab7340e5d9648c5a72a9a6f5
6745c7aad436a03a43efea77b5fa7b88f0197d57d8983e1b37d3a539f4d588365e38cbbf5b94d68c547b5bc8731dcd2f
146ba381a83081a5301e0603551d120417301581136578616d706c65406578616d706c652e636f6d301c0603551d1f04
1530133011a00fa00d820b6578616d706c652e636f6d301d0603551d0e0416041414e29017a6c35621ffc7a686b7b72d
b06cd12351301f0603551d2304183016801454fa2383a04c28e0d930792261c80c4881d2c00b300e0603551d0f0101ff
04040302078030150603551d250101ff040b3009060728818c5d050102300a06082a8648ce3d04030203480030450221
0097717ab9016740c8d7bcdaa494a62c053bbdecce1383c1aca72ad08dbc04cbb202203bad859c13a63c6d1ad67d814d
43e2425caf90d422422c04a8ee0304c0d3a68d".

(** [tests/misc/no_subject_alternative_name.der] *)
Definition no_subject_alternative_name_der : Input := hex "
3082031930820201a003020102020900881455ed1c34fc2e300d06092a864886f70d01010b05003023310b3009060355
0406130246523114301206035504030c0b6578616d706c652e636f6d301e170d3138303732363133353933345a170d31
39303732363133353933345a3023310b30090603550406130246523114301206035504030c0b6578616d706c652e636f
6d30820122300d06092a864886f70d01010105000382010f003082010a0282010100b218d9f7e059be6aef3b9f8c87e4
89ea38fd4075a9246b71cfd46fd2ab3a8e21aaee160be3c0ce3a02e5de099ecc3a73d08257329a73eb2cced795b07bad
983ccdaafcf15eea31ca9b2c8a933e5e5ab78938b6d9d580a49fcaa6a857a7d61675d9e28240a1bc508e5ffdca5e47f6
d0c5f1fa863184d478ecb8cecd3e3aa6bebe24a0407e40493710ed838162b370795052239c5fb3fca9d58ef58370f35f
a6a1f3228d56f238aa182bd2deacb3ba9abb74b9cde2e17f7b4a3f97b61db24f55096368e5320dc71697c07c355d716c
675ae2fb0094b6187dab10dda1266557bc8b2026c2021a3719ad4a1453a3b3cd6fb4624e6b14436954cb91c71258a7a8
f46b0203010001a350304e301d0603551d0e04160414840972e66935e306f438e4028bdc3976465bdad4301f0603551d
23041830168014840972e66935e306f438e4028bdc3976465bdad4300c0603551d13040530030101ff300d06092a8648
86f70d01010b0500038201010037cb68b4f2bef0c437e65fd4047f8deeedf9944a34107702404ab5513e31a579666eb3
72805f14e7a0286b77153c831719562ad46794e2563c1a07954d84066f9b364e42d1d46b94ec503cbbef4a5bee9b0b73
6226dc81739febb4aa0e7e6b9bda21f744719cecf320a33889507bf862cfc8a85c9d94f330a584a12c08dea619d46144
c718f14ebc2f580c79b648194f67cf53991b5fd0d35381ce440e86cc5d337fb431d0f1722355f0a385af826da8c2419c
8e58e2d752b0cbc4087224f8057e00a43380004b42221f539ed5fd9e66667096b1789b13b9d75ea351c6e1b1f7ef80cd
9400e64c5ba9fa51d25b1757a19f43c9fed16495670026ff057d655d9f".

(** [tests/misc/serial_neg.der] *)
Definition serial_neg_der : Input := hex "
308205563082043ea0030201020210ee2b3debd421de14a862ac04f3ddc401300d06092a864886f70d01010505003081
f3310b3009060355040613024553313b3039060355040a13324167656e63696120436174616c616e6120646520436572
74696669636163696f20284e494620512d303830313137362d492931283026060355040b131f53657276656973205075
626c6963732064652043657274696669636163696f31353033060355040b132c56656765752068747470733a2f2f7777
772e636174636572742e6e65742f766572617272656c20286329303331353033060355040b132c4a6572617271756961
20456e7469746174732064652043657274696669636163696f20436174616c616e6573310f300d060355040313064543
2d414343301e170d3033303130373233303030305a170d3331303130373232353935395a3081f3310b30090603550406
13024553313b3039060355040a13324167656e63696120436174616c616e612064652043657274696669636163696f20
284e494620512d303830313137362d492931283026060355040b131f53657276656973205075626c6963732064652043
657274696669636163696f31353033060355040b132c56656765752068747470733a2f2f7777772e636174636572742e
6e65742f766572617272656c20286329303331353033060355040b132c4a657261727175696120456e74697461747320
64652043657274696669636163696f20436174616c616e6573310f300d0603550403130645432d41434330820122300d
06092a864886f70d01010105000382010f003082010a0282010100b322c74fe297429588478340f61d17f38373241e51
f3988ac392b8ff409005708760c900a9b5946519221517c2436c66449a0d043e396fa54b7aaa63b78a449dd963918466
e0280fba42e36e8ef714279369ee910ea35f0eb1eb66a2724f121386657a3edb4f07f4a70960da3a4299c7b27fb31695
1cc7f934b59485d5995ea048a07ee71765b8a275b81ef3e5427dafedf38a48645d821493d8c0e4ffb35072f276f6b35d
425079d0943e6b0c00bed86b0e4e2aec3ed2cc82a218653313779e9a5d1a13d8c3db3dc8977aee70eda7e67cdb71cf2d
9462df6dd6f538be3fa5850a19b8a8d809754270c4eaefcb0ec834a81222980cb81394b64becf0d090e7270203010001
a381e33081e0301d0603551d1104163014811265635f61636340636174636572742e6e6574300f0603551d130101ff04
0530030101ff300e0603551d0f0101ff040403020106301d0603551d0e04160414a0c38b44aa37a545bf97805ad1f178
a29be95d8d307f0603551d20047830763074060b2b06010401f5780103010a3065302c06082b06010505070201162068
747470733a2f2f7777772e636174636572742e6e65742f766572617272656c303506082b0601050507020230291a2756
656765752068747470733a2f2f7777772e636174636572742e6e65742f766572617272656c20300d06092a864886f70d
01010505000382010100a0485b8201f64d48b83955359c807a5399d55affb1713bcc3909945ed6daefbe015b5dd31ed8
fd7d4fcda041e03493bfcbe2869c379290561cdceb2905e5c49ec735df8a0ccdc52143e9aa88e535c01942635a025ea4
48183a856fdc9dbc3f9d9cc187b87a6108e9770b7f70ab7addd9972c641e85bfbc7496a1c37a12ec0c1a6e830c3ce872
469ffb48d55e97e6b1a1f8e4ef4625949c89db6938beec5c0e56c76551e5508888bf42d52b3de5f9ba9e2eb3caf47392
020bbe4c66eb20feb9cbb5997fe6b613faca4b4dd9ee5346063bc64ead935a817e6c2a4b6a05458cf221a43190876c65
9c9da560953a527ff5d1ab086ef3ee5bf9883d7eb86f6e03e442".

(** [tests/misc/serial_neg_ca.der] *)
Definition serial_neg_ca_der : Input := hex "
30820308308201f0a0030201020201ff300d06092a864886f70d01010b0500301d311b301906035504030c1264656d6f
2e73657269616c6e65672e636f6d301e170d3232313130323134353833345a170d3233313032343134353833345a301d
311b301906035504030c1264656d6f2e73657269616c6e65672e636f6d30820122300d06092a864886f70d0101010500
0382010f003082010a028201010098759ae074bbb10170f6c7b99fdd7e908798152e498d6812012046c414f1cec5d693
b68ea8e705e4f1c5a437aa349f832c1308bc47e905369ce04df18d33c57b784332c735aadbc15378037f9047b3134f77
2b2f30ec704085e7f5e113c2d55d7831c8ea848303bf389ffbf5189747e0f947c056052152da6a0cb253887714370dec
ebc7bd3774dd2961c8e79dae80d75c8e1577ad4d29d174e7ec423f301845d9f51924ca75e06795594090a8d8c509e5ee
383f902dcb5c0007cda31b35c2806359f5a0e242e354d78509ade45b5f7a3b1b3779cbefd70b9b20b096437a0339a0d4
6cf3949e28480d5b2e5d35e2068c9194994885f8cfb2c1e48fad08120f530203010001a3533051301d0603551d0e0416
0414a4889dc1edf37c3030d8ebec846d749d64d146e5301f0603551d23041830168014a4889dc1edf37c3030d8ebec84
6d749d64d146e5300f0603551d130101ff040530030101ff300d06092a864886f70d01010b05000382010100282604b2
8a1add8dbf3c0830d18d14aa3f31501206a7ee7371021be3ac1745a06b6275c3b5c1eef2c4d194dc46fa0eacc29e96b6
e39db9d4fedfb5f2c4de66181d344fd360e4cb68ba3fad11a7b10cbdc18ec07d3371ebb37d76ff53ea20a73057ba41c6
c8b695159006aec1c68645101037f70120a65390ecf264bcd9a1f6a3e6b65016c878acf78bdb9fa2c8752fc07d79e60b
97fdab49b6229f9d641aaffd1c577b35ae8f5225d7f2f64f28145833244b31e5902dcd6c93370bec57e50fba295ec6db
34aae6b4a7173cf51d9b0b1bf0520faa6a86d1ccaf5260859614fd1d1ac6543ec65ab361fd73071b7f76f12bfd1bdec5
36f69a18280bc9adeead97ea".

(** [tests/misc/serial_zero.der] *)
Definition serial_zero_der : Input := hex "
30820400308202e8a003020102020100300d06092a864886f70d01010505003063310b30090603550406130255533121
301f060355040a131854686520476f2044616464792047726f75702c20496e632e3131302f060355040b1328476f2044
6164647920436c61737320322043657274696669636174696f6e20417574686f72697479301e170d3034303632393137
303632305a170d3334303632393137303632305a3063310b30090603550406130255533121301f060355040a13185468
6520476f2044616464792047726f75702c20496e632e3131302f060355040b1328476f20446164647920436c61737320
322043657274696669636174696f6e20417574686f7269747930820120300d06092a864886f70d01010105000382010d
00308201080282010100de9dd7ea571849a15bebd75f4886eabeddffe4ef671cf46568b35771a05e77bbed9b49e97080
3d561863086fdaf2ccd03f7f0254225410d8b281d4c0753d4b7fc777c33e78ab1a03b5206b2f6a2bb1c5887ec4bb1eb0
c1d845276faa3758f78726d7d82df6a917b71f72364ea6173f659892db2a6e5da2fe88e00bde7fe58d15e1ebcb3ad5e2
12a2132dd88eaf5f123da0080508b65ca565380445991ea3606074c541a572621b62c51f6f5f1a42be025165a8ae2318
6afc7803a94d7f80c3faab5afca140a4ca1916feb2c8ef5e730dee77bd9af67998bcb10767a2150ddda058c6447b0a3e
62285fba41075358cf117e3874c5f8ffb569908f8474ea971baf020103a381c03081bd301d0603551d0e04160414d2c4
b0d291d44c1171b361cb3da1fedda86ad4e330818d0603551d230481853081828014d2c4b0d291d44c1171b361cb3da1
fedda86ad4e3a167a4653063310b30090603550406130255533121301f060355040a131854686520476f204461646479
2047726f75702c20496e632e3131302f060355040b1328476f20446164647920436c6173732032204365727469666963
6174696f6e20417574686f72697479820100300c0603551d13040530030101ff300d06092a864886f70d010105050003
82010100324bf3b2ca3e91fc12c6a1078c8e77a03306145c901e18f708a63d0a19f98780116e69e4961730ff34916372
38eecc1c01a31d9428a431f67ac454d7f6e5315803a2ccce62db944573b5bf45c924b5d58202ad2379698db8b64dcecf
4cca3323e81c88aa9d8b416e16c920e5899ecd3bda70f77e992620145425ab6e7385e69b219d0a6c820ea8f8c20cfa10
1e6c96ef870dc40f618badee832b95f88e92847239eb20ea83ed83cd976e08bceb4e26b6732be4d3f64cfe2671e26111
744aff571a870f75482ecf516917a002126195d5d140b2104ceec4ac1043a6a59e0ad595629a0dcf8882c5320ce42b9f
45e60d9f289cb1b92a5a57ad370faf1d7fdbbd9f".

(** [tests/netflix/ca.der] *)
Definition netflix_ca_der : Input := hex "
3082041a308203020211009b7e0649a33e62b9d5ee90487129ef57300d06092a864886f70d01010505003081ca310b30
0906035504061302555331173015060355040a130e566572695369676e2c20496e632e311f301d060355040b13165665
72695369676e205472757374204e6574776f726b313a3038060355040b1331286329203139393920566572695369676e
2c20496e632e202d20466f7220617574686f72697a656420757365206f6e6c79314530430603550403133c5665726953
69676e20436c6173732033205075626c6963205072696d6172792043657274696669636174696f6e20417574686f7269
7479202d204733301e170d3939313030313030303030305a170d3336303731363233353935395a3081ca310b30090603
5504061302555331173015060355040a130e566572695369676e2c20496e632e311f301d060355040b13165665726953
69676e205472757374204e6574776f726b313a3038060355040b1331286329203139393920566572695369676e2c2049
6e632e202d20466f7220617574686f72697a656420757365206f6e6c79314530430603550403133c566572695369676e
20436c6173732033205075626c6963205072696d6172792043657274696669636174696f6e20417574686f7269747920
2d20473330820122300d06092a864886f70d01010105000382010f003082010a0282010100cbba9c52fc781f1a1e6f1b
3773bdf8c96b9412304ff03647f5d0910af517c8a561c116404dfb8a6190e57620c111067dab2c6ea6f511418efa2dad
2a6159a467264cd0e8bc525b70200458d17ac9a469bc831764ad058bbcd058ce8d8cf5ebf042490b9d972767326ee1ae
93151c70bc204d2f18de9288e86c8557111ae97ee3261154a245965583ca3089e8dcd8a3ed2a803f7f7965573e152066
082f9593bfaa472fa84697f012e2fec20a2b51e676e6b746b7e20da6cca8c34c595589e6e8535c1cea9df062160ba7c9
5f0cf0dec276ceaff76af2fa41a6a23314c9e57a63d39e6237d585659e0ee65324741b5e1d12535bc72ce783493b15ae
8a68b957970203010001300d06092a864886f70d01010505000382010100111496c1ab9208f73f2fc9b2fee45a9f64de
db214f869934763657ddd0152fc5ad7f151f3762733ed4e75fce1703db35fa2bdbae60095f1e5f8f6ebb0b3dea5a131e
0c606fb5c0b523222e070bcba974cb47bb1dc1d7a56bcc2fd242fd49dda789cf53bada005a28bf82dff8ba131d508682
fd8e308f2946b01e3d35da386216184aade6b6516cdeaf62eb01d01e24fe7a8f121a1268b8fb66991414455caee7ae69
17812b5a37c95e2af4c6e2a15c549ba65400cff0f1c1c798301a3b3616dba36eeafdadb2c2daef0247138ac0f1b331ad
4f1ce14f9caf0f0c9df7780dd8f4355680dab76d178f9d1e8164e1fec545baad6bb90a7a4e4f4b84ee4bf17ddd11".

(** [tests/signatures/ecdsa_p256.ee.der] *)
Definition signatures_ecdsa_p256_ee_der : Input := hex "
308202083081f1a0030201020214689a9e6596fba53d026f59e58f3e8167f9ba49ce300d06092a864886f70d01010b05
00301c311a3018060355040a0c1165636473615f7032353620697373756572301e170d3836313232333031353931315a
170d3836313232333032303031315a301a31183016060355040a0c0f65636473615f7032353620746573743059301306
072a8648ce3d020106082a8648ce3d030107034200042a061c85f8fd89e5bbac543e8305f744f1428783acb9bc2a0d3d
675c64e9f3183adba2f9368c5038e5167aa41b470efda780a6e69122c8441460010c561a6c73a310300e300c0603551d
130101ff04023000300d06092a864886f70d01010b050003820101006559f278bf21f27bfeced653f50482df05bd9c5e
ceca7c2ef0960252a9a02a0327f894e71f99862df0fad183c6a57806f2f62b78a8a6afacafbea3b705c70a5bdc192a4a
599c132d83bd5ccb860b452b8a7afa04821a446ed76846b18ba675773389138fd498a79c6c5749df0ed1bc3eb2a140a2
078aff17c44cb810a8717673ec659a2ce497a442499ba8afa9859f8e142daad0dab02f5913956543e77158bdf4979661
7aa1f174b0987fd17437a21ac320f452841299d68cf5619b14679461f471760f14eb9015cf7861552e53f07e49b0c8a3
0d3036e120ae3b7de9a8b93b823b9fce25f164fcc116a3380a799f37692d8b931ea382fcddd6e9eb5de35e5a".

(** [tests/signatures/ecdsa_p384.ee.der] *)
Definition signatures_ecdsa_p384_ee_der : Input := hex "
308202263082010ea00302010202147188af3bc164c96f7f2f1cb90fff9ac9cc547589300d06092a864886f70d01010b
0500301c311a3018060355040a0c1165636473615f7033383420697373756572301e170d383631323233303135393131
5a170d3836313232333032303031315a301a31183016060355040a0c0f65636473615f70333834207465737430763010
06072a8648ce3d020106052b810400220362000464b290016221cdb918be8955fbbfa9d093cedc772b7156225bbc1e94
21ffbeb921cfbd6c22432bd639eb8234a21f76a9f283717f5346fddfcfcbf2119ddfeae07becc70995434c66b70161dd
8394bdf1ff91856a6470ee6e7799d7c2ed384831a310300e300c0603551d130101ff04023000300d06092a864886f70d
01010b0500038201010088960958c05f6c478d5c6c8fa845afafded17ba69f6e810f0cee13811c5228b3af95426ed7d2
34c0b9a1adb6717d617aa08ae3433da0ded6efd8229d7b485722cf1e742b975ad51e0cf79cded759505f00b4efb296a3
4bc1d969fb8742d0f47f18cc251a278aff4da079028b5d5e14d85fd1921994c9f4524f6eb49f84a14613acd8eab619e4
854d0bd6c16ddd162e73fc9f9da9ea742df1ea19423e69fece6778b1f2a731fd8cc6ec9f219625b0da2e7a54c301f984
690e7264c229e3864ef0af03be1978639cde2fc0f07a5979399ebde1698d0718b9af1277e7f06b04fd83561050fa18cc
ab621f20746bdd81d4d4a6c9eeb4000d0dfbfd55f0942cfb8df9".

(** [tests/signatures/ed25519.ee.der] *)
Definition signatures_ed25519_ee_der : Input := hex "
308201d33081bca00302010202143946046241742ffc5e5d675f4311e8ec1e36f2a2300d06092a864886f70d01010b05
00301931173015060355040a0c0e6564323535313920697373756572301e170d3836313232333031353931315a170d38
36313232333032303031315a301731153013060355040a0c0c656432353531392074657374302a300506032b65700321
00d8f82c351609b77f267dc0e63969f7ca301b4a3479650f560464827f0fafce2aa310300e300c0603551d130101ff04
023000300d06092a864886f70d01010b05000382010100655e2c47c2e8222872911b1c7917c749a96941137ccc641f9b
0be2141f08fe41e8f4997ac68c2953584de7a44090d4f90f8cac285e0c9e4c34ae6b77140a9b12d6b6c064fb25388c08
a580e65e9fe718d9cffadf49dd715900007dd45364ad8d3507450c3652c03234cbe16f492d64c6d0a68bce5a6baa8f4e
e44df5fa312d5d66b85f4f3ca588f93f93110dc6c7809efbf67bf25ef01deb12af94276e94bfd1e313b7e5fe29468c74
6111cdf44cde5481cb89a6b53c5127f4b61542df03651056293b9c03fa5ac780a011c1ee964ae4783786be1a2ad2d843
7a4aa3ebd445d85da5bbc50161c8e69295b34a4f6002755f1aeab5c8a975d758bb5c31e0752bec".

(** [tests/signatures/rsa_2048.ee.der] *)
Definition signatures_rsa_2048_ee_der : Input := hex "
308202d0308201b8a00302010202144ae54b35b2398bbec4a1b31ee88e11d35dc2b5eb300d06092a864886f70d01010b
0500301a31183016060355040a0c0f7273615f3230343820697373756572301e170d3836313232333031353931315a17
0d3836313232333032303031315a301831163014060355040a0c0d7273615f32303438207465737430820122300d0609
2a864886f70d01010105000382010f003082010a0282010100b1708a7f710660098bc360390026547a85d4f6ae77d40f
0f93d61e43bdc524bc02b534d2462de8141b2bd024fd44cb5524a233f682d3c3b977d068c8739db277b543cf6d5a5005
0c0bca183de8440bfc4a8abb03ef150eaecd05a69f61cee8661f0628784661bfbdba309f5b199234047c260091dfd4f5
f7fead8e0062ac03d1731b9f8299e2984d76b9709f6f7bdd9648bc1e132fb8b3c17b097896284686701f18023be51ee2
83fcf99be2b67201cd3a4293575bbb59eebdefc89f962de831022546ebfd075b65b61545131967678c0555f53594a72b
0cee30e299a28971566a18877d06e516510a8a3e4db67ff776ab6dc7f7640d5a9a54801c5bb66349710203010001a310
300e300c0603551d130101ff04023000300d06092a864886f70d01010b050003820101002b118f0933be6a4c995729b7
4465e82d6be4276c9e594a137342e1918f30ae13552359ac104373dff07ff7196c4faf6a7a36c914907caf672d036f33
0dfb3d07096b3346d9722aad981776785ba83f5e7da11d071b231212d6eed3a8055127854beed30c803a85815f0c2d93
5f55df331046869710f83a89043d1458a5249a7b32d7a214d7effd28abbdb8b7feee7387a014344ae5a8a11ec827ee1c
32986040db13f2ac1dcdb8d29406aa7d17712ebbe677e385d657e5e81335560d8d939716048e0c64ed1b62d715e6dfd6
01a34ac1f4d6b03387f0d11bc946785ab3498991babf717622d89efe650df96af0061987aede12257f1b51bc7ea52b4f
d4615fb8".

(** [tests/signatures/rsa_3072.ee.der] *)
Definition signatures_rsa_3072_ee_der : Input := hex "
3082035030820238a003020102021454541beba4cb5c53b67399451856fb9df41a88b5300d06092a864886f70d01010b
0500301a31183016060355040a0c0f7273615f3330373220697373756572301e170d3836313232333031353931315a17
0d3836313232333032303031315a301831163014060355040a0c0d7273615f333037322074657374308201a2300d0609
2a864886f70d01010105000382018f003082018a0282018100f9b4cbe0563eb2ff1fe98810bdbeb9e3fa2b2b9b55cc34
3771751ea5189c3218c69c4c7d8a28649673b56eda7817d9b078a6a46a3b72c9f66a1a89605e693d2d2a27a3cb9706bc
aa29736c371fbf57c4309a9bb1c367ac6156acf180dd52f8d6452ee98a1b29ac90dfa91efed9d962d264c53b21ff784a
c971260196bae4c1ab0f2acad63d345a16439b53c3787d3718c42d0caf82fffeef2831faa5e001082e87537ab0fe94db
a1bb205ebd84392bd67450d7e8df29b8b37f8a1a71d979a298d5fe07ac162410fe3aa74f26ce84d33c02fcd17a4ba437
dc7a78e79fc573ff860aab89ce66dd11410155e3c9524b5c5ae0ed3f8c919441d9aa807d846efb852507d23d103a294b
a0eb206eaa1dd6b574eeb484af99de76d3aab4ef766f5c6f98d9fa90585bcc3e70c3b2a4b0d8a1eeaf4ac423ef54c5dd
98345ae7fcf9285a73cb98f5b6f3bd7528c377d9969034981c2dc23c7d6caa09957b468e3ad25c77c38d255829489a84
97e9ddf5636b4b520a5609c61dce1db154dcc70adc53baf17b0203010001a310300e300c0603551d130101ff04023000
300d06092a864886f70d01010b050003820101009376ecac65837e7e57b28d2472e04111ca84a0d53781a36434ac5b50
cd7601fdc53599c4064aed74233c8ccfaf960e9dd6dc7a79dbc3d7944f5ed8e5087003aae06eabc4222e42710237a941
dd49ec055619fc98c7bd76aacf8340062d24203637eecb313f8dde2f6cc61f363dc9da4ce9b504e2be1b3ed3265cd155
0097359e8e0f57e1a2026360c89859e4bf480a52a5c02bc79ab81fc77034b9105c86eef5d49a560d8924d5d561083737
0259b402aa4e95b6e139bbe7fa8e6b40a383027983ff92235aef94de647e473aa9a5924139212c0ef5293fb70cf7a805
c3028e6414b35902a11607ab5509c9b47bd66c1427f41e5f89d0a5c0e417c3875222ed75".

(** [tests/signatures/rsa_4096.ee.der] *)
Definition signatures_rsa_4096_ee_der : Input := hex "
308203d0308202b8a003020102021475afeee71de96407163ec2c5d1da41a385a003f2300d06092a864886f70d01010b
0500301a31183016060355040a0c0f7273615f3430393620697373756572301e170d3836313232333031353931315a17
0d3836313232333032303031315a301831163014060355040a0c0d7273615f34303936207465737430820222300d0609
2a864886f70d01010105000382020f003082020a0282020100bbc79cc2b5e6d60a7111f8709f3706b472ef8c3cf01ec0
c3a0f7f107fa63f6eb4b853dd5f7997a6487f53d0f9fdbb193cfdb15c703cefbe4a547fcfd0f1d51dc83fdd21217915c
ac85f5b098b9487165772397f5f73ffbfd7d42b9a116d299271f132d85352045940d02b548475b5c116aeacee44ed540
24e2a411983966c51ae8fbc13dd07accdd5506fff4598970b37fa7a10bc2fa20a856617c66f09fec3af91eb8fe7e031c
862b45819ca6510cae6179a85ba8d91cd8c9b72c287ba943f144933a6222292908abc28c5d5bb32fd61aabc56ffbdf36
6a0b4f6ce31877eb46870ccca4698a7a785bb15190128409ddadb197b435705e1413763bec3ba29813c0a6ebd00a4bc3
0182ba32317f384b474258d33fdaf789ccc2b56e2bd1b22d11602228830ddce6ff20d1f50f671f4be0c27858328f288e
2520b4e08e62753681f0f699062a058490ea651b48f47580fd196c3462c879155218fa5446ca7ffbd1a54952ed29524a
d4d93d5a1e66857436da25576f6c8e401adf30b317d0a526fba7dfb9a3af530bf1b37b7d04b0284f413ecd1de2260a37
7edb3f81fc7183293199fc57dd18ef6b058f15a885b7a2b67f97214661a639613c84fa4f556199ef5cfedcb84feb5e91
071b10a373770b139c7b814c14979e36e3f29dd62992291aecc18da43cea199c9d0248df1ddfa27a8640b7719a4b0dce
98bf44491d8ac95e5f0203010001a310300e300c0603551d130101ff04023000300d06092a864886f70d01010b050003
820101007daf04f6b13e8ad8ea0e8f69ef4233cbaedd76f2904a5ee6ee7f64f9e423ee82f79bc91eb2de5767a620c515
66372b378855d368609486617e26231ac1f607427e6e120870cf9498ceba1bd9655a425b56cb43f2bee0301c8c38e623
421f8ef9026e33a81f5db272f06162997bdf07fc88eb4ab743ae68b1af5d5a85a674762bb8e8871d2536ac4775a2c1b1
28f90def2194eb34f3565d76877f3c742a2a5bde489725bb504fed340971b72b3085e3eaa4662e7090052a11a8f994f3
6e6a6fe71db703e80fd06c34963f4c69c31f03bd7f0c67dcd9e8877052ec3eb1da1520a671c62138cf00710ceb9c1bad
31e47e88975916f55a489c2b042c1edd9df6096b".

(** [tests/tls_server_certs/additional_dns_labels.ca.der] *)
Definition additional_dns_labels_ca_der : Input := hex "
3082033b30820223a003020102021423ba531cb3dc7cbc11c724b792ee98587bd92dd5300d06092a864886f70d01010b
0500303d311b301906035504030c126973737565722e6578616d706c652e636f6d311e301c060355040a0c1561646469
74696f6e616c5f646e735f6c6162656c73301e170d3836313232333031353931315a170d383631323233303230303131
5a303d311b301906035504030c126973737565722e6578616d706c652e636f6d311e301c060355040a0c156164646974
696f6e616c5f646e735f6c6162656c7330820122300d06092a864886f70d01010105000382010f003082010a02820101
00c7a5ff5f593c59050ca55e09c6b15e33272686876b3ff8e4eec835a75a6477a115cf6bd0a658626e24c74c9a3d5948
50cc035a3934c5b92aac53bdd15d776093dfd9048f026e2c7ce3a1b647c0a418956c95e0c83412d1c8ce6ef809fee28c
fa257e9bbe1ce382a1578bcea0c7f9c00aac75c7c8b2cfeb3a11b0b82a51b5b0819cb47e64381107c268c7fefa78f6ab
2cd8d8c89f918b60462e1f4c45df51c0bf803b4f488b6bb5e952fa3dc096cb95645d70a93ac7d8ebf311169cc8c595fd
bf13d0424c833bfa0a3eaa2e8ad991c2cdf218ab888fe4d67a30914474471a435ca4d7bd0d3c3eb16044d0a5dae52533
68e9697154bbca3f502beb267ecb609bc90203010001a3333031300f0603551d130101ff040530030101ff301e060355
1d1e0101ff04143012a010300e820c2e6578616d706c652e636f6d300d06092a864886f70d01010b05000382010100aa
c1e9d9616eba960911d33aaec008bb7fe67b0d6be9bbf4a89d873a3f58af0acf74771bfa59fe69f22375190fe98d1468
51d2dc67eb8aa9064c8abb74ee3214cf47482250c10b31eeeef9c0946de39911bf115dda43eb64758f2013cae529c328
d568df3ad09b2e74403fc94e9ed827160c6fb8ba6c80c63b8b2558f832cd1bef2e57b4c27cf940c1b677a392706bbae6
4ceeeb11670d640d27bce0fbc63aac51cc3376d7f3d005511055b31fb58464259d1938b1abf46aa318d882b528a85d16
fc7743214d381e374029ac2dc38d6b6558f69b87e7ee3d19005e17d32ffa2ef509079a409d3c4269935e4c54329bec07
0601f4410e285eba83358cdef81722".

(** [tests/tls_server_certs/additional_dns_labels.ee.der] *)
Definition additional_dns_labels_ee_der : Input := hex "
3082034a30820232a0030201020214683e749b9dc792f1d1bbb6f2c26a1ad8d720f499300d06092a864886f70d01010b
0500303d311b301906035504030c126973737565722e6578616d706c652e636f6d311e301c060355040a0c1561646469
74696f6e616c5f646e735f6c6162656c73301e170d3836313232333031353931315a170d383631323233303230303131
5a303e311c301a06035504030c137375626a6563742e6578616d706c652e636f6d311e301c060355040a0c1561646469
74696f6e616c5f646e735f6c6162656c7330820122300d06092a864886f70d01010105000382010f003082010a028201
0100a158343f5ab33be27e8a28335eae535a7a67141c9278086e58dd600cede8fb40b9ef5d6f6e936b9dd3c2453b9abf
c90e176fd6efab388cfe7ed679dc7c04861bc99e4d07c40291216122df4dc296df1397fe0f4bf3b677566d2dd63c5e32
bd53503bb2bd4213a1204ab6dca8654c0d7da5b2fc82fe7dfca086538c170db52b4f9b66cbc5ec2f9ef191b4821f8b85
2437c3b88bad3585a5a4aa455033a6921e6c97708325a9244d425eb6cb14eee07f23f53507c9a4cfeed45a246b422192
5a54199ec2a28de7c9275493dbd26f3f3988a6de2ddc3b50d6488fc02b90e99ab8e365b13ca73bfb792ad5a8f8c78d2e
abac3a677faeace289b7e4749ed7bfec3e330203010001a341303f302f0603551d11042830268211686f7374312e6578
616d706c652e636f6d8211686f7374322e6578616d706c652e636f6d300c0603551d130101ff04023000300d06092a86
4886f70d01010b050003820101008a6e3cc1919d3bbd2b9fdf8eb6f045bb5fc297d14a4a641cce5a0969738afc51ddd3
7e730ed26a39b92e40d8bad3a7b67c1dc5268e23bf95c2b88ca3fc1d68d4ea52b7b58b5bfd56c5ec1de1a2c884769dab
fae0f24ea70362931a500726193eb945d1227e8e7160c8076bb744685e9fffa60e8d6fa7a096ba43b544f4043f1bde7f
4b68c9581110e442b5dab249991cb6f1cbfa7e2ae86e80b9e70e1956619c977aff07b165e6bf73527dab454049dbcfc1
4c29d7fb9918707c0bdb1f00132fd27573e9895b33621627e3d830754ea343da993366b7027e8a3a4c7f888a7827ec41
a660286a63b3af2437d0b9a04788e71f660ade66e2248d7e6dd4e009cdde".

(** [tests/tls_server_certs/allow_dns_san.ca.der] *)
Definition allow_dns_san_ca_der : Input := hex "
308203323082021aa0030201020214550e96517596359bafdc40e1478ab5337d28864c300d06092a864886f70d01010b
05003035311b301906035504030c126973737565722e6578616d706c652e636f6d31163014060355040a0c0d616c6c6f
775f646e735f73616e301e170d3836313232333031353931315a170d3836313232333032303031315a3035311b301906
035504030c126973737565722e6578616d706c652e636f6d31163014060355040a0c0d616c6c6f775f646e735f73616e
30820122300d06092a864886f70d01010105000382010f003082010a0282010100c7a5ff5f593c59050ca55e09c6b15e
33272686876b3ff8e4eec835a75a6477a115cf6bd0a658626e24c74c9a3d594850cc035a3934c5b92aac53bdd15d7760
93dfd9048f026e2c7ce3a1b647c0a418956c95e0c83412d1c8ce6ef809fee28cfa257e9bbe1ce382a1578bcea0c7f9c0
0aac75c7c8b2cfeb3a11b0b82a51b5b0819cb47e64381107c268c7fefa78f6ab2cd8d8c89f918b60462e1f4c45df51c0
bf803b4f488b6bb5e952fa3dc096cb95645d70a93ac7d8ebf311169cc8c595fdbf13d0424c833bfa0a3eaa2e8ad991c2
cdf218ab888fe4d67a30914474471a435ca4d7bd0d3c3eb16044d0a5dae5253368e9697154bbca3f502beb267ecb609b
c90203010001a33a3038300f0603551d130101ff040530030101ff30250603551d1e0101ff041b3019a0173015821361
6c6c6f7765642e6578616d706c652e636f6d300d06092a864886f70d01010b050003820101006d827ce14ae208099344
df62037cac810bcb6d252adf505031f7660bab13bbee620943c851fd94fd49bf02c313f738ffae0e94642fda6321ddc9
05dcb64604da62414c1154594e4fc5c9633114b85450cd1e8305a251913c01ad98fcaae84b5327521d2f3018838400a4
67b77bb49d78861767ea4e88cd015b44b257bd494f21ae5582c80d9589a4c97676c262ccd22bfd1425dc1d0f1b78ee5e
b5789d6750eaf887b2a01e0e5cb18fafb99a2a9b4e17e613a3a3955f1ebb2c63b1e255fe9ddaf601644050163bed0a26
6f50840b8f5cf6f68e325aaa86df0178188ab9dccd2dbab7b949850618c4795f6b859d155751c7d488f3324121e228d9
368402f9d17a".

(** [tests/tls_server_certs/allow_dns_san.ee.der] *)
Definition allow_dns_san_ee_der : Input := hex "
3082030b308201f3a0030201020214151a56aa782605860da8237c3f036971b094fc0d300d06092a864886f70d01010b
05003035311b301906035504030c126973737565722e6578616d706c652e636f6d31163014060355040a0c0d616c6c6f
775f646e735f73616e301e170d3836313232333031353931315a170d3836313232333032303031315a30183116301406
0355040a0c0d616c6c6f775f646e735f73616e30820122300d06092a864886f70d01010105000382010f003082010a02
82010100e3be9d0fa51dfbcb854ea72ecdb1595061946fc0d2b818450e9603302468a35d3a358b00c2f2ddba0ebe6f5a
63b4c1299a461a3d88e8ad25f262bfe69d8911681e8509fe9bbdff0372e564c4c99fc3e739136923b8fc97a9ab2443f2
6b6b8a3dd0ebffb8f2110776ef1f82596d7141d5652f330892c48fcefe0d69b7cd72881de5833cc27b75b285481e95c0
a62dc91cd00d0c10175e60ca5644fec26ae8ea65a22e2786b2cf23195cd816764abcb781868e96750ad2fe0dc5faf169
ae7867c26509503835c6608e0b331972fd0e397e8fde82d83cea225eaec3bcf1a260ac0a1b00eb6329606c248d608c98
0ca64b15228cc4774a330414ad16abbf3fc72c690203010001a330302e301e0603551d11041730158213616c6c6f7765
642e6578616d706c652e636f6d300c0603551d130101ff04023000300d06092a864886f70d01010b0500038201010012
121d3d50ae86969aff7af307ba0891d5b8a8b285abb6bb4244872e35daac32eb15dce90ccedd2f4962bde31ee3900005
60040bee030eaea956249b71d6d1726111f2c87ef8dc4cc46bdaed36151893dd3cee5a834e2945365af96944908625fc
c9e0cab8c4cbf9dd2528e6e8495ebfd3b57f1c51181bd45001b3b679327f527e8a2e178ab0bf0dfc09d19990e8a6f3e3
ea02ea8f8aecd9985d6b5f94769a6888bbc9b327152cedf4c3983445b7d924107979de4a11607d74d675347617dd27b7
a9df6fdb4e0e3ad5e317c69fc82e623cf576364e86466e68a76c5844985a5f0d1423dfc40e59c6b4caf53dd24fb11e45
9287e6325946bfc6d897837203bddc".

(** [tests/tls_server_certs/allow_dns_san_and_disallow_subject_common_name.ca.der] *)
Definition allow_dns_san_and_disallow_subject_common_name_ca_der : Input := hex "
308203973082027fa00302010202144bca88379a19704fb614e6de4dd2360b4a6fe5b7300d06092a864886f70d01010b
05003056311b301906035504030c126973737565722e6578616d706c652e636f6d31373035060355040a0c2e616c6c6f
775f646e735f73616e5f616e645f646973616c6c6f775f7375626a6563745f636f6d6d6f6e5f6e616d65301e170d3836
313232333031353931315a170d3836313232333032303031315a3056311b301906035504030c126973737565722e6578
616d706c652e636f6d31373035060355040a0c2e616c6c6f775f646e735f73616e5f616e645f646973616c6c6f775f73
75626a6563745f636f6d6d6f6e5f6e616d6530820122300d06092a864886f70d01010105000382010f003082010a0282
010100c7a5ff5f593c59050ca55e09c6b15e33272686876b3ff8e4eec835a75a6477a115cf6bd0a658626e24c74c9a3d
594850cc035a3934c5b92aac53bdd15d776093dfd9048f026e2c7ce3a1b647c0a418956c95e0c83412d1c8ce6ef809fe
e28cfa257e9bbe1ce382a1578bcea0c7f9c00aac75c7c8b2cfeb3a11b0b82a51b5b0819cb47e64381107c268c7fefa78
f6ab2cd8d8c89f918b60462e1f4c45df51c0bf803b4f488b6bb5e952fa3dc096cb95645d70a93ac7d8ebf311169cc8c5
95fdbf13d0424c833bfa0a3eaa2e8ad991c2cdf218ab888fe4d67a30914474471a435ca4d7bd0d3c3eb16044d0a5dae5
253368e9697154bbca3f502beb267ecb609bc90203010001a35d305b300f0603551d130101ff040530030101ff304806
03551d1e0101ff043e303ca01b30198217616c6c6f7765642d73616e2e6578616d706c652e636f6da11d301b82196469
73616c6c6f7765642d636e2e6578616d706c652e636f6d300d06092a864886f70d01010b0500038201010050449407de
b8117598f716e67b061d779061896b12a05f34c751402b8fff2c78e87133c10c2f0e7b56e9242e5bb087b846602e62a7
c36e02fe68084e819d13e2589d5da1081e8d2fbc926ab19bb3ce171e1be0b5d0120d7251bea76ff6d8d6dba005969639
56adae97c8af6b25f0fb092e5e48eafa3cebb2f46395503b006926fb42feb96dd910e35b1ad9ccfcfc498f0d2ee4768e
92c71abe488e30b71a1ecc2a4150175636085ba3f88a59ead7978e51ca917fcb4ea3032ef3f7b9c9573fc6791786093a
bfd07a57268589956128bdcef1e7cbe3ea50a32d6a7914ca1b4809ce6fa249ac2c9fd0303ecbb0525b7753ee0354eea4
914d830744e1e500797a25".

(** [tests/tls_server_certs/allow_dns_san_and_disallow_subject_common_name.ee.der] *)
Definition allow_dns_san_and_disallow_subject_common_name_ee_der : Input := hex "
308203753082025da00302010202146581415c08f94049ed289939ff7c2ee6e0bea980300d06092a864886f70d01010b
05003056311b301906035504030c126973737565722e6578616d706c652e636f6d31373035060355040a0c2e616c6c6f
775f646e735f73616e5f616e645f646973616c6c6f775f7375626a6563745f636f6d6d6f6e5f6e616d65301e170d3836
313232333031353931315a170d3836313232333032303031315a305d3122302006035504030c19646973616c6c6f7765
642d636e2e6578616d706c652e636f6d31373035060355040a0c2e616c6c6f775f646e735f73616e5f616e645f646973
616c6c6f775f7375626a6563745f636f6d6d6f6e5f6e616d6530820122300d06092a864886f70d01010105000382010f
003082010a0282010100c2d9f3898308229a2096d9cde3e67febb9c47b00878b287868ad52b321bd4cd4827579efc51e
f7103467a9f6e8d772d44e1444471d18fe3406bdde3caa919609677d87f3257d0817043683dce8290d45f26eecd278b2
be9e09a6b5fe1b1b6ecb2c53b2c047d4736bdd3cdb41da80519efeb887d3186bd5e0a45cbd9eeb294ee98bf8ab1d9586
07942a3042d07e44573859fa8449cd7a83ef9d349f05a7d931b24a387c1ff901650a5dbb5f7743517f5a3ddb50a932db
247e444fd06794a8604fa3e0e4389af0dd06ddea758ed51b08beecc421e091e417f377e625dd3f2c4e6a6c3805dffee4
b9024274ec413015fd16bd91cc3a8bddaddefc1defee2d30a07d0203010001a334303230220603551d11041b30198217
616c6c6f7765642d73616e2e6578616d706c652e636f6d300c0603551d130101ff04023000300d06092a864886f70d01
010b05000382010100735f9b62a27018a30cb42cee5dd6f2d0d059a94a2d2ce125b945ea536d7afd3fae813ac3c37bcf
41697b750f0b135dc26b5e0298aba7d99ef05adf46d6f8864d8c82cfc552392011faa10a6a90295cbb272cd1ec83a64a
567ca4a21d42bd5c2e1d7aa0fbeafa107d2d8d48bb02efb59e5a924500bd0a2f33af70f84a616db04f54ad6574ba14b1
1bd3db2f596a68177115560095fc87d80e2ff3c140efe31e655aa38da3763a6240c7c784ee8d5855668eff98581487bb
984bb6ba1eac182873954bcd0386f60575d4d66b4f20f2820b164a2d018667024b060c1229605624aade20e0105f1535
d8f36b507308421bba57a6cb0d42a866f3791a5214fe64ce7d".

(** [tests/tls_server_certs/allow_dns_san_and_subject_common_name.ca.der] *)
Definition allow_dns_san_and_subject_common_name_ca_der : Input := hex "
3082038030820268a003020102021409c4e529178c5313145cbc47350d7df3353f2041300d06092a864886f70d01010b
0500304d311b301906035504030c126973737565722e6578616d706c652e636f6d312e302c060355040a0c25616c6c6f
775f646e735f73616e5f616e645f7375626a6563745f636f6d6d6f6e5f6e616d65301e170d3836313232333031353931
315a170d3836313232333032303031315a304d311b301906035504030c126973737565722e6578616d706c652e636f6d
312e302c060355040a0c25616c6c6f775f646e735f73616e5f616e645f7375626a6563745f636f6d6d6f6e5f6e616d65
30820122300d06092a864886f70d01010105000382010f003082010a0282010100c7a5ff5f593c59050ca55e09c6b15e
33272686876b3ff8e4eec835a75a6477a115cf6bd0a658626e24c74c9a3d594850cc035a3934c5b92aac53bdd15d7760
93dfd9048f026e2c7ce3a1b647c0a418956c95e0c83412d1c8ce6ef809fee28cfa257e9bbe1ce382a1578bcea0c7f9c0
0aac75c7c8b2cfeb3a11b0b82a51b5b0819cb47e64381107c268c7fefa78f6ab2cd8d8c89f918b60462e1f4c45df51c0
bf803b4f488b6bb5e952fa3dc096cb95645d70a93ac7d8ebf311169cc8c595fdbf13d0424c833bfa0a3eaa2e8ad991c2
cdf218ab888fe4d67a30914474471a435ca4d7bd0d3c3eb16044d0a5dae5253368e9697154bbca3f502beb267ecb609b
c90203010001a3583056300f0603551d130101ff040530030101ff30430603551d1e0101ff04393037a0353019821761
6c6c6f7765642d73616e2e6578616d706c652e636f6d30188216616c6c6f7765642d636e2e6578616d706c652e636f6d
300d06092a864886f70d01010b05000382010100b465c62aa326d380e3fa5bf28fe75f94af73e6dc1902ab253599f8a6
08b9b0377f5ae4bf19816a684996266b3e18305b0806795168fe7448dfff62ef9dbf1c5fc3e37ee85b9ef07c04cd7fff
7732d26e65b2839b453c6a530c12da116916aec83c0f3e99c1f8063a91c6571511d862fb19b2cc9698a0bf68a6b40f44
696a11189981cae8a046d6b2f4cf0b7dbf3d133407c29baa9ab1029b325e1d8c277bd0998f2918d54248bf159d3f8a37
ea836154399d9d9644d12d3ddffe8dd949187f163b47ae501f72fc1a6bf7990913c8ea524c47239912483811218df06c
90733e3e7ec610347645da4f372781d9deaf6c5336a7ecdd8cc8c109cc31daf65ed8962b".

(** [tests/tls_server_certs/allow_dns_san_and_subject_common_name.ee.der] *)
Definition allow_dns_san_and_subject_common_name_ee_der : Input := hex "
3082036030820248a003020102021425cbc3204ab8069adc14c310e2ef4a6c5f7bffd1300d06092a864886f70d01010b
0500304d311b301906035504030c126973737565722e6578616d706c652e636f6d312e302c060355040a0c25616c6c6f
775f646e735f73616e5f616e645f7375626a6563745f636f6d6d6f6e5f6e616d65301e170d3836313232333031353931
315a170d3836313232333032303031315a3051311f301d06035504030c16616c6c6f7765642d636e2e6578616d706c65
2e636f6d312e302c060355040a0c25616c6c6f775f646e735f73616e5f616e645f7375626a6563745f636f6d6d6f6e5f
6e616d6530820122300d06092a864886f70d01010105000382010f003082010a0282010100a0a640addd96e8de3cfae3
558ce951cdc4bd013eeaa0c14ccbb978e221a3be302d34405c17096ea210f4c05cdf6ba234ccb5ab0c9ce4302255c8a5
b1310dafc0603c44d7d23bce0bda030acb6822e0838861e10b22ffd10faccd0fae5d060e0d5fa7fe2c2e05243c7c2883
5534f34214b7e20620bd45a9aeb503feafd1a4cc629cd0d4ec973e32edad6007dc79e29bd89a0baefd8a13ea31a66868
64d12667fd5403b27f03501b1bdcd04c1277e4d89361b9d3b0679dab0d4bcb29b34a6558151737c9ce0edf9a7a80e7c3
dbf7f2621288f6cbae6edad40a60ebac93c3afeb13fce3ae6ca9cfb845e36b71499ae5a6e38c3b8deeca32107b6494cc
87ca3ea3f90203010001a334303230220603551d11041b30198217616c6c6f7765642d73616e2e6578616d706c652e63
6f6d300c0603551d130101ff04023000300d06092a864886f70d01010b0500038201010049d15fd7be6eab6388af4804
d8b89ec3a1ae59c8fd8b491a697dc4d8fbd3ddceb443e4c3688591d3365c1340fc3ef9d51ddaaa52f770a7f9d568a5a1
6289789906f5dd4c9d87eca7b50892fb9cf5064e82555300707728ef0684a56703c92c00e2f5afd89e82de5d8a843714
57f49c27e71b98c55458a94197daa4b4e3861fd0d73a3f286ce64bbe372a9a9956a5d1d1839e68d7d3c7a95b0648db2d
b96135c1fac05199952e993c0c320aa283f9a06df08cf95326c6f2a109676ce3e315ab431a0c3e43994da82d59db7ce7
4a8ecd49c03c7c786ec5ecc396315e3febb004d8997536c92ae907fd4d9c775c962d5117ef67a5d915dc4966e7bbdce9
81960c54".

(** [tests/tls_server_certs/allow_subject_common_name.ca.der] *)
Definition allow_subject_common_name_ca_der : Input := hex "
3082034a30820232a003020102021405a2e8041357c867755a3f76c8ee0c463557f525300d06092a864886f70d01010b
05003041311b301906035504030c126973737565722e6578616d706c652e636f6d31223020060355040a0c19616c6c6f
775f7375626a6563745f636f6d6d6f6e5f6e616d65301e170d3836313232333031353931315a170d3836313232333032
303031315a3041311b301906035504030c126973737565722e6578616d706c652e636f6d31223020060355040a0c1961
6c6c6f775f7375626a6563745f636f6d6d6f6e5f6e616d6530820122300d06092a864886f70d01010105000382010f00
3082010a0282010100c7a5ff5f593c59050ca55e09c6b15e33272686876b3ff8e4eec835a75a6477a115cf6bd0a65862
6e24c74c9a3d594850cc035a3934c5b92aac53bdd15d776093dfd9048f026e2c7ce3a1b647c0a418956c95e0c83412d1
c8ce6ef809fee28cfa257e9bbe1ce382a1578bcea0c7f9c00aac75c7c8b2cfeb3a11b0b82a51b5b0819cb47e64381107
c268c7fefa78f6ab2cd8d8c89f918b60462e1f4c45df51c0bf803b4f488b6bb5e952fa3dc096cb95645d70a93ac7d8eb
f311169cc8c595fdbf13d0424c833bfa0a3eaa2e8ad991c2cdf218ab888fe4d67a30914474471a435ca4d7bd0d3c3eb1
6044d0a5dae5253368e9697154bbca3f502beb267ecb609bc90203010001a33a3038300f0603551d130101ff04053003
0101ff30250603551d1e0101ff041b3019a01730158213616c6c6f7765642e6578616d706c652e636f6d300d06092a86
4886f70d01010b05000382010100ba4ff9216df746c1b888d93c72a119613559dcad7a49e9a12e54075cf86d0a246032
d234275592d3825c7ce152bf327a54b784835b8d34c2f02431636ea60cacecf99ca3202c4723f348606f9e69c5f34a53
b2e8509f754bceebd9b67e3bef6a72939f68866fc3c52b4f2604e49a80e6488088fa91478d7c56d94ba8ee5ed641eec8
214449fcc8710f44e03e64273fcba77b8d6d2e41a163f8c91e299a009669a4a13746cbbd87986125ce7a1383a50c85ce
673d582ce5c1f5aaf2c8aa182b0a462bc919312882305690fd6aa209841b8b8d291ec6c83411b93538b890088a3613df
66aea67c0f27b0435c0edf88a8d25d87c2a41d96d6e77fb5a2d1c05ec391".

(** [tests/tls_server_certs/allow_subject_common_name.ee.der] *)
Definition allow_subject_common_name_ee_der : Input := hex "
3082032130820209a00302010202140db51bc7afda46808ee237cb4f051d4a0cbf391c300d06092a864886f70d01010b
05003041311b301906035504030c126973737565722e6578616d706c652e636f6d31223020060355040a0c19616c6c6f
775f7375626a6563745f636f6d6d6f6e5f6e616d65301e170d3836313232333031353931315a170d3836313232333032
303031315a3042311c301a06035504030c13616c6c6f7765642e6578616d706c652e636f6d31223020060355040a0c19
616c6c6f775f7375626a6563745f636f6d6d6f6e5f6e616d6530820122300d06092a864886f70d01010105000382010f
003082010a0282010100ce1a5f3b227ac039f24249bdcf6e2e5a9dc9475226f621a2d848f66e597902add84f1058b9e0
db481106eb55be4ea48f0573f1d56ceb7d044c8ad300ae0c2a5126b116ddcb84ca15e0a2c0d44a361691e618f81ee9be
89ed48372c72b0d89d13230d9600e60257446448b29a3e946895e526ae47a9304e8c2ad254cec9b62dcd6cc89b332896
e5e4cedb4a8d7ab4069b0be36ab3774dc97cc4eed9d6b14e6cde68fd5f94b956b81be50376661a0e3c2721a9602854cc
be0ccb653706726729ff4ca572748a36ea0612b317af12ceae288a94f3b27d0d2d9a6e07aaac5bea1a1fb269bc822bd6
ee681083fd4085a38007c413908f06ec40f354866537201b0a0d0203010001a310300e300c0603551d130101ff040230
00300d06092a864886f70d01010b0500038201010094d3f1da8e664fa1441b74c5ee51766a1852ec7184e25d27834ac7
5e32e04db9caf43dcaa66ce71b3ed4b166b0be60a899b92d890cff9f6b6dd555de1c95881e593f63c29977e12522ac0c
4acf36fd1561610e2bc793bd3990e4849c0ab9e0a2f3188390bfbd47b45e35d1643ccf8522d53364ec1214cfabf8734e
618b29ea9b39d9bfabf906ffd863f92bc4f888ac3dec050b812d07ba845634698cd51b1638557f1795bcf3a8dca61d19
b885b825ed2e9f495d0d2284da44ae0e476e8382f67e9f6134d93d05d52395275a60a7c453d80985f4c2cdb8ecc2cb7e
93e2f8b536bdaa107caf0ca2869bb329c1bedef0394350fecdd852dca380c4b05f496e9fc8".

(** [tests/tls_server_certs/disallow_dns_san.ca.der] *)
Definition disallow_dns_san_ca_der : Input := hex "
3082033b30820223a0030201020214176488fb89751ea970ddf3e4940812096b22a97d300d06092a864886f70d01010b
05003038311b301906035504030c126973737565722e6578616d706c652e636f6d31193017060355040a0c1064697361
6c6c6f775f646e735f73616e301e170d3836313232333031353931315a170d3836313232333032303031315a3038311b
301906035504030c126973737565722e6578616d706c652e636f6d31193017060355040a0c10646973616c6c6f775f64
6e735f73616e30820122300d06092a864886f70d01010105000382010f003082010a0282010100c7a5ff5f593c59050c
a55e09c6b15e33272686876b3ff8e4eec835a75a6477a115cf6bd0a658626e24c74c9a3d594850cc035a3934c5b92aac
53bdd15d776093dfd9048f026e2c7ce3a1b647c0a418956c95e0c83412d1c8ce6ef809fee28cfa257e9bbe1ce382a157
8bcea0c7f9c00aac75c7c8b2cfeb3a11b0b82a51b5b0819cb47e64381107c268c7fefa78f6ab2cd8d8c89f918b60462e
1f4c45df51c0bf803b4f488b6bb5e952fa3dc096cb95645d70a93ac7d8ebf311169cc8c595fdbf13d0424c833bfa0a3e
aa2e8ad991c2cdf218ab888fe4d67a30914474471a435ca4d7bd0d3c3eb16044d0a5dae5253368e9697154bbca3f502b
eb267ecb609bc90203010001a33d303b300f0603551d130101ff040530030101ff30280603551d1e0101ff041e301ca1
1a30188216646973616c6c6f7765642e6578616d706c652e636f6d300d06092a864886f70d01010b0500038201010079
dfdcb3530313e71aaeb65908683ce06319d95c5c6e5cd90b14b9b6557caeccb0728ac0532e6dede1401aedd26dcc2ad3
44c04457ec1ec5934a1fc85cb048ba6bd45d68c67063ddce04ff98442f47d56f12f85a358f0b61ef3895114e13f81968
96fdbd80c4605db9ae310d12da21561f54e5c5d607f139643c007662f023360fd47b68d1585e866223a775344c2f0c8a
7e05bfa05e5b5f29c6f46116b2a7107cde79eb065723a51d9570df4b90e4a898388188a967bbbf5d34a2cc4ccafd0741
267b24714375f67b20b4f16fe0a626ec1c1e7da9c672796235c289fc244933c8bcbda74bc357874564c21936961f59c7
782d87e0aecb9ac51802b196022523".

(** [tests/tls_server_certs/disallow_dns_san.ee.der] *)
Definition disallow_dns_san_ee_der : Input := hex "
30820314308201fca00302010202142d0b83184747f7bb9020f896648f7056a9641d13300d06092a864886f70d01010b
05003038311b301906035504030c126973737565722e6578616d706c652e636f6d31193017060355040a0c1064697361
6c6c6f775f646e735f73616e301e170d3836313232333031353931315a170d3836313232333032303031315a301b3119
3017060355040a0c10646973616c6c6f775f646e735f73616e30820122300d06092a864886f70d01010105000382010f
003082010a02820101009b7566c5782569ced088ebffb5a2994279f48ebec25c1212728172e1cde6940140b08f587a2b
5bb11c13236020c69f79628a855b19a6b6b824fed9c8dd9aff373d4fcced796f9439372f7200b42f491980bad51befcf
a3af2b582f3429c7045c105c088e99ca1ecb600a47fe8dbb9eacaedb39262f45e466fa6f29f63d44d803b7291c14382b
98f24a937c12f63b46a99e048af32f06a5d2c87d641c59ec2f16d01faca9719251bf9ad1bc513a1d3f7b47e2b51c8098
9f28c37c255cce4719b975d3c2f7035d5c7509378882aee0e97946a8f0808501681b6958c03632b0914c23d404c39066
d2b16a0dc91cd9d33f7e44c35b7399371df8cf9d0315da79499b0203010001a333303130210603551d11041a30188216
646973616c6c6f7765642e6578616d706c652e636f6d300c0603551d130101ff04023000300d06092a864886f70d0101
0b05000382010100b46a8aac415d0431d803849e357ba7d1eff8c41d0ea1970f27b186f44f8d693632505df96a998ea0
569464bc1f5416325f79da5851dab8a7f01f9e5b245917286e14b74601737dc6e2c66a070dc9178c0793f53e00d0c386
48400fd216f7fa5cf6805fecf5db9fbf80db670c0ecde97ef42aa052549d4c21dcdceaa3601bd1df7d9a6b7652f84a70
12102abd81b15811f5eceb4d85076088f0b8d0783f51fbe4024d6d0152517f386dd8bcbe2ef303536445481d7b1ebd4e
6c48a513b2502b7d4e8d9bcb8a62e1a805fb9891b7903f5c8d74f360332090c4ee5837a8da510f96ac9a25a4d1097be4
24ee484a66c02e8174639474a10403211bde12711c963dae".

(** [tests/tls_server_certs/disallow_dns_san_and_allow_subject_common_name.ca.der] *)
Definition disallow_dns_san_and_allow_subject_common_name_ca_der : Input := hex "
308203b23082029aa0030201020214664e300b01810d9be817e7032763ed52a7e241a4300d06092a864886f70d01010b
05003056311b301906035504030c126973737565722e6578616d706c652e636f6d31373035060355040a0c2e64697361
6c6c6f775f646e735f73616e5f616e645f616c6c6f775f7375626a6563745f636f6d6d6f6e5f6e616d65301e170d3836
313232333031353931315a170d3836313232333032303031315a3056311b301906035504030c126973737565722e6578
616d706c652e636f6d31373035060355040a0c2e646973616c6c6f775f646e735f73616e5f616e645f616c6c6f775f73
75626a6563745f636f6d6d6f6e5f6e616d6530820122300d06092a864886f70d01010105000382010f003082010a0282
010100c7a5ff5f593c59050ca55e09c6b15e33272686876b3ff8e4eec835a75a6477a115cf6bd0a658626e24c74c9a3d
594850cc035a3934c5b92aac53bdd15d776093dfd9048f026e2c7ce3a1b647c0a418956c95e0c83412d1c8ce6ef809fe
e28cfa257e9bbe1ce382a1578bcea0c7f9c00aac75c7c8b2cfeb3a11b0b82a51b5b0819cb47e64381107c268c7fefa78
f6ab2cd8d8c89f918b60462e1f4c45df51c0bf803b4f488b6bb5e952fa3dc096cb95645d70a93ac7d8ebf311169cc8c5
95fdbf13d0424c833bfa0a3eaa2e8ad991c2cdf218ab888fe4d67a30914474471a435ca4d7bd0d3c3eb16044d0a5dae5
253368e9697154bbca3f502beb267ecb609bc90203010001a3783076300f0603551d130101ff040530030101ff306306
03551d1e0101ff04593057a03530198217616c6c6f7765642d73616e2e6578616d706c652e636f6d30188216616c6c6f
7765642d636e2e6578616d706c652e636f6da11e301c821a646973616c6c6f7765642d73616e2e6578616d706c652e63
6f6d300d06092a864886f70d01010b0500038201010027ddb166b512f3343774711367bbf9b441e67f6ca966ad659f8b
82d56a24f0356272fd14d9fb4e66c0664ade4cc926ab677cb91a735246e26e2a93b923aacd8298e246cc8cc1b48973e7
6ab0a02cf20f834e95ae0afd07fd561356362e1fa7cd2e8a7071d2321c2094c704a035cc823df95c6906086558f5074d
ed3b7cdb9af0ed3f3d00e816ec2fea4224be720e9103cc88dff5de57adac8c78f4b5485a27ddf969faf35b005f6b781b
34ef3415725b3debabd421352a6a0a977f26d94a5c0b8616ee5aac48b2ca7e206ed64b599255be7f2318538572f4e9f3
9d647615bb2aa446073194a0455ba6774920826b623f0e02c1fb70904b8d6d807696b28eee27".

(** [tests/tls_server_certs/disallow_dns_san_and_allow_subject_common_name.ee.der] *)
Definition disallow_dns_san_and_allow_subject_common_name_ee_der : Input := hex "
3082038e30820276a0030201020214558d23e22497077177e3d6d11ff9170c481c7b02300d06092a864886f70d01010b
05003056311b301906035504030c126973737565722e6578616d706c652e636f6d31373035060355040a0c2e64697361
6c6c6f775f646e735f73616e5f616e645f616c6c6f775f7375626a6563745f636f6d6d6f6e5f6e616d65301e170d3836
313232333031353931315a170d3836313232333032303031315a305a311f301d06035504030c16616c6c6f7765642d63
6e2e6578616d706c652e636f6d31373035060355040a0c2e646973616c6c6f775f646e735f73616e5f616e645f616c6c
6f775f7375626a6563745f636f6d6d6f6e5f6e616d6530820122300d06092a864886f70d01010105000382010f003082
010a0282010100a8d49aba5c6819d3091e14a9171ce8a9ca09c7c6b977841275cb2319c575fce5b124faa0dec28b5296
cbc5b4617f7cde17dec27b6c0499136730d3bc8c7752dbef973c5c3f2a864f4c1a524f67d8893fa4597ddeb6b954a533
faea8746997035f8399ecb39f706eb83cdf3e10104eee6d05c5316f720da8199a07b0a76a2a34d12b55e8e3afee7ca8d
50bcb1cf449058318d827f5ec85ff4ad4ed58425fb54cd6bb52c7d2120410143c8d3332ce5c2ff999c0edad261053c10
6e9f162ecb10b9d16426bb69ca0a5e2029a06b335d2bf3c677f306e7f4624fd6fd5233d4cb0ae3419e3e04b54f1bcd19
664d1310869c9a4cff157e7e830183a9b6762b269f7da50203010001a350304e303e0603551d11043730358217616c6c
6f7765642d73616e2e6578616d706c652e636f6d821a646973616c6c6f7765642d73616e2e6578616d706c652e636f6d
300c0603551d130101ff04023000300d06092a864886f70d01010b05000382010100c51d6c20bbc49e4f5e9f3130ffa7
2d548eb98cc35ce63158d9ea82e38f3753b3b97151419e3f35b5c468575d5099a7529aeefee35595ee25a241b6530d49
b6e830b2fba989bf09541076ef5e9b2a77b29287f95e9583bf9804dd25e5c2c87c81408e60796ec2860b549d35da816b
fbe06f40e2e5697972c7e2b69777c56f4e56a88d0461c47668024a177b2936125ccdfdb71a523be5ec24a4eb97b97da7
505f9808194ddbdee9adb51b3f6903eb26f000ef81774e3b14a71d0c00321426dfdb98428b10e4ae331cd5249871af19
c8ccd463b62d7e4d2d698473ef67a5b8edc7ccfaa7bd21cc46a3631bbe9d41d58deb745b83b939d04fae0953a1502092
2f6b".

(** [tests/tls_server_certs/disallow_subject_common_name.ca.der] *)
Definition disallow_subject_common_name_ca_der : Input := hex "
308203533082023ba00302010202143c50881bcc90bdcfdb153a3f5d9a78b3e42c3c4e300d06092a864886f70d01010b
05003044311b301906035504030c126973737565722e6578616d706c652e636f6d31253023060355040a0c1c64697361
6c6c6f775f7375626a6563745f636f6d6d6f6e5f6e616d65301e170d3836313232333031353931315a170d3836313232
333032303031315a3044311b301906035504030c126973737565722e6578616d706c652e636f6d31253023060355040a
0c1c646973616c6c6f775f7375626a6563745f636f6d6d6f6e5f6e616d6530820122300d06092a864886f70d01010105
000382010f003082010a0282010100c7a5ff5f593c59050ca55e09c6b15e33272686876b3ff8e4eec835a75a6477a115
cf6bd0a658626e24c74c9a3d594850cc035a3934c5b92aac53bdd15d776093dfd9048f026e2c7ce3a1b647c0a418956c
95e0c83412d1c8ce6ef809fee28cfa257e9bbe1ce382a1578bcea0c7f9c00aac75c7c8b2cfeb3a11b0b82a51b5b0819c
b47e64381107c268c7fefa78f6ab2cd8d8c89f918b60462e1f4c45df51c0bf803b4f488b6bb5e952fa3dc096cb95645d
70a93ac7d8ebf311169cc8c595fdbf13d0424c833bfa0a3eaa2e8ad991c2cdf218ab888fe4d67a30914474471a435ca4
d7bd0d3c3eb16044d0a5dae5253368e9697154bbca3f502beb267ecb609bc90203010001a33d303b300f0603551d1301
01ff040530030101ff30280603551d1e0101ff041e301ca11a30188216646973616c6c6f7765642e6578616d706c652e
636f6d300d06092a864886f70d01010b0500038201010080ae05409473a45d23b198a76e7dff3f9f27b522e5b28ec586
b2ee6c29e17bf0d35f7311da2e940e7f8dd4d2a837aa1b8be5a79b3678af0288e4b70b484e2203af73c408ba5181f1a6
e11faaf94fd5b5a0109cbec4e1fc37beb6f4b297b87049eec83b6e123a72f947ecff929f3eb301462ebc5ccf790eda3c
0e45f36a2c6d9c8a01572ae443f470900e3130ab948ed6487c6d96db09d64b8e88311fdbaa60b6cefad4ad963d979c00
d52aed15464f6f30e2ebbd8ee273e2a1efff873a4cfe7ee0e1d2213169bf0eb6c8793c10dcea6f7d070e94675b92b95a
8cc1644921b0d1162690b0079a042b056aa9fcdbe9a2f124d4ba168da6e592a989403ea63cb151".

(** [tests/tls_server_certs/disallow_subject_common_name.ee.der] *)
Definition disallow_subject_common_name_ee_der : Input := hex "
3082032a30820212a00302010202145ae6bcb39ea7de513817ec6d209b037a3036c813300d06092a864886f70d01010b
05003044311b301906035504030c126973737565722e6578616d706c652e636f6d31253023060355040a0c1c64697361
6c6c6f775f7375626a6563745f636f6d6d6f6e5f6e616d65301e170d3836313232333031353931315a170d3836313232
333032303031315a3048311f301d06035504030c16646973616c6c6f7765642e6578616d706c652e636f6d3125302306
0355040a0c1c646973616c6c6f775f7375626a6563745f636f6d6d6f6e5f6e616d6530820122300d06092a864886f70d
01010105000382010f003082010a0282010100c09aacab7a1402c87900917e213a527dd08f63adb81ea26c99fd5b85c1
350b14d70bb9341be5b48a43843801c36eaf5e6486fed5153a9877a4a55142927520113770700e7430ae6245dc2f3d3f
af3d43ff18cd66fc74c2baa6050f1a34f79c6e3645f33513df4c132434262b3a3b9118368ba88dcef22cff5643d8bac6
03bd31f4826f925fa8a07d15d5f12cea3bba7fdf8c30380199d567255bb9e6c6fe49eb446480f5605d89ba09ec06715f
56defa97f9472cccde3df7a8e85624064678fd468107bb09e9116d4d345cde63d95350fae36e4d238abe80c468772b38
81460464d3efcde52d0c43b557dbb7bd0a582f5101321ee8da54b795375c0cb5ab6f7f0203010001a310300e300c0603
551d130101ff04023000300d06092a864886f70d01010b0500038201010031a8d7262fbdb9cdb9264f9dd6655bcdbc26
b81e79d264973ecf5f6ca7ac5beee787b3088b20fdcd894aa010364a31df4bd82cd6c0c2956f412968ddca62c1159749
ea816fa0169219d5a3b18c216a6c86c7acb231c419a3296de4d1ca53b45fdc26cd3ad8ea342cd83a344c479e2ce73b71
34fc0743a82a87b876f9d6ca6464c2092d0778f293608da39767858e2da9e08720740a8b3437cb537fc1f8d2828dafaf
a23ee32213e1b6001f8ebb1d837402ee6e7cbb1021dd61eec12ca67af6a6ae79bc1f7bdac5b4ab4e4e4faff8cf49a29d
83c2a3e1cf9a8114eb1e7238c2b03dac1dfc0881a6177b01e5201e27ce22c7d0758464a6096c02d684163b12a689".

(** [tests/tls_server_certs/exclude_directory_name_not_implemented.ca.der] *)
Definition exclude_directory_name_not_implemented_ca_der : Input := hex "
3082036030820248a00302010202147b11779621f79ef41e03bd888dd8b29e96cc76b7300d06092a864886f70d01010b
0500304e311b301906035504030c126973737565722e6578616d706c652e636f6d312f302d060355040a0c266578636c
7564655f6469726563746f72795f6e616d655f6e6f745f696d706c656d656e746564301e170d38363132323330313539
31315a170d3836313232333032303031315a304e311b301906035504030c126973737565722e6578616d706c652e636f
6d312f302d060355040a0c266578636c7564655f6469726563746f72795f6e616d655f6e6f745f696d706c656d656e74
656430820122300d06092a864886f70d01010105000382010f003082010a0282010100c7a5ff5f593c59050ca55e09c6
b15e33272686876b3ff8e4eec835a75a6477a115cf6bd0a658626e24c74c9a3d594850cc035a3934c5b92aac53bdd15d
776093dfd9048f026e2c7ce3a1b647c0a418956c95e0c83412d1c8ce6ef809fee28cfa257e9bbe1ce382a1578bcea0c7
f9c00aac75c7c8b2cfeb3a11b0b82a51b5b0819cb47e64381107c268c7fefa78f6ab2cd8d8c89f918b60462e1f4c45df
51c0bf803b4f488b6bb5e952fa3dc096cb95645d70a93ac7d8ebf311169cc8c595fdbf13d0424c833bfa0a3eaa2e8ad9
91c2cdf218ab888fe4d67a30914474471a435ca4d7bd0d3c3eb16044d0a5dae5253368e9697154bbca3f502beb267ecb
609bc90203010001a3363034300f0603551d130101ff040530030101ff30210603551d1e0101ff04173015a1133011a4
0f300d310b300906035504061302434e300d06092a864886f70d01010b05000382010100a46ead1ca3cdc0219d086f71
64745a27375ca0b7541b9bd7ff8f5c17095d561eea857c6dbc7694710bd87428af83bbd106d2080db456d871c3788e13
85261f88635f02588ea09a568396310baee8214a13990d566c0ec6de6f2c86233fce12ec82236c0d16c8faa81915bc48
fde5a305741ed4916b2bf3295a6e72011d9276cd96669e4415663874d279e6cd2705809f293ecb97b45d86480229363b
85c5a5056bde85e9e5de968fe69ef1090354e74f0cb7de31ea2ffc6427fbf4ba45ac8b60272e3e24823ff311c7d3a711
77140a0bad779cbb937ddd6bac030a3dd8317b1b5cece04d494ad9b4669e5329955c136dd807b8cc9385bcf115511028
fc942736".

(** [tests/tls_server_certs/exclude_directory_name_not_implemented.ee.der] *)
Definition exclude_directory_name_not_implemented_ee_der : Input := hex "
3082031d30820205a00302010202147bf78c32454cb8f6ac3591c70a3918486abf12dc300d06092a864886f70d01010b
0500304e311b301906035504030c126973737565722e6578616d706c652e636f6d312f302d060355040a0c266578636c
7564655f6469726563746f72795f6e616d655f6e6f745f696d706c656d656e746564301e170d38363132323330313539
31315a170d3836313232333032303031315a3031312f302d060355040a0c266578636c7564655f6469726563746f7279
5f6e616d655f6e6f745f696d706c656d656e74656430820122300d06092a864886f70d01010105000382010f00308201
0a0282010100dc3437acaf80c4e25b029d1da234002a62a2c1c01e400f69db3c91231ad4e79e318ee5ef37121b50b6b7
80922e39870256727a497a5ed6d1093ba490e4ea7a7f015799bac761e264713ab299b2398e9e3dcd4aa3ccc9fc44ddc1
58d7843fa9dec4720e371e407b2e26d19615c2d4d941397d594e99ce796e37c4780321824d014ae3283a2e0d2bdeb570
195d87240df4f30201a8ce2349d7928d3251debd50b9c0d89e0165b2a28f3946880a80ca53865aa49868d17e89f2a447
0b0a142afcf902667f775196d61bcb0661d68d84e5d8ebb0cad03f354520b40690ad6880b4a4ecd98fdd8ff5c2acf684
c3bf737424449d35e1d8baa97dabcfd30b3eac603d370203010001a310300e300c0603551d130101ff04023000300d06
092a864886f70d01010b0500038201010029b8d158ea670067bf4fc9aae16c126f9f8f50ae5be6dc46c9712b9c40a731
e2bca6042fc7bc8df59ff88eff6675fdb93a3ae188c36018942d6d5b0277df91292f96eb3fb0264fe9b77b65a7d6a804
5dbe2bb7f28687ff8ea4f47b27243b8a7a8ee6070fadc7a18a586dc95233a219ea8460a868495ea6e4657760579f58c7
be0547fda3d790e9e161f0f1fe469a63e8af4af315bab7822b4c7b9e3b19d0714b8c3dbac67f3d1d4aedf68ba1fbfcc7
326304970be273da991b6c65195cc9fb6f9925ea33cad90d7623bb0325c0cdad0f9823778b649d6edcf7c77d3288d618
f00da6814f1dddd8fadd7965450ca5c5edd81a0b86a1bfae01f04c4747ba3c84cb".

(** [tests/tls_server_certs/invalid_dns_name_matching.ca.der] *)
Definition invalid_dns_name_matching_ca_der : Input := hex "
308203233082020ba00302010202145a58e132b573327dbb6bafe9996f8faf5ea7a878300d06092a864886f70d01010b
05003041311b301906035504030c126973737565722e6578616d706c652e636f6d31223020060355040a0c19696e7661
6c69645f646e735f6e616d655f6d61746368696e67301e170d3836313232333031353931315a170d3836313232333032
303031315a3041311b301906035504030c126973737565722e6578616d706c652e636f6d31223020060355040a0c1969
6e76616c69645f646e735f6e616d655f6d61746368696e6730820122300d06092a864886f70d01010105000382010f00
3082010a0282010100c7a5ff5f593c59050ca55e09c6b15e33272686876b3ff8e4eec835a75a6477a115cf6bd0a65862
6e24c74c9a3d594850cc035a3934c5b92aac53bdd15d776093dfd9048f026e2c7ce3a1b647c0a418956c95e0c83412d1
c8ce6ef809fee28cfa257e9bbe1ce382a1578bcea0c7f9c00aac75c7c8b2cfeb3a11b0b82a51b5b0819cb47e64381107
c268c7fefa78f6ab2cd8d8c89f918b60462e1f4c45df51c0bf803b4f488b6bb5e952fa3dc096cb95645d70a93ac7d8eb
f311169cc8c595fdbf13d0424c833bfa0a3eaa2e8ad991c2cdf218ab888fe4d67a30914474471a435ca4d7bd0d3c3eb1
6044d0a5dae5253368e9697154bbca3f502beb267ecb609bc90203010001a3133011300f0603551d130101ff04053003
0101ff300d06092a864886f70d01010b050003820101005e85f0af7c004c73dfe925b26bfa2ae77908cf08fcc6789f55
a1892bbe746f5d2d2941f77c6e2d9730124720f494eeef87d49e6898614890e64a4d453d8ebe8b0e98c1c17306240722
a170bf2f89108b8e08430f4970a8039d5ca2055632605454e87b043a4d0b4413fcce56f1b4c001432517aa276b6b18ce
76736ecc9ef921e783e0e2cbff81829f85c1e0b54b2614ff17f46d943a4426f6805febacff42d75601a84a940dd4948a
0bff8296296d4eef773ca719795eff5371f1fecd9b7ff64c7490953afffce7fdb8a144c619824e80dec4339359c05a15
891148e9d9c3313eb101f3421272921a1bfa28cfdefbe41c007781448cf79161ea7fb3cf3a03db".

(** [tests/tls_server_certs/invalid_dns_name_matching.ee.der] *)
Definition invalid_dns_name_matching_ee_der : Input := hex "
308203543082023ca00302010202140467b28433cf00e63d514c54db76f6056563212b300d06092a864886f70d01010b
05003041311b301906035504030c126973737565722e6578616d706c652e636f6d31223020060355040a0c19696e7661
6c69645f646e735f6e616d655f6d61746368696e67301e170d3836313232333031353931315a170d3836313232333032
303031315a3042311c301a06035504030c137375626a6563742e6578616d706c652e636f6d31223020060355040a0c19
696e76616c69645f646e735f6e616d655f6d61746368696e6730820122300d06092a864886f70d01010105000382010f
003082010a0282010100b0a54130d7448192d599f091382986153773ae30b1724abe2388fecc037b7bc6b3bd52ff9c17
2e8b315d5432056ce6b396029f8ad498e0e0d03da0f8bcbe002555d8a18e5e1206e844f219576fad63b54d3face9a79c
8772d7f46a823a5a5d3cfa57f42eee23e23903082e35d94fdd99a512bf50d55535930de8d2af739a44a97b6cfd7cf975
21823c861dc97b55dabb3d0d7fbb24b2d3092efa6e4d32b5764a6780e5033220d9f84d4d2367ff75dae79fbb0e48aaee
aa5e7c946f4fa49a6261dfe5f829c59c86aa55b534a363e5682a4c731dda1efeecba0184341b1a04697eaf94b8197169
ef3406b36c56e7583a6f68dbe82f7d536720a4fd05fc48f7da490203010001a343304130310603551d11042a30288215
7b696e76616c69647d2e6578616d706c652e636f6d820f646e732e6578616d706c652e636f6d300c0603551d130101ff
04023000300d06092a864886f70d01010b050003820101001ec4629997330ff1ef31f930e7b0a276294f111e7cf8c570
a48e0e5f9536df01482fd27225b2e50037301b7f6a8626f6804425479c5760a4d665faac7333aa580c37f1c8cb984f67
63070288892b35e931332511240352afd9be055ba1c38be445fa296f19815e2f87a0a1c230e8c2c7d6559575641647d2
c84736d86045697e6f12bd1401cf04b12a37138bae97c6f546999e05fa7b1cdc1fc99c0963ca4ad6d1189755b598b5c0
b53a7acc05353bb4dec0d842d7dec42b51b4a4731650563c6ca4b43b8913d7bb972c6388e714d7276bd9aec43784bad4
1ae696cc7caf31c3823bfec0946dfd184a7dd303ec0598cfaa9a7004c9ccf79d5b2bd75a18308b6c".

(** [tests/tls_server_certs/ip46_mixed_address_san_allowed.ca.der] *)
Definition ip46_mixed_address_san_allowed_ca_der : Input := hex "
3082036d30820255a003020102021411cdfe73920ee558b52529f0f09472e3f4a0acd5300d06092a864886f70d01010b
05003046311b301906035504030c126973737565722e6578616d706c652e636f6d31273025060355040a0c1e69703436
5f6d697865645f616464726573735f73616e5f616c6c6f776564301e170d3836313232333031353931315a170d383631
3232333032303031315a3046311b301906035504030c126973737565722e6578616d706c652e636f6d31273025060355
040a0c1e697034365f6d697865645f616464726573735f73616e5f616c6c6f77656430820122300d06092a864886f70d
01010105000382010f003082010a0282010100c7a5ff5f593c59050ca55e09c6b15e33272686876b3ff8e4eec835a75a
6477a115cf6bd0a658626e24c74c9a3d594850cc035a3934c5b92aac53bdd15d776093dfd9048f026e2c7ce3a1b647c0
a418956c95e0c83412d1c8ce6ef809fee28cfa257e9bbe1ce382a1578bcea0c7f9c00aac75c7c8b2cfeb3a11b0b82a51
b5b0819cb47e64381107c268c7fefa78f6ab2cd8d8c89f918b60462e1f4c45df51c0bf803b4f488b6bb5e952fa3dc096
cb95645d70a93ac7d8ebf311169cc8c595fdbf13d0424c833bfa0a3eaa2e8ad991c2cdf218ab888fe4d67a3091447447
1a435ca4d7bd0d3c3eb16044d0a5dae5253368e9697154bbca3f502beb267ecb609bc90203010001a3533051300f0603
551d130101ff040530030101ff303e0603551d1e0101ff04343032a030300a87080c223800ffffff003022872020010d
b9000000000000000000000000ffffffffffff00000000000000000000300d06092a864886f70d01010b050003820101
005e23cb9435fbcc1832020bc308b0647bf7c57853727ea24bdaf3bf0090223528e300902c9e3d8d0579b80c895d5352
ccccd97b341b9bf4940dfe7986bb8abde6885b857f4bc026d665aa807836fca8e04ce3ed8016cb886caf63ed740976db
15fac6b9927e96b0722034a045c425f757b10102b00d0bce25755df54bd9a3cdceb96cce97dee15d6ffef35c08f80d13
e446f890dee5fff17b265a640a73b3a6033ee08a8443c3793e1eceaa68f38f1b6f13872731618f7ccb5155b927db019f
e475dad285f2794fd9b0ba402a68ebfffae05ecd4cba999f3b649513e8fe0fc43996a7197a30e042085cfd9af2d483c0
92d1d146f42c6aebc37b9294eba3c74ef2".

(** [tests/tls_server_certs/ip46_mixed_address_san_allowed.ee.der] *)
Definition ip46_mixed_address_san_allowed_ee_der : Input := hex "
3082033030820218a00302010202140fc38c5c08c95bfbd2728c98658e8b9e11e8fb3b300d06092a864886f70d01010b
05003046311b301906035504030c126973737565722e6578616d706c652e636f6d31273025060355040a0c1e69703436
5f6d697865645f616464726573735f73616e5f616c6c6f776564301e170d3836313232333031353931315a170d383631
3232333032303031315a302931273025060355040a0c1e697034365f6d697865645f616464726573735f73616e5f616c
6c6f77656430820122300d06092a864886f70d01010105000382010f003082010a0282010100cb7051f7181af3abc0a7
b3ec04b00afa720dea98fd945f73500b45257710975b069b3aeeee61b17517c47191585df0a43d7800be1dd70867cbd7
6f7ddea0493e1c4c606aef8faa701fc3043ece38d1fe6e1f591903afd6212654212a7d0b1eb89300d964b3418cee2c7f
070f253b7aee0f9530f2c31090895f9f3bf9d0ef50b210619437248a829b78b0f60a51da8d0fec3ef19c5277b1fb5d51
93671803929c2665f664d954a83c564039f6b3e8a0dadfb828d5d93606d3d0914172a9745e9ae61e764eb7001f6a4253
975fcadb3ad0aa13405bb802d77a1a03f87e99a56b5551859358ff2b9fb90b009b6eba8a2c0ac802f936925052e8d857
bb10c6c6597b0203010001a333303130210603551d11041a301887040c22384e871020010db900000000000000000000
0001300c0603551d130101ff04023000300d06092a864886f70d01010b05000382010100283be06b81abc5bbd7824051
2bd186f5d3261ffa0a998a4bfc350487e6073e4b94e125841f85f8cafa5b1651c3361d18692eeb649a51425890f0aa5f
658c23df4b7feba1a3529c16efab6b6db992285177d5766fd6a3623685cd322216258c57503b14b93b11b7f4865a7e37
1467681fa1c7ec6833704974d571c36d9fb2c015352d58761de6afd5b1bfb0b1165a7951bd4f4cfe2f3e201f9d8a23af
bec8988c040b83dd6fa6213e81d5a0c8e1996f04d7e9c90bd2c595191e1e66d1a80a52ff601ef54e7a870546a3d810eb
02fc341598f5a3a6bff48ae650cc97cc8ea834cc95504a0a44a3f5069031bbfcfab30d24c390b17b35723f886c9cf2c8
0ea447fd".

(** [tests/tls_server_certs/ip4_address_san_allowed.ca.der] *)
Definition ip4_address_san_allowed_ca_der : Input := hex "
3082033b30820223a00302010202147d91537a942bb1d7b6f0c19ab53224018a872893300d06092a864886f70d01010b
0500303f311b301906035504030c126973737565722e6578616d706c652e636f6d3120301e060355040a0c176970345f
616464726573735f73616e5f616c6c6f776564301e170d3836313232333031353931315a170d38363132323330323030
31315a303f311b301906035504030c126973737565722e6578616d706c652e636f6d3120301e060355040a0c17697034
5f616464726573735f73616e5f616c6c6f77656430820122300d06092a864886f70d01010105000382010f003082010a
0282010100c7a5ff5f593c59050ca55e09c6b15e33272686876b3ff8e4eec835a75a6477a115cf6bd0a658626e24c74c
9a3d594850cc035a3934c5b92aac53bdd15d776093dfd9048f026e2c7ce3a1b647c0a418956c95e0c83412d1c8ce6ef8
09fee28cfa257e9bbe1ce382a1578bcea0c7f9c00aac75c7c8b2cfeb3a11b0b82a51b5b0819cb47e64381107c268c7fe
fa78f6ab2cd8d8c89f918b60462e1f4c45df51c0bf803b4f488b6bb5e952fa3dc096cb95645d70a93ac7d8ebf311169c
c8c595fdbf13d0424c833bfa0a3eaa2e8ad991c2cdf218ab888fe4d67a30914474471a435ca4d7bd0d3c3eb16044d0a5
dae5253368e9697154bbca3f502beb267ecb609bc90203010001a32f302d300f0603551d130101ff040530030101ff30
1a0603551d1e0101ff0410300ea00c300a87080c223800ffffff00300d06092a864886f70d01010b0500038201010092
a12df626e590fa636dc254b6f78b45672a253d7f0a61b772cb97698a324619a88778647a5e036057bc9f0f9d49dc1a49
1576805fa2b1201a594a12147ef816c89c5aae7e09734153a4626c690ff9dbe5fafbdf27c6d8e276ef97da5b6aad5d96
ea591592d2aa68d27c5b8833e82ef528673dc2d311dd080a9bf2a8149aa0829657a63508693ce785ae78baa6da3a0925
c24cb7a482738d3d5990c1653b88d250cee4d43e9ff7863d762791b5486f89bccc83f1f394f811702b28aab8f3ac9e29
937ee64dc631c7a1949cb586d6cf7c8edb5fc3f6a75b5c1a08a62e32c1203802e79351afe7848ca47af468ae549d2f71
2fd579309cbc9ec62cb97f868f506f".

(** [tests/tls_server_certs/ip4_address_san_allowed.ee.der] *)
Definition ip4_address_san_allowed_ee_der : Input := hex "
30820310308201f8a00302010202140782f519b764971ed13921dd9e49295e02d86f17300d06092a864886f70d01010b
0500303f311b301906035504030c126973737565722e6578616d706c652e636f6d3120301e060355040a0c176970345f
616464726573735f73616e5f616c6c6f776564301e170d3836313232333031353931315a170d38363132323330323030
31315a30223120301e060355040a0c176970345f616464726573735f73616e5f616c6c6f77656430820122300d06092a
864886f70d01010105000382010f003082010a0282010100d4a954374d3fc9e7ab7f40de6c4e2c196c9f1ce0099b82b4
d3d3c2847451cfef77bc82fe342e55f49f4a7ffcc87fce7c2f7ef3eb93c0af8199eb8cba3cd0d9aaf9ff0225bc7c3786
255d95cda43745938e97e8df8a7f072488c0a4f1f13cc39033676322068d7b6a9c94ff212f8d351cde409bb4df90c91f
3c7917e73f1d8ef434af9b71f0f922058d699b4745f33c044d6d6eab0d0e02318b25e3dc599ae38a1d7fe4befe4d0192
971abe4e368518e672e737267e0c36c438a893d8fc85db071b5645cceb1a1ca63fbe41c65dcf1c8f74f70754d4de1776
2ab82d5912a2cc07936363c6241e4bbfea822a467e7218461eeef71e480c460dd0a45a6eed1892b30203010001a32130
1f300f0603551d110408300687040c22384e300c0603551d130101ff04023000300d06092a864886f70d01010b050003
820101005e491f5b6551a954d7b4bf162274a81ffb2e074a93013f438bb88737bf1d36fbd15dcfe0c1c27637efae238d
0df93ecf4cacd903c299ccc3a689a31ad4bcdd2dfde5ecdc7b7e6749d33238958d1a7001a2045773ad24ebddeb30a9a7
f673b22b427a89c382156a2a56956e8ec45d9eba3de1b8e005df3364b93c47290a68f1a73a3554d8c7aed16a7aeb2074
e318a0e418ad46f392c429313c3088567014816e66f33994597303a25a0239067725659eaffa4d6c3b5b63829c4a1f2a
e11f432ba6a95ae93646fdd72535f0c1a835f490b40be3d2f3b3a2e9dbf77507720daec028463bc49f6652e2cfd9d827
08fb9a934197b8535386363f669976b2c2669c5d".

(** [tests/tls_server_certs/ip4_address_san_allowed_if_outside_excluded_subtree.ca.der] *)
Definition ip4_address_san_allowed_if_outside_excluded_subtree_ca_der : Input := hex "
308203733082025ba00302010202140c8b0662ad154557f6fca0e8c1146ed27fd60baf300d06092a864886f70d01010b
0500305b311b301906035504030c126973737565722e6578616d706c652e636f6d313c303a060355040a0c336970345f
616464726573735f73616e5f616c6c6f7765645f69665f6f7574736964655f6578636c756465645f7375627472656530
1e170d3836313232333031353931315a170d3836313232333032303031315a305b311b301906035504030c1269737375
65722e6578616d706c652e636f6d313c303a060355040a0c336970345f616464726573735f73616e5f616c6c6f776564
5f69665f6f7574736964655f6578636c756465645f7375627472656530820122300d06092a864886f70d010101050003
82010f003082010a0282010100c7a5ff5f593c59050ca55e09c6b15e33272686876b3ff8e4eec835a75a6477a115cf6b
d0a658626e24c74c9a3d594850cc035a3934c5b92aac53bdd15d776093dfd9048f026e2c7ce3a1b647c0a418956c95e0
c83412d1c8ce6ef809fee28cfa257e9bbe1ce382a1578bcea0c7f9c00aac75c7c8b2cfeb3a11b0b82a51b5b0819cb47e
64381107c268c7fefa78f6ab2cd8d8c89f918b60462e1f4c45df51c0bf803b4f488b6bb5e952fa3dc096cb95645d70a9
3ac7d8ebf311169cc8c595fdbf13d0424c833bfa0a3eaa2e8ad991c2cdf218ab888fe4d67a30914474471a435ca4d7bd
0d3c3eb16044d0a5dae5253368e9697154bbca3f502beb267ecb609bc90203010001a32f302d300f0603551d130101ff
040530030101ff301a0603551d1e0101ff0410300ea10c300a87080c2238fcfffffffc300d06092a864886f70d01010b
050003820101009e8d3d362730abba8d37bc60154152ea9bae98fec8b63371ebaf5521645e91ad21b438a076cba9f8f5
0e8e0ce24f2c18da22c16cd27a7d551d6479b3caa3e93dcf1c58e9a1b0dca70dd734c152fe56037c2f96870772f2c780
b5fb1444ccc653127894426fe22f433d655fbde2d50ac5facfd9fb5cfcf95ce245be0771eaf73f8450af814fc6087412
a717881b1f1e7a21efd90e75b612f75431f3c97a6a5f47ec5540d8b275e6b5eb90562f450f0cae8df55c577c4c78491a
82dc049cbdf61146504cac1dfb6cd46e475b21a8de85caf627ae827b7f9a13e76b15952cc5149a5e80156b99eb3859c7
ce864ee658d881eaa735f3c3ed3a52e68878cbb944cc9a".

(** [tests/tls_server_certs/ip4_address_san_allowed_if_outside_excluded_subtree.ee.der] *)
Definition ip4_address_san_allowed_if_outside_excluded_subtree_ee_der : Input := hex "
3082034830820230a003020102021447a3787e805e13a128d9e36685ecbf7f33c32587300d06092a864886f70d01010b
0500305b311b301906035504030c126973737565722e6578616d706c652e636f6d313c303a060355040a0c336970345f
616464726573735f73616e5f616c6c6f7765645f69665f6f7574736964655f6578636c756465645f7375627472656530
1e170d3836313232333031353931315a170d3836313232333032303031315a303e313c303a060355040a0c336970345f
616464726573735f73616e5f616c6c6f7765645f69665f6f7574736964655f6578636c756465645f7375627472656530
820122300d06092a864886f70d01010105000382010f003082010a0282010100a56bf3815a4960df87a9da8ad48f63c0
f51d80d4473e2e48014da9ab64ce32694ac205592060966b4a9ae7f4c3f4ab7d37d1e0d67b9c6e89c513e92b03d152af
1e6cf09389e06d4471bbf9edbd6174059efb24f3695990d32fabdd237c98f23e5adfaad2e6f477063c23c79208e97af7
6bc2ee18442fefe402961a7b249636573a090b64f006a5613b92b592e56e721f4e8a2100ac2a54aa94f211e90bf6e4a1
3877dc3dd35bc489355ce35fbbaa5ee723e39b5c4308d61d725f57a83393f76b77f2a214c467be69c8540dba6b7d76c8
983bb17987a60ad58012d42472024ed1d5d6435a38ef6da34b3eb3e1b9114003dd13e2821d7ace052af3794819614691
0203010001a321301f300f0603551d110408300687040c22384e300c0603551d130101ff04023000300d06092a864886
f70d01010b0500038201010066fbfe54d98f0c42667521b269df8d25674f956e1b575e3f235edca9ac2e25cf44d6eb43
41fb4ec0882966681c2820ba4396ac0d4c01f27c59ecf8d1d5191ee29f4392f6e8fe184365c8528b5f1e4eb5d28ac0e9
51b01c8ce6bfb91b4cb250b7d6cdee8b8d21eb85e704f568b6c55427bbfb97941fc4350057a150dcbb99bb25bb0053c8
763bca28b4d41d1cb3503ac3e541ae8321efe318141ca716154686b4f7cdc511cce9b95340e2b2e71b4c8a36a816aedc
b097b327cfac96eaa72ce25200e3639a222eb94b73229eb195aa92a47a37ae1632fd2fbe674886c0cbed13bb8b5d1ede
7eb45ad3ee6a9a44fdf91d537f8d0e75860c7eee1f8b91a6c41ec830".

(** [tests/tls_server_certs/ip4_address_san_rejected_if_excluded_is_sparse_cidr_mask.ca.der] *)
Definition ip4_address_san_rejected_if_excluded_is_sparse_cidr_mask_ca_der : Input := hex "
3082037d30820265a003020102021407d1d9b37e2e4b0fd23e95c16a9393007f504877300d06092a864886f70d01010b
05003060311b301906035504030c126973737565722e6578616d706c652e636f6d3141303f060355040a0c386970345f
616464726573735f73616e5f72656a65637465645f69665f6578636c756465645f69735f7370617273655f636964725f
6d61736b301e170d3836313232333031353931315a170d3836313232333032303031315a3060311b301906035504030c
126973737565722e6578616d706c652e636f6d3141303f060355040a0c386970345f616464726573735f73616e5f7265
6a65637465645f69665f6578636c756465645f69735f7370617273655f636964725f6d61736b30820122300d06092a86
4886f70d01010105000382010f003082010a0282010100c7a5ff5f593c59050ca55e09c6b15e33272686876b3ff8e4ee
c835a75a6477a115cf6bd0a658626e24c74c9a3d594850cc035a3934c5b92aac53bdd15d776093dfd9048f026e2c7ce3
a1b647c0a418956c95e0c83412d1c8ce6ef809fee28cfa257e9bbe1ce382a1578bcea0c7f9c00aac75c7c8b2cfeb3a11
b0b82a51b5b0819cb47e64381107c268c7fefa78f6ab2cd8d8c89f918b60462e1f4c45df51c0bf803b4f488b6bb5e952
fa3dc096cb95645d70a93ac7d8ebf311169cc8c595fdbf13d0424c833bfa0a3eaa2e8ad991c2cdf218ab888fe4d67a30
914474471a435ca4d7bd0d3c3eb16044d0a5dae5253368e9697154bbca3f502beb267ecb609bc90203010001a32f302d
300f0603551d130101ff040530030101ff301a0603551d1e0101ff0410300ea10c300a87080c223800ffffff01300d06
092a864886f70d01010b05000382010100832c21fb29719be25feef59965451c670e3ca84b25a7face192d6bb24b8bcd
fb2a37864f5d4295c3db0f15287ccbcefc8c4b291e02742ca57494b9e319afcc82a552e019bbe4fd0ea7a50c15f1735b
8167c5a2ddbfe093e0df5667f0cc1844877b39f87a2037e85e093ac360e1fef33595b22a8247ea55959d643cc36b85aa
b3e3d871fc34fade3f4e79fbb4c77598a822907968ffa36b90be1dfd427bcfee3f80af67fe6aeaa051cf745bf18ff9ef
2f06cbfbf944377ce306561cbf3827431002b84e5d8028abbcbe060133a09874ac4f1af6dc97f4464f7df4b4b9570563
78bb87a7684f4b25eaba660a91f6ff9e8e521baf68839109351b996abdefbebc1a".

(** [tests/tls_server_certs/ip4_address_san_rejected_if_excluded_is_sparse_cidr_mask.ee.der] *)
Definition ip4_address_san_rejected_if_excluded_is_sparse_cidr_mask_ee_der : Input := hex "
308203523082023aa003020102021471947dc94e1cd83174b62e70eecc1d2bd38e1cce300d06092a864886f70d01010b
05003060311b301906035504030c126973737565722e6578616d706c652e636f6d3141303f060355040a0c386970345f
616464726573735f73616e5f72656a65637465645f69665f6578636c756465645f69735f7370617273655f636964725f
6d61736b301e170d3836313232333031353931315a170d3836313232333032303031315a30433141303f060355040a0c
386970345f616464726573735f73616e5f72656a65637465645f69665f6578636c756465645f69735f7370617273655f
636964725f6d61736b30820122300d06092a864886f70d01010105000382010f003082010a0282010100cd6439dbee95
9ee36e51812ec2553fcfe4bd2471ee33e221015301ebf750f1c5c7afbd2b48d7fb5f103c62f48c0c26a7ed6bb9cd8576
775e76e2aed99f03f478261397c6f0781bed5e2483f0b830f08c0fb14701d76e90742e10fcc6b157db6660c8f2d8dd47
a67e30060f8a3899e7af9c347f8535005f45d3c92850151ad1c0bdd71e8e45ca0cb6c4e08df05fda80d4d7129e2dcdd1
0ab81a1b245be45ab442f43f1d091f8452ab41c4d4bec549fa95ae02b4257a9620388bd4f0cbbb75bc4f335c331b1f31
a94884cc2931e215f555d11d9a6cf1828e1460542d58b5b04f0fd281742f27e65d15c0ef0d2b195945fbfa24fee83cfc
89df99772c1f5f4efa010203010001a321301f300f0603551d110408300687040c22384f300c0603551d130101ff0402
3000300d06092a864886f70d01010b050003820101002e70df43b34c03197851a1adfff13be606c082344f3114ec49ab
b3462fb6792ae260a7efd5be1280c091580e113eb762236bbd2007bab72a53e7d240c699178e8f3fa099e7dd0bbcc8ea
b3f53d602fedc681cdb6fc7ab4343f41eb0204d248f495d4d2c3aa72c19b545365fdcce1eabb432a642c55077d34b3eb
1fbcd5a8ec90a4c2865aad5e6aa1ed0412e1f3cbcd29dca3cb103bbc534b0f9fa9111f0d2aa5c5f2a4292b1293d08eea
58bf8242ea046878949e4524c9674e1ae804fe541d5a76ac9218fc51a8fe432db72a1696c9c8fabaf2ac1fe0cc0ec58c
92b9974e2e23b1a4ba206797a2fe77bc24f206f2bf70a44cd935935b6bae8d8576ede6d2f43b".

(** [tests/tls_server_certs/ip4_address_san_rejected_if_in_excluded_subtree.ca.der] *)
Definition ip4_address_san_rejected_if_in_excluded_subtree_ca_der : Input := hex "
3082036b30820253a00302010202141e79dfb9224aa45633603b4cddb9d2e293d6b57b300d06092a864886f70d01010b
05003057311b301906035504030c126973737565722e6578616d706c652e636f6d31383036060355040a0c2f6970345f
616464726573735f73616e5f72656a65637465645f69665f696e5f6578636c756465645f73756274726565301e170d38
36313232333031353931315a170d3836313232333032303031315a3057311b301906035504030c126973737565722e65
78616d706c652e636f6d31383036060355040a0c2f6970345f616464726573735f73616e5f72656a65637465645f6966
5f696e5f6578636c756465645f7375627472656530820122300d06092a864886f70d01010105000382010f003082010a
0282010100c7a5ff5f593c59050ca55e09c6b15e33272686876b3ff8e4eec835a75a6477a115cf6bd0a658626e24c74c
9a3d594850cc035a3934c5b92aac53bdd15d776093dfd9048f026e2c7ce3a1b647c0a418956c95e0c83412d1c8ce6ef8
09fee28cfa257e9bbe1ce382a1578bcea0c7f9c00aac75c7c8b2cfeb3a11b0b82a51b5b0819cb47e64381107c268c7fe
fa78f6ab2cd8d8c89f918b60462e1f4c45df51c0bf803b4f488b6bb5e952fa3dc096cb95645d70a93ac7d8ebf311169c
c8c595fdbf13d0424c833bfa0a3eaa2e8ad991c2cdf218ab888fe4d67a30914474471a435ca4d7bd0d3c3eb16044d0a5
dae5253368e9697154bbca3f502beb267ecb609bc90203010001a32f302d300f0603551d130101ff040530030101ff30
1a0603551d1e0101ff0410300ea10c300a87080c223800ffffff00300d06092a864886f70d01010b050003820101003f
34676d420aa0f3307de02fb3f89e2c3caac312b0ca3f2d77db5b402f9602bf7cecaf6cbecf20c893d415df748580eba4
087941c761624e438a6b95c3eb5d32705b3aab85fca1697952bf80a8ab5ed71e1de1e14059a6aefc1b4050b44289990f
3da327153c72c302d7c75ff04ef5e5ddf486bf5bb93f1429717a5e357269675604321fb5766d74942c65fd50123cae9d
07f08b70617b67726433b657bf0098f482b0766e755a710f8e9229eb30ebb889a6e1d68565d0a1c6dd604ab59f9a9c11
985658737e2d7a4279badf7f119571e139b7aeb98d8c676390c5f8e4d6f856099e5da106e6a3d96cfd2dc4e309e12403
84a0d8cb40aa36578ccc34482b8eb8".

(** [tests/tls_server_certs/ip4_address_san_rejected_if_in_excluded_subtree.ee.der] *)
Definition ip4_address_san_rejected_if_in_excluded_subtree_ee_der : Input := hex "
3082034030820228a00302010202142436e2904281671685a9a994369c12de597d6b71300d06092a864886f70d01010b
05003057311b301906035504030c126973737565722e6578616d706c652e636f6d31383036060355040a0c2f6970345f
616464726573735f73616e5f72656a65637465645f69665f696e5f6578636c756465645f73756274726565301e170d38
36313232333031353931315a170d3836313232333032303031315a303a31383036060355040a0c2f6970345f61646472
6573735f73616e5f72656a65637465645f69665f696e5f6578636c756465645f7375627472656530820122300d06092a
864886f70d01010105000382010f003082010a0282010100c0c4f064e7dcd7860a501f2737321e4722a4ad71ebfa83e2
2f28df68d97f01b39545df93ede7ec57036ded3fb7559641594c8d28b571504d6022a4bd433b4f3e8e0ed172f62fd757
5934da68b69fcc4bda9c7d9eee72b742b0bf19ffc108eccc20bbcfd74587d7f9629233b4150293a9f35e3afe12f8432f
3506a605e8aea017bb5d68c0d496ed78ab7d25159ba997dd3aa5e4be3c3ff4f7acf2e6ca4a065e11e4f759a75cb377fc
84c999f9d21a61a5060504395e70f558124f125804dce6b3cf4530c330d3115943305bcd374960d54ed7722ffd81d846
05357587ba5cbf0c31108a875aaa638b799b68b63a359125976a130d0ec4c159d3a11ab54b4fcac10203010001a32130
1f300f0603551d110408300687040c22384e300c0603551d130101ff04023000300d06092a864886f70d01010b050003
8201010074123deec59ea1696cd4206318733949be112645898d0b71b542bf579e981475267dc731e70b15bb887e7e7a
0634edacafa00d28211b41f18fd2bab854f35d6ba1a931cdbb4201f36722853c5180fd9f2832323eeffd1e2fa60a8794
1c8a535e028e82a652c6e57b33fe62cb89b606b4faa215f0e25879f61143c6c2f0690fa4d79e9c965951efe61f1d9f42
eed7b4879bf4788cce649495ed876f0832cd2a1147c6cacaefb27d8e99e0235fb0eb8c03984d5a50156c8f11c5351244
38f0ccefefb23ce5337a19cae0b9085802c235c7376359601a24c3a7f50b2b0bba7452a644c74d28347bbe51289c9afb
19e08cf26a55c235cf91056e5f74549afe182348".

(** [tests/tls_server_certs/ip6_address_san_allowed.ca.der] *)
Definition ip6_address_san_allowed_ca_der : Input := hex "
308203533082023ba00302010202140f17870444d5f289140a0450c1085069c36b8500300d06092a864886f70d01010b
0500303f311b301906035504030c126973737565722e6578616d706c652e636f6d3120301e060355040a0c176970365f
616464726573735f73616e5f616c6c6f776564301e170d3836313232333031353931315a170d38363132323330323030
31315a303f311b301906035504030c126973737565722e6578616d706c652e636f6d3120301e060355040a0c17697036
5f616464726573735f73616e5f616c6c6f77656430820122300d06092a864886f70d01010105000382010f003082010a
0282010100c7a5ff5f593c59050ca55e09c6b15e33272686876b3ff8e4eec835a75a6477a115cf6bd0a658626e24c74c
9a3d594850cc035a3934c5b92aac53bdd15d776093dfd9048f026e2c7ce3a1b647c0a418956c95e0c83412d1c8ce6ef8
09fee28cfa257e9bbe1ce382a1578bcea0c7f9c00aac75c7c8b2cfeb3a11b0b82a51b5b0819cb47e64381107c268c7fe
fa78f6ab2cd8d8c89f918b60462e1f4c45df51c0bf803b4f488b6bb5e952fa3dc096cb95645d70a93ac7d8ebf311169c
c8c595fdbf13d0424c833bfa0a3eaa2e8ad991c2cdf218ab888fe4d67a30914474471a435ca4d7bd0d3c3eb16044d0a5
dae5253368e9697154bbca3f502beb267ecb609bc90203010001a3473045300f0603551d130101ff040530030101ff30
320603551d1e0101ff04283026a0243022872020010db9000000000000000000000000ffffffffffff00000000000000
000000300d06092a864886f70d01010b0500038201010027c230869f281ff7d885a852dec2405860320a074087c18b71
6f4d1c1d6eb4bd1d430cfb9fb78f93bd1141d5e9e79e9aac374f64160fa86df5ac1906a09802b19683d5d59f4476192d
e97493176b330f3849dfde0568e0a27218797c8201de9e83243982d1353febb5560cff2050d8ce6a4d48ed553c100a3c
994955e60cb0825bf0191a45ad0e5f86e72252f8f62c7b6d3f0709b7e11145ff6b05c62bbab45335fe13a3a5167905b6
699983ebad59f390eef497b17adaca018d1dd17fb0f79053fa20eee5ae1a822ad08ea72c397abb614fab3562bf36cbc9
6aca54dd6b9b97d575cd3b220f63c8612eaff175984b8611df71ba09e0c11b16269f75d0c6a8d3".

(** [tests/tls_server_certs/ip6_address_san_allowed.ee.der] *)
Definition ip6_address_san_allowed_ee_der : Input := hex "
3082031c30820204a0030201020214036148c696863987a997122a09b8bb9b24e15d0d300d06092a864886f70d01010b
0500303f311b301906035504030c126973737565722e6578616d706c652e636f6d3120301e060355040a0c176970365f
616464726573735f73616e5f616c6c6f776564301e170d3836313232333031353931315a170d38363132323330323030
31315a30223120301e060355040a0c176970365f616464726573735f73616e5f616c6c6f77656430820122300d06092a
864886f70d01010105000382010f003082010a0282010100a5c364e80065e7323bddb917ec2f4300cc1ce97d40395d78
33a99335d89801aaa4c9a6751ca463fc87eb581291aab766d432ae130a1432165ec48640e0faa1be66f86128fcafc1dd
75e280823642ef472185a49c6024c122f78f0b9780c83b9dd8fe748216d7724faf4ec45e3096d1c2474ff5355e803956
6500ad0dd67b9d04c0d3539a1566ea646be12eb5caed8d920efebebd9b6448ebb5496a3438f6193a2d3f0dc2a897ea8b
abb1845e07b9398f5712f9575787b49bc195d34e7876fa62d09c08f9a9df8814833a5cd9de7c994f25b671a4f520b7d9
862514ca12e33fc90b0d76988347b386e8ef4f5db87f15681fb439be4ed884e55c4301f9c98bc53b0203010001a32d30
2b301b0603551d1104143012871020010db9000000000000000000000001300c0603551d130101ff04023000300d0609
2a864886f70d01010b050003820101003fa4370f95a6911e08c86ee66ba4c994d587cc605296e610868a9f95123616ed
2a8926f85237e5bf5093b9d6c4a6648cfc62ea6ceb876733edf57d41ba1c6262a0b546dec8152756b2d1da03d0b9d39d
3e3a4c3ddc897d0461f5849e956030a879e8788a7a293b4dcc95a7d8062002b8a7aa4e7515b2dfe224a9769d28f97c94
a557592745b412e2588f1f7d346ec79c8b6e2aee31db0a8948ec4aefe78a4c1357fd1044f35accea3a71eef16af7dc98
d5346f8027f97337e8a1f9cf2527dd432ca54fd20ef11d22860cbe1f0421adfb7237b858fedac45ef0965d844d5eb13b
aa367f9594105bf7ea4d99b6c6cd0e296faa4dd55501d638dd34af89f6411aa0".

(** [tests/tls_server_certs/ip6_address_san_allowed_if_outside_excluded_subtree.ca.der] *)
Definition ip6_address_san_allowed_if_outside_excluded_subtree_ca_der : Input := hex "
3082038b30820273a003020102021469cc769ac24da3da3f056554cb612cdce92987cc300d06092a864886f70d01010b
0500305b311b301906035504030c126973737565722e6578616d706c652e636f6d313c303a060355040a0c336970365f
616464726573735f73616e5f616c6c6f7765645f69665f6f7574736964655f6578636c756465645f7375627472656530
1e170d3836313232333031353931315a170d3836313232333032303031315a305b311b301906035504030c1269737375
65722e6578616d706c652e636f6d313c303a060355040a0c336970365f616464726573735f73616e5f616c6c6f776564
5f69665f6f7574736964655f6578636c756465645f7375627472656530820122300d06092a864886f70d010101050003
82010f003082010a0282010100c7a5ff5f593c59050ca55e09c6b15e33272686876b3ff8e4eec835a75a6477a115cf6b
d0a658626e24c74c9a3d594850cc035a3934c5b92aac53bdd15d776093dfd9048f026e2c7ce3a1b647c0a418956c95e0
c83412d1c8ce6ef809fee28cfa257e9bbe1ce382a1578bcea0c7f9c00aac75c7c8b2cfeb3a11b0b82a51b5b0819cb47e
64381107c268c7fefa78f6ab2cd8d8c89f918b60462e1f4c45df51c0bf803b4f488b6bb5e952fa3dc096cb95645d70a9
3ac7d8ebf311169cc8c595fdbf13d0424c833bfa0a3eaa2e8ad991c2cdf218ab888fe4d67a30914474471a435ca4d7bd
0d3c3eb16044d0a5dae5253368e9697154bbca3f502beb267ecb609bc90203010001a3473045300f0603551d130101ff
040530030101ff30320603551d1e0101ff04283026a1243022872020010db8000000000000000000000000ffffffffff
ff00000000000000000000300d06092a864886f70d01010b0500038201010067ecf4a5d1044756b7c03f0ac4858f30d2
1dd976c2c94b053b2bb116b7deb506f29cc25bb78dd278a06d42f6f28794afeac59059424b1d01319e586a6b9c2c89fa
370fd70b119c4d7cb28e9e6266c44bd5d0f2b2c7d1ce54a40d557f69a1848d3e93599503765a792bd5fa51c4297fd958
f3b9e183a0de92fb643af89d8dbfd1a9d0c3f9fcd3be5eb0f6aa7ea19f8fa3c589c237756f82789744f9f2de235f06be
cc41b440ecc22e0ffe138854d263e5c28c4378aa24c4be19dbd905a6381a7590caffbc2cc45bdd9976dc9f793599d9f5
691e8e110bbef095e8a1d07d06bd3f98d00515944a0cc327b8029fbc023d562b103ed7bbfe58cc1a69acac34bd4f0e".

(** [tests/tls_server_certs/ip6_address_san_allowed_if_outside_excluded_subtree.ee.der] *)
Definition ip6_address_san_allowed_if_outside_excluded_subtree_ee_der : Input := hex "
308203543082023ca003020102021422acfab783d813c6fe1a94f10a7f678a2f8104a8300d06092a864886f70d01010b
0500305b311b301906035504030c126973737565722e6578616d706c652e636f6d313c303a060355040a0c336970365f
616464726573735f73616e5f616c6c6f7765645f69665f6f7574736964655f6578636c756465645f7375627472656530
1e170d3836313232333031353931315a170d3836313232333032303031315a303e313c303a060355040a0c336970365f
616464726573735f73616e5f616c6c6f7765645f69665f6f7574736964655f6578636c756465645f7375627472656530
820122300d06092a864886f70d01010105000382010f003082010a0282010100b69f71f5e65b575ae84e4395575112e7
1919f87c576d012251e42fcdbe5a5cc6c083fdf52cd5aaaad1a085ed6a99c744bdcdfe8bca44ef065cf36da2719fc5b1
9972850d3a7e3731464b4cb2425f3e0c721f628a01a2a6210ab0400fc95ea26c527f827033b2b7777d775e08c6447b01
ad0e928c356f02a9db751984829d72f6c22d4e4b8886e26865acde26df175f12f12a5b2e25fd1c134f8bc8f7fbbce992
197adc5a607d3a62d7848f5e1995822ad39c39c44d89acd5ede7ce1620f0bda4f0f911f82433891d1ecce26c8ee99c5b
b00bcda9f9088d9de61d38b9304b6e76bf29940e43817e307ea7356bbb1b3b08f96f9ce664efbfc98dc7acfa00dfa29f
0203010001a32d302b301b0603551d1104143012871020010db9000000000000000000000001300c0603551d130101ff
04023000300d06092a864886f70d01010b0500038201010004ab7ed98c9743279bb8fa2b821327980d1b46d3c8629a7b
cdef957e4bbe0dabcb46a299740ccdb083d42e19eba8467b8d8f4aa49ebf9bec2764e6033a301fada2f5ae682d276988
c5f221f06b8b422c67e030e1386666d2fad0ddc98c230108b271173237eb3eabb544271b6e4d6e70d64d24a93f665b17
aa2a816d66cf785c39065eaff16546be0c11988b4ac7766d4fe58a6fb43d5d877e16dd6970edc35f51446f1f9e304a62
68808d03d933fcfaf39c4bc04c6a107d222cef76a7801194930b481ce0fdfb80fd4411338104bdb93a72a86ccf31a956
6c4319bbde9935f83bcf7920b01dbbefe5e49b5bbdbc054d665a78568273ab3ea1ca172bd03dc73f".

(** [tests/tls_server_certs/ip6_address_san_rejected_if_in_excluded_subtree.ca.der] *)
Definition ip6_address_san_rejected_if_in_excluded_subtree_ca_der : Input := hex "
308203833082026ba00302010202147fb56677660ca3597d489f4529a560abc03c1996300d06092a864886f70d01010b
05003057311b301906035504030c126973737565722e6578616d706c652e636f6d31383036060355040a0c2f6970365f
616464726573735f73616e5f72656a65637465645f69665f696e5f6578636c756465645f73756274726565301e170d38
36313232333031353931315a170d3836313232333032303031315a3057311b301906035504030c126973737565722e65
78616d706c652e636f6d31383036060355040a0c2f6970365f616464726573735f73616e5f72656a65637465645f6966
5f696e5f6578636c756465645f7375627472656530820122300d06092a864886f70d01010105000382010f003082010a
0282010100c7a5ff5f593c59050ca55e09c6b15e33272686876b3ff8e4eec835a75a6477a115cf6bd0a658626e24c74c
9a3d594850cc035a3934c5b92aac53bdd15d776093dfd9048f026e2c7ce3a1b647c0a418956c95e0c83412d1c8ce6ef8
09fee28cfa257e9bbe1ce382a1578bcea0c7f9c00aac75c7c8b2cfeb3a11b0b82a51b5b0819cb47e64381107c268c7fe
fa78f6ab2cd8d8c89f918b60462e1f4c45df51c0bf803b4f488b6bb5e952fa3dc096cb95645d70a93ac7d8ebf311169c
c8c595fdbf13d0424c833bfa0a3eaa2e8ad991c2cdf218ab888fe4d67a30914474471a435ca4d7bd0d3c3eb16044d0a5
dae5253368e9697154bbca3f502beb267ecb609bc90203010001a3473045300f0603551d130101ff040530030101ff30
320603551d1e0101ff04283026a1243022872020010db8000000000000000000000000ffffffffffff00000000000000
000000300d06092a864886f70d01010b05000382010100b62be86637e6ee604dad2c60e15865311e86d841aa4f8a3120
db48175eedd1270818cd2122fa9fa9619468674d28f6340664c16b56d22988c1ede3c15ca0bee7b5ce69573e813d79f4
64dd4035e9425f158d9d59e855c0e469ea75eb70538502fce281b6cec624755820ff346545601f173be69f44a39af8a7
dc2ea6a0f9a05f7d8d5028557f23c3ecdab1b49052cd94d073dbe5c975b7bf384e959678a3e7c7c146ac13411dd7a4e3
85d29e0f9437547804706618a6d364ce5a7e0c7b33a438880b545e52c828dcf5cbb151bd3f5d6d8e1d9a3964655fedc2
5b9e2857fc222f41eb42e8deba9dbdb6a591b5d6f031991ebee07518d198b69bd0fac78082879f".

(** [tests/tls_server_certs/ip6_address_san_rejected_if_in_excluded_subtree.ee.der] *)
Definition ip6_address_san_rejected_if_in_excluded_subtree_ee_der : Input := hex "
3082034c30820234a0030201020214279b317ce495045c2f45bddfe6937366abba22e5300d06092a864886f70d01010b
05003057311b301906035504030c126973737565722e6578616d706c652e636f6d31383036060355040a0c2f6970365f
616464726573735f73616e5f72656a65637465645f69665f696e5f6578636c756465645f73756274726565301e170d38
36313232333031353931315a170d3836313232333032303031315a303a31383036060355040a0c2f6970365f61646472
6573735f73616e5f72656a65637465645f69665f696e5f6578636c756465645f7375627472656530820122300d06092a
864886f70d01010105000382010f003082010a0282010100b28031688f05fc8131c04d706f6a3b69cc568a73bdd89bb2
8347e7089dbdcd73dab9e411cb457de70ca4b710eeb8d17403bd6d65069f1126c021b9e2f64ca298ab921d4727698a6f
d99c26a38e18a144c339f98de44cadfdebb63924ff4ed57179a5860643ed85e3162ab9286aeeefaff502638f74432b3b
2ebc6609a588888ee5cea5f30f976aac16691c5e3e8558628191c4421f35b951e19c56b23c1a16934eb7bac11a24b7c6
092a9170f51ba18117870912377c796a916a3d1f45dbf768866af68f084e0b1e76be221206ae558e6f6bcaa59e499421
09d21df272406f2563767ec1a797b93fcace38ba7bf8e1608694e03d41795e3bfe7eba7e0919139d0203010001a32d30
2b301b0603551d1104143012871020010db8000000000000000000000001300c0603551d130101ff04023000300d0609
2a864886f70d01010b0500038201010006bc7b83c87ca509c35961e908a2a90ed0e0c1a4fc6bf7230e227fd1d34edbec
face1996e13274e3c8630c9a3f684197d32f7c01ade1fe9fc8d927db96f0dc49f2b4867fee374dd1e61f4a77b5a1efc2
0e5193c368a1a508ec0c322e79a3e29127b4666b11ab368419db2f322b796c25ec79a4697cd738a19b2f2121e659d24d
feceaf897604759d8e249e1d7fdd99ca399f192b6faaabd869246e6b1743c6522bc52d35fc1722e4738c955d0ee01b6a
a1ec25f05bd17d096d2eda15b9acffd106bb8b3196045edcd2cba3828f28b27a77a8b86e8306e67148d29c62319088dc
44df7784960c34334fbd6bc2f23809ee53ea0a668341559831d6b7fece2d5cdc".

(** [tests/tls_server_certs/no_name_constraints.ca.der] *)
Definition no_name_constraints_ca_der : Input := hex "
30820317308201ffa0030201020214486ec1af3f3dfc9081ae9151132b2ac3e669e6c0300d06092a864886f70d01010b
0500303b311b301906035504030c126973737565722e6578616d706c652e636f6d311c301a060355040a0c136e6f5f6e
616d655f636f6e73747261696e7473301e170d3836313232333031353931315a170d3836313232333032303031315a30
3b311b301906035504030c126973737565722e6578616d706c652e636f6d311c301a060355040a0c136e6f5f6e616d65
5f636f6e73747261696e747330820122300d06092a864886f70d01010105000382010f003082010a0282010100c7a5ff
5f593c59050ca55e09c6b15e33272686876b3ff8e4eec835a75a6477a115cf6bd0a658626e24c74c9a3d594850cc035a
3934c5b92aac53bdd15d776093dfd9048f026e2c7ce3a1b647c0a418956c95e0c83412d1c8ce6ef809fee28cfa257e9b
be1ce382a1578bcea0c7f9c00aac75c7c8b2cfeb3a11b0b82a51b5b0819cb47e64381107c268c7fefa78f6ab2cd8d8c8
9f918b60462e1f4c45df51c0bf803b4f488b6bb5e952fa3dc096cb95645d70a93ac7d8ebf311169cc8c595fdbf13d042
4c833bfa0a3eaa2e8ad991c2cdf218ab888fe4d67a30914474471a435ca4d7bd0d3c3eb16044d0a5dae5253368e96971
54bbca3f502beb267ecb609bc90203010001a3133011300f0603551d130101ff040530030101ff300d06092a864886f7
0d01010b05000382010100799f249e056d8b45ebe42258203851b98453ed33e32607968bfca4adc851e26b380e892d4a
7aaff86fc564b34ea0815177ac9b7809c318b6210ce41c1f0e8258b78be5cd898bc35cf94f1a9ec2a0fab75a41377365
34f4e52e953b888933e45e300ede7625a92105c0cbccbd988d2057bcc92b41b50f8909ff6ae4adab1b50b87535c0f8f8
910dabb93cb3ae98930a5403dba98c5ed40bfc58afa80c5e8268ab4c91a0bc88e2cb6a49d0489789dfcc904092114bfd
ce1f4fc6daade6da117a42a860b341d30bcbdabffee5990cefb4ded3c803941cda94a405b5bfadd5a32e958c26ee6649
e19bdaf0932447b4fb2a6a5881fe9e59322d88b608aaccb71c6164".

(** [tests/tls_server_certs/no_name_constraints.ee.der] *)
Definition no_name_constraints_ee_der : Input := hex "
3082033130820219a00302010202140e020d077ec41e5fe594d7a4ecc6302e1fae4196300d06092a864886f70d01010b
0500303b311b301906035504030c126973737565722e6578616d706c652e636f6d311c301a060355040a0c136e6f5f6e
616d655f636f6e73747261696e7473301e170d3836313232333031353931315a170d3836313232333032303031315a30
3c311c301a06035504030c137375626a6563742e6578616d706c652e636f6d311c301a060355040a0c136e6f5f6e616d
655f636f6e73747261696e747330820122300d06092a864886f70d01010105000382010f003082010a0282010100cead
29be00a3ced8540893818ab5ae9b4777da464589f66f7309c2eebdc58802ede80ff28f89cf8a7324c54092e9b9f3be26
ccac04c9d755f5bd3259ecc8bf122e367bf9ed8ddad72755209a5555f9d8c428635aae20b32bc3b4fe8d28218006eecc
c1c062604a49b823462e1d6fe4b2469f9bc3334fc1fc4add6c3464d7eec03c0a54a87b7fb08a2fd267b8ade113a69ad9
249030aa537fa99210206dab615bd1ba35db4dc2b84ce3da2a5fe7c48c03faab5fe610a5dd052eb73ce0d2d8bed4cac3
f48346cd3f7ddfd386524783a5aee6142e042116de3ac21c17c6fb2394d866c9449b082f0816a7a879dbce0e2a29ccd5
62da3f348dcfa7e3ba8bb74b1c710203010001a32c302a301a0603551d1104133011820f646e732e6578616d706c652e
636f6d300c0603551d130101ff04023000300d06092a864886f70d01010b050003820101001792c61577d8758e720066
775b5cfc2c14a67b1ae2b210e8b1e48eeaea8d4e5aea76a9e5da9120f151feadcc75214fa4f2ef5fdccf315b822e9496
c06ec777b14789b86d78493707e0487c46f14e5b65560eef6c8b065013a65c6b37266df1346ae2d9f2a3af04ca672d63
81edbbc711db740968f03dd2bd8e34f224a737fbb44c08d64d6a100da8591b01143ad92f4600e17c4962c73dbd088e2c
e92cf2c5da80389405a36e684de54cee418c3a9ecfff765304af2449845149b4276410742a245adcb1758c1ae2c041d3
c0b6a023c7e5e7f1fa018c13f09a483c036dba821805ed27ff0dbbf13ad30340071605293cf2f4346104bbd748622e98
50918f50dd".

(** [tests/tls_server_certs/permit_directory_name_not_implemented.ca.der] *)
Definition permit_directory_name_not_implemented_ca_der : Input := hex "
3082035e30820246a00302010202147dc318d164ae3ba4be63c9055da7617d76cf705f300d06092a864886f70d01010b
0500304d311b301906035504030c126973737565722e6578616d706c652e636f6d312e302c060355040a0c257065726d
69745f6469726563746f72795f6e616d655f6e6f745f696d706c656d656e746564301e170d3836313232333031353931
315a170d3836313232333032303031315a304d311b301906035504030c126973737565722e6578616d706c652e636f6d
312e302c060355040a0c257065726d69745f6469726563746f72795f6e616d655f6e6f745f696d706c656d656e746564
30820122300d06092a864886f70d01010105000382010f003082010a0282010100c7a5ff5f593c59050ca55e09c6b15e
33272686876b3ff8e4eec835a75a6477a115cf6bd0a658626e24c74c9a3d594850cc035a3934c5b92aac53bdd15d7760
93dfd9048f026e2c7ce3a1b647c0a418956c95e0c83412d1c8ce6ef809fee28cfa257e9bbe1ce382a1578bcea0c7f9c0
0aac75c7c8b2cfeb3a11b0b82a51b5b0819cb47e64381107c268c7fefa78f6ab2cd8d8c89f918b60462e1f4c45df51c0
bf803b4f488b6bb5e952fa3dc096cb95645d70a93ac7d8ebf311169cc8c595fdbf13d0424c833bfa0a3eaa2e8ad991c2
cdf218ab888fe4d67a30914474471a435ca4d7bd0d3c3eb16044d0a5dae5253368e9697154bbca3f502beb267ecb609b
c90203010001a3363034300f0603551d130101ff040530030101ff30210603551d1e0101ff04173015a0133011a40f30
0d310b300906035504061302434e300d06092a864886f70d01010b0500038201010093e75e90af341a1ccbc9286efaed
c3e4a36d8e1b9a8145ccab569457b19fed402af4f52ac0e31b3970009c5096170f584b84151374bcb77c5648a4a81209
d79882e8b454e88d254f3a5a71151a974dff097379079bf39ff03540823d4d62f015f4cd3e62055421eb227f73ec56b3
7d9d14ebe9453f956acfe2fa1e5f83fc60931bdfa1ccb5108e3a63e729449aa859a80febdbfec0762ffb2f66f555d493
7c08aa9068340135d6de8c276bb77646c3439a4e43e610bf809b3ff9532a4853f0b5d7966b6cf8753992886181dd5d0d
b620b3913a9b5706693503e4c9214abee25e46ca13b93ab9315b260c7e67b5dd30130754a4bc0150602d0df4a7ca18ad
67a8".

(** [tests/tls_server_certs/permit_directory_name_not_implemented.ee.der] *)
Definition permit_directory_name_not_implemented_ee_der : Input := hex "
3082031b30820203a0030201020214660ab558e93297544e23ea9200e1ac481c9e7ac6300d06092a864886f70d01010b
0500304d311b301906035504030c126973737565722e6578616d706c652e636f6d312e302c060355040a0c257065726d
69745f6469726563746f72795f6e616d655f6e6f745f696d706c656d656e746564301e170d3836313232333031353931
315a170d3836313232333032303031315a3030312e302c060355040a0c257065726d69745f6469726563746f72795f6e
616d655f6e6f745f696d706c656d656e74656430820122300d06092a864886f70d01010105000382010f003082010a02
82010100b1776ca29f102243b80e8cc1eb31b894012bbbc6e9224e1bd754842d9458aa0c28c659ba8646703cb872703f
6802b999b7dc6a662569f6385b85e012630a6800ca7c2661491c10634bb686ecb17028c511a00c8c7fc445a2ceb16355
913952d87f25c0dd225dc3ad55edcff9a634af9f1a5e8494a5247c0195df0dca98e57d13f02114881d1373dc3e7c0eb4
fa260dfa2361073ee7172b30898464d0c75948e454dda6185ad0dd5afa4ddd0debbeec0adb93f1f731d54436e07e0ecc
846ab44b0fc8a94d996656f75ce4967994d13283fbe32066a8f1604f5e22107a495259173b7a614bf6403f0b02e3ca2b
172db4e6b8b9d1c37d57d9438032af6e1977a4610203010001a310300e300c0603551d130101ff04023000300d06092a
864886f70d01010b0500038201010007c40209bb1eff5e6548ccb3a5da515572c5bf92bf8bc1dd52261fbe9dc577fa24
4a3d755a8a82e27a50926ea5074d0a813dfd0808bd7c7c13a85d59f57874becb889c5b284045bd9a35fc055aa22d5ec7
437b61c63d42d30196ce0cd66f39918b88d04cd79c97217b372a6d87fe577c484a8c76a914996d4b345ba4d606b5942c
fc6d102378a8d49e1a4681de18d87f9e88dfa9f10e8ef3251464185d477b9ac69b5ec885a6c749cb606d4982f6f20fad
3b54488eabce69e0fab6a634694fe6f64ab7254f7f4b43bc0cc4e1577dc571ee083ec1a1eb2c610869bddb20090b8d70
a048944785edf56bdebace85074bee74b1da8e88269f9da1e176923d82db9c".

(** [tests/tls_server_certs/reject_constraints_on_unimplemented_names.ca.der] *)
Definition reject_constraints_on_unimplemented_names_ca_der : Input := hex "
308203623082024aa00302010202147e46b7396f64101eb4dd8a9bcc28e92ddda212aa300d06092a864886f70d01010b
05003051311b301906035504030c126973737565722e6578616d706c652e636f6d31323030060355040a0c2972656a65
63745f636f6e73747261696e74735f6f6e5f756e696d706c656d656e7465645f6e616d6573301e170d38363132323330
31353931315a170d3836313232333032303031315a3051311b301906035504030c126973737565722e6578616d706c65
2e636f6d31323030060355040a0c2972656a6563745f636f6e73747261696e74735f6f6e5f756e696d706c656d656e74
65645f6e616d657330820122300d06092a864886f70d01010105000382010f003082010a0282010100c7a5ff5f593c59
050ca55e09c6b15e33272686876b3ff8e4eec835a75a6477a115cf6bd0a658626e24c74c9a3d594850cc035a3934c5b9
2aac53bdd15d776093dfd9048f026e2c7ce3a1b647c0a418956c95e0c83412d1c8ce6ef809fee28cfa257e9bbe1ce382
a1578bcea0c7f9c00aac75c7c8b2cfeb3a11b0b82a51b5b0819cb47e64381107c268c7fefa78f6ab2cd8d8c89f918b60
462e1f4c45df51c0bf803b4f488b6bb5e952fa3dc096cb95645d70a93ac7d8ebf311169cc8c595fdbf13d0424c833bfa
0a3eaa2e8ad991c2cdf218ab888fe4d67a30914474471a435ca4d7bd0d3c3eb16044d0a5dae5253368e9697154bbca3f
502beb267ecb609bc90203010001a3323030300f0603551d130101ff040530030101ff301d0603551d1e0101ff041330
11a00f300d810b6578616d706c652e636f6d300d06092a864886f70d01010b0500038201010035a06b96a583b4fc1032
a6efe898c021cd30af51b5065fc1a7a5f125b406a11afbb6e23d980fe93ead7c4c75776a798c0a638cf55ee8e8ca015f
a9f2b3b6706bc066fa755968f109f794b25e3165e55af8ce1db7b93ec5b4880365bbfc881c3293928e610ebb633f9f10
ecfd9763a731dbc38a412dfc863567e29272b4981a0ab1b5f03dc0deecfb624eca1bebb455215fce678fe465074eab0c
1823e8421a4d3e5077db385af489f0836460889e1c0aa7bfb4a993d4cdd1f5cb5b1fd21e80a315c9b3a9177896260c43
3e7b968ee8eff394c2d353ec7074f588bcc392fe35e201f74937e5de138509d5d1100ba8d693771a1145b1e907c36875
83aca2665869".

(** [tests/tls_server_certs/reject_constraints_on_unimplemented_names.ee.der] *)
Definition reject_constraints_on_unimplemented_names_ee_der : Input := hex "
3082033f30820227a00302010202141392457230294c9adb05a54d43e598849f7a6d03300d06092a864886f70d01010b
05003051311b301906035504030c126973737565722e6578616d706c652e636f6d31323030060355040a0c2972656a65
63745f636f6e73747261696e74735f6f6e5f756e696d706c656d656e7465645f6e616d6573301e170d38363132323330
31353931315a170d3836313232333032303031315a303431323030060355040a0c2972656a6563745f636f6e73747261
696e74735f6f6e5f756e696d706c656d656e7465645f6e616d657330820122300d06092a864886f70d01010105000382
010f003082010a0282010100bf54ee3c0d21ae1b85b59571ab1bd2dc0bf021c959b6ec64f1559e0af71b36bc4679a8f6
0729de65c52a969352579451b8406d82d7e1ca4fd88554878333b1fe7b16ece3bc1ad6d9f8516b80ddbd6ecec0eef727
e3b6065ea473d079310d509aca672132ca69c5147b71739ea44cdcbb0e9d925b40a05fe58bc534c23b2f352ece176773
7db1d93f98b23ec1b15a6fa034b2d318ae361d94c801b92ad932c985769d937ba61173897dc85aac8e07f0c193caab0c
d3e3164236cbcb223d79b790b0dc63b284e135d754ed69d10b67b9d5deedb85e33a6b8c869a922a711f34b1301bfb176
45c232d6fd1246d8b015ce660a11c1b669baff1ebf5d3ddaddb93cd10203010001a32c302a301a0603551d1104133011
810f6a6f65406578616d706c652e636f6d300c0603551d130101ff04023000300d06092a864886f70d01010b05000382
0101002e163410655acbafbe1bc16ca7e851219729d43d6ad9ebf537636f0bcd45a5462f80da7333d8299c7e42d4fa16
654f39b4b49f02dfc53c34c1b7ef2ab8489725cef7c52bef550fe1ec40190aa8d3e5f571ea3fde20b28a596da5330b24
665d0bbe5fc30549af2460eece498a618eca6c78fbbfa4a88946e7c71f845dfd1ffb3ee0e9ec5c6250c92414673e179c
6bc7c5151f460eea5d44830eb0d7193113f6ce8cbf0d3688546c9067ff2f6587f449549be549c5ba326fffa85e6af9ba
f6e2adabfcecc7b781f4406533f5003210268c0e916e901847d7210f31756607b88c833077db7b1f5b3655fc1ea4a65d
900d5389debefa17af5c3cc83321b9124f3367".

(** [tests/tls_server_certs/we_ignore_constraints_on_names_that_do_not_appear_in_cert.ca.der] *)
Definition we_ignore_constraints_on_names_that_do_not_appear_in_cert_ca_der : Input := hex "
308203823082026aa0030201020214376f8b839b26b382f17e08bcc8359bd198739893300d06092a864886f70d01010b
05003061311b301906035504030c126973737565722e6578616d706c652e636f6d31423040060355040a0c3977655f69
676e6f72655f636f6e73747261696e74735f6f6e5f6e616d65735f746861745f646f5f6e6f745f6170706561725f696e
5f63657274301e170d3836313232333031353931315a170d3836313232333032303031315a3061311b30190603550403
0c126973737565722e6578616d706c652e636f6d31423040060355040a0c3977655f69676e6f72655f636f6e73747261
696e74735f6f6e5f6e616d65735f746861745f646f5f6e6f745f6170706561725f696e5f6365727430820122300d0609
2a864886f70d01010105000382010f003082010a0282010100c7a5ff5f593c59050ca55e09c6b15e33272686876b3ff8
e4eec835a75a6477a115cf6bd0a658626e24c74c9a3d594850cc035a3934c5b92aac53bdd15d776093dfd9048f026e2c
7ce3a1b647c0a418956c95e0c83412d1c8ce6ef809fee28cfa257e9bbe1ce382a1578bcea0c7f9c00aac75c7c8b2cfeb
3a11b0b82a51b5b0819cb47e64381107c268c7fefa78f6ab2cd8d8c89f918b60462e1f4c45df51c0bf803b4f488b6bb5
e952fa3dc096cb95645d70a93ac7d8ebf311169cc8c595fdbf13d0424c833bfa0a3eaa2e8ad991c2cdf218ab888fe4d6
7a30914474471a435ca4d7bd0d3c3eb16044d0a5dae5253368e9697154bbca3f502beb267ecb609bc90203010001a332
3030300f0603551d130101ff040530030101ff301d0603551d1e0101ff04133011a00f300d810b6578616d706c652e63
6f6d300d06092a864886f70d01010b05000382010100af67cb053fd80f02f335bdb502eed53d96ece6f93936e9656820
b867a1c6831c6f855cce11b7065960137322a3f597e2a9bf915f3a93b831aa7490b677272adfaac48720e168a4dfc968
e0ed809adf5f1f4da27c8b465e650ec711e40eb8040d45973ab973648f37f0734088251b77db22d8f5ed036278eed87d
3cbc0a5aa2f2872e70a3cf32c65c31c458d197da96c47b034c395e630c1cd2612560e34c467b03eed892fb0afbfa02ce
c0a5029c31b220718889af6f24044f4a97d0f3e083080323f845ff85db2e4de4f6219abcc569272aa22b2335e9de4350
24790a9877f87e056a8a57318cfe020c61723a8b5feface1de651542d41efa23260d22d4d9a2".

(** [tests/tls_server_certs/we_ignore_constraints_on_names_that_do_not_appear_in_cert.ee.der] *)
Definition we_ignore_constraints_on_names_that_do_not_appear_in_cert_ee_der : Input := hex "
3082035e30820246a003020102021450fd0f04b00467e84d76739b7d8a4fc8cad83dc7300d06092a864886f70d01010b
05003061311b301906035504030c126973737565722e6578616d706c652e636f6d31423040060355040a0c3977655f69
676e6f72655f636f6e73747261696e74735f6f6e5f6e616d65735f746861745f646f5f6e6f745f6170706561725f696e
5f63657274301e170d3836313232333031353931315a170d3836313232333032303031315a304431423040060355040a
0c3977655f69676e6f72655f636f6e73747261696e74735f6f6e5f6e616d65735f746861745f646f5f6e6f745f617070
6561725f696e5f6365727430820122300d06092a864886f70d01010105000382010f003082010a0282010100bddaeecf
28a4106a71b03aa01d4e64eaa126576168aeadcb779948820314b4452f194b3257734b5401d8295561efd9c3f8a420fa
57025b2bbf9843059c7c2340398760baf9cdb432122ef852b58168ba9e12da663253f20343f789a1cb0fdb089e230083
13ac28265735e62f122cc802afdad03745a5ad38957c2154e391ae66488772d91cacccbd03947f95cad26f5ee1cdacab
3324f35d2933d0efb0907580d1ea86ca1353115731041ae3299d4e47c572a21eb0fb7a9639943254a1d10690c52ee8a1
7c7e93723927d8210de11019f68cc380f9c0263ef289207c6d9244c1df96edcff819aefd44b1c561060245a8ad89fa61
e8add5ea0f194c03dde1084b0203010001a32b302930190603551d1104123010820e6e6f746578616d706c652e636f6d
300c0603551d130101ff04023000300d06092a864886f70d01010b05000382010100a9b606cee66ea64c70726d8bed8a
2ee007a5a09437c3b04cb7287e0907e3e498a9a9cc03d8191192be38bd343121549fa29566690bde0ec0e48e8438dcd6
4d43270769bea3eb27d571c991b5da11d5bc8697b07b410cb6cbbf993b531cfb5b221cd5d210e72c0cce33029ff41643
474321db162a8e61b047f28a972e5049ccdb1d738a8a5b669dae34d1fbbdd774b85012c434cd2abf8940765fb5b79d1d
12e50b334bc98d8d1b86d9aec11dd6b5ce19cac737f84b0870947afce10431b32138ce9b0dd8423906bc3e74837a7e69
86ea21553ea8e48d40fe5443ca983b07be47ef5cf1f1f8db6dce69a06b7a8cc391167583854153e311510b16820a50b8
a2ce".

(** [tests/tls_server_certs/we_incorrectly_ignore_name_constraints_on_name_in_subject.ca.der] *)
Definition we_incorrectly_ignore_name_constraints_on_name_in_subject_ca_der : Input := hex "
308203823082026aa00302010202142d61d309eba305c3a7f221185159a23a8c9747ce300d06092a864886f70d01010b
05003061311b301906035504030c126973737565722e6578616d706c652e636f6d31423040060355040a0c3977655f69
6e636f72726563746c795f69676e6f72655f6e616d655f636f6e73747261696e74735f6f6e5f6e616d655f696e5f7375
626a656374301e170d3836313232333031353931315a170d3836313232333032303031315a3061311b30190603550403
0c126973737565722e6578616d706c652e636f6d31423040060355040a0c3977655f696e636f72726563746c795f6967
6e6f72655f6e616d655f636f6e73747261696e74735f6f6e5f6e616d655f696e5f7375626a65637430820122300d0609
2a864886f70d01010105000382010f003082010a0282010100c7a5ff5f593c59050ca55e09c6b15e33272686876b3ff8
e4eec835a75a6477a115cf6bd0a658626e24c74c9a3d594850cc035a3934c5b92aac53bdd15d776093dfd9048f026e2c
7ce3a1b647c0a418956c95e0c83412d1c8ce6ef809fee28cfa257e9bbe1ce382a1578bcea0c7f9c00aac75c7c8b2cfeb
3a11b0b82a51b5b0819cb47e64381107c268c7fefa78f6ab2cd8d8c89f918b60462e1f4c45df51c0bf803b4f488b6bb5
e952fa3dc096cb95645d70a93ac7d8ebf311169cc8c595fdbf13d0424c833bfa0a3eaa2e8ad991c2cdf218ab888fe4d6
7a30914474471a435ca4d7bd0d3c3eb16044d0a5dae5253368e9697154bbca3f502beb267ecb609bc90203010001a332
3030300f0603551d130101ff040530030101ff301d0603551d1e0101ff04133011a00f300d810b6578616d706c652e63
6f6d300d06092a864886f70d01010b05000382010100bd1a892742de688e911ed1f322d85da42fd5df814fb38b52a15b
14e2ad176867f93827b0ae409ff25f43448d99a35898e69e17df3ccb4245c0a84dd12baeb7d288a460c7a0383e417efd
7f328be0f28bdc34647513bc0ca76bde138961082781c3ecbec2fa96173778c86a375a0c398c6398a888efc2f0ac03e2
bbba609d4926a3ae6194c8005f04d070bee9def892c86993475e6fd76a16c67e5b16999dcb0c89445eebc50c54c6e2a2
75cf59dc0a1ccbb07381281ae9cbbd24aacc0a3faa7956c081ccaff8c47ccbaa0f50525becb6d5eaf058d0b8d2d7bc37
0f23b25c198581e94a51e141546b5dc4cdf7ff701313e14b308c38beadb4cdcd86c4cbffa1a6".

(** [tests/tls_server_certs/we_incorrectly_ignore_name_constraints_on_name_in_subject.ee.der] *)
Definition we_incorrectly_ignore_name_constraints_on_name_in_subject_ee_der : Input := hex "
308203663082024ea0030201020214311601c47815c00385afee9bde1f28a961a38b99300d06092a864886f70d01010b
05003061311b301906035504030c126973737565722e6578616d706c652e636f6d31423040060355040a0c3977655f69
6e636f72726563746c795f69676e6f72655f6e616d655f636f6e73747261696e74735f6f6e5f6e616d655f696e5f7375
626a656374301e170d3836313232333031353931315a170d3836313232333032303031315a306731423040060355040a
0c3977655f696e636f72726563746c795f69676e6f72655f6e616d655f636f6e73747261696e74735f6f6e5f6e616d65
5f696e5f7375626a6563743121301f06092a864886f70d01090116126a6f65406e6f746578616d706c652e636f6d3082
0122300d06092a864886f70d01010105000382010f003082010a0282010100c38f0477fde6adc859e6d37893ab12080f
07ae72f03bb4035b67dc7847fbc3b1e441278bf228f2f310b7d9bf8e7808aef2655b4899f4427210e9b9ac32ce34e117
c5eea8ce0c991969cd5769e6f72318429c12e8bb69f62cab1b696ae900ff47278e4ded588dcb8d38cfd2b5952998cad0
dcdde0f91a330c33d8ae38e84aec81360019f15e49d84b8afed9ae55fb350718a9944013e45a07550ae2de702e06696d
84e808098be24d32dd0ee415657c2236789dc19cc66d7b5787dcbaca8ff65b18c2d8b8d1f5e8d50641b6dac22dd0d7f4
7e00d46eafe7bed209a69393625cc7b3fc0847c33a71069a6a3c8b822c6a4298822c4f49e154711eab9e41a727c3b102
03010001a310300e300c0603551d130101ff04023000300d06092a864886f70d01010b05000382010100252a45f8d9b1
9be716e5d3ac9726ece98b2208e16954e23b34b6f067904e1f42f1bebe6770acd57edb5a86a106ede6d9755f45adeb50
42d28c4ade5cd76ac843ce4e5c90fc9fe7390f3365fc55c36e4cd64ed87a8a079d9dbfa957646a8d36cf6eb5bdfc5b05
83be5086cf0a4575b469f3b45245e57016bb10af644ede05923cf1914b69b0e66a812514f76afccb2133c394909ee2a9
c50e3eeb8ee38fee9ccfb31a989d1021c5af9cb8b33ae62f2a66d55b5a7825b2a0e5fd1ec58de25f38390fd65f46778a
d12137bce58e29c33fbd4a17e219f4160b59e749f68603cded080884271935ed1efda22293238616a3e2d61ce075e223
ab48ef9fae1835c1475d".

(** [tests/tls_server_certs/wildcard_san_accepted_if_in_subtree.ca.der] *)
Definition wildcard_san_accepted_if_in_subtree_ca_der : Input := hex "
308203563082023ea00302010202146022fe1cbf64dc4d86f1f1b4913a9ae5c87a2f6f300d06092a864886f70d01010b
0500304b311b301906035504030c126973737565722e6578616d706c652e636f6d312c302a060355040a0c2377696c64
636172645f73616e5f61636365707465645f69665f696e5f73756274726565301e170d3836313232333031353931315a
170d3836313232333032303031315a304b311b301906035504030c126973737565722e6578616d706c652e636f6d312c
302a060355040a0c2377696c64636172645f73616e5f61636365707465645f69665f696e5f7375627472656530820122
300d06092a864886f70d01010105000382010f003082010a0282010100c7a5ff5f593c59050ca55e09c6b15e33272686
876b3ff8e4eec835a75a6477a115cf6bd0a658626e24c74c9a3d594850cc035a3934c5b92aac53bdd15d776093dfd904
8f026e2c7ce3a1b647c0a418956c95e0c83412d1c8ce6ef809fee28cfa257e9bbe1ce382a1578bcea0c7f9c00aac75c7
c8b2cfeb3a11b0b82a51b5b0819cb47e64381107c268c7fefa78f6ab2cd8d8c89f918b60462e1f4c45df51c0bf803b4f
488b6bb5e952fa3dc096cb95645d70a93ac7d8ebf311169cc8c595fdbf13d0424c833bfa0a3eaa2e8ad991c2cdf218ab
888fe4d67a30914474471a435ca4d7bd0d3c3eb16044d0a5dae5253368e9697154bbca3f502beb267ecb609bc9020301
0001a3323030300f0603551d130101ff040530030101ff301d0603551d1e0101ff04133011a00f300d820b6578616d70
6c652e636f6d300d06092a864886f70d01010b0500038201010075173ff6e0754118b25efecc92ed15598e1c1e0db9ff
2daf6e14f7e1d51463a0ad35dd829b7cf07f4fe6ad5d428edd6225009b96b0f469e8b4733903f81f2fa85d7f9cf8e3ef
9ffc5ede727a81ef34b4a8eb9011c9a7355b56edde862fca974d4d3a0098714f3216a189d0b0e28d67b22302a7274d94
8575446cb88ad7c43319aa2f94ba13acd35d01afe72b106db3595f9b7cfc660ef31cfe3af4efa8ee332da9316977a035
3c9bf23f25cacb4c2aa8c8bd4e2c789d08876a7520e71d9530569d7c7fa190e654e33ca90333a54b604b980d0b6a4864
0ff8983ab76be9539c9b7dbaac150bc52b36e1ec4af7a51c3e35b437d891fa68636a68974a2887049e3d".

(** [tests/tls_server_certs/wildcard_san_accepted_if_in_subtree.ee.der] *)
Definition wildcard_san_accepted_if_in_subtree_ee_der : Input := hex "
3082033130820219a0030201020214780be9b67296989e08f86b3c774511e822d358cd300d06092a864886f70d01010b
0500304b311b301906035504030c126973737565722e6578616d706c652e636f6d312c302a060355040a0c2377696c64
636172645f73616e5f61636365707465645f69665f696e5f73756274726565301e170d3836313232333031353931315a
170d3836313232333032303031315a302e312c302a060355040a0c2377696c64636172645f73616e5f61636365707465
645f69665f696e5f7375627472656530820122300d06092a864886f70d01010105000382010f003082010a0282010100
ac368559053c58c7ce0618300d7a72fc0d6400e53dcc79e0b853a8cd1d598906c17474ce7144ddd45934a009f9e22590
fb4f599c691fe34660f9c5c31a627e81cca2b03b18616060eea0262e75ae8c931723230843812d19c1d880ec31c45f73
8ab2fcb20628cb0eea3fdc6b0620916cc90124d49434edace315ed8e659073dd6205a606f97b67dae02962b6e2c5ae4e
27bb52814bd1d55e4a46150871326f78d669445a21f5d2aa403eef038540564546958dea21b7a672601a122bb8d8d64d
aa766d6a8a7db92a96b32f38ef2aa141ef567f9fef06e9216e70c910d53c7c90bba8b5b2a882232840257bf5703565e3
30b967ddd5480e44782e876216f2482d0203010001a32a302830180603551d110411300f820d2a2e6578616d706c652e
636f6d300c0603551d130101ff04023000300d06092a864886f70d01010b050003820101004c86e57a2e802dbf4ac00c
650e90a4a48cf534d1f69a3c3a3a06ac58d7e4fe0383dac17c6b0dd55eb81679e6182b64ad1e6f86a33a018bb7fef5cd
2a073364020103ff9ea91cf6cb97bec0b09bc70708c19bc5a5c56eb63c62a5d5b4869792a44ad0d6a546b80ef4f55e63
dd2ba0bc3fb319435ba7f062e162ff9266d48da00cb542b33b52262572e5ed2c8a035abf2bd1dcd3c653feeb2a60ca0f
739624bf757b8b9596fffeb82372ba9b08dfadb9ed59870625410e3a3e821c57ae90ef13e2baab34477c9d3693d4b61b
8169e9b78c7ed6226512db34c0e415f752a1e0d8ce83a568c36326b5b13cdda30688327b74195f74748e83cae27e2be4
ade624fa25".

(** [tests/tls_server_certs/wildcard_san_rejected_if_in_excluded_subtree.ca.der] *)
Definition wildcard_san_rejected_if_in_excluded_subtree_ca_der : Input := hex "
3082036830820250a003020102021440922a937722ca013fb3a21eef6c821eaa080329300d06092a864886f70d01010b
05003054311b301906035504030c126973737565722e6578616d706c652e636f6d31353033060355040a0c2c77696c64
636172645f73616e5f72656a65637465645f69665f696e5f6578636c756465645f73756274726565301e170d38363132
32333031353931315a170d3836313232333032303031315a3054311b301906035504030c126973737565722e6578616d
706c652e636f6d31353033060355040a0c2c77696c64636172645f73616e5f72656a65637465645f69665f696e5f6578
636c756465645f7375627472656530820122300d06092a864886f70d01010105000382010f003082010a0282010100c7
a5ff5f593c59050ca55e09c6b15e33272686876b3ff8e4eec835a75a6477a115cf6bd0a658626e24c74c9a3d594850cc
035a3934c5b92aac53bdd15d776093dfd9048f026e2c7ce3a1b647c0a418956c95e0c83412d1c8ce6ef809fee28cfa25
7e9bbe1ce382a1578bcea0c7f9c00aac75c7c8b2cfeb3a11b0b82a51b5b0819cb47e64381107c268c7fefa78f6ab2cd8
d8c89f918b60462e1f4c45df51c0bf803b4f488b6bb5e952fa3dc096cb95645d70a93ac7d8ebf311169cc8c595fdbf13
d0424c833bfa0a3eaa2e8ad991c2cdf218ab888fe4d67a30914474471a435ca4d7bd0d3c3eb16044d0a5dae5253368e9
697154bbca3f502beb267ecb609bc90203010001a3323030300f0603551d130101ff040530030101ff301d0603551d1e
0101ff04133011a10f300d820b6578616d706c652e636f6d300d06092a864886f70d01010b0500038201010040ee6d1e
86d855e58df06ac97943c68fa785deec8b0417e0a7f0f2ccfc23ec81463529610ac4ce9bb703a552f099db7f1d6cc47a
fee5cbb0cf06a2b183042dee3943c4a29297f17376306a8ce3e796a6638bbeb2ef4a42e2ef68999bfbe45a53b49b2ee3
a77c4513278aa12048af02f3461fa7bbc993baae9732688a46c299ff45daa80d4a905b4948f250b3db36caaebecddbab
b09a44a7e3d2d7bbdf296f19c2922592ee33d3298b79feb644cf82acd651e42e2e0734f8ffafc7c407a67097f21f2093
8aa22e8b63541df1363b1c2d67b564e16f4bbb82368bea64fa8c2bb80774fbae8c1f9e71a19b8a3f01176a6c7b34a948
970d8e0daf2fd5c57de1cd30".

(** [tests/tls_server_certs/wildcard_san_rejected_if_in_excluded_subtree.ee.der] *)
Definition wildcard_san_rejected_if_in_excluded_subtree_ee_der : Input := hex "
308203433082022ba00302010202140cca12156b02820adec2cbf77532b197dd070ffa300d06092a864886f70d01010b
05003054311b301906035504030c126973737565722e6578616d706c652e636f6d31353033060355040a0c2c77696c64
636172645f73616e5f72656a65637465645f69665f696e5f6578636c756465645f73756274726565301e170d38363132
32333031353931315a170d3836313232333032303031315a303731353033060355040a0c2c77696c64636172645f7361
6e5f72656a65637465645f69665f696e5f6578636c756465645f7375627472656530820122300d06092a864886f70d01
010105000382010f003082010a0282010100a35ae0dd929d6145dbe863bfa99e2ad8d2058e841f4799c311e8392bc231
d8a2f53afa89e4d063edd10a69c352b05be3b34991c37cfd2c7719b9970cd35ddc96e9e8be6152730ac56561c361662a
a98018f2cb03b46f52abb0825bd235735564682405d8bac03d5246c828c7e7e01747cf53ad4c55093eae78c179510c90
3d67b1fb67914b4f0b70cb04ae04aa6b2c71265e19a1bb200838536cf9fb9465922c82dde8a8395cebddfabec8605d92
0b5049259ffe6c6f6589d2f8991c8cd20311290a617818efe0e18c83ef6deefd43d93bcd8e6d77652eb6ea43a3a958f8
69452d16c8c19e860aebf3e42dd94183f4e9db0c74a47181251f474baf607a1487790203010001a32a30283018060355
1d110411300f820d2a2e6578616d706c652e636f6d300c0603551d130101ff04023000300d06092a864886f70d01010b
050003820101003f7bfeecaeeaea7159376799ae4916ef076ba94ea91d7e2e2147944142dee8da5adab1d575698ea87a
341cbb5f661519e899616b050e469720419850c52b684bf8219b162e62c9fa5bb8bf9bf8c0b95bc1d3480dfca0305bff
5a6e2682355e287155ce374c40db34c21d0f5ce784fce2fa7dc43213cd66d77403d69c130dba611dc1752e98c39a683b
26ca2f349a6e124330a743ed2723e88462ae5c13022ac680e5f4300c9a562b0f45d29983c8c26677f679116975144865
5a9fd5d0e8d7d7f8edee689fc2b86e0dfa2fec9e1588ee7ed68b175a3ee1591fc407657fbe5048c2e834cc58fc64aaf1
7037574040c66b4607b6bd1fac5a21311957382b6e635e".
