(* ===== verification/ClientAuthTests.v ===== *)
(** * The tests of [src/tests/client_auth.rs] and [src/tests/custom_ekus.rs]

    Certificates with and without key purposes, for client authentication and
    for a purpose of one's own.  A certificate is accepted for every ring crate
    with the answers named; a rejection before the signature needs none. *)
From S2P Require Import Prelude Errors Untrusted Der Samples Time SignedData RingAlgs Cert.
From S2P Require Import TrustAnchor VerifyCert EndEntity Testing Recorded IntegrationData.

#[local] Existing Instance slice_reader.

(** ** [client_auth.rs] *)
Definition client_auth_check_cert `{R : Ring} (ee ca : Input)
    : outcome Empty_set (outcome Error unit) :=
  let? anchor := result_unwrap (extract_trust_anchor ca) in
  let anchors := [anchor] in
  let time := from_seconds_since_unix_epoch 0x1fedf00d in
  let? cert := result_unwrap (EndEntityCert_try_from ee) in
  Ok (verify_for_usage cert ALL_SIGALGS anchors [] time client_auth None).

Definition cert_with_no_eku_accepted_for_client_auth `{R : Ring} : test :=
  let? result := client_auth_check_cert cert_with_no_eku_accepted_for_client_auth_ee_der
    cert_with_no_eku_accepted_for_client_auth_ca_der in
  assert_eq result (Ok tt).

Definition cert_with_clientauth_eku_accepted_for_client_auth `{R : Ring} : test :=
  let? result := client_auth_check_cert cert_with_clientauth_eku_accepted_for_client_auth_ee_der
    cert_with_clientauth_eku_accepted_for_client_auth_ca_der in
  assert_eq result (Ok tt).

Definition cert_with_both_ekus_accepted_for_client_auth `{R : Ring} : test :=
  let? result := client_auth_check_cert cert_with_both_ekus_accepted_for_client_auth_ee_der
    cert_with_both_ekus_accepted_for_client_auth_ca_der in
  assert_eq result (Ok tt).

Definition cert_with_serverauth_eku_rejected_for_client_auth `{R : Ring} : test :=
  let? result := client_auth_check_cert cert_with_serverauth_eku_rejected_for_client_auth_ee_der
    cert_with_serverauth_eku_rejected_for_client_auth_ca_der in
  assert_eq result (Err RequiredEkuNotFound).

(** ** [custom_ekus.rs] *)
Definition custom_eku_check_cert `{R : Ring} (ee ca : Input) (eku : KeyUsage) (time : Time)
    (result : outcome Error unit) : test :=
  let? anchor := result_unwrap (extract_trust_anchor ca) in
  let anchors := [anchor] in
  let algs := [RSA_PKCS1_2048_8192_SHA256; ECDSA_P256_SHA256] in
  let? cert := result_unwrap (EndEntityCert_try_from ee) in
  assert_eq (verify_for_usage cert algs anchors [] time eku None) result.

Definition verify_custom_eku_mdoc `{R : Ring} : test :=
  let err := Err RequiredEkuNotFound in
  let time := from_seconds_since_unix_epoch 1609459200 in
  let ee := mdoc_eku_ee_der in
  let ca := mdoc_eku_ca_der in
  let eku_mdoc := required [x28; x81; x8c; x5d; x05; x01; x02] in
  let? _ := custom_eku_check_cert ee ca eku_mdoc time (Ok tt) in
  let? _ := custom_eku_check_cert ee ca server_auth time err in
  let? _ := custom_eku_check_cert ee ca eku_mdoc time (Ok tt) in
  custom_eku_check_cert ee ca server_auth time err.

Definition verify_custom_eku_client `{R : Ring} : test :=
  let time := from_seconds_since_unix_epoch 0x1fedf00d in
  let ee := cert_with_no_eku_accepted_for_client_auth_ee_der in
  let ca := cert_with_no_eku_accepted_for_client_auth_ca_der in
  let? _ := custom_eku_check_cert ee ca client_auth time (Ok tt) in
  let ee := cert_with_both_ekus_accepted_for_client_auth_ee_der in
  let ca := cert_with_both_ekus_accepted_for_client_auth_ca_der in
  let? _ := custom_eku_check_cert ee ca client_auth time (Ok tt) in
  custom_eku_check_cert ee ca server_auth time (Ok tt).

(** ** The tests pass, for every ring that accepts the signatures *)
Lemma cert_with_no_eku_accepted_for_client_auth_passes `{R : Ring} :
  agrees R
    [ chain_answer RN_RSA_PKCS1_2048_8192_SHA256
        cert_with_no_eku_accepted_for_client_auth_ca_der
        cert_with_no_eku_accepted_for_client_auth_ee_der true ] ->
  passes cert_with_no_eku_accepted_for_client_auth.
Proof. by_record. Qed.

Lemma cert_with_clientauth_eku_accepted_for_client_auth_passes `{R : Ring} :
  agrees R
    [ chain_answer RN_RSA_PKCS1_2048_8192_SHA256
        cert_with_clientauth_eku_accepted_for_client_auth_ca_der
        cert_with_clientauth_eku_accepted_for_client_auth_ee_der true ] ->
  passes cert_with_clientauth_eku_accepted_for_client_auth.
Proof. by_record. Qed.

Lemma cert_with_both_ekus_accepted_for_client_auth_passes `{R : Ring} :
  agrees R
    [ chain_answer RN_RSA_PKCS1_2048_8192_SHA256
        cert_with_both_ekus_accepted_for_client_auth_ca_der
        cert_with_both_ekus_accepted_for_client_auth_ee_der true ] ->
  passes cert_with_both_ekus_accepted_for_client_auth.
Proof. by_record. Qed.

Lemma cert_with_serverauth_eku_rejected_for_client_auth_passes `{R : Ring} :
  agrees R
    [ chain_answer RN_RSA_PKCS1_2048_8192_SHA256
        cert_with_serverauth_eku_rejected_for_client_auth_ca_der
        cert_with_serverauth_eku_rejected_for_client_auth_ee_der true ] ->
  passes cert_with_serverauth_eku_rejected_for_client_auth.
Proof. by_record. Qed.

Lemma verify_custom_eku_mdoc_passes `{R : Ring} :
  agrees R
    [chain_answer RN_ECDSA_P256_SHA256 mdoc_eku_ca_der mdoc_eku_ee_der true] ->
  passes verify_custom_eku_mdoc.
Proof. by_record. Qed.

Lemma verify_custom_eku_client_passes `{R : Ring} :
  agrees R
    [ chain_answer RN_RSA_PKCS1_2048_8192_SHA256
        cert_with_no_eku_accepted_for_client_auth_ca_der
        cert_with_no_eku_accepted_for_client_auth_ee_der true;
      chain_answer RN_RSA_PKCS1_2048_8192_SHA256
        cert_with_both_ekus_accepted_for_client_auth_ca_der
        cert_with_both_ekus_accepted_for_client_auth_ee_der true ] ->
  passes verify_custom_eku_client.
Proof. by_record. Qed.
