(* ===== verification/TlsServerCertsTests.v ===== *)
(** * The tests of [src/tests/tls_server_certs.rs]

    Name constraints of trust anchors, and the names for which certificates are
    valid.  A certificate is accepted for every ring crate with the answer named.
    The name constraints come after the signature, so a rejection by them needs
    the answer too. *)
From Stdlib Require Import Strings.String.
From S2P Require Import Prelude Errors Untrusted Der Samples Time SignedData RingAlgs Cert.
From S2P Require Import TrustAnchor SubjectName VerifyName VerifyCert EndEntity.
From S2P Require Import Testing Recorded IntegrationData.

#[local] Existing Instance slice_reader.

(** [check_cert], and its two loops over names. *)
Definition tls_check_name (cert : EndEntityCert) (expected : outcome Error unit) (name : Input)
    : test :=
  let? name := result_unwrap (SubjectNameRef_try_from_ascii_str name) in
  assert_eq (verify_is_valid_for_subject_name cert name) expected.

Definition tls_check_cert `{R : Ring} (ee ca : Input) (valid_names invalid_names : list Input)
    : outcome Empty_set (outcome Error unit) :=
  let? anchor := result_unwrap (extract_trust_anchor ca) in
  let anchors := [anchor] in
  let time := from_seconds_since_unix_epoch 0x1fedf00d in
  let? cert := result_unwrap (EndEntityCert_try_from ee) in
  continue_with (verify_for_usage cert ALL_SIGALGS anchors [] time server_auth None)
    (let? _ := for_each valid_names (tls_check_name cert (Ok tt)) in
     let? _ := for_each invalid_names (tls_check_name cert (Err CertNotValidForName)) in
     Ok (Ok tt)).

Definition no_name_constraints `{R : Ring} : test :=
  let? result := tls_check_cert no_name_constraints_ee_der no_name_constraints_ca_der
    [ascii_bytes "dns.example.com"] [ascii_bytes "subject.example.com"] in
  assert_eq result (Ok tt).

Definition additional_dns_labels `{R : Ring} : test :=
  let? result := tls_check_cert additional_dns_labels_ee_der
    additional_dns_labels_ca_der
    [ascii_bytes "host1.example.com"; ascii_bytes "host2.example.com"]
    [ascii_bytes "subject.example.com"] in
  assert_eq result (Ok tt).

Definition disallow_subject_common_name `{R : Ring} : test :=
  let? result := tls_check_cert disallow_subject_common_name_ee_der
    disallow_subject_common_name_ca_der
    [] [] in
  assert_eq result (Err NameConstraintViolation).

Definition disallow_dns_san `{R : Ring} : test :=
  let? result := tls_check_cert disallow_dns_san_ee_der disallow_dns_san_ca_der
    [] [] in
  assert_eq result (Err NameConstraintViolation).

Definition allow_subject_common_name `{R : Ring} : test :=
  let? result := tls_check_cert allow_subject_common_name_ee_der
    allow_subject_common_name_ca_der
    [] [ascii_bytes "allowed.example.com"] in
  assert_eq result (Ok tt).

Definition allow_dns_san `{R : Ring} : test :=
  let? result := tls_check_cert allow_dns_san_ee_der allow_dns_san_ca_der
    [ascii_bytes "allowed.example.com"] [] in
  assert_eq result (Ok tt).

Definition allow_dns_san_and_subject_common_name `{R : Ring} : test :=
  let? result := tls_check_cert allow_dns_san_and_subject_common_name_ee_der
    allow_dns_san_and_subject_common_name_ca_der
    [ascii_bytes "allowed-san.example.com"] [ascii_bytes "allowed-cn.example.com"] in
  assert_eq result (Ok tt).

Definition allow_dns_san_and_disallow_subject_common_name `{R : Ring} : test :=
  let? result := tls_check_cert allow_dns_san_and_disallow_subject_common_name_ee_der
    allow_dns_san_and_disallow_subject_common_name_ca_der
    [] [] in
  assert_eq result (Err NameConstraintViolation).

Definition disallow_dns_san_and_allow_subject_common_name `{R : Ring} : test :=
  let? result := tls_check_cert disallow_dns_san_and_allow_subject_common_name_ee_der
    disallow_dns_san_and_allow_subject_common_name_ca_der
    [] [] in
  assert_eq result (Err NameConstraintViolation).

Definition we_incorrectly_ignore_name_constraints_on_name_in_subject `{R : Ring} : test :=
  let? result := tls_check_cert we_incorrectly_ignore_name_constraints_on_name_in_subject_ee_der
    we_incorrectly_ignore_name_constraints_on_name_in_subject_ca_der
    [] [] in
  assert_eq result (Ok tt).

Definition reject_constraints_on_unimplemented_names `{R : Ring} : test :=
  let? result := tls_check_cert reject_constraints_on_unimplemented_names_ee_der
    reject_constraints_on_unimplemented_names_ca_der
    [] [] in
  assert_eq result (Err NameConstraintViolation).

Definition we_ignore_constraints_on_names_that_do_not_appear_in_cert `{R : Ring} : test :=
  let? result := tls_check_cert we_ignore_constraints_on_names_that_do_not_appear_in_cert_ee_der
    we_ignore_constraints_on_names_that_do_not_appear_in_cert_ca_der
    [ascii_bytes "notexample.com"] [ascii_bytes "example.com"] in
  assert_eq result (Ok tt).

Definition wildcard_san_accepted_if_in_subtree `{R : Ring} : test :=
  let? result := tls_check_cert wildcard_san_accepted_if_in_subtree_ee_der
    wildcard_san_accepted_if_in_subtree_ca_der
    [ascii_bytes "bob.example.com"; ascii_bytes "jane.example.com"]
    [ascii_bytes "example.com"; ascii_bytes "uh.oh.example.com"] in
  assert_eq result (Ok tt).

Definition wildcard_san_rejected_if_in_excluded_subtree `{R : Ring} : test :=
  let? result := tls_check_cert wildcard_san_rejected_if_in_excluded_subtree_ee_der
    wildcard_san_rejected_if_in_excluded_subtree_ca_der
    [] [] in
  assert_eq result (Err NameConstraintViolation).

Definition ip4_address_san_rejected_if_in_excluded_subtree `{R : Ring} : test :=
  let? result := tls_check_cert ip4_address_san_rejected_if_in_excluded_subtree_ee_der
    ip4_address_san_rejected_if_in_excluded_subtree_ca_der
    [] [] in
  assert_eq result (Err NameConstraintViolation).

Definition ip4_address_san_allowed_if_outside_excluded_subtree `{R : Ring} : test :=
  let? result := tls_check_cert ip4_address_san_allowed_if_outside_excluded_subtree_ee_der
    ip4_address_san_allowed_if_outside_excluded_subtree_ca_der
    [ascii_bytes "12.34.56.78"] [] in
  assert_eq result (Ok tt).

Definition ip4_address_san_rejected_if_excluded_is_sparse_cidr_mask `{R : Ring} : test :=
  let? result := tls_check_cert ip4_address_san_rejected_if_excluded_is_sparse_cidr_mask_ee_der
    ip4_address_san_rejected_if_excluded_is_sparse_cidr_mask_ca_der
    [] [] in
  assert_eq result (Err InvalidNetworkMaskConstraint).

Definition ip4_address_san_allowed `{R : Ring} : test :=
  let? result := tls_check_cert ip4_address_san_allowed_ee_der
    ip4_address_san_allowed_ca_der
    [ascii_bytes "12.34.56.78"]
    [ascii_bytes "12.34.56.77";
     ascii_bytes "12.34.56.79";
     ascii_bytes "0000:0000:0000:0000:0000:ffff:0c22:384e"] in
  assert_eq result (Ok tt).

Definition ip6_address_san_rejected_if_in_excluded_subtree `{R : Ring} : test :=
  let? result := tls_check_cert ip6_address_san_rejected_if_in_excluded_subtree_ee_der
    ip6_address_san_rejected_if_in_excluded_subtree_ca_der
    [] [] in
  assert_eq result (Err NameConstraintViolation).

Definition ip6_address_san_allowed_if_outside_excluded_subtree `{R : Ring} : test :=
  let? result := tls_check_cert ip6_address_san_allowed_if_outside_excluded_subtree_ee_der
    ip6_address_san_allowed_if_outside_excluded_subtree_ca_der
    [ascii_bytes "2001:0db9:0000:0000:0000:0000:0000:0001"] [] in
  assert_eq result (Ok tt).

Definition ip6_address_san_allowed `{R : Ring} : test :=
  let? result := tls_check_cert ip6_address_san_allowed_ee_der
    ip6_address_san_allowed_ca_der
    [ascii_bytes "2001:0db9:0000:0000:0000:0000:0000:0001"] [ascii_bytes "12.34.56.78"] in
  assert_eq result (Ok tt).

Definition ip46_mixed_address_san_allowed `{R : Ring} : test :=
  let? result := tls_check_cert ip46_mixed_address_san_allowed_ee_der
    ip46_mixed_address_san_allowed_ca_der
    [ascii_bytes "12.34.56.78"; ascii_bytes "2001:0db9:0000:0000:0000:0000:0000:0001"]
    [ascii_bytes "12.34.56.77";
     ascii_bytes "12.34.56.79";
     ascii_bytes "0000:0000:0000:0000:0000:ffff:0c22:384e"] in
  assert_eq result (Ok tt).

Definition permit_directory_name_not_implemented `{R : Ring} : test :=
  let? result := tls_check_cert permit_directory_name_not_implemented_ee_der
    permit_directory_name_not_implemented_ca_der
    [] [] in
  assert_eq result (Err NameConstraintViolation).

Definition exclude_directory_name_not_implemented `{R : Ring} : test :=
  let? result := tls_check_cert exclude_directory_name_not_implemented_ee_der
    exclude_directory_name_not_implemented_ca_der
    [] [] in
  assert_eq result (Err NameConstraintViolation).

Definition invalid_dns_name_matching `{R : Ring} : test :=
  let? result := tls_check_cert invalid_dns_name_matching_ee_der
    invalid_dns_name_matching_ca_der
    [ascii_bytes "dns.example.com"] [] in
  assert_eq result (Ok tt).

(** ** The tests pass, for every ring that accepts the signatures *)
Lemma no_name_constraints_passes `{R : Ring} :
  agrees R
    [ chain_answer RN_RSA_PKCS1_2048_8192_SHA256
        no_name_constraints_ca_der
        no_name_constraints_ee_der true ] ->
  passes no_name_constraints.
Proof. by_record. Qed.

Lemma additional_dns_labels_passes `{R : Ring} :
  agrees R
    [ chain_answer RN_RSA_PKCS1_2048_8192_SHA256
        additional_dns_labels_ca_der
        additional_dns_labels_ee_der true ] ->
  passes additional_dns_labels.
Proof. by_record. Qed.

Lemma disallow_subject_common_name_passes `{R : Ring} :
  agrees R
    [ chain_answer RN_RSA_PKCS1_2048_8192_SHA256
        disallow_subject_common_name_ca_der
        disallow_subject_common_name_ee_der true ] ->
  passes disallow_subject_common_name.
Proof. by_record. Qed.

Lemma disallow_dns_san_passes `{R : Ring} :
  agrees R
    [ chain_answer RN_RSA_PKCS1_2048_8192_SHA256
        disallow_dns_san_ca_der
        disallow_dns_san_ee_der true ] ->
  passes disallow_dns_san.
Proof. by_record. Qed.

Lemma allow_subject_common_name_passes `{R : Ring} :
  agrees R
    [ chain_answer RN_RSA_PKCS1_2048_8192_SHA256
        allow_subject_common_name_ca_der
        allow_subject_common_name_ee_der true ] ->
  passes allow_subject_common_name.
Proof. by_record. Qed.

Lemma allow_dns_san_passes `{R : Ring} :
  agrees R
    [ chain_answer RN_RSA_PKCS1_2048_8192_SHA256
        allow_dns_san_ca_der
        allow_dns_san_ee_der true ] ->
  passes allow_dns_san.
Proof. by_record. Qed.

Lemma allow_dns_san_and_subject_common_name_passes `{R : Ring} :
  agrees R
    [ chain_answer RN_RSA_PKCS1_2048_8192_SHA256
        allow_dns_san_and_subject_common_name_ca_der
        allow_dns_san_and_subject_common_name_ee_der true ] ->
  passes allow_dns_san_and_subject_common_name.
Proof. by_record. Qed.

Lemma allow_dns_san_and_disallow_subject_common_name_passes `{R : Ring} :
  agrees R
    [ chain_answer RN_RSA_PKCS1_2048_8192_SHA256
        allow_dns_san_and_disallow_subject_common_name_ca_der
        allow_dns_san_and_disallow_subject_common_name_ee_der true ] ->
  passes allow_dns_san_and_disallow_subject_common_name.
Proof. by_record. Qed.

Lemma disallow_dns_san_and_allow_subject_common_name_passes `{R : Ring} :
  agrees R
    [ chain_answer RN_RSA_PKCS1_2048_8192_SHA256
        disallow_dns_san_and_allow_subject_common_name_ca_der
        disallow_dns_san_and_allow_subject_common_name_ee_der true ] ->
  passes disallow_dns_san_and_allow_subject_common_name.
Proof. by_record. Qed.

Lemma we_incorrectly_ignore_name_constraints_on_name_in_subject_passes `{R : Ring} :
  agrees R
    [ chain_answer RN_RSA_PKCS1_2048_8192_SHA256
        we_incorrectly_ignore_name_constraints_on_name_in_subject_ca_der
        we_incorrectly_ignore_name_constraints_on_name_in_subject_ee_der true ] ->
  passes we_incorrectly_ignore_name_constraints_on_name_in_subject.
Proof. by_record. Qed.

Lemma reject_constraints_on_unimplemented_names_passes `{R : Ring} :
  agrees R
    [ chain_answer RN_RSA_PKCS1_2048_8192_SHA256
        reject_constraints_on_unimplemented_names_ca_der
        reject_constraints_on_unimplemented_names_ee_der true ] ->
  passes reject_constraints_on_unimplemented_names.
Proof. by_record. Qed.

Lemma we_ignore_constraints_on_names_that_do_not_appear_in_cert_passes `{R : Ring} :
  agrees R
    [ chain_answer RN_RSA_PKCS1_2048_8192_SHA256
        we_ignore_constraints_on_names_that_do_not_appear_in_cert_ca_der
        we_ignore_constraints_on_names_that_do_not_appear_in_cert_ee_der true ] ->
  passes we_ignore_constraints_on_names_that_do_not_appear_in_cert.
Proof. by_record. Qed.

Lemma wildcard_san_accepted_if_in_subtree_passes `{R : Ring} :
  agrees R
    [ chain_answer RN_RSA_PKCS1_2048_8192_SHA256
        wildcard_san_accepted_if_in_subtree_ca_der
        wildcard_san_accepted_if_in_subtree_ee_der true ] ->
  passes wildcard_san_accepted_if_in_subtree.
Proof. by_record. Qed.

Lemma wildcard_san_rejected_if_in_excluded_subtree_passes `{R : Ring} :
  agrees R
    [ chain_answer RN_RSA_PKCS1_2048_8192_SHA256
        wildcard_san_rejected_if_in_excluded_subtree_ca_der
        wildcard_san_rejected_if_in_excluded_subtree_ee_der true ] ->
  passes wildcard_san_rejected_if_in_excluded_subtree.
Proof. by_record. Qed.

Lemma ip4_address_san_rejected_if_in_excluded_subtree_passes `{R : Ring} :
  agrees R
    [ chain_answer RN_RSA_PKCS1_2048_8192_SHA256
        ip4_address_san_rejected_if_in_excluded_subtree_ca_der
        ip4_address_san_rejected_if_in_excluded_subtree_ee_der true ] ->
  passes ip4_address_san_rejected_if_in_excluded_subtree.
Proof. by_record. Qed.

Lemma ip4_address_san_allowed_if_outside_excluded_subtree_passes `{R : Ring} :
  agrees R
    [ chain_answer RN_RSA_PKCS1_2048_8192_SHA256
        ip4_address_san_allowed_if_outside_excluded_subtree_ca_der
        ip4_address_san_allowed_if_outside_excluded_subtree_ee_der true ] ->
  passes ip4_address_san_allowed_if_outside_excluded_subtree.
Proof. by_record. Qed.

Lemma ip4_address_san_rejected_if_excluded_is_sparse_cidr_mask_passes `{R : Ring} :
  agrees R
    [ chain_answer RN_RSA_PKCS1_2048_8192_SHA256
        ip4_address_san_rejected_if_excluded_is_sparse_cidr_mask_ca_der
        ip4_address_san_rejected_if_excluded_is_sparse_cidr_mask_ee_der true ] ->
  passes ip4_address_san_rejected_if_excluded_is_sparse_cidr_mask.
Proof. by_record. Qed.

Lemma ip4_address_san_allowed_passes `{R : Ring} :
  agrees R
    [ chain_answer RN_RSA_PKCS1_2048_8192_SHA256
        ip4_address_san_allowed_ca_der
        ip4_address_san_allowed_ee_der true ] ->
  passes ip4_address_san_allowed.
Proof. by_record. Qed.

Lemma ip6_address_san_rejected_if_in_excluded_subtree_passes `{R : Ring} :
  agrees R
    [ chain_answer RN_RSA_PKCS1_2048_8192_SHA256
        ip6_address_san_rejected_if_in_excluded_subtree_ca_der
        ip6_address_san_rejected_if_in_excluded_subtree_ee_der true ] ->
  passes ip6_address_san_rejected_if_in_excluded_subtree.
Proof. by_record. Qed.

Lemma ip6_address_san_allowed_if_outside_excluded_subtree_passes `{R : Ring} :
  agrees R
    [ chain_answer RN_RSA_PKCS1_2048_8192_SHA256
        ip6_address_san_allowed_if_outside_excluded_subtree_ca_der
        ip6_address_san_allowed_if_outside_excluded_subtree_ee_der true ] ->
  passes ip6_address_san_allowed_if_outside_excluded_subtree.
Proof. by_record. Qed.

Lemma ip6_address_san_allowed_passes `{R : Ring} :
  agrees R
    [ chain_answer RN_RSA_PKCS1_2048_8192_SHA256
        ip6_address_san_allowed_ca_der
        ip6_address_san_allowed_ee_der true ] ->
  passes ip6_address_san_allowed.
Proof. by_record. Qed.

Lemma ip46_mixed_address_san_allowed_passes `{R : Ring} :
  agrees R
    [ chain_answer RN_RSA_PKCS1_2048_8192_SHA256
        ip46_mixed_address_san_allowed_ca_der
        ip46_mixed_address_san_allowed_ee_der true ] ->
  passes ip46_mixed_address_san_allowed.
Proof. by_record. Qed.

Lemma permit_directory_name_not_implemented_passes `{R : Ring} :
  agrees R
    [ chain_answer RN_RSA_PKCS1_2048_8192_SHA256
        permit_directory_name_not_implemented_ca_der
        permit_directory_name_not_implemented_ee_der true ] ->
  passes permit_directory_name_not_implemented.
Proof. by_record. Qed.

Lemma exclude_directory_name_not_implemented_passes `{R : Ring} :
  agrees R
    [ chain_answer RN_RSA_PKCS1_2048_8192_SHA256
        exclude_directory_name_not_implemented_ca_der
        exclude_directory_name_not_implemented_ee_der true ] ->
  passes exclude_directory_name_not_implemented.
Proof. by_record. Qed.

Lemma invalid_dns_name_matching_passes `{R : Ring} :
  agrees R
    [ chain_answer RN_RSA_PKCS1_2048_8192_SHA256
        invalid_dns_name_matching_ca_der
        invalid_dns_name_matching_ee_der true ] ->
  passes invalid_dns_name_matching.
Proof. by_record. Qed.
