(* ===== verification/ClientAuthRevocationTests.v ===== *)
(** * The tests of [src/tests/client_auth_revocation.rs]

    Chains of four certificates with a revocation list, borrowed and owned:
    revoked and other certificates, end-entity and chain depth, unknown status
    allowed and not, bad signatures and wrong key usages.  A test passes for
    every ring crate with the answers named. *)
From S2P Require Import Prelude Errors Untrusted Der Samples Time SignedData RingAlgs Cert Crl.
From S2P Require Import TrustAnchor VerifyCert EndEntity Revocation.
From S2P Require Import Testing Recorded TestData IntegrationData.

#[local] Existing Instance slice_reader.

Definition revocation_check_cert `{R : Ring} (ee : Input) (intermediates : list Input)
    (ca : Input) (revocation : option RevocationOptions)
    : outcome Empty_set (outcome Error unit) :=
  let? anchor := result_unwrap (extract_trust_anchor ca) in
  let anchors := [anchor] in
  let? cert := result_unwrap (EndEntityCert_try_from ee) in
  let time := from_seconds_since_unix_epoch 0x1fedf00d in
  Ok (verify_for_usage cert [ECDSA_P256_SHA256] anchors intermediates time client_auth
        revocation).

Definition no_crls_test `{R : Ring} : test :=
  let? result := revocation_check_cert no_ku_chain_ee_der
    [no_ku_chain_int_a_ca_der; no_ku_chain_int_b_ca_der]
    no_ku_chain_root_ca_der None in
  assert_eq result (Ok tt).

Definition no_crls_test_owned `{R : Ring} : test :=
  let? result := revocation_check_cert no_ku_chain_ee_der
    [no_ku_chain_int_a_ca_der; no_ku_chain_int_b_ca_der]
    no_ku_chain_root_ca_der None in
  assert_eq result (Ok tt).

Definition no_relevant_crl_ee_depth_allow_unknown `{R : Ring} : test :=
  let? crl := result_unwrap (BorrowedCertRevocationList_from_der
    no_relevant_crl_ee_depth_allow_unknown_crl_der) in
  let? builder := result_unwrap (RevocationOptionsBuilder_new [borrowed_dyn crl]) in
  let builder := with_depth builder DepthEndEntity in
  let builder := allow_unknown_status builder in
  let? result := revocation_check_cert no_ku_chain_ee_der
    [no_ku_chain_int_a_ca_der; no_ku_chain_int_b_ca_der]
    no_ku_chain_root_ca_der (Some (RevocationOptionsBuilder_build builder)) in
  assert_eq result (Ok tt).

Definition no_relevant_crl_ee_depth_allow_unknown_owned `{R : Ring} : test :=
  let? crl := result_unwrap (BorrowedCertRevocationList_from_der
    no_relevant_crl_ee_depth_allow_unknown_crl_der) in
  let? crl := result_unwrap (BorrowedCertRevocationList_to_owned crl) in
  let? builder := result_unwrap (RevocationOptionsBuilder_new [owned_dyn crl]) in
  let builder := with_depth builder DepthEndEntity in
  let builder := allow_unknown_status builder in
  let? result := revocation_check_cert no_ku_chain_ee_der
    [no_ku_chain_int_a_ca_der; no_ku_chain_int_b_ca_der]
    no_ku_chain_root_ca_der (Some (RevocationOptionsBuilder_build builder)) in
  assert_eq result (Ok tt).

Definition no_relevant_crl_ee_depth_forbid_unknown `{R : Ring} : test :=
  let? crl := result_unwrap (BorrowedCertRevocationList_from_der
    no_relevant_crl_ee_depth_forbid_unknown_crl_der) in
  let? builder := result_unwrap (RevocationOptionsBuilder_new [borrowed_dyn crl]) in
  let builder := with_depth builder DepthEndEntity in
  let? result := revocation_check_cert no_ku_chain_ee_der
    [no_ku_chain_int_a_ca_der; no_ku_chain_int_b_ca_der]
    no_ku_chain_root_ca_der (Some (RevocationOptionsBuilder_build builder)) in
  assert_eq result (Err UnknownRevocationStatus).

Definition no_relevant_crl_ee_depth_forbid_unknown_owned `{R : Ring} : test :=
  let? crl := result_unwrap (BorrowedCertRevocationList_from_der
    no_relevant_crl_ee_depth_forbid_unknown_crl_der) in
  let? crl := result_unwrap (BorrowedCertRevocationList_to_owned crl) in
  let? builder := result_unwrap (RevocationOptionsBuilder_new [owned_dyn crl]) in
  let builder := with_depth builder DepthEndEntity in
  let? result := revocation_check_cert no_ku_chain_ee_der
    [no_ku_chain_int_a_ca_der; no_ku_chain_int_b_ca_der]
    no_ku_chain_root_ca_der (Some (RevocationOptionsBuilder_build builder)) in
  assert_eq result (Err UnknownRevocationStatus).

Definition ee_not_revoked_ee_depth `{R : Ring} : test :=
  let? crl := result_unwrap (BorrowedCertRevocationList_from_der
    ee_not_revoked_ee_depth_crl_der) in
  let? builder := result_unwrap (RevocationOptionsBuilder_new [borrowed_dyn crl]) in
  let builder := with_depth builder DepthEndEntity in
  let builder := allow_unknown_status builder in
  let? result := revocation_check_cert no_ku_chain_ee_der
    [no_ku_chain_int_a_ca_der; no_ku_chain_int_b_ca_der]
    no_ku_chain_root_ca_der (Some (RevocationOptionsBuilder_build builder)) in
  assert_eq result (Ok tt).

Definition ee_not_revoked_ee_depth_owned `{R : Ring} : test :=
  let? crl := result_unwrap (BorrowedCertRevocationList_from_der
    ee_not_revoked_ee_depth_crl_der) in
  let? crl := result_unwrap (BorrowedCertRevocationList_to_owned crl) in
  let? builder := result_unwrap (RevocationOptionsBuilder_new [owned_dyn crl]) in
  let builder := with_depth builder DepthEndEntity in
  let builder := allow_unknown_status builder in
  let? result := revocation_check_cert no_ku_chain_ee_der
    [no_ku_chain_int_a_ca_der; no_ku_chain_int_b_ca_der]
    no_ku_chain_root_ca_der (Some (RevocationOptionsBuilder_build builder)) in
  assert_eq result (Ok tt).

Definition ee_not_revoked_chain_depth `{R : Ring} : test :=
  let? crl := result_unwrap (BorrowedCertRevocationList_from_der
    ee_not_revoked_chain_depth_crl_der) in
  let? builder := result_unwrap (RevocationOptionsBuilder_new [borrowed_dyn crl]) in
  let builder := allow_unknown_status builder in
  let? result := revocation_check_cert no_ku_chain_ee_der
    [no_ku_chain_int_a_ca_der; no_ku_chain_int_b_ca_der]
    no_ku_chain_root_ca_der (Some (RevocationOptionsBuilder_build builder)) in
  assert_eq result (Ok tt).

Definition ee_not_revoked_chain_depth_owned `{R : Ring} : test :=
  let? crl := result_unwrap (BorrowedCertRevocationList_from_der
    ee_not_revoked_chain_depth_crl_der) in
  let? crl := result_unwrap (BorrowedCertRevocationList_to_owned crl) in
  let? builder := result_unwrap (RevocationOptionsBuilder_new [owned_dyn crl]) in
  let builder := allow_unknown_status builder in
  let? result := revocation_check_cert no_ku_chain_ee_der
    [no_ku_chain_int_a_ca_der; no_ku_chain_int_b_ca_der]
    no_ku_chain_root_ca_der (Some (RevocationOptionsBuilder_build builder)) in
  assert_eq result (Ok tt).

Definition ee_revoked_badsig_ee_depth `{R : Ring} : test :=
  let? crl := result_unwrap (BorrowedCertRevocationList_from_der
    ee_revoked_badsig_ee_depth_crl_der) in
  let? builder := result_unwrap (RevocationOptionsBuilder_new [borrowed_dyn crl]) in
  let builder := with_depth builder DepthEndEntity in
  let builder := allow_unknown_status builder in
  let? result := revocation_check_cert no_ku_chain_ee_der
    [no_ku_chain_int_a_ca_der; no_ku_chain_int_b_ca_der]
    no_ku_chain_root_ca_der (Some (RevocationOptionsBuilder_build builder)) in
  assert_eq result (Err InvalidCrlSignatureForPublicKey).

Definition ee_revoked_badsig_ee_depth_owned `{R : Ring} : test :=
  let? crl := result_unwrap (BorrowedCertRevocationList_from_der
    ee_revoked_badsig_ee_depth_crl_der) in
  let? crl := result_unwrap (BorrowedCertRevocationList_to_owned crl) in
  let? builder := result_unwrap (RevocationOptionsBuilder_new [owned_dyn crl]) in
  let builder := with_depth builder DepthEndEntity in
  let builder := allow_unknown_status builder in
  let? result := revocation_check_cert no_ku_chain_ee_der
    [no_ku_chain_int_a_ca_der; no_ku_chain_int_b_ca_der]
    no_ku_chain_root_ca_der (Some (RevocationOptionsBuilder_build builder)) in
  assert_eq result (Err InvalidCrlSignatureForPublicKey).

Definition ee_revoked_wrong_ku_ee_depth `{R : Ring} : test :=
  let? crl := result_unwrap (BorrowedCertRevocationList_from_der
    ee_revoked_wrong_ku_ee_depth_crl_der) in
  let? builder := result_unwrap (RevocationOptionsBuilder_new [borrowed_dyn crl]) in
  let builder := with_depth builder DepthEndEntity in
  let builder := allow_unknown_status builder in
  let? result := revocation_check_cert no_crl_ku_chain_ee_der
    [no_crl_ku_chain_int_a_ca_der; no_crl_ku_chain_int_b_ca_der]
    no_crl_ku_chain_root_ca_der (Some (RevocationOptionsBuilder_build builder)) in
  assert_eq result (Err IssuerNotCrlSigner).

Definition ee_revoked_wrong_ku_ee_depth_owned `{R : Ring} : test :=
  let? crl := result_unwrap (BorrowedCertRevocationList_from_der
    ee_revoked_wrong_ku_ee_depth_crl_der) in
  let? crl := result_unwrap (BorrowedCertRevocationList_to_owned crl) in
  let? builder := result_unwrap (RevocationOptionsBuilder_new [owned_dyn crl]) in
  let builder := with_depth builder DepthEndEntity in
  let builder := allow_unknown_status builder in
  let? result := revocation_check_cert no_crl_ku_chain_ee_der
    [no_crl_ku_chain_int_a_ca_der; no_crl_ku_chain_int_b_ca_der]
    no_crl_ku_chain_root_ca_der (Some (RevocationOptionsBuilder_build builder)) in
  assert_eq result (Err IssuerNotCrlSigner).

Definition ee_not_revoked_wrong_ku_ee_depth `{R : Ring} : test :=
  let? crl := result_unwrap (BorrowedCertRevocationList_from_der
    ee_not_revoked_wrong_ku_ee_depth_crl_der) in
  let? builder := result_unwrap (RevocationOptionsBuilder_new [borrowed_dyn crl]) in
  let builder := with_depth builder DepthEndEntity in
  let builder := allow_unknown_status builder in
  let? result := revocation_check_cert no_crl_ku_chain_ee_der
    [no_crl_ku_chain_int_a_ca_der; no_crl_ku_chain_int_b_ca_der]
    no_crl_ku_chain_root_ca_der (Some (RevocationOptionsBuilder_build builder)) in
  assert_eq result (Err IssuerNotCrlSigner).

Definition ee_not_revoked_wrong_ku_ee_depth_owned `{R : Ring} : test :=
  let? crl := result_unwrap (BorrowedCertRevocationList_from_der
    ee_not_revoked_wrong_ku_ee_depth_crl_der) in
  let? crl := result_unwrap (BorrowedCertRevocationList_to_owned crl) in
  let? builder := result_unwrap (RevocationOptionsBuilder_new [owned_dyn crl]) in
  let builder := with_depth builder DepthEndEntity in
  let builder := allow_unknown_status builder in
  let? result := revocation_check_cert no_crl_ku_chain_ee_der
    [no_crl_ku_chain_int_a_ca_der; no_crl_ku_chain_int_b_ca_der]
    no_crl_ku_chain_root_ca_der (Some (RevocationOptionsBuilder_build builder)) in
  assert_eq result (Err IssuerNotCrlSigner).

Definition ee_revoked_no_ku_ee_depth `{R : Ring} : test :=
  let? crl := result_unwrap (BorrowedCertRevocationList_from_der
    ee_revoked_no_ku_ee_depth_crl_der) in
  let? builder := result_unwrap (RevocationOptionsBuilder_new [borrowed_dyn crl]) in
  let builder := with_depth builder DepthEndEntity in
  let builder := allow_unknown_status builder in
  let? result := revocation_check_cert no_ku_chain_ee_der
    [no_ku_chain_int_a_ca_der; no_ku_chain_int_b_ca_der]
    no_ku_chain_root_ca_der (Some (RevocationOptionsBuilder_build builder)) in
  assert_eq result (Err CertRevoked).

Definition ee_revoked_no_ku_ee_depth_owned `{R : Ring} : test :=
  let? crl := result_unwrap (BorrowedCertRevocationList_from_der
    ee_revoked_no_ku_ee_depth_crl_der) in
  let? crl := result_unwrap (BorrowedCertRevocationList_to_owned crl) in
  let? builder := result_unwrap (RevocationOptionsBuilder_new [owned_dyn crl]) in
  let builder := with_depth builder DepthEndEntity in
  let builder := allow_unknown_status builder in
  let? result := revocation_check_cert no_ku_chain_ee_der
    [no_ku_chain_int_a_ca_der; no_ku_chain_int_b_ca_der]
    no_ku_chain_root_ca_der (Some (RevocationOptionsBuilder_build builder)) in
  assert_eq result (Err CertRevoked).

Definition ee_revoked_crl_ku_ee_depth `{R : Ring} : test :=
  let? crl := result_unwrap (BorrowedCertRevocationList_from_der
    ee_revoked_crl_ku_ee_depth_crl_der) in
  let? builder := result_unwrap (RevocationOptionsBuilder_new [borrowed_dyn crl]) in
  let builder := with_depth builder DepthEndEntity in
  let builder := allow_unknown_status builder in
  let? result := revocation_check_cert ku_chain_ee_der
    [ku_chain_int_a_ca_der; ku_chain_int_b_ca_der]
    ku_chain_root_ca_der (Some (RevocationOptionsBuilder_build builder)) in
  assert_eq result (Err CertRevoked).

Definition ee_revoked_crl_ku_ee_depth_owned `{R : Ring} : test :=
  let? crl := result_unwrap (BorrowedCertRevocationList_from_der
    ee_revoked_crl_ku_ee_depth_crl_der) in
  let? crl := result_unwrap (BorrowedCertRevocationList_to_owned crl) in
  let? builder := result_unwrap (RevocationOptionsBuilder_new [owned_dyn crl]) in
  let builder := with_depth builder DepthEndEntity in
  let builder := allow_unknown_status builder in
  let? result := revocation_check_cert ku_chain_ee_der
    [ku_chain_int_a_ca_der; ku_chain_int_b_ca_der]
    ku_chain_root_ca_der (Some (RevocationOptionsBuilder_build builder)) in
  assert_eq result (Err CertRevoked).

Definition no_crls_test_chain_depth `{R : Ring} : test :=
  let? result := revocation_check_cert no_ku_chain_ee_der
    [no_ku_chain_int_a_ca_der; no_ku_chain_int_b_ca_der]
    no_ku_chain_root_ca_der None in
  assert_eq result (Ok tt).

Definition no_crls_test_chain_depth_owned `{R : Ring} : test :=
  let? result := revocation_check_cert no_ku_chain_ee_der
    [no_ku_chain_int_a_ca_der; no_ku_chain_int_b_ca_der]
    no_ku_chain_root_ca_der None in
  assert_eq result (Ok tt).

Definition no_relevant_crl_chain_depth_allow_unknown `{R : Ring} : test :=
  let? crl := result_unwrap (BorrowedCertRevocationList_from_der
    no_relevant_crl_chain_depth_allow_unknown_crl_der) in
  let? builder := result_unwrap (RevocationOptionsBuilder_new [borrowed_dyn crl]) in
  let builder := allow_unknown_status builder in
  let? result := revocation_check_cert no_ku_chain_ee_der
    [no_ku_chain_int_a_ca_der; no_ku_chain_int_b_ca_der]
    no_ku_chain_root_ca_der (Some (RevocationOptionsBuilder_build builder)) in
  assert_eq result (Ok tt).

Definition no_relevant_crl_chain_depth_allow_unknown_owned `{R : Ring} : test :=
  let? crl := result_unwrap (BorrowedCertRevocationList_from_der
    no_relevant_crl_chain_depth_allow_unknown_crl_der) in
  let? crl := result_unwrap (BorrowedCertRevocationList_to_owned crl) in
  let? builder := result_unwrap (RevocationOptionsBuilder_new [owned_dyn crl]) in
  let builder := allow_unknown_status builder in
  let? result := revocation_check_cert no_ku_chain_ee_der
    [no_ku_chain_int_a_ca_der; no_ku_chain_int_b_ca_der]
    no_ku_chain_root_ca_der (Some (RevocationOptionsBuilder_build builder)) in
  assert_eq result (Ok tt).

Definition no_relevant_crl_chain_depth_forbid_unknown `{R : Ring} : test :=
  let? crl := result_unwrap (BorrowedCertRevocationList_from_der
    no_relevant_crl_chain_depth_forbid_unknown_crl_der) in
  let? builder := result_unwrap (RevocationOptionsBuilder_new [borrowed_dyn crl]) in
  let? result := revocation_check_cert no_ku_chain_ee_der
    [no_ku_chain_int_a_ca_der; no_ku_chain_int_b_ca_der]
    no_ku_chain_root_ca_der (Some (RevocationOptionsBuilder_build builder)) in
  assert_eq result (Err UnknownRevocationStatus).

Definition no_relevant_crl_chain_depth_forbid_unknown_owned `{R : Ring} : test :=
  let? crl := result_unwrap (BorrowedCertRevocationList_from_der
    no_relevant_crl_chain_depth_forbid_unknown_crl_der) in
  let? crl := result_unwrap (BorrowedCertRevocationList_to_owned crl) in
  let? builder := result_unwrap (RevocationOptionsBuilder_new [owned_dyn crl]) in
  let? result := revocation_check_cert no_ku_chain_ee_der
    [no_ku_chain_int_a_ca_der; no_ku_chain_int_b_ca_der]
    no_ku_chain_root_ca_der (Some (RevocationOptionsBuilder_build builder)) in
  assert_eq result (Err UnknownRevocationStatus).

Definition int_not_revoked_chain_depth `{R : Ring} : test :=
  let? crl := result_unwrap (BorrowedCertRevocationList_from_der
    int_not_revoked_chain_depth_crl_der) in
  let? builder := result_unwrap (RevocationOptionsBuilder_new [borrowed_dyn crl]) in
  let builder := allow_unknown_status builder in
  let? result := revocation_check_cert no_ku_chain_ee_der
    [no_ku_chain_int_a_ca_der; no_ku_chain_int_b_ca_der]
    no_ku_chain_root_ca_der (Some (RevocationOptionsBuilder_build builder)) in
  assert_eq result (Ok tt).

Definition int_not_revoked_chain_depth_owned `{R : Ring} : test :=
  let? crl := result_unwrap (BorrowedCertRevocationList_from_der
    int_not_revoked_chain_depth_crl_der) in
  let? crl := result_unwrap (BorrowedCertRevocationList_to_owned crl) in
  let? builder := result_unwrap (RevocationOptionsBuilder_new [owned_dyn crl]) in
  let builder := allow_unknown_status builder in
  let? result := revocation_check_cert no_ku_chain_ee_der
    [no_ku_chain_int_a_ca_der; no_ku_chain_int_b_ca_der]
    no_ku_chain_root_ca_der (Some (RevocationOptionsBuilder_build builder)) in
  assert_eq result (Ok tt).

Definition int_not_revoked_chain_depth_forbid_unknown `{R : Ring} : test :=
  let? crl1 := result_unwrap (BorrowedCertRevocationList_from_der
    int_not_revoked_chain_depth_forbid_unknown_ee_crl_der) in
  let? crl2 := result_unwrap (BorrowedCertRevocationList_from_der
    int_not_revoked_chain_depth_forbid_unknown_crl_der) in
  let? crl3 := result_unwrap (BorrowedCertRevocationList_from_der
    int_not_revoked_chain_depth_forbid_unknown_b_crl_der) in
  let? builder := result_unwrap (RevocationOptionsBuilder_new
    [borrowed_dyn crl1; borrowed_dyn crl2; borrowed_dyn crl3]) in
  let? result := revocation_check_cert no_ku_chain_ee_der
    [no_ku_chain_int_a_ca_der; no_ku_chain_int_b_ca_der]
    no_ku_chain_root_ca_der (Some (RevocationOptionsBuilder_build builder)) in
  assert_eq result (Ok tt).

Definition int_not_revoked_chain_depth_forbid_unknown_owned `{R : Ring} : test :=
  let? crl1 := result_unwrap (BorrowedCertRevocationList_from_der
    int_not_revoked_chain_depth_forbid_unknown_ee_crl_der) in
  let? crl1 := result_unwrap (BorrowedCertRevocationList_to_owned crl1) in
  let? crl2 := result_unwrap (BorrowedCertRevocationList_from_der
    int_not_revoked_chain_depth_forbid_unknown_crl_der) in
  let? crl2 := result_unwrap (BorrowedCertRevocationList_to_owned crl2) in
  let? crl3 := result_unwrap (BorrowedCertRevocationList_from_der
    int_not_revoked_chain_depth_forbid_unknown_b_crl_der) in
  let? crl3 := result_unwrap (BorrowedCertRevocationList_to_owned crl3) in
  let? builder := result_unwrap (RevocationOptionsBuilder_new
    [owned_dyn crl1; owned_dyn crl2; owned_dyn crl3]) in
  let? result := revocation_check_cert no_ku_chain_ee_der
    [no_ku_chain_int_a_ca_der; no_ku_chain_int_b_ca_der]
    no_ku_chain_root_ca_der (Some (RevocationOptionsBuilder_build builder)) in
  assert_eq result (Ok tt).

Definition int_revoked_badsig_chain_depth `{R : Ring} : test :=
  let? crl := result_unwrap (BorrowedCertRevocationList_from_der
    int_revoked_badsig_chain_depth_crl_der) in
  let? builder := result_unwrap (RevocationOptionsBuilder_new [borrowed_dyn crl]) in
  let builder := allow_unknown_status builder in
  let? result := revocation_check_cert no_ku_chain_ee_der
    [no_ku_chain_int_a_ca_der; no_ku_chain_int_b_ca_der]
    no_ku_chain_root_ca_der (Some (RevocationOptionsBuilder_build builder)) in
  assert_eq result (Err InvalidCrlSignatureForPublicKey).

Definition int_revoked_badsig_chain_depth_owned `{R : Ring} : test :=
  let? crl := result_unwrap (BorrowedCertRevocationList_from_der
    int_revoked_badsig_chain_depth_crl_der) in
  let? crl := result_unwrap (BorrowedCertRevocationList_to_owned crl) in
  let? builder := result_unwrap (RevocationOptionsBuilder_new [owned_dyn crl]) in
  let builder := allow_unknown_status builder in
  let? result := revocation_check_cert no_ku_chain_ee_der
    [no_ku_chain_int_a_ca_der; no_ku_chain_int_b_ca_der]
    no_ku_chain_root_ca_der (Some (RevocationOptionsBuilder_build builder)) in
  assert_eq result (Err InvalidCrlSignatureForPublicKey).

Definition int_revoked_wrong_ku_chain_depth `{R : Ring} : test :=
  let? crl := result_unwrap (BorrowedCertRevocationList_from_der
    int_revoked_wrong_ku_chain_depth_crl_der) in
  let? builder := result_unwrap (RevocationOptionsBuilder_new [borrowed_dyn crl]) in
  let builder := allow_unknown_status builder in
  let? result := revocation_check_cert no_crl_ku_chain_ee_der
    [no_crl_ku_chain_int_a_ca_der; no_crl_ku_chain_int_b_ca_der]
    no_crl_ku_chain_root_ca_der (Some (RevocationOptionsBuilder_build builder)) in
  assert_eq result (Err IssuerNotCrlSigner).

Definition int_revoked_wrong_ku_chain_depth_owned `{R : Ring} : test :=
  let? crl := result_unwrap (BorrowedCertRevocationList_from_der
    int_revoked_wrong_ku_chain_depth_crl_der) in
  let? crl := result_unwrap (BorrowedCertRevocationList_to_owned crl) in
  let? builder := result_unwrap (RevocationOptionsBuilder_new [owned_dyn crl]) in
  let builder := allow_unknown_status builder in
  let? result := revocation_check_cert no_crl_ku_chain_ee_der
    [no_crl_ku_chain_int_a_ca_der; no_crl_ku_chain_int_b_ca_der]
    no_crl_ku_chain_root_ca_der (Some (RevocationOptionsBuilder_build builder)) in
  assert_eq result (Err IssuerNotCrlSigner).

Definition ee_revoked_chain_depth `{R : Ring} : test :=
  let? crl := result_unwrap (BorrowedCertRevocationList_from_der
    ee_revoked_chain_depth_crl_der) in
  let? builder := result_unwrap (RevocationOptionsBuilder_new [borrowed_dyn crl]) in
  let builder := allow_unknown_status builder in
  let? result := revocation_check_cert no_ku_chain_ee_der
    [no_ku_chain_int_a_ca_der; no_ku_chain_int_b_ca_der]
    no_ku_chain_root_ca_der (Some (RevocationOptionsBuilder_build builder)) in
  assert_eq result (Err CertRevoked).

Definition ee_revoked_chain_depth_owned `{R : Ring} : test :=
  let? crl := result_unwrap (BorrowedCertRevocationList_from_der
    ee_revoked_chain_depth_crl_der) in
  let? crl := result_unwrap (BorrowedCertRevocationList_to_owned crl) in
  let? builder := result_unwrap (RevocationOptionsBuilder_new [owned_dyn crl]) in
  let builder := allow_unknown_status builder in
  let? result := revocation_check_cert no_ku_chain_ee_der
    [no_ku_chain_int_a_ca_der; no_ku_chain_int_b_ca_der]
    no_ku_chain_root_ca_der (Some (RevocationOptionsBuilder_build builder)) in
  assert_eq result (Err CertRevoked).

Definition int_revoked_no_ku_chain_depth `{R : Ring} : test :=
  let? crl := result_unwrap (BorrowedCertRevocationList_from_der
    int_revoked_no_ku_chain_depth_crl_der) in
  let? builder := result_unwrap (RevocationOptionsBuilder_new [borrowed_dyn crl]) in
  let builder := allow_unknown_status builder in
  let? result := revocation_check_cert no_ku_chain_ee_der
    [no_ku_chain_int_a_ca_der; no_ku_chain_int_b_ca_der]
    no_ku_chain_root_ca_der (Some (RevocationOptionsBuilder_build builder)) in
  assert_eq result (Err CertRevoked).

Definition int_revoked_no_ku_chain_depth_owned `{R : Ring} : test :=
  let? crl := result_unwrap (BorrowedCertRevocationList_from_der
    int_revoked_no_ku_chain_depth_crl_der) in
  let? crl := result_unwrap (BorrowedCertRevocationList_to_owned crl) in
  let? builder := result_unwrap (RevocationOptionsBuilder_new [owned_dyn crl]) in
  let builder := allow_unknown_status builder in
  let? result := revocation_check_cert no_ku_chain_ee_der
    [no_ku_chain_int_a_ca_der; no_ku_chain_int_b_ca_der]
    no_ku_chain_root_ca_der (Some (RevocationOptionsBuilder_build builder)) in
  assert_eq result (Err CertRevoked).

Definition int_revoked_crl_ku_chain_depth `{R : Ring} : test :=
  let? crl := result_unwrap (BorrowedCertRevocationList_from_der
    int_revoked_crl_ku_chain_depth_crl_der) in
  let? builder := result_unwrap (RevocationOptionsBuilder_new [borrowed_dyn crl]) in
  let builder := allow_unknown_status builder in
  let? result := revocation_check_cert ku_chain_ee_der
    [ku_chain_int_a_ca_der; ku_chain_int_b_ca_der]
    ku_chain_root_ca_der (Some (RevocationOptionsBuilder_build builder)) in
  assert_eq result (Err CertRevoked).

Definition int_revoked_crl_ku_chain_depth_owned `{R : Ring} : test :=
  let? crl := result_unwrap (BorrowedCertRevocationList_from_der
    int_revoked_crl_ku_chain_depth_crl_der) in
  let? crl := result_unwrap (BorrowedCertRevocationList_to_owned crl) in
  let? builder := result_unwrap (RevocationOptionsBuilder_new [owned_dyn crl]) in
  let builder := allow_unknown_status builder in
  let? result := revocation_check_cert ku_chain_ee_der
    [ku_chain_int_a_ca_der; ku_chain_int_b_ca_der]
    ku_chain_root_ca_der (Some (RevocationOptionsBuilder_build builder)) in
  assert_eq result (Err CertRevoked).

Definition ee_with_top_bit_set_serial_revoked `{R : Ring} : test :=
  let? crl := result_unwrap (BorrowedCertRevocationList_from_der
    ee_with_top_bit_set_serial_revoked_crl_der) in
  let? builder := result_unwrap (RevocationOptionsBuilder_new [borrowed_dyn crl]) in
  let builder := allow_unknown_status builder in
  let? result := revocation_check_cert ku_chain_topbit_ee_der
    [ku_chain_int_a_ca_der; ku_chain_int_b_ca_der]
    ku_chain_root_ca_der (Some (RevocationOptionsBuilder_build builder)) in
  assert_eq result (Err CertRevoked).

Definition ee_with_top_bit_set_serial_revoked_owned `{R : Ring} : test :=
  let? crl := result_unwrap (BorrowedCertRevocationList_from_der
    ee_with_top_bit_set_serial_revoked_crl_der) in
  let? crl := result_unwrap (BorrowedCertRevocationList_to_owned crl) in
  let? builder := result_unwrap (RevocationOptionsBuilder_new [owned_dyn crl]) in
  let builder := allow_unknown_status builder in
  let? result := revocation_check_cert ku_chain_topbit_ee_der
    [ku_chain_int_a_ca_der; ku_chain_int_b_ca_der]
    ku_chain_root_ca_der (Some (RevocationOptionsBuilder_build builder)) in
  assert_eq result (Err CertRevoked).

Definition ee_no_dp_crl_idp `{R : Ring} : test :=
  let? crl := result_unwrap (BorrowedCertRevocationList_from_der
    ee_no_dp_crl_idp_crl_der) in
  let? builder := result_unwrap (RevocationOptionsBuilder_new [borrowed_dyn crl]) in
  let builder := with_depth builder DepthEndEntity in
  let? result := revocation_check_cert no_ku_chain_ee_der
    [no_ku_chain_int_a_ca_der; no_ku_chain_int_b_ca_der]
    no_ku_chain_root_ca_der (Some (RevocationOptionsBuilder_build builder)) in
  assert_eq result (Ok tt).

Definition ee_no_dp_crl_idp_owned `{R : Ring} : test :=
  let? crl := result_unwrap (BorrowedCertRevocationList_from_der
    ee_no_dp_crl_idp_crl_der) in
  let? crl := result_unwrap (BorrowedCertRevocationList_to_owned crl) in
  let? builder := result_unwrap (RevocationOptionsBuilder_new [owned_dyn crl]) in
  let builder := with_depth builder DepthEndEntity in
  let? result := revocation_check_cert no_ku_chain_ee_der
    [no_ku_chain_int_a_ca_der; no_ku_chain_int_b_ca_der]
    no_ku_chain_root_ca_der (Some (RevocationOptionsBuilder_build builder)) in
  assert_eq result (Ok tt).

Definition ee_crl_no_idp_unknown_status `{R : Ring} : test :=
  let? crl := result_unwrap (BorrowedCertRevocationList_from_der
    ee_crl_no_idp_unknown_status_crl_der) in
  let? builder := result_unwrap (RevocationOptionsBuilder_new [borrowed_dyn crl]) in
  let builder := with_depth builder DepthEndEntity in
  let? result := revocation_check_cert dp_chain_ee_der
    [dp_chain_int_a_ca_der; dp_chain_int_b_ca_der]
    dp_chain_root_ca_der (Some (RevocationOptionsBuilder_build builder)) in
  assert_eq result (Err UnknownRevocationStatus).

Definition ee_crl_no_idp_unknown_status_owned `{R : Ring} : test :=
  let? crl := result_unwrap (BorrowedCertRevocationList_from_der
    ee_crl_no_idp_unknown_status_crl_der) in
  let? crl := result_unwrap (BorrowedCertRevocationList_to_owned crl) in
  let? builder := result_unwrap (RevocationOptionsBuilder_new [owned_dyn crl]) in
  let builder := with_depth builder DepthEndEntity in
  let? result := revocation_check_cert dp_chain_ee_der
    [dp_chain_int_a_ca_der; dp_chain_int_b_ca_der]
    dp_chain_root_ca_der (Some (RevocationOptionsBuilder_build builder)) in
  assert_eq result (Err UnknownRevocationStatus).

Definition ee_crl_mismatched_idp_unknown_status `{R : Ring} : test :=
  let? crl := result_unwrap (BorrowedCertRevocationList_from_der
    ee_crl_mismatched_idp_unknown_status_crl_der) in
  let? builder := result_unwrap (RevocationOptionsBuilder_new [borrowed_dyn crl]) in
  let builder := with_depth builder DepthEndEntity in
  let? result := revocation_check_cert dp_chain_ee_der
    [dp_chain_int_a_ca_der; dp_chain_int_b_ca_der]
    dp_chain_root_ca_der (Some (RevocationOptionsBuilder_build builder)) in
  assert_eq result (Err UnknownRevocationStatus).

Definition ee_crl_mismatched_idp_unknown_status_owned `{R : Ring} : test :=
  let? crl := result_unwrap (BorrowedCertRevocationList_from_der
    ee_crl_mismatched_idp_unknown_status_crl_der) in
  let? crl := result_unwrap (BorrowedCertRevocationList_to_owned crl) in
  let? builder := result_unwrap (RevocationOptionsBuilder_new [owned_dyn crl]) in
  let builder := with_depth builder DepthEndEntity in
  let? result := revocation_check_cert dp_chain_ee_der
    [dp_chain_int_a_ca_der; dp_chain_int_b_ca_der]
    dp_chain_root_ca_der (Some (RevocationOptionsBuilder_build builder)) in
  assert_eq result (Err UnknownRevocationStatus).

Definition ee_indirect_dp_unknown_status `{R : Ring} : test :=
  let? crl := result_unwrap (BorrowedCertRevocationList_from_der
    ee_indirect_dp_unknown_status_crl_der) in
  let? builder := result_unwrap (RevocationOptionsBuilder_new [borrowed_dyn crl]) in
  let builder := with_depth builder DepthEndEntity in
  let? result := revocation_check_cert indirect_dp_chain_ee_der
    [indirect_dp_chain_int_a_ca_der; indirect_dp_chain_int_b_ca_der]
    indirect_dp_chain_root_ca_der (Some (RevocationOptionsBuilder_build builder)) in
  assert_eq result (Err UnknownRevocationStatus).

Definition ee_indirect_dp_unknown_status_owned `{R : Ring} : test :=
  let? crl := result_unwrap (BorrowedCertRevocationList_from_der
    ee_indirect_dp_unknown_status_crl_der) in
  let? crl := result_unwrap (BorrowedCertRevocationList_to_owned crl) in
  let? builder := result_unwrap (RevocationOptionsBuilder_new [owned_dyn crl]) in
  let builder := with_depth builder DepthEndEntity in
  let? result := revocation_check_cert indirect_dp_chain_ee_der
    [indirect_dp_chain_int_a_ca_der; indirect_dp_chain_int_b_ca_der]
    indirect_dp_chain_root_ca_der (Some (RevocationOptionsBuilder_build builder)) in
  assert_eq result (Err UnknownRevocationStatus).

Definition ee_reasons_dp_unknown_status `{R : Ring} : test :=
  let? crl := result_unwrap (BorrowedCertRevocationList_from_der
    ee_reasons_dp_unknown_status_crl_der) in
  let? builder := result_unwrap (RevocationOptionsBuilder_new [borrowed_dyn crl]) in
  let builder := with_depth builder DepthEndEntity in
  let? result := revocation_check_cert reasons_dp_chain_ee_der
    [reasons_dp_chain_int_a_ca_der; reasons_dp_chain_int_b_ca_der]
    reasons_dp_chain_root_ca_der (Some (RevocationOptionsBuilder_build builder)) in
  assert_eq result (Err UnknownRevocationStatus).

Definition ee_reasons_dp_unknown_status_owned `{R : Ring} : test :=
  let? crl := result_unwrap (BorrowedCertRevocationList_from_der
    ee_reasons_dp_unknown_status_crl_der) in
  let? crl := result_unwrap (BorrowedCertRevocationList_to_owned crl) in
  let? builder := result_unwrap (RevocationOptionsBuilder_new [owned_dyn crl]) in
  let builder := with_depth builder DepthEndEntity in
  let? result := revocation_check_cert reasons_dp_chain_ee_der
    [reasons_dp_chain_int_a_ca_der; reasons_dp_chain_int_b_ca_der]
    reasons_dp_chain_root_ca_der (Some (RevocationOptionsBuilder_build builder)) in
  assert_eq result (Err UnknownRevocationStatus).

Definition ee_nofullname_dp_unknown_status `{R : Ring} : test :=
  let? crl := result_unwrap (BorrowedCertRevocationList_from_der
    ee_nofullname_dp_unknown_status_crl_der) in
  let? builder := result_unwrap (RevocationOptionsBuilder_new [borrowed_dyn crl]) in
  let builder := with_depth builder DepthEndEntity in
  let? result := revocation_check_cert nofullname_dp_chain_ee_der
    [nofullname_dp_chain_int_a_ca_der; nofullname_dp_chain_int_b_ca_der]
    nofullname_dp_chain_root_ca_der (Some (RevocationOptionsBuilder_build builder)) in
  assert_eq result (Err UnknownRevocationStatus).

Definition ee_nofullname_dp_unknown_status_owned `{R : Ring} : test :=
  let? crl := result_unwrap (BorrowedCertRevocationList_from_der
    ee_nofullname_dp_unknown_status_crl_der) in
  let? crl := result_unwrap (BorrowedCertRevocationList_to_owned crl) in
  let? builder := result_unwrap (RevocationOptionsBuilder_new [owned_dyn crl]) in
  let builder := with_depth builder DepthEndEntity in
  let? result := revocation_check_cert nofullname_dp_chain_ee_der
    [nofullname_dp_chain_int_a_ca_der; nofullname_dp_chain_int_b_ca_der]
    nofullname_dp_chain_root_ca_der (Some (RevocationOptionsBuilder_build builder)) in
  assert_eq result (Err UnknownRevocationStatus).

Definition ee_dp_idp_match `{R : Ring} : test :=
  let? crl := result_unwrap (BorrowedCertRevocationList_from_der
    ee_dp_idp_match_crl_der) in
  let? builder := result_unwrap (RevocationOptionsBuilder_new [borrowed_dyn crl]) in
  let builder := with_depth builder DepthEndEntity in
  let? result := revocation_check_cert dp_chain_ee_der
    [dp_chain_int_a_ca_der; dp_chain_int_b_ca_der]
    dp_chain_root_ca_der (Some (RevocationOptionsBuilder_build builder)) in
  assert_eq result (Ok tt).

Definition ee_dp_idp_match_owned `{R : Ring} : test :=
  let? crl := result_unwrap (BorrowedCertRevocationList_from_der
    ee_dp_idp_match_crl_der) in
  let? crl := result_unwrap (BorrowedCertRevocationList_to_owned crl) in
  let? builder := result_unwrap (RevocationOptionsBuilder_new [owned_dyn crl]) in
  let builder := with_depth builder DepthEndEntity in
  let? result := revocation_check_cert dp_chain_ee_der
    [dp_chain_int_a_ca_der; dp_chain_int_b_ca_der]
    dp_chain_root_ca_der (Some (RevocationOptionsBuilder_build builder)) in
  assert_eq result (Ok tt).

Definition ee_dp_invalid `{R : Ring} : test :=
  let? crl := result_unwrap (BorrowedCertRevocationList_from_der
    ee_dp_invalid_crl_der) in
  let? builder := result_unwrap (RevocationOptionsBuilder_new [borrowed_dyn crl]) in
  let builder := with_depth builder DepthEndEntity in
  let? result := revocation_check_cert invalid_dp_chain_ee_der
    [invalid_dp_chain_int_a_ca_der; invalid_dp_chain_int_b_ca_der]
    invalid_dp_chain_root_ca_der (Some (RevocationOptionsBuilder_build builder)) in
  assert_eq result (Err UnknownRevocationStatus).

Definition ee_dp_invalid_owned `{R : Ring} : test :=
  let? crl := result_unwrap (BorrowedCertRevocationList_from_der
    ee_dp_invalid_crl_der) in
  let? crl := result_unwrap (BorrowedCertRevocationList_to_owned crl) in
  let? builder := result_unwrap (RevocationOptionsBuilder_new [owned_dyn crl]) in
  let builder := with_depth builder DepthEndEntity in
  let? result := revocation_check_cert invalid_dp_chain_ee_der
    [invalid_dp_chain_int_a_ca_der; invalid_dp_chain_int_b_ca_der]
    invalid_dp_chain_root_ca_der (Some (RevocationOptionsBuilder_build builder)) in
  assert_eq result (Err UnknownRevocationStatus).

(** ** The signatures of the chains *)
Definition no_ku_chain_answers : list answer := chain_answers RN_ECDSA_P256_SHA256
  [no_ku_chain_ee_der;
   no_ku_chain_int_a_ca_der;
   no_ku_chain_int_b_ca_der;
   no_ku_chain_root_ca_der].
Definition no_crl_ku_chain_answers : list answer := chain_answers RN_ECDSA_P256_SHA256
  [no_crl_ku_chain_ee_der;
   no_crl_ku_chain_int_a_ca_der;
   no_crl_ku_chain_int_b_ca_der;
   no_crl_ku_chain_root_ca_der].
Definition ku_chain_answers : list answer := chain_answers RN_ECDSA_P256_SHA256
  [ku_chain_ee_der; ku_chain_int_a_ca_der; ku_chain_int_b_ca_der; ku_chain_root_ca_der].
Definition ku_chain_topbit_answers : list answer := chain_answers RN_ECDSA_P256_SHA256
  [ku_chain_topbit_ee_der; ku_chain_int_a_ca_der; ku_chain_int_b_ca_der; ku_chain_root_ca_der].
Definition dp_chain_answers : list answer := chain_answers RN_ECDSA_P256_SHA256
  [dp_chain_ee_der; dp_chain_int_a_ca_der; dp_chain_int_b_ca_der; dp_chain_root_ca_der].
Definition indirect_dp_chain_answers : list answer := chain_answers RN_ECDSA_P256_SHA256
  [indirect_dp_chain_ee_der;
   indirect_dp_chain_int_a_ca_der;
   indirect_dp_chain_int_b_ca_der;
   indirect_dp_chain_root_ca_der].
Definition reasons_dp_chain_answers : list answer := chain_answers RN_ECDSA_P256_SHA256
  [reasons_dp_chain_ee_der;
   reasons_dp_chain_int_a_ca_der;
   reasons_dp_chain_int_b_ca_der;
   reasons_dp_chain_root_ca_der].
Definition nofullname_dp_chain_answers : list answer := chain_answers RN_ECDSA_P256_SHA256
  [nofullname_dp_chain_ee_der;
   nofullname_dp_chain_int_a_ca_der;
   nofullname_dp_chain_int_b_ca_der;
   nofullname_dp_chain_root_ca_der].
Definition invalid_dp_chain_answers : list answer := chain_answers RN_ECDSA_P256_SHA256
  [invalid_dp_chain_ee_der;
   invalid_dp_chain_int_a_ca_der;
   invalid_dp_chain_int_b_ca_der;
   invalid_dp_chain_root_ca_der].

(** ** The tests pass, for every ring with the answers named *)
Lemma no_crls_test_passes `{R : Ring} :
  agrees R no_ku_chain_answers ->
  passes no_crls_test.
Proof. by_record. Qed.

Lemma no_crls_test_owned_passes `{R : Ring} :
  agrees R no_ku_chain_answers ->
  passes no_crls_test_owned.
Proof. by_record. Qed.

Lemma no_relevant_crl_ee_depth_allow_unknown_passes `{R : Ring} :
  agrees R no_ku_chain_answers ->
  passes no_relevant_crl_ee_depth_allow_unknown.
Proof. by_record. Qed.

Lemma no_relevant_crl_ee_depth_allow_unknown_owned_passes `{R : Ring} :
  agrees R no_ku_chain_answers ->
  passes no_relevant_crl_ee_depth_allow_unknown_owned.
Proof. by_record. Qed.

Lemma no_relevant_crl_ee_depth_forbid_unknown_passes `{R : Ring} :
  agrees R no_ku_chain_answers ->
  passes no_relevant_crl_ee_depth_forbid_unknown.
Proof. by_record. Qed.

Lemma no_relevant_crl_ee_depth_forbid_unknown_owned_passes `{R : Ring} :
  agrees R no_ku_chain_answers ->
  passes no_relevant_crl_ee_depth_forbid_unknown_owned.
Proof. by_record. Qed.

Lemma ee_not_revoked_ee_depth_passes `{R : Ring} :
  agrees R
    (no_ku_chain_answers ++
     [ chain_answer RN_ECDSA_P256_SHA256
        no_ku_chain_int_a_ca_der
        ee_not_revoked_ee_depth_crl_der true ]) ->
  passes ee_not_revoked_ee_depth.
Proof. by_record. Qed.

Lemma ee_not_revoked_ee_depth_owned_passes `{R : Ring} :
  agrees R
    (no_ku_chain_answers ++
     [ chain_answer RN_ECDSA_P256_SHA256
        no_ku_chain_int_a_ca_der
        ee_not_revoked_ee_depth_crl_der true ]) ->
  passes ee_not_revoked_ee_depth_owned.
Proof. by_record. Qed.

Lemma ee_not_revoked_chain_depth_passes `{R : Ring} :
  agrees R
    (no_ku_chain_answers ++
     [ chain_answer RN_ECDSA_P256_SHA256
        no_ku_chain_int_a_ca_der
        ee_not_revoked_chain_depth_crl_der true ]) ->
  passes ee_not_revoked_chain_depth.
Proof. by_record. Qed.

Lemma ee_not_revoked_chain_depth_owned_passes `{R : Ring} :
  agrees R
    (no_ku_chain_answers ++
     [ chain_answer RN_ECDSA_P256_SHA256
        no_ku_chain_int_a_ca_der
        ee_not_revoked_chain_depth_crl_der true ]) ->
  passes ee_not_revoked_chain_depth_owned.
Proof. by_record. Qed.

Lemma ee_revoked_badsig_ee_depth_passes `{R : Ring} :
  agrees R
    (no_ku_chain_answers ++
     [ chain_answer RN_ECDSA_P256_SHA256
        no_ku_chain_int_a_ca_der
        ee_revoked_badsig_ee_depth_crl_der false ]) ->
  passes ee_revoked_badsig_ee_depth.
Proof. by_record. Qed.

Lemma ee_revoked_badsig_ee_depth_owned_passes `{R : Ring} :
  agrees R
    (no_ku_chain_answers ++
     [ chain_answer RN_ECDSA_P256_SHA256
        no_ku_chain_int_a_ca_der
        ee_revoked_badsig_ee_depth_crl_der false ]) ->
  passes ee_revoked_badsig_ee_depth_owned.
Proof. by_record. Qed.

Lemma ee_revoked_wrong_ku_ee_depth_passes `{R : Ring} :
  agrees R
    (no_crl_ku_chain_answers ++
     [ chain_answer RN_ECDSA_P256_SHA256
        no_crl_ku_chain_int_a_ca_der
        ee_revoked_wrong_ku_ee_depth_crl_der true ]) ->
  passes ee_revoked_wrong_ku_ee_depth.
Proof. by_record. Qed.

Lemma ee_revoked_wrong_ku_ee_depth_owned_passes `{R : Ring} :
  agrees R
    (no_crl_ku_chain_answers ++
     [ chain_answer RN_ECDSA_P256_SHA256
        no_crl_ku_chain_int_a_ca_der
        ee_revoked_wrong_ku_ee_depth_crl_der true ]) ->
  passes ee_revoked_wrong_ku_ee_depth_owned.
Proof. by_record. Qed.

Lemma ee_not_revoked_wrong_ku_ee_depth_passes `{R : Ring} :
  agrees R
    (no_crl_ku_chain_answers ++
     [ chain_answer RN_ECDSA_P256_SHA256
        no_crl_ku_chain_int_a_ca_der
        ee_not_revoked_wrong_ku_ee_depth_crl_der true ]) ->
  passes ee_not_revoked_wrong_ku_ee_depth.
Proof. by_record. Qed.

Lemma ee_not_revoked_wrong_ku_ee_depth_owned_passes `{R : Ring} :
  agrees R
    (no_crl_ku_chain_answers ++
     [ chain_answer RN_ECDSA_P256_SHA256
        no_crl_ku_chain_int_a_ca_der
        ee_not_revoked_wrong_ku_ee_depth_crl_der true ]) ->
  passes ee_not_revoked_wrong_ku_ee_depth_owned.
Proof. by_record. Qed.

Lemma ee_revoked_no_ku_ee_depth_passes `{R : Ring} :
  agrees R
    (no_ku_chain_answers ++
     [ chain_answer RN_ECDSA_P256_SHA256
        no_ku_chain_int_a_ca_der
        ee_revoked_no_ku_ee_depth_crl_der true ]) ->
  passes ee_revoked_no_ku_ee_depth.
Proof. by_record. Qed.

Lemma ee_revoked_no_ku_ee_depth_owned_passes `{R : Ring} :
  agrees R
    (no_ku_chain_answers ++
     [ chain_answer RN_ECDSA_P256_SHA256
        no_ku_chain_int_a_ca_der
        ee_revoked_no_ku_ee_depth_crl_der true ]) ->
  passes ee_revoked_no_ku_ee_depth_owned.
Proof. by_record. Qed.

Lemma ee_revoked_crl_ku_ee_depth_passes `{R : Ring} :
  agrees R
    (ku_chain_answers ++
     [ chain_answer RN_ECDSA_P256_SHA256
        ku_chain_int_a_ca_der
        ee_revoked_crl_ku_ee_depth_crl_der true ]) ->
  passes ee_revoked_crl_ku_ee_depth.
Proof. by_record. Qed.

Lemma ee_revoked_crl_ku_ee_depth_owned_passes `{R : Ring} :
  agrees R
    (ku_chain_answers ++
     [ chain_answer RN_ECDSA_P256_SHA256
        ku_chain_int_a_ca_der
        ee_revoked_crl_ku_ee_depth_crl_der true ]) ->
  passes ee_revoked_crl_ku_ee_depth_owned.
Proof. by_record. Qed.

Lemma no_crls_test_chain_depth_passes `{R : Ring} :
  agrees R no_ku_chain_answers ->
  passes no_crls_test_chain_depth.
Proof. by_record. Qed.

Lemma no_crls_test_chain_depth_owned_passes `{R : Ring} :
  agrees R no_ku_chain_answers ->
  passes no_crls_test_chain_depth_owned.
Proof. by_record. Qed.

Lemma no_relevant_crl_chain_depth_allow_unknown_passes `{R : Ring} :
  agrees R no_ku_chain_answers ->
  passes no_relevant_crl_chain_depth_allow_unknown.
Proof. by_record. Qed.

Lemma no_relevant_crl_chain_depth_allow_unknown_owned_passes `{R : Ring} :
  agrees R no_ku_chain_answers ->
  passes no_relevant_crl_chain_depth_allow_unknown_owned.
Proof. by_record. Qed.

Lemma no_relevant_crl_chain_depth_forbid_unknown_passes `{R : Ring} :
  agrees R no_ku_chain_answers ->
  passes no_relevant_crl_chain_depth_forbid_unknown.
Proof. by_record. Qed.

Lemma no_relevant_crl_chain_depth_forbid_unknown_owned_passes `{R : Ring} :
  agrees R no_ku_chain_answers ->
  passes no_relevant_crl_chain_depth_forbid_unknown_owned.
Proof. by_record. Qed.

Lemma int_not_revoked_chain_depth_passes `{R : Ring} :
  agrees R
    (no_ku_chain_answers ++
     [ chain_answer RN_ECDSA_P256_SHA256
        no_ku_chain_int_b_ca_der
        int_not_revoked_chain_depth_crl_der true ]) ->
  passes int_not_revoked_chain_depth.
Proof. by_record. Qed.

Lemma int_not_revoked_chain_depth_owned_passes `{R : Ring} :
  agrees R
    (no_ku_chain_answers ++
     [ chain_answer RN_ECDSA_P256_SHA256
        no_ku_chain_int_b_ca_der
        int_not_revoked_chain_depth_crl_der true ]) ->
  passes int_not_revoked_chain_depth_owned.
Proof. by_record. Qed.

Lemma int_not_revoked_chain_depth_forbid_unknown_passes `{R : Ring} :
  agrees R
    (no_ku_chain_answers ++
     [ chain_answer RN_ECDSA_P256_SHA256
        no_ku_chain_int_a_ca_der
        int_not_revoked_chain_depth_forbid_unknown_ee_crl_der true;
       chain_answer RN_ECDSA_P256_SHA256
        no_ku_chain_int_b_ca_der
        int_not_revoked_chain_depth_forbid_unknown_crl_der true;
       chain_answer RN_ECDSA_P256_SHA256
        no_ku_chain_root_ca_der
        int_not_revoked_chain_depth_forbid_unknown_b_crl_der true ]) ->
  passes int_not_revoked_chain_depth_forbid_unknown.
Proof. by_record. Qed.

Lemma int_not_revoked_chain_depth_forbid_unknown_owned_passes `{R : Ring} :
  agrees R
    (no_ku_chain_answers ++
     [ chain_answer RN_ECDSA_P256_SHA256
        no_ku_chain_int_a_ca_der
        int_not_revoked_chain_depth_forbid_unknown_ee_crl_der true;
       chain_answer RN_ECDSA_P256_SHA256
        no_ku_chain_int_b_ca_der
        int_not_revoked_chain_depth_forbid_unknown_crl_der true;
       chain_answer RN_ECDSA_P256_SHA256
        no_ku_chain_root_ca_der
        int_not_revoked_chain_depth_forbid_unknown_b_crl_der true ]) ->
  passes int_not_revoked_chain_depth_forbid_unknown_owned.
Proof. by_record. Qed.

Lemma int_revoked_badsig_chain_depth_passes `{R : Ring} :
  agrees R
    (no_ku_chain_answers ++
     [ chain_answer RN_ECDSA_P256_SHA256
        no_ku_chain_int_b_ca_der
        int_revoked_badsig_chain_depth_crl_der false ]) ->
  passes int_revoked_badsig_chain_depth.
Proof. by_record. Qed.

Lemma int_revoked_badsig_chain_depth_owned_passes `{R : Ring} :
  agrees R
    (no_ku_chain_answers ++
     [ chain_answer RN_ECDSA_P256_SHA256
        no_ku_chain_int_b_ca_der
        int_revoked_badsig_chain_depth_crl_der false ]) ->
  passes int_revoked_badsig_chain_depth_owned.
Proof. by_record. Qed.

Lemma int_revoked_wrong_ku_chain_depth_passes `{R : Ring} :
  agrees R
    (no_crl_ku_chain_answers ++
     [ chain_answer RN_ECDSA_P256_SHA256
        no_crl_ku_chain_int_b_ca_der
        int_revoked_wrong_ku_chain_depth_crl_der true ]) ->
  passes int_revoked_wrong_ku_chain_depth.
Proof. by_record. Qed.

Lemma int_revoked_wrong_ku_chain_depth_owned_passes `{R : Ring} :
  agrees R
    (no_crl_ku_chain_answers ++
     [ chain_answer RN_ECDSA_P256_SHA256
        no_crl_ku_chain_int_b_ca_der
        int_revoked_wrong_ku_chain_depth_crl_der true ]) ->
  passes int_revoked_wrong_ku_chain_depth_owned.
Proof. by_record. Qed.

Lemma ee_revoked_chain_depth_passes `{R : Ring} :
  agrees R
    (no_ku_chain_answers ++
     [ chain_answer RN_ECDSA_P256_SHA256
        no_ku_chain_int_a_ca_der
        ee_revoked_chain_depth_crl_der true ]) ->
  passes ee_revoked_chain_depth.
Proof. by_record. Qed.

Lemma ee_revoked_chain_depth_owned_passes `{R : Ring} :
  agrees R
    (no_ku_chain_answers ++
     [ chain_answer RN_ECDSA_P256_SHA256
        no_ku_chain_int_a_ca_der
        ee_revoked_chain_depth_crl_der true ]) ->
  passes ee_revoked_chain_depth_owned.
Proof. by_record. Qed.

Lemma int_revoked_no_ku_chain_depth_passes `{R : Ring} :
  agrees R
    (no_ku_chain_answers ++
     [ chain_answer RN_ECDSA_P256_SHA256
        no_ku_chain_int_b_ca_der
        int_revoked_no_ku_chain_depth_crl_der true ]) ->
  passes int_revoked_no_ku_chain_depth.
Proof. by_record. Qed.

Lemma int_revoked_no_ku_chain_depth_owned_passes `{R : Ring} :
  agrees R
    (no_ku_chain_answers ++
     [ chain_answer RN_ECDSA_P256_SHA256
        no_ku_chain_int_b_ca_der
        int_revoked_no_ku_chain_depth_crl_der true ]) ->
  passes int_revoked_no_ku_chain_depth_owned.
Proof. by_record. Qed.

Lemma int_revoked_crl_ku_chain_depth_passes `{R : Ring} :
  agrees R
    (ku_chain_answers ++
     [ chain_answer RN_ECDSA_P256_SHA256
        ku_chain_int_b_ca_der
        int_revoked_crl_ku_chain_depth_crl_der true ]) ->
  passes int_revoked_crl_ku_chain_depth.
Proof. by_record. Qed.

Lemma int_revoked_crl_ku_chain_depth_owned_passes `{R : Ring} :
  agrees R
    (ku_chain_answers ++
     [ chain_answer RN_ECDSA_P256_SHA256
        ku_chain_int_b_ca_der
        int_revoked_crl_ku_chain_depth_crl_der true ]) ->
  passes int_revoked_crl_ku_chain_depth_owned.
Proof. by_record. Qed.

Lemma ee_with_top_bit_set_serial_revoked_passes `{R : Ring} :
  agrees R
    (ku_chain_topbit_answers ++
     [ chain_answer RN_ECDSA_P256_SHA256
        ku_chain_int_a_ca_der
        ee_with_top_bit_set_serial_revoked_crl_der true ]) ->
  passes ee_with_top_bit_set_serial_revoked.
Proof. by_record. Qed.

Lemma ee_with_top_bit_set_serial_revoked_owned_passes `{R : Ring} :
  agrees R
    (ku_chain_topbit_answers ++
     [ chain_answer RN_ECDSA_P256_SHA256
        ku_chain_int_a_ca_der
        ee_with_top_bit_set_serial_revoked_crl_der true ]) ->
  passes ee_with_top_bit_set_serial_revoked_owned.
Proof. by_record. Qed.

Lemma ee_no_dp_crl_idp_passes `{R : Ring} :
  agrees R
    (no_ku_chain_answers ++
     [ chain_answer RN_ECDSA_P256_SHA256
        no_ku_chain_int_a_ca_der
        ee_no_dp_crl_idp_crl_der true ]) ->
  passes ee_no_dp_crl_idp.
Proof. by_record. Qed.

Lemma ee_no_dp_crl_idp_owned_passes `{R : Ring} :
  agrees R
    (no_ku_chain_answers ++
     [ chain_answer RN_ECDSA_P256_SHA256
        no_ku_chain_int_a_ca_der
        ee_no_dp_crl_idp_crl_der true ]) ->
  passes ee_no_dp_crl_idp_owned.
Proof. by_record. Qed.

Lemma ee_crl_no_idp_unknown_status_passes `{R : Ring} :
  agrees R
    (dp_chain_answers ++
     [ chain_answer RN_ECDSA_P256_SHA256
        dp_chain_int_a_ca_der
        ee_crl_no_idp_unknown_status_crl_der true ]) ->
  passes ee_crl_no_idp_unknown_status.
Proof. by_record. Qed.

Lemma ee_crl_no_idp_unknown_status_owned_passes `{R : Ring} :
  agrees R
    (dp_chain_answers ++
     [ chain_answer RN_ECDSA_P256_SHA256
        dp_chain_int_a_ca_der
        ee_crl_no_idp_unknown_status_crl_der true ]) ->
  passes ee_crl_no_idp_unknown_status_owned.
Proof. by_record. Qed.

Lemma ee_crl_mismatched_idp_unknown_status_passes `{R : Ring} :
  agrees R
    (dp_chain_answers ++
     [ chain_answer RN_ECDSA_P256_SHA256
        dp_chain_int_a_ca_der
        ee_crl_mismatched_idp_unknown_status_crl_der true ]) ->
  passes ee_crl_mismatched_idp_unknown_status.
Proof. by_record. Qed.

Lemma ee_crl_mismatched_idp_unknown_status_owned_passes `{R : Ring} :
  agrees R
    (dp_chain_answers ++
     [ chain_answer RN_ECDSA_P256_SHA256
        dp_chain_int_a_ca_der
        ee_crl_mismatched_idp_unknown_status_crl_der true ]) ->
  passes ee_crl_mismatched_idp_unknown_status_owned.
Proof. by_record. Qed.

Lemma ee_indirect_dp_unknown_status_passes `{R : Ring} :
  agrees R
    (indirect_dp_chain_answers ++
     [ chain_answer RN_ECDSA_P256_SHA256
        indirect_dp_chain_int_a_ca_der
        ee_indirect_dp_unknown_status_crl_der true ]) ->
  passes ee_indirect_dp_unknown_status.
Proof. by_record. Qed.

Lemma ee_indirect_dp_unknown_status_owned_passes `{R : Ring} :
  agrees R
    (indirect_dp_chain_answers ++
     [ chain_answer RN_ECDSA_P256_SHA256
        indirect_dp_chain_int_a_ca_der
        ee_indirect_dp_unknown_status_crl_der true ]) ->
  passes ee_indirect_dp_unknown_status_owned.
Proof. by_record. Qed.

Lemma ee_reasons_dp_unknown_status_passes `{R : Ring} :
  agrees R
    (reasons_dp_chain_answers ++
     [ chain_answer RN_ECDSA_P256_SHA256
        reasons_dp_chain_int_a_ca_der
        ee_reasons_dp_unknown_status_crl_der true ]) ->
  passes ee_reasons_dp_unknown_status.
Proof. by_record. Qed.

Lemma ee_reasons_dp_unknown_status_owned_passes `{R : Ring} :
  agrees R
    (reasons_dp_chain_answers ++
     [ chain_answer RN_ECDSA_P256_SHA256
        reasons_dp_chain_int_a_ca_der
        ee_reasons_dp_unknown_status_crl_der true ]) ->
  passes ee_reasons_dp_unknown_status_owned.
Proof. by_record. Qed.

Lemma ee_nofullname_dp_unknown_status_passes `{R : Ring} :
  agrees R
    (nofullname_dp_chain_answers ++
     [ chain_answer RN_ECDSA_P256_SHA256
        nofullname_dp_chain_int_a_ca_der
        ee_nofullname_dp_unknown_status_crl_der true ]) ->
  passes ee_nofullname_dp_unknown_status.
Proof. by_record. Qed.

Lemma ee_nofullname_dp_unknown_status_owned_passes `{R : Ring} :
  agrees R
    (nofullname_dp_chain_answers ++
     [ chain_answer RN_ECDSA_P256_SHA256
        nofullname_dp_chain_int_a_ca_der
        ee_nofullname_dp_unknown_status_crl_der true ]) ->
  passes ee_nofullname_dp_unknown_status_owned.
Proof. by_record. Qed.

Lemma ee_dp_idp_match_passes `{R : Ring} :
  agrees R
    (dp_chain_answers ++
     [chain_answer RN_ECDSA_P256_SHA256 dp_chain_int_a_ca_der ee_dp_idp_match_crl_der true]) ->
  passes ee_dp_idp_match.
Proof. by_record. Qed.

Lemma ee_dp_idp_match_owned_passes `{R : Ring} :
  agrees R
    (dp_chain_answers ++
     [chain_answer RN_ECDSA_P256_SHA256 dp_chain_int_a_ca_der ee_dp_idp_match_crl_der true]) ->
  passes ee_dp_idp_match_owned.
Proof. by_record. Qed.

Lemma ee_dp_invalid_passes `{R : Ring} :
  agrees R
    (invalid_dp_chain_answers ++
     [ chain_answer RN_ECDSA_P256_SHA256
        invalid_dp_chain_int_a_ca_der
        ee_dp_invalid_crl_der true ]) ->
  passes ee_dp_invalid.
Proof. by_record. Qed.

Lemma ee_dp_invalid_owned_passes `{R : Ring} :
  agrees R
    (invalid_dp_chain_answers ++
     [ chain_answer RN_ECDSA_P256_SHA256
        invalid_dp_chain_int_a_ca_der
        ee_dp_invalid_crl_der true ]) ->
  passes ee_dp_invalid_owned.
Proof. by_record. Qed.
