(* ===== verification/ApiTests.v ===== *)
(** * The tests of [src/tests/crl_tests.rs], [dns_name_tests.rs] and [name_tests.rs]

    Revocation lists through the public interface, borrowed and owned: searches,
    and the errors of malformed lists and entries; the table of valid names; the
    traits of names. *)
From Stdlib Require Import Strings.String.
From S2P Require Import Prelude Errors Untrusted Der Samples SignedData Cert Crl DnsName.
From S2P Require Import Formatting Testing TestData IntegrationData.

#[local] Existing Instance slice_reader.

#[export] Instance DnsName_eq_dec : EqDecision DnsName.
Proof. solve_decision. Defined.

(** ** [crl_tests.rs] *)
Definition REVOKED_SERIAL : Input := [x03; xae; x51; xdb; x51; x15; x5a; x3c].
Definition REVOKED_SERIAL_NEGATIVE : Input := [xfd; x78; xa8; x4e].
Definition REVOKED_SERIAL_WITH_TOP_BIT_SET : Input := [x00; x80; xfe; xed; xf0; x0d].

(** [crl.find_serial(serial).unwrap()]. *)
Definition borrowed_find (crl : BorrowedCertRevocationList) (serial : Input)
    : outcome Empty_set (option BorrowedRevokedCert) :=
  result_unwrap (find_serial crl serial).
Definition owned_find (crl : OwnedCertRevocationList) (serial : Input)
    : outcome Empty_set (option BorrowedRevokedCert) :=
  result_unwrap (find_serial crl serial).
Definition is_some {A} (o : option A) : bool := match o with Some _ => true | None => false end.

(** Tests on both kinds of list: the assertions on the borrowed list, and on the
    list that is made of it. *)
Definition on_both_lists (der : Input)
    (f : (Input -> outcome Empty_set (option BorrowedRevokedCert)) -> test) : test :=
  let? crl := result_unwrap (BorrowedCertRevocationList_from_der der) in
  let? _ := f (borrowed_find crl) in
  let? crl := result_unwrap (BorrowedCertRevocationList_to_owned crl) in
  f (owned_find crl).

Definition parse_valid_crl : test :=
  on_both_lists crl_valid_der
    (fun find =>
       let? revoked := find REVOKED_SERIAL in
       assert (is_some revoked)).

Definition parse_empty_crl : test :=
  let? crl := result_unwrap (BorrowedCertRevocationList_from_der crl_empty_der) in
  let? _ := assert (negb (is_some (fst (der_iterator_next (crl_into_iter crl))))) in
  assert (is_ok (BorrowedCertRevocationList_to_owned crl)).

(** A list that is not accepted. *)
Definition from_der_fails (der : Input) (e : Error) : test :=
  let res := BorrowedCertRevocationList_from_der der in
  assert (is_err res e).

Definition parse_mismatched_sigalg_crl : test :=
  from_der_fails crl_mismatched_sigalg_der SignatureAlgorithmMismatch.
Definition parse_bad_this_update_crl : test :=
  from_der_fails crl_invalid_this_update_time_der BadDerTime.
Definition parse_missing_next_update_crl : test :=
  from_der_fails crl_missing_next_update_der (TrailingData TimeId).
Definition parse_wrong_version_crl : test :=
  from_der_fails crl_wrong_version_der UnsupportedCrlVersion.
Definition parse_missing_exts_crl : test :=
  from_der_fails crl_missing_exts_der MalformedExtensions.
Definition parse_delta_crl : test :=
  from_der_fails crl_delta_der UnsupportedDeltaCrl.
Definition parse_unknown_crit_ext_crl : test :=
  from_der_fails crl_unknown_crit_ext_der UnsupportedCriticalExtension.
Definition parse_negative_crl_number_crl : test :=
  from_der_fails crl_negative_crl_number_der InvalidCrlNumber.
Definition parse_too_long_crl_number_crl : test :=
  from_der_fails crl_too_long_crl_number_der InvalidCrlNumber.

Definition parse_entry_negative_serial_crl : test :=
  on_both_lists crl_negative_serial_der
    (fun find =>
       let? revoked := find REVOKED_SERIAL in
       let? _ := assert (negb (is_some revoked)) in
       let? revoked := find REVOKED_SERIAL_NEGATIVE in
       assert (is_some revoked)).

Definition parse_entry_topbit_serial_crl : test :=
  on_both_lists crl_topbit_serial_der
    (fun find =>
       let? revoked := find REVOKED_SERIAL_WITH_TOP_BIT_SET in
       assert (is_some revoked)).

Definition parse_entry_without_exts_crl : test :=
  on_both_lists crl_no_entry_exts_der
    (fun find =>
       let? revoked := find REVOKED_SERIAL in
       assert (is_some revoked)).

Definition parse_entry_with_empty_exts_seq : test :=
  let res := BorrowedCertRevocationList_from_der crl_entry_empty_ext_seq_der in
  let? _ := assert (is_ok res) in
  let? crl := result_unwrap res in
  assert (is_ok (BorrowedCertRevocationList_to_owned crl)).

(** A list whose entries are not accepted: it is parsed, but neither searched nor
    made an owned list. *)
Definition entries_fail (der : Input) (e : Error) : test :=
  let? crl := result_unwrap (BorrowedCertRevocationList_from_der der) in
  let res := find_serial crl REVOKED_SERIAL in
  let? _ := assert (is_err res e) in
  let res := BorrowedCertRevocationList_to_owned crl in
  assert (is_err res e).

Definition parse_entry_unknown_crit_ext_crl : test :=
  entries_fail crl_entry_unknown_crit_ext_der UnsupportedCriticalExtension.
Definition parse_entry_invalid_reason_crl : test :=
  entries_fail crl_entry_invalid_reason_der UnsupportedRevocationReason.

Definition parse_entry_invalidity_date_crl : test :=
  on_both_lists crl_entry_invalidity_date_der
    (fun find =>
       let? revoked := find REVOKED_SERIAL in
       let? revoked := expect revoked in
       assert (is_some (invalidity_date revoked))).

Definition parse_entry_indirect_issuer_crl : test :=
  entries_fail crl_entry_issuer_ext_der UnsupportedIndirectCrl.

(** ** [dns_name_tests.rs] *)

(** [DnsNameRef::try_from_ascii(s)], with its result as an outcome. *)
Definition valid_name (s : Input) : outcome InvalidDnsNameError DnsNameRef :=
  match DnsNameRef_try_from_ascii s with
  | Ok (inl name) => Ok name
  | Ok (inr e) => Err e
  | Err _ | Panic => Panic
  | OutOfFuel => OutOfFuel
  end.

Definition DNS_NAME_VALIDITY : list (Input * bool) :=
  [ (ascii_bytes "a", true);
    (ascii_bytes "a.b", true);
    (ascii_bytes "a.b.c", true);
    (ascii_bytes "a.b.c.d", true);
    (* Hyphens, one component. *)
    (ascii_bytes "-", false);
    (ascii_bytes "-a", false);
    (ascii_bytes "a-", false);
    (ascii_bytes "a-b", true);
    (* Hyphens, last component. *)
    (ascii_bytes "a.-", false);
    (ascii_bytes "a.-a", false);
    (ascii_bytes "a.a-", false);
    (ascii_bytes "a.a-b", true);
    (* Hyphens, not last component. *)
    (ascii_bytes "-.a", false);
    (ascii_bytes "-a.a", false);
    (ascii_bytes "a-.a", false);
    (ascii_bytes "a-b.a", true);
    (* Underscores, one component. *)
    (ascii_bytes "_", true);
    (* TODO: Perhaps this should be rejected for '_' being sole character?. *)
    (ascii_bytes "_a", true);
    (* TODO: Perhaps this should be rejected for '_' being 1st? *)
    (ascii_bytes "a_", true);
    (ascii_bytes "a_b", true);
    (* Underscores, last component. *)
    (ascii_bytes "a._", true);
    (* TODO: Perhaps this should be rejected for '_' being sole character?. *)
    (ascii_bytes "a._a", true);
    (* TODO: Perhaps this should be rejected for '_' being 1st? *)
    (ascii_bytes "a.a_", true);
    (ascii_bytes "a.a_b", true);
    (* Underscores, not last component. *)
    (ascii_bytes "_.a", true);
    (* TODO: Perhaps this should be rejected for '_' being sole character?. *)
    (ascii_bytes "_a.a", true);
    (ascii_bytes "a_.a", true);
    (ascii_bytes "a_b.a", true);
    (* empty labels *)
    ([], false);
    (ascii_bytes ".", false);
    (ascii_bytes "a", true);
    (ascii_bytes ".a", false);
    (ascii_bytes ".a.b", false);
    (ascii_bytes "..a", false);
    (ascii_bytes "a..b", false);
    (ascii_bytes "a...b", false);
    (ascii_bytes "a..b.c", false);
    (ascii_bytes "a.b..c", false);
    (ascii_bytes ".a.b.c.", false);
    (* absolute names *)
    (ascii_bytes "a.", true);
    (ascii_bytes "a.b.", true);
    (ascii_bytes "a.b.c.", true);
    (* absolute names with empty label at end *)
    (ascii_bytes "a..", false);
    (ascii_bytes "a.b..", false);
    (ascii_bytes "a.b.c..", false);
    (ascii_bytes "a...", false);
    (* Punycode *)
    (ascii_bytes "xn--", false);
    (ascii_bytes "xn--.", false);
    (ascii_bytes "xn--.a", false);
    (ascii_bytes "a.xn--", false);
    (ascii_bytes "a.xn--.", false);
    (ascii_bytes "a.xn--.b", false);
    (ascii_bytes "a.xn--.b", false);
    ((ascii_bytes "a.xn--" ++ [x00] ++ ascii_bytes ".b"), false);
    (ascii_bytes "a.xn--a.b", true);
    (ascii_bytes "xn--a", true);
    (ascii_bytes "a.xn--a", true);
    (ascii_bytes "a.xn--a.a", true);
    (([xc4; x95] ++ ascii_bytes ".com"), false);
    (* UTF-8 ĕ *)
    (ascii_bytes "xn--jea.com", true);
    (* punycode ĕ *)
    ((ascii_bytes "xn--" ++ [xc4; x95] ++ ascii_bytes ".com"), false);
    (* UTF-8 ĕ, malformed punycode + UTF-8 mashup Surprising punycode *)
    (ascii_bytes "xn--google.com", true);
    (* 䕮䕵䕶䕱.com *)
    (ascii_bytes "xn--citibank.com", true);
    (* 岍岊岊岅岉岎.com *)
    (ascii_bytes "xn--cnn.com", true);
    (* 䁾.com *)
    (ascii_bytes "a.xn--cnn", true);
    (* a.䁾 *)
    (ascii_bytes "a.xn--cnn.com", true);
    (* a.䁾.com *)
    (ascii_bytes "1.2.3.4", false);
    (* IPv4 address *)
    (ascii_bytes "1::2", false);
    (* IPV6 address whitespace not allowed anywhere. *)
    (ascii_bytes " ", false);
    (ascii_bytes " a", false);
    (ascii_bytes "a ", false);
    (ascii_bytes "a b", false);
    (ascii_bytes "a.b 1", false);
    ((ascii_bytes "a" ++ [x09]), false);
    (* Nulls not allowed *)
    ([x00], false);
    ((ascii_bytes "a" ++ [x00]), false);
    ((ascii_bytes "example.org" ++ [x00] ++ ascii_bytes ".example.com"), false);
    (* Hi Moxie! *)
    (([x00] ++ ascii_bytes "a"), false);
    ((ascii_bytes "xn--" ++ [x00]), false);
    (* Allowed character set *)
    (ascii_bytes "a.b.c.d.e.f.g.h.i.j.k.l.m.n.o.p.q.r.s.t.u.v.w.x.y.z", true);
    (ascii_bytes "A.B.C.D.E.F.G.H.I.J.K.L.M.N.O.P.Q.R.S.T.U.V.W.X.Y.Z", true);
    (ascii_bytes "0.1.2.3.4.5.6.7.8.9.a", true);
    (* "a" needed to avoid numeric last label *)
    (ascii_bytes "a-b", true);
    (* hyphen (a label cannot start or end with a hyphen) An invalid character in various
     positions *)
    (ascii_bytes "!", false);
    (ascii_bytes "!a", false);
    (ascii_bytes "a!", false);
    (ascii_bytes "a!b", false);
    (ascii_bytes "a.!", false);
    (ascii_bytes "a.a!", false);
    (ascii_bytes "a.!a", false);
    (ascii_bytes "a.a!a", false);
    (ascii_bytes "a.!a.a", false);
    (ascii_bytes "a.a!.a", false);
    (ascii_bytes "a.a!a.a", false);
    (* Various other invalid characters *)
    (ascii_bytes "a!", false);
    (ascii_bytes "a@", false);
    (ascii_bytes "a#", false);
    (ascii_bytes "a$", false);
    (ascii_bytes "a%", false);
    (ascii_bytes "a^", false);
    (ascii_bytes "a&", false);
    (ascii_bytes "a*", false);
    (ascii_bytes "a(", false);
    (ascii_bytes "a)", false);
    (* last label can't be fully numeric *)
    (ascii_bytes "1", false);
    (ascii_bytes "a.1", false);
    (* other labels can be fully numeric *)
    (ascii_bytes "1.a", true);
    (ascii_bytes "1.2.a", true);
    (ascii_bytes "1.2.3.a", true);
    (* last label can be *partly* numeric *)
    (ascii_bytes "1a", true);
    (ascii_bytes "1.1a", true);
    (ascii_bytes "1-1", true);
    (ascii_bytes "a.1-1", true);
    (ascii_bytes "a.1-a", true);
    (* labels cannot start with a hyphen *)
    (ascii_bytes "-", false);
    (ascii_bytes "-1", false);
    (* labels cannot end with a hyphen *)
    (ascii_bytes "1-", false);
    (ascii_bytes "1-.a", false);
    (ascii_bytes "a-", false);
    (ascii_bytes "a-.a", false);
    (ascii_bytes "a.1-.a", false);
    (ascii_bytes "a.a-.a", false);
    (* labels can contain a hyphen in the middle *)
    (ascii_bytes "a-b", true);
    (ascii_bytes "1-2", true);
    (ascii_bytes "a.a-1", true);
    (* multiple consecutive hyphens allowed *)
    (ascii_bytes "a--1", true);
    (ascii_bytes "1---a", true);
    (ascii_bytes "a-----------------b", true);
    (* Wildcard specifications are not valid reference names. *)
    (ascii_bytes "*.a", false);
    (ascii_bytes "a*", false);
    (ascii_bytes "a*.", false);
    (ascii_bytes "a*.a", false);
    (ascii_bytes "a*.a.", false);
    (ascii_bytes "*.a.b", false);
    (ascii_bytes "*.a.b.", false);
    (ascii_bytes "a*.b.c", false);
    (ascii_bytes "*.a.b.c", false);
    (ascii_bytes "a*.b.c.d", false);
    (* Multiple wildcards. *)
    (ascii_bytes "a**.b.c", false);
    (ascii_bytes "a*b*.c.d", false);
    (ascii_bytes "a*.b*.c", false);
    (* Wildcards not in the first label. *)
    (ascii_bytes "a.*", false);
    (ascii_bytes "a.*.b", false);
    (ascii_bytes "a.b.*", false);
    (ascii_bytes "a.b*.c", false);
    (ascii_bytes "*.b*.c", false);
    (ascii_bytes ".*.a.b", false);
    (ascii_bytes ".a*.b.c", false);
    (* Wildcards not at the end of the first label. *)
    (ascii_bytes "*a.b.c", false);
    (ascii_bytes "a*b.c.d", false);
    (* Wildcards and IDNA prefix. *)
    (ascii_bytes "x*.a.b", false);
    (ascii_bytes "xn*.a.b", false);
    (ascii_bytes "xn-*.a.b", false);
    (ascii_bytes "xn--*.a.b", false);
    (ascii_bytes "xn--w*.a.b", false);
    (* Redacted labels from RFC6962bis draft 4
     https://tools.ietf.org/html/draft-ietf-trans-rfc6962-bis-04#section-3.2.2 *)
    (ascii_bytes "(PRIVATE).foo", false);
    (* maximum label length is 63 characters *)
    (ascii_bytes "123456789012345678901234567890123456789012345678901234567890abc", true);
    (ascii_bytes "123456789012345678901234567890123456789012345678901234567890abcd", false);
    (* maximum total length is 253 characters *)
    (ascii_bytes
     "12345678901234567890123456789012345678901234567890.12345678901234567890123456789012345678901234567890.12345678901234567890123456789012345678901234567890.12345678901234567890123456789012345678901234567890.123456789012345678901234567890123456789012345678a",
     true);
    (ascii_bytes
     "12345678901234567890123456789012345678901234567890.12345678901234567890123456789012345678901234567890.12345678901234567890123456789012345678901234567890.12345678901234567890123456789012345678901234567890.1234567890123456789012345678901234567890123456789a",
     false) ].

Definition IP_ADDRESS_DNS_VALIDITY : list (Input * bool) :=
  [ ([], false);
    (ascii_bytes "1", false);
    (ascii_bytes "1.2", false);
    (ascii_bytes "1.2.3", false);
    (ascii_bytes "1.2.3.4", false);
    (ascii_bytes "1.2.3.4.5", false);
    (ascii_bytes "1.2.3.4a", true);
    (* a DNS name! *)
    (ascii_bytes "a.2.3.4", false);
    (* not even a DNS name! *)
    (ascii_bytes "1::2", false);
    (* IPv6 address Whitespace not allowed *)
    (ascii_bytes " 1.2.3.4", false);
    (ascii_bytes "1.2.3.4 ", false);
    (ascii_bytes "1 .2.3.4", false);
    (([x0a] ++ ascii_bytes "1.2.3.4"), false);
    ((ascii_bytes "1.2.3.4" ++ [x0a]), false);
    (* Nulls not allowed *)
    ([x00], false);
    (([x00] ++ ascii_bytes "1.2.3.4"), false);
    ((ascii_bytes "1.2.3.4" ++ [x00]), false);
    ((ascii_bytes "1.2.3.4" ++ [x00] ++ ascii_bytes ".5"), false);
    (* Range *)
    (ascii_bytes "0.0.0.0", false);
    (ascii_bytes "255.255.255.255", false);
    (ascii_bytes "256.0.0.0", false);
    (ascii_bytes "0.256.0.0", false);
    (ascii_bytes "0.0.256.0", false);
    (ascii_bytes "0.0.0.256", false);
    (ascii_bytes "999.0.0.0", false);
    (ascii_bytes "9999999999999999999.0.0.0", false);
    (* All digits allowed *)
    (ascii_bytes "0.1.2.3", false);
    (ascii_bytes "4.5.6.7", false);
    (ascii_bytes "8.9.0.1", false);
    (* Leading zeros not allowed *)
    (ascii_bytes "01.2.3.4", false);
    (ascii_bytes "001.2.3.4", false);
    (ascii_bytes "00000000001.2.3.4", false);
    (ascii_bytes "010.2.3.4", false);
    (ascii_bytes "1.02.3.4", false);
    (ascii_bytes "1.2.03.4", false);
    (ascii_bytes "1.2.3.04", false);
    (* Empty components *)
    (ascii_bytes ".2.3.4", false);
    (ascii_bytes "1..3.4", false);
    (ascii_bytes "1.2..4", false);
    (ascii_bytes "1.2.3.", false);
    (* Too many components *)
    (ascii_bytes "1.2.3.4.5", false);
    (ascii_bytes "1.2.3.4.5.6", false);
    (ascii_bytes "0.1.2.3.4", false);
    (ascii_bytes "1.2.3.4.0", false);
    (* Leading/trailing dot *)
    (ascii_bytes ".1.2.3.4", false);
    (ascii_bytes "1.2.3.4.", false);
    (* Other common forms of IPv4 address
     http://en.wikipedia.org/wiki/IPv4#Address_representations *)
    (ascii_bytes "192.0.2.235", false);
    (* dotted decimal (control value) *)
    (ascii_bytes "0xC0.0x00.0x02.0xEB", true);
    (* dotted hex - actually a DNS name! *)
    (ascii_bytes "0301.0000.0002.0353", false);
    (* dotted octal *)
    (ascii_bytes "0xC00002EB", true);
    (* non-dotted hex, actually a DNS name! *)
    (ascii_bytes "3221226219", false);
    (* non-dotted decimal *)
    (ascii_bytes "030000001353", false);
    (* non-dotted octal *)
    (ascii_bytes "192.0.0002.0xEB", true);
    (* mixed, actually a DNS name! *)
    (ascii_bytes "1234", false);
    (ascii_bytes "1234:5678", false);
    (ascii_bytes "1234:5678:9abc", false);
    (ascii_bytes "1234:5678:9abc:def0", false);
    (ascii_bytes "1234:5678:9abc:def0:1234:", false);
    (ascii_bytes "1234:5678:9abc:def0:1234:5678:", false);
    (ascii_bytes "1234:5678:9abc:def0:1234:5678:9abc:", false);
    (ascii_bytes "1234:5678:9abc:def0:1234:5678:9abc:def0", false);
    (ascii_bytes "1234:5678:9abc:def0:1234:5678:9abc:def0:", false);
    (ascii_bytes ":1234:5678:9abc:def0:1234:5678:9abc:def0", false);
    (ascii_bytes "1234:5678:9abc:def0:1234:5678:9abc:def0:0000", false);
    (* Valid contractions *)
    (ascii_bytes "::1", false);
    (ascii_bytes "::1234", false);
    (ascii_bytes "1234::", false);
    (ascii_bytes "1234::5678", false);
    (ascii_bytes "1234:5678::abcd", false);
    (ascii_bytes "1234:5678:9abc:def0:1234:5678:9abc::", false);
    (* Contraction in full IPv6 addresses not allowed *)
    (ascii_bytes "::1234:5678:9abc:def0:1234:5678:9abc:def0", false);
    (* start *)
    (ascii_bytes "1234:5678:9abc:def0:1234:5678:9abc:def0::", false);
    (* end *)
    (ascii_bytes "1234:5678::9abc:def0:1234:5678:9abc:def0", false);
    (* interior Multiple contractions not allowed *)
    (ascii_bytes "::1::", false);
    (ascii_bytes "::1::2", false);
    (ascii_bytes "1::2::", false);
    (* Colon madness! *)
    (ascii_bytes ":", false);
    (ascii_bytes "::", false);
    (ascii_bytes ":::", false);
    (ascii_bytes "::::", false);
    (ascii_bytes ":::1", false);
    (ascii_bytes "::::1", false);
    (ascii_bytes "1:::2", false);
    (ascii_bytes "1::::2", false);
    (ascii_bytes "1:2:::", false);
    (ascii_bytes "1:2::::", false);
    (ascii_bytes "::1234:", false);
    (ascii_bytes ":1234::", false);
    (ascii_bytes "01234::", false);
    (* too many digits, even if zero *)
    (ascii_bytes "12345678::", false);
    (* too many digits or missing colon uppercase *)
    (ascii_bytes "ABCD:EFAB::", false);
    (* miXeD CAse *)
    (ascii_bytes "aBcd:eFAb::", false);
    (* IPv4-style *)
    (ascii_bytes "::2.3.4.5", false);
    (ascii_bytes "1234::2.3.4.5", false);
    (ascii_bytes "::abcd:2.3.4.5", false);
    (ascii_bytes "1234:5678:9abc:def0:1234:5678:252.253.254.255", false);
    (ascii_bytes "1234:5678:9abc:def0:1234::252.253.254.255", false);
    (ascii_bytes "1234::252.253.254", false);
    (ascii_bytes "::252.253.254", false);
    (ascii_bytes "::252.253.254.300", false);
    (ascii_bytes "1234::252.253.254.255:", false);
    (ascii_bytes "1234::252.253.254.255:5678", false);
    (* Contractions that don't contract *)
    (ascii_bytes "::1234:5678:9abc:def0:1234:5678:9abc:def0", false);
    (ascii_bytes "1234:5678:9abc:def0:1234:5678:9abc:def0::", false);
    (ascii_bytes "1234:5678:9abc:def0::1234:5678:9abc:def0", false);
    (ascii_bytes "1234:5678:9abc:def0:1234:5678::252.253.254.255", false);
    (* With and without leading zeros *)
    (ascii_bytes "::123", false);
    (ascii_bytes "::0123", false);
    (ascii_bytes "::012", false);
    (ascii_bytes "::0012", false);
    (ascii_bytes "::01", false);
    (ascii_bytes "::001", false);
    (ascii_bytes "::0001", false);
    (ascii_bytes "::0", false);
    (ascii_bytes "::00", false);
    (ascii_bytes "::000", false);
    (ascii_bytes "::0000", false);
    (ascii_bytes "::01234", false);
    (ascii_bytes "::00123", false);
    (ascii_bytes "::000123", false);
    (* Trailing zero *)
    (ascii_bytes "::12340", false);
    (* Whitespace *)
    (ascii_bytes " 1234:5678:9abc:def0:1234:5678:9abc:def0", false);
    (([x09] ++ ascii_bytes "1234:5678:9abc:def0:1234:5678:9abc:def0"), false);
    (([x09] ++ ascii_bytes "1234:5678:9abc:def0:1234:5678:9abc:def0" ++ [x0a]), false);
    (ascii_bytes "1234 :5678:9abc:def0:1234:5678:9abc:def0", false);
    (ascii_bytes "1234: 5678:9abc:def0:1234:5678:9abc:def0", false);
    (ascii_bytes ":: 2.3.4.5", false);
    (ascii_bytes "1234::252.253.254.255 ", false);
    ((ascii_bytes "1234::252.253.254.255" ++ [x0a]), false);
    (ascii_bytes "1234::252.253. 254.255", false);
    (* Nulls *)
    ([x00], false);
    ((ascii_bytes "::1" ++ [x00] ++ ascii_bytes ":2"), false);
    ((ascii_bytes "::1" ++ [x00]), false);
    ((ascii_bytes "::1.2.3.4" ++ [x00]), false);
    ((ascii_bytes "::1.2" ++ [x00] ++ ascii_bytes "2.3.4"), false) ].

Definition dns_name_ref_try_from_ascii_test : test :=
  for_each (DNS_NAME_VALIDITY ++ IP_ADDRESS_DNS_VALIDITY) (fun '(s, is_valid) =>
    assert_eq (is_ok (valid_name s)) is_valid).

(** ** [name_tests.rs]

    The assertions that are compiled only, and the derived [Debug] of an owned
    name, are not modelled. *)
Definition test_dns_name_ref_traits : test :=
  let? a := result_unwrap (valid_name (ascii_bytes "example.com")) in
  assert_eq (DnsNameRef_debug a)
    (ascii_bytes "DnsNameRef(" ++ [quote] ++ ascii_bytes "example.com" ++ [quote]
     ++ ascii_bytes ")").

Definition owned_name (s : Input) : outcome Empty_set DnsName :=
  let? a_ref := result_unwrap (valid_name s) in
  DnsNameRef_to_owned a_ref.

Definition test_dns_name_traits : test :=
  let? a := owned_name (ascii_bytes "example.com") in
  let? _ := assert_eq a a in
  (* equality is case-insensitive *)
  let? b := owned_name (ascii_bytes "Example.Com") in
  let? _ := assert_eq a b in
  (* and not completely wrong *)
  let? b := owned_name (ascii_bytes "fxample.com") in
  let? _ := assert (negb (bool_decide (a = b))) in
  let? b := owned_name (ascii_bytes "example.co") in
  assert (negb (bool_decide (a = b))).

(** ** The tests pass *)

Lemma parse_valid_crl_passes : passes parse_valid_crl.
Proof. evaluate. Qed.

Lemma parse_empty_crl_passes : passes parse_empty_crl.
Proof. evaluate. Qed.

Lemma parse_mismatched_sigalg_crl_passes : passes parse_mismatched_sigalg_crl.
Proof. evaluate. Qed.

Lemma parse_bad_this_update_crl_passes : passes parse_bad_this_update_crl.
Proof. evaluate. Qed.

Lemma parse_missing_next_update_crl_passes : passes parse_missing_next_update_crl.
Proof. evaluate. Qed.

Lemma parse_wrong_version_crl_passes : passes parse_wrong_version_crl.
Proof. evaluate. Qed.

Lemma parse_missing_exts_crl_passes : passes parse_missing_exts_crl.
Proof. evaluate. Qed.

Lemma parse_delta_crl_passes : passes parse_delta_crl.
Proof. evaluate. Qed.

Lemma parse_unknown_crit_ext_crl_passes : passes parse_unknown_crit_ext_crl.
Proof. evaluate. Qed.

Lemma parse_negative_crl_number_crl_passes : passes parse_negative_crl_number_crl.
Proof. evaluate. Qed.

Lemma parse_too_long_crl_number_crl_passes : passes parse_too_long_crl_number_crl.
Proof. evaluate. Qed.

Lemma parse_entry_negative_serial_crl_passes : passes parse_entry_negative_serial_crl.
Proof. evaluate. Qed.

Lemma parse_entry_topbit_serial_crl_passes : passes parse_entry_topbit_serial_crl.
Proof. evaluate. Qed.

Lemma parse_entry_without_exts_crl_passes : passes parse_entry_without_exts_crl.
Proof. evaluate. Qed.

Lemma parse_entry_with_empty_exts_seq_passes : passes parse_entry_with_empty_exts_seq.
Proof. evaluate. Qed.

Lemma parse_entry_unknown_crit_ext_crl_passes : passes parse_entry_unknown_crit_ext_crl.
Proof. evaluate. Qed.

Lemma parse_entry_invalid_reason_crl_passes : passes parse_entry_invalid_reason_crl.
Proof. evaluate. Qed.

Lemma parse_entry_invalidity_date_crl_passes : passes parse_entry_invalidity_date_crl.
Proof. evaluate. Qed.

Lemma parse_entry_indirect_issuer_crl_passes : passes parse_entry_indirect_issuer_crl.
Proof. evaluate. Qed.

Lemma dns_name_ref_try_from_ascii_test_passes : passes dns_name_ref_try_from_ascii_test.
Proof. evaluate. Qed.

Lemma test_dns_name_ref_traits_passes : passes test_dns_name_ref_traits.
Proof. evaluate. Qed.

Lemma test_dns_name_traits_passes : passes test_dns_name_traits.
Proof. evaluate. Qed.
