(* ===== verification/IntegrationTests.v ===== *)
(** * The tests of [src/tests/integration.rs] and of smaller files

    Chains of real sites, certificates at the edge of the format, the names of
    certificates, and the algorithms that do not fit a key
    ([src/tests/signatures.rs]; its other tests only call the ring crate).  A
    chain is accepted for every ring crate with the answers named. *)
From Stdlib Require Import Strings.String.
From S2P Require Import Prelude Errors Untrusted Der Samples Time SignedData RingAlgs Cert.
From S2P Require Import TrustAnchor DnsName SubjectName VerifyName VerifyCert EndEntity.
From S2P Require Import Testing Recorded TestData IntegrationData.

#[local] Existing Instance slice_reader.

(** ** Chains *)
Definition netflix `{R : Ring} : test :=
  let ee := netflix_ee_der in
  let inter := netflix_inter_der in
  let ca := netflix_ca_der in
  let? anchor := result_unwrap (extract_trust_anchor ca) in
  let anchors := [anchor] in
  let time := from_seconds_since_unix_epoch 1492441716 in
  let? cert := result_unwrap (EndEntityCert_try_from ee) in
  assert_eq (verify_for_usage cert ALL_SIGALGS anchors [inter] time server_auth None) (Ok tt).

(** The closures [check_name] and [check_addr]; what they print is not modelled. *)
Definition check_name (cert : EndEntityCert) (name : Input) : test :=
  let? subject_name_ref := result_unwrap (SubjectNameRef_try_from_ascii_str name) in
  assert_eq (verify_is_valid_for_subject_name cert subject_name_ref) (Ok tt).
Definition check_addr (cert : EndEntityCert) (addr : Input) : test :=
  let? subject_name_ref := result_unwrap (SubjectNameRef_try_from_ascii addr) in
  assert_eq (verify_is_valid_for_subject_name cert subject_name_ref) (Ok tt).

Definition cloudflare_dns `{R : Ring} : test :=
  let ee := cloudflare_ee_der in
  let inter := cloudflare_inter_der in
  let ca := cloudflare_ca_der in
  let? anchor := result_unwrap (extract_trust_anchor ca) in
  let anchors := [anchor] in
  let time := from_seconds_since_unix_epoch 1663495771 in
  let? cert := result_unwrap (EndEntityCert_try_from ee) in
  let result := verify_for_usage cert ALL_SIGALGS anchors [inter] time server_auth None in
  let? _ := assert_eq result (Ok tt) in
  let? _ := check_name cert (ascii_bytes "cloudflare-dns.com") in
  let? _ := check_name cert (ascii_bytes "wildcard.cloudflare-dns.com") in
  let? _ := check_name cert (ascii_bytes "one.one.one.one") in
  let? _ := check_addr cert (ascii_bytes "1.1.1.1") in
  let? _ := check_addr cert (ascii_bytes "1.0.0.1") in
  let? _ := check_addr cert (ascii_bytes "162.159.36.1") in
  let? _ := check_addr cert (ascii_bytes "162.159.46.1") in
  let? _ := check_addr cert (ascii_bytes "2606:4700:4700:0000:0000:0000:0000:1111") in
  let? _ := check_addr cert (ascii_bytes "2606:4700:4700:0000:0000:0000:0000:1001") in
  let? _ := check_addr cert (ascii_bytes "2606:4700:4700:0000:0000:0000:0000:0064") in
  check_addr cert (ascii_bytes "2606:4700:4700:0000:0000:0000:0000:6400").

Definition ed25519 `{R : Ring} : test :=
  let ee := ed25519_ee_der in
  let ca := ed25519_ca_der in
  let? anchor := result_unwrap (extract_trust_anchor ca) in
  let anchors := [anchor] in
  let time := from_seconds_since_unix_epoch 1547363522 in
  let? cert := result_unwrap (EndEntityCert_try_from ee) in
  assert_eq (verify_for_usage cert ALL_SIGALGS anchors [] time server_auth None) (Ok tt).

Definition critical_extensions `{R : Ring} : test :=
  let root := critical_root_cert_der in
  let ca := critical_ca_cert_der in
  let time := from_seconds_since_unix_epoch 1670779098 in
  let? anchor := result_unwrap (extract_trust_anchor root) in
  let anchors := [anchor] in
  let ee := critical_ee_cert_noncrit_unknown_ext_der in
  let res :=
    let? cert := EndEntityCert_try_from ee in
    verify_for_usage cert ALL_SIGALGS anchors [ca] time server_auth None in
  let? _ := assert_eq res (Ok tt) in
  let ee := critical_ee_cert_crit_unknown_ext_der in
  let res :=
    let? cert := EndEntityCert_try_from ee in
    verify_for_usage cert ALL_SIGALGS anchors [ca] time server_auth None in
  assert_eq res (Err UnsupportedCriticalExtension).

(** ** Serial numbers, versions and extensions *)
Definition read_root_with_zero_serial : test :=
  let ca := serial_zero_der in
  let? _ := result_unwrap (extract_trust_anchor ca) in Ok tt.
Definition read_root_with_neg_serial : test :=
  let ca := serial_neg_der in
  let? _ := result_unwrap (extract_trust_anchor ca) in Ok tt.

Definition read_ee_with_neg_serial `{R : Ring} : test :=
  let ca := serial_neg_ca_der in
  let ee := serial_neg_ee_der in
  let? anchor := result_unwrap (extract_trust_anchor ca) in
  let anchors := [anchor] in
  let time := from_seconds_since_unix_epoch 1667401500 in
  let? cert := result_unwrap (EndEntityCert_try_from ee) in
  assert_eq (verify_for_usage cert ALL_SIGALGS anchors [] time server_auth None) (Ok tt).

Definition read_ee_with_large_pos_serial : test :=
  let ee := serial_large_positive_der in
  let? _ := result_unwrap (EndEntityCert_try_from ee) in Ok tt.

(** [src/tests/cert_v1_unsupported.rs] and [src/tests/cert_without_extensions.rs]. *)
Definition test_cert_v1_unsupported : test :=
  let ca := cert_v1_der in
  assert (is_err (EndEntityCert_try_from ca) UnsupportedCertVersion).
Definition cert_without_extensions_test : test :=
  let ca := cert_without_extensions_der in
  assert (is_ok (EndEntityCert_try_from ca)).

(** ** The names of a certificate *)

(** Equality of hash sets, given as lists. *)
Definition same_set (a b : list Input) : bool :=
  forallb (fun x => bool_decide (x ∈ b)) a && forallb (fun x => bool_decide (x ∈ a)) b.

Definition expect_cert_dns_names (data : Input) (expected_names : list Input) : test :=
  let? cert := result_unwrap (EndEntityCert_try_from data) in
  let expected_names := remove_dups expected_names in
  let? actual_names := result_unwrap (dns_names cert) in
  (* no duplicates that are not supposed to be there *)
  let? _ := assert_eq (length actual_names) (length expected_names) in
  let? actual_names := map_all GeneralDnsNameRef_as_ref actual_names in
  assert (same_set (remove_dups actual_names) expected_names).

Definition list_netflix_names : test :=
  expect_cert_dns_names netflix_ee_der
    (map ascii_bytes
       [ "account.netflix.com";
         "ca.netflix.com";
         "netflix.ca";
         "netflix.com";
         "signup.netflix.com";
         "www.netflix.ca";
         "www1.netflix.com";
         "www2.netflix.com";
         "www3.netflix.com";
         "develop-stage.netflix.com";
         "release-stage.netflix.com";
         "www.netflix.com" ]%string).

Definition invalid_subject_alt_names : test :=
  expect_cert_dns_names invalid_subject_alternative_name_der
    (map ascii_bytes
       [ "account.netflix.com";
         "ca.netflix.com";
         "netflix.ca";
         "netflix.com";
         "signup.netflix.com";
         "www.netflix.ca";
         "www1.netflix.com";
         "www2.netflix.com";
         "www3.netflix.com";
         "develop-stage.netflix.com";
         "release-stage.netflix.com" ]%string).

Definition wildcard_subject_alternative_names : test :=
  expect_cert_dns_names dns_names_and_wildcards_der
    (map ascii_bytes
       [ "account.netflix.com";
         "*.netflix.com";
         "netflix.ca";
         "netflix.com";
         "signup.netflix.com";
         "www.netflix.ca";
         "www1.netflix.com";
         "www2.netflix.com";
         "www3.netflix.com";
         "develop-stage.netflix.com";
         "release-stage.netflix.com";
         "www.netflix.com" ]%string).

Definition no_subject_alt_names : test :=
  let ee := no_subject_alternative_name_der in
  let? cert := result_unwrap (EndEntityCert_try_from ee) in
  let? names := result_unwrap (dns_names cert) in
  assert_eq (length names) 0%nat.

(** ** Algorithms that do not fit a key *)
Definition check_sig (ee : Input) (alg : SignatureVerificationAlgorithm)
    (message signature : Input)
    : outcome Empty_set (outcome Error unit) :=
  let? cert := result_unwrap (EndEntityCert_try_from ee) in
  Ok (EndEntityCert_verify_signature cert alg message signature).

(** The body of the loop of each test. *)
Definition rejected_by (ee : Input) (algorithm : SignatureVerificationAlgorithm) : test :=
  let? result := check_sig ee algorithm [] [] in
  assert_eq result (Err UnsupportedSignatureAlgorithmForPublicKey).

Definition ed25519_key_rejected_by_other_algorithms `{R : Ring} : test :=
  let ee := signatures_ed25519_ee_der in
  for_each
    [ ECDSA_P256_SHA256; ECDSA_P256_SHA384; ECDSA_P384_SHA256; ECDSA_P384_SHA384;
      RSA_PKCS1_2048_8192_SHA256; RSA_PKCS1_2048_8192_SHA384; RSA_PKCS1_2048_8192_SHA512;
      RSA_PKCS1_3072_8192_SHA384; RSA_PSS_2048_8192_SHA256_LEGACY_KEY;
      RSA_PSS_2048_8192_SHA384_LEGACY_KEY; RSA_PSS_2048_8192_SHA512_LEGACY_KEY ]
    (rejected_by ee).

Definition ecdsa_p256_key_rejected_by_other_algorithms `{R : Ring} : test :=
  let ee := signatures_ecdsa_p256_ee_der in
  for_each
    [ ECDSA_P384_SHA256; ECDSA_P384_SHA384; ED25519; RSA_PKCS1_2048_8192_SHA256;
      RSA_PKCS1_2048_8192_SHA384; RSA_PKCS1_2048_8192_SHA512; RSA_PKCS1_3072_8192_SHA384;
      RSA_PSS_2048_8192_SHA256_LEGACY_KEY; RSA_PSS_2048_8192_SHA384_LEGACY_KEY;
      RSA_PSS_2048_8192_SHA512_LEGACY_KEY ]
    (rejected_by ee).

Definition ecdsa_p384_key_rejected_by_other_algorithms `{R : Ring} : test :=
  let ee := signatures_ecdsa_p384_ee_der in
  for_each
    [ ECDSA_P256_SHA256; ECDSA_P256_SHA384; ED25519; RSA_PKCS1_2048_8192_SHA256;
      RSA_PKCS1_2048_8192_SHA384; RSA_PKCS1_2048_8192_SHA512; RSA_PKCS1_3072_8192_SHA384;
      RSA_PSS_2048_8192_SHA256_LEGACY_KEY; RSA_PSS_2048_8192_SHA384_LEGACY_KEY;
      RSA_PSS_2048_8192_SHA512_LEGACY_KEY ]
    (rejected_by ee).

Definition rsa_2048_key_rejected_by_other_algorithms `{R : Ring} : test :=
  let ee := signatures_rsa_2048_ee_der in
  for_each
    [ ECDSA_P256_SHA256; ECDSA_P256_SHA384; ECDSA_P384_SHA256; ECDSA_P384_SHA384; ED25519 ]
    (rejected_by ee).

Definition rsa_3072_key_rejected_by_other_algorithms `{R : Ring} : test :=
  let ee := signatures_rsa_3072_ee_der in
  for_each
    [ ECDSA_P256_SHA256; ECDSA_P256_SHA384; ECDSA_P384_SHA256; ECDSA_P384_SHA384; ED25519 ]
    (rejected_by ee).

Definition rsa_4096_key_rejected_by_other_algorithms `{R : Ring} : test :=
  let ee := signatures_rsa_4096_ee_der in
  for_each
    [ ECDSA_P256_SHA256; ECDSA_P256_SHA384; ECDSA_P384_SHA256; ECDSA_P384_SHA384; ED25519 ]
    (rejected_by ee).

(** ** The tests pass, for every ring that accepts the signatures *)
Lemma netflix_passes `{R : Ring} :
  agrees R
    [ chain_answer RN_RSA_PKCS1_2048_8192_SHA256 netflix_ca_der netflix_inter_der true;
      chain_answer RN_RSA_PKCS1_2048_8192_SHA256 netflix_inter_der netflix_ee_der true ] ->
  passes netflix.
Proof. by_record. Qed.

Lemma cloudflare_dns_passes `{R : Ring} :
  agrees R
    [ chain_answer RN_RSA_PKCS1_2048_8192_SHA384 cloudflare_ca_der cloudflare_inter_der true;
      chain_answer RN_ECDSA_P384_SHA384 cloudflare_inter_der cloudflare_ee_der true ] ->
  passes cloudflare_dns.
Proof. by_record. Qed.

Lemma ed25519_passes `{R : Ring} :
  agrees R
    [chain_answer RN_ED25519 ed25519_ca_der ed25519_ee_der true] ->
  passes ed25519.
Proof. by_record. Qed.

Lemma critical_extensions_passes `{R : Ring} :
  agrees R
    [ chain_answer RN_RSA_PKCS1_2048_8192_SHA256
        critical_root_cert_der
        critical_ca_cert_der true;
      chain_answer RN_RSA_PKCS1_2048_8192_SHA256
        critical_ca_cert_der
        critical_ee_cert_noncrit_unknown_ext_der true ] ->
  passes critical_extensions.
Proof. by_record. Qed.

Lemma read_ee_with_neg_serial_passes `{R : Ring} :
  agrees R
    [chain_answer RN_RSA_PKCS1_2048_8192_SHA256 serial_neg_ca_der serial_neg_ee_der true] ->
  passes read_ee_with_neg_serial.
Proof. by_record. Qed.

Lemma read_root_with_zero_serial_passes : passes read_root_with_zero_serial.
Proof. evaluate. Qed.

Lemma read_root_with_neg_serial_passes : passes read_root_with_neg_serial.
Proof. evaluate. Qed.

Lemma read_ee_with_large_pos_serial_passes : passes read_ee_with_large_pos_serial.
Proof. evaluate. Qed.

Lemma test_cert_v1_unsupported_passes : passes test_cert_v1_unsupported.
Proof. evaluate. Qed.

Lemma cert_without_extensions_test_passes : passes cert_without_extensions_test.
Proof. evaluate. Qed.

Lemma list_netflix_names_passes : passes list_netflix_names.
Proof. evaluate. Qed.

Lemma invalid_subject_alt_names_passes : passes invalid_subject_alt_names.
Proof. evaluate. Qed.

Lemma wildcard_subject_alternative_names_passes : passes wildcard_subject_alternative_names.
Proof. evaluate. Qed.

Lemma no_subject_alt_names_passes : passes no_subject_alt_names.
Proof. evaluate. Qed.

Lemma ed25519_key_rejected_by_other_algorithms_passes `{R : Ring} :
  passes ed25519_key_rejected_by_other_algorithms.
Proof. by_no_record. Qed.

Lemma ecdsa_p256_key_rejected_by_other_algorithms_passes `{R : Ring} :
  passes ecdsa_p256_key_rejected_by_other_algorithms.
Proof. by_no_record. Qed.

Lemma ecdsa_p384_key_rejected_by_other_algorithms_passes `{R : Ring} :
  passes ecdsa_p384_key_rejected_by_other_algorithms.
Proof. by_no_record. Qed.

Lemma rsa_2048_key_rejected_by_other_algorithms_passes `{R : Ring} :
  passes rsa_2048_key_rejected_by_other_algorithms.
Proof. by_no_record. Qed.

Lemma rsa_3072_key_rejected_by_other_algorithms_passes `{R : Ring} :
  passes rsa_3072_key_rejected_by_other_algorithms.
Proof. by_no_record. Qed.

Lemma rsa_4096_key_rejected_by_other_algorithms_passes `{R : Ring} :
  passes rsa_4096_key_rejected_by_other_algorithms.
Proof. by_no_record. Qed.
